(* ===== verification/_CoqProject ===== *)
-Q . S2P
Prelude.v
Text.v
Types.v
Maps.v
Samples.v
Ownership.v
Identity.v
Worker.v
Frames.v
Tasks.v
Events.v
Wire.v
Accessors.v
Lsm.v
Probes.v
Monotone.v
Compiler.v
Runtime.v
Contexts.v
Counting.v
Decision.v
Enforcement.v
Stacks.v
ThreadStack.v
ToolStack.v
TaskStack.v
Invariant.v
System.v
Session.v
Exit.v
ToolLife.v
Classify.v
Typed.v
Isolation.v
Confined.v
PolicyLoad.v
Net.v
Lpm.v
NetPolicy.v
Resolver.v
Fork.v
WorkerFlow.v
TaskFlow.v
Report.v
FrameStash.v
Cpython.v
PyObjects.v
PyResolve.v
Contract.v
Attach.v
Startup.v
Cli.v
Launch.v
PathResolve.v
NetReport.v
Device.v
RepoTests.v
