(* ===== verification/Prelude.v ===== *)
(** * IronScope: a verification development

    IronScope attributes what a Python agent does (files it opens, programs it
    executes, endpoints it connects to) to the tool the agent runs at that moment,
    audits it and, in enforce mode, refuses what the policy of the tool denies.
    BPF programs on the CPython evaluation loop, on [asyncio], on thread pools and on
    the scheduler keep track of which tool each thread runs; LSM programs decide; a
    user-space process compiles the policy, identifies tools by reading the memory of
    the agent, and reports.

    ** The program and its model

    The BPF side ([src/ironscope-ebpf/src], [src/ironscope-common/src]).  Its state is
    the set of BPF maps: the record [State] of [Maps], a finite map per hash map, a list
    per event ring.  A handler is a function in the monad [probeM]: it runs to completion
    in an environment [Env] (the clock, the processor, the registers and the memory of
    the traced thread, the kernel structures, which update of a full map fails, which
    entry an LRU map drops) and changes the state.  [?] is [try_bind], a bounded loop is
    [scan] with the loop bound of the source as fuel.

    - [Types], [Wire]: constants, keys, values and events, and their layout in memory,
      with the typeclass [Pod] of records that are exchanged as bytes ([types.rs]);
    - [Maps], [Accessors]: the maps, helpers, CO-RE accessors, the fixed-size buffer
      ([maps.rs], [co_re/mod.rs], [buffer.rs]);
    - [Ownership]: the stacks that tie a context to threads, tasks and frames, the
      reference count, identifiers, events ([ownership.rs], part of [lifecycle.rs]);
    - [Identity]: classification of code objects and extraction of the tool
      ([code_classifier.rs], [tool_identity.rs]);
    - [Worker], [Frames], [Tasks]: thread pools, evaluation loop, [asyncio], deallocation,
      fork, exec and exit ([worker_probes.rs], [frame_probes.rs], [task_probes.rs],
      [lifecycle.rs], [fork_probes.rs]);
    - [Events], [Lsm]: paths, guard events and the hooks ([path.rs], [utils.rs],
      [alloc.rs], [event_emit.rs], [lsm_hooks.rs]);
    - [Probes]: the attached programs and [reachable], the states that any sequence of
      their runs, in any environments, reaches ([ironscope-ebpf/src/main.rs]).

    User space ([src/ironscope/src]).

    - [Compiler]: policy schema, compilation of file, exec and network rules, hashing,
      loading of the maps ([config.rs], [compiler.rs], [rules.rs], [main.rs]);
    - [Runtime]: the event loop, resolution of tools, the report ([main.rs],
      [python_runtime/langchain.rs], [resolver.rs], [final_state.rs]);
    - [Cpython]: reading strings, dictionaries and attributes of a CPython 3.12 process
      ([python_runtime/cpython.rs], [cpython_312.rs], [process_reader.rs]);
    - [Contract], [Attach]: detection of the interpreter, selection and validation of a
      contract, offsets and attachment points ([python_symbols.rs], [main.rs]);
    - [Cli]: the [profile] commands, the start of the runtime up to its event loop, its end
      ([main.rs]); what the host answers is the record [Host].

    [Prelude] and [Text] hold what they share: machine integers, the monad with its
    preservation class and symbolic execution, lists, UTF-8 and UTF-16.  [Samples] holds
    the concrete environments and states on which theorems are instantiated.

    ** The theorems

    - Decisions.  [Decision]: the three hooks return what the abstract policy [denies]
      says of the subject and the matching rule, on every branch.  [Enforcement]: only an
      enforcing configuration refuses; a decision is audited when there is room in the
      ring and, for a file, its path can be rebuilt.  [PolicyLoad], [Net],
      [Lpm], [NetPolicy], [Device]: from the text of the policy file to the answer of the
      hook, in every state that programs and event loop reach later, the policy being
      loaded insertion by insertion under programs that already run ([loading]); the trie
      of the kernel is a parameter, its documented lookup is [longest_match].
    - Contexts.  [Contexts], [Counting]: reference counts and identifiers.  [Stacks],
      [ThreadStack], [ToolStack], [TaskStack], [FrameStash]: the stacks encoded in maps
      refine lists.  [Invariant], [System]: these encodings are well-formed in every
      reachable state.  [Typed]: so are the records the two sides share, and a context
      is marked resolved exactly when it names a tool.  [ToolLife]: a tool invocation is
      a bracket.  [WorkerFlow], [TaskFlow], [Fork], [Exit]: the context follows work
      items, thread objects, tasks and children to the threads that run them, and back;
      what the exit of a thread clears, and the stack of tool frames that it does not.
      [Monotone]: no program changes the policy, logs only grow.
    - Processes.  [Isolation]: what is recorded for a process and one of its threads
      changes only in runs for that process (evictions apart, and forks that create the
      thread or a thread of the process); the saved frames are left out, whose packed
      keys can overlap between threads.  [Confined]: the same of the contexts, which the
      maps share: one that a process allocated is held for this process and its
      descendants only, and the programs of others leave its record alone.
    - Identity.  [Classify]: kernel and user space hash names alike.  [PyObjects],
      [PyResolve]: what the memory reader returns on objects as CPython lays them out.
      [Resolver]: an answer reaches the kernel programs; a failure fails closed; the
      two system calls of the write-back race with the kernel.
    - The running system.  [Session]: the BPF programs and the event loop of user space
      as actions in any order; the invariants hold throughout, the report is what was
      read from the rings, every event is read unless a ring is never found empty (then
      those after it starve), the loop ends when it is told to, after the records that are
      still logged, and what was not read by then is lost.
    - Start-up and report.  [Startup]: a selected contract matches the interpreter, as far as
      the code compares them, and is verified; which offsets are attached unattested;
      offsets agree; no program is attached twice.  [Launch]: what a successful
      start guarantees, no policy is enforced in part, [profile validate] checks what a
      start checks.  [Report], [PathResolve], [NetReport]: what the report says of events,
      paths and endpoints.  [Wire]: records are read back from their bytes, keys are
      compared as records.
    - Tests.  [RepoTests]: the unit tests of the repository, evaluated on the definitions.

    ** Bounds

    The fuel of every loop is the bound in the source (8 stacked contexts, tool
    frames and chained worker frames, 32 local slots, 64 hashed bytes, 128 path
    components, 4096 dictionary entries), so that running out
    of it is the behaviour of the code; string functions of the standard library take the
    length of their argument, of which each round consumes a part.  [u8], [u16], [u32] and
    [u64] write out the wrap-around of the release profile.  A Python address is assumed
    below 2^56 where the layout of an object is described ([user_ptr]).  [reliable] states
    that no update fails and nothing is evicted; theorems that need it say so.

    ** Not modelled

    Interleaving inside one program run: BPF programs are atomic steps, and so is the
    handling of one record by the event loop, but for the write-back of an answer, whose
    two system calls [Resolver] takes apart.  Loading and
    verification of the BPF object, logging, argument parsing, the creation of the ready
    file and signal handling ([main.rs]); YAML, JSON and ELF parsing, name resolution, the
    run of [sha256sum] and of the target's interpreter, which are parameters;
    the C shim behind the CO-RE accessors ([co_re/gen.rs], [shim.c]), part of [Env];
    build scripts and tests.  Instance attributes that
    CPython keeps inline, before a dictionary is made, are outside [py_instance]. *)

From stdpp Require Import base list gmap strings option.
From Stdlib Require Import ZArith Lia.

#[export] Set Default Goal Selector "!".
#[global] Open Scope Z_scope.

(** ** Machine integers

    A [w]-bit unsigned integer is a [Z]; every operation of the source that can
    leave the width is followed by the truncation to it.  The BPF object is
    built in the release profile, where [+], [-] and [<<] wrap. *)

Definition u8 (x : Z) : Z := x `mod` 2 ^ 8.
Definition u16 (x : Z) : Z := x `mod` 2 ^ 16.
Definition u32 (x : Z) : Z := x `mod` 2 ^ 32.
Definition u64 (x : Z) : Z := x `mod` 2 ^ 64.

Declare Scope word_scope.
Delimit Scope word_scope with word.
(** Wrapping [u64] addition, multiplication and left shift. *)
Notation "x ⊞ y" := (u64 (x + y)) (at level 50, left associativity) : word_scope.
Notation "x ⊠ y" := (u64 (x * y)) (at level 40, left associativity) : word_scope.
Notation "x ≪₆₄ n" := (u64 (Z.shiftl x n)) (at level 35, n at next level, no associativity) : word_scope.
#[global] Open Scope word_scope.

Definition in_u32 (x : Z) : Prop := 0 ≤ x < 2 ^ 32.
Definition in_u64 (x : Z) : Prop := 0 ≤ x < 2 ^ 64.

(** Flag tests of the source, [flags & mask != 0]. *)
Definition has_flag (flags mask : Z) : bool := negb (Z.land flags mask =? 0).

Lemma u8_range x : 0 ≤ u8 x < 2 ^ 8.
Proof. apply Z.mod_pos_bound. lia. Qed.
Lemma u32_range x : in_u32 (u32 x).
Proof. apply Z.mod_pos_bound. lia. Qed.
Lemma u64_range x : in_u64 (u64 x).
Proof. apply Z.mod_pos_bound. lia. Qed.
Lemma u8_small x : 0 ≤ x < 2 ^ 8 → u8 x = x.
Proof. apply Z.mod_small. Qed.
Lemma u32_small x : in_u32 x → u32 x = x.
Proof. apply Z.mod_small. Qed.
Lemma u64_small x : in_u64 x → u64 x = x.
Proof. apply Z.mod_small. Qed.

(** A shifted high part and a low part below the shift do not interfere: the
    [(tid << n) | depth] keys of the BPF stacks are a pairing function. *)
Lemma land_shiftl_low hi lo n :
  0 ≤ n → 0 ≤ lo < 2 ^ n → Z.land (Z.shiftl hi n) lo = 0.
Proof.
  intros Hn Hlo. apply Z.bits_inj'. intros i Hi.
  rewrite Z.land_spec, Z.bits_0, Z.shiftl_spec by done.
  destruct (decide (i < n)).
  - by rewrite Z.testbit_neg_r by lia.
  - destruct (decide (lo = 0)) as [->|]; [by rewrite Z.bits_0, andb_false_r|].
    rewrite (Z.bits_above_log2 lo i); [by rewrite andb_false_r|lia|].
    apply Z.log2_lt_pow2; [lia|].
    apply Z.lt_le_trans with (2 ^ n); [lia|]. apply Z.pow_le_mono_r; lia.
Qed.

Lemma lor_shiftl_add hi lo n :
  0 ≤ n → 0 ≤ lo < 2 ^ n → Z.lor (Z.shiftl hi n) lo = hi * 2 ^ n + lo.
Proof.
  intros Hn Hlo. pose proof (Z.add_lor_land (Z.shiftl hi n) lo) as H.
  rewrite land_shiftl_low in H by done. rewrite Z.shiftl_mul_pow2 in * by lia. lia.
Qed.

(** The packed key [(hi << n) | lo] as the source computes it in [u64]. *)
Definition pack (hi n lo : Z) : Z := Z.lor (hi ≪₆₄ n) lo.

Lemma pack_add hi n lo :
  in_u32 hi → 0 ≤ n ≤ 32 → 0 ≤ lo < 2 ^ n → pack hi n lo = hi * 2 ^ n + lo.
Proof.
  intros Hhi Hn Hlo. unfold pack, in_u32 in *.
  rewrite u64_small; [by apply lor_shiftl_add; lia|].
  unfold in_u64. rewrite Z.shiftl_mul_pow2 by lia.
  assert (2 ^ n ≤ 2 ^ 32) by (apply Z.pow_le_mono_r; lia).
  assert (0 < 2 ^ n) by (apply Z.pow_pos_nonneg; lia).
  replace (2 ^ 64) with (2 ^ 32 * 2 ^ 32) by reflexivity. nia.
Qed.

Lemma pack_inj hi hi' n lo lo' :
  in_u32 hi → in_u32 hi' → 0 ≤ n ≤ 32 → 0 ≤ lo < 2 ^ n → 0 ≤ lo' < 2 ^ n →
  pack hi n lo = pack hi' n lo' → hi = hi' ∧ lo = lo'.
Proof.
  intros Hhi Hhi' Hn Hlo Hlo'. rewrite !pack_add by done. intros E.
  assert (hi = hi') as -> by nia. lia.
Qed.

(** ** Results

    [Result<A, i64>] of the probe handlers. *)
Inductive result (A : Type) : Type :=
| Ok (a : A)
| Err (code : Z).
Arguments Ok {A} a.
Arguments Err {A} code.

#[global] Instance result_ret : MRet result := λ A a, Ok a.
(** Rust's [?] in a function without effects. *)
#[global] Instance result_bind : MBind result :=
  λ A B k r, match r with Ok a => k a | Err c => Err c end.

(** [Option::ok_or] and [Option::context]. *)
Definition ok_or {A} (o : option A) : result A :=
  match o with Some a => Ok a | None => Err 0 end.
Definition bail_if (b : bool) : result unit := if b then Err 0 else Ok tt.

Definition is_ok {A} (r : result A) : bool :=
  match r with Ok _ => true | Err _ => false end.

(** [r.unwrap_or(d)] and [o.unwrap_or(d)]. *)
Definition unwrap_or {A} (o : option A) (d : A) : A :=
  match o with Some a => a | None => d end.

(** ** The probe monad

    A handler runs to completion in a context of type [E] (what the kernel and
    the traced process supply to this one invocation) over a state of type [S]
    (the BPF maps). *)
Definition probeM (E S A : Type) : Type := E → S → A * S.

#[global] Instance probeM_ret {E S} : MRet (probeM E S) := λ A a _ σ, (a, σ).
#[global] Instance probeM_bind {E S} : MBind (probeM E S) :=
  λ A B k m e σ, let r := m e σ in k r.1 e r.2.

(** Rust's [?] on a [Result]: stop with the error or go on with the value. *)
Definition try_bind {E S A B} (m : probeM E S (result A))
    (k : A → probeM E S (result B)) : probeM E S (result B) :=
  r ← m; match r with Ok a => k a | Err c => mret (Err c) end.

Notation "x ←? m ; k" := (try_bind m (λ x, k))
  (at level 20, m at level 100, k at level 200, only parsing) : stdpp_scope.
Notation "m ;;? k" := (try_bind m (λ _, k))
  (at level 100, k at level 200, only parsing) : stdpp_scope.

Definition when {E S} (b : bool) (m : probeM E S unit) : probeM E S unit :=
  if b then m else mret tt.

(** [while i < fuel { if i >= depth { break } ... i += 1 }], the shape of every
    bounded loop of the BPF programs: [body i] returns [Some] to leave the loop.
    The fuel is the literal loop bound of the source. *)
Fixpoint scan {E S A} (fuel : nat) (i depth : Z) (body : Z → probeM E S (option A))
    : probeM E S (option A) :=
  match fuel with
  | O => mret None
  | Datatypes.S fuel' =>
      if i >=? depth then mret None
      else r ← body i;
           match r with
           | Some a => mret (Some a)
           | None => scan fuel' (i + 1) depth body
           end
  end.

(** ** Preservation of an invariant

    [Preserves G I m]: in every context that satisfies [G], [m] maps a state of
    [I] to a state of [I].  Instances compose along the monad, so that a
    handler's preservation follows from that of the operations it calls. *)
Class Preserves {E S A} (G : E → Prop) (I : S → Prop) (m : probeM E S A) : Prop :=
  preserves : ∀ e σ, G e → I σ → I (m e σ).2.

Section preserves.
Context {E S : Type} (G : E → Prop) (I : S → Prop).

#[global] Instance preserves_ret A (a : A) : Preserves G I (mret a : probeM E S A).
Proof. by intros e σ _ H. Qed.

#[global] Instance preserves_bind A B (m : probeM E S A) (k : A → probeM E S B) :
  Preserves G I m → (∀ a, Preserves G I (k a)) → Preserves G I (m ≫= k).
Proof. intros Hm Hk e σ He H. by apply Hk, Hm. Qed.

#[global] Instance preserves_when b (m : probeM E S unit) :
  Preserves G I m → Preserves G I (when b m).
Proof. intros Hm. destruct b; [done|]. apply _. Qed.

#[global] Instance preserves_try A B (m : probeM E S (result A))
    (k : A → probeM E S (result B)) :
  Preserves G I m → (∀ a, Preserves G I (k a)) → Preserves G I (try_bind m k).
Proof.
  intros Hm Hk. unfold try_bind. apply preserves_bind; [done|].
  intros [a|c]; [apply Hk|apply _].
Qed.

#[global] Instance preserves_scan A fuel i depth (body : Z → probeM E S (option A)) :
  (∀ j, Preserves G I (body j)) → Preserves G I (scan fuel i depth body).
Proof.
  intros Hb. revert i. induction fuel as [|fuel IH]; intros i; cbn; [apply _|].
  destruct (i >=? depth); [apply _|]. apply preserves_bind; [apply Hb|].
  intros [a|]; [apply _|apply IH].
Qed.
End preserves.

(** [preserve] follows the control flow of a handler: it splits on the
    conditionals and matches and closes the leaves by instance search. *)
Ltac preserve_step :=
  lazymatch goal with
  | |- Preserves _ _ (if ?b then _ else _) => destruct b
  | |- Preserves _ _ (match ?x with _ => _ end) => destruct x
  | |- Preserves _ _ (let x := ?b in @?k x) =>
      let t := eval cbv beta in (k b) in
      lazymatch goal with |- Preserves ?G ?I _ => change (Preserves G I t) end
  | |- Preserves _ _ (_ ≫= _) => apply preserves_bind
  | |- Preserves _ _ (try_bind _ _) => apply preserves_try
  | |- Preserves _ _ (when _ _) => apply preserves_when
  | |- Preserves _ _ (scan _ _ _ _) => apply preserves_scan
  | |- Preserves _ _ (mret _) => apply preserves_ret
  | |- Preserves _ _ (mbind _ _) => apply preserves_bind
  | |- ∀ _, _ => intros ?
  | |- Preserves _ _ _ => solve [apply _ | typeclasses eauto with typeclass_instances preserve_db]
  end.
Create HintDb preserve_db.
Ltac preserve := repeat (cbv beta; preserve_step).

(** ** Running a handler

    [m e σ = (a, σ')] is the judgement "in context [e], [m] takes [σ] to [σ'] and
    returns [a]".  [mrun] executes a handler step by step: the database [mrun]
    holds the judgements of the primitive operations and of the operations
    already specified. *)
Create HintDb mrun.

Section running.
Context {E S : Type}.

Lemma bind_run A B (m : probeM E S A) (k : A → probeM E S B) e σ a σ' :
  m e σ = (a, σ') → mbind k m e σ = k a e σ'.
Proof. unfold mbind, probeM_bind. by intros ->. Qed.

Lemma ret_run A (a : A) (e : E) (σ : S) : (mret a : probeM E S A) e σ = (a, σ).
Proof. done. Qed.

Lemma try_run A B (m : probeM E S (result A)) (k : A → probeM E S (result B)) e σ r σ' :
  m e σ = (r, σ') →
  try_bind m k e σ = match r with Ok a => k a e σ' | Err c => (Err c, σ') end.
Proof. unfold try_bind. intros H. rewrite (bind_run _ _ _ _ _ _ _ _ H). by destruct r. Qed.

Lemma when_run b (m : probeM E S unit) e σ :
  when b m e σ = if b then m e σ else (tt, σ).
Proof. by destruct b. Qed.

Lemma if_run A (b : bool) (m n : probeM E S A) e σ :
  (if b then m else n) e σ = if b then m e σ else n e σ.
Proof. by destruct b. Qed.

(** A loop that runs to its end, with an invariant indexed by the iteration. *)
Lemma scan_inv {A} (P : nat → S → Prop) (body : Z → probeM E S (option A)) e σ fuel depth :
  0 ≤ depth ≤ Z.of_nat fuel →
  (∀ i σ, Z.of_nat i < depth → P i σ →
    (body (Z.of_nat i) e σ).1 = None ∧ P (Datatypes.S i) (body (Z.of_nat i) e σ).2) →
  P 0%nat σ →
  (scan fuel 0 depth body e σ).1 = None ∧ P (Z.to_nat depth) (scan fuel 0 depth body e σ).2.
Proof.
  intros Hd Hb.
  cut (∀ fuel i σ, Z.of_nat i ≤ depth ≤ Z.of_nat (i + fuel) → P i σ →
    (scan fuel (Z.of_nat i) depth body e σ).1 = None
    ∧ P (Z.to_nat depth) (scan fuel (Z.of_nat i) depth body e σ).2).
  { intros H. apply (H fuel 0%nat). lia. }
  clear fuel σ Hd. induction fuel as [|fuel IH]; intros i σ Hi HP; cbn [scan].
  { replace (Z.to_nat depth) with i by lia. done. }
  destruct (Z.geb_spec (Z.of_nat i) depth).
  { replace (Z.to_nat depth) with i by lia. done. }
  destruct (Hb i σ) as [Hn HP']; [lia|done|]. unfold mbind, probeM_bind. rewrite Hn.
  replace (Z.of_nat i + 1) with (Z.of_nat (Datatypes.S i)) by lia. apply IH; [lia|done].
Qed.

(** A loop whose body does not change the state, over the elements of a list. *)
Fixpoint first_some {A B} (f : nat → A → option B) (i : nat) (l : list A) : option B :=
  match l with
  | [] => None
  | x :: l => match f i x with Some b => Some b | None => first_some f (Datatypes.S i) l end
  end.

Lemma scan_list {A B} (f : nat → A → option B) (l : list A)
    (body : Z → probeM E S (option B)) e σ fuel :
  (length l ≤ fuel)%nat →
  (∀ i x, l !! i = Some x → body (Z.of_nat i) e σ = (f i x, σ)) →
  scan fuel 0 (Z.of_nat (length l)) body e σ = (first_some f 0 l, σ).
Proof.
  intros Hf Hb.
  cut (∀ fuel i, (length l ≤ i + fuel)%nat →
    scan fuel (Z.of_nat i) (Z.of_nat (length l)) body e σ = (first_some f i (drop i l), σ)).
  { intros H. specialize (H fuel 0%nat Hf). by rewrite drop_0 in H. }
  clear fuel Hf. induction fuel as [|fuel IH]; intros i Hf; cbn [scan].
  { by rewrite drop_ge by lia. }
  destruct (Z.geb_spec (Z.of_nat i) (Z.of_nat (length l))) as [Hge|Hlt].
  { by rewrite drop_ge by lia. }
  destruct (lookup_lt_is_Some_2 l i) as [v Hv]; [lia|].
  erewrite bind_run by by apply Hb. rewrite (drop_S _ _ _ Hv). cbn.
  destruct (f i v); [done|]. replace (Z.of_nat i + 1) with (Z.of_nat (Datatypes.S i)) by lia.
  by rewrite IH by lia.
Qed.
End running.

Lemma first_some_existsb {A} (p : A → bool) (f : nat → A → option unit) i l :
  (∀ i x, f i x = if p x then Some tt else None) →
  bool_decide (is_Some (first_some f i l)) = existsb p l.
Proof.
  intros Hf. revert i. induction l as [|x l IH]; intros i; cbn; [done|].
  rewrite Hf. destruct (p x); cbn; [done|apply IH].
Qed.

#[export] Hint Extern 0 ((mret _ : probeM _ _ _) _ _ = _) => apply ret_run : mrun.

(** One step: the first operation of a [bind] is run by the database. *)
Ltac mstep :=
  cbv beta zeta;
  lazymatch goal with
  | |- context [mbind ?k ?m ?e ?σ] =>
      erewrite (bind_run _ _ m k e σ) by (solve [eauto 3 with mrun nocore])
  | |- context [try_bind ?m ?k ?e ?σ] =>
      erewrite (try_run _ _ m k e σ) by (solve [eauto 3 with mrun nocore])
  | |- context [when ?b ?m ?e ?σ] => rewrite (when_run b m e σ)
  | |- context [mret ?a ?e ?σ] => rewrite (ret_run _ a e σ)
  end.
Ltac mrun := repeat mstep; cbv beta zeta.

(** ** Lists *)

(** The first position whose element satisfies [p]. *)
Fixpoint find_pos {A} (p : A → bool) (l : list A) : option nat :=
  match l with
  | [] => None
  | x :: l => if p x then Some 0%nat else Datatypes.S <$> find_pos p l
  end.

Lemma find_pos_Some {A} (p : A → bool) l n :
  find_pos p l = Some n →
  ∃ x, l !! n = Some x ∧ p x = true ∧ ∀ m y, (m < n)%nat → l !! m = Some y → p y = false.
Proof.
  revert n. induction l as [|x l IH]; intros n; cbn; [done|].
  destruct (p x) eqn:Hx.
  - intros [= <-]. exists x. split_and!; [done..|lia].
  - destruct (find_pos p l) as [k|]; [|done]. intros [= <-].
    destruct (IH k eq_refl) as (y & Hy & Hpy & Hmin). exists y. split_and!; [done..|].
    intros [|m] z Hm Hz; cbn in *; [by simplify_eq|]. eapply Hmin; [|done]. lia.
Qed.

Lemma find_pos_None {A} (p : A → bool) l x :
  find_pos p l = None → x ∈ l → p x = false.
Proof.
  intros Hf Hx. induction l as [|y l IH]; cbn in *; [by inversion Hx|].
  destruct (p y) eqn:Hy; [done|]. destruct (find_pos p l); [done|].
  apply elem_of_cons in Hx as [->|Hx]; [done|]. by apply IH.
Qed.

Lemma find_pos_eq (c : Z) l :
  c ∈ l → ∃ n, find_pos (λ c', c' =? c) l = Some n ∧ l !! n = Some c ∧ c ∉ take n l.
Proof.
  intros Hc. destruct (find_pos (λ c', c' =? c) l) as [n|] eqn:Hn; last first.
  { apply (find_pos_None _ _ c) in Hn; [|done]. cbv beta in Hn. by rewrite Z.eqb_refl in Hn. }
  exists n. destruct (find_pos_Some _ _ _ Hn) as (x & Hx & Hxc%Z.eqb_eq & Hmin). subst x.
  split_and!; [done..|]. intros (m & Hm)%list_elem_of_lookup.
  apply lookup_take_Some in Hm as [Hm Hmn]. specialize (Hmin m c Hmn Hm). cbv beta in Hmin.
  by rewrite Z.eqb_refl in Hmin.
Qed.

Lemma find_pos_lt {A} (p : A → bool) l n : find_pos p l = Some n → (n < length l)%nat.
Proof.
  intros (x & Hx & _)%find_pos_Some. by eapply lookup_lt_Some.
Qed.

(** Little-endian decoding, the byte order of the BPF target ([bpfel]). *)
Fixpoint le_decode (bs : list Z) : Z :=
  match bs with
  | [] => 0
  | b :: bs => b + 256 * le_decode bs
  end.
(** Its inverse on [n] bytes. *)
Fixpoint le_bytes (n : nat) (x : Z) : list Z :=
  match n with O => [] | S n => x `mod` 256 :: le_bytes n (x / 256) end.

Definition octet (x : Z) : Prop := 0 ≤ x < 256.

Lemma le_bytes_decode l : Forall octet l → le_bytes (length l) (le_decode l) = l.
Proof.
  unfold octet. induction 1 as [|b l Hb Hl IH]; [done|]. cbn [length le_decode le_bytes].
  assert ((b + 256 * le_decode l) `mod` 256 = b) as -> by
    (symmetry; apply Z.mod_unique with (le_decode l); lia).
  assert ((b + 256 * le_decode l) / 256 = le_decode l) as -> by
    (symmetry; apply Z.div_unique with b; lia).
  by rewrite IH.
Qed.

Lemma le_bytes_octets n x : Forall octet (le_bytes n x) ∧ length (le_bytes n x) = n.
Proof.
  revert x. induction n as [|n IH]; intros x; [done|]. cbn. destruct (IH (x / 256)) as [? ->].
  split; [|done]. constructor; [|done]. unfold octet. pose proof (Z.mod_pos_bound x 256). lia.
Qed.

Lemma le_decode_bytes n x : 0 ≤ x < 256 ^ Z.of_nat n → le_decode (le_bytes n x) = x.
Proof.
  revert x. induction n as [|n IH]; intros x Hx; [cbn in *; lia|].
  rewrite Nat2Z.inj_succ, Z.pow_succ_r in Hx by lia. cbn [le_bytes le_decode].
  pose proof (Z.div_mod x 256). rewrite IH; [lia|]. split; [apply Z.div_pos; lia|].
  apply Z.div_lt_upper_bound; lia.
Qed.

(** The bytes of a string. *)
Fixpoint bytes_of_string (s : string) : list Z :=
  match s with
  | EmptyString => []
  | String c s => Z.of_nat (Ascii.nat_of_ascii c) :: bytes_of_string s
  end.
