(* ===== verification/Text.v ===== *)
(** * Text: what the source uses of Rust's [String]

    A [String] is the list of its bytes, which are the UTF-8 encoding of its
    characters.  The constructors of the standard library that the resolver calls
    ([String::from_utf8], [String::from_utf16], [char::from_u32]) check that. *)

From stdpp Require Import base list.
From S2P Require Import Prelude.

(** ** Characters *)

(** [char::from_u32]: a code point that is not a surrogate. *)
Definition is_char (c : Z) : bool :=
  (0 <=? c) && (c <? 0xD800) || (0xE000 <=? c) && (c <? 0x110000).

(** [String::push]. *)
Definition encode_utf8 (c : Z) : list Z :=
  if c <? 0x80 then [c]
  else if c <? 0x800 then [0xC0 + c / 64; 0x80 + c `mod` 64]
  else if c <? 0x10000 then
    [0xE0 + c / 4096; 0x80 + (c / 64) `mod` 64; 0x80 + c `mod` 64]
  else
    [0xF0 + c / 262144; 0x80 + (c / 4096) `mod` 64; 0x80 + (c / 64) `mod` 64; 0x80 + c `mod` 64].

Definition string_of_chars (cs : list Z) : list Z := cs ≫= encode_utf8.

(** ** UTF-8 *)

Definition between (lo hi b : Z) : bool := (lo <=? b) && (b <=? hi).

(** The well-formed byte sequences, without overlong forms and surrogates. *)
Fixpoint decode_utf8 (bs : list Z) : option (list Z) :=
  match bs with
  | [] => Some []
  | b0 :: t0 =>
      if between 0 0x7F b0 then cons b0 <$> decode_utf8 t0
      else match t0 with
      | [] => None
      | b1 :: t1 =>
          if between 0xC2 0xDF b0 && between 0x80 0xBF b1 then
            cons ((b0 - 0xC0) * 64 + (b1 - 0x80)) <$> decode_utf8 t1
          else match t1 with
          | [] => None
          | b2 :: t2 =>
              if between 0xE0 0xEF b0
                 && between (if b0 =? 0xE0 then 0xA0 else 0x80) (if b0 =? 0xED then 0x9F else 0xBF) b1
                 && between 0x80 0xBF b2 then
                cons ((b0 - 0xE0) * 4096 + (b1 - 0x80) * 64 + (b2 - 0x80)) <$> decode_utf8 t2
              else match t2 with
              | [] => None
              | b3 :: t3 =>
                  if between 0xF0 0xF4 b0
                     && between (if b0 =? 0xF0 then 0x90 else 0x80) (if b0 =? 0xF4 then 0x8F else 0xBF) b1
                     && between 0x80 0xBF b2 && between 0x80 0xBF b3 then
                    cons ((b0 - 0xF0) * 262144 + (b1 - 0x80) * 4096 + (b2 - 0x80) * 64 + (b3 - 0x80))
                      <$> decode_utf8 t3
                  else None
              end
          end
      end
  end.

(** [String::from_utf8] keeps the bytes. *)
Definition from_utf8 (bs : list Z) : result (list Z) :=
  match decode_utf8 bs with Some _ => Ok bs | None => Err 0 end.

(** [String::from_utf8_lossy]: every ill-formed sequence, as long as it could have
    begun a character, becomes U+FFFD. *)
Definition REPLACEMENT : list Z := [0xEF; 0xBF; 0xBD].

Fixpoint from_utf8_lossy (bs : list Z) : list Z :=
  match bs with
  | [] => []
  | b0 :: t0 =>
      if between 0 0x7F b0 then b0 :: from_utf8_lossy t0
      else if between 0xC2 0xDF b0 then
        match t0 with
        | b1 :: t1 =>
            if between 0x80 0xBF b1 then b0 :: b1 :: from_utf8_lossy t1
            else REPLACEMENT ++ from_utf8_lossy t0
        | [] => REPLACEMENT
        end
      else if between 0xE0 0xEF b0 then
        match t0 with
        | b1 :: t1 =>
            if between (if b0 =? 0xE0 then 0xA0 else 0x80) (if b0 =? 0xED then 0x9F else 0xBF) b1 then
              match t1 with
              | b2 :: t2 =>
                  if between 0x80 0xBF b2 then b0 :: b1 :: b2 :: from_utf8_lossy t2
                  else REPLACEMENT ++ from_utf8_lossy t1
              | [] => REPLACEMENT
              end
            else REPLACEMENT ++ from_utf8_lossy t0
        | [] => REPLACEMENT
        end
      else if between 0xF0 0xF4 b0 then
        match t0 with
        | b1 :: t1 =>
            if between (if b0 =? 0xF0 then 0x90 else 0x80) (if b0 =? 0xF4 then 0x8F else 0xBF) b1 then
              match t1 with
              | b2 :: t2 =>
                  if between 0x80 0xBF b2 then
                    match t2 with
                    | b3 :: t3 =>
                        if between 0x80 0xBF b3 then b0 :: b1 :: b2 :: b3 :: from_utf8_lossy t3
                        else REPLACEMENT ++ from_utf8_lossy t2
                    | [] => REPLACEMENT
                    end
                  else REPLACEMENT ++ from_utf8_lossy t1
              | [] => REPLACEMENT
              end
            else REPLACEMENT ++ from_utf8_lossy t0
        | [] => REPLACEMENT
        end
      else REPLACEMENT ++ from_utf8_lossy t0
  end.

(** ** UTF-16 *)

Fixpoint decode_utf16 (us : list Z) : option (list Z) :=
  match us with
  | [] => Some []
  | u :: us =>
      if is_char u then cons u <$> decode_utf16 us
      else if between 0xD800 0xDBFF u then
        match us with
        | v :: us =>
            if between 0xDC00 0xDFFF v then
              cons (0x10000 + (u - 0xD800) * 1024 + (v - 0xDC00)) <$> decode_utf16 us
            else None
        | [] => None
        end
      else None
  end.

Definition from_utf16 (us : list Z) : result (list Z) :=
  match decode_utf16 us with Some cs => Ok (string_of_chars cs) | None => Err 0 end.

(** ** Slices *)

(** [chunks_exact(n)]; every chunk takes a byte, so that the length is fuel. *)
Fixpoint chunks_fuel (fuel n : nat) (bs : list Z) : list (list Z) :=
  match fuel with
  | O => []
  | S fuel =>
      if (length bs <? n)%nat then [] else take n bs :: chunks_fuel fuel n (drop n bs)
  end.
Definition chunks_exact (n : nat) (bs : list Z) : list (list Z) := chunks_fuel (length bs) n bs.

(** The bytes before the first NUL. *)
Fixpoint until_nul (bs : list Z) : list Z :=
  match bs with [] => [] | b :: bs => if b =? 0 then [] else b :: until_nul bs end.

(** ** Laws *)

Lemma is_char_spec c : is_char c = true ↔ 0 ≤ c < 0xD800 ∨ 0xE000 ≤ c < 0x110000.
Proof. unfold is_char. lia. Qed.

(** A condition on ranges of bytes is decided by arithmetic. *)
Ltac decide_between b :=
  lazymatch goal with
  | |- context [if ?c then _ else _] =>
      replace c with b by (symmetry; unfold between; repeat case_match; lia)
  end; cbn [negb].

Lemma decode_encode c s :
  is_char c = true → decode_utf8 (encode_utf8 c ++ s) = cons c <$> decode_utf8 s.
Proof.
  rewrite is_char_spec. intros Hc. unfold encode_utf8.
  pose proof (Z.div_mod c 64 ltac:(lia)). pose proof (Z.mod_pos_bound c 64 ltac:(lia)).
  pose proof (Z.div_mod (c / 64) 64 ltac:(lia)). pose proof (Z.mod_pos_bound (c / 64) 64 ltac:(lia)).
  pose proof (Z.div_mod (c / 4096) 64 ltac:(lia)).
  pose proof (Z.mod_pos_bound (c / 4096) 64 ltac:(lia)).
  assert (c / 64 / 64 = c / 4096) by (rewrite Z.div_div by lia; done).
  assert (c / 4096 / 64 = c / 262144) by (rewrite Z.div_div by lia; done).
  destruct (Z.ltb_spec c 0x80); [|destruct (Z.ltb_spec c 0x800); [|destruct (Z.ltb_spec c 0x10000)]];
    cbn [app decode_utf8].
  - decide_between true. done.
  - decide_between false. decide_between true. do 2 f_equal. lia.
  - decide_between false. decide_between false. decide_between true. do 2 f_equal. lia.
  - decide_between false. decide_between false. decide_between false. decide_between true.
    do 2 f_equal. lia.
Qed.

Lemma decode_string cs :
  Forall (λ c, is_char c = true) cs → decode_utf8 (string_of_chars cs) = Some cs.
Proof.
  induction 1 as [|c cs Hc _ IH]; [done|]. cbn. rewrite decode_encode by done.
  change (cs ≫= encode_utf8) with (string_of_chars cs). by rewrite IH.
Qed.

Lemma from_utf8_chars cs :
  Forall (λ c, is_char c = true) cs → from_utf8 (string_of_chars cs) = Ok (string_of_chars cs).
Proof. intros H. unfold from_utf8. by rewrite decode_string. Qed.

(** Different texts have different encodings. *)
Lemma string_of_chars_inj cs cs' :
  Forall (λ c, is_char c = true) cs → Forall (λ c, is_char c = true) cs' →
  string_of_chars cs = string_of_chars cs' → cs = cs'.
Proof. intros H H' E. apply decode_string in H, H'. congruence. Qed.

(** A character encoded is kept, so that well-formed text is. *)
Lemma lossy_encode c s :
  is_char c = true → from_utf8_lossy (encode_utf8 c ++ s) = encode_utf8 c ++ from_utf8_lossy s.
Proof.
  rewrite is_char_spec. intros Hc. unfold encode_utf8.
  pose proof (Z.div_mod c 64 ltac:(lia)). pose proof (Z.mod_pos_bound c 64 ltac:(lia)).
  pose proof (Z.div_mod (c / 64) 64 ltac:(lia)). pose proof (Z.mod_pos_bound (c / 64) 64 ltac:(lia)).
  pose proof (Z.div_mod (c / 4096) 64 ltac:(lia)).
  pose proof (Z.mod_pos_bound (c / 4096) 64 ltac:(lia)).
  assert (c / 64 / 64 = c / 4096) by (rewrite Z.div_div by lia; done).
  assert (c / 4096 / 64 = c / 262144) by (rewrite Z.div_div by lia; done).
  destruct (Z.ltb_spec c 0x80); [|destruct (Z.ltb_spec c 0x800); [|destruct (Z.ltb_spec c 0x10000)]];
    cbn [app from_utf8_lossy].
  - decide_between true. done.
  - decide_between false. decide_between true. decide_between true. done.
  - decide_between false. decide_between false. decide_between true. decide_between true.
    decide_between true. done.
  - decide_between false. decide_between false. decide_between false. decide_between true.
    decide_between true. decide_between true. decide_between true. done.
Qed.

Lemma lossy_string cs :
  Forall (λ c, is_char c = true) cs → from_utf8_lossy (string_of_chars cs) = string_of_chars cs.
Proof.
  induction 1 as [|c cs Hc _ IH]; [done|]. cbn. rewrite lossy_encode by done.
  change (cs ≫= encode_utf8) with (string_of_chars cs). by rewrite IH.
Qed.

Definition ascii (c : Z) : Prop := 0 ≤ c < 128.

Lemma string_of_ascii cs : Forall ascii cs → string_of_chars cs = cs.
Proof.
  induction 1 as [|c cs Hc _ IH]; [done|]. cbn. change (cs ≫= encode_utf8) with (string_of_chars cs).
  rewrite IH. unfold encode_utf8, ascii in *. by replace (c <? 0x80) with true by lia.
Qed.

Lemma encode_length c : (1 ≤ length (encode_utf8 c))%nat ∧ (128 ≤ c → (2 ≤ length (encode_utf8 c))%nat).
Proof. unfold encode_utf8. repeat case_match; cbn; lia. Qed.

(** Text outside ASCII is longer encoded than its number of characters. *)
Lemma string_longer cs :
  (length cs ≤ length (string_of_chars cs))%nat
  ∧ (Exists (λ c, 128 ≤ c) cs → (length cs < length (string_of_chars cs))%nat).
Proof.
  induction cs as [|c cs [IH1 IH2]]; [split; [done|by intros ?%Exists_nil]|].
  cbn. rewrite length_app. change (cs ≫= encode_utf8) with (string_of_chars cs).
  destruct (encode_length c) as [H1 H2]. split; [lia|].
  intros [H|H]%Exists_cons; [specialize (H2 H)|specialize (IH2 H)]; lia.
Qed.

Lemma decode_utf16_bmp us :
  Forall (λ c, is_char c = true) us → decode_utf16 us = Some us.
Proof. induction 1 as [|u us Hu _ IH]; [done|]. cbn. by rewrite Hu, IH. Qed.

Lemma chunks_fuel_bytes n (xs : list Z) fuel :
  (0 < n)%nat → (length xs ≤ fuel)%nat →
  chunks_fuel fuel n (xs ≫= le_bytes n) = le_bytes n <$> xs.
Proof.
  intros Hn. revert fuel. induction xs as [|x xs IH]; intros fuel Hf.
  - destruct fuel; [done|]. cbn. destruct n; [lia|done].
  - destruct fuel as [|fuel]; [cbn in Hf; lia|].
    cbn [chunks_fuel mbind list_bind fmap list_fmap].
    destruct (le_bytes_octets n x) as [_ Hl]. rewrite length_app, Hl.
    destruct (Nat.ltb_spec (n + length (xs ≫= le_bytes n)) n); [lia|].
    rewrite take_app_length', drop_app_length' by done. f_equal. apply IH. cbn in Hf. lia.
Qed.

Lemma length_flat_bytes n (xs : list Z) : length (xs ≫= le_bytes n) = (n * length xs)%nat.
Proof.
  induction xs as [|x xs IH]; cbn; [lia|].
  rewrite length_app, IH. destruct (le_bytes_octets n x) as [_ ->]. lia.
Qed.

Lemma chunks_exact_bytes n (xs : list Z) :
  (0 < n)%nat → chunks_exact n (xs ≫= le_bytes n) = le_bytes n <$> xs.
Proof.
  intros Hn. apply chunks_fuel_bytes; [done|]. rewrite length_flat_bytes. nia.
Qed.

Lemma until_nul_app s rest : Forall (λ b, b ≠ 0) s → until_nul (s ++ 0 :: rest) = s.
Proof.
  induction 1 as [|b s Hb _ IH]; [done|]. cbn. by rewrite (proj2 (Z.eqb_neq b 0) Hb), IH.
Qed.
