(* ===== verification/Types.v ===== *)
(** * Shared constants and records ([ironscope-common/src/types.rs])

    Every struct keeps its fields and every constant its value; the explicit
    padding fields, which the source always writes as zero, are dropped from the
    records (hash-map keys compare the same with or without them), except in the
    network keys, whose padding takes part in the longest-prefix match. *)

From stdpp Require Import base gmap countable.
From S2P Require Import Prelude.

(** ** Offsets array indices *)
Definition OFF_FRAME_F_EXECUTABLE := 0.
Definition OFF_CODE_QUALNAME := 1.
Definition OFF_CODE_FILENAME := 2.
Definition OFF_UNICODE_COMPACT_DATA := 3.
Definition OFF_CODE_FIRSTLINENO := 4.
Definition OFF_FRAME_LOCALSPLUS := 5.
Definition OFF_FRAME_PREVIOUS := 6.
Definition OFF_FRAME_OWNER := 7.
Definition OFF_TASK_STATE := 8.
Definition OFF_TASK_CORO := 9.
Definition OFF_FRAME_REG_IDX := 10.
Definition OFF_CODE_FLAGS := 11.
Definition OFF_GEN_IFRAME := 12.
Definition OFF_TSTATE_CURRENT_FRAME := 13.
Definition OFF_OBJ_TYPE := 14.
Definition OFF_GEN_FRAME_STATE := 15.
Definition OFF_EXCEPTION_FRAME_REG_IDX := 16.

Definition CO_FLAGS_GENERATOR_MASK := 0x2A0.

(** ** Bounds *)
Definition MAX_CTX_STACK_DEPTH := 8.
Definition MAX_TASK_CTX_STACK_DEPTH := 8.
Definition MAX_WORKER_FRAME_CHAIN_DEPTH := 8.
Definition MAX_WORKITEM_LOCAL_SCAN_SLOTS := 32.
Definition MAX_EVENT_PATH_LEN := 1024.

Definition TOOL_IDLE := 0.

(** ** Permissions and modes *)
Definition PERM_ALLOW := 1.
Definition PERM_DENY := 0.
Definition MODE_MONITOR := 0.
Definition MODE_ENFORCE := 2.

(** ** Code kinds and extractors *)
Definition CODE_KIND_IGNORE := 0.
Definition CODE_KIND_TOOL_ROOT_LG := 1.
Definition CODE_KIND_TOOL_ROOT_LC := 4.
Definition CODE_KIND_TOOL_ID_RULE := 10.
Definition CODE_KIND_WORKITEM_CTOR := 20.
Definition CODE_KIND_WORKITEM_RUN := 21.
Definition CODE_KIND_THREAD_CTOR := 22.
Definition CODE_KIND_THREAD_RUN := 23.
Definition CODE_KIND_THREADPOOL_WORKER := 24.

Definition EXTRACTOR_NONE := 0.
Definition EXTRACTOR_SLOT_OBJ := 1.
Definition EXTRACTOR_SLOT_NAME := 2.

(** ** Event kinds *)
Definition EVENT_FS_OPEN := 1.
Definition EVENT_EXEC := 2.
Definition EVENT_NET_CONNECT := 3.
Definition EVENT_FORK := 4.
Definition EVENT_EXIT := 5.
Definition EVENT_TOOL_START := 6.
Definition EVENT_TOOL_CONTEXT_END := 7.
Definition EVENT_TOOL_END := EVENT_TOOL_CONTEXT_END.
Definition EVENT_TASK_BIND := 8.
Definition EVENT_TASK_UNBIND := 9.
Definition EVENT_WORKER_BIND := 10.
Definition EVENT_WORKER_UNBIND := 11.
Definition EVENT_AUDIT_UNATTRIBUTED := 12.
Definition EVENT_AUDIT_UNRESOLVED := 13.
Definition EVENT_AUDIT_STACK_OVERFLOW := 14.
Definition EVENT_AUDIT_BUILD_MISMATCH := 15.
Definition EVENT_DEALLOC_CLEANUP := 16.
Definition EVENT_TOOL_FRAME_END := 17.
Definition EVENT_RESOLVER_CANDIDATE := 18.
Definition EVENT_RESOLVER_RESOLVED := 19.
Definition EVENT_RESOLVER_FAILED := 20.
Definition EVENT_WORKER_CARRIER_BIND := 21.
Definition EVENT_WORKER_CARRIER_UNBIND := 22.
Definition EVENT_CHILD_CTX_BIND := 23.
Definition EVENT_CHILD_CTX_UNBIND := 24.

Definition ACTION_ALLOW := 0.
Definition ACTION_DENY := 1.

(** ** Context flags *)
Definition TOOL_CTX_FLAG_RESOLVED := 1.
Definition TOOL_CTX_FLAG_RESOLVER_ERROR := 2.
Definition TOOL_CTX_FLAG_PENDING_START := 4.
Definition TOOL_CTX_FLAG_ASYNC_FRAME := 8.

(** ** Identity states and policy sources *)
Definition IDENTITY_STATE_UNATTRIBUTED := 0.
Definition IDENTITY_STATE_KNOWN_TOOL := 1.
Definition IDENTITY_STATE_UNKNOWN_TOOL := 2.
Definition IDENTITY_STATE_RESOLVER_ERROR := 3.

Definition POLICY_SOURCE_DEFAULT_ALLOW := 0.
Definition POLICY_SOURCE_TOOL := 1.
Definition POLICY_SOURCE_UNATTRIBUTED := 3.
Definition POLICY_SOURCE_UNKNOWN_TOOL := 4.
Definition POLICY_SOURCE_RESOLVER_ERROR := 5.
Definition POLICY_SOURCE_MONITOR := 6.
Definition POLICY_SOURCE_DEFAULT_DENY := 7.

Definition UNATTRIBUTED_AUDIT_ONLY := 0.
Definition UNATTRIBUTED_DENY := 1.
Definition UNKNOWN_TOOL_ALLOW := 0.
Definition UNKNOWN_TOOL_DENY := 1.
Definition RESOLVER_ERROR_ALLOW := 0.
Definition RESOLVER_ERROR_DENY := 1.
Definition DEFAULT_TOOL_ALLOW := 0.
Definition DEFAULT_TOOL_DENY := 1.
Definition CHILD_SCOPE_TOOL_ONLY := 0.
Definition CHILD_SCOPE_ALL := 1.

(** ** Map keys *)

Record CodeKindKey := { ck_tgid : Z; ck_code_ptr : Z }.
Record PyObjectKey := { po_tgid : Z; po_ptr : Z }.
Record TaskStackKey := { ts_tgid : Z; ts_depth : Z; ts_task_ptr : Z }.
Record PendingToolResolveKey := { pr_tgid : Z; pr_self_ptr : Z }.
Record ToolPolicyKey := { fp_tool_id : Z; fp_dev : Z; fp_ino : Z }.
Record ToolExecKey := { xp_tool_id : Z; xp_dev : Z; xp_ino : Z }.

#[global] Instance CodeKindKey_eq : EqDecision CodeKindKey.
Proof. solve_decision. Defined.
#[global] Instance PyObjectKey_eq : EqDecision PyObjectKey.
Proof. solve_decision. Defined.
#[global] Instance TaskStackKey_eq : EqDecision TaskStackKey.
Proof. solve_decision. Defined.
#[global] Instance PendingToolResolveKey_eq : EqDecision PendingToolResolveKey.
Proof. solve_decision. Defined.
#[global] Instance ToolPolicyKey_eq : EqDecision ToolPolicyKey.
Proof. solve_decision. Defined.
#[global] Instance ToolExecKey_eq : EqDecision ToolExecKey.
Proof. solve_decision. Defined.

#[global] Instance CodeKindKey_countable : Countable CodeKindKey.
Proof.
  refine (inj_countable' (λ k, (ck_tgid k, ck_code_ptr k))
    (λ p, {| ck_tgid := p.1; ck_code_ptr := p.2 |}) _). by intros [].
Defined.
#[global] Instance PyObjectKey_countable : Countable PyObjectKey.
Proof.
  refine (inj_countable' (λ k, (po_tgid k, po_ptr k))
    (λ p, {| po_tgid := p.1; po_ptr := p.2 |}) _). by intros [].
Defined.
#[global] Instance TaskStackKey_countable : Countable TaskStackKey.
Proof.
  refine (inj_countable' (λ k, (ts_tgid k, ts_depth k, ts_task_ptr k))
    (λ p, {| ts_tgid := p.1.1; ts_depth := p.1.2; ts_task_ptr := p.2 |}) _). by intros [].
Defined.
#[global] Instance PendingToolResolveKey_countable : Countable PendingToolResolveKey.
Proof.
  refine (inj_countable' (λ k, (pr_tgid k, pr_self_ptr k))
    (λ p, {| pr_tgid := p.1; pr_self_ptr := p.2 |}) _). by intros [].
Defined.
#[global] Instance ToolPolicyKey_countable : Countable ToolPolicyKey.
Proof.
  refine (inj_countable' (λ k, (fp_tool_id k, fp_dev k, fp_ino k))
    (λ p, {| fp_tool_id := p.1.1; fp_dev := p.1.2; fp_ino := p.2 |}) _). by intros [].
Defined.
#[global] Instance ToolExecKey_countable : Countable ToolExecKey.
Proof.
  refine (inj_countable' (λ k, (xp_tool_id k, xp_dev k, xp_ino k))
    (λ p, {| xp_tool_id := p.1.1; xp_dev := p.1.2; xp_ino := p.2 |}) _). by intros [].
Defined.

(** ** Map values *)

Record ToolObjCacheEntry :=
  { to_type_ptr : Z; to_tool_id : Z; to_name_hash : Z; to_generation : Z }.

Record ToolStackEntry :=
  { se_ctx_id : Z; se_frame_ptr : Z; se_parent_ptr : Z; se_tool_id : Z }.

Record ToolCtx :=
  { tc_tool_id : Z; tc_generation : Z; tc_carrier_count : Z; tc_flags : Z;
    tc_started_ns : Z; tc_last_seen_ns : Z }.

Record RootRule :=
  { rr_kind : Z; rr_slot_index : Z; rr_extractor_kind : Z; rr_filename_hash : Z;
    rr_qualname_hash : Z; rr_firstline : Z }.

Record WorkerRunEntry :=
  { wr_kind : Z; wr_frame_ptr : Z; wr_parent_ptr : Z; wr_self_obj : Z; wr_prev_ctx : Z }.

Record PendingWorkerSpawn := { pw_ctx_id : Z; pw_work_item : Z }.

Record WorkerLocalCtx :=
  { wl_ctx_id : Z; wl_work_item : Z; wl_frame_ptr : Z; wl_prev_ctx : Z }.

#[global] Instance ToolStackEntry_eq : EqDecision ToolStackEntry.
Proof. solve_decision. Defined.
#[global] Instance WorkerRunEntry_eq : EqDecision WorkerRunEntry.
Proof. solve_decision. Defined.

(** ** Network policy keys *)

Record ToolNetKey :=
  { nk_prefixlen : Z; nk_tool_id : Z; nk_addr : Z; nk_port : Z; nk_pad : Z }.
Record ToolNetData := { nd_tool_id : Z; nd_addr : Z; nd_port : Z; nd_pad : Z }.

(** ** Configuration *)
Record IronScopeConfig :=
  { ic_mode : Z; ic_discover : Z; ic_unattributed_policy : Z;
    ic_unknown_tool_policy : Z; ic_resolver_error_policy : Z;
    ic_child_scope : Z; ic_default_tool_policy : Z }.

Definition IronScopeConfig_default : IronScopeConfig :=
  {| ic_mode := MODE_MONITOR; ic_discover := 0;
     ic_unattributed_policy := UNATTRIBUTED_AUDIT_ONLY;
     ic_unknown_tool_policy := UNKNOWN_TOOL_ALLOW;
     ic_resolver_error_policy := RESOLVER_ERROR_DENY;
     ic_child_scope := CHILD_SCOPE_TOOL_ONLY;
     ic_default_tool_policy := DEFAULT_TOOL_ALLOW |}.

(** ** Events *)
Record PyEvent :=
  { pe_pid : Z; pe_tid : Z; pe_ts_ns : Z; pe_kind : Z; pe_ctx_id : Z;
    pe_tool_id : Z; pe_carrier_ptr : Z; pe_aux : Z }.

Record ResolverEvent :=
  { re_pid : Z; re_tid : Z; re_ts_ns : Z; re_kind : Z; re_code_kind : Z;
    re_ctx_id : Z; re_self_ptr : Z; re_type_ptr : Z; re_frame_ptr : Z; re_code_ptr : Z }.

Record GuardEvent :=
  { ge_pid : Z; ge_tid : Z; ge_ppid : Z; ge_tool_id : Z; ge_ctx_id : Z; ge_ts_ns : Z;
    ge_kind : Z; ge_action : Z; ge_identity_state : Z; ge_policy_source : Z;
    ge_port : Z; ge_addr : Z; ge_child_pid : Z; ge_path_len : Z; ge_argv_len : Z;
    ge_comm : list Z; ge_path : list Z; ge_argv : list Z }.
