(* ===== verification/Maps.v ===== *)
(** * BPF maps, helpers and the probe monad ([ironscope-ebpf/src/maps.rs])

    The state of the BPF side: one field per map.  [Env] collects what the
    kernel, the traced process and the BPF runtime supply to one program
    invocation; it is arbitrary, so that every statement quantifies over it. *)

From stdpp Require Import base gmap list countable.
From S2P Require Import Prelude Types.

(** ** State *)

Record State := mkState {
  tool_ctx : gmap Z ToolCtx;
  tool_obj : gmap PyObjectKey ToolObjCacheEntry;
  code_kind : gmap CodeKindKey Z;
  pending_tool_resolve : gmap PendingToolResolveKey Z;
  pending_frame_tool : gmap PyObjectKey Z;
  fork_ctx : gmap Z Z;
  frame_ctx : gmap PyObjectKey Z;
  task_ctx : gmap PyObjectKey Z;
  task_ctx_stack : gmap TaskStackKey Z;
  task_ctx_depth : gmap PyObjectKey Z;
  workitem_ctx : gmap PyObjectKey Z;
  pythread_obj_ctx : gmap PyObjectKey Z;
  pythread_obj_thread : gmap PyObjectKey Z;
  pending_worker_spawn : gmap Z PendingWorkerSpawn;
  threadpool_worker_frame : gmap Z Z;
  threadpool_worker_ctx : gmap Z WorkerLocalCtx;
  threadpool_workitem_thread : gmap PyObjectKey Z;
  worker_run_carrier : gmap PyObjectKey Z;
  thread_current_frame : gmap Z Z;
  thread_tstate : gmap Z Z;
  tool_stack : gmap Z ToolStackEntry;
  tool_stack_depth : gmap Z Z;
  pending_tool_close : gmap TaskStackKey ToolStackEntry;
  thread_active_ctx : gmap Z Z;
  thread_active_task : gmap Z Z;
  thread_ctx_stack : gmap Z Z;
  thread_ctx_depth : gmap Z Z;
  frame_entry_stash : gmap Z Z;
  frame_stash_depth : gmap Z Z;
  task_step_stash : gmap Z Z;
  task_step_prev_task : gmap Z Z;
  worker_run_stack : gmap Z WorkerRunEntry;
  worker_run_depth : gmap Z Z;
  protected_tgids : gmap Z Z;
  tool_fs_policy : gmap ToolPolicyKey Z;
  tool_exec_policy : gmap ToolExecKey Z;
  ironscope_config : gmap Z IronScopeConfig;
  python_offsets : gmap Z Z;
  ctx_counter : gmap Z Z;
  root_rules : gmap Z RootRule;
  tool_net_policy : list (Z * ToolNetData * Z);
  py_events : list PyEvent;
  resolver_events : list ResolverEvent;
  guard_events : list GuardEvent;
  alloc_state : gmap Z Z;
  tick : nat
}.

Definition state_eta (σ : State) : State :=
  mkState (tool_ctx σ) (tool_obj σ) (code_kind σ) (pending_tool_resolve σ) (pending_frame_tool
    σ) (fork_ctx σ) (frame_ctx σ) (task_ctx σ) (task_ctx_stack σ) (task_ctx_depth σ)
    (workitem_ctx σ) (pythread_obj_ctx σ) (pythread_obj_thread σ) (pending_worker_spawn σ)
    (threadpool_worker_frame σ) (threadpool_worker_ctx σ) (threadpool_workitem_thread σ)
    (worker_run_carrier σ) (thread_current_frame σ) (thread_tstate σ) (tool_stack σ)
    (tool_stack_depth σ) (pending_tool_close σ) (thread_active_ctx σ) (thread_active_task σ)
    (thread_ctx_stack σ) (thread_ctx_depth σ) (frame_entry_stash σ) (frame_stash_depth σ)
    (task_step_stash σ) (task_step_prev_task σ) (worker_run_stack σ) (worker_run_depth σ)
    (protected_tgids σ) (tool_fs_policy σ) (tool_exec_policy σ) (ironscope_config σ)
    (python_offsets σ) (ctx_counter σ) (root_rules σ) (tool_net_policy σ) (py_events σ)
    (resolver_events σ) (guard_events σ) (alloc_state σ)
    (tick σ).
Ltac setter proj v σ :=
  let t := eval cbv delta [state_eta] beta in (state_eta σ) in
  lazymatch eval pattern (proj σ) in t with
  | ?F _ => let r := eval cbv beta in (F v) in exact r
  end.

Definition set_tool_ctx (v : gmap Z ToolCtx) (σ : State) : State := ltac:(setter tool_ctx v σ).
Definition set_tool_obj (v : gmap PyObjectKey ToolObjCacheEntry) (σ : State) : State := ltac:(setter tool_obj v σ).
Definition set_code_kind (v : gmap CodeKindKey Z) (σ : State) : State := ltac:(setter code_kind v σ).
Definition set_pending_tool_resolve (v : gmap PendingToolResolveKey Z) (σ : State) : State := ltac:(setter pending_tool_resolve v σ).
Definition set_pending_frame_tool (v : gmap PyObjectKey Z) (σ : State) : State := ltac:(setter pending_frame_tool v σ).
Definition set_fork_ctx (v : gmap Z Z) (σ : State) : State := ltac:(setter fork_ctx v σ).
Definition set_frame_ctx (v : gmap PyObjectKey Z) (σ : State) : State := ltac:(setter frame_ctx v σ).
Definition set_task_ctx (v : gmap PyObjectKey Z) (σ : State) : State := ltac:(setter task_ctx v σ).
Definition set_task_ctx_stack (v : gmap TaskStackKey Z) (σ : State) : State := ltac:(setter task_ctx_stack v σ).
Definition set_task_ctx_depth (v : gmap PyObjectKey Z) (σ : State) : State := ltac:(setter task_ctx_depth v σ).
Definition set_workitem_ctx (v : gmap PyObjectKey Z) (σ : State) : State := ltac:(setter workitem_ctx v σ).
Definition set_pythread_obj_ctx (v : gmap PyObjectKey Z) (σ : State) : State := ltac:(setter pythread_obj_ctx v σ).
Definition set_pythread_obj_thread (v : gmap PyObjectKey Z) (σ : State) : State := ltac:(setter pythread_obj_thread v σ).
Definition set_pending_worker_spawn (v : gmap Z PendingWorkerSpawn) (σ : State) : State := ltac:(setter pending_worker_spawn v σ).
Definition set_threadpool_worker_frame (v : gmap Z Z) (σ : State) : State := ltac:(setter threadpool_worker_frame v σ).
Definition set_threadpool_worker_ctx (v : gmap Z WorkerLocalCtx) (σ : State) : State := ltac:(setter threadpool_worker_ctx v σ).
Definition set_threadpool_workitem_thread (v : gmap PyObjectKey Z) (σ : State) : State := ltac:(setter threadpool_workitem_thread v σ).
Definition set_worker_run_carrier (v : gmap PyObjectKey Z) (σ : State) : State := ltac:(setter worker_run_carrier v σ).
Definition set_thread_current_frame (v : gmap Z Z) (σ : State) : State := ltac:(setter thread_current_frame v σ).
Definition set_thread_tstate (v : gmap Z Z) (σ : State) : State := ltac:(setter thread_tstate v σ).
Definition set_tool_stack (v : gmap Z ToolStackEntry) (σ : State) : State := ltac:(setter tool_stack v σ).
Definition set_tool_stack_depth (v : gmap Z Z) (σ : State) : State := ltac:(setter tool_stack_depth v σ).
Definition set_pending_tool_close (v : gmap TaskStackKey ToolStackEntry) (σ : State) : State := ltac:(setter pending_tool_close v σ).
Definition set_thread_active_ctx (v : gmap Z Z) (σ : State) : State := ltac:(setter thread_active_ctx v σ).
Definition set_thread_active_task (v : gmap Z Z) (σ : State) : State := ltac:(setter thread_active_task v σ).
Definition set_thread_ctx_stack (v : gmap Z Z) (σ : State) : State := ltac:(setter thread_ctx_stack v σ).
Definition set_thread_ctx_depth (v : gmap Z Z) (σ : State) : State := ltac:(setter thread_ctx_depth v σ).
Definition set_frame_entry_stash (v : gmap Z Z) (σ : State) : State := ltac:(setter frame_entry_stash v σ).
Definition set_frame_stash_depth (v : gmap Z Z) (σ : State) : State := ltac:(setter frame_stash_depth v σ).
Definition set_task_step_stash (v : gmap Z Z) (σ : State) : State := ltac:(setter task_step_stash v σ).
Definition set_task_step_prev_task (v : gmap Z Z) (σ : State) : State := ltac:(setter task_step_prev_task v σ).
Definition set_worker_run_stack (v : gmap Z WorkerRunEntry) (σ : State) : State := ltac:(setter worker_run_stack v σ).
Definition set_worker_run_depth (v : gmap Z Z) (σ : State) : State := ltac:(setter worker_run_depth v σ).
Definition set_protected_tgids (v : gmap Z Z) (σ : State) : State := ltac:(setter protected_tgids v σ).
Definition set_tool_fs_policy (v : gmap ToolPolicyKey Z) (σ : State) : State := ltac:(setter tool_fs_policy v σ).
Definition set_tool_exec_policy (v : gmap ToolExecKey Z) (σ : State) : State := ltac:(setter tool_exec_policy v σ).
Definition set_ironscope_config (v : gmap Z IronScopeConfig) (σ : State) : State := ltac:(setter ironscope_config v σ).
Definition set_python_offsets (v : gmap Z Z) (σ : State) : State := ltac:(setter python_offsets v σ).
Definition set_ctx_counter (v : gmap Z Z) (σ : State) : State := ltac:(setter ctx_counter v σ).
Definition set_root_rules (v : gmap Z RootRule) (σ : State) : State := ltac:(setter root_rules v σ).
Definition set_tool_net_policy (v : list (Z * ToolNetData * Z)) (σ : State) : State := ltac:(setter tool_net_policy v σ).
Definition set_py_events (v : list PyEvent) (σ : State) : State := ltac:(setter py_events v σ).
Definition set_resolver_events (v : list ResolverEvent) (σ : State) : State := ltac:(setter resolver_events v σ).
Definition set_guard_events (v : list GuardEvent) (σ : State) : State := ltac:(setter guard_events v σ).
Definition set_alloc_state (v : gmap Z Z) (σ : State) : State := ltac:(setter alloc_state v σ).
Definition set_tick (v : nat) (σ : State) : State := ltac:(setter tick v σ).

Definition empty_state : State :=
  mkState ∅ ∅ ∅ ∅ ∅ ∅ ∅ ∅ ∅ ∅ ∅ ∅ ∅ ∅ ∅ ∅ ∅ ∅ ∅ ∅ ∅ ∅ ∅ ∅ ∅ ∅
    ∅ ∅ ∅ ∅ ∅ ∅ ∅ ∅ ∅ ∅ ∅ ∅ ∅ ∅ [] [] [] [] ∅ 0%nat.

(** ** Kernel structures ([ironscope-common/src/co_re/mod.rs])

    The members that the CO-RE accessors read. *)
Inductive core_field :=
| task_struct_pid | task_struct_tgid | task_struct_flags | task_struct_real_parent
| task_struct_group_leader | task_struct_mm | task_struct_comm
| mm_struct_arg_start | mm_struct_arg_end | mm_struct_exe_file
| super_block_s_dev | super_block_s_root
| inode_i_ino | inode_i_mode | inode_i_sb
| qstr_name | qstr_hash_len
| dentry_d_flags | dentry_d_parent | dentry_d_sb | dentry_d_inode | dentry_d_name
| path_mnt | path_dentry
| vfsmount_mnt_root
| mount_mnt_parent | mount_mnt_mountpoint | mount_mnt
| file_f_inode | file_f_flags | file_f_path
| linux_binprm_file
| sockaddr_sa_family
| sockaddr_in_sin_family | sockaddr_in_sin_port | sockaddr_in_s_addr.

(** ** Environment of one program invocation

    - [pid_tgid], [processor_id]: the BPF helpers of the same name;
    - [ktime], [update_ok], [evicts], [reserve_ok] answer the helper calls whose
      outcome the program does not control (the clock, [bpf_map_update_elem] on a
      map that may be full, the entries an LRU map drops to make room, the ring
      buffer reservation); they are indexed by the state's call counter [tick],
      so that each call has an answer of its own;
    - [user_mem]: the traced process's memory, byte by byte ([None]: unmapped);
    - [reg], [arg]: the probe's saved registers and arguments;
    - [shim]: the C accessor of a kernel structure's member ([None]: the running
      kernel has no such member); [mount_of]: [container_of(vfsmount, mount)];
      [kernel_mem]: kernel memory, byte by byte;
    - [lpm_get]: the kernel's longest-prefix-match lookup. *)
Record Env := {
  pid_tgid : Z;
  processor_id : Z;
  ktime : nat → Z;
  update_ok : nat → bool;
  evicts : nat → positive → bool;
  reserve_ok : nat → bool;
  user_mem : Z → option Z;
  reg : Z → option Z;
  arg : nat → option Z;
  shim : core_field → Z → option Z;
  mount_of : Z → Z;
  kernel_mem : Z → option Z;
  lpm_get : list (Z * ToolNetData * Z) → Z → ToolNetData → option Z
}.

Abbreviation M := (probeM Env State).

(** The helpers [bpf_get_current_pid_tgid] and the two halves the source takes. *)
Definition cur_tgid (e : Env) : Z := u32 (Z.shiftr (pid_tgid e) 32).
Definition cur_tid (e : Env) : Z := u32 (pid_tgid e).

(** A context in which no map update fails and no LRU entry is evicted. *)
Definition reliable (e : Env) : Prop :=
  (∀ n, update_ok e n = true) ∧ (∀ n k, evicts e n k = false).

(** ** Maps as first-class values *)

Inductive map_kind := Hash | Lru.

Record bpf_map (K V : Type) `{Countable K} := BpfMap {
  bm_kind : map_kind;
  bm_get : State → gmap K V;
  bm_set : gmap K V → State → State
}.
Arguments BpfMap {K V _ _} _ _ _.
Arguments bm_kind {K V _ _} _.
Arguments bm_get {K V _ _} _ _.
Arguments bm_set {K V _ _} _ _ _.

Definition TOOL_CTX : bpf_map Z ToolCtx := BpfMap Hash tool_ctx set_tool_ctx.
Definition TOOL_OBJ : bpf_map PyObjectKey ToolObjCacheEntry := BpfMap Hash tool_obj set_tool_obj.
Definition CODE_KIND : bpf_map CodeKindKey Z := BpfMap Hash code_kind set_code_kind.
Definition PENDING_TOOL_RESOLVE : bpf_map PendingToolResolveKey Z := BpfMap Hash pending_tool_resolve set_pending_tool_resolve.
Definition PENDING_FRAME_TOOL : bpf_map PyObjectKey Z := BpfMap Lru pending_frame_tool set_pending_frame_tool.
Definition FORK_CTX : bpf_map Z Z := BpfMap Hash fork_ctx set_fork_ctx.
Definition FRAME_CTX : bpf_map PyObjectKey Z := BpfMap Lru frame_ctx set_frame_ctx.
Definition TASK_CTX : bpf_map PyObjectKey Z := BpfMap Lru task_ctx set_task_ctx.
Definition TASK_CTX_STACK : bpf_map TaskStackKey Z := BpfMap Hash task_ctx_stack set_task_ctx_stack.
Definition TASK_CTX_DEPTH : bpf_map PyObjectKey Z := BpfMap Hash task_ctx_depth set_task_ctx_depth.
Definition WORKITEM_CTX : bpf_map PyObjectKey Z := BpfMap Lru workitem_ctx set_workitem_ctx.
Definition PYTHREAD_OBJ_CTX : bpf_map PyObjectKey Z := BpfMap Lru pythread_obj_ctx set_pythread_obj_ctx.
Definition PYTHREAD_OBJ_THREAD : bpf_map PyObjectKey Z := BpfMap Hash pythread_obj_thread set_pythread_obj_thread.
Definition PENDING_WORKER_SPAWN : bpf_map Z PendingWorkerSpawn := BpfMap Hash pending_worker_spawn set_pending_worker_spawn.
Definition THREADPOOL_WORKER_FRAME : bpf_map Z Z := BpfMap Hash threadpool_worker_frame set_threadpool_worker_frame.
Definition THREADPOOL_WORKER_CTX : bpf_map Z WorkerLocalCtx := BpfMap Hash threadpool_worker_ctx set_threadpool_worker_ctx.
Definition THREADPOOL_WORKITEM_THREAD : bpf_map PyObjectKey Z := BpfMap Hash threadpool_workitem_thread set_threadpool_workitem_thread.
Definition WORKER_RUN_CARRIER : bpf_map PyObjectKey Z := BpfMap Hash worker_run_carrier set_worker_run_carrier.
Definition THREAD_CURRENT_FRAME : bpf_map Z Z := BpfMap Hash thread_current_frame set_thread_current_frame.
Definition THREAD_TSTATE : bpf_map Z Z := BpfMap Hash thread_tstate set_thread_tstate.
Definition TOOL_STACK : bpf_map Z ToolStackEntry := BpfMap Hash tool_stack set_tool_stack.
Definition TOOL_STACK_DEPTH : bpf_map Z Z := BpfMap Hash tool_stack_depth set_tool_stack_depth.
Definition PENDING_TOOL_CLOSE : bpf_map TaskStackKey ToolStackEntry := BpfMap Hash pending_tool_close set_pending_tool_close.
Definition THREAD_ACTIVE_CTX : bpf_map Z Z := BpfMap Hash thread_active_ctx set_thread_active_ctx.
Definition THREAD_ACTIVE_TASK : bpf_map Z Z := BpfMap Hash thread_active_task set_thread_active_task.
Definition THREAD_CTX_STACK : bpf_map Z Z := BpfMap Hash thread_ctx_stack set_thread_ctx_stack.
Definition THREAD_CTX_DEPTH : bpf_map Z Z := BpfMap Hash thread_ctx_depth set_thread_ctx_depth.
Definition FRAME_ENTRY_STASH : bpf_map Z Z := BpfMap Hash frame_entry_stash set_frame_entry_stash.
Definition FRAME_STASH_DEPTH : bpf_map Z Z := BpfMap Hash frame_stash_depth set_frame_stash_depth.
Definition TASK_STEP_STASH : bpf_map Z Z := BpfMap Hash task_step_stash set_task_step_stash.
Definition TASK_STEP_PREV_TASK : bpf_map Z Z := BpfMap Hash task_step_prev_task set_task_step_prev_task.
Definition WORKER_RUN_STACK : bpf_map Z WorkerRunEntry := BpfMap Hash worker_run_stack set_worker_run_stack.
Definition WORKER_RUN_DEPTH : bpf_map Z Z := BpfMap Hash worker_run_depth set_worker_run_depth.
Definition PROTECTED_TGIDS : bpf_map Z Z := BpfMap Hash protected_tgids set_protected_tgids.
Definition TOOL_FS_POLICY : bpf_map ToolPolicyKey Z := BpfMap Hash tool_fs_policy set_tool_fs_policy.
Definition TOOL_EXEC_POLICY : bpf_map ToolExecKey Z := BpfMap Hash tool_exec_policy set_tool_exec_policy.
Definition IRONSCOPE_CONFIG : bpf_map Z IronScopeConfig := BpfMap Hash ironscope_config set_ironscope_config.

(** ** Map operations *)

Section ops.
Context {K V : Type} `{Countable K}.
Implicit Types (m : bpf_map K V) (k : K) (v : V).

Definition next_tick (σ : State) : State := set_tick (S (tick σ)) σ.

Definition m_get m k : M (option V) := λ e σ, (bm_get m σ !! k, σ).

Definition m_remove m k : M unit := λ e σ, (tt, bm_set m (delete k (bm_get m σ)) σ).

(** An update that fails leaves the map as it is; an LRU map first drops the
    entries the kernel chose. *)
Definition m_insert m k v : M unit := λ e σ,
  let t := tick σ in
  if update_ok e t then
    let old := match bm_kind m with
               | Hash => bm_get m σ
               | Lru => filter (λ kv, evicts e t (encode kv.1) = false) (bm_get m σ)
               end in
    (tt, bm_set m (<[k:=v]> old) (next_tick σ))
  else (tt, next_tick σ).

(** [if let Some(p) = MAP.get_ptr_mut(&k) { *p = f *p }] *)
Definition m_alter m (f : V → V) k : M unit := λ e σ,
  (tt, bm_set m (alter f k (bm_get m σ)) σ).
End ops.

(** ** Other helpers *)

Definition get_tgid : M Z := λ e σ, (cur_tgid e, σ).
Definition get_tid : M Z := λ e σ, (cur_tid e, σ).
Definition bpf_ktime_get_ns : M Z := λ e σ, (ktime e (tick σ), next_tick σ).
Definition ring_reserve : M bool := λ e σ, (reserve_ok e (tick σ), next_tick σ).

(** [Array::get]: in range, with the zero element where nothing was stored. *)
Definition PYTHON_OFFSETS_get (i : Z) : M (option Z) := λ e σ,
  (if (0 <=? i) && (i <? 64) then Some (unwrap_or (python_offsets σ !! i) 0) else None, σ).

Definition RootRule_default : RootRule :=
  {| rr_kind := 0; rr_slot_index := 0; rr_extractor_kind := 0; rr_filename_hash := 0;
     rr_qualname_hash := 0; rr_firstline := 0 |}.

Definition ROOT_RULES_get (i : Z) : M (option RootRule) := λ e σ,
  (if (0 <=? i) && (i <? 64) then Some (unwrap_or (root_rules σ !! i) RootRule_default) else None, σ).

(** [bpf_probe_read_user] of [n] bytes: all of them or an error. *)
Definition read_bytes (mem : Z → option Z) (addr : Z) (n : nat) : option (list Z) :=
  mapM (λ i, mem (u64 (addr + Z.of_nat i))) (seq 0 n).

Definition probe_read_user (n : nat) (addr : Z) : M (option (list Z)) := λ e σ,
  (read_bytes (user_mem e) addr n, σ).
Definition read_user_u64 (addr : Z) : M (option Z) :=
  bs ← probe_read_user 8 addr; mret (le_decode <$> bs).
Definition read_user_u32 (addr : Z) : M (option Z) :=
  bs ← probe_read_user 4 addr; mret (le_decode <$> bs).
Definition read_user_u8 (addr : Z) : M (option Z) :=
  bs ← probe_read_user 1 addr; mret (le_decode <$> bs).

Definition read_reg (i : Z) : M (option Z) := λ e σ, (reg e i, σ).
Definition read_arg (i : nat) : M (option Z) := λ e σ, (arg e i, σ).

(** The accessor macro: a null pointer or a missing member gives [None]. *)
Definition core_read (f : core_field) (ptr : Z) : M (option Z) := λ e σ,
  (if ptr =? 0 then None else shim e f ptr, σ).
(** Chained accesses, [core_read_kernel!(x, f, g)]. *)
Definition core_read2 (f g : core_field) (ptr : Z) : M (option Z) :=
  r ← core_read f ptr;
  match r with Some p => core_read g p | None => mret None end.

(** ** Object keys

    [py_object_key] and [task_stack_key] qualify a Python pointer with the
    current process. *)
Definition py_object_key (e : Env) (ptr : Z) : PyObjectKey :=
  {| po_tgid := cur_tgid e; po_ptr := ptr |}.
Definition task_stack_key (e : Env) (task_ptr depth : Z) : TaskStackKey :=
  {| ts_tgid := cur_tgid e; ts_depth := depth; ts_task_ptr := task_ptr |}.

Definition get_object_key (ptr : Z) : M PyObjectKey := λ e σ, (py_object_key e ptr, σ).
Definition get_task_stack_key (task_ptr depth : Z) : M TaskStackKey := λ e σ,
  (task_stack_key e task_ptr depth, σ).

(** ** Laws *)

Class MapLaws {K V : Type} `{Countable K} (m : bpf_map K V) : Prop := {
  map_get_set x σ : bm_get m (bm_set m x σ) = x;
  map_set_set x y σ : bm_set m x (bm_set m y σ) = bm_set m x σ;
  map_set_get σ : bm_set m (bm_get m σ) σ = σ;
  map_get_tick t σ : bm_get m (set_tick t σ) = bm_get m σ;
  map_set_tick x t σ : bm_set m x (set_tick t σ) = set_tick t (bm_set m x σ);
  map_tick_set x σ : tick (bm_set m x σ) = tick σ
}.

Ltac map_laws :=
  split; intros; try reflexivity;
  match goal with s : State |- _ => by destruct s end.

#[global] Instance TOOL_CTX_laws : MapLaws TOOL_CTX. Proof. map_laws. Qed.
#[global] Instance TOOL_OBJ_laws : MapLaws TOOL_OBJ. Proof. map_laws. Qed.
#[global] Instance CODE_KIND_laws : MapLaws CODE_KIND. Proof. map_laws. Qed.
#[global] Instance PENDING_TOOL_RESOLVE_laws : MapLaws PENDING_TOOL_RESOLVE. Proof. map_laws. Qed.
#[global] Instance PENDING_FRAME_TOOL_laws : MapLaws PENDING_FRAME_TOOL. Proof. map_laws. Qed.
#[global] Instance FORK_CTX_laws : MapLaws FORK_CTX. Proof. map_laws. Qed.
#[global] Instance FRAME_CTX_laws : MapLaws FRAME_CTX. Proof. map_laws. Qed.
#[global] Instance TASK_CTX_laws : MapLaws TASK_CTX. Proof. map_laws. Qed.
#[global] Instance TASK_CTX_STACK_laws : MapLaws TASK_CTX_STACK. Proof. map_laws. Qed.
#[global] Instance TASK_CTX_DEPTH_laws : MapLaws TASK_CTX_DEPTH. Proof. map_laws. Qed.
#[global] Instance WORKITEM_CTX_laws : MapLaws WORKITEM_CTX. Proof. map_laws. Qed.
#[global] Instance PYTHREAD_OBJ_CTX_laws : MapLaws PYTHREAD_OBJ_CTX. Proof. map_laws. Qed.
#[global] Instance PYTHREAD_OBJ_THREAD_laws : MapLaws PYTHREAD_OBJ_THREAD. Proof. map_laws. Qed.
#[global] Instance PENDING_WORKER_SPAWN_laws : MapLaws PENDING_WORKER_SPAWN. Proof. map_laws. Qed.
#[global] Instance THREADPOOL_WORKER_FRAME_laws : MapLaws THREADPOOL_WORKER_FRAME. Proof. map_laws. Qed.
#[global] Instance THREADPOOL_WORKER_CTX_laws : MapLaws THREADPOOL_WORKER_CTX. Proof. map_laws. Qed.
#[global] Instance THREADPOOL_WORKITEM_THREAD_laws : MapLaws THREADPOOL_WORKITEM_THREAD. Proof. map_laws. Qed.
#[global] Instance WORKER_RUN_CARRIER_laws : MapLaws WORKER_RUN_CARRIER. Proof. map_laws. Qed.
#[global] Instance THREAD_CURRENT_FRAME_laws : MapLaws THREAD_CURRENT_FRAME. Proof. map_laws. Qed.
#[global] Instance THREAD_TSTATE_laws : MapLaws THREAD_TSTATE. Proof. map_laws. Qed.
#[global] Instance TOOL_STACK_laws : MapLaws TOOL_STACK. Proof. map_laws. Qed.
#[global] Instance TOOL_STACK_DEPTH_laws : MapLaws TOOL_STACK_DEPTH. Proof. map_laws. Qed.
#[global] Instance PENDING_TOOL_CLOSE_laws : MapLaws PENDING_TOOL_CLOSE. Proof. map_laws. Qed.
#[global] Instance THREAD_ACTIVE_CTX_laws : MapLaws THREAD_ACTIVE_CTX. Proof. map_laws. Qed.
#[global] Instance THREAD_ACTIVE_TASK_laws : MapLaws THREAD_ACTIVE_TASK. Proof. map_laws. Qed.
#[global] Instance THREAD_CTX_STACK_laws : MapLaws THREAD_CTX_STACK. Proof. map_laws. Qed.
#[global] Instance THREAD_CTX_DEPTH_laws : MapLaws THREAD_CTX_DEPTH. Proof. map_laws. Qed.
#[global] Instance FRAME_ENTRY_STASH_laws : MapLaws FRAME_ENTRY_STASH. Proof. map_laws. Qed.
#[global] Instance FRAME_STASH_DEPTH_laws : MapLaws FRAME_STASH_DEPTH. Proof. map_laws. Qed.
#[global] Instance TASK_STEP_STASH_laws : MapLaws TASK_STEP_STASH. Proof. map_laws. Qed.
#[global] Instance TASK_STEP_PREV_TASK_laws : MapLaws TASK_STEP_PREV_TASK. Proof. map_laws. Qed.
#[global] Instance WORKER_RUN_STACK_laws : MapLaws WORKER_RUN_STACK. Proof. map_laws. Qed.
#[global] Instance WORKER_RUN_DEPTH_laws : MapLaws WORKER_RUN_DEPTH. Proof. map_laws. Qed.
#[global] Instance PROTECTED_TGIDS_laws : MapLaws PROTECTED_TGIDS. Proof. map_laws. Qed.
#[global] Instance TOOL_FS_POLICY_laws : MapLaws TOOL_FS_POLICY. Proof. map_laws. Qed.
#[global] Instance TOOL_EXEC_POLICY_laws : MapLaws TOOL_EXEC_POLICY. Proof. map_laws. Qed.
#[global] Instance IRONSCOPE_CONFIG_laws : MapLaws IRONSCOPE_CONFIG. Proof. map_laws. Qed.

Lemma set_tick_twice t t' σ : set_tick t (set_tick t' σ) = set_tick t σ.
Proof. reflexivity. Qed.
Lemma tick_set_tick t σ : tick (set_tick t σ) = t.
Proof. reflexivity. Qed.

Section op_lemmas.
Context {K V : Type} `{Countable K} (m : bpf_map K V).

(** In a reliable context an update is an insertion. *)
Lemma m_insert_reliable k v e σ :
  reliable e →
  m_insert m k v e σ = (tt, bm_set m (<[k:=v]> (bm_get m σ)) (next_tick σ)).
Proof.
  intros [Hu He]. unfold m_insert. rewrite Hu. destruct (bm_kind m); [done|].
  rewrite map_filter_id; [done|]. intros. apply He.
Qed.
End op_lemmas.
(** [sproj] computes projections of updated states and nothing else. *)
Ltac sproj :=
  cbn [
    bm_get bm_set bm_kind next_tick TOOL_CTX TOOL_OBJ CODE_KIND PENDING_TOOL_RESOLVE
    PENDING_FRAME_TOOL FORK_CTX FRAME_CTX TASK_CTX TASK_CTX_STACK TASK_CTX_DEPTH
    WORKITEM_CTX PYTHREAD_OBJ_CTX PYTHREAD_OBJ_THREAD PENDING_WORKER_SPAWN
    THREADPOOL_WORKER_FRAME THREADPOOL_WORKER_CTX THREADPOOL_WORKITEM_THREAD
    WORKER_RUN_CARRIER THREAD_CURRENT_FRAME THREAD_TSTATE TOOL_STACK TOOL_STACK_DEPTH
    PENDING_TOOL_CLOSE THREAD_ACTIVE_CTX THREAD_ACTIVE_TASK THREAD_CTX_STACK
    THREAD_CTX_DEPTH FRAME_ENTRY_STASH FRAME_STASH_DEPTH TASK_STEP_STASH TASK_STEP_PREV_TASK
    WORKER_RUN_STACK WORKER_RUN_DEPTH PROTECTED_TGIDS TOOL_FS_POLICY TOOL_EXEC_POLICY
    IRONSCOPE_CONFIG tool_ctx tool_obj code_kind pending_tool_resolve pending_frame_tool
    fork_ctx frame_ctx task_ctx task_ctx_stack task_ctx_depth workitem_ctx pythread_obj_ctx
    pythread_obj_thread pending_worker_spawn threadpool_worker_frame threadpool_worker_ctx
    threadpool_workitem_thread worker_run_carrier thread_current_frame thread_tstate
    tool_stack tool_stack_depth pending_tool_close thread_active_ctx thread_active_task
    thread_ctx_stack thread_ctx_depth frame_entry_stash frame_stash_depth task_step_stash
    task_step_prev_task worker_run_stack worker_run_depth protected_tgids tool_fs_policy
    tool_exec_policy ironscope_config python_offsets ctx_counter root_rules tool_net_policy
    py_events resolver_events guard_events alloc_state tick set_tool_ctx set_tool_obj set_code_kind
    set_pending_tool_resolve set_pending_frame_tool set_fork_ctx set_frame_ctx set_task_ctx
    set_task_ctx_stack set_task_ctx_depth set_workitem_ctx set_pythread_obj_ctx
    set_pythread_obj_thread set_pending_worker_spawn set_threadpool_worker_frame
    set_threadpool_worker_ctx set_threadpool_workitem_thread set_worker_run_carrier
    set_thread_current_frame set_thread_tstate set_tool_stack set_tool_stack_depth
    set_pending_tool_close set_thread_active_ctx set_thread_active_task set_thread_ctx_stack
    set_thread_ctx_depth set_frame_entry_stash set_frame_stash_depth set_task_step_stash
    set_task_step_prev_task set_worker_run_stack set_worker_run_depth set_protected_tgids
    set_tool_fs_policy set_tool_exec_policy set_ironscope_config set_python_offsets
    set_ctx_counter set_root_rules set_tool_net_policy set_py_events set_resolver_events
    set_guard_events set_alloc_state set_tick].
Ltac sproj_in H :=
  cbn [
    bm_get bm_set bm_kind next_tick TOOL_CTX TOOL_OBJ CODE_KIND PENDING_TOOL_RESOLVE
    PENDING_FRAME_TOOL FORK_CTX FRAME_CTX TASK_CTX TASK_CTX_STACK TASK_CTX_DEPTH
    WORKITEM_CTX PYTHREAD_OBJ_CTX PYTHREAD_OBJ_THREAD PENDING_WORKER_SPAWN
    THREADPOOL_WORKER_FRAME THREADPOOL_WORKER_CTX THREADPOOL_WORKITEM_THREAD
    WORKER_RUN_CARRIER THREAD_CURRENT_FRAME THREAD_TSTATE TOOL_STACK TOOL_STACK_DEPTH
    PENDING_TOOL_CLOSE THREAD_ACTIVE_CTX THREAD_ACTIVE_TASK THREAD_CTX_STACK
    THREAD_CTX_DEPTH FRAME_ENTRY_STASH FRAME_STASH_DEPTH TASK_STEP_STASH TASK_STEP_PREV_TASK
    WORKER_RUN_STACK WORKER_RUN_DEPTH PROTECTED_TGIDS TOOL_FS_POLICY TOOL_EXEC_POLICY
    IRONSCOPE_CONFIG tool_ctx tool_obj code_kind pending_tool_resolve pending_frame_tool
    fork_ctx frame_ctx task_ctx task_ctx_stack task_ctx_depth workitem_ctx pythread_obj_ctx
    pythread_obj_thread pending_worker_spawn threadpool_worker_frame threadpool_worker_ctx
    threadpool_workitem_thread worker_run_carrier thread_current_frame thread_tstate
    tool_stack tool_stack_depth pending_tool_close thread_active_ctx thread_active_task
    thread_ctx_stack thread_ctx_depth frame_entry_stash frame_stash_depth task_step_stash
    task_step_prev_task worker_run_stack worker_run_depth protected_tgids tool_fs_policy
    tool_exec_policy ironscope_config python_offsets ctx_counter root_rules tool_net_policy
    py_events resolver_events guard_events alloc_state tick set_tool_ctx set_tool_obj set_code_kind
    set_pending_tool_resolve set_pending_frame_tool set_fork_ctx set_frame_ctx set_task_ctx
    set_task_ctx_stack set_task_ctx_depth set_workitem_ctx set_pythread_obj_ctx
    set_pythread_obj_thread set_pending_worker_spawn set_threadpool_worker_frame
    set_threadpool_worker_ctx set_threadpool_workitem_thread set_worker_run_carrier
    set_thread_current_frame set_thread_tstate set_tool_stack set_tool_stack_depth
    set_pending_tool_close set_thread_active_ctx set_thread_active_task set_thread_ctx_stack
    set_thread_ctx_depth set_frame_entry_stash set_frame_stash_depth set_task_step_stash
    set_task_step_prev_task set_worker_run_stack set_worker_run_depth set_protected_tgids
    set_tool_fs_policy set_tool_exec_policy set_ironscope_config set_python_offsets
    set_ctx_counter set_root_rules set_tool_net_policy set_py_events set_resolver_events
    set_guard_events set_alloc_state set_tick] in H.

(** [step_run] evaluates the monad's combinators and the total map operations of a
    handler applied to a context and a state; updates are resolved by
    [m_insert_reliable]. *)
Ltac step_run :=
  cbv beta iota zeta delta
    [mret mbind probeM_ret probeM_bind try_bind when m_get m_remove m_alter get_tgid get_tid
     get_object_key get_task_stack_key fst snd].

(** The judgements of the primitive operations. *)
#[export] Hint Extern 0 (m_get _ _ _ _ = _) => reflexivity : mrun.
#[export] Hint Extern 0 (m_remove _ _ _ _ = _) => reflexivity : mrun.
#[export] Hint Extern 0 (m_alter _ _ _ _ _ = _) => reflexivity : mrun.
#[export] Hint Extern 0 (get_tgid _ _ = _) => reflexivity : mrun.
#[export] Hint Extern 0 (get_tid _ _ = _) => reflexivity : mrun.
#[export] Hint Extern 0 (get_object_key _ _ _ = _) => reflexivity : mrun.
#[export] Hint Extern 0 (get_task_stack_key _ _ _ _ = _) => reflexivity : mrun.
#[export] Hint Extern 0 (bpf_ktime_get_ns _ _ = _) => reflexivity : mrun.
#[export] Hint Extern 0 (ring_reserve _ _ = _) => reflexivity : mrun.
#[export] Hint Extern 0 (read_reg _ _ _ = _) => reflexivity : mrun.
#[export] Hint Extern 0 (read_arg _ _ _ = _) => reflexivity : mrun.
#[export] Hint Extern 0 (PYTHON_OFFSETS_get _ _ _ = _) => reflexivity : mrun.
#[export] Hint Extern 0 (ROOT_RULES_get _ _ _ = _) => reflexivity : mrun.
#[export] Hint Extern 0 (read_user_u64 _ _ _ = _) => reflexivity : mrun.
#[export] Hint Extern 0 (read_user_u32 _ _ _ = _) => reflexivity : mrun.
#[export] Hint Extern 0 (read_user_u8 _ _ _ = _) => reflexivity : mrun.
#[export] Hint Extern 0 (core_read _ _ _ _ = _) => reflexivity : mrun.
#[export] Hint Extern 0 (m_insert _ _ _ _ _ = _) =>
  (apply m_insert_reliable; assumption) : mrun.
