(* ===== verification/Samples.v ===== *)
(** * Concrete contexts

    One context and the states around it, on which the theorems with hypotheses
    are instantiated. *)

From stdpp Require Import base gmap list.
From S2P Require Import Prelude Types Maps.

(** Process 7, thread 9, processor 1; every helper call succeeds and the clock
    counts the calls. *)
Definition sample_env (args : nat → option Z) (accessor : core_field → Z → option Z)
    (lpm : list (Z * ToolNetData * Z) → Z → ToolNetData → option Z) : Env :=
  {| pid_tgid := 7 * 2 ^ 32 + 9; processor_id := 1; ktime := λ t, u64 (Z.of_nat t);
     update_ok := λ _, true; evicts := λ _ _, false; reserve_ok := λ _, true;
     user_mem := λ _, None; reg := λ _, None; arg := args; shim := accessor;
     mount_of := λ v, v - 32; kernel_mem := λ a, Some (if a =? 710 then 47 else 97);
     lpm_get := lpm |}.

Definition env0 : Env := sample_env (λ _, None) (λ _ _, None) (λ _ _ _, None).

Lemma sample_reliable args accessor lpm : reliable (sample_env args accessor lpm).
Proof. done. Qed.

(** A [struct file] at address 64, the file [/a], whose inode is 500 on device 1;
    as a [struct sockaddr] the address reads 10.0.0.1:443. *)
Definition inode_accessor (f : core_field) (p : Z) : option Z :=
  match f with
  | file_f_inode => if p =? 64 then Some 128 else None
  | inode_i_ino => if p =? 128 then Some 500 else None
  | inode_i_sb => if p =? 128 then Some 256 else None
  | super_block_s_dev => if p =? 256 then Some 1 else None
  | sockaddr_sa_family => Some 2
  | sockaddr_in_s_addr => Some 0x0100000a
  | sockaddr_in_sin_port => Some 0xbb01
  | _ => None
  end.

Definition file_accessor (f : core_field) (p : Z) : option Z :=
  match f with
  | file_f_path => Some 300
  | path_dentry => Some 400
  | path_mnt => Some 500
  | mount_mnt_parent => Some 468
  | vfsmount_mnt_root | dentry_d_parent => Some 410
  | dentry_d_name => Some (p + 200)
  | qstr_name => Some (p + 100)
  | qstr_hash_len => Some (2 ^ 32)
  | _ => inode_accessor f p
  end.

Definition env_file : Env :=
  sample_env (λ _, Some 64) file_accessor (λ _ _ _, Some PERM_DENY).
(** The same file on a kernel whose dentries cannot be read. *)
Definition env_nopath : Env :=
  sample_env (λ _, Some 64) inode_accessor (λ _ _ _, Some PERM_DENY).

Definition sample_config (mode : Z) : IronScopeConfig :=
  {| ic_mode := mode; ic_discover := 1; ic_unattributed_policy := UNATTRIBUTED_AUDIT_ONLY;
     ic_unknown_tool_policy := UNKNOWN_TOOL_ALLOW;
     ic_resolver_error_policy := RESOLVER_ERROR_DENY;
     ic_child_scope := CHILD_SCOPE_TOOL_ONLY; ic_default_tool_policy := DEFAULT_TOOL_ALLOW |}.

Definition sample_ctx (tool_id : Z) : ToolCtx :=
  {| tc_tool_id := tool_id; tc_generation := 0; tc_carrier_count := 1;
     tc_flags := TOOL_CTX_FLAG_RESOLVED; tc_started_ns := 0; tc_last_seen_ns := 0 |}.

(** Context 17 of tool 5 alone. *)
Definition state_ctx : State := set_tool_ctx {[ 17 := sample_ctx 5 ]} empty_state.

(** Process 7 is protected; thread 9 runs context 17 of tool 5, which may not open
    inode 500 of device 1. *)
Definition state_denied (mode : Z) : State :=
  set_ironscope_config {[ 0 := sample_config mode ]}
    (set_tool_fs_policy {[ {| fp_tool_id := 5; fp_dev := 1; fp_ino := 500 |} := PERM_DENY ]}
      (set_protected_tgids {[ 7 := 1 ]}
        (set_thread_active_ctx {[ 9 := 17 ]}
          (set_tool_ctx {[ 17 := sample_ctx 5 ]} empty_state)))).
