(* ===== verification/Ownership.v ===== *)
(** * Context ownership ([ironscope-ebpf/src/ownership.rs])

    The stacks that tie a tool context to the thread, the asyncio task and the
    Python frame that carry it, the reference count of a context
    ([lifecycle::carrier_inc], [carrier_dec]) and the events of the
    [PY_EVENTS] ring. *)

From stdpp Require Import base gmap list.
From S2P Require Import Prelude Types Maps.

(** ** Events *)

Definition push_py_event (ev : PyEvent) : M unit := λ e σ,
  (tt, set_py_events (py_events σ ++ [ev]) σ).

(** Reserve a slot, time-stamp the event and submit it; a full ring drops it. *)
Definition submit_py_event (pid tid kind ctx_id tool_id carrier_ptr aux : Z) : M unit :=
  ok ← ring_reserve;
  when ok (ts ← bpf_ktime_get_ns;
           push_py_event {| pe_pid := pid; pe_tid := tid; pe_ts_ns := ts; pe_kind := kind;
                            pe_ctx_id := ctx_id; pe_tool_id := tool_id;
                            pe_carrier_ptr := carrier_ptr; pe_aux := aux |}).

Definition emit_py_event (kind ctx_id tool_id : Z) : M unit :=
  pid ← get_tgid; tid ← get_tid;
  submit_py_event pid tid kind ctx_id tool_id 0 0.

Definition emit_py_event_carrier (kind ctx_id tool_id carrier_ptr : Z) : M unit :=
  pid ← get_tgid; tid ← get_tid;
  submit_py_event pid tid kind ctx_id tool_id carrier_ptr 0.

Definition emit_py_event_carrier_for_tid (kind ctx_id tool_id carrier_ptr tid : Z) : M unit :=
  pid ← get_tgid;
  submit_py_event pid tid kind ctx_id tool_id carrier_ptr 0.

Definition emit_py_event_fork (kind ctx_id tool_id child_pid : Z) : M unit :=
  submit_py_event child_pid child_pid kind ctx_id tool_id 0 1.

Definition emit_py_event_aux (kind ctx_id tool_id aux : Z) : M unit :=
  pid ← get_tgid; tid ← get_tid;
  submit_py_event pid tid kind ctx_id tool_id 0 aux.

(** ** Contexts *)

(** [TOOL_CTX.get(&ctx_id).map(|c| c.tool_id).unwrap_or(TOOL_IDLE)] *)
Definition ctx_tool_id (ctx_id : Z) : M Z :=
  c ← m_get TOOL_CTX ctx_id; mret (unwrap_or (tc_tool_id <$> c) TOOL_IDLE).

(** [TOOL_CTX.get(&ctx_id).map(|c| c.flags).unwrap_or(0)] *)
Definition ctx_flags (ctx_id : Z) : M Z :=
  c ← m_get TOOL_CTX ctx_id; mret (unwrap_or (tc_flags <$> c) 0).

Definition set_carrier_count (n : Z) (c : ToolCtx) : ToolCtx :=
  {| tc_tool_id := tc_tool_id c; tc_generation := tc_generation c; tc_carrier_count := n;
     tc_flags := tc_flags c; tc_started_ns := tc_started_ns c;
     tc_last_seen_ns := tc_last_seen_ns c |}.
Definition set_generation (n : Z) (c : ToolCtx) : ToolCtx :=
  {| tc_tool_id := tc_tool_id c; tc_generation := n; tc_carrier_count := tc_carrier_count c;
     tc_flags := tc_flags c; tc_started_ns := tc_started_ns c;
     tc_last_seen_ns := tc_last_seen_ns c |}.
Definition set_last_seen (n : Z) (c : ToolCtx) : ToolCtx :=
  {| tc_tool_id := tc_tool_id c; tc_generation := tc_generation c;
     tc_carrier_count := tc_carrier_count c; tc_flags := tc_flags c;
     tc_started_ns := tc_started_ns c; tc_last_seen_ns := n |}.

(** [(cpu << 56) | val] with a per-CPU counter that starts at one. *)
Definition alloc_ctx_id : M (option Z) := λ e σ,
  let cpu := u32 (processor_id e) in
  let stored := unwrap_or (ctx_counter σ !! cpu) 0 in
  let val := if stored =? 0 then 1 else stored in
  (Some (Z.lor (cpu ≪₆₄ 56) val), set_ctx_counter (<[cpu := val ⊞ 1]> (ctx_counter σ)) σ).

Definition ctx_is_live (ctx_id : Z) : M bool :=
  c ← m_get TOOL_CTX ctx_id; mret (bool_decide (is_Some c)).

Definition get_active_ctx (tid : Z) : M (option Z) :=
  a ← m_get THREAD_ACTIVE_CTX tid;
  match a with
  | Some ctx_id =>
      live ← ctx_is_live ctx_id;
      if live : bool then mret (Some ctx_id)
      else m_remove THREAD_ACTIVE_CTX tid;; mret None
  | None => mret None
  end.

(** ** Reference count of a context ([lifecycle.rs]) *)

Definition carrier_inc (ctx_id : Z) : M unit :=
  m_alter TOOL_CTX (λ c, set_carrier_count (u32 (tc_carrier_count c + 1)) c) ctx_id.

Definition carrier_dec (ctx_id : Z) : M unit :=
  c ← m_get TOOL_CTX ctx_id;
  match c with
  | Some c =>
      let count := tc_carrier_count c in
      if count >? 1 then
        m_alter TOOL_CTX (λ c, set_generation (u32 (tc_generation c + 1))
                                 (set_carrier_count (u32 (count - 1)) c)) ctx_id
      else
        m_alter TOOL_CTX (λ c, set_generation (u32 (tc_generation c + 1)) c) ctx_id;;
        emit_py_event EVENT_TOOL_CONTEXT_END ctx_id (tc_tool_id c);;
        m_remove TOOL_CTX ctx_id
  | None => mret tt
  end.

Definition ctx_carrier_inc (ctx_id : Z) : M unit := carrier_inc ctx_id.
Definition ctx_carrier_dec (ctx_id : Z) : M unit := carrier_dec ctx_id.

(** ** Map-encoded stacks

    The loops the stack operations share.  [find_entry] looks for the first index
    below [depth] whose entry satisfies [p]; [shift_down] closes the gap left at
    [fi] by moving every later entry one index down. *)

Definition find_entry {K V} `{Countable K} (m : bpf_map K V) (key : Z → K)
    (depth : Z) (p : V → bool) : M (option (Z * V)) :=
  scan 8 0 depth (λ i,
    v ← m_get m (key i);
    mret (match v with Some v => if p v then Some (i, v) else None | None => None end)).

Definition shift_down {K V} `{Countable K} (m : bpf_map K V) (key : Z → K)
    (fuel : nat) (fi depth : Z) : M unit :=
  scan fuel (fi + 1) depth (λ src,
    v ← m_get m (key src);
    match v with
    | Some v => m_insert m (key (src - 1)) v;; m_remove m (key src);; mret None
    | None => mret (Some tt)
    end);;
  mret tt.

(** ** Per-thread context stack *)

Definition thread_key (tid i : Z) : Z := pack tid 8 i.

Definition ctx_stack_top (tid : Z) : M (option Z) :=
  depth ← m_get THREAD_CTX_DEPTH tid;
  match depth with
  | None => mret None
  | Some depth =>
      if depth =? 0 then mret None
      else
        v ← m_get THREAD_CTX_STACK (thread_key tid (depth - 1));
        match v with
        | Some ctx_id =>
            live ← ctx_is_live ctx_id;
            mret (if live : bool then Some ctx_id else None)
        | None => mret None
        end
  end.

Definition ctx_stack_contains (tid ctx_id : Z) : M bool :=
  depth ← m_get THREAD_CTX_DEPTH tid;
  r ← scan 8 0 (unwrap_or depth 0) (λ i,
        v ← m_get THREAD_CTX_STACK (thread_key tid i);
        match v with
        | Some current =>
            live ← ctx_is_live current;
            mret (if (current =? ctx_id) && live then Some tt else None)
        | None => mret None
        end);
  mret (bool_decide (is_Some r)).

Definition ctx_stack_push (tid ctx_id : Z) : M (result unit) :=
  d ← m_get THREAD_CTX_DEPTH tid;
  let depth := unwrap_or d 0 in
  if depth >=? MAX_CTX_STACK_DEPTH then
    emit_py_event_aux EVENT_AUDIT_STACK_OVERFLOW ctx_id 0 depth;;
    mret (Err 0)
  else
    m_insert THREAD_CTX_STACK (thread_key tid depth) ctx_id;;
    m_insert THREAD_CTX_DEPTH tid (u8 (depth + 1));;
    m_insert THREAD_ACTIVE_CTX tid ctx_id;;
    mret (Ok tt).

Definition ctx_stack_remove (tid ctx_id : Z) : M (option Z) :=
  d ← m_get THREAD_CTX_DEPTH tid;
  match d with
  | None => mret None
  | Some depth =>
      if depth =? 0 then mret None
      else
        found ← find_entry THREAD_CTX_STACK (thread_key tid) depth (λ c, c =? ctx_id);
        match found with
        | None => ctx_stack_top tid
        | Some (fi, _) =>
            m_remove THREAD_CTX_STACK (thread_key tid fi);;
            shift_down THREAD_CTX_STACK (thread_key tid) 7 fi depth;;
            let new_depth := depth - 1 in
            if new_depth =? 0 then
              m_remove THREAD_CTX_DEPTH tid;;
              m_remove THREAD_ACTIVE_CTX tid;;
              mret None
            else
              m_insert THREAD_CTX_DEPTH tid (u8 new_depth);;
              parent_ctx ← m_get THREAD_CTX_STACK (thread_key tid (new_depth - 1));
              match parent_ctx with
              | Some pctx => m_insert THREAD_ACTIVE_CTX tid pctx
              | None => m_remove THREAD_ACTIVE_CTX tid
              end;;
              mret parent_ctx
        end
  end.

(** ** Per-thread stack of tool-root frames *)

Definition tool_key (tid i : Z) : Z := pack tid 32 i.

Definition tool_stack_push (tid ctx_id frame_ptr parent_ptr tool_id : Z) : M unit :=
  d ← m_get TOOL_STACK_DEPTH tid;
  let depth := unwrap_or d 0 in
  if depth >=? MAX_CTX_STACK_DEPTH then mret tt
  else
    m_insert TOOL_STACK (tool_key tid depth)
      {| se_ctx_id := ctx_id; se_frame_ptr := frame_ptr; se_parent_ptr := parent_ptr;
         se_tool_id := tool_id |};;
    m_insert TOOL_STACK_DEPTH tid (u32 (depth + 1)).

Definition tool_stack_refresh (tid ctx_id frame_ptr parent_ptr tool_id : Z) : M unit :=
  d ← m_get TOOL_STACK_DEPTH tid;
  r ← find_entry TOOL_STACK (tool_key tid) (unwrap_or d 0)
        (λ en, (se_frame_ptr en =? frame_ptr) && (se_ctx_id en =? ctx_id));
  match r with
  | Some (i, _) =>
      m_insert TOOL_STACK (tool_key tid i)
        {| se_ctx_id := ctx_id; se_frame_ptr := frame_ptr; se_parent_ptr := parent_ptr;
           se_tool_id := tool_id |}
  | None => tool_stack_push tid ctx_id frame_ptr parent_ptr tool_id
  end.

(** The body of [tool_stack_remove_ctx], [tool_stack_pop_if_frame_parent] and
    [tool_stack_remove_frame_ctx], which differ in the test on the entry. *)
Definition tool_stack_remove_if (p : ToolStackEntry → bool) (tid : Z)
    : M (option ToolStackEntry) :=
  d ← m_get TOOL_STACK_DEPTH tid;
  match d with
  | None => mret None
  | Some depth =>
      if depth =? 0 then mret None
      else
        found ← find_entry TOOL_STACK (tool_key tid) depth p;
        match found with
        | None => mret None
        | Some (fi, entry) =>
            m_remove TOOL_STACK (tool_key tid fi);;
            shift_down TOOL_STACK (tool_key tid) 7 fi depth;;
            let new_depth := depth - 1 in
            (if new_depth =? 0 then m_remove TOOL_STACK_DEPTH tid
             else m_insert TOOL_STACK_DEPTH tid new_depth);;
            mret (Some entry)
        end
  end.

Definition tool_stack_remove_ctx (tid ctx_id : Z) : M (option ToolStackEntry) :=
  tool_stack_remove_if (λ en, se_ctx_id en =? ctx_id) tid.

Definition tool_stack_pop_if_frame_parent (tid frame_ptr parent_ptr : Z)
    : M (option ToolStackEntry) :=
  tool_stack_remove_if
    (λ en, (se_frame_ptr en =? frame_ptr) && (se_parent_ptr en =? parent_ptr)) tid.

Definition tool_stack_remove_frame_ctx (tid frame_ptr ctx_id : Z)
    : M (option ToolStackEntry) :=
  tool_stack_remove_if
    (λ en, (se_frame_ptr en =? frame_ptr) && (se_ctx_id en =? ctx_id)) tid.

(** ** Per-task context stack *)

Definition task_ctx_current (task_ptr : Z) : M (option Z) :=
  k ← get_object_key task_ptr; m_get TASK_CTX k.

Definition task_ctx_depth_for (task_ptr : Z) : M Z :=
  k ← get_object_key task_ptr; d ← m_get TASK_CTX_DEPTH k; mret (unwrap_or d 0).

Definition task_ctx_contains_tool (task_ptr tool_id : Z) : M bool :=
  if tool_id =? TOOL_IDLE then mret false
  else
    depth ← task_ctx_depth_for task_ptr;
    r ← scan 8 0 depth (λ i,
          key ← get_task_stack_key task_ptr i;
          v ← m_get TASK_CTX_STACK key;
          match v with
          | Some ctx_id =>
              c ← m_get TOOL_CTX ctx_id;
              match c with
              | Some c =>
                  live ← ctx_is_live ctx_id;
                  mret (if (tc_tool_id c =? tool_id) && live then Some tt else None)
              | None => mret None
              end
          | None => mret None
          end);
    mret (bool_decide (is_Some r)).

Definition task_ctx_push (tid task_ptr ctx_id tool_id : Z) : M (result unit) :=
  task_key ← get_object_key task_ptr;
  cur ← m_get TASK_CTX task_key;
  if bool_decide (cur = Some ctx_id) then
    m_insert THREAD_ACTIVE_CTX tid ctx_id;; mret (Ok tt)
  else
    d ← m_get TASK_CTX_DEPTH task_key;
    let depth := unwrap_or d 0 in
    if depth >=? MAX_CTX_STACK_DEPTH then
      emit_py_event_aux EVENT_AUDIT_STACK_OVERFLOW ctx_id tool_id depth;;
      mret (Err 0)
    else
      stack_key ← get_task_stack_key task_ptr depth;
      m_insert TASK_CTX_STACK stack_key ctx_id;;
      m_insert TASK_CTX_DEPTH task_key (u32 (depth + 1));;
      m_insert TASK_CTX task_key ctx_id;;
      m_insert THREAD_ACTIVE_CTX tid ctx_id;;
      ctx_carrier_inc ctx_id;;
      emit_py_event_carrier EVENT_TASK_BIND ctx_id tool_id task_ptr;;
      mret (Ok tt).

Definition task_ctx_remove (tid task_ptr expected_ctx : Z) : M (option Z) :=
  tgid ← get_tgid;
  let key := λ i, {| ts_tgid := tgid; ts_depth := i; ts_task_ptr := task_ptr |} in
  task_key ← get_object_key task_ptr;
  d ← m_get TASK_CTX_DEPTH task_key;
  match d with
  | None => mret None
  | Some depth =>
      if depth =? 0 then mret None
      else
        found ← find_entry TASK_CTX_STACK key depth (λ c, c =? expected_ctx);
        match found with
        | None => m_get TASK_CTX task_key
        | Some (fi, _) =>
            tool_id ← ctx_tool_id expected_ctx;
            emit_py_event_carrier EVENT_TASK_UNBIND expected_ctx tool_id task_ptr;;
            m_remove TASK_CTX_STACK (key fi);;
            ctx_carrier_dec expected_ctx;;
            shift_down TASK_CTX_STACK key 7 fi depth;;
            let new_depth := depth - 1 in
            if new_depth =? 0 then
              m_remove TASK_CTX_DEPTH task_key;;
              m_remove TASK_CTX task_key;;
              m_remove THREAD_ACTIVE_CTX tid;;
              mret None
            else
              m_insert TASK_CTX_DEPTH task_key new_depth;;
              top ← m_get TASK_CTX_STACK (key (new_depth - 1));
              match top with
              | Some parent_ctx =>
                  m_insert TASK_CTX task_key parent_ctx;;
                  m_insert THREAD_ACTIVE_CTX tid parent_ctx;;
                  mret (Some parent_ctx)
              | None =>
                  m_remove TASK_CTX task_key;;
                  m_remove THREAD_ACTIVE_CTX tid;;
                  mret None
              end
        end
  end.

(** ** Deferred closes of asynchronous tool frames *)

Definition finish_tool_close (tid : Z) (entry : ToolStackEntry) : M bool :=
  frame_key ← get_object_key (se_frame_ptr entry);
  f ← m_get FRAME_CTX frame_key;
  if bool_decide (f = Some (se_ctx_id entry)) then
    m_remove FRAME_CTX frame_key;;
    ctx_stack_remove tid (se_ctx_id entry);;
    emit_py_event EVENT_TOOL_FRAME_END (se_ctx_id entry) (se_tool_id entry);;
    ctx_carrier_dec (se_ctx_id entry);;
    mret true
  else mret false.

Definition finish_deferred_tool_close_at_depth (tid task_ptr depth ctx_id : Z) : M unit :=
  stack_key ← get_task_stack_key task_ptr depth;
  en ← m_get PENDING_TOOL_CLOSE stack_key;
  match en with
  | Some entry =>
      if se_ctx_id entry =? ctx_id then
        m_remove PENDING_TOOL_CLOSE stack_key;;
        finish_tool_close tid entry;;
        mret tt
      else mret tt
  | None => mret tt
  end.

Definition finish_deferred_tool_close (tid task_ptr ctx_id : Z) : M unit :=
  scan 8 0 8 (λ i, finish_deferred_tool_close_at_depth tid task_ptr i ctx_id;;
                   mret (None : option unit));;
  mret tt.

Definition defer_tool_close (task_ptr : Z) (entry : ToolStackEntry) : M unit :=
  c ← m_get TOOL_CTX (se_ctx_id entry);
  match c with
  | Some _ => now ← bpf_ktime_get_ns; m_alter TOOL_CTX (set_last_seen now) (se_ctx_id entry)
  | None => mret tt
  end;;
  task_key ← get_object_key task_ptr;
  d ← m_get TASK_CTX_DEPTH task_key;
  let depth := unwrap_or d 1 in
  let pending_depth := if depth =? 0 then 0 else depth - 1 in
  stack_key ← get_task_stack_key task_ptr pending_depth;
  m_insert PENDING_TOOL_CLOSE stack_key entry.

Definition cancel_deferred_tool_close (task_ptr ctx_id frame_ptr : Z) : M unit :=
  depth ← task_ctx_depth_for task_ptr;
  scan 8 0 depth (λ i,
    stack_key ← get_task_stack_key task_ptr i;
    en ← m_get PENDING_TOOL_CLOSE stack_key;
    match en with
    | Some entry =>
        if (se_ctx_id entry =? ctx_id) && (se_frame_ptr entry =? frame_ptr) then
          m_remove PENDING_TOOL_CLOSE stack_key;; mret (Some tt)
        else mret None
    | None => mret None
    end);;
  mret tt.

Definition deferred_tool_ctx_for_worker (task_ptr : Z) : M (option Z) :=
  scan 8 0 MAX_TASK_CTX_STACK_DEPTH (λ i,
    stack_key ← get_task_stack_key task_ptr (MAX_TASK_CTX_STACK_DEPTH - 1 - i);
    en ← m_get PENDING_TOOL_CLOSE stack_key;
    match en with
    | Some entry =>
        live ← ctx_is_live (se_ctx_id entry);
        mret (if live : bool then Some (se_ctx_id entry) else None)
    | None => mret None
    end).

Definition restore_deferred_tool_close (tid task_ptr : Z) : M (option Z) :=
  r ← scan 8 0 8 (λ i,
        stack_key ← get_task_stack_key task_ptr (7 - i);
        en ← m_get PENDING_TOOL_CLOSE stack_key;
        match en with
        | Some entry =>
            live ← ctx_is_live (se_ctx_id entry);
            m_remove PENDING_TOOL_CLOSE stack_key;;
            if live : bool then
              tool_stack_push tid (se_ctx_id entry) (se_frame_ptr entry)
                (se_parent_ptr entry) (se_tool_id entry);;
              p ← task_ctx_push tid task_ptr (se_ctx_id entry) (se_tool_id entry);
              mret (Some (if is_ok p then Some (se_ctx_id entry) else None))
            else mret (Some None)
        | None => mret None
        end);
  mret (unwrap_or r None).

(** The body of the first loop of [task_ctx_clear]: one stack entry. *)
Definition task_clear_entry (tid task_ptr idx : Z) : M (option unit) :=
  stack_key ← get_task_stack_key task_ptr idx;
  v ← m_get TASK_CTX_STACK stack_key;
  match v with
  | Some ctx_id =>
      tool_id ← ctx_tool_id ctx_id;
      emit_py_event_carrier EVENT_TASK_UNBIND ctx_id tool_id task_ptr;;
      finish_deferred_tool_close_at_depth tid task_ptr idx ctx_id;;
      en ← tool_stack_remove_ctx tid ctx_id;
      match en with
      | Some entry => finish_tool_close tid entry;; mret tt
      | None => mret tt
      end;;
      ctx_carrier_dec ctx_id
  | None => mret tt
  end;;
  m_remove TASK_CTX_STACK stack_key;;
  m_remove PENDING_TOOL_CLOSE stack_key;;
  mret None.

(** Its second loop: deferred closes that no stack entry accounts for. *)
Definition task_clear_pending (tid task_ptr : Z) : M unit :=
  scan 8 0 8 (λ pending_i,
    pending_key ← get_task_stack_key task_ptr pending_i;
    en ← m_get PENDING_TOOL_CLOSE pending_key;
    match en with
    | Some entry =>
        m_remove PENDING_TOOL_CLOSE pending_key;;
        finish_tool_close tid entry;;
        mret (None : option unit)
    | None => mret None
    end);;
  mret tt.

Definition task_ctx_clear (tid task_ptr : Z) : M unit :=
  task_key ← get_object_key task_ptr;
  d ← m_get TASK_CTX_DEPTH task_key;
  let depth := unwrap_or d 0 in
  scan 8 0 depth (λ i, task_clear_entry tid task_ptr (depth - 1 - i));;
  task_clear_pending tid task_ptr;;
  m_remove TASK_CTX_DEPTH task_key;;
  m_remove TASK_CTX task_key.

(** ** Frame stash *)

Definition stash_key (tid i : Z) : Z := pack tid 16 i.

Definition frame_stash_push (tid frame_ptr : Z) : M unit :=
  d ← m_get FRAME_STASH_DEPTH tid;
  let depth := unwrap_or d 0 in
  m_insert FRAME_ENTRY_STASH (stash_key tid depth) frame_ptr;;
  m_insert FRAME_STASH_DEPTH tid (u32 (depth + 1)).

Definition frame_stash_pop (tid : Z) : M (option Z) :=
  d ← m_get FRAME_STASH_DEPTH tid;
  match d with
  | None => mret None
  | Some depth =>
      if depth =? 0 then mret None
      else
        let new_depth := depth - 1 in
        let key := stash_key tid new_depth in
        val ← m_get FRAME_ENTRY_STASH key;
        m_remove FRAME_ENTRY_STASH key;;
        (if new_depth =? 0 then m_remove FRAME_STASH_DEPTH tid
         else m_insert FRAME_STASH_DEPTH tid new_depth);;
        mret val
  end.

Definition frame_stash_peek (tid : Z) : M (option Z) :=
  d ← m_get FRAME_STASH_DEPTH tid;
  match d with
  | None => mret None
  | Some depth =>
      if depth =? 0 then mret None
      else m_get FRAME_ENTRY_STASH (stash_key tid (depth - 1))
  end.
