(* ===== verification/Identity.v ===== *)
(** * Code classification and tool identity
    ([ironscope-ebpf/src/code_classifier.rs], [tool_identity.rs])

    A code object is classified by the FNV-1a hash of its qualified name against
    the rules that user space installs; the tool a root frame runs is read from
    the frame's locals and checked against the resolver's cache. *)

From stdpp Require Import base gmap list.
From S2P Require Import Prelude Types Maps Ownership.

(** ** FNV-1a ([code_classifier.rs], [tool_identity.rs]) *)

Definition FNV_OFFSET := 0xcbf29ce484222325.
Definition FNV_PRIME := 0x100000001b3.
Definition MAX_HASH_BYTES : nat := 64.

(** The loop runs over the whole buffer and skips the positions from [len] on. *)
Fixpoint fnv1a_64_loop (buf : list Z) (i len hash : Z) : Z :=
  match buf with
  | [] => hash
  | b :: buf =>
      let hash := if i <? len then Z.lxor hash b ⊠ FNV_PRIME else hash in
      fnv1a_64_loop buf (i + 1) len hash
  end.
Definition fnv1a_64 (buf : list Z) (len : Z) : Z := fnv1a_64_loop buf 0 len FNV_OFFSET.

(** The index of the first NUL byte, or the size of the buffer. *)
Fixpoint strnlen (buf : list Z) : Z :=
  match buf with
  | [] => 0
  | b :: buf => if b =? 0 then 0 else 1 + strnlen buf
  end.

Fixpoint fnv1a_32_loop (buf : list Z) (h : Z) : Z :=
  match buf with
  | [] => h
  | b :: buf => if b =? 0 then h else fnv1a_32_loop buf (u32 (Z.lxor h b * 0x01000193))
  end.
Definition fnv1a_32 (buf : list Z) : Z :=
  let h := fnv1a_32_loop buf 0x811c9dc5 in
  if h =? 0 then 1 else h.

(** ** Classifier *)

(** The 64 bytes at the qualified name's character data. *)
Definition read_qualname (code_ptr : Z) : M (option (list Z)) :=
  off_qualname ← PYTHON_OFFSETS_get OFF_CODE_QUALNAME;
  off_compact ← PYTHON_OFFSETS_get OFF_UNICODE_COMPACT_DATA;
  match off_qualname, off_compact with
  | Some off_qualname, Some off_compact =>
      qualname_ptr ← read_user_u64 (code_ptr ⊞ off_qualname);
      match qualname_ptr with
      | Some qualname_ptr =>
          if qualname_ptr =? 0 then mret None
          else probe_read_user MAX_HASH_BYTES (qualname_ptr ⊞ off_compact)
      | None => mret None
      end
  | _, _ => mret None
  end.

Definition read_qualname_hash (code_ptr : Z) : M (option Z) :=
  buf ← read_qualname code_ptr;
  mret (match buf with
        | Some buf =>
            let len := strnlen buf in
            if len =? 0 then None else Some (fnv1a_64 buf len)
        | None => None
        end).

(** The two suffixes that mark a tool's implementation, [._run] and [._arun]. *)
Definition has_suffix (buf : list Z) (len : Z) (suffix : list Z) : bool :=
  let n := Z.of_nat (length suffix) in
  (n <=? len) && bool_decide (take (length suffix) (drop (Z.to_nat (len - n)) buf) = suffix).

Definition SUFFIX_RUN : list Z := [46; 95; 114; 117; 110].
Definition SUFFIX_ARUN : list Z := [46; 95; 97; 114; 117; 110].

Definition qualname_has_tool_impl_suffix (code_ptr : Z) : M bool :=
  buf ← read_qualname code_ptr;
  mret (match buf with
        | Some buf =>
            let len := strnlen buf in
            has_suffix buf len SUFFIX_RUN || has_suffix buf len SUFFIX_ARUN
        | None => false
        end).

Definition classify (tgid code_ptr : Z) : M Z :=
  let key := {| ck_tgid := tgid; ck_code_ptr := code_ptr |} in
  hash ← read_qualname_hash code_ptr;
  match hash with
  | None => m_insert CODE_KIND key CODE_KIND_IGNORE;; mret CODE_KIND_IGNORE
  | Some hash =>
      r ← scan 64 0 64 (λ i,
            rule ← ROOT_RULES_get i;
            match rule with
            | Some rule =>
                if negb (rr_kind rule =? 0) && (rr_qualname_hash rule =? hash) then
                  m_insert CODE_KIND key (rr_kind rule);; mret (Some (rr_kind rule))
                else mret None
            | None => mret None
            end);
      match r with
      | Some kind => mret kind
      | None => m_insert CODE_KIND key CODE_KIND_IGNORE;; mret CODE_KIND_IGNORE
      end
  end.

(** ** Tool identity *)

Definition set_tool_id_resolved (tool_id : Z) (c : ToolCtx) : ToolCtx :=
  {| tc_tool_id := tool_id; tc_generation := tc_generation c;
     tc_carrier_count := tc_carrier_count c;
     tc_flags := Z.lor (tc_flags c) TOOL_CTX_FLAG_RESOLVED;
     tc_started_ns := tc_started_ns c; tc_last_seen_ns := tc_last_seen_ns c |}.
Definition or_flags (mask : Z) (c : ToolCtx) : ToolCtx :=
  {| tc_tool_id := tc_tool_id c; tc_generation := tc_generation c;
     tc_carrier_count := tc_carrier_count c; tc_flags := Z.lor (tc_flags c) mask;
     tc_started_ns := tc_started_ns c; tc_last_seen_ns := tc_last_seen_ns c |}.

Definition set_ctx_tool_id (ctx_id tool_id : Z) : M unit :=
  m_alter TOOL_CTX (set_tool_id_resolved tool_id) ctx_id.

Definition mark_resolver_error (ctx_id code_kind : Z) : M unit :=
  m_alter TOOL_CTX (or_flags TOOL_CTX_FLAG_RESOLVER_ERROR) ctx_id;;
  emit_py_event EVENT_AUDIT_UNRESOLVED ctx_id code_kind.

Definition emit_audit_unresolved (ctx_id code_kind : Z) : M unit :=
  mark_resolver_error ctx_id code_kind.

Definition pending_tool_resolve_key (tgid self_ptr : Z) : PendingToolResolveKey :=
  {| pr_tgid := tgid; pr_self_ptr := self_ptr |}.

Definition read_type_ptr (obj_ptr : Z) : M Z :=
  off ← PYTHON_OFFSETS_get OFF_OBJ_TYPE;
  match off with
  | Some off => v ← read_user_u64 (obj_ptr ⊞ off); mret (unwrap_or v 0)
  | None => mret 0
  end.

Definition push_resolver_event (ev : ResolverEvent) : M unit := λ e σ,
  (tt, set_resolver_events (resolver_events σ ++ [ev]) σ).

Definition emit_resolver_candidate (ctx_id code_kind self_ptr frame_ptr code_ptr : Z) : M unit :=
  tgid ← get_tgid; tid ← get_tid;
  let key := pending_tool_resolve_key tgid self_ptr in
  p ← m_get PENDING_TOOL_RESOLVE key;
  match p with
  | Some _ => mret tt
  | None =>
      m_insert PENDING_TOOL_RESOLVE key ctx_id;;
      ok ← ring_reserve;
      when ok (
        ts ← bpf_ktime_get_ns;
        type_ptr ← read_type_ptr self_ptr;
        push_resolver_event
          {| re_pid := tgid; re_tid := tid; re_ts_ns := ts; re_kind := EVENT_RESOLVER_CANDIDATE;
             re_code_kind := code_kind; re_ctx_id := ctx_id; re_self_ptr := self_ptr;
             re_type_ptr := type_ptr; re_frame_ptr := frame_ptr; re_code_ptr := code_ptr |})
  end.

Definition emit_resolver_failed (ctx_id code_kind self_ptr frame_ptr code_ptr type_ptr : Z)
    : M unit :=
  tgid ← get_tgid; tid ← get_tid;
  ok ← ring_reserve;
  when ok (
    ts ← bpf_ktime_get_ns;
    push_resolver_event
      {| re_pid := tgid; re_tid := tid; re_ts_ns := ts; re_kind := EVENT_RESOLVER_FAILED;
         re_code_kind := code_kind; re_ctx_id := ctx_id; re_self_ptr := self_ptr;
         re_type_ptr := type_ptr; re_frame_ptr := frame_ptr; re_code_ptr := code_ptr |}).

(** A cache entry answers only for an object that still has the type it was
    resolved with. *)
Definition cache_valid (entry : ToolObjCacheEntry) (actual_type_ptr : Z) : bool :=
  negb (to_tool_id entry =? 0) && negb (to_type_ptr entry =? 0)
  && (to_type_ptr entry =? actual_type_ptr).

(** The [EXTRACTOR_SLOT_OBJ] arm of [extract_and_resolve]. *)
Definition resolve_slot_obj (obj_ptr frame_ptr code_ptr : Z) (rule : RootRule) (ctx_id : Z)
    : M Z :=
  key ← get_object_key obj_ptr;
  entry ← m_get TOOL_OBJ key;
  match entry with
  | Some entry =>
      actual_type_ptr ← read_type_ptr obj_ptr;
      if cache_valid entry actual_type_ptr then
        set_ctx_tool_id ctx_id (to_tool_id entry);; mret (to_tool_id entry)
      else
        m_remove TOOL_OBJ key;;
        tgid ← get_tgid;
        m_remove PENDING_TOOL_RESOLVE (pending_tool_resolve_key tgid obj_ptr);;
        mark_resolver_error ctx_id (rr_kind rule);;
        emit_resolver_failed ctx_id (rr_kind rule) obj_ptr frame_ptr code_ptr actual_type_ptr;;
        mret 0
  | None =>
      emit_resolver_candidate ctx_id (rr_kind rule) obj_ptr frame_ptr code_ptr;; mret 0
  end.

(** The [EXTRACTOR_SLOT_NAME] arm. *)
Definition resolve_slot_name (obj_ptr : Z) (rule : RootRule) (ctx_id : Z) : M Z :=
  compact_off ← PYTHON_OFFSETS_get OFF_UNICODE_COMPACT_DATA;
  match compact_off with
  | Some compact_off =>
      buf ← probe_read_user 64 (obj_ptr ⊞ compact_off);
      match buf with
      | Some buf =>
          let tool_id := fnv1a_32 buf in
          set_ctx_tool_id ctx_id tool_id;; mret tool_id
      | None => emit_audit_unresolved ctx_id (rr_kind rule);; mret 0
      end
  | None => mret 0
  end.

Definition extract_and_resolve (frame_ptr code_ptr : Z) (rule : RootRule) (ctx_id : Z) : M Z :=
  localsplus_off ← PYTHON_OFFSETS_get OFF_FRAME_LOCALSPLUS;
  match localsplus_off with
  | None => mret 0
  | Some localsplus_off =>
      obj_ptr ← read_user_u64 (frame_ptr ⊞ localsplus_off ⊞ (rr_slot_index rule * 8));
      match obj_ptr with
      | None => mret 0
      | Some obj_ptr =>
          if obj_ptr =? 0 then emit_audit_unresolved ctx_id (rr_kind rule);; mret 0
          else if rr_extractor_kind rule =? EXTRACTOR_SLOT_OBJ then
            resolve_slot_obj obj_ptr frame_ptr code_ptr rule ctx_id
          else if rr_extractor_kind rule =? EXTRACTOR_SLOT_NAME then
            resolve_slot_name obj_ptr rule ctx_id
          else emit_audit_unresolved ctx_id (rr_kind rule);; mret 0
      end
  end.

(** The object in the first local of a frame: [self]. *)
Definition frame_self (frame_ptr : Z) : M (option Z) :=
  localsplus_off ← PYTHON_OFFSETS_get OFF_FRAME_LOCALSPLUS;
  match localsplus_off with
  | None => mret None
  | Some localsplus_off =>
      obj_ptr ← read_user_u64 (frame_ptr ⊞ localsplus_off);
      mret (match obj_ptr with
            | Some obj_ptr => if obj_ptr =? 0 then None else Some obj_ptr
            | None => None
            end)
  end.

Definition emit_frame_self_resolver_candidate (frame_ptr code_ptr code_kind : Z) : M unit :=
  self ← frame_self frame_ptr;
  match self with
  | None => mret tt
  | Some obj_ptr =>
      key ← get_object_key obj_ptr;
      entry ← m_get TOOL_OBJ key;
      match entry with
      | Some _ => mret tt
      | None => emit_resolver_candidate 0 code_kind obj_ptr frame_ptr code_ptr
      end
  end.

Definition cached_frame_self_tool_id (frame_ptr : Z) : M Z :=
  self ← frame_self frame_ptr;
  match self with
  | None => mret 0
  | Some obj_ptr =>
      key ← get_object_key obj_ptr;
      entry ← m_get TOOL_OBJ key;
      match entry with
      | Some entry =>
          actual_type_ptr ← read_type_ptr obj_ptr;
          mret (if cache_valid entry actual_type_ptr then to_tool_id entry else 0)
      | None => mret 0
      end
  end.
