(* ===== verification/Worker.v ===== *)
(** * Worker threads ([ironscope-ebpf/src/worker_probes.rs])

    Work items and [threading.Thread] objects carry a tool context from the
    thread that creates them to the thread that runs them. *)

From stdpp Require Import base gmap list.
From S2P Require Import Prelude Types Maps Ownership Identity.

(** ** Reading Python frames *)

Definition read_frame_local (frame_ptr slot_index : Z) : M (option Z) :=
  localsplus_off ← PYTHON_OFFSETS_get OFF_FRAME_LOCALSPLUS;
  match localsplus_off with
  | None => mret None
  | Some localsplus_off =>
      obj_ptr ← read_user_u64 (frame_ptr ⊞ localsplus_off ⊞ (slot_index * 8));
      mret (match obj_ptr with
            | Some obj_ptr => if obj_ptr =? 0 then None else Some obj_ptr
            | None => None
            end)
  end.

Definition read_self_from_frame (frame_ptr : Z) : M (option Z) := read_frame_local frame_ptr 0.

Definition read_parent_ptr (frame_ptr : Z) : M Z :=
  off_previous ← PYTHON_OFFSETS_get OFF_FRAME_PREVIOUS;
  match off_previous with
  | None => mret 0
  | Some off_previous => v ← read_user_u64 (frame_ptr ⊞ off_previous); mret (unwrap_or v 0)
  end.

Definition is_worker_kind (kind : Z) : bool :=
  (kind =? CODE_KIND_WORKITEM_CTOR) || (kind =? CODE_KIND_WORKITEM_RUN)
  || (kind =? CODE_KIND_THREAD_CTOR) || (kind =? CODE_KIND_THREAD_RUN)
  || (kind =? CODE_KIND_THREADPOOL_WORKER).

Definition classify_worker_kind (code_ptr : Z) : M Z :=
  hash ← read_qualname_hash code_ptr;
  match hash with
  | None => mret CODE_KIND_IGNORE
  | Some hash =>
      r ← scan 64 0 64 (λ i,
            rule ← ROOT_RULES_get i;
            mret (match rule with
                  | Some rule =>
                      if is_worker_kind (rr_kind rule) && (rr_qualname_hash rule =? hash)
                      then Some (rr_kind rule) else None
                  | None => None
                  end));
      mret (unwrap_or r CODE_KIND_IGNORE)
  end.

Definition worker_kind_for_frame (pid frame_ptr : Z) : M Z :=
  if frame_ptr =? 0 then mret CODE_KIND_IGNORE
  else
    off_exec ← PYTHON_OFFSETS_get OFF_FRAME_F_EXECUTABLE;
    match off_exec with
    | None => mret CODE_KIND_IGNORE
    | Some off_exec =>
        code_ptr ← read_user_u64 (frame_ptr ⊞ off_exec);
        match code_ptr with
        | None => mret CODE_KIND_IGNORE
        | Some code_ptr =>
            if code_ptr =? 0 then mret CODE_KIND_IGNORE
            else
              let key := {| ck_tgid := pid; ck_code_ptr := code_ptr |} in
              k ← m_get CODE_KIND key;
              match k with
              | Some k => mret k
              | None =>
                  detected ← classify_worker_kind code_ptr;
                  when (is_worker_kind detected) (m_insert CODE_KIND key detected);;
                  mret detected
              end
        end
    end.

Definition read_frame_from_ctx : M (option Z) :=
  frame_reg_idx ← PYTHON_OFFSETS_get OFF_FRAME_REG_IDX;
  match frame_reg_idx with
  | None => mret None
  | Some frame_reg_idx => if frame_reg_idx >? 30 then mret None else read_reg frame_reg_idx
  end.

Definition remember_tstate (tid : Z) (overwrite : bool) : M unit :=
  t ← m_get THREAD_TSTATE tid;
  if negb overwrite && bool_decide (is_Some t) then mret tt
  else
    a ← read_arg 0;
    match a with
    | Some tstate => when (negb (tstate =? 0)) (m_insert THREAD_TSTATE tid tstate)
    | None => mret tt
    end.

Definition read_tstate_current_frame (tid : Z) : M (option Z) :=
  tstate ← m_get THREAD_TSTATE tid;
  match tstate with
  | None => mret None
  | Some tstate =>
      if tstate =? 0 then mret None
      else
        off ← PYTHON_OFFSETS_get OFF_TSTATE_CURRENT_FRAME;
        match off with
        | None => mret None
        | Some off =>
            if off =? 0 then mret None
            else
              frame_ptr ← read_user_u64 (tstate ⊞ off);
              mret (match frame_ptr with
                    | Some frame_ptr => if frame_ptr =? 0 then None else Some frame_ptr
                    | None => None
                    end)
        end
  end.

(** ** The stack of running workers of a thread *)

Definition worker_stack_push (tid : Z) (entry : WorkerRunEntry) : M unit :=
  d ← m_get WORKER_RUN_DEPTH tid;
  let depth := unwrap_or d 0 in
  if depth >=? 64 then mret tt
  else
    m_insert WORKER_RUN_STACK (thread_key tid depth) entry;;
    m_insert WORKER_RUN_DEPTH tid (depth + 1).

Definition worker_stack_peek (tid : Z) : M (option WorkerRunEntry) :=
  d ← m_get WORKER_RUN_DEPTH tid;
  match d with
  | None => mret None
  | Some depth =>
      if depth =? 0 then mret None else m_get WORKER_RUN_STACK (thread_key tid (depth - 1))
  end.

(** [while cur < 63] with [next = cur + 1]: the cursor [next] runs from [idx + 1]
    to below [min depth 64]. *)
Definition worker_stack_remove_at (tid idx depth : Z) : M (option WorkerRunEntry) :=
  if (idx >=? depth) || (depth =? 0) then mret None
  else
    val ← m_get WORKER_RUN_STACK (thread_key tid idx);
    m_remove WORKER_RUN_STACK (thread_key tid idx);;
    scan 63 (idx + 1) (Z.min depth 64) (λ next,
      entry ← m_get WORKER_RUN_STACK (thread_key tid next);
      match entry with
      | Some entry => m_insert WORKER_RUN_STACK (thread_key tid (next - 1)) entry
      | None => mret tt
      end;;
      m_remove WORKER_RUN_STACK (thread_key tid next);;
      mret (None : option unit));;
    let new_depth := depth - 1 in
    (if new_depth =? 0 then m_remove WORKER_RUN_DEPTH tid
     else m_insert WORKER_RUN_DEPTH tid new_depth);;
    mret val.

(** Both lookups try the top entry and then the one below it. *)
Definition worker_stack_remove_near_top (p : WorkerRunEntry → bool) (tid : Z)
    : M (option WorkerRunEntry) :=
  d ← m_get WORKER_RUN_DEPTH tid;
  match d with
  | None => mret None
  | Some depth =>
      if depth =? 0 then mret None
      else
        top ← m_get WORKER_RUN_STACK (thread_key tid (depth - 1));
        if match top with Some entry => p entry | None => false end then
          worker_stack_remove_at tid (depth - 1) depth
        else if depth >? 1 then
          below ← m_get WORKER_RUN_STACK (thread_key tid (depth - 2));
          if match below with Some entry => p entry | None => false end then
            worker_stack_remove_at tid (depth - 2) depth
          else mret None
        else mret None
  end.

Definition worker_stack_pop_for_parent (tid parent_ptr : Z) : M (option WorkerRunEntry) :=
  worker_stack_remove_near_top
    (λ en, negb (wr_parent_ptr en =? 0) && (wr_parent_ptr en =? parent_ptr)) tid.

Definition worker_stack_remove_for_object (tid self_obj : Z) : M (option WorkerRunEntry) :=
  worker_stack_remove_near_top (λ en, wr_self_obj en =? self_obj) tid.

(** ** Carriers *)

(** [if kind == ... { &WORKITEM_CTX } else { &PYTHREAD_OBJ_CTX }] *)
Definition ctor_carrier_map (kind : Z) : bpf_map PyObjectKey Z :=
  if kind =? CODE_KIND_WORKITEM_CTOR then WORKITEM_CTX else PYTHREAD_OBJ_CTX.
Definition run_carrier_map (kind : Z) : bpf_map PyObjectKey Z :=
  if kind =? CODE_KIND_WORKITEM_RUN then WORKITEM_CTX else PYTHREAD_OBJ_CTX.

Definition handle_threadpool_worker_entry (tid frame_ptr : Z) : M unit :=
  m_insert THREADPOOL_WORKER_FRAME tid frame_ptr.

(** The context a constructor hands to its object, and the task whose deferred
    close it takes over (0: none). *)
Definition ctor_deferred_ctx (tid kind : Z) : M (option (Z * Z)) :=
  if kind =? CODE_KIND_WORKITEM_CTOR then
    t ← m_get THREAD_ACTIVE_TASK tid;
    match t with
    | Some task_ptr =>
        if task_ptr =? 0 then mret None
        else
          c ← deferred_tool_ctx_for_worker task_ptr;
          mret (match c with Some cid => Some (cid, task_ptr) | None => None end)
    | None => mret None
    end
  else mret None.

(** From the binding of the carrier to the end of [handle_ctor_entry]. *)
Definition ctor_bind (tid kind ctx_id pending_task_ptr self_obj : Z) (self_key : PyObjectKey)
    : M unit :=
  m_insert (ctor_carrier_map kind) self_key ctx_id;;
  ctx_carrier_inc ctx_id;;
  when ((kind =? CODE_KIND_WORKITEM_CTOR) && negb (pending_task_ptr =? 0))
    (m_insert PENDING_WORKER_SPAWN tid {| pw_ctx_id := ctx_id; pw_work_item := self_obj |});;
  tool_id ← ctx_tool_id ctx_id;
  emit_py_event_carrier EVENT_WORKER_CARRIER_BIND ctx_id tool_id self_obj;;
  when (negb (pending_task_ptr =? 0)) (finish_deferred_tool_close tid pending_task_ptr ctx_id).

Definition handle_ctor_entry (tid frame_ptr kind : Z) : M unit :=
  def ← ctor_deferred_ctx tid kind;
  let '(ctx0, pending_task_ptr) := unwrap_or def (0, 0) in
  active ← (if ctx0 =? 0 then get_active_ctx tid else mret (Some ctx0));
  match active with
  | None => mret tt
  | Some ctx_id =>
      frame_depth ← m_get THREAD_CTX_DEPTH tid;
      worker_depth ← m_get WORKER_RUN_DEPTH tid;
      if (pending_task_ptr =? 0) && (unwrap_or frame_depth 0 =? 0)
         && (unwrap_or worker_depth 0 =? 0) then mret tt
      else
        self ← read_self_from_frame frame_ptr;
        match self with
        | None => mret tt
        | Some self_obj =>
            self_key ← get_object_key self_obj;
            existing ← m_get (ctor_carrier_map kind) self_key;
            match existing with
            | Some existing_ctx =>
                if existing_ctx =? ctx_id then
                  when (negb (pending_task_ptr =? 0))
                    (finish_deferred_tool_close tid pending_task_ptr ctx_id)
                else if pending_task_ptr =? 0 then mret tt
                else
                  ctx_carrier_dec existing_ctx;;
                  ctor_bind tid kind ctx_id pending_task_ptr self_obj self_key
            | None => ctor_bind tid kind ctx_id pending_task_ptr self_obj self_key
            end
        end
  end.

(** ** Threads of a pool *)

Definition clear_threadpool_worker_ctx (tid : Z) (entry : WorkerLocalCtx) : M unit :=
  m_remove THREADPOOL_WORKER_CTX tid;;
  work_key ← get_object_key (wl_work_item entry);
  m_remove THREADPOOL_WORKITEM_THREAD work_key;;
  active ← get_active_ctx tid;
  when (bool_decide (active = Some (wl_ctx_id entry)))
    (if negb (wl_prev_ctx entry =? 0) then m_insert THREAD_ACTIVE_CTX tid (wl_prev_ctx entry)
     else m_remove THREAD_ACTIVE_CTX tid);;
  ctx_carrier_dec (wl_ctx_id entry).

Definition clear_threadpool_worker_for_object (tid obj_ptr : Z) : M unit :=
  if obj_ptr =? 0 then mret tt
  else
    en ← m_get THREADPOOL_WORKER_CTX tid;
    let other :=
      work_key ← get_object_key obj_ptr;
      w ← m_get THREADPOOL_WORKITEM_THREAD work_key;
      match w with
      | Some worker_tid =>
          en ← m_get THREADPOOL_WORKER_CTX worker_tid;
          match en with
          | Some entry =>
              if wl_work_item entry =? obj_ptr then clear_threadpool_worker_ctx worker_tid entry
              else m_remove THREADPOOL_WORKITEM_THREAD work_key
          | None => m_remove THREADPOOL_WORKITEM_THREAD work_key
          end
      | None => mret tt
      end in
    match en with
    | Some entry =>
        if wl_work_item entry =? obj_ptr then clear_threadpool_worker_ctx tid entry else other
    | None => other
    end.

Definition clear_threadpool_worker_for_thread (tid : Z) : M unit :=
  en ← m_get THREADPOOL_WORKER_CTX tid;
  match en with
  | Some entry => clear_threadpool_worker_ctx tid entry
  | None => mret tt
  end;;
  m_remove THREADPOOL_WORKER_FRAME tid;;
  m_remove THREAD_CURRENT_FRAME tid;;
  m_remove THREAD_TSTATE tid.

Definition finalize_worker_run_for_object (obj_ptr ctx_id tool_id : Z) : M unit :=
  if obj_ptr =? 0 then mret tt
  else
    key ← get_object_key obj_ptr;
    w ← m_get WORKER_RUN_CARRIER key;
    match w with
    | None => mret tt
    | Some worker_tid =>
        m_remove WORKER_RUN_CARRIER key;;
        worker_stack_remove_for_object worker_tid obj_ptr;;
        emit_py_event_carrier_for_tid EVENT_WORKER_UNBIND ctx_id tool_id obj_ptr worker_tid
    end.

(** One entry of the loop of [clear_worker_runs_for_thread]. *)
Definition unbind_worker_run (tid : Z) (entry : WorkerRunEntry) : M unit :=
  obj_key ← get_object_key (wr_self_obj entry);
  c ← m_get WORKER_RUN_CARRIER obj_key;
  match c with
  | Some _ =>
      cid ← m_get (run_carrier_map (wr_kind entry)) obj_key;
      match cid with
      | Some ctx_id =>
          tool_id ← ctx_tool_id ctx_id;
          emit_py_event_carrier_for_tid EVENT_WORKER_UNBIND ctx_id tool_id (wr_self_obj entry) tid
      | None => mret tt
      end;;
      m_remove WORKER_RUN_CARRIER obj_key
  | None => mret tt
  end.

Definition clear_worker_runs_for_thread (tid : Z) : M unit :=
  d ← m_get WORKER_RUN_DEPTH tid;
  scan 64 0 (unwrap_or d 0) (λ k,
    en ← m_get WORKER_RUN_STACK (thread_key tid k);
    match en with
    | Some entry => unbind_worker_run tid entry
    | None => mret tt
    end;;
    m_remove WORKER_RUN_STACK (thread_key tid k);;
    mret (None : option unit));;
  m_remove WORKER_RUN_DEPTH tid.

Definition find_mapped_work_item_in_frame (frame_ptr : Z) : M (option Z) :=
  scan 32 0 MAX_WORKITEM_LOCAL_SCAN_SLOTS (λ slot,
    obj ← read_frame_local frame_ptr slot;
    match obj with
    | Some obj =>
        key ← get_object_key obj;
        c ← m_get WORKITEM_CTX key;
        mret (match c with Some _ => Some obj | None => None end)
    | None => mret None
    end).

(** One frame of the chain: the work item it runs, if that carries a context. *)
Definition mapped_work_item_at (kind frame_ptr : Z) : M (option Z) :=
  r ← (if kind =? CODE_KIND_WORKITEM_RUN then
         obj ← read_self_from_frame frame_ptr;
         own ← match obj with
               | Some obj =>
                   key ← get_object_key obj;
                   c ← m_get WORKITEM_CTX key;
                   mret (match c with Some _ => Some obj | None => None end)
               | None => mret None
               end;
         match own with
         | Some obj => mret (Some obj)
         | None => find_mapped_work_item_in_frame frame_ptr
         end
       else mret None);
  match r with
  | Some obj => mret (Some obj)
  | None =>
      if kind =? CODE_KIND_THREADPOOL_WORKER then find_mapped_work_item_in_frame frame_ptr
      else mret None
  end.

(** [while frame_ptr != 0 && depth < MAX_WORKER_FRAME_CHAIN_DEPTH]: the fuel is
    that bound. *)
Fixpoint walk_frame_chain (fuel : nat) (pid frame_ptr : Z) : M (option (Z * Z)) :=
  match fuel with
  | O => mret None
  | S fuel =>
      if frame_ptr =? 0 then mret None
      else
        kind ← worker_kind_for_frame pid frame_ptr;
        r ← mapped_work_item_at kind frame_ptr;
        match r with
        | Some obj => mret (Some (obj, frame_ptr))
        | None =>
            parent ← read_parent_ptr frame_ptr;
            walk_frame_chain fuel pid parent
        end
  end.

Definition find_mapped_work_item_in_current_chain (tid : Z) : M (option (Z * Z)) :=
  pid ← get_tgid;
  f ← read_tstate_current_frame tid;
  f ← match f with
      | Some frame => mret (Some frame)
      | None => m_get THREAD_CURRENT_FRAME tid
      end;
  match f with
  | None => mret None
  | Some frame_ptr => walk_frame_chain (Z.to_nat MAX_WORKER_FRAME_CHAIN_DEPTH) pid frame_ptr
  end.

(** After the previous binding is out of the way. *)
Definition bind_new_worker_ctx (tid work_item frame_ptr : Z) : M unit :=
  if work_item =? 0 then mret tt
  else
    work_key ← get_object_key work_item;
    c ← m_get WORKITEM_CTX work_key;
    match c with
    | None => mret tt
    | Some ctx_id =>
        t ← m_get TOOL_CTX ctx_id;
        match t with
        | None => mret tt
        | Some _ =>
            active ← get_active_ctx tid;
            if bool_decide (active = Some ctx_id) then mret tt
            else
              prev ← get_active_ctx tid;
              m_insert THREADPOOL_WORKER_CTX tid
                {| wl_ctx_id := ctx_id; wl_work_item := work_item; wl_frame_ptr := frame_ptr;
                   wl_prev_ctx := unwrap_or prev 0 |};;
              m_insert THREADPOOL_WORKITEM_THREAD work_key tid;;
              m_insert THREAD_ACTIVE_CTX tid ctx_id;;
              ctx_carrier_inc ctx_id
        end
    end.

Definition bind_threadpool_worker_context (tid work_item frame_ptr : Z) : M unit :=
  en ← m_get THREADPOOL_WORKER_CTX tid;
  match en with
  | Some existing =>
      live ← ctx_is_live (wl_ctx_id existing);
      if negb (work_item =? 0) && (work_item =? wl_work_item existing) && live then
        active ← get_active_ctx tid;
        when (negb (bool_decide (active = Some (wl_ctx_id existing))))
          (m_insert THREAD_ACTIVE_CTX tid (wl_ctx_id existing))
      else
        clear_threadpool_worker_ctx tid existing;;
        bind_new_worker_ctx tid work_item frame_ptr
  | None => bind_new_worker_ctx tid work_item frame_ptr
  end.

Definition refresh_threadpool_worker_context (tid : Z) : M unit :=
  r ← find_mapped_work_item_in_current_chain tid;
  match r with
  | Some (work_item, frame_ptr) => bind_threadpool_worker_context tid work_item frame_ptr
  | None =>
      f ← m_get THREADPOOL_WORKER_FRAME tid;
      match f with
      | Some frame_ptr =>
          if negb (frame_ptr =? 0) then
            w ← find_mapped_work_item_in_frame frame_ptr;
            bind_threadpool_worker_context tid (unwrap_or w 0) frame_ptr
          else bind_threadpool_worker_context tid 0 0
      | None => bind_threadpool_worker_context tid 0 0
      end
  end.

(** ** Runs *)

(** From the push of the run entry to the end of [handle_run_entry]. *)
Definition run_bind (tid frame_ptr kind self_obj ctx_id prev_ctx : Z) (self_key : PyObjectKey)
    : M unit :=
  parent_ptr ← read_parent_ptr frame_ptr;
  worker_stack_push tid
    {| wr_kind := kind; wr_frame_ptr := frame_ptr; wr_parent_ptr := parent_ptr;
       wr_self_obj := self_obj; wr_prev_ctx := prev_ctx |};;
  m_insert THREAD_ACTIVE_CTX tid ctx_id;;
  when (kind =? CODE_KIND_THREAD_RUN) (m_insert PYTHREAD_OBJ_THREAD self_key tid);;
  tool_id ← ctx_tool_id ctx_id;
  emit_py_event_carrier EVENT_WORKER_BIND ctx_id tool_id self_obj;;
  m_insert WORKER_RUN_CARRIER self_key tid.

Definition handle_run_entry (tid frame_ptr kind : Z) : M unit :=
  self ← read_self_from_frame frame_ptr;
  match self with
  | None => mret tt
  | Some self_obj =>
      self_key ← get_object_key self_obj;
      c ← m_get (run_carrier_map kind) self_key;
      match c with
      | None => emit_py_event_carrier EVENT_AUDIT_UNATTRIBUTED 0 0 self_obj
      | Some ctx_id =>
          active ← get_active_ctx tid;
          f ← m_get FORK_CTX tid;
          prev_ctx ←
            (if bool_decide (f = Some ctx_id) then
               m_remove FORK_CTX tid;; ctx_carrier_dec ctx_id;; mret 0
             else mret (unwrap_or active 0));
          top ← worker_stack_peek tid;
          if match top with
             | Some existing =>
                 (wr_kind existing =? kind) && (wr_frame_ptr existing =? frame_ptr)
                 && (wr_self_obj existing =? self_obj)
             | None => false
             end
          then
            active ← get_active_ctx tid;
            when (negb (bool_decide (active = Some ctx_id))) (m_insert THREAD_ACTIVE_CTX tid ctx_id)
          else run_bind tid frame_ptr kind self_obj ctx_id prev_ctx self_key
      end
  end.

Definition dispatch_entry (kind tid frame_ptr : Z) : M unit :=
  if kind =? CODE_KIND_WORKITEM_CTOR then handle_ctor_entry tid frame_ptr CODE_KIND_WORKITEM_CTOR
  else if kind =? CODE_KIND_THREAD_CTOR then handle_ctor_entry tid frame_ptr CODE_KIND_THREAD_CTOR
  else if kind =? CODE_KIND_WORKITEM_RUN then handle_run_entry tid frame_ptr CODE_KIND_WORKITEM_RUN
  else if kind =? CODE_KIND_THREAD_RUN then handle_run_entry tid frame_ptr CODE_KIND_THREAD_RUN
  else if kind =? CODE_KIND_THREADPOOL_WORKER then handle_threadpool_worker_entry tid frame_ptr
  else mret tt.

Definition dispatch_exit_for_parent (tid parent_ptr : Z) : M bool :=
  en ← worker_stack_pop_for_parent tid parent_ptr;
  match en with
  | None => mret false
  | Some entry =>
      let carrier_map := run_carrier_map (wr_kind entry) in
      self_key ← get_object_key (wr_self_obj entry);
      c ← m_get carrier_map self_key;
      match c with
      | Some ctx_id =>
          tool_id ← ctx_tool_id ctx_id;
          emit_py_event_carrier EVENT_WORKER_UNBIND ctx_id tool_id (wr_self_obj entry);;
          m_remove WORKER_RUN_CARRIER self_key;;
          emit_py_event_carrier EVENT_WORKER_CARRIER_UNBIND ctx_id tool_id (wr_self_obj entry);;
          when (wr_kind entry =? CODE_KIND_THREAD_RUN) (m_remove PYTHREAD_OBJ_THREAD self_key);;
          m_remove carrier_map self_key;;
          ctx_carrier_dec ctx_id
      | None => mret tt
      end;;
      (if negb (wr_prev_ctx entry =? 0) then m_insert THREAD_ACTIVE_CTX tid (wr_prev_ctx entry)
       else m_remove THREAD_ACTIVE_CTX tid);;
      mret true
  end.

(** ** Handlers *)

Definition handle_worker_frame_for_ptr (frame_ptr : Z) : M (result unit) :=
  pid ← get_tgid; tid ← get_tid;
  protected ← m_get PROTECTED_TGIDS pid;
  match protected with
  | None => mret (Ok tt)
  | Some _ =>
      remember_tstate tid false;;
      if frame_ptr =? 0 then mret (Ok tt)
      else
        m_insert THREAD_CURRENT_FRAME tid frame_ptr;;
        kind ← worker_kind_for_frame pid frame_ptr;
        when (is_worker_kind kind) (dispatch_entry kind tid frame_ptr);;
        mret (Ok tt)
  end.

Definition worker_handle_frame_entry : M (result unit) :=
  f ← read_frame_from_ctx;
  match f with Some frame_ptr => handle_worker_frame_for_ptr frame_ptr | None => mret (Err 1) end.

Definition worker_handle_frame_func_entry : M (result unit) :=
  tid ← get_tid;
  remember_tstate tid true;;
  a ← read_arg 1;
  match a with Some frame_ptr => handle_worker_frame_for_ptr frame_ptr | None => mret (Err 1) end.

Definition worker_handle_frame_resume : M (result unit) :=
  f ← read_frame_from_ctx;
  match f with Some frame_ptr => handle_worker_frame_for_ptr frame_ptr | None => mret (Err 1) end.
