(* ===== verification/Frames.v ===== *)
(** * Python frame entry and exit ([ironscope-ebpf/src/frame_probes.rs])

    A tool invocation is the life of a root frame: entry allocates a context and
    pushes it on the thread's stacks, exit pops it and drops the frame's
    reference, or defers that when the frame belongs to a coroutine. *)

From stdpp Require Import base gmap list.
From S2P Require Import Prelude Types Maps Ownership Identity Worker.

(** ** Reading *)

Definition frame_parent_ptr (frame_ptr : Z) : M (result Z) :=
  off_previous ← PYTHON_OFFSETS_get OFF_FRAME_PREVIOUS;
  match off_previous with
  | None => mret (Err 1)
  | Some off_previous => v ← read_user_u64 (frame_ptr ⊞ off_previous); mret (Ok (unwrap_or v 0))
  end.

(** [*PYTHON_OFFSETS.get(i).ok_or(1i64)?] *)
Definition offset_or_err (i : Z) : M (result Z) :=
  off ← PYTHON_OFFSETS_get i;
  mret (match off with Some off => Ok off | None => Err 1 end).

Definition find_root_rule (kind : Z) : M (option RootRule) :=
  scan 64 0 64 (λ i,
    rule ← ROOT_RULES_get i;
    mret (match rule with
          | Some rule =>
              if (rr_kind rule =? kind) && negb (rr_extractor_kind rule =? EXTRACTOR_NONE)
              then Some rule else None
          | None => None
          end)).

Definition is_generator (co_flags : Z) : bool := has_flag co_flags CO_FLAGS_GENERATOR_MASK.
Definition tool_flags_of (co_flags : Z) : Z :=
  if is_generator co_flags then TOOL_CTX_FLAG_ASYNC_FRAME else 0.

(** ** Starting a tool *)

Definition new_tool_ctx (tool_id flags started_ns : Z) : ToolCtx :=
  {| tc_tool_id := tool_id; tc_generation := 0; tc_carrier_count := 1; tc_flags := flags;
     tc_started_ns := started_ns; tc_last_seen_ns := 0 |}.

(** [if let Some(&task_ptr) = THREAD_ACTIVE_TASK.get(&tid) { if task_ptr != 0 { ... } }] *)
Definition with_active_task (tid : Z) (k : Z → M unit) : M unit :=
  t ← m_get THREAD_ACTIVE_TASK tid;
  match t with
  | Some task_ptr => when (negb (task_ptr =? 0)) (k task_ptr)
  | None => mret tt
  end.

Definition task_push_ignore (tid ctx_id tool_id task_ptr : Z) : M unit :=
  task_ctx_push tid task_ptr ctx_id tool_id;; mret tt.

(** Publish a fresh context for a frame and push it; on overflow take it back. *)
Definition publish_ctx (tid frame_ptr ctx_id : Z) (c : ToolCtx) : M bool :=
  m_insert TOOL_CTX ctx_id c;;
  frame_key ← get_object_key frame_ptr;
  m_insert FRAME_CTX frame_key ctx_id;;
  r ← ctx_stack_push tid ctx_id;
  if is_ok r then mret true
  else m_remove FRAME_CTX frame_key;; m_remove TOOL_CTX ctx_id;; mret false.

Definition start_cached_self_tool_root (tid frame_ptr parent_ptr tool_id flags : Z)
    : M (result unit) :=
  if tool_id =? TOOL_IDLE then mret (Ok tt)
  else
    id ← alloc_ctx_id;
    match id with
    | None => mret (Err 1)
    | Some ctx_id =>
        now ← bpf_ktime_get_ns;
        ok ← publish_ctx tid frame_ptr ctx_id
               (new_tool_ctx tool_id (Z.lor TOOL_CTX_FLAG_RESOLVED flags) now);
        if ok : bool then
          tool_stack_push tid ctx_id frame_ptr parent_ptr tool_id;;
          emit_py_event EVENT_TOOL_START ctx_id tool_id;;
          with_active_task tid (task_push_ignore tid ctx_id tool_id);;
          mret (Ok tt)
        else mret (Ok tt)
    end.

Definition start_cached_parent_tool_if_needed (tid parent_ptr : Z) : M (result unit) :=
  if parent_ptr =? 0 then mret (Ok tt)
  else
    parent_key ← get_object_key parent_ptr;
    f ← m_get FRAME_CTX parent_key;
    match f with
    | Some _ => mret (Ok tt)
    | None =>
        off_exec ←? offset_or_err OFF_FRAME_F_EXECUTABLE;
        c ← read_user_u64 (parent_ptr ⊞ off_exec);
        let code_ptr := unwrap_or c 0 in
        if code_ptr =? 0 then mret (Ok tt)
        else
          suffix ← qualname_has_tool_impl_suffix code_ptr;
          if negb suffix then mret (Ok tt)
          else
            tool_id ← cached_frame_self_tool_id parent_ptr;
            if tool_id =? TOOL_IDLE then mret (Ok tt)
            else
              grandparent_ptr ←? frame_parent_ptr parent_ptr;
              frame_stash_push tid parent_ptr;;
              off_flags ←? offset_or_err OFF_CODE_FLAGS;
              co_flags ← read_user_u32 (code_ptr ⊞ off_flags);
              start_cached_self_tool_root tid parent_ptr grandparent_ptr tool_id
                (tool_flags_of (unwrap_or co_flags 0))
    end.

(** ** Closing a tool *)

Definition close_tool_stack_entry (tid : Z) (entry : ToolStackEntry) : M (result unit) :=
  frame_key ← get_object_key (se_frame_ptr entry);
  f ← m_get FRAME_CTX frame_key;
  if negb (bool_decide (f = Some (se_ctx_id entry))) then mret (Ok tt)
  else
    t ← m_get THREAD_ACTIVE_TASK tid;
    let task_ptr := unwrap_or t 0 in
    if negb (task_ptr =? 0) then
      flags ← ctx_flags (se_ctx_id entry);
      if has_flag flags TOOL_CTX_FLAG_ASYNC_FRAME && negb (se_tool_id entry =? TOOL_IDLE) then
        defer_tool_close task_ptr entry;;
        task_ctx_remove tid task_ptr (se_ctx_id entry);;
        mret (Ok tt)
      else
        task_ctx_remove tid task_ptr (se_ctx_id entry);;
        finish_tool_close tid entry;;
        mret (Ok tt)
    else
      finish_tool_close tid entry;;
      mret (Ok tt).

(** The close without a tool-stack entry, shared by re-entry and legacy exit. *)
Definition close_frame_ctx (tid frame_ptr ctx_id tool_id : Z) : M unit :=
  frame_key ← get_object_key frame_ptr;
  m_remove FRAME_CTX frame_key;;
  ctx_stack_remove tid ctx_id;;
  emit_py_event EVENT_TOOL_FRAME_END ctx_id tool_id;;
  ctx_carrier_dec ctx_id.

(** ** Frame entry *)

(** A frame of a known context runs again: refresh the tool stack and make the
    context the active one. *)
Definition reenter_frame (tid frame_ptr parent_ptr ctx_id tool_id : Z) : M unit :=
  tool_stack_refresh tid ctx_id frame_ptr parent_ptr tool_id;;
  m_insert THREAD_ACTIVE_CTX tid ctx_id;;
  with_active_task tid (λ task_ptr,
    cancel_deferred_tool_close task_ptr ctx_id frame_ptr;;
    task_push_ignore tid ctx_id tool_id task_ptr).

(** The [CODE_KIND_IGNORE] block: frames of a tool's implementation, [_run] and
    [_arun], are tool roots when the resolver knows their [self]. *)
Definition ignored_frame_entry (tid frame_ptr code_ptr co_flags kind : Z) : M (result unit) :=
  suffix ← qualname_has_tool_impl_suffix code_ptr;
  if negb suffix then mret (Ok tt)
  else
    parent_ptr ←? frame_parent_ptr frame_ptr;
    start_cached_parent_tool_if_needed tid parent_ptr ;;?
    cached_tool_id ← cached_frame_self_tool_id frame_ptr;
    when (cached_tool_id =? TOOL_IDLE)
      (emit_frame_self_resolver_candidate frame_ptr code_ptr kind);;
    frame_key ← get_object_key frame_ptr;
    f ← m_get FRAME_CTX frame_key;
    match f with
    | Some ctx_id =>
        tool_id ← ctx_tool_id ctx_id;
        if negb (cached_tool_id =? TOOL_IDLE) && negb (cached_tool_id =? tool_id) then
          en ← tool_stack_remove_frame_ctx tid frame_ptr ctx_id;
          match en with
          | Some entry => close_tool_stack_entry tid entry
          | None => mret (Ok tt)
          end ;;?
          frame_stash_push tid frame_ptr;;
          start_cached_self_tool_root tid frame_ptr parent_ptr cached_tool_id
            (tool_flags_of co_flags)
        else
          reenter_frame tid frame_ptr parent_ptr ctx_id tool_id;; mret (Ok tt)
    | None =>
        if negb (cached_tool_id =? TOOL_IDLE) then
          active ← get_active_ctx tid;
          same ← match active with
                 | Some active_ctx => t ← ctx_tool_id active_ctx; mret (t =? cached_tool_id)
                 | None => mret false
                 end;
          if same : bool then mret (Ok tt)
          else
            frame_stash_push tid frame_ptr;;
            start_cached_self_tool_root tid frame_ptr parent_ptr cached_tool_id
              (tool_flags_of co_flags)
        else mret (Ok tt)
    end.

(** A coroutine frame discovered earlier starts its tool on its first resume.
    [Some r]: the handler returns [r]. *)
Definition pending_frame_start (tid frame_ptr parent_ptr : Z) : M (option (result unit)) :=
  frame_key ← get_object_key frame_ptr;
  f ← m_get FRAME_CTX frame_key;
  p ← m_get PENDING_FRAME_TOOL frame_key;
  match f, p with
  | None, Some pending_tool_id =>
      m_remove PENDING_FRAME_TOOL frame_key;;
      if negb (pending_tool_id =? TOOL_IDLE) then
        t ← m_get THREAD_ACTIVE_TASK tid;
        let task_ptr := unwrap_or t 0 in
        dup ← (if negb (task_ptr =? 0) then task_ctx_contains_tool task_ptr pending_tool_id
               else mret false);
        if dup : bool then mret (Some (Ok tt))
        else
          frame_stash_push tid frame_ptr;;
          r ← start_cached_self_tool_root tid frame_ptr parent_ptr pending_tool_id
                TOOL_CTX_FLAG_ASYNC_FRAME;
          mret (Some r)
      else mret None
  | _, _ => mret None
  end.

(** A context marked [PENDING_START] becomes a running one. *)
Definition start_pending_ctx (tid frame_ptr parent_ptr ctx_id tool_id : Z) : M unit :=
  m_alter TOOL_CTX (λ c,
    {| tc_tool_id := tc_tool_id c; tc_generation := tc_generation c;
       tc_carrier_count := tc_carrier_count c;
       tc_flags := Z.ldiff (tc_flags c) TOOL_CTX_FLAG_PENDING_START;
       tc_started_ns := tc_started_ns c; tc_last_seen_ns := tc_last_seen_ns c |}) ctx_id;;
  r ← ctx_stack_push tid ctx_id;
  if is_ok r then
    tool_stack_push tid ctx_id frame_ptr parent_ptr tool_id;;
    emit_py_event EVENT_TOOL_START ctx_id tool_id;;
    with_active_task tid (task_push_ignore tid ctx_id tool_id)
  else
    frame_key ← get_object_key frame_ptr;
    m_remove FRAME_CTX frame_key;; m_remove TOOL_CTX ctx_id.

(** A frame that already has a context.  [Some r]: the handler returns [r]. *)
Definition frame_reentry (tid frame_ptr parent_ptr : Z) : M (option (result unit)) :=
  frame_key ← get_object_key frame_ptr;
  f ← m_get FRAME_CTX frame_key;
  match f with
  | None => mret None
  | Some ctx_id =>
      tool_id ← ctx_tool_id ctx_id;
      flags ← ctx_flags ctx_id;
      if has_flag flags TOOL_CTX_FLAG_PENDING_START then
        start_pending_ctx tid frame_ptr parent_ptr ctx_id tool_id;; mret (Some (Ok tt))
      else
        current_tool_id ← cached_frame_self_tool_id frame_ptr;
        if negb (current_tool_id =? TOOL_IDLE) && negb (current_tool_id =? tool_id) then
          en ← tool_stack_remove_frame_ctx tid frame_ptr ctx_id;
          match en with
          | Some entry =>
              r ← close_tool_stack_entry tid entry;
              mret (match r with Ok _ => None | Err c => Some (Err c) end)
          | None => close_frame_ctx tid frame_ptr ctx_id tool_id;; mret None
          end
        else
          reenter_frame tid frame_ptr parent_ptr ctx_id tool_id;; mret (Some (Ok tt))
  end.

(** Undo a context that turned out to duplicate a running one. *)
Definition discard_ctx (tid frame_ptr ctx_id : Z) : M unit :=
  ctx_stack_remove tid ctx_id;;
  frame_key ← get_object_key frame_ptr;
  m_remove FRAME_CTX frame_key;;
  m_remove TOOL_CTX ctx_id.

(** The first guard: another asynchronous tool is active on the thread. *)
Definition other_async_tool_active (tid frame_ptr ctx_id current_tool_id co_flags : Z) : M bool :=
  if is_generator co_flags then
    active ← get_active_ctx tid;
    match active with
    | Some active_ctx =>
        active_tool_id ← ctx_tool_id active_ctx;
        active_flags ← ctx_flags active_ctx;
        frame_key ← get_object_key frame_ptr;
        p ← m_get PENDING_FRAME_TOOL frame_key;
        mret (negb (active_ctx =? ctx_id) && negb (active_tool_id =? TOOL_IDLE)
              && negb (active_tool_id =? current_tool_id)
              && has_flag active_flags TOOL_CTX_FLAG_ASYNC_FRAME
              && bool_decide (p = None))
    | None => mret false
    end
  else mret false.

(** The second guard: the active task already runs this tool. *)
Definition task_runs_tool (tid current_tool_id : Z) : M bool :=
  t ← m_get THREAD_ACTIVE_TASK tid;
  let task_ptr := unwrap_or t 0 in
  if negb (task_ptr =? 0) then task_ctx_contains_tool task_ptr current_tool_id else mret false.

(** The third guard: another context of the same tool is active. *)
Definition same_tool_active (tid ctx_id current_tool_id : Z) : M bool :=
  active ← get_active_ctx tid;
  match active with
  | Some active_ctx =>
      active_tool_id ← ctx_tool_id active_ctx;
      mret (negb (active_ctx =? ctx_id) && (active_tool_id =? current_tool_id))
  | None => mret false
  end.

Definition duplicate_tool (tid frame_ptr ctx_id current_tool_id co_flags : Z) : M bool :=
  if current_tool_id =? TOOL_IDLE then mret false
  else
    g1 ← other_async_tool_active tid frame_ptr ctx_id current_tool_id co_flags;
    if g1 : bool then mret true
    else
      g2 ← task_runs_tool tid current_tool_id;
      if g2 : bool then mret true else same_tool_active tid ctx_id current_tool_id.

(** The [CODE_KIND_TOOL_ROOT_LC] arm. *)
Definition tool_root_lc (tid frame_ptr parent_ptr code_ptr co_flags kind : Z)
    : M (result unit) :=
  id ← alloc_ctx_id;
  match id with
  | None => mret (Err 1)
  | Some ctx_id =>
      now ← bpf_ktime_get_ns;
      ok ← publish_ctx tid frame_ptr ctx_id
             (new_tool_ctx TOOL_IDLE (tool_flags_of co_flags) now);
      if negb ok then mret (Ok tt)
      else
        rule ← find_root_rule kind;
        resolved_id ← match rule with
                      | Some rule => extract_and_resolve frame_ptr code_ptr rule ctx_id
                      | None => mret TOOL_IDLE
                      end;
        c ← m_get TOOL_CTX ctx_id;
        let current_tool_id := unwrap_or (tc_tool_id <$> c) resolved_id in
        dup ← duplicate_tool tid frame_ptr ctx_id current_tool_id co_flags;
        if dup : bool then discard_ctx tid frame_ptr ctx_id;; mret (Ok tt)
        else
          tool_stack_push tid ctx_id frame_ptr parent_ptr current_tool_id;;
          emit_py_event EVENT_TOOL_START ctx_id current_tool_id;;
          with_active_task tid (task_push_ignore tid ctx_id current_tool_id);;
          mret (Ok tt)
  end.

(** The [CODE_KIND_TOOL_ROOT_LG] arm. *)
Definition tool_root_lg (tid frame_ptr co_flags : Z) : M (result unit) :=
  id ← alloc_ctx_id;
  match id with
  | None => mret (Err 1)
  | Some ctx_id =>
      now ← bpf_ktime_get_ns;
      ok ← publish_ctx tid frame_ptr ctx_id
             (new_tool_ctx TOOL_IDLE (tool_flags_of co_flags) now);
      when ok (emit_py_event EVENT_TOOL_START ctx_id TOOL_IDLE);;
      mret (Ok tt)
  end.

(** The [CODE_KIND_TOOL_ID_RULE] arm. *)
Definition tool_id_rule (tid frame_ptr code_ptr kind : Z) : M (result unit) :=
  active ← get_active_ctx tid;
  match active with
  | Some active_ctx =>
      rule ← find_root_rule kind;
      match rule with
      | Some rule => extract_and_resolve frame_ptr code_ptr rule active_ctx;; mret tt
      | None => mret tt
      end
  | None => mret tt
  end;;
  mret (Ok tt).

(** The final [match kind]. *)
Definition root_frame_entry (tid frame_ptr parent_ptr code_ptr co_flags kind : Z)
    : M (result unit) :=
  frame_stash_push tid frame_ptr;;
  if kind =? CODE_KIND_TOOL_ROOT_LC then
    tool_root_lc tid frame_ptr parent_ptr code_ptr co_flags kind
  else if kind =? CODE_KIND_TOOL_ROOT_LG then tool_root_lg tid frame_ptr co_flags
  else if kind =? CODE_KIND_TOOL_ID_RULE then tool_id_rule tid frame_ptr code_ptr kind
  else mret (Ok tt).

(** A coroutine that is only being created: look at its tool, start nothing. *)
Definition new_generator_frame (frame_ptr code_ptr kind : Z) : M (result unit) :=
  when (kind =? CODE_KIND_TOOL_ROOT_LC) (
    rule ← find_root_rule kind;
    match rule with
    | Some rule => extract_and_resolve frame_ptr code_ptr rule 0;; mret tt
    | None => mret tt
    end);;
  mret (Ok tt).

(** From [let parent_ptr = ...] to the end. *)
Definition known_kind_frame_entry (tid frame_ptr code_ptr co_flags kind : Z)
    (skip_new_generator_frames : bool) : M (result unit) :=
  parent_ptr ←? frame_parent_ptr frame_ptr;
  r ← (if negb skip_new_generator_frames then pending_frame_start tid frame_ptr parent_ptr
       else mret None);
  match r with
  | Some r => mret r
  | None =>
      r ← frame_reentry tid frame_ptr parent_ptr;
      match r with
      | Some r => mret r
      | None => root_frame_entry tid frame_ptr parent_ptr code_ptr co_flags kind
      end
  end.

Definition handle_tool_frame_entry_for_ptr_inner (frame_ptr : Z)
    (skip_new_generator_frames : bool) : M (result unit) :=
  pid ← get_tgid; tid ← get_tid;
  off_exec ←? offset_or_err OFF_FRAME_F_EXECUTABLE;
  c ← read_user_u64 (frame_ptr ⊞ off_exec);
  match c with
  | None => mret (Err 1)
  | Some code_ptr =>
      if code_ptr =? 0 then mret (Ok tt)
      else
        off_owner ←? offset_or_err OFF_FRAME_OWNER;
        o ← read_user_u8 (frame_ptr ⊞ off_owner);
        let frame_owner := unwrap_or o 255 in
        off_flags ←? offset_or_err OFF_CODE_FLAGS;
        fl ← read_user_u32 (code_ptr ⊞ off_flags);
        let co_flags := unwrap_or fl 0 in
        k ← m_get CODE_KIND {| ck_tgid := pid; ck_code_ptr := code_ptr |};
        kind ← match k with Some k => mret k | None => classify pid code_ptr end;
        if (kind =? CODE_KIND_WORKITEM_CTOR) || (kind =? CODE_KIND_WORKITEM_RUN)
           || (kind =? CODE_KIND_THREAD_CTOR) || (kind =? CODE_KIND_THREAD_RUN)
        then mret (Ok tt)
        else if skip_new_generator_frames && (frame_owner =? 0) && is_generator co_flags
        then new_generator_frame frame_ptr code_ptr kind
        else if kind =? CODE_KIND_IGNORE
        then ignored_frame_entry tid frame_ptr code_ptr co_flags kind
        else known_kind_frame_entry tid frame_ptr code_ptr co_flags kind
               skip_new_generator_frames
  end.

Definition handle_frame_entry : M (result unit) :=
  f ← read_frame_from_ctx;
  match f with
  | Some frame_ptr => handle_tool_frame_entry_for_ptr_inner frame_ptr true
  | None => mret (Err 1)
  end.

Definition handle_frame_resume : M (result unit) :=
  f ← read_frame_from_ctx;
  match f with
  | Some frame_ptr => handle_tool_frame_entry_for_ptr_inner frame_ptr false
  | None => mret (Err 1)
  end.

Definition handle_frame_func_entry : M (result unit) :=
  a ← read_arg 1;
  match a with
  | Some frame_ptr => handle_tool_frame_entry_for_ptr_inner frame_ptr true
  | None => mret (Err 1)
  end.

(** ** Frame exit *)

Definition read_register (reg_idx : Z) : M (option Z) :=
  if reg_idx >? 30 then mret None else read_reg reg_idx.

Definition handle_frame_exit_legacy (tid : Z) : M (result unit) :=
  fp ← frame_stash_pop tid;
  match fp with
  | None => mret (Ok tt)
  | Some frame_ptr =>
      frame_key ← get_object_key frame_ptr;
      f ← m_get FRAME_CTX frame_key;
      match f with
      | None => mret (Ok tt)
      | Some ctx_id =>
          c ← m_get TOOL_CTX ctx_id;
          let flags := unwrap_or (tc_flags <$> c) 0 in
          if bool_decide (is_Some c) && has_flag flags TOOL_CTX_FLAG_PENDING_START then
            m_remove FRAME_CTX frame_key;; m_remove TOOL_CTX ctx_id;; mret (Ok tt)
          else if bool_decide (is_Some c) && (unwrap_or (tc_last_seen_ns <$> c) 0 =? 0) then
            frame_stash_push tid frame_ptr;; mret (Ok tt)
          else
            en ← tool_stack_remove_frame_ctx tid frame_ptr ctx_id;
            match en with
            | Some entry => close_tool_stack_entry tid entry ;;? mret (Ok tt)
            | None =>
                tool_id ← ctx_tool_id ctx_id;
                close_frame_ctx tid frame_ptr ctx_id tool_id;;
                mret (Ok tt)
            end
      end
  end.

(** The body the two exit probes share; they differ in the register that holds
    the parent frame. *)
Definition handle_frame_exit (reg_slot : Z) : M (result unit) :=
  tid ← get_tid;
  reg_idx ←? offset_or_err reg_slot;
  p ← read_register reg_idx;
  let parent_ptr := unwrap_or p 0 in
  if negb (parent_ptr =? 0) then
    worker ← dispatch_exit_for_parent tid parent_ptr;
    if worker : bool then mret (Ok tt)
    else
      fp ← frame_stash_peek tid;
      match fp with
      | Some frame_ptr =>
          en ← tool_stack_pop_if_frame_parent tid frame_ptr parent_ptr;
          match en with
          | Some entry =>
              frame_stash_pop tid;;
              close_tool_stack_entry tid entry ;;? mret (Ok tt)
          | None => handle_frame_exit_legacy tid
          end
      | None => handle_frame_exit_legacy tid
      end
  else handle_frame_exit_legacy tid.

Definition handle_frame_exit_normal : M (result unit) := handle_frame_exit OFF_FRAME_REG_IDX.
Definition handle_frame_exit_exception : M (result unit) :=
  handle_frame_exit OFF_EXCEPTION_FRAME_REG_IDX.
