(* ===== verification/Tasks.v ===== *)
(** * asyncio tasks, object deallocation, fork and exit
    ([ironscope-ebpf/src/task_probes.rs], [lifecycle.rs], [fork_probes.rs]) *)

From stdpp Require Import base gmap list.
From S2P Require Import Prelude Types Maps Ownership Identity Worker.

(** ** Tasks *)

Definition select_task_step_ptr (tgid : Z) : M (result Z) :=
  a0 ← read_arg 0; a1 ← read_arg 1;
  let arg0 := unwrap_or a0 0 in
  let arg1 := unwrap_or a1 0 in
  k0 ← m_get TASK_CTX {| po_tgid := tgid; po_ptr := arg0 |};
  k1 ← m_get TASK_CTX {| po_tgid := tgid; po_ptr := arg1 |};
  mret (if negb (arg0 =? 0) && bool_decide (is_Some k0) then Ok arg0
        else if negb (arg1 =? 0) && bool_decide (is_Some k1) then Ok arg1
        else if negb (arg1 =? 0) then Ok arg1
        else if negb (arg0 =? 0) then Ok arg0
        else Err 1).

Definition handle_task_init : M (result unit) :=
  tid ← get_tid;
  a ← read_arg 0;
  match a with
  | None => mret (Err 1)
  | Some task_ptr =>
      if task_ptr =? 0 then mret (Ok tt)
      else
        active ← get_active_ctx tid;
        match active with
        | None => mret (Ok tt)
        | Some ctx_id =>
            tool_id ← ctx_tool_id ctx_id;
            p ← m_get THREAD_ACTIVE_TASK tid;
            let parent_task := unwrap_or p 0 in
            cur ← task_ctx_current parent_task;
            depth ← task_ctx_depth_for parent_task;
            when (negb (parent_task =? 0) && negb (parent_task =? task_ptr)
                  && bool_decide (cur = Some ctx_id) && (depth >? 1))
              (task_ctx_remove tid parent_task ctx_id;; mret tt);;
            task_ctx_push tid task_ptr ctx_id tool_id;;
            mret (Ok tt)
        end
  end.

(** What the step makes the thread's active context. *)
Definition task_step_activate (tgid tid task_ptr : Z) : M unit :=
  c ← m_get TASK_CTX {| po_tgid := tgid; po_ptr := task_ptr |};
  match c with
  | Some ctx_id =>
      live ← ctx_is_live ctx_id;
      if negb live then
        task_ctx_clear tid task_ptr;; m_remove THREAD_ACTIVE_CTX tid
      else
        on_stack ← ctx_stack_contains tid ctx_id;
        if on_stack : bool then m_insert THREAD_ACTIVE_CTX tid ctx_id
        else
          top ← ctx_stack_top tid;
          let live_ctx := unwrap_or top 0 in
          if negb (live_ctx =? 0) then m_insert THREAD_ACTIVE_CTX tid live_ctx
          else m_insert THREAD_ACTIVE_CTX tid ctx_id
  | None =>
      r ← restore_deferred_tool_close tid task_ptr;
      match r with
      | Some ctx_id => m_insert THREAD_ACTIVE_CTX tid ctx_id
      | None => m_remove THREAD_ACTIVE_CTX tid
      end
  end.

Definition handle_task_step_entry : M (result unit) :=
  tgid ← get_tgid; tid ← get_tid;
  task_ptr ←? select_task_step_ptr tgid;
  if task_ptr =? 0 then mret (Ok tt)
  else
    prev_ctx ← get_active_ctx tid;
    prev_task ← m_get THREAD_ACTIVE_TASK tid;
    m_insert TASK_STEP_STASH tid (unwrap_or prev_ctx 0);;
    m_insert TASK_STEP_PREV_TASK tid (unwrap_or prev_task 0);;
    m_insert THREAD_ACTIVE_TASK tid task_ptr;;
    task_step_activate tgid tid task_ptr;;
    mret (Ok tt).

(** From the read of the stash to the end of [handle_task_step_return]. *)
Definition task_step_restore (tid : Z) : M unit :=
  s ← m_get TASK_STEP_STASH tid;
  p ← m_get TASK_STEP_PREV_TASK tid;
  let prev_ctx := unwrap_or s 0 in
  let prev_task := unwrap_or p 0 in
  on_stack ← (if negb (prev_ctx =? 0) then ctx_stack_contains tid prev_ctx else mret false);
  restore_ctx ← (if on_stack : bool then mret prev_ctx
                 else top ← ctx_stack_top tid; mret (unwrap_or top 0));
  (if negb (restore_ctx =? 0) then m_insert THREAD_ACTIVE_CTX tid restore_ctx
   else m_remove THREAD_ACTIVE_CTX tid);;
  (if negb (prev_task =? 0) then m_insert THREAD_ACTIVE_TASK tid prev_task
   else m_remove THREAD_ACTIVE_TASK tid);;
  m_remove TASK_STEP_STASH tid;;
  m_remove TASK_STEP_PREV_TASK tid.

Definition handle_task_step_return : M (result unit) :=
  tid ← get_tid;
  t ← m_get THREAD_ACTIVE_TASK tid;
  let task_ptr := unwrap_or t 0 in
  if task_ptr =? 0 then mret (Ok tt)
  else
    off ← PYTHON_OFFSETS_get OFF_TASK_STATE;
    match off with
    | None => mret (Err 1)
    | Some task_state_off =>
        s ← read_user_u8 (task_ptr ⊞ task_state_off);
        when (unwrap_or s 0 >=? 1) (task_ctx_clear tid task_ptr);;
        task_step_restore tid;;
        mret (Ok tt)
    end.

(** ** Deallocation of a Python object *)

(** The key of the frame context that the object owns: its own, or that of the
    frame embedded in a generator object. *)
Definition dealloc_frame_key (obj_ptr : Z) : M PyObjectKey :=
  key ← get_object_key obj_ptr;
  off ← PYTHON_OFFSETS_get OFF_GEN_IFRAME;
  match off with
  | Some gi_iframe_off =>
      if negb (gi_iframe_off =? 0) then
        frame_key ← get_object_key (obj_ptr ⊞ gi_iframe_off);
        m_remove PENDING_FRAME_TOOL frame_key;;
        f ← m_get FRAME_CTX frame_key;
        mret (match f with Some _ => frame_key | None => key end)
      else mret key
  | None => mret key
  end.

Definition dealloc_frame_ctx (obj_ptr : Z) (frame_ctx_key : PyObjectKey) (ctx_id : Z) : M unit :=
  tid ← get_tid;
  tool_id ← ctx_tool_id ctx_id;
  flags ← ctx_flags ctx_id;
  m_remove FRAME_CTX frame_ctx_key;;
  if has_flag flags TOOL_CTX_FLAG_PENDING_START then m_remove TOOL_CTX ctx_id
  else
    tool_stack_remove_frame_ctx tid (po_ptr frame_ctx_key) ctx_id;;
    ctx_stack_remove tid ctx_id;;
    emit_py_event_carrier EVENT_DEALLOC_CLEANUP ctx_id tool_id obj_ptr;;
    emit_py_event_aux EVENT_TOOL_FRAME_END ctx_id tool_id 1;;
    carrier_dec ctx_id.

Definition dealloc_carriers (obj_ptr : Z) (key : PyObjectKey) : M unit :=
  w ← m_get WORKITEM_CTX key;
  match w with
  | Some ctx_id =>
      tool_id ← ctx_tool_id ctx_id;
      finalize_worker_run_for_object obj_ptr ctx_id tool_id;;
      emit_py_event_carrier EVENT_WORKER_CARRIER_UNBIND ctx_id tool_id obj_ptr;;
      emit_py_event_carrier EVENT_DEALLOC_CLEANUP ctx_id tool_id obj_ptr;;
      m_remove WORKITEM_CTX key;;
      carrier_dec ctx_id
  | None =>
      p ← m_get PYTHREAD_OBJ_CTX key;
      match p with
      | Some ctx_id =>
          tool_id ← ctx_tool_id ctx_id;
          finalize_worker_run_for_object obj_ptr ctx_id tool_id;;
          emit_py_event_carrier EVENT_WORKER_CARRIER_UNBIND ctx_id tool_id obj_ptr;;
          m_remove PYTHREAD_OBJ_THREAD key;;
          emit_py_event_carrier EVENT_DEALLOC_CLEANUP ctx_id tool_id obj_ptr;;
          m_remove PYTHREAD_OBJ_CTX key;;
          carrier_dec ctx_id
      | None => mret tt
      end
  end.

Definition handle_pyobj_dealloc (obj_ptr : Z) : M unit :=
  if obj_ptr =? 0 then mret tt
  else
    tgid ← get_tgid; tid ← get_tid;
    protected ← m_get PROTECTED_TGIDS tgid;
    match protected with
    | None => mret tt
    | Some _ =>
        key ← get_object_key obj_ptr;
        m_remove TOOL_OBJ key;;
        m_remove PENDING_FRAME_TOOL key;;
        frame_ctx_key ← dealloc_frame_key obj_ptr;
        m_remove PENDING_TOOL_RESOLVE (pending_tool_resolve_key tgid obj_ptr);;
        t ← m_get TASK_CTX key;
        match t with
        | Some ctx_id =>
            tool_id ← ctx_tool_id ctx_id;
            emit_py_event_carrier EVENT_DEALLOC_CLEANUP ctx_id tool_id obj_ptr;;
            task_ctx_clear tid obj_ptr
        | None =>
            f ← m_get FRAME_CTX frame_ctx_key;
            match f with
            | Some ctx_id => dealloc_frame_ctx obj_ptr frame_ctx_key ctx_id
            | None =>
                clear_threadpool_worker_for_object tid obj_ptr;;
                dealloc_carriers obj_ptr key
            end
        end
    end.

(** ** Exit of a thread *)

Definition reap_ctx_stack (tid depth : Z) : M unit :=
  scan 8 0 depth (λ i,
    let key := thread_key tid i in
    v ← m_get THREAD_CTX_STACK key;
    match v with
    | Some ctx_id =>
        tool_id ← ctx_tool_id ctx_id;
        emit_py_event_aux EVENT_TOOL_FRAME_END ctx_id tool_id 1;;
        carrier_dec ctx_id
    | None => mret tt
    end;;
    m_remove THREAD_CTX_STACK key;;
    mret (None : option unit));;
  m_remove THREAD_CTX_DEPTH tid.

Definition reap_fork_ctx (tid : Z) : M unit :=
  f ← m_get FORK_CTX tid;
  match f with
  | Some ctx_id =>
      tool_id ← ctx_tool_id ctx_id;
      emit_py_event_fork EVENT_CHILD_CTX_UNBIND ctx_id tool_id tid;;
      m_remove FORK_CTX tid;;
      carrier_dec ctx_id
  | None => mret tt
  end.

Definition reap_frame_stash (tid : Z) : M unit :=
  d ← m_get FRAME_STASH_DEPTH tid;
  scan 256 0 (unwrap_or d 0) (λ j,
    m_remove FRAME_ENTRY_STASH (stash_key tid j);; mret (None : option unit));;
  m_remove FRAME_STASH_DEPTH tid.

Definition reap_thread (tid : Z) : M unit :=
  d ← m_get THREAD_CTX_DEPTH tid;
  let depth := unwrap_or d 0 in
  reap_ctx_stack tid depth;;
  when (depth =? 0) (reap_fork_ctx tid);;
  m_remove THREAD_ACTIVE_CTX tid;;
  m_remove THREAD_ACTIVE_TASK tid;;
  m_remove PENDING_WORKER_SPAWN tid;;
  clear_threadpool_worker_for_thread tid;;
  reap_frame_stash tid;;
  clear_worker_runs_for_thread tid;;
  m_remove TASK_STEP_STASH tid;;
  m_remove TASK_STEP_PREV_TASK tid.

(** ** Scheduler tracepoints *)

(** The context a new thread or process inherits. *)
Definition fork_inherited_ctx (parent_tgid parent_tid : Z) : M (option Z) :=
  active ← get_active_ctx parent_tid;
  ctx_id ← match active with
           | Some active_ctx =>
               flags ← ctx_flags active_ctx;
               d ← m_get WORKER_RUN_DEPTH parent_tid;
               mret (if has_flag flags TOOL_CTX_FLAG_ASYNC_FRAME && (unwrap_or d 0 =? 0)
                     then None else Some active_ctx)
           | None => mret None
           end;
  match ctx_id with
  | Some c => mret (Some c)
  | None =>
      p ← m_get PENDING_WORKER_SPAWN parent_tid;
      match p with
      | Some pending =>
          w ← m_get WORKITEM_CTX {| po_tgid := parent_tgid; po_ptr := pw_work_item pending |};
          live ← ctx_is_live (pw_ctx_id pending);
          if bool_decide (w = Some (pw_ctx_id pending)) && live then
            m_remove PENDING_WORKER_SPAWN parent_tid;; mret (Some (pw_ctx_id pending))
          else mret None
      | None => mret None
      end
  end.

(** The child's side, once its [task_struct] has been read. *)
Definition fork_bind_child (ctx_id : option Z) (child_tid child_tgid : Z) : M unit :=
  when (negb (child_tgid =? 0)) (m_insert PROTECTED_TGIDS child_tgid 1);;
  match ctx_id with
  | Some ctx_id =>
      m_insert THREAD_ACTIVE_CTX child_tid ctx_id;;
      m_insert FORK_CTX child_tid ctx_id;;
      ctx_carrier_inc ctx_id;;
      tool_id ← ctx_tool_id ctx_id;
      emit_py_event_fork EVENT_CHILD_CTX_BIND ctx_id tool_id child_tid
  | None => mret tt
  end.

Definition handle_sched_fork : M (result Z) :=
  parent_tgid ← get_tgid; parent_tid ← get_tid;
  parent_protected ← m_get PROTECTED_TGIDS parent_tgid;
  ctx_id ← fork_inherited_ctx parent_tgid parent_tid;
  config ← m_get IRONSCOPE_CONFIG 0;
  let child_scope := unwrap_or (ic_child_scope <$> config) CHILD_SCOPE_TOOL_ONLY in
  let protect_idle_child :=
    bool_decide (is_Some parent_protected) && bool_decide (ctx_id = None)
    && (child_scope =? CHILD_SCOPE_ALL) in
  if bool_decide (ctx_id = None) && negb protect_idle_child then mret (Ok 0)
  else
    a ← read_arg 1;
    let child_ptr := unwrap_or a 0 in
    if child_ptr =? 0 then mret (Ok 0)
    else
      pid ← core_read task_struct_pid child_ptr;
      match pid with
      | None => mret (Err 1)
      | Some pid =>
          let child_tid := u32 pid in
          if child_tid =? 0 then mret (Ok 0)
          else
            g ← core_read task_struct_tgid child_ptr;
            match g with
            | None => mret (Err 1)
            | Some g => fork_bind_child ctx_id child_tid (u32 g);; mret (Ok 0)
            end
      end.

Definition handle_sched_exit : M (result Z) :=
  tgid ← get_tgid; tid ← get_tid;
  reap_thread tid;;
  when (tid =? tgid) (m_remove PROTECTED_TGIDS tgid);;
  mret (Ok 0).

Definition handle_sched_exec : M (result Z) := mret (Ok 0).
