(* ===== verification/Events.v ===== *)
(** * Paths and guard events
    ([ironscope-common/src/path.rs], [utils.rs], [ironscope-ebpf/src/alloc.rs],
    [event_emit.rs]) *)

From stdpp Require Import base gmap list.
From S2P Require Import Prelude Types Maps.

(** ** Clamping ([utils.rs], BPF target) *)

Definition bound_value_for_verifier (v min max : Z) : Z :=
  if v <? min then min else if v >? max then max else v.

Definition cap_size (size cap : Z) : Z :=
  if size >=? cap then cap else size `mod` cap.

(** ** Path buffer ([path.rs])

    The path is built from its end: the last [p_len] bytes of the buffer. *)

Definition MAX_PATH_LEN := 1024.
Definition MAX_PATH_DEPTH := 128.
Definition MAX_NAME := 255.

Record Path := { p_buffer : list Z; p_len : Z; p_depth : Z }.

Definition Path_default : Path :=
  {| p_buffer := replicate (Z.to_nat MAX_PATH_LEN) 0; p_len := 0; p_depth := 0 |}.

Definition as_slice (p : Path) : list Z :=
  let len := bound_value_for_verifier (p_len p) 0 (MAX_PATH_LEN - 1) in
  drop (Z.to_nat (Z.of_nat (length (p_buffer p)) - len)) (p_buffer p).

Definition is_empty (p : Path) : bool := p_len p =? 0.
Definition space_left (p : Path) : Z := u64 (MAX_PATH_LEN - p_len p).

(** Overwriting the bytes at [i]. *)
Definition write_bytes (buf : list Z) (i : nat) (bs : list Z) : list Z :=
  take i buf ++ bs ++ drop (i + length bs) buf.

Definition prepend_path_sep (p : Path) : result Path :=
  let left := space_left p in
  if left <? 1 then Err 1
  else
    let i := left - 1 in
    if i >=? Z.of_nat (length (p_buffer p)) then Err 1
    else Ok {| p_buffer := <[Z.to_nat i := 47]> (p_buffer p);
               p_len := u32 (p_len p + 1); p_depth := p_depth p |}.

Definition kernel_bytes (mem : Z → option Z) (addr : Z) (n : nat) : option (list Z) :=
  read_bytes mem addr n.

Definition prepend_qstr_name (mem : Z → option Z) (name qstr_len : Z) (p : Path) : result Path :=
  let left := u32 (space_left p) in
  let size := u8 qstr_len in
  if qstr_len >? MAX_NAME then Err 1
  else if left <? qstr_len then Err 1
  else
    let i := u32 (left - size) in
    if i >? Z.of_nat (length (p_buffer p)) then Err 1
    else
      match kernel_bytes mem name (Z.to_nat (cap_size qstr_len MAX_NAME)) with
      | Some bs =>
          Ok {| p_buffer := write_bytes (p_buffer p) (Z.to_nat i) bs;
                p_len := u32 (p_len p + size); p_depth := u16 (p_depth p + 1) |}
      | None => Err 1
      end.

(** The accessors of the dentry walk, [None] as [.ok_or(1)?]. *)
Section resolve.
Context (e : Env).

Definition field (f : core_field) (ptr : Z) : option Z :=
  if ptr =? 0 then None else shim e f ptr.

(** [core_read_kernel!(entry, d_name, name)] and [... , len)], the length being
    the upper half of [hash_len]. *)
Definition dentry_name (entry : Z) : option (Z * Z) :=
  q ← field dentry_d_name entry;
  name ← field qstr_name q;
  hash_len ← field qstr_hash_len q;
  Some (name, u32 (Z.shiftr hash_len 32)).

Definition prepend_dentry (entry : Z) (p : Path) : result Path :=
  match dentry_name entry with
  | Some (name, len) => prepend_qstr_name (kernel_mem e) name len p
  | None => Err 1
  end.

(** One component of the walk: the separator, then the name. *)
Definition prepend_component (entry : Z) (p : Path) : result Path :=
  match (if is_empty p then Ok p else prepend_path_sep p) with
  | Ok p => prepend_dentry entry p
  | Err c => Err c
  end.

(** The walk's cursor. *)
Record cursor := { cu_entry : Z; cu_mount : Z; cu_mnt_parent : Z; cu_mnt_root : Z }.

(** Crossing to the parent mount at the root of a mounted file system. *)
Definition cross_mount (c : cursor) : option cursor :=
  entry ← field mount_mnt_mountpoint (cu_mount c);
  let mount := cu_mnt_parent c in
  mnt_parent ← field mount_mnt_parent mount;
  mnt ← field mount_mnt mount;
  mnt_root ← field vfsmount_mnt_root mnt;
  Some {| cu_entry := entry; cu_mount := mount; cu_mnt_parent := mnt_parent;
          cu_mnt_root := mnt_root |}.

(** [for _i in 0..max_depth]; the result is the last entry and the path. *)
Fixpoint resolve_loop (fuel : nat) (c : cursor) (p : Path) : result (Z * Path) :=
  match fuel with
  | O => Ok (cu_entry c, p)
  | S fuel =>
      if cu_entry c =? cu_mnt_root c then
        if cu_mount c =? cu_mnt_parent c then Ok (cu_entry c, p)
        else match cross_mount c with
             | Some c => resolve_loop fuel c p
             | None => Err 1
             end
      else
        match field dentry_d_parent (cu_entry c) with
        | None => Err 1
        | Some parent =>
            if cu_entry c =? parent then Ok (cu_entry c, p)
            else
              match prepend_component (cu_entry c) p with
              | Err c => Err c
              | Ok p =>
                  if parent =? 0 then Ok (cu_entry c, p)
                  else resolve_loop fuel
                         {| cu_entry := parent; cu_mount := cu_mount c;
                            cu_mnt_parent := cu_mnt_parent c; cu_mnt_root := cu_mnt_root c |} p
              end
        end
  end.

Definition start_cursor (path : Z) : option cursor :=
  entry ← field path_dentry path;
  mnt ← field path_mnt path;
  let mount := mount_of e mnt in
  mnt_parent ← field mount_mnt_parent mount;
  mnt_root ← field vfsmount_mnt_root mnt;
  Some {| cu_entry := entry; cu_mount := mount; cu_mnt_parent := mnt_parent;
          cu_mnt_root := mnt_root |}.

Definition core_resolve (path : Z) (max_depth : Z) (p : Path) : result Path :=
  if path =? 0 then Ok p
  else
    match start_cursor path with
    | None => Err 1
    | Some c =>
        match resolve_loop (Z.to_nat max_depth) c p with
        | Ok (entry, p) => prepend_dentry entry p
        | Err c => Err c
        end
    end.

Definition core_resolve_file (f : Z) (max_depth : Z) (p : Path) : result Path :=
  if negb (f =? 0) then
    match field file_f_path f with
    | Some path => core_resolve path max_depth p
    | None => Err 1
    end
  else Ok p.
End resolve.

(** ** Per-CPU allocator ([alloc.rs])

    [alloc_zero] hands out slot [i_next] of the per-CPU heap, zeroed.  A slot's
    bytes are overwritten by the next allocation of it and are read by nobody in
    between but the holder, so that only the cursor is state. *)

Definition HEAP_MAX_ALLOC_SIZE := 2048.
Definition MAX_ALLOCS := 8.
Definition MAX_EVENT_COMM_LEN := 16.
Definition MAX_EVENT_ARGV_LEN := 256.

(** [size_of] of the two structs, [#[repr(C)]]. *)
Definition size_of_GuardEvent :=
  4 * 4 + 2 * 8 + 4 + 2 + 2 + 4 + 4 + 2 + 2
  + MAX_EVENT_COMM_LEN + MAX_EVENT_PATH_LEN + MAX_EVENT_ARGV_LEN + 4.
Definition size_of_Path := MAX_PATH_LEN + 4 + 2 + 2.

Definition alloc_init : M (result unit) := λ e σ,
  (Ok tt, set_alloc_state (<[u32 (processor_id e) := 0]> (alloc_state σ)) σ).

Definition alloc_zero (sizeof : Z) : M (result Z) := λ e σ,
  let cpu := u32 (processor_id e) in
  let i_next := unwrap_or (alloc_state σ !! cpu) 0 in
  if i_next >=? MAX_ALLOCS then (Err 1, σ)
  else if negb (update_ok e (tick σ)) then (Err 1, next_tick σ)
  else if sizeof >? HEAP_MAX_ALLOC_SIZE then (Err 1, next_tick σ)
  else (Ok i_next, set_alloc_state (<[cpu := i_next + 1]> (alloc_state σ)) (next_tick σ)).

(** ** Guard events ([event_emit.rs]) *)

Definition zero_bytes (n : Z) : list Z := replicate (Z.to_nat n) 0.

Definition guard_event (pid tid kind action tool_id ctx_id identity_state policy_source ts_ns : Z)
    : GuardEvent :=
  {| ge_pid := pid; ge_tid := tid; ge_ppid := 0; ge_tool_id := tool_id; ge_ctx_id := ctx_id;
     ge_ts_ns := ts_ns; ge_kind := kind; ge_action := action;
     ge_identity_state := identity_state; ge_policy_source := policy_source;
     ge_port := 0; ge_addr := 0; ge_child_pid := 0; ge_path_len := 0; ge_argv_len := 0;
     ge_comm := zero_bytes MAX_EVENT_COMM_LEN; ge_path := zero_bytes MAX_EVENT_PATH_LEN;
     ge_argv := zero_bytes MAX_EVENT_ARGV_LEN |}.

Definition copy_path_to_event (ev : GuardEvent) (path_buf : Path) : GuardEvent :=
  let path := as_slice path_buf in
  let len := Z.min (Z.of_nat (length path)) MAX_EVENT_PATH_LEN in
  if len =? 0 then ev
  else
    {| ge_pid := ge_pid ev; ge_tid := ge_tid ev; ge_ppid := ge_ppid ev;
       ge_tool_id := ge_tool_id ev; ge_ctx_id := ge_ctx_id ev; ge_ts_ns := ge_ts_ns ev;
       ge_kind := ge_kind ev; ge_action := ge_action ev;
       ge_identity_state := ge_identity_state ev; ge_policy_source := ge_policy_source ev;
       ge_port := ge_port ev; ge_addr := ge_addr ev; ge_child_pid := ge_child_pid ev;
       ge_path_len := u16 len; ge_argv_len := ge_argv_len ev; ge_comm := ge_comm ev;
       ge_path := write_bytes (ge_path ev) 0 (take (Z.to_nat len) path);
       ge_argv := ge_argv ev |}.

Definition push_guard_event (ev : GuardEvent) : M unit := λ e σ,
  (tt, set_guard_events (guard_events σ ++ [ev]) σ).

(** Reserve and copy field by field; a full ring drops the event. *)
Definition submit_event (ev : GuardEvent) : M unit :=
  ok ← ring_reserve; when ok (push_guard_event ev).

(** [try_emit_fs_event] and [try_emit_exec_event] differ in the event's kind. *)
Definition try_emit_path_event (kind f tool_id ctx_id identity_state policy_source action : Z)
    : M (result unit) :=
  alloc_init ;;?
  alloc_zero size_of_GuardEvent ;;?
  alloc_zero size_of_Path ;;?
  pid ← get_tgid; tid ← get_tid;
  ts ← bpf_ktime_get_ns;
  let ev := guard_event pid tid kind action tool_id ctx_id identity_state policy_source ts in
  r ← (λ e σ, (core_resolve_file e f MAX_PATH_DEPTH Path_default, σ));
  match r with
  | Ok path_buf => submit_event (copy_path_to_event ev path_buf);; mret (Ok tt)
  | Err c => mret (Err c)
  end.

Definition emit_fs_event (f tool_id ctx_id identity_state policy_source action : Z) : M unit :=
  try_emit_path_event EVENT_FS_OPEN f tool_id ctx_id identity_state policy_source action;;
  mret tt.

Definition emit_exec_event (f tool_id ctx_id identity_state policy_source action : Z) : M unit :=
  try_emit_path_event EVENT_EXEC f tool_id ctx_id identity_state policy_source action;;
  mret tt.

Definition with_endpoint (addr port : Z) (ev : GuardEvent) : GuardEvent :=
  {| ge_pid := ge_pid ev; ge_tid := ge_tid ev; ge_ppid := ge_ppid ev;
     ge_tool_id := ge_tool_id ev; ge_ctx_id := ge_ctx_id ev; ge_ts_ns := ge_ts_ns ev;
     ge_kind := ge_kind ev; ge_action := ge_action ev;
     ge_identity_state := ge_identity_state ev; ge_policy_source := ge_policy_source ev;
     ge_port := port; ge_addr := addr; ge_child_pid := ge_child_pid ev;
     ge_path_len := ge_path_len ev; ge_argv_len := ge_argv_len ev; ge_comm := ge_comm ev;
     ge_path := ge_path ev; ge_argv := ge_argv ev |}.

Definition try_emit_net_event (pid tool_id ctx_id identity_state policy_source action addr port : Z)
    : M (result unit) :=
  alloc_init ;;?
  alloc_zero size_of_GuardEvent ;;?
  tid ← get_tid;
  ts ← bpf_ktime_get_ns;
  submit_event
    (with_endpoint addr port
       (guard_event pid tid EVENT_NET_CONNECT action tool_id ctx_id identity_state
          policy_source ts));;
  mret (Ok tt).

Definition emit_net_event (pid tool_id ctx_id identity_state policy_source action addr port : Z)
    : M unit :=
  try_emit_net_event pid tool_id ctx_id identity_state policy_source action addr port;; mret tt.
