(* ===== verification/Wire.v ===== *)
(** * Layout of the shared records ([ironscope-common/src/types.rs])

    Kernel programs and user space exchange records as memory: the key and the value of
    a map entry and the record of a ring are the bytes of a [#[repr(C)]] struct.  The
    layout is computed from the declared members; bytes that only align a member have
    no defined content. *)

From stdpp Require Import base gmap list strings.
From S2P Require Import Prelude Types Maps Events.

(** ** [#[repr(C)]] *)

Inductive member := U8 | U16 | U32 | U64 | Arr (n : nat).
Inductive value := Int (x : Z) | Bytes (l : list Z).

Definition size (m : member) : nat :=
  match m with U8 => 1 | U16 => 2 | U32 => 4 | U64 => 8 | Arr n => n end.
Definition align (m : member) : nat :=
  match m with U8 => 1 | U16 => 2 | U32 => 4 | U64 => 8 | Arr _ => 1 end.

(** A value of the member's type. *)
Definition fits (m : member) (v : value) : Prop :=
  match m, v with
  | Arr n, Bytes l => length l = n
  | (U8 | U16 | U32 | U64), Int x => 0 ≤ x < 256 ^ Z.of_nat (size m)
  | _, _ => False
  end.

Definition encode_member (m : member) (v : value) : list Z :=
  match v with Int x => le_bytes (size m) x | Bytes l => l end.
Definition decode_member (m : member) (bs : list Z) : value :=
  match m with Arr _ => Bytes bs | _ => Int (le_decode bs) end.

(** The bytes that bring [off] to a multiple of [a]. *)
Definition pad_to (a off : nat) : nat := ((a - off mod a) mod a)%nat.

(** Each member at the next multiple of its alignment. *)
Fixpoint offsets (off : nat) (ms : list member) : list nat :=
  match ms with
  | [] => []
  | m :: ms => let o := (off + pad_to (align m) off)%nat in o :: offsets (o + size m) ms
  end.
Fixpoint end_of (off : nat) (ms : list member) : nat :=
  match ms with
  | [] => off
  | m :: ms => end_of (off + pad_to (align m) off + size m) ms
  end.
Definition struct_align (ms : list member) : nat := foldr (λ m, max (align m)) 1%nat ms.
Definition size_of (ms : list member) : nat :=
  (end_of 0 ms + pad_to (struct_align ms) (end_of 0 ms))%nat.

(** Memory of a struct: [junk] supplies the bytes of the padding. *)
Fixpoint place (junk : nat → Z) (off : nat) (ms : list member) (vs : list value) : list Z :=
  match ms, vs with
  | m :: ms, v :: vs =>
      let pad := pad_to (align m) off in
      (junk <$> seq off pad) ++ encode_member m v ++ place junk (off + pad + size m) ms vs
  | _, _ => []
  end.

(** ** Plain data: [unsafe impl aya::Pod] *)

Class Pod (A : Type) := {
  members : list member;
  fields : A → list value;
  of_fields : list value → option A
}.
Arguments members A {_}.
Class PodLaws (A : Type) `{Pod A} : Prop := of_fields_fields x : of_fields (fields x) = Some x.

Section pod.
Context {A : Type} `{Pod A}.

(** Every member is in the range of its type. *)
Definition valid (x : A) : Prop := Forall2 fits (members A) (fields x).

Definition bytes_of (junk : nat → Z) (x : A) : list Z :=
  place junk 0 (members A) (fields x)
  ++ (junk <$> seq (end_of 0 (members A)) (pad_to (struct_align (members A)) (end_of 0 (members A)))).

(** [if data.len() < size_of::<A>() { continue }; &*(data.as_ptr() as *const A)] *)
Definition read_struct (data : list Z) : option A :=
  if (Z.of_nat (length data) <? Z.of_nat (size_of (members A))) then None
  else of_fields (zip_with (λ o m, decode_member m (take (size m) (drop o data)))
                    (offsets 0 (members A)) (members A)).
End pod.

(** ** The records *)

#[global] Instance CodeKindKey_pod : Pod CodeKindKey := {
  members := [U32; U32; U64];
  fields k := [Int (ck_tgid k); Int 0; Int (ck_code_ptr k)];
  of_fields vs := match vs with
                  | [Int t; Int _; Int p] => Some {| ck_tgid := t; ck_code_ptr := p |}
                  | _ => None
                  end
}.
#[global] Instance PyObjectKey_pod : Pod PyObjectKey := {
  members := [U32; U32; U64];
  fields k := [Int (po_tgid k); Int 0; Int (po_ptr k)];
  of_fields vs := match vs with
                  | [Int t; Int _; Int p] => Some {| po_tgid := t; po_ptr := p |}
                  | _ => None
                  end
}.
#[global] Instance TaskStackKey_pod : Pod TaskStackKey := {
  members := [U32; U32; U64];
  fields k := [Int (ts_tgid k); Int (ts_depth k); Int (ts_task_ptr k)];
  of_fields vs := match vs with
                  | [Int t; Int d; Int p] =>
                      Some {| ts_tgid := t; ts_depth := d; ts_task_ptr := p |}
                  | _ => None
                  end
}.
#[global] Instance PendingToolResolveKey_pod : Pod PendingToolResolveKey := {
  members := [U32; U32; U64];
  fields k := [Int (pr_tgid k); Int 0; Int (pr_self_ptr k)];
  of_fields vs := match vs with
                  | [Int t; Int _; Int p] => Some {| pr_tgid := t; pr_self_ptr := p |}
                  | _ => None
                  end
}.
#[global] Instance ToolPolicyKey_pod : Pod ToolPolicyKey := {
  members := [U32; U32; U64];
  fields k := [Int (fp_tool_id k); Int (fp_dev k); Int (fp_ino k)];
  of_fields vs := match vs with
                  | [Int t; Int d; Int i] => Some {| fp_tool_id := t; fp_dev := d; fp_ino := i |}
                  | _ => None
                  end
}.
#[global] Instance ToolExecKey_pod : Pod ToolExecKey := {
  members := [U32; U32; U64];
  fields k := [Int (xp_tool_id k); Int (xp_dev k); Int (xp_ino k)];
  of_fields vs := match vs with
                  | [Int t; Int d; Int i] => Some {| xp_tool_id := t; xp_dev := d; xp_ino := i |}
                  | _ => None
                  end
}.
#[global] Instance ToolNetKey_pod : Pod ToolNetKey := {
  members := [U32; U32; U32; U16; U16];
  fields k := [Int (nk_prefixlen k); Int (nk_tool_id k); Int (nk_addr k); Int (nk_port k);
               Int (nk_pad k)];
  of_fields vs := match vs with
                  | [Int l; Int t; Int a; Int p; Int z] =>
                      Some {| nk_prefixlen := l; nk_tool_id := t; nk_addr := a; nk_port := p;
                              nk_pad := z |}
                  | _ => None
                  end
}.
#[global] Instance ToolNetData_pod : Pod ToolNetData := {
  members := [U32; U32; U16; U16];
  fields k := [Int (nd_tool_id k); Int (nd_addr k); Int (nd_port k); Int (nd_pad k)];
  of_fields vs := match vs with
                  | [Int t; Int a; Int p; Int z] =>
                      Some {| nd_tool_id := t; nd_addr := a; nd_port := p; nd_pad := z |}
                  | _ => None
                  end
}.
#[global] Instance ToolObjCacheEntry_pod : Pod ToolObjCacheEntry := {
  members := [U64; U32; U32; U32; U32];
  fields c := [Int (to_type_ptr c); Int (to_tool_id c); Int (to_name_hash c);
               Int (to_generation c); Int 0];
  of_fields vs := match vs with
                  | [Int p; Int t; Int h; Int g; Int _] =>
                      Some {| to_type_ptr := p; to_tool_id := t; to_name_hash := h;
                              to_generation := g |}
                  | _ => None
                  end
}.
#[global] Instance ToolCtx_pod : Pod ToolCtx := {
  members := [U32; U32; U32; U32; U64; U64];
  fields c := [Int (tc_tool_id c); Int (tc_generation c); Int (tc_carrier_count c);
               Int (tc_flags c); Int (tc_started_ns c); Int (tc_last_seen_ns c)];
  of_fields vs := match vs with
                  | [Int t; Int g; Int n; Int f; Int s; Int l] =>
                      Some {| tc_tool_id := t; tc_generation := g; tc_carrier_count := n;
                              tc_flags := f; tc_started_ns := s; tc_last_seen_ns := l |}
                  | _ => None
                  end
}.
#[global] Instance RootRule_pod : Pod RootRule := {
  members := [U8; Arr 3; U32; U32; U32; U64; U64; U32; U32];
  fields r := [Int (rr_kind r); Bytes [0; 0; 0]; Int (rr_slot_index r); Int (rr_extractor_kind r);
               Int 0; Int (rr_filename_hash r); Int (rr_qualname_hash r); Int (rr_firstline r);
               Int 0];
  of_fields vs := match vs with
                  | [Int k; Bytes _; Int s; Int e; Int _; Int f; Int q; Int l; Int _] =>
                      Some {| rr_kind := k; rr_slot_index := s; rr_extractor_kind := e;
                              rr_filename_hash := f; rr_qualname_hash := q; rr_firstline := l |}
                  | _ => None
                  end
}.
#[global] Instance ToolStackEntry_pod : Pod ToolStackEntry := {
  members := [U64; U64; U64; U32; U32];
  fields s := [Int (se_ctx_id s); Int (se_frame_ptr s); Int (se_parent_ptr s);
               Int (se_tool_id s); Int 0];
  of_fields vs := match vs with
                  | [Int c; Int f; Int p; Int t; Int _] =>
                      Some {| se_ctx_id := c; se_frame_ptr := f; se_parent_ptr := p;
                              se_tool_id := t |}
                  | _ => None
                  end
}.
#[global] Instance WorkerRunEntry_pod : Pod WorkerRunEntry := {
  members := [U8; Arr 7; U64; U64; U64; U64];
  fields w := [Int (wr_kind w); Bytes [0; 0; 0; 0; 0; 0; 0]; Int (wr_frame_ptr w);
               Int (wr_parent_ptr w); Int (wr_self_obj w); Int (wr_prev_ctx w)];
  of_fields vs := match vs with
                  | [Int k; Bytes _; Int f; Int p; Int s; Int c] =>
                      Some {| wr_kind := k; wr_frame_ptr := f; wr_parent_ptr := p;
                              wr_self_obj := s; wr_prev_ctx := c |}
                  | _ => None
                  end
}.
#[global] Instance PendingWorkerSpawn_pod : Pod PendingWorkerSpawn := {
  members := [U64; U64];
  fields w := [Int (pw_ctx_id w); Int (pw_work_item w)];
  of_fields vs := match vs with
                  | [Int c; Int w] => Some {| pw_ctx_id := c; pw_work_item := w |}
                  | _ => None
                  end
}.
#[global] Instance WorkerLocalCtx_pod : Pod WorkerLocalCtx := {
  members := [U64; U64; U64; U64];
  fields w := [Int (wl_ctx_id w); Int (wl_work_item w); Int (wl_frame_ptr w); Int (wl_prev_ctx w)];
  of_fields vs := match vs with
                  | [Int c; Int w; Int f; Int p] =>
                      Some {| wl_ctx_id := c; wl_work_item := w; wl_frame_ptr := f;
                              wl_prev_ctx := p |}
                  | _ => None
                  end
}.
#[global] Instance IronScopeConfig_pod : Pod IronScopeConfig := {
  members := [U8; U8; U8; U8; U8; U8; U8; Arr 1];
  fields c := [Int (ic_mode c); Int (ic_discover c); Int (ic_unattributed_policy c);
               Int (ic_unknown_tool_policy c); Int (ic_resolver_error_policy c);
               Int (ic_child_scope c); Int (ic_default_tool_policy c); Bytes [0]];
  of_fields vs := match vs with
                  | [Int m; Int d; Int u; Int k; Int r; Int s; Int t; Bytes _] =>
                      Some {| ic_mode := m; ic_discover := d; ic_unattributed_policy := u;
                              ic_unknown_tool_policy := k; ic_resolver_error_policy := r;
                              ic_child_scope := s; ic_default_tool_policy := t |}
                  | _ => None
                  end
}.
#[global] Instance PyEvent_pod : Pod PyEvent := {
  members := [U32; U32; U64; U8; Arr 3; U64; U32; U32; U64; U64];
  fields e := [Int (pe_pid e); Int (pe_tid e); Int (pe_ts_ns e); Int (pe_kind e); Bytes [0; 0; 0];
               Int (pe_ctx_id e); Int (pe_tool_id e); Int 0; Int (pe_carrier_ptr e);
               Int (pe_aux e)];
  of_fields vs := match vs with
                  | [Int p; Int t; Int n; Int k; Bytes _; Int c; Int i; Int _; Int r; Int a] =>
                      Some {| pe_pid := p; pe_tid := t; pe_ts_ns := n; pe_kind := k;
                              pe_ctx_id := c; pe_tool_id := i; pe_carrier_ptr := r; pe_aux := a |}
                  | _ => None
                  end
}.
#[global] Instance ResolverEvent_pod : Pod ResolverEvent := {
  members := [U32; U32; U64; U8; U8; Arr 2; U64; U64; U64; U64; U64];
  fields e := [Int (re_pid e); Int (re_tid e); Int (re_ts_ns e); Int (re_kind e);
               Int (re_code_kind e); Bytes [0; 0]; Int (re_ctx_id e); Int (re_self_ptr e);
               Int (re_type_ptr e); Int (re_frame_ptr e); Int (re_code_ptr e)];
  of_fields vs := match vs with
                  | [Int p; Int t; Int n; Int k; Int d; Bytes _; Int c; Int s; Int y; Int f; Int o] =>
                      Some {| re_pid := p; re_tid := t; re_ts_ns := n; re_kind := k;
                              re_code_kind := d; re_ctx_id := c; re_self_ptr := s;
                              re_type_ptr := y; re_frame_ptr := f; re_code_ptr := o |}
                  | _ => None
                  end
}.
#[global] Instance GuardEvent_pod : Pod GuardEvent := {
  members := [U32; U32; U32; U32; U64; U64; U8; U8; U8; U8; U16; U32; U32; U16; U16;
              Arr (Z.to_nat MAX_EVENT_COMM_LEN); Arr (Z.to_nat MAX_EVENT_PATH_LEN);
              Arr (Z.to_nat MAX_EVENT_ARGV_LEN)];
  fields e := [Int (ge_pid e); Int (ge_tid e); Int (ge_ppid e); Int (ge_tool_id e);
               Int (ge_ctx_id e); Int (ge_ts_ns e); Int (ge_kind e); Int (ge_action e);
               Int (ge_identity_state e); Int (ge_policy_source e); Int (ge_port e);
               Int (ge_addr e); Int (ge_child_pid e); Int (ge_path_len e); Int (ge_argv_len e);
               Bytes (ge_comm e); Bytes (ge_path e); Bytes (ge_argv e)];
  of_fields vs := match vs with
                  | [Int p; Int t; Int pp; Int i; Int c; Int n; Int k; Int a; Int s; Int o; Int po;
                     Int ad; Int ch; Int pl; Int al; Bytes co; Bytes pa; Bytes ar] =>
                      Some {| ge_pid := p; ge_tid := t; ge_ppid := pp; ge_tool_id := i;
                              ge_ctx_id := c; ge_ts_ns := n; ge_kind := k; ge_action := a;
                              ge_identity_state := s; ge_policy_source := o; ge_port := po;
                              ge_addr := ad; ge_child_pid := ch; ge_path_len := pl;
                              ge_argv_len := al; ge_comm := co; ge_path := pa; ge_argv := ar |}
                  | _ => None
                  end
}.

(** ** Zeroed defaults *)

Definition ToolCtx_default : ToolCtx :=
  {| tc_tool_id := 0; tc_generation := 0; tc_carrier_count := 0; tc_flags := 0;
     tc_started_ns := 0; tc_last_seen_ns := 0 |}.
Definition WorkerRunEntry_default : WorkerRunEntry :=
  {| wr_kind := 0; wr_frame_ptr := 0; wr_parent_ptr := 0; wr_self_obj := 0; wr_prev_ctx := 0 |}.
Definition PendingWorkerSpawn_default : PendingWorkerSpawn :=
  {| pw_ctx_id := 0; pw_work_item := 0 |}.
Definition WorkerLocalCtx_default : WorkerLocalCtx :=
  {| wl_ctx_id := 0; wl_work_item := 0; wl_frame_ptr := 0; wl_prev_ctx := 0 |}.
Definition PyEvent_default : PyEvent :=
  {| pe_pid := 0; pe_tid := 0; pe_ts_ns := 0; pe_kind := 0; pe_ctx_id := 0; pe_tool_id := 0;
     pe_carrier_ptr := 0; pe_aux := 0 |}.
Definition ToolPolicyKey_default : ToolPolicyKey :=
  {| fp_tool_id := 0; fp_dev := 0; fp_ino := 0 |}.
Definition ToolExecKey_default : ToolExecKey :=
  {| xp_tool_id := 0; xp_dev := 0; xp_ino := 0 |}.
Definition ToolNetKey_default : ToolNetKey :=
  {| nk_prefixlen := 0; nk_tool_id := 0; nk_addr := 0; nk_port := 0; nk_pad := 0 |}.
Definition ToolNetData_default : ToolNetData :=
  {| nd_tool_id := 0; nd_addr := 0; nd_port := 0; nd_pad := 0 |}.
Definition GuardEvent_default : GuardEvent :=
  {| ge_pid := 0; ge_tid := 0; ge_ppid := 0; ge_tool_id := 0; ge_ctx_id := 0; ge_ts_ns := 0;
     ge_kind := 0; ge_action := 0; ge_identity_state := IDENTITY_STATE_UNATTRIBUTED;
     ge_policy_source := POLICY_SOURCE_DEFAULT_ALLOW; ge_port := 0; ge_addr := 0;
     ge_child_pid := 0; ge_path_len := 0; ge_argv_len := 0;
     ge_comm := zero_bytes MAX_EVENT_COMM_LEN; ge_path := zero_bytes MAX_EVENT_PATH_LEN;
     ge_argv := zero_bytes MAX_EVENT_ARGV_LEN |}.

(** ** Reading what was written *)

Lemma decode_encode_member m v : fits m v → decode_member m (encode_member m v) = v.
Proof. destruct m, v; cbn -[le_bytes le_decode Z.pow]; intros H; try done; by rewrite le_decode_bytes. Qed.

Lemma encode_member_length m v : fits m v → length (encode_member m v) = size m.
Proof. destruct m, v; cbn -[le_bytes]; intros H; try done; apply le_bytes_octets. Qed.

Lemma place_length junk off ms vs :
  Forall2 fits ms vs → (off + length (place junk off ms vs))%nat = end_of off ms.
Proof.
  intros Hv. revert off. induction Hv as [|m v ms vs Hm Hv IH]; intros off; cbn [place end_of length]; [lia|].
  cbv zeta. rewrite <-IH, !length_app, length_fmap, length_seq, (encode_member_length m v Hm). lia.
Qed.

Lemma place_read junk off ms vs pre rest :
  Forall2 fits ms vs → length pre = off →
  zip_with (λ o m, decode_member m (take (size m) (drop o (pre ++ place junk off ms vs ++ rest))))
    (offsets off ms) ms = vs.
Proof.
  intros Hv. revert off pre. induction Hv as [|m v ms vs Hm Hv IH]; intros off pre Hp; [done|].
  cbn [offsets place]. cbv zeta. set (pad := pad_to (align m) off).
  assert (length (pre ++ (junk <$> seq off pad)) = (off + pad)%nat) as Hl
    by (rewrite length_app, length_fmap, length_seq; lia).
  cbn [zip_with]. f_equal.
  - rewrite <-!app_assoc, app_assoc, drop_app_length' by done.
    rewrite take_app_length' by (symmetry; by apply encode_member_length). by apply decode_encode_member.
  - rewrite <-!app_assoc, app_assoc, app_assoc. apply IH.
    rewrite length_app, Hl, (encode_member_length m v Hm). lia.
Qed.

Section laws.
Context {A : Type} `{PodLaws A}.

Lemma bytes_length junk (x : A) : valid x → length (bytes_of junk x) = size_of (members A).
Proof.
  intros Hv. unfold bytes_of, size_of. rewrite length_app, length_fmap, length_seq.
  pose proof (place_length junk 0 _ _ Hv). lia.
Qed.

Lemma read_bytes_of junk (x : A) rest : valid x → read_struct (bytes_of junk x ++ rest) = Some x.
Proof using All.
  intros Hv. unfold read_struct. rewrite length_app, bytes_length by done.
  destruct (Z.ltb_spec (Z.of_nat (size_of (members A) + length rest)) (Z.of_nat (size_of (members A))));
    [lia|].
  unfold bytes_of. rewrite <-app_assoc.
  etrans; [|apply of_fields_fields]. f_equal. by apply (place_read junk 0 _ _ []).
Qed.
End laws.

(** Without padding the memory is determined by the record. *)
Fixpoint unpadded (off : nat) (ms : list member) : bool :=
  match ms with
  | [] => true
  | m :: ms => bool_decide (pad_to (align m) off = 0%nat) && unpadded (off + size m) ms
  end.
Definition packed (ms : list member) : bool :=
  unpadded 0 ms && bool_decide (pad_to (struct_align ms) (end_of 0 ms) = 0%nat).

Lemma place_unpadded junk junk' off ms vs :
  unpadded off ms = true → place junk off ms vs = place junk' off ms vs.
Proof.
  revert off vs. induction ms as [|m ms IH]; intros off vs; cbn [unpadded place]; [done|].
  intros [Hp%bool_decide_eq_true Hu]%andb_prop. destruct vs as [|v vs]; [done|]. cbv zeta.
  rewrite Hp, Nat.add_0_r. cbn [seq fmap list_fmap app]. f_equal. by apply IH.
Qed.

(** Two keys have the same bytes exactly when they are equal, whatever is in memory. *)
Definition key_faithful (A : Type) `{Pod A} : Prop :=
  ∀ junk junk' (x y : A), valid x → valid y → bytes_of junk x = bytes_of junk' y ↔ x = y.

Lemma packed_key_faithful A `{PodLaws A} : packed (members A) = true → key_faithful A.
Proof.
  intros [Hu He%bool_decide_eq_true]%andb_prop junk junk' x y Hx Hy. split.
  - intros E. assert (Some x = Some y) as [=]; [|done].
    by rewrite <-(read_bytes_of junk x []), E, (read_bytes_of junk' y []).
  - intros <-. unfold bytes_of. rewrite He. f_equal. by apply place_unpadded.
Qed.

(** ** The laws *)

Ltac pod_laws := intros []; reflexivity.
#[global] Instance CodeKindKey_pod_laws : PodLaws CodeKindKey. Proof. pod_laws. Qed.
#[global] Instance PyObjectKey_pod_laws : PodLaws PyObjectKey. Proof. pod_laws. Qed.
#[global] Instance TaskStackKey_pod_laws : PodLaws TaskStackKey. Proof. pod_laws. Qed.
#[global] Instance PendingToolResolveKey_pod_laws : PodLaws PendingToolResolveKey. Proof. pod_laws. Qed.
#[global] Instance ToolPolicyKey_pod_laws : PodLaws ToolPolicyKey. Proof. pod_laws. Qed.
#[global] Instance ToolExecKey_pod_laws : PodLaws ToolExecKey. Proof. pod_laws. Qed.
#[global] Instance ToolNetKey_pod_laws : PodLaws ToolNetKey. Proof. pod_laws. Qed.
#[global] Instance ToolNetData_pod_laws : PodLaws ToolNetData. Proof. pod_laws. Qed.
#[global] Instance ToolObjCacheEntry_pod_laws : PodLaws ToolObjCacheEntry. Proof. pod_laws. Qed.
#[global] Instance ToolCtx_pod_laws : PodLaws ToolCtx. Proof. pod_laws. Qed.
#[global] Instance RootRule_pod_laws : PodLaws RootRule. Proof. pod_laws. Qed.
#[global] Instance ToolStackEntry_pod_laws : PodLaws ToolStackEntry. Proof. pod_laws. Qed.
#[global] Instance WorkerRunEntry_pod_laws : PodLaws WorkerRunEntry. Proof. pod_laws. Qed.
#[global] Instance PendingWorkerSpawn_pod_laws : PodLaws PendingWorkerSpawn. Proof. pod_laws. Qed.
#[global] Instance WorkerLocalCtx_pod_laws : PodLaws WorkerLocalCtx. Proof. pod_laws. Qed.
#[global] Instance IronScopeConfig_pod_laws : PodLaws IronScopeConfig. Proof. pod_laws. Qed.
#[global] Instance PyEvent_pod_laws : PodLaws PyEvent. Proof. pod_laws. Qed.
#[global] Instance ResolverEvent_pod_laws : PodLaws ResolverEvent. Proof. pod_laws. Qed.
#[global] Instance GuardEvent_pod_laws : PodLaws GuardEvent. Proof. pod_laws. Qed.

(** The bytes of each of the three events read back as the event, with any content of the
    padding that the layout inserts and whatever follows the record. *)
Theorem ring_records_roundtrip junk rest :
  (∀ ev : PyEvent, valid ev → read_struct (bytes_of junk ev ++ rest) = Some ev)
  ∧ (∀ ev : ResolverEvent, valid ev → read_struct (bytes_of junk ev ++ rest) = Some ev)
  ∧ (∀ ev : GuardEvent, valid ev → read_struct (bytes_of junk ev ++ rest) = Some ev).
Proof. split_and!; intros ev; apply read_bytes_of. Qed.

(** C28: the kernel compares keys byte by byte, and this is equality of the keys.  No key
    of a map has padding that would take part in the comparison uninitialised. *)
Theorem map_keys_faithful :
  key_faithful CodeKindKey ∧ key_faithful PyObjectKey ∧ key_faithful TaskStackKey
  ∧ key_faithful PendingToolResolveKey ∧ key_faithful ToolPolicyKey ∧ key_faithful ToolExecKey
  ∧ key_faithful ToolNetKey ∧ key_faithful ToolNetData.
Proof. split_and!; refine (packed_key_faithful _ _); vm_compute; reflexivity. Qed.

(** Zeroed memory holds the default of its type, so that the scratch buffer of a guard
    event and the unset entries of an array are defaults. *)
Theorem zeroed_is_default :
  let zeroed A `(Pod A) := read_struct (replicate (size_of (members A)) 0) : option A in
  zeroed ToolCtx _ = Some ToolCtx_default ∧ zeroed RootRule _ = Some RootRule_default
  ∧ zeroed WorkerRunEntry _ = Some WorkerRunEntry_default
  ∧ zeroed PendingWorkerSpawn _ = Some PendingWorkerSpawn_default
  ∧ zeroed WorkerLocalCtx _ = Some WorkerLocalCtx_default
  ∧ zeroed PyEvent _ = Some PyEvent_default
  ∧ zeroed ToolPolicyKey _ = Some ToolPolicyKey_default
  ∧ zeroed ToolExecKey _ = Some ToolExecKey_default
  ∧ zeroed ToolNetKey _ = Some ToolNetKey_default
  ∧ zeroed ToolNetData _ = Some ToolNetData_default
  ∧ zeroed GuardEvent _ = Some GuardEvent_default.
Proof. split_and!; vm_compute; reflexivity. Qed.

(** The scratch buffer of a guard event is as large as the event. *)
Lemma guard_event_size : Z.of_nat (size_of (members GuardEvent)) = size_of_GuardEvent.
Proof. vm_compute. reflexivity. Qed.

(** An event of thread 9 of process 7. *)
Lemma ring_records_roundtrip_witness :
  read_struct (bytes_of (λ _, 255)
    {| pe_pid := 7; pe_tid := 9; pe_ts_ns := 1; pe_kind := EVENT_TOOL_START; pe_ctx_id := 17;
       pe_tool_id := 5; pe_carrier_ptr := 0; pe_aux := 0 |} ++ [])
  = Some {| pe_pid := 7; pe_tid := 9; pe_ts_ns := 1; pe_kind := EVENT_TOOL_START; pe_ctx_id := 17;
            pe_tool_id := 5; pe_carrier_ptr := 0; pe_aux := 0 |}.
Proof.
  destruct (ring_records_roundtrip (λ _, 255) []) as [H _]. apply H. unfold valid.
  repeat (constructor; [first [reflexivity | split; vm_compute; congruence]|]). constructor.
Defined.
