(* ===== verification/Accessors.v ===== *)
(** * Accessors and buffers of the common crate ([co_re/mod.rs], [buffer.rs])

    The accessors of kernel structures that are more than one field read, and the
    fixed-size buffer for reads of user memory. *)

From stdpp Require Import base gmap list strings.
From S2P Require Import Prelude Types Maps Events.

(** ** Kernel structures *)

Section accessors.
Context (e : Env).

(** [task_struct::comm]: the address of the name. *)
Definition comm (task : Z) : option Z := field e task_struct_comm task.

Definition comm_array (task : Z) : option (list Z) :=
  comm_ptr ← comm task; kernel_bytes (kernel_mem e) comm_ptr 16.

(** [mm_struct::arg_len]. *)
Definition arg_len (mm : Z) : option Z :=
  start ← field e mm_struct_arg_start mm;
  stop ← field e mm_struct_arg_end mm;
  Some (if (stop =? 0) || (stop <=? start) then 0 else stop - start).

(** [qstr::len]: the upper half of [hash_len]. *)
Definition qstr_len (q : Z) : option Z :=
  hash_len ← field e qstr_hash_len q; Some (u32 (Z.shiftr hash_len 32)).
End accessors.

(** The subtraction in [arg_len] never wraps: the length is the size of the interval,
    and that of an inverted one is zero. *)
Theorem arg_len_spec e mm start stop :
  in_u64 start → in_u64 stop →
  field e mm_struct_arg_start mm = Some start → field e mm_struct_arg_end mm = Some stop →
  arg_len e mm = Some (Z.max 0 (stop - start)) ∧ in_u64 (Z.max 0 (stop - start)).
Proof.
  unfold in_u64. intros Hs He Hfs Hfe. unfold arg_len. rewrite Hfs, Hfe. cbn.
  destruct (Z.eqb_spec stop 0), (Z.leb_spec stop start); cbn; (split; [f_equal|]); lia.
Qed.

Lemma read_bytes_length mem addr n bs : read_bytes mem addr n = Some bs → length bs = n.
Proof. unfold read_bytes. intros H%length_mapM. by rewrite length_seq in H. Qed.

Lemma comm_array_length e task bs : comm_array e task = Some bs → length bs = 16%nat.
Proof. unfold comm_array. destruct (comm e task); [|done]. apply read_bytes_length. Qed.

(** ** [Buffer<N>] *)

Record Buffer := { bf_buf : list Z; bf_len : Z }.

Section buffer.
Context (N : nat).

Definition Buffer_default : Buffer := {| bf_buf := replicate N 0; bf_len := 0 |}.
Definition as_slice (b : Buffer) : list Z :=
  take (Z.to_nat (Z.min (bf_len b) (Z.of_nat N))) (bf_buf b).
Definition buffer_len (b : Buffer) : Z := bf_len b.
Definition is_empty (b : Buffer) : bool := bf_len b =? 0.

(** [size.clamp(0, N)] bytes of user memory.  What a failed read leaves in the buffer,
    [failed], is up to the helper. *)
Definition read_user_memory (mem : Z → option Z) (failed : list Z) (from sz : Z) (b : Buffer)
    : result unit * Buffer :=
  let sz := Z.min (Z.max sz 0) (Z.of_nat N) in
  match read_bytes mem from (Z.to_nat sz) with
  | Some bs => (Ok tt, {| bf_buf := write_bytes (bf_buf b) 0 bs; bf_len := sz |})
  | None => (Err 1, {| bf_buf := failed; bf_len := bf_len b |})
  end.

(** The slice is the memory that was read, cut at the capacity, and every access stays
    inside the array. *)
Theorem read_user_memory_spec mem failed from sz b b' :
  length (bf_buf b) = N → in_u32 sz →
  read_user_memory mem failed from sz b = (Ok tt, b') →
  length (bf_buf b') = N ∧ buffer_len b' = Z.min sz (Z.of_nat N)
  ∧ read_bytes mem from (Z.to_nat (Z.min sz (Z.of_nat N))) = Some (as_slice b').
Proof.
  unfold in_u32. intros Hb Hs. unfold read_user_memory. rewrite (Z.max_l sz 0) by lia.
  destruct (read_bytes _ _ _) as [bs|] eqn:E; [|done]. intros [= <-].
  pose proof (read_bytes_length _ _ _ _ E) as Hl. unfold buffer_len, as_slice. cbn.
  split; [|split; [done|]].
  - unfold write_bytes. rewrite take_0, !length_app, length_drop. cbn [length plus]. lia.
  - rewrite <-Z.min_assoc, Z.min_id, <-Hl. f_equal. unfold write_bytes. rewrite take_0. cbn [app].
    by rewrite take_app_length.
Qed.
End buffer.
