(* ===== verification/Lsm.v ===== *)
(** * Security hooks ([ironscope-ebpf/src/lsm_hooks.rs])

    The decision of the [file_open], [bprm_check_security] and [socket_connect]
    hooks, the events they emit, and their monitoring-only fentry variants. *)

From stdpp Require Import base gmap list.
From S2P Require Import Prelude Types Maps Ownership Identity Worker Events.

(** ** Identity and policy *)

Definition enforce_permission (denied : bool) : M Z :=
  if negb denied then mret 0
  else
    c ← m_get IRONSCOPE_CONFIG 0;
    mret (match c with
          | Some config => if ic_mode config =? MODE_ENFORCE then -1 else 0
          | None => 0
          end).

Definition identity_state (ctx_id tool_id flags : Z) : Z :=
  if ctx_id =? 0 then IDENTITY_STATE_UNATTRIBUTED
  else if has_flag flags TOOL_CTX_FLAG_RESOLVER_ERROR then IDENTITY_STATE_RESOLVER_ERROR
  else if tool_id =? TOOL_IDLE then IDENTITY_STATE_UNKNOWN_TOOL
  else IDENTITY_STATE_KNOWN_TOOL.

Definition resolve_ctx (tid : Z) : M (Z * Z * Z) :=
  refresh_threadpool_worker_context tid;;
  active ← get_active_ctx tid;
  match active with
  | Some ctx_id =>
      c ← m_get TOOL_CTX ctx_id;
      mret (match c with
            | Some c =>
                (ctx_id, tc_tool_id c, identity_state ctx_id (tc_tool_id c) (tc_flags c))
            | None => (0, TOOL_IDLE, IDENTITY_STATE_UNATTRIBUTED)
            end)
  | None => mret (0, TOOL_IDLE, IDENTITY_STATE_UNATTRIBUTED)
  end.

Definition mark_ctx_seen (ctx_id : Z) : M unit :=
  if ctx_id =? 0 then mret tt
  else
    c ← m_get TOOL_CTX ctx_id;
    match c with
    | Some _ => now ← bpf_ktime_get_ns; m_alter TOOL_CTX (set_last_seen now) ctx_id
    | None => mret tt
    end.

Definition identity_policy_decision (identity : Z) : M (option (bool * Z)) :=
  c ← m_get IRONSCOPE_CONFIG 0;
  mret (match c with
        | None => None
        | Some config =>
            if identity =? IDENTITY_STATE_UNATTRIBUTED then
              Some (ic_unattributed_policy config =? UNATTRIBUTED_DENY,
                    POLICY_SOURCE_UNATTRIBUTED)
            else if identity =? IDENTITY_STATE_UNKNOWN_TOOL then
              Some (ic_unknown_tool_policy config =? UNKNOWN_TOOL_DENY,
                    POLICY_SOURCE_UNKNOWN_TOOL)
            else if identity =? IDENTITY_STATE_RESOLVER_ERROR then
              Some (ic_resolver_error_policy config =? RESOLVER_ERROR_DENY,
                    POLICY_SOURCE_RESOLVER_ERROR)
            else None
        end).

Definition decide_known_tool_permission (permission : option Z) (policy_source : Z)
    : M (bool * Z) :=
  match permission with
  | Some perm => mret (perm =? PERM_DENY, policy_source)
  | None =>
      c ← m_get IRONSCOPE_CONFIG 0;
      mret (match c with
            | None => (false, POLICY_SOURCE_DEFAULT_ALLOW)
            | Some config =>
                if ic_default_tool_policy config =? DEFAULT_TOOL_DENY
                then (true, POLICY_SOURCE_DEFAULT_DENY)
                else (false, POLICY_SOURCE_DEFAULT_ALLOW)
            end)
  end.

(** The decision the three hooks share. *)
Definition hook_decision (identity : Z) (permission : option Z) : M (bool * Z) :=
  let policy_source :=
    match permission with
    | Some _ => POLICY_SOURCE_TOOL
    | None => POLICY_SOURCE_DEFAULT_ALLOW
    end in
  d ← identity_policy_decision identity;
  match d with
  | Some decision => mret decision
  | None => decide_known_tool_permission permission policy_source
  end.

Definition is_protected_subject (tgid tid : Z) : M bool :=
  p ← m_get PROTECTED_TGIDS tgid;
  match p with
  | Some _ => mret true
  | None => active ← get_active_ctx tid; mret (bool_decide (is_Some active))
  end.

Definition audit_unprotected_python_thread (tid event_kind : Z) : M unit :=
  d ← m_get FRAME_STASH_DEPTH tid;
  match d with
  | Some _ => emit_py_event_aux EVENT_AUDIT_UNATTRIBUTED 0 0 event_kind
  | None => mret tt
  end.

Definition get_file_identity (f : Z) : M (option (Z * Z)) :=
  i ← core_read file_f_inode f;
  match i with
  | None => mret None
  | Some ino_obj =>
      ino ← core_read inode_i_ino ino_obj;
      sb ← core_read inode_i_sb ino_obj;
      match ino, sb with
      | Some ino, Some sb =>
          dev ← core_read super_block_s_dev sb;
          mret (match dev with Some dev => Some (u32 dev, ino) | None => None end)
      | _, _ => mret None
      end
  end.

Definition action_of (denied : bool) : Z := if denied then ACTION_DENY else ACTION_ALLOW.

(** The prologue of the enforcing hooks: [None] for a subject that is not
    protected, otherwise its identity. *)
Definition hook_identity (kind : Z) : M (option (Z * Z * Z)) :=
  tgid ← get_tgid; tid ← get_tid;
  protected ← is_protected_subject tgid tid;
  if negb protected then
    audit_unprotected_python_thread tid kind;; mret None
  else
    id ← resolve_ctx tid;
    let '(ctx_id, tool_id, identity) := id in
    mark_ctx_seen ctx_id;;
    when (ctx_id =? 0) (emit_py_event_aux EVENT_AUDIT_UNATTRIBUTED 0 0 kind);;
    mret (Some (ctx_id, tool_id, identity)).

(** ** Enforcing hooks *)

Definition try_file_open : M (result Z) :=
  id ← hook_identity EVENT_FS_OPEN;
  match id with
  | None => mret (Ok 0)
  | Some (ctx_id, tool_id, identity) =>
      a ← read_arg 0;
      let f := unwrap_or a 0 in
      if f =? 0 then mret (Ok 0)
      else
        fi ← get_file_identity f;
        match fi with
        | None => mret (Err 0)
        | Some (dev, ino) =>
            permission ← m_get TOOL_FS_POLICY
                           {| fp_tool_id := tool_id; fp_dev := dev; fp_ino := ino |};
            d ← hook_decision identity permission;
            let '(denied, policy_source) := d in
            emit_fs_event f tool_id ctx_id identity policy_source (action_of denied);;
            ret ← enforce_permission denied;
            mret (Ok ret)
        end
  end.

(** The entry for the file, or the wildcard entry of the tool. *)
Definition exec_permission (tool_id dev ino : Z) : M (option Z) :=
  p ← m_get TOOL_EXEC_POLICY {| xp_tool_id := tool_id; xp_dev := dev; xp_ino := ino |};
  match p with
  | Some perm => mret (Some perm)
  | None => m_get TOOL_EXEC_POLICY {| xp_tool_id := tool_id; xp_dev := 0; xp_ino := 0 |}
  end.

Definition try_bprm_check : M (result Z) :=
  id ← hook_identity EVENT_EXEC;
  match id with
  | None => mret (Ok 0)
  | Some (ctx_id, tool_id, identity) =>
      a ← read_arg 0;
      let bprm := unwrap_or a 0 in
      if bprm =? 0 then mret (Ok 0)
      else
        bf ← core_read linux_binprm_file bprm;
        match bf with
        | None => mret (Err 0)
        | Some bprm_file =>
            fi ← get_file_identity bprm_file;
            match fi with
            | None => mret (Err 0)
            | Some (dev, ino) =>
                permission ← exec_permission tool_id dev ino;
                d ← hook_decision identity permission;
                let '(denied, policy_source) := d in
                emit_exec_event bprm_file tool_id ctx_id identity policy_source
                  (action_of denied);;
                ret ← enforce_permission denied;
                mret (Ok ret)
            end
        end
  end.

(** [TOOL_NET_POLICY.get(&Key::new(96, data))]: the kernel's LPM lookup. *)
Definition net_permission (tool_id addr port : Z) : M (option Z) := λ e σ,
  (lpm_get e (tool_net_policy σ) 96
     {| nd_tool_id := tool_id; nd_addr := addr; nd_port := port; nd_pad := 0 |}, σ).

Definition AF_INET := 2.

(** The IPv4 endpoint of the [connect] call; [Ok None]: another family. *)
Definition connect_endpoint (sa : Z) : M (result (option (Z * Z))) :=
  fam ← core_read sockaddr_sa_family sa;
  match fam with
  | None => mret (Err 0)
  | Some family =>
      if negb (family =? AF_INET) then mret (Ok None)
      else
        addr ← core_read sockaddr_in_s_addr sa;
        port ← core_read sockaddr_in_sin_port sa;
        mret (match addr, port with
              | Some addr, Some port => Ok (Some (addr, port))
              | _, _ => Err 0
              end)
  end.

Definition try_socket_connect : M (result Z) :=
  tgid ← get_tgid;
  id ← hook_identity EVENT_NET_CONNECT;
  match id with
  | None => mret (Ok 0)
  | Some (ctx_id, tool_id, identity) =>
      a ← read_arg 1;
      let sa := unwrap_or a 0 in
      if sa =? 0 then mret (Ok 0)
      else
        ep ←? connect_endpoint sa;
        match ep with
        | None => mret (Ok 0)
        | Some (addr, port) =>
            permission ← net_permission tool_id addr port;
            d ← hook_decision identity permission;
            let '(denied, policy_source) := d in
            emit_net_event tgid tool_id ctx_id identity policy_source (action_of denied)
              addr port;;
            ret ← enforce_permission denied;
            mret (Ok ret)
        end
  end.

(** [match try_... { Ok(ret) => ret, Err(_) => 0 }] *)
Definition ok_or_allow (m : M (result Z)) : M Z :=
  r ← m; mret (match r with Ok ret => ret | Err _ => 0 end).

Definition handle_file_open : M Z := ok_or_allow try_file_open.
Definition handle_bprm_check : M Z := ok_or_allow try_bprm_check.
Definition handle_socket_connect : M Z := ok_or_allow try_socket_connect.

(** ** Monitoring hooks *)

(** The prologue of the fentry handlers: [None] when nothing is attributed. *)
Definition fentry_identity (kind : Z) : M (option (Z * Z * Z)) :=
  tid ← get_tid;
  id ← resolve_ctx tid;
  let '(ctx_id, tool_id, identity) := id in
  mark_ctx_seen ctx_id;;
  if ctx_id =? 0 then
    d ← m_get FRAME_STASH_DEPTH tid;
    match d with
    | Some _ => emit_py_event_aux EVENT_AUDIT_UNATTRIBUTED 0 0 kind
    | None => mret tt
    end;;
    mret None
  else mret (Some (ctx_id, tool_id, identity)).

Definition try_fentry_file_open : M (result unit) :=
  id ← fentry_identity EVENT_FS_OPEN;
  match id with
  | None => mret (Ok tt)
  | Some (ctx_id, tool_id, identity) =>
      a ← read_arg 0;
      let f := unwrap_or a 0 in
      when (negb (f =? 0))
        (emit_fs_event f tool_id ctx_id identity POLICY_SOURCE_MONITOR ACTION_ALLOW);;
      mret (Ok tt)
  end.

Definition try_fentry_bprm_check : M (result unit) :=
  id ← fentry_identity EVENT_EXEC;
  match id with
  | None => mret (Ok tt)
  | Some (ctx_id, tool_id, identity) =>
      a ← read_arg 0;
      let bprm := unwrap_or a 0 in
      if bprm =? 0 then mret (Ok tt)
      else
        bf ← core_read linux_binprm_file bprm;
        match bf with
        | None => mret (Err 0)
        | Some bprm_file =>
            emit_exec_event bprm_file tool_id ctx_id identity POLICY_SOURCE_MONITOR ACTION_ALLOW;;
            mret (Ok tt)
        end
  end.

Definition try_fentry_socket_connect : M (result unit) :=
  tgid ← get_tgid;
  id ← fentry_identity EVENT_NET_CONNECT;
  match id with
  | None => mret (Ok tt)
  | Some (ctx_id, tool_id, identity) =>
      a ← read_arg 1;
      let sa := unwrap_or a 0 in
      if sa =? 0 then mret (Ok tt)
      else
        ep ←? connect_endpoint sa;
        match ep with
        | None => mret (Ok tt)
        | Some (addr, port) =>
            emit_net_event tgid tool_id ctx_id identity POLICY_SOURCE_MONITOR ACTION_ALLOW
              addr port;;
            mret (Ok tt)
        end
  end.

Definition handle_fentry_file_open : M unit := try_fentry_file_open;; mret tt.
Definition handle_fentry_bprm_check : M unit := try_fentry_bprm_check;; mret tt.
Definition handle_fentry_socket_connect : M unit := try_fentry_socket_connect;; mret tt.
