(* ===== verification/Probes.v ===== *)
(** * The attached programs ([ironscope-ebpf/src/main.rs])

    A [probe] is a program that the loader attaches; [run_probe] is one run of it,
    with the value that the kernel sees. *)

From stdpp Require Import base gmap list.
From S2P Require Import Prelude Types Maps Ownership Identity Worker Frames Tasks Events Lsm.

Inductive probe :=
| sched_process_fork | sched_process_exit | sched_process_exec
| eval_frame_entry | eval_frame_func_entry | eval_resume
| worker_eval_frame_entry | worker_eval_frame_func_entry | worker_eval_resume
| eval_frame_end_rv | eval_frame_end_rc | eval_frame_end_exc
| asyncio_task_init | asyncio_task_step | asyncio_task_step_ret
| asyncio_task_eager_start | asyncio_task_eager_start_ret
| gen_dealloc
| ag_file_open | ag_bprm_check | ag_socket_connect
| ag_fentry_file_open | ag_fentry_bprm_check | ag_fentry_socket_connect.

#[global] Instance probe_eq : EqDecision probe.
Proof. solve_decision. Defined.

(** [handler(&ctx).unwrap_or(0)] *)
Definition or_zero (m : M (result Z)) : M Z :=
  r ← m; mret (match r with Ok v => v | Err _ => 0 end).

(** [handler(&ctx).unwrap_or(()); 0] *)
Definition then_zero {A} (m : M A) : M Z := m;; mret 0.

Definition gen_dealloc_prog : M Z :=
  a ← read_arg 0;
  match a with
  | None => mret 0
  | Some obj_ptr => then_zero (handle_pyobj_dealloc obj_ptr)
  end.

Definition run_probe (p : probe) : M Z :=
  match p with
  | sched_process_fork => or_zero handle_sched_fork
  | sched_process_exit => or_zero handle_sched_exit
  | sched_process_exec => or_zero handle_sched_exec
  | eval_frame_entry => then_zero handle_frame_entry
  | eval_frame_func_entry => then_zero handle_frame_func_entry
  | eval_resume => then_zero handle_frame_resume
  | worker_eval_frame_entry => then_zero worker_handle_frame_entry
  | worker_eval_frame_func_entry => then_zero worker_handle_frame_func_entry
  | worker_eval_resume => then_zero worker_handle_frame_resume
  | eval_frame_end_rv | eval_frame_end_rc => then_zero handle_frame_exit_normal
  | eval_frame_end_exc => then_zero handle_frame_exit_exception
  | asyncio_task_init => then_zero handle_task_init
  | asyncio_task_step | asyncio_task_eager_start => then_zero handle_task_step_entry
  | asyncio_task_step_ret | asyncio_task_eager_start_ret => then_zero handle_task_step_return
  | gen_dealloc => gen_dealloc_prog
  | ag_file_open => handle_file_open
  | ag_bprm_check => handle_bprm_check
  | ag_socket_connect => handle_socket_connect
  | ag_fentry_file_open => then_zero handle_fentry_file_open
  | ag_fentry_bprm_check => then_zero handle_fentry_bprm_check
  | ag_fentry_socket_connect => then_zero handle_fentry_socket_connect
  end.

(** The programs whose return value the kernel enforces. *)
Definition is_lsm (p : probe) : bool :=
  match p with ag_file_open | ag_bprm_check | ag_socket_connect => true | _ => false end.

(** ** Runs of the system

    A step is one run of a program in a context that satisfies [G]. *)

Section system.
Context (G : Env → Prop).

Inductive step : State → State → Prop :=
| step_probe p e σ : G e → step σ (run_probe p e σ).2.

Inductive reachable (σ0 : State) : State → Prop :=
| reach_refl : reachable σ0 σ0
| reach_step σ σ' : reachable σ0 σ → step σ σ' → reachable σ0 σ'.

(** What every program preserves holds in every reachable state. *)
Lemma reachable_invariant (I : State → Prop) σ0 σ :
  (∀ p, Preserves G I (run_probe p)) → I σ0 → reachable σ0 σ → I σ.
Proof.
  intros Hp H0. induction 1 as [|σ σ' _ IH Hstep]; [done|].
  destruct Hstep as [p e σ He]. by apply Hp.
Qed.
End system.

#[export] Hint Constructors reachable step : core.
