(* ===== verification/Monotone.v ===== *)
(** * What no program changes

    The policy maps, the configuration, the rules and the offsets are written by
    user space only, and the three event rings only grow: this holds of every
    program in every context, with failing updates and evictions too. *)

From stdpp Require Import base gmap list.
From S2P Require Import Prelude Types Maps Ownership Identity Worker Frames Tasks Events Lsm.
From S2P Require Import Probes Samples.

(** The maps that user space fills. *)
Definition policy_of (σ : State) :=
  (tool_fs_policy σ, tool_exec_policy σ, tool_net_policy σ, ironscope_config σ, root_rules σ,
   python_offsets σ).

Definition logs_of (σ : State) := (py_events σ, resolver_events σ, guard_events σ).

(** [σ] comes after [σ0]. *)
Record extends (σ0 σ : State) : Prop := {
  ext_policy : policy_of σ = policy_of σ0;
  ext_py : py_events σ0 `prefix_of` py_events σ;
  ext_resolver : resolver_events σ0 `prefix_of` resolver_events σ;
  ext_guard : guard_events σ0 `prefix_of` guard_events σ
}.

#[global] Instance extends_preorder : PreOrder extends.
Proof.
  split; [by constructor|]. intros σ1 σ2 σ3 [] []. constructor; [by etrans|by etrans..].
Qed.

Lemma extends_same σ0 σ σ' :
  policy_of σ' = policy_of σ → logs_of σ' = logs_of σ → extends σ0 σ → extends σ0 σ'.
Proof. intros Hp [= H1 H2 H3] []. constructor; [by rewrite Hp|by rewrite ?H1, ?H2, ?H3..]. Qed.

Abbreviation Extends m := (∀ σ0, Preserves (λ _, True) (extends σ0) m).

(** A map of neither group. *)
Class Internal {K V} `{Countable K} (m : bpf_map K V) : Prop :=
  internal x σ : policy_of (bm_set m x σ) = policy_of σ ∧ logs_of (bm_set m x σ) = logs_of σ.
#[global] Hint Extern 0 (Internal _) => (intros ? ?; split; reflexivity) : typeclass_instances.
#[global] Instance ctor_carrier_map_internal kind : Internal (ctor_carrier_map kind).
Proof. intros x σ. unfold ctor_carrier_map. by destruct (kind =? _). Qed.
#[global] Instance run_carrier_map_internal kind : Internal (run_carrier_map kind).
Proof. intros x σ. unfold run_carrier_map. by destruct (kind =? _). Qed.

Section primitives.
Context (σ0 : State) {K V : Type} `{Countable K} (m : bpf_map K V) `{!Internal m}.

#[global] Instance extends_insert k v : Preserves (λ _, True) (extends σ0) (m_insert m k v).
Proof.
  intros e σ _ Hσ. unfold m_insert. destruct (update_ok _ _); cbn [snd].
  - eapply extends_same; [..|exact Hσ]; by rewrite (proj1 (internal _ _)) || by rewrite (proj2 (internal _ _)).
  - by eapply extends_same; [..|exact Hσ].
Qed.
#[global] Instance extends_remove k : Preserves (λ _, True) (extends σ0) (m_remove m k).
Proof. intros e σ _ Hσ. eapply extends_same; [..|exact Hσ]; apply internal. Qed.
#[global] Instance extends_alter f k : Preserves (λ _, True) (extends σ0) (m_alter m f k).
Proof. intros e σ _ Hσ. eapply extends_same; [..|exact Hσ]; apply internal. Qed.
End primitives.

#[global] Instance extends_push_py ev : Extends (push_py_event ev).
Proof. intros σ0 e σ _ []. constructor; [done|by apply prefix_app_r|done|done]. Qed.
#[global] Instance extends_push_resolver ev : Extends (push_resolver_event ev).
Proof. intros σ0 e σ _ []. constructor; [done|done|by apply prefix_app_r|done]. Qed.
#[global] Instance extends_push_guard ev : Extends (push_guard_event ev).
Proof. intros σ0 e σ _ []. constructor; [done|done|done|by apply prefix_app_r]. Qed.
#[global] Instance extends_alloc_zero n : Extends (alloc_zero n).
Proof.
  intros σ0 e σ _ Hσ. unfold alloc_zero. repeat case_match; by eapply extends_same; [..|exact Hσ].
Qed.

(** An operation that leaves both groups alone. *)
Lemma extends_pure {A} (m : M A) :
  (∀ e σ, policy_of (m e σ).2 = policy_of σ ∧ logs_of (m e σ).2 = logs_of σ) → Extends m.
Proof. intros Hm σ0 e σ _ Hσ. eapply extends_same; [..|exact Hσ]; apply Hm. Qed.

(** [follow prim db] follows a handler's control flow and unfolds the handlers it
    calls down to the primitive operations, which [prim] or the database [db]
    closes. *)
Ltac head_of t := lazymatch t with ?f _ => head_of f | _ => t end.
Ltac follow_step prim known :=
  lazymatch goal with
  | |- Preserves _ _ (if ?b then _ else _) => destruct b
  | |- Preserves _ _ (match ?x with _ => _ end) => destruct x
  | |- Preserves _ _ (_ ≫= _) => apply preserves_bind
  | |- Preserves _ _ (mbind _ _) => apply preserves_bind
  | |- Preserves _ _ (try_bind _ _) => apply preserves_try
  | |- Preserves _ _ (when _ _) => apply preserves_when
  | |- Preserves _ _ (scan _ _ _ _) => apply preserves_scan
  | |- Preserves _ _ (mret _) => apply preserves_ret
  | |- ∀ _, _ => intros ?
  | |- Preserves _ _ (λ _ _, _) => prim tt
  | |- Preserves _ _ (m_get _ _) => prim tt
  | |- Preserves _ _ (m_insert _ _ _) => prim tt
  | |- Preserves _ _ (m_remove _ _) => prim tt
  | |- Preserves _ _ (m_alter _ _ _) => prim tt
  | |- Preserves _ _ ?m => first [solve [known tt] | let h := head_of m in unfold h]
  end.
Ltac follow prim known := repeat (cbv beta zeta; follow_step prim known).

(** ** Handlers that leave a part of the state alone *)

Abbreviation Leaves f m := (∀ x, Preserves (λ _, True) (λ σ, f σ = x) m).

Section leaves.
Context {A K V : Type} `{Countable K} (f : State → A) (m : bpf_map K V).
Context (Htick : ∀ t σ, f (set_tick t σ) = f σ) (Hm : ∀ x σ, f (bm_set m x σ) = f σ).

Lemma leaves_insert k v : Leaves f (m_insert m k v).
Proof.
  intros l e σ _ Hσ. unfold m_insert. destruct (update_ok _ _); cbn [snd]; [rewrite Hm|];
    unfold next_tick; by rewrite Htick.
Qed.
Lemma leaves_remove k : Leaves f (m_remove m k).
Proof. intros l e σ _ Hσ. cbn. by rewrite Hm. Qed.
Lemma leaves_alter g k : Leaves f (m_alter m g k).
Proof. intros l e σ _ Hσ. cbn. by rewrite Hm. Qed.
End leaves.

Create HintDb leaves_db discriminated.
#[export] Hint Constants Opaque : leaves_db.
Ltac leaves_prim _ :=
  first [apply leaves_insert; by intros | apply leaves_remove; by intros
        | apply leaves_alter; by intros | by intros ? ? ?].
Ltac leaves := follow leaves_prim ltac:(fun _ => eauto 1 with leaves_db nocore).

(** ** Every program extends *)

Ltac extend_prim _ :=
  first [apply extends_insert; apply _ | apply extends_remove; apply _
        | apply extends_alter; apply _ | apply extends_pure; by intros].
Ltac extend :=
  follow extend_prim ltac:(fun _ => eauto 1 with extends_db nocore).

Create HintDb extends_db discriminated.
#[export] Hint Constants Opaque : extends_db.
#[export] Hint Resolve extends_push_py extends_push_resolver extends_push_guard
  extends_alloc_zero : extends_db.

Lemma extends_carrier_dec c : Extends (carrier_dec c).
Proof. extend. Qed.
Lemma extends_ctx_push t c : Extends (ctx_stack_push t c).
Proof. extend. Qed.
Lemma extends_ctx_remove t c : Extends (ctx_stack_remove t c).
Proof. extend. Qed.
Lemma extends_tool_push a b c d f : Extends (tool_stack_push a b c d f).
Proof. extend. Qed.
Lemma extends_tool_remove p t : Extends (tool_stack_remove_if p t).
Proof. extend. Qed.
#[export] Hint Resolve extends_carrier_dec extends_ctx_push extends_ctx_remove extends_tool_push
  extends_tool_remove : extends_db.

Lemma extends_task_push a b c d : Extends (task_ctx_push a b c d).
Proof. extend. Qed.
Lemma extends_finish_close t en : Extends (finish_tool_close t en).
Proof. extend. Qed.
Lemma extends_close t en : Extends (close_tool_stack_entry t en).
Proof. extend. Qed.
Lemma extends_slot a b c d : Extends (extract_and_resolve a b c d).
Proof. extend. Qed.
#[export] Hint Resolve extends_task_push extends_finish_close extends_close extends_slot
  : extends_db.

Lemma extends_task_clear a b : Extends (task_ctx_clear a b).
Proof. extend. Qed.
Lemma extends_start_cached a b c d f : Extends (start_cached_self_tool_root a b c d f).
Proof. extend. Qed.
Lemma extends_worker_kind a b : Extends (worker_kind_for_frame a b).
Proof. extend. Qed.
Lemma extends_find_in_frame f : Extends (find_mapped_work_item_in_frame f).
Proof. extend. Qed.
#[export] Hint Resolve extends_task_clear extends_start_cached extends_worker_kind
  extends_find_in_frame : extends_db.

Lemma extends_walk fuel a b : Extends (walk_frame_chain fuel a b).
Proof. revert b. induction fuel as [|fuel IH]; intros b; cbn [walk_frame_chain]; extend. Qed.
#[export] Hint Resolve extends_walk : extends_db.

Lemma extends_refresh t : Extends (refresh_threadpool_worker_context t).
Proof. extend. Qed.
Lemma extends_emit_path a b c d f g h : Extends (try_emit_path_event a b c d f g h).
Proof. extend. Qed.
Lemma extends_emit_net a b c d f g h i : Extends (try_emit_net_event a b c d f g h i).
Proof. extend. Qed.
#[export] Hint Resolve extends_refresh extends_emit_path extends_emit_net : extends_db.

Lemma extends_entry_inner f b : Extends (handle_tool_frame_entry_for_ptr_inner f b).
Proof. extend. Qed.
Lemma extends_worker_frame f : Extends (handle_worker_frame_for_ptr f).
Proof. extend. Qed.
Lemma extends_exit r : Extends (handle_frame_exit r).
Proof. extend. Qed.
#[export] Hint Resolve extends_entry_inner extends_worker_frame extends_exit : extends_db.

Lemma extends_hook_identity kind : Extends (hook_identity kind).
Proof. extend. Qed.
Lemma extends_fentry_identity kind : Extends (fentry_identity kind).
Proof. extend. Qed.
Lemma extends_decision i p : Extends (hook_decision i p).
Proof. extend. Qed.
Lemma extends_file_identity f : Extends (get_file_identity f).
Proof. extend. Qed.
Lemma extends_endpoint sa : Extends (connect_endpoint sa).
Proof. extend. Qed.
Lemma extends_task_remove a b c : Extends (task_ctx_remove a b c).
Proof. extend. Qed.
Lemma extends_restore_close a b : Extends (restore_deferred_tool_close a b).
Proof. extend. Qed.
Lemma extends_step_restore a : Extends (task_step_restore a).
Proof. extend. Qed.
Lemma extends_clear_thread a : Extends (clear_threadpool_worker_for_thread a).
Proof. extend. Qed.
Lemma extends_clear_runs a : Extends (clear_worker_runs_for_thread a).
Proof. extend. Qed.
Lemma extends_inherited a b : Extends (fork_inherited_ctx a b).
Proof. extend. Qed.
#[export] Hint Resolve extends_hook_identity extends_fentry_identity extends_decision
  extends_file_identity extends_endpoint extends_task_remove extends_restore_close
  extends_step_restore extends_clear_thread extends_clear_runs extends_inherited : extends_db.

(** Every program. *)
Lemma run_probe_extends p : Extends (run_probe p).
Proof. destruct p; cbn [run_probe]; extend. Qed.

(** Whatever programs run, in whatever contexts (failing updates and evictions
    included), the policy, the configuration, the classification rules and the
    offsets stay those that user space loaded, and the three event logs only grow. *)
Theorem policy_frozen_logs_grow σ0 σ :
  reachable (λ _, True) σ0 σ →
  policy_of σ = policy_of σ0
  ∧ py_events σ0 `prefix_of` py_events σ
  ∧ resolver_events σ0 `prefix_of` resolver_events σ
  ∧ guard_events σ0 `prefix_of` guard_events σ.
Proof.
  intros Hr. destruct (reachable_invariant (λ _, True) (extends σ0) σ0 σ) as [H1 H2 H3 H4];
    [intros p; apply run_probe_extends|reflexivity|done|done].
Qed.

Lemma policy_frozen_logs_grow_witness :
  policy_of (run_probe ag_file_open env_file (state_denied MODE_ENFORCE)).2
  = policy_of (state_denied MODE_ENFORCE).
Proof.
  apply (policy_frozen_logs_grow (state_denied MODE_ENFORCE)).
  eapply reach_step; [apply reach_refl|]. by apply (step_probe _ ag_file_open env_file).
Defined.
