(* ===== verification/Compiler.v ===== *)
(** * Policy compiler and map population
    ([ironscope/src/config.rs], [compiler.rs], [rules.rs], [main.rs])

    User space turns the policy file into map entries.  A [&str] is the list of
    its bytes.  What the compiler asks the operating system (file metadata, name
    resolution, [/etc/resolv.conf]) and the iteration order of a [HashSet] are
    parameters. *)

From stdpp Require Import base gmap list strings.
From S2P Require Import Prelude Types Maps.

Abbreviation str := (list Z).
(** A string literal of the source. *)
Abbreviation lit s := (bytes_of_string s%string).

(** ** Configuration ([config.rs]) *)

Record AgentDef := { ag_pid : option Z }.
(** [FsPolicy], [ExecPolicy] and [NetPolicy] have the same two fields. *)
Record AllowDeny := { ad_allow : list str; ad_deny : list str }.
Record ToolDef :=
  { td_name : str; td_fs : option AllowDeny; td_exec : option AllowDeny;
    td_net : option AllowDeny }.
Record IronScopeSection :=
  { cf_agents : list AgentDef; cf_tools : list ToolDef; cf_mode : str;
    cf_unknown_tool_policy : str; cf_resolver_error_policy : str;
    cf_agent_child_scope : str; cf_default_tool_policy : str }.

Definition default_mode : str := lit "monitor".
Definition default_unknown_tool_policy : str := lit "allow".
Definition default_resolver_error_policy : str := lit "deny".
Definition default_agent_child_scope : str := lit "protect_only_tool_children".
Definition default_tool_policy : str := lit "allow".

Definition default_config : IronScopeSection :=
  {| cf_agents := []; cf_tools := []; cf_mode := default_mode;
     cf_unknown_tool_policy := default_unknown_tool_policy;
     cf_resolver_error_policy := default_resolver_error_policy;
     cf_agent_child_scope := default_agent_child_scope;
     cf_default_tool_policy := default_tool_policy |}.

(** A section as the YAML parser finds it: [None] is a member that is absent.  An
    absent member is one of the [#[serde(default)]] values. *)
Record PolicyFields := { pf_allow : option (list str); pf_deny : option (list str) }.
Record ToolFields :=
  { tf_name : str; tf_fs : option PolicyFields; tf_exec : option PolicyFields;
    tf_net : option PolicyFields }.
Record SectionFields :=
  { sf_agents : option (list AgentDef); sf_tools : option (list ToolFields); sf_mode : option str;
    sf_unknown_tool_policy : option str; sf_resolver_error_policy : option str;
    sf_agent_child_scope : option str; sf_default_tool_policy : option str }.

Definition policy_of_fields (p : PolicyFields) : AllowDeny :=
  {| ad_allow := unwrap_or (pf_allow p) []; ad_deny := unwrap_or (pf_deny p) [] |}.
Definition tool_of_fields (t : ToolFields) : ToolDef :=
  {| td_name := tf_name t; td_fs := policy_of_fields <$> tf_fs t;
     td_exec := policy_of_fields <$> tf_exec t; td_net := policy_of_fields <$> tf_net t |}.
Definition section_of_fields (f : SectionFields) : IronScopeSection :=
  {| cf_agents := unwrap_or (sf_agents f) [];
     cf_tools := tool_of_fields <$> unwrap_or (sf_tools f) [];
     cf_mode := unwrap_or (sf_mode f) default_mode;
     cf_unknown_tool_policy := unwrap_or (sf_unknown_tool_policy f) default_unknown_tool_policy;
     cf_resolver_error_policy := unwrap_or (sf_resolver_error_policy f) default_resolver_error_policy;
     cf_agent_child_scope := unwrap_or (sf_agent_child_scope f) default_agent_child_scope;
     cf_default_tool_policy := unwrap_or (sf_default_tool_policy f) default_tool_policy |}.

Record IronScopeYamlConfig := { yc_ironscope : IronScopeSection }.

(** [IronScopeYamlConfig::load]: [read] is [read_to_string], [parse] the YAML parser. *)
Definition config_load (read : str → result str) (parse : str → result SectionFields) (path : str)
    : result IronScopeYamlConfig :=
  content ← read path;
  fields ← parse content;
  Ok {| yc_ironscope := section_of_fields fields |}.

(** ** Hashes and framework rules ([rules.rs]) *)

Definition rules_fnv1a_64 (s : str) : Z :=
  foldl (λ hash b, Z.lxor hash b ⊠ 0x100000001b3) 0xcbf29ce484222325 (take 64 s).

Definition rules_fnv1a_32 (s : str) : Z :=
  let h := foldl (λ h b, u32 (Z.lxor h b * 0x01000193)) 0x811c9dc5 (take 64 s) in
  if h =? 0 then 1 else h.

Record RuleEntry :=
  { ru_qualname : str; ru_kind : Z; ru_filename : option str; ru_extractor_kind : Z;
    ru_slot : Z }.

(** [load_rules] after the file has been parsed. *)
Definition load_rule (entry : RuleEntry) : RootRule :=
  {| rr_kind := ru_kind entry; rr_slot_index := ru_slot entry;
     rr_extractor_kind := ru_extractor_kind entry;
     rr_filename_hash := unwrap_or (rules_fnv1a_64 <$> ru_filename entry) 0;
     rr_qualname_hash := rules_fnv1a_64 (ru_qualname entry); rr_firstline := 0 |}.
Definition load_rules (entries : list RuleEntry) : list RootRule := load_rule <$> entries.

(** ** Strings: what the source uses of [str] and [FromStr] *)

Definition split_on (c : Z) (s : str) : list str :=
  foldr (λ b acc, if b =? c then [] :: acc
                  else match acc with p :: ps => (b :: p) :: ps | [] => [[b]] end) [[]] s.

(** [rsplitn(2, c)]: what precedes the last [c] and what follows it. *)
Fixpoint rsplit_once (c : Z) (s : str) : option (str * str) :=
  match s with
  | [] => None
  | b :: s' =>
      match rsplit_once c s' with
      | Some (before, after) => Some (b :: before, after)
      | None => if b =? c then Some ([], s') else None
      end
  end.

Definition strip_suffix (pat s : str) : option str :=
  let n := (length s - length pat)%nat in
  if (length pat <=? length s)%nat && bool_decide (drop n s = pat) then Some (take n s) else None.

(** [trim_end_matches]; every round drops a byte, so that the length is fuel. *)
Fixpoint trim_end_matches_fuel (fuel : nat) (pat s : str) : str :=
  match fuel with
  | O => s
  | S fuel =>
      match strip_suffix pat s with
      | Some s' => trim_end_matches_fuel fuel pat s'
      | None => s
      end
  end.
Definition trim_end_matches (pat s : str) : str := trim_end_matches_fuel (length s) pat s.

(** ASCII white space, which is all that [resolv.conf] separates with. *)
Definition is_space (b : Z) : bool := (b =? 32) || ((9 <=? b) && (b <=? 13)).
Fixpoint trim_start (s : str) : str :=
  match s with b :: s' => if is_space b then trim_start s' else s | [] => [] end.
Definition trim (s : str) : str := rev (trim_start (rev (trim_start s))).

Definition strip_prefix (pat s : str) : option str :=
  if bool_decide (take (length pat) s = pat) then Some (drop (length pat) s) else None.

Definition digit (b : Z) : option Z := if (48 <=? b) && (b <=? 57) then Some (b - 48) else None.

(** Decimal digits, failing as soon as the value leaves [0..max]. *)
Fixpoint parse_digits (max acc : Z) (s : str) : option Z :=
  match s with
  | [] => Some acc
  | b :: s =>
      d ← digit b;
      let acc := acc * 10 + d in
      if acc >? max then None else parse_digits max acc s
  end.

(** [u32::from_str] and [u16::from_str]: an optional plus sign and digits. *)
Definition parse_uint (max : Z) (s : str) : option Z :=
  match s with
  | [] => None
  | 43 :: [] => None
  | 43 :: s => parse_digits max 0 s
  | _ => parse_digits max 0 s
  end.

(** Decimal rendering of a number of at most [fuel] digits. *)
Fixpoint show_dec (fuel : nat) (n : Z) : str :=
  match fuel with
  | O => []
  | S fuel => if n <? 10 then [48 + n] else show_dec fuel (n / 10) ++ [48 + n `mod` 10]
  end.

(** An octet of [Ipv4Addr::from_str]: one to three digits, no leading zero. *)
Definition parse_octet (s : str) : option Z :=
  match s with
  | [] => None
  | 48 :: _ :: _ => None
  | _ => if (3 <? length s)%nat then None else parse_digits 255 0 s
  end.

Definition parse_ipv4 (s : str) : option Z :=
  match split_on 46 s with
  | [a; b; c; d] =>
      a ← parse_octet a; b ← parse_octet b; c ← parse_octet c; d ← parse_octet d;
      Some (le_decode [a; b; c; d])
  | _ => None
  end.

(** ** Devices *)

Definition userspace_dev_to_kernel_dev (dev : Z) : Z :=
  let major := Z.lor (Z.land (Z.shiftr dev 8) 0xfff)
                     (Z.land (Z.shiftr dev 32) (Z.lxor (2 ^ 64 - 1) 0xfff)) in
  let minor := Z.lor (Z.land dev 0xff)
                     (Z.land (Z.shiftr dev 12) (Z.lxor (2 ^ 64 - 1) 0xff)) in
  Z.lor (u32 (Z.shiftl (u32 major) 20)) (u32 minor).

(** ** Compiled policy *)

Record CompiledPolicy :=
  { cp_tool_name_to_id : gmap str Z; cp_agent_pids : list Z;
    cp_fs_rules : list (ToolPolicyKey * Z); cp_exec_rules : list (ToolExecKey * Z);
    cp_net_rules : list (ToolNetKey * Z); cp_mode : Z; cp_unknown_tool_policy : Z;
    cp_resolver_error_policy : Z; cp_child_scope : Z; cp_default_tool_policy : Z }.

Definition compile_allow_deny_policy (value : str) (allow_value deny_value : Z) : result Z :=
  if bool_decide (value = lit "allow") then Ok allow_value
  else if bool_decide (value = lit "deny") then Ok deny_value
  else Err 0.

Definition compile_child_scope (value : str) : result Z :=
  if bool_decide (value = lit "protect_only_tool_children") then Ok CHILD_SCOPE_TOOL_ONLY
  else if bool_decide (value = lit "protect_all_children") then Ok CHILD_SCOPE_ALL
  else Err 0.

Definition compile_mode (value : str) : result Z :=
  if bool_decide (value = lit "monitor") then Ok MODE_MONITOR
  else if bool_decide (value = lit "enforce") then Ok MODE_ENFORCE
  else Err 0.

Definition inject_dns_allows (tool_id : Z) (dns_ips : list Z) : list (ToolNetKey * Z) :=
  (λ ip, ({| nk_prefixlen := 64; nk_tool_id := tool_id; nk_addr := ip; nk_port := 0;
             nk_pad := 0 |}, PERM_ALLOW)) <$> dns_ips.

(** [u16::to_be] on a little-endian host. *)
Definition to_be16 (p : Z) : Z := Z.lor (Z.shiftr p 8) (Z.shiftl (Z.land p 0xff) 8).

Section compiler.
(** [std::fs::metadata]: device and inode; [to_socket_addrs] when its first
    address is IPv4; the contents of [/etc/resolv.conf]; the order in which the
    set of tool identifiers is visited. *)
Context (metadata : str → option (Z * Z)).
Context (first_ipv4 : str → option (list Z)).
Context (resolv_conf : option str).
Context (set_order : list Z → list Z).

Definition resolve_path_inode (path : str) : option (Z * Z) :=
  m ← metadata path; Some (userspace_dev_to_kernel_dev m.1, m.2).

Definition clean_path (path : str) : str :=
  trim_end_matches (lit "/*") (trim_end_matches (lit "/**") path).

Definition compile_fs_rules (tool_id : Z) (policy : AllowDeny) : list (ToolPolicyKey * Z) :=
  let compile perm path :=
    di ← resolve_path_inode (clean_path path);
    Some ({| fp_tool_id := tool_id; fp_dev := di.1; fp_ino := di.2 |}, perm) in
  omap (compile PERM_ALLOW) (ad_allow policy) ++ omap (compile PERM_DENY) (ad_deny policy).

(** One path of an exec policy; [*] stands for every executable. *)
Definition exec_path_rule (tool_id perm : Z) (path : str) : option (ToolExecKey * Z) :=
  if bool_decide (path = lit "*") then
    Some ({| xp_tool_id := tool_id; xp_dev := 0; xp_ino := 0 |}, perm)
  else
    di ← resolve_path_inode path;
    Some ({| xp_tool_id := tool_id; xp_dev := di.1; xp_ino := di.2 |}, perm).

Definition compile_exec_rules (tool_id : Z) (policy : AllowDeny) : list (ToolExecKey * Z) :=
  omap (exec_path_rule tool_id PERM_ALLOW) (ad_allow policy)
  ++ omap (exec_path_rule tool_id PERM_DENY) (ad_deny policy).

(** The last form of [parse_net_rule]: a host without port. *)
Definition parse_host_rule (tool_id : Z) (entry : str) : option ToolNetKey :=
  octets ← first_ipv4 (entry ++ lit ":443");
  Some {| nk_prefixlen := 64; nk_tool_id := tool_id; nk_addr := le_decode octets;
          nk_port := 0; nk_pad := 0 |}.

(** [addr:port], [host:port], or a bare host. *)
Definition parse_endpoint_rule (tool_id : Z) (entry : str) : option ToolNetKey :=
  match rsplit_once 58 entry with
  | Some (host, port_str) =>
      port ← parse_uint 65535 port_str;
      addr ← match parse_ipv4 host with
             | Some ip => Some ip
             | None => le_decode <$> first_ipv4 (host ++ 58 :: show_dec 5 port)
             end;
      Some {| nk_prefixlen := 96; nk_tool_id := tool_id; nk_addr := addr;
              nk_port := to_be16 port; nk_pad := 0 |}
  | None => parse_host_rule tool_id entry
  end.

Definition parse_net_rule (tool_id : Z) (entry : str) : option ToolNetKey :=
  match split_on 47 entry with
  | [ip; prefix] =>
      addr ← parse_ipv4 ip;
      prefix ← parse_uint (2 ^ 32 - 1) prefix;
      Some {| nk_prefixlen := u32 (32 + prefix); nk_tool_id := tool_id; nk_addr := addr;
              nk_port := 0; nk_pad := 0 |}
  | _ => parse_endpoint_rule tool_id entry
  end.

Definition compile_net_rules (tool_id : Z) (policy : AllowDeny) : list (ToolNetKey * Z) :=
  let compile perm entry := k ← parse_net_rule tool_id entry; Some (k, perm) in
  omap (compile PERM_ALLOW) (ad_allow policy) ++ omap (compile PERM_DENY) (ad_deny policy).

Definition discover_dns_resolver_ips : list Z :=
  let of_line acc line :=
    match strip_prefix (lit "nameserver") (trim line) with
    | Some rest =>
        match parse_ipv4 (trim rest) with
        | Some ip => if bool_decide (ip ∈ acc) then acc else acc ++ [ip]
        | None => acc
        end
    | None => acc
    end in
  let ips := match resolv_conf with
             | Some contents => foldl of_line [] (split_on 10 contents)
             | None => []
             end in
  match ips with
  | [] => omap parse_ipv4 [lit "127.0.0.53"; lit "127.0.0.1"]
  | _ => ips
  end.

(** The rules of all tools, in the order of the file. *)
Definition rules_of {K} (section : ToolDef → option AllowDeny)
    (compile : Z → AllowDeny → list (K * Z)) (ids : list (Z * ToolDef)) : list (K * Z) :=
  ids ≫= λ '(tool_id, tool),
    match section tool with Some policy => compile tool_id policy | None => [] end.

Definition dns_rules (net_rules : list (ToolNetKey * Z)) : list (ToolNetKey * Z) :=
  set_order (remove_dups ((λ r, nk_tool_id r.1) <$> net_rules))
    ≫= λ tool_id, inject_dns_allows tool_id discover_dns_resolver_ips.

Definition compile_with_tool_ids (config : IronScopeSection) (tool_id_for : nat → str → Z)
    : result CompiledPolicy :=
  let ids := imap (λ i tool, (tool_id_for i (td_name tool), tool)) (cf_tools config) in
  let net_rules := rules_of td_net compile_net_rules ids in
  match compile_mode (cf_mode config),
        compile_allow_deny_policy (cf_unknown_tool_policy config)
          UNKNOWN_TOOL_ALLOW UNKNOWN_TOOL_DENY,
        compile_allow_deny_policy (cf_resolver_error_policy config)
          RESOLVER_ERROR_ALLOW RESOLVER_ERROR_DENY,
        compile_allow_deny_policy (cf_default_tool_policy config)
          DEFAULT_TOOL_ALLOW DEFAULT_TOOL_DENY,
        compile_child_scope (cf_agent_child_scope config)
  with
  | Ok mode, Ok unknown, Ok resolver_error, Ok default, Ok child_scope =>
      Ok {| cp_tool_name_to_id :=
              foldl (λ m '(tool_id, tool), <[td_name tool := tool_id]> m) ∅ ids;
            cp_agent_pids := omap ag_pid (cf_agents config);
            cp_fs_rules := rules_of td_fs compile_fs_rules ids;
            cp_exec_rules := rules_of td_exec compile_exec_rules ids;
            cp_net_rules := net_rules ++ dns_rules net_rules;
            cp_mode := mode; cp_unknown_tool_policy := unknown;
            cp_resolver_error_policy := resolver_error; cp_child_scope := child_scope;
            cp_default_tool_policy := default |}
  | _, _, _, _, _ => Err 0
  end.

Definition compile_with_hashed_tool_ids (config : IronScopeSection) : result CompiledPolicy :=
  compile_with_tool_ids config (λ _ name, rules_fnv1a_32 name).
End compiler.

(** ** Loading the maps ([main.rs]) *)

Definition configured_agent_pids (config : IronScopeSection) : result (list Z) :=
  match omap ag_pid (cf_agents config) with
  | [] => Err 0
  | pids => Ok pids
  end.

(** An insertion from user space, whose failure stops the program. *)
Definition u_insert {K V} `{Countable K} (m : bpf_map K V) (k : K) (v : V) : M (result unit) :=
  λ e σ, if update_ok e (tick σ) then (Ok tt, (m_insert m k v e σ).2) else (Err 0, next_tick σ).

(** [for (k, v) in rules { map.insert(k, v, 0)?; }] *)
Fixpoint for_each {A} (f : A → M (result unit)) (l : list A) : M (result unit) :=
  match l with
  | [] => mret (Ok tt)
  | a :: l => f a ;;? for_each f l
  end.

(** The kernel's LPM trie rejects a prefix longer than its key. *)
Definition NET_KEY_BITS := 96.

Definition net_insert (r : ToolNetKey * Z) : M (result unit) := λ e σ,
  let k := r.1 in
  let data := {| nd_tool_id := nk_tool_id k; nd_addr := nk_addr k; nd_port := nk_port k;
                 nd_pad := nk_pad k |} in
  if update_ok e (tick σ) && (nk_prefixlen k <=? NET_KEY_BITS) then
    (Ok tt, set_tool_net_policy (tool_net_policy σ ++ [(nk_prefixlen k, data, r.2)]) (next_tick σ))
  else (Err 0, next_tick σ).

Definition config_entry (c : CompiledPolicy) : IronScopeConfig :=
  {| ic_mode := cp_mode c; ic_discover := 1; ic_unattributed_policy := UNATTRIBUTED_AUDIT_ONLY;
     ic_unknown_tool_policy := cp_unknown_tool_policy c;
     ic_resolver_error_policy := cp_resolver_error_policy c;
     ic_child_scope := cp_child_scope c; ic_default_tool_policy := cp_default_tool_policy c |}.

Definition populate_maps (c : CompiledPolicy) : M (result unit) :=
  for_each (λ r, u_insert TOOL_FS_POLICY r.1 r.2) (cp_fs_rules c) ;;?
  for_each (λ r, u_insert TOOL_EXEC_POLICY r.1 r.2) (cp_exec_rules c) ;;?
  for_each net_insert (cp_net_rules c) ;;?
  for_each (λ pid, u_insert PROTECTED_TGIDS pid 1) (cp_agent_pids c) ;;?
  u_insert IRONSCOPE_CONFIG 0 (config_entry c).

(** [rules_map.set(i, rule, 0)?]: an array of 64 entries. *)
Fixpoint populate_root_rules (i : Z) (rules : list RootRule) : M (result unit) :=
  match rules with
  | [] => mret (Ok tt)
  | rule :: rules =>
      (λ e σ, if update_ok e (tick σ) && (i <? 64)
              then (Ok tt, set_root_rules (<[i := rule]> (root_rules σ)) (next_tick σ))
              else (Err 0, next_tick σ)) ;;?
      populate_root_rules (i + 1) rules
  end.
