(* ===== verification/Runtime.v ===== *)
(** * User-space resolver and audit report
    ([ironscope/src/main.rs], [python_runtime/langchain.rs], [resolver.rs])

    The event loop drains the three rings.  A resolver candidate is resolved
    against the traced process and the answer is written back into [TOOL_OBJ] and
    [TOOL_CTX]; at shutdown the collected events are checked against each other. *)

From stdpp Require Import base gmap list strings.
From S2P Require Import Prelude Text Types Maps Compiler.

(** ** The resolver's view of a Python process ([resolver.rs])

    The trait as a record of its methods. *)
Record CpythonResolver := {
  cr_read_type_ptr : Z → result Z;
  cr_read_type_name : Z → result str;
  cr_read_unicode : Z → result str;
  cr_read_dict_item : Z → str → result (option Z);
  cr_read_attr : Z → str → result (option Z);
  cr_read_code_filename : Z → result str;
  cr_read_code_qualname : Z → result str
}.

(** ** LangChain ([langchain.rs]) *)

Inductive LangChainCodeKind := ToolBoundary | Other.

Record ResolvedLangChainTool := { rl_name : str; rl_tool_id : Z }.

Definition ends_with (suffix s : str) : bool := bool_decide (is_Some (strip_suffix suffix s)).

Definition classify_code (cpython : CpythonResolver) (code : Z) : result LangChainCodeKind :=
  match cr_read_code_qualname cpython code with
  | Err c => Err c
  | Ok qualname =>
      if negb (bool_decide (qualname ∈ [lit "BaseTool.run"; lit "BaseTool.arun";
                                        lit "BaseTool.invoke"; lit "BaseTool.ainvoke"]))
      then Ok Other
      else
        match cr_read_code_filename cpython code with
        | Err c => Err c
        | Ok filename =>
            if ends_with (lit "langchain_core/tools/base.py") filename then Ok ToolBoundary
            else Ok Other
        end
  end.

Definition resolve_tool (cpython : CpythonResolver) (tool_obj : Z)
    : result ResolvedLangChainTool :=
  match cr_read_attr cpython tool_obj (lit "name") with
  | Err c => Err c
  | Ok None => Err 0
  | Ok (Some name_ptr) =>
      match cr_read_unicode cpython name_ptr with
      | Err c => Err c
      | Ok name =>
          match name with
          | [] => Err 0
          | _ => Ok {| rl_name := name; rl_tool_id := rules_fnv1a_32 name |}
          end
      end
  end.

(** The resolution of a candidate: the code object is checked unless the frame
    was found by its suffix. *)
Definition resolve_candidate (cpython : CpythonResolver) (ev : ResolverEvent)
    : result ResolvedLangChainTool :=
  if re_code_kind ev =? CODE_KIND_IGNORE then resolve_tool cpython (re_self_ptr ev)
  else
    match classify_code cpython (re_code_ptr ev) with
    | Err c => Err c
    | Ok ToolBoundary => resolve_tool cpython (re_self_ptr ev)
    | Ok Other => Err 0
    end.

(** ** Collected events ([final_state.rs])

    A [PyEvent] and a [ResolverEvent] are collected as they are (the text of the kind
    is a function of the kind); a guard event is rendered when it is received. *)

Record GuardAuditEvent := {
  ga_kind : Z; ga_kind_str : str; ga_ctx_id : Z; ga_tool_id : Z; ga_tool_name : str;
  ga_identity_state : str; ga_policy_source : str; ga_path : str; ga_addr : option str;
  ga_port : option Z; ga_action : str; ga_ts_ns : Z; ga_pid : Z; ga_tid : Z
}.

Record Runtime := mkRuntime {
  rt_py_events : list PyEvent;
  rt_resolver_events : list ResolverEvent;
  rt_guard_events : list GuardAuditEvent;
  rt_tool_name_table : gmap Z str;
  rt_resolvers : gmap Z CpythonResolver
}.

Definition resolver_failed_event (ev : ResolverEvent) : ResolverEvent :=
  {| re_pid := re_pid ev; re_tid := re_tid ev; re_ts_ns := re_ts_ns ev;
     re_kind := EVENT_RESOLVER_FAILED; re_code_kind := re_code_kind ev;
     re_ctx_id := re_ctx_id ev; re_self_ptr := re_self_ptr ev; re_type_ptr := re_type_ptr ev;
     re_frame_ptr := re_frame_ptr ev; re_code_ptr := re_code_ptr ev |}.

Definition should_warn_resolver_failure (ev : ResolverEvent) : bool :=
  negb (re_ctx_id ev =? 0) || negb (re_code_kind ev =? CODE_KIND_IGNORE).

(** ** Writing an answer back *)

Definition mark_tool_ctx_resolver_error (c : ToolCtx) : ToolCtx :=
  {| tc_tool_id := TOOL_IDLE; tc_generation := u32 (tc_generation c + 1);
     tc_carrier_count := tc_carrier_count c;
     tc_flags := Z.lor (Z.ldiff (tc_flags c) TOOL_CTX_FLAG_RESOLVED) TOOL_CTX_FLAG_RESOLVER_ERROR;
     tc_started_ns := tc_started_ns c; tc_last_seen_ns := tc_last_seen_ns c |}.

Definition mark_tool_ctx_resolved (tool_id : Z) (c : ToolCtx) : ToolCtx :=
  {| tc_tool_id := tool_id; tc_generation := u32 (tc_generation c + 1);
     tc_carrier_count := tc_carrier_count c;
     tc_flags := Z.lor (tc_flags c) TOOL_CTX_FLAG_RESOLVED;
     tc_started_ns := tc_started_ns c; tc_last_seen_ns := tc_last_seen_ns c |}.

(** User space has no pointer into the map: it copies the entry out, changes the
    copy and writes it back, in two system calls. *)
Definition ctx_read (ctx_id : Z) : M (option ToolCtx) := m_get TOOL_CTX ctx_id.
Definition ctx_write (ctx_id : Z) (c : ToolCtx) : M (result unit) := u_insert TOOL_CTX ctx_id c.

Definition mark_tool_ctx_map_resolver_error (ctx_id : Z) : M (result bool) :=
  if ctx_id =? 0 then mret (Ok false)
  else
    c ← ctx_read ctx_id;
    match c with
    | None => mret (Err 0)
    | Some c => ctx_write ctx_id (mark_tool_ctx_resolver_error c) ;;? mret (Ok true)
    end.

Section runtime.
(** [LiveCpythonResolver::detect_for_pid]: runs the target's interpreter. *)
Context (detect_for_pid : Z → option CpythonResolver).

(** The two failure branches: mark the context and log the failure. *)
Definition resolver_failure (ev : ResolverEvent) (rt : Runtime) : M Runtime :=
  r ← mark_tool_ctx_map_resolver_error (re_ctx_id ev);
  mret (match r with
        | Ok true =>
            mkRuntime (rt_py_events rt) (rt_resolver_events rt ++ [resolver_failed_event ev])
              (rt_guard_events rt) (rt_tool_name_table rt) (rt_resolvers rt)
        | _ => rt
        end).

(** Events of the context that were logged before its tool was known. *)
Definition backfill_tool_id (ctx_id tool_id : Z) (ev : PyEvent) : PyEvent :=
  if (pe_ctx_id ev =? ctx_id) && (pe_tool_id ev =? TOOL_IDLE) then
    {| pe_pid := pe_pid ev; pe_tid := pe_tid ev; pe_ts_ns := pe_ts_ns ev;
       pe_kind := pe_kind ev; pe_ctx_id := pe_ctx_id ev; pe_tool_id := tool_id;
       pe_carrier_ptr := pe_carrier_ptr ev; pe_aux := pe_aux ev |}
  else ev.

(** The update of a context that is still in flight. *)
Definition resolved_ctx (ctx_id tool_id : Z) (rt : Runtime) : M Runtime :=
  if ctx_id =? 0 then mret rt
  else
    c ← ctx_read ctx_id;
    match c with
    | None => mret rt
    | Some c =>
        w ← ctx_write ctx_id (mark_tool_ctx_resolved tool_id c);
        mret (match w with
              | Ok _ =>
                  mkRuntime (backfill_tool_id ctx_id tool_id <$> rt_py_events rt)
                    (rt_resolver_events rt) (rt_guard_events rt) (rt_tool_name_table rt)
                    (rt_resolvers rt)
              | Err _ => rt
              end)
    end.

Definition resolver_success (ev : ResolverEvent) (resolved : ResolvedLangChainTool)
    (rt : Runtime) : M Runtime :=
  u_insert TOOL_OBJ {| po_tgid := re_pid ev; po_ptr := re_self_ptr ev |}
    {| to_type_ptr := re_type_ptr ev; to_tool_id := rl_tool_id resolved;
       to_name_hash := rl_tool_id resolved; to_generation := 0 |};;
  rt ← resolved_ctx (re_ctx_id ev) (rl_tool_id resolved) rt;
  mret (mkRuntime (rt_py_events rt) (rt_resolver_events rt) (rt_guard_events rt)
          (<[rl_tool_id resolved := rl_name resolved]> (rt_tool_name_table rt))
          (rt_resolvers rt)).

(** Attach a resolver to the process on its first candidate. *)
Definition ensure_resolver (ev : ResolverEvent) (rt : Runtime) : M Runtime :=
  match rt_resolvers rt !! re_pid ev with
  | Some _ => mret rt
  | None =>
      match detect_for_pid (re_pid ev) with
      | Some resolver =>
          mret (mkRuntime (rt_py_events rt) (rt_resolver_events rt) (rt_guard_events rt)
                  (rt_tool_name_table rt) (<[re_pid ev := resolver]> (rt_resolvers rt)))
      | None => resolver_failure ev rt
      end
  end.

(** The body of [while let Some(item) = resolver_ring.next()]. *)
Definition handle_resolver_event (ev : ResolverEvent) (rt : Runtime) : M Runtime :=
  let rt := mkRuntime (rt_py_events rt) (rt_resolver_events rt ++ [ev]) (rt_guard_events rt)
              (rt_tool_name_table rt) (rt_resolvers rt) in
  if negb (re_kind ev =? EVENT_RESOLVER_CANDIDATE) then mret rt
  else
    rt ← ensure_resolver ev rt;
    match rt_resolvers rt !! re_pid ev with
    | None => mret rt
    | Some cpython =>
        match resolve_candidate cpython ev with
        | Ok resolved => resolver_success ev resolved rt
        | Err _ => resolver_failure ev rt
        end
    end.
End runtime.

(** ** Names in the report *)

Definition event_kind_str (kind : Z) : str :=
  if kind =? EVENT_TOOL_START then lit "tool_start"
  else if kind =? EVENT_TOOL_FRAME_END then lit "tool_frame_end"
  else if kind =? EVENT_TOOL_CONTEXT_END then lit "tool_context_end"
  else if kind =? EVENT_TASK_BIND then lit "TASK_BIND"
  else if kind =? EVENT_TASK_UNBIND then lit "TASK_UNBIND"
  else if kind =? EVENT_WORKER_BIND then lit "WORKER_BIND"
  else if kind =? EVENT_WORKER_UNBIND then lit "WORKER_UNBIND"
  else if kind =? EVENT_WORKER_CARRIER_BIND then lit "WORKER_CARRIER_BIND"
  else if kind =? EVENT_WORKER_CARRIER_UNBIND then lit "WORKER_CARRIER_UNBIND"
  else if kind =? EVENT_CHILD_CTX_BIND then lit "CHILD_CTX_BIND"
  else if kind =? EVENT_CHILD_CTX_UNBIND then lit "CHILD_CTX_UNBIND"
  else if kind =? EVENT_AUDIT_UNATTRIBUTED then lit "AUDIT_UNATTRIBUTED"
  else if kind =? EVENT_AUDIT_UNRESOLVED then lit "AUDIT_UNRESOLVED"
  else if kind =? EVENT_AUDIT_STACK_OVERFLOW then lit "AUDIT_STACK_OVERFLOW"
  else if kind =? EVENT_AUDIT_BUILD_MISMATCH then lit "AUDIT_BUILD_MISMATCH"
  else if kind =? EVENT_DEALLOC_CLEANUP then lit "DEALLOC_CLEANUP"
  else if kind =? EVENT_RESOLVER_CANDIDATE then lit "RESOLVER_CANDIDATE"
  else if kind =? EVENT_RESOLVER_RESOLVED then lit "RESOLVER_RESOLVED"
  else if kind =? EVENT_RESOLVER_FAILED then lit "RESOLVER_FAILED"
  else lit "UNKNOWN".

Definition identity_state_str (identity_state : Z) : str :=
  if identity_state =? IDENTITY_STATE_KNOWN_TOOL then lit "known_tool"
  else if identity_state =? IDENTITY_STATE_UNKNOWN_TOOL then lit "unknown_tool"
  else if identity_state =? IDENTITY_STATE_RESOLVER_ERROR then lit "resolver_error"
  else if identity_state =? IDENTITY_STATE_UNATTRIBUTED then lit "unattributed"
  else lit "invalid".

Definition policy_source_str (policy_source : Z) : str :=
  if policy_source =? POLICY_SOURCE_DEFAULT_ALLOW then lit "default_allow"
  else if policy_source =? POLICY_SOURCE_TOOL then lit "tool"
  else if policy_source =? POLICY_SOURCE_UNATTRIBUTED then lit "unattributed"
  else if policy_source =? POLICY_SOURCE_UNKNOWN_TOOL then lit "unknown_tool"
  else if policy_source =? POLICY_SOURCE_RESOLVER_ERROR then lit "resolver_error"
  else if policy_source =? POLICY_SOURCE_MONITOR then lit "monitor"
  else if policy_source =? POLICY_SOURCE_DEFAULT_DENY then lit "default_deny"
  else lit "invalid".

Definition guard_event_kind_str (kind : Z) : str :=
  if kind =? EVENT_FS_OPEN then lit "FILE_OPEN"
  else if kind =? EVENT_EXEC then lit "EXEC"
  else if kind =? EVENT_NET_CONNECT then lit "CONNECT"
  else if kind =? EVENT_FORK then lit "FORK"
  else if kind =? EVENT_EXIT then lit "EXIT"
  else lit "UNKNOWN".

(** Lower-case hexadecimal without leading zeros, of at most [fuel] digits. *)
Fixpoint show_hex (fuel : nat) (n : Z) : str :=
  let digit d := if d <? 10 then 48 + d else 87 + d in
  match fuel with
  | O => []
  | S fuel => if n <? 16 then [digit n] else show_hex fuel (n / 16) ++ [digit (n `mod` 16)]
  end.
(** [{:#x}] of a [u32]. *)
Definition fmt_hex (n : Z) : str := lit "0x" ++ show_hex 8 n.

Definition guard_tool_name (tool_id identity_state : Z) (table : gmap Z str) : str :=
  if identity_state =? IDENTITY_STATE_KNOWN_TOOL then
    unwrap_or (table !! tool_id) (lit "unknown_" ++ fmt_hex tool_id)
  else if identity_state =? IDENTITY_STATE_UNKNOWN_TOOL then lit "unknown"
  else if identity_state =? IDENTITY_STATE_RESOLVER_ERROR then lit "resolver_error"
  else if identity_state =? IDENTITY_STATE_UNATTRIBUTED then lit "unattributed"
  else lit "invalid_identity".

Definition extract_guard_path (ev : GuardEvent) : str :=
  let len := Z.min (ge_path_len ev) MAX_EVENT_PATH_LEN in
  from_utf8_lossy (until_nul (take (Z.to_nat len) (ge_path ev))).

(** [u32::to_be] and [u16::from_be] on a little-endian host. *)
Definition swap_bytes (n : nat) (x : Z) : Z := le_decode (rev (le_bytes n x)).

(** [Ipv4Addr::from(addr.to_be()).to_string()]: the octets from the highest down. *)
Definition format_guard_ipv4 (addr : Z) : str :=
  match rev (le_bytes 4 (swap_bytes 4 addr)) with
  | [a; b; c; d] =>
      show_dec 3 a ++ 46 :: show_dec 3 b ++ 46 :: show_dec 3 c ++ 46 :: show_dec 3 d
  | _ => []
  end.

Definition audit_guard_event (table : gmap Z str) (ev : GuardEvent) : GuardAuditEvent :=
  let connect := ge_kind ev =? EVENT_NET_CONNECT in
  {| ga_kind := ge_kind ev; ga_kind_str := guard_event_kind_str (ge_kind ev);
     ga_ctx_id := ge_ctx_id ev; ga_tool_id := ge_tool_id ev;
     ga_tool_name := guard_tool_name (ge_tool_id ev) (ge_identity_state ev) table;
     ga_identity_state := identity_state_str (ge_identity_state ev);
     ga_policy_source := policy_source_str (ge_policy_source ev);
     ga_path := extract_guard_path ev;
     ga_addr := if connect then Some (format_guard_ipv4 (ge_addr ev)) else None;
     ga_port := if connect then Some (swap_bytes 2 (ge_port ev)) else None;
     ga_action := if ge_action ev =? ACTION_DENY then lit "deny" else lit "allow";
     ga_ts_ns := ge_ts_ns ev; ga_pid := ge_pid ev; ga_tid := ge_tid ev |}.

(** The bodies of the loops over [PY_EVENTS] and [GUARD_EVENTS]. *)
Definition handle_py_event (ev : PyEvent) (rt : Runtime) : Runtime :=
  mkRuntime (rt_py_events rt ++ [ev]) (rt_resolver_events rt) (rt_guard_events rt)
    (rt_tool_name_table rt) (rt_resolvers rt).

Definition handle_guard_event (ev : GuardEvent) (rt : Runtime) : Runtime :=
  mkRuntime (rt_py_events rt) (rt_resolver_events rt)
    (rt_guard_events rt ++ [audit_guard_event (rt_tool_name_table rt) ev])
    (rt_tool_name_table rt) (rt_resolvers rt).

(** ** The bracket check *)

Definition count_kind (kind : Z) (evs : list PyEvent) : nat :=
  length (filter (λ ev, pe_kind ev = kind) evs).

Definition balanced (evs : list PyEvent) : bool :=
  (count_kind EVENT_TOOL_START evs =? count_kind EVENT_TOOL_END evs)%nat.

Definition orphan_frame_ctx (evs : list PyEvent) : nat :=
  (count_kind EVENT_TOOL_START evs - count_kind EVENT_TOOL_END evs)%nat.

Definition push_bracket (ctx_id : Z) (iv : Z * Z) (brackets : gmap Z (list (Z * Z)))
    : gmap Z (list (Z * Z)) :=
  <[ctx_id := unwrap_or (brackets !! ctx_id) [] ++ [iv]]> brackets.

(** One event of the scan that pairs starts with ends. *)
Definition bracket_step (st : gmap Z (list (Z * Z)) * gmap Z Z) (ev : PyEvent)
    : gmap Z (list (Z * Z)) * gmap Z Z :=
  let '(brackets, open_starts) := st in
  if pe_kind ev =? EVENT_TOOL_START then
    (brackets, <[pe_ctx_id ev := pe_ts_ns ev]> open_starts)
  else if pe_kind ev =? EVENT_TOOL_END then
    match open_starts !! pe_ctx_id ev with
    | Some start_ts =>
        (push_bracket (pe_ctx_id ev) (start_ts, pe_ts_ns ev) brackets,
         delete (pe_ctx_id ev) open_starts)
    | None => (brackets, open_starts)
    end
  else (brackets, open_starts).

Definition u64_MAX := 2 ^ 64 - 1.

(** The intervals of all contexts; a start without an end stays open. *)
Definition compute_brackets (evs : list PyEvent) : gmap Z (list (Z * Z)) :=
  let '(brackets, open_starts) := foldl bracket_step (∅, ∅) evs in
  foldl (λ b '(ctx_id, start_ts), push_bracket ctx_id (start_ts, u64_MAX) b) brackets
    (map_to_list open_starts).

Definition in_bracket (brackets : gmap Z (list (Z * Z))) (ge : GuardAuditEvent) : bool :=
  match brackets !! ga_ctx_id ge with
  | Some intervals => existsb (λ '(s, e), (s <=? ga_ts_ns ge) && (ga_ts_ns ge <=? e)) intervals
  | None => false
  end.

Definition bracket_violations (evs : list PyEvent) (guards : list GuardAuditEvent) : nat :=
  let brackets := compute_brackets evs in
  length (filter (λ ge, ga_ctx_id ge ≠ 0 ∧ in_bracket brackets ge = false) guards).

(** ** The report *)

Record ToolDispatchInfo := { td_dispatch_name : str; td_count : Z }.

(** Runs of each tool, under the text of its identifier. *)
Definition tool_dispatches (table : gmap Z str) (evs : list PyEvent) : gmap str ToolDispatchInfo :=
  foldl (λ acc ev,
    if (pe_kind ev =? EVENT_TOOL_END) && negb (pe_tool_id ev =? 0) then
      let key := fmt_hex (pe_tool_id ev) in
      let entry := unwrap_or (acc !! key)
        {| td_dispatch_name := unwrap_or (table !! pe_tool_id ev) (lit "unknown_" ++ fmt_hex (pe_tool_id ev));
           td_count := 0 |} in
      <[key := {| td_dispatch_name := td_dispatch_name entry; td_count := u32 (td_count entry + 1) |}]> acc
    else acc) ∅ evs.

Record BracketCheck := {
  bc_total_guard_events : nat; bc_attributed_guard_events : nat; bc_bracket_violations : nat
}.

(** The number of entries that are left in each map. *)
Record RuntimeFinalState := {
  fs_tool_ctx : nat; fs_task_ctx : nat; fs_task_ctx_stack : nat; fs_task_ctx_depth : nat;
  fs_pending_tool_close : nat; fs_pending_frame_tool : nat; fs_fork_ctx : nat;
  fs_workitem_ctx : nat; fs_pythread_obj_ctx : nat; fs_pythread_obj_thread : nat;
  fs_frame_ctx : nat; fs_thread_active_ctx : nat; fs_thread_active_task : nat;
  fs_thread_ctx_stack : nat; fs_thread_ctx_depth : nat; fs_threadpool_worker_frame : nat;
  fs_threadpool_worker_ctx : nat; fs_threadpool_workitem_thread : nat;
  fs_thread_current_frame : nat; fs_thread_tstate : nat; fs_frame_entry_stash : nat;
  fs_frame_stash_depth : nat; fs_worker_run_stack : nat; fs_worker_run_carrier : nat;
  fs_worker_run_active : nat
}.

Definition final_state (σ : State) : RuntimeFinalState :=
  {| fs_tool_ctx := size (tool_ctx σ); fs_task_ctx := size (task_ctx σ);
     fs_task_ctx_stack := size (task_ctx_stack σ); fs_task_ctx_depth := size (task_ctx_depth σ);
     fs_pending_tool_close := size (pending_tool_close σ);
     fs_pending_frame_tool := size (pending_frame_tool σ); fs_fork_ctx := size (fork_ctx σ);
     fs_workitem_ctx := size (workitem_ctx σ); fs_pythread_obj_ctx := size (pythread_obj_ctx σ);
     fs_pythread_obj_thread := size (pythread_obj_thread σ); fs_frame_ctx := size (frame_ctx σ);
     fs_thread_active_ctx := size (thread_active_ctx σ);
     fs_thread_active_task := size (thread_active_task σ);
     fs_thread_ctx_stack := size (thread_ctx_stack σ);
     fs_thread_ctx_depth := size (thread_ctx_depth σ);
     fs_threadpool_worker_frame := size (threadpool_worker_frame σ);
     fs_threadpool_worker_ctx := size (threadpool_worker_ctx σ);
     fs_threadpool_workitem_thread := size (threadpool_workitem_thread σ);
     fs_thread_current_frame := size (thread_current_frame σ);
     fs_thread_tstate := size (thread_tstate σ); fs_frame_entry_stash := size (frame_entry_stash σ);
     fs_frame_stash_depth := size (frame_stash_depth σ);
     fs_worker_run_stack := size (worker_run_stack σ);
     fs_worker_run_carrier := size (worker_run_carrier σ);
     fs_worker_run_active := size (worker_run_depth σ) |}.

Record RuntimeAuditReport := {
  rr_py_events : list PyEvent; rr_resolver_events : list ResolverEvent;
  rr_guard_events : list GuardAuditEvent; rr_balanced : bool; rr_orphan_frame_ctx : nat;
  rr_tool_dispatches : gmap str ToolDispatchInfo; rr_audit_unresolved : nat;
  rr_audit_unattributed : nat; rr_task_bind_count : nat; rr_task_unbind_count : nat;
  rr_worker_bind_count : nat; rr_worker_unbind_count : nat; rr_stack_overflow_count : nat;
  rr_dealloc_cleanup_count : nat; rr_bracket_check : BracketCheck; rr_final_state : RuntimeFinalState
}.

Definition audit_report (rt : Runtime) (σ : State) : RuntimeAuditReport :=
  let evs := rt_py_events rt in
  {| rr_py_events := evs; rr_resolver_events := rt_resolver_events rt;
     rr_guard_events := rt_guard_events rt; rr_balanced := balanced evs;
     rr_orphan_frame_ctx := orphan_frame_ctx evs;
     rr_tool_dispatches := tool_dispatches (rt_tool_name_table rt) evs;
     rr_audit_unresolved := count_kind EVENT_AUDIT_UNRESOLVED evs;
     rr_audit_unattributed := count_kind EVENT_AUDIT_UNATTRIBUTED evs;
     rr_task_bind_count := count_kind EVENT_TASK_BIND evs;
     rr_task_unbind_count := count_kind EVENT_TASK_UNBIND evs;
     rr_worker_bind_count := count_kind EVENT_WORKER_BIND evs;
     rr_worker_unbind_count := count_kind EVENT_WORKER_UNBIND evs;
     rr_stack_overflow_count := count_kind EVENT_AUDIT_STACK_OVERFLOW evs;
     rr_dealloc_cleanup_count := count_kind EVENT_DEALLOC_CLEANUP evs;
     rr_bracket_check :=
       {| bc_total_guard_events := length (rt_guard_events rt);
          bc_attributed_guard_events := length (filter (λ ge, ga_ctx_id ge ≠ 0) (rt_guard_events rt));
          bc_bracket_violations := bracket_violations evs (rt_guard_events rt) |};
     rr_final_state := final_state σ |}.
