(* ===== verification/Contexts.v ===== *)
(** * Contexts: events, reference counts, identifiers

    What the operations of [ownership.rs] and [lifecycle.rs] on a single context
    do to the state: the judgements that execute them and the laws of the
    reference count and of the identifier allocator. *)

From stdpp Require Import base gmap list.
From S2P Require Import Prelude Types Maps Ownership.

(** ** Events *)

(** The events a submission appends: one, or none when the ring is full. *)
Definition event_log (e : Env) (σ : State) (pid tid kind ctx_id tool_id carrier aux : Z)
    : list PyEvent :=
  if reserve_ok e (tick σ) then
    [{| pe_pid := pid; pe_tid := tid; pe_ts_ns := ktime e (S (tick σ)); pe_kind := kind;
        pe_ctx_id := ctx_id; pe_tool_id := tool_id; pe_carrier_ptr := carrier; pe_aux := aux |}]
  else [].

Definition event_tick (e : Env) (σ : State) : nat :=
  if reserve_ok e (tick σ) then S (S (tick σ)) else S (tick σ).

(** The state after a submission. *)
Definition logged (e : Env) (pid tid kind ctx_id tool_id carrier aux : Z) (σ : State) : State :=
  set_tick (event_tick e σ)
    (set_py_events (py_events σ ++ event_log e σ pid tid kind ctx_id tool_id carrier aux) σ).

Lemma submit_py_event_run pid tid kind ctx_id tool_id carrier aux e σ :
  submit_py_event pid tid kind ctx_id tool_id carrier aux e σ
  = (tt, logged e pid tid kind ctx_id tool_id carrier aux σ).
Proof.
  unfold submit_py_event, logged, event_log, event_tick. mrun.
  destruct (reserve_ok e (tick σ)); [done|]. rewrite app_nil_r. by destruct σ.
Qed.

Lemma emit_py_event_run kind ctx_id tool_id e σ :
  emit_py_event kind ctx_id tool_id e σ
  = (tt, logged e (cur_tgid e) (cur_tid e) kind ctx_id tool_id 0 0 σ).
Proof. apply submit_py_event_run. Qed.

Lemma emit_py_event_carrier_run kind ctx_id tool_id ptr e σ :
  emit_py_event_carrier kind ctx_id tool_id ptr e σ
  = (tt, logged e (cur_tgid e) (cur_tid e) kind ctx_id tool_id ptr 0 σ).
Proof. apply submit_py_event_run. Qed.

Lemma emit_py_event_carrier_for_tid_run kind ctx_id tool_id ptr tid e σ :
  emit_py_event_carrier_for_tid kind ctx_id tool_id ptr tid e σ
  = (tt, logged e (cur_tgid e) tid kind ctx_id tool_id ptr 0 σ).
Proof. apply submit_py_event_run. Qed.

Lemma emit_py_event_fork_run kind ctx_id tool_id child e σ :
  emit_py_event_fork kind ctx_id tool_id child e σ
  = (tt, logged e child child kind ctx_id tool_id 0 1 σ).
Proof. apply submit_py_event_run. Qed.

Lemma emit_py_event_aux_run kind ctx_id tool_id aux e σ :
  emit_py_event_aux kind ctx_id tool_id aux e σ
  = (tt, logged e (cur_tgid e) (cur_tid e) kind ctx_id tool_id 0 aux σ).
Proof. apply submit_py_event_run. Qed.

#[export] Hint Resolve submit_py_event_run emit_py_event_run emit_py_event_carrier_run
  emit_py_event_carrier_for_tid_run emit_py_event_fork_run emit_py_event_aux_run : mrun.

(** ** Reading a context *)

Definition live (σ : State) (ctx_id : Z) : bool := bool_decide (is_Some (tool_ctx σ !! ctx_id)).

Lemma ctx_is_live_run ctx_id e σ : ctx_is_live ctx_id e σ = (live σ ctx_id, σ).
Proof. done. Qed.

Lemma ctx_tool_id_run ctx_id e σ :
  ctx_tool_id ctx_id e σ = (unwrap_or (tc_tool_id <$> tool_ctx σ !! ctx_id) TOOL_IDLE, σ).
Proof. done. Qed.

Lemma ctx_flags_run ctx_id e σ :
  ctx_flags ctx_id e σ = (unwrap_or (tc_flags <$> tool_ctx σ !! ctx_id) 0, σ).
Proof. done. Qed.

#[export] Hint Resolve ctx_is_live_run ctx_tool_id_run ctx_flags_run : mrun.

Lemma live_Some σ c : live σ c = true ↔ is_Some (tool_ctx σ !! c).
Proof. apply bool_decide_eq_true. Qed.

(** The active context of a thread, if it is alive; a dead one is dropped. *)
Definition active_of (σ : State) (tid : Z) : option Z :=
  match thread_active_ctx σ !! tid with
  | Some c => if live σ c then Some c else None
  | None => None
  end.

Definition prune_active (tid : Z) (σ : State) : State :=
  match thread_active_ctx σ !! tid with
  | Some c => if live σ c then σ
              else set_thread_active_ctx (delete tid (thread_active_ctx σ)) σ
  | None => σ
  end.

Lemma get_active_ctx_run tid e σ :
  get_active_ctx tid e σ = (active_of σ tid, prune_active tid σ).
Proof.
  unfold get_active_ctx, active_of, prune_active. mstep. sproj.
  destruct (thread_active_ctx σ !! tid) as [c|]; [|done]. mrun. by destruct (live σ c).
Qed.
#[export] Hint Resolve get_active_ctx_run : mrun.

(** ** Reference counts *)

Lemma delete_alter_eq {A} (f : A → A) (k : Z) (m : gmap Z A) :
  delete k (alter f k m) = delete k m.
Proof.
  apply map_eq. intros i. destruct (decide (i = k)) as [->|Hne].
  - by rewrite !lookup_delete_eq.
  - by rewrite !lookup_delete_ne, lookup_alter_ne.
Qed.

Lemma alter_insert_eq {A} (f : A → A) (k : Z) (m : gmap Z A) x :
  m !! k = Some x → alter f k m = <[k := f x]> m.
Proof.
  intros Hx. apply map_eq. intros i. destruct (decide (i = k)) as [->|Hne].
  - by rewrite lookup_alter_eq, lookup_insert_eq, Hx.
  - by rewrite lookup_alter_ne, lookup_insert_ne.
Qed.

(** The context's own fields under [carrier_dec]. *)
Definition dec_ctx (c : ToolCtx) : ToolCtx :=
  set_generation (u32 (tc_generation c + 1)) (set_carrier_count (u32 (tc_carrier_count c - 1)) c).

Lemma carrier_inc_run ctx_id e σ :
  carrier_inc ctx_id e σ
  = (tt, set_tool_ctx
           (alter (λ c, set_carrier_count (u32 (tc_carrier_count c + 1)) c) ctx_id (tool_ctx σ)) σ).
Proof. done. Qed.

(** [carrier_dec] as one case analysis on the count. *)
Lemma carrier_dec_run ctx_id e σ :
  carrier_dec ctx_id e σ
  = (tt, match tool_ctx σ !! ctx_id with
         | None => σ
         | Some c =>
             if tc_carrier_count c >? 1 then set_tool_ctx (<[ctx_id := dec_ctx c]> (tool_ctx σ)) σ
             else
               set_tool_ctx (delete ctx_id (tool_ctx σ))
                 (logged e (cur_tgid e) (cur_tid e) EVENT_TOOL_CONTEXT_END ctx_id (tc_tool_id c)
                    0 0 σ)
         end).
Proof.
  unfold carrier_dec. mstep. sproj. destruct (tool_ctx σ !! ctx_id) as [c|] eqn:Hc; [|done].
  destruct (tc_carrier_count c >? 1).
  - unfold m_alter. sproj. by rewrite (alter_insert_eq _ _ _ c).
  - mrun. unfold m_remove, logged, event_log, event_tick. sproj. by rewrite delete_alter_eq.
Qed.

Lemma ctx_carrier_inc_run ctx_id e σ :
  ctx_carrier_inc ctx_id e σ
  = (tt, set_tool_ctx
           (alter (λ c, set_carrier_count (u32 (tc_carrier_count c + 1)) c) ctx_id (tool_ctx σ)) σ).
Proof. done. Qed.

(** The state after a reference is dropped. *)
Definition dropped (e : Env) (ctx_id : Z) (σ : State) : State := (carrier_dec ctx_id e σ).2.

Lemma dropped_run ctx_id e σ : ctx_carrier_dec ctx_id e σ = (tt, dropped e ctx_id σ).
Proof. unfold ctx_carrier_dec, dropped. by rewrite carrier_dec_run. Qed.
Lemma dropped_run' ctx_id e σ : carrier_dec ctx_id e σ = (tt, dropped e ctx_id σ).
Proof. unfold dropped. by rewrite carrier_dec_run. Qed.
#[export] Hint Resolve carrier_inc_run ctx_carrier_inc_run dropped_run dropped_run' : mrun.

(** Dropping a reference changes the context's own entry and the event log. *)
Lemma dropped_shape e ctx_id σ :
  ∃ cs evs t, dropped e ctx_id σ = set_tick t (set_py_events evs (set_tool_ctx cs σ))
    ∧ ∀ k, k ≠ ctx_id → cs !! k = tool_ctx σ !! k.
Proof.
  unfold dropped. rewrite carrier_dec_run.
  destruct (tool_ctx σ !! ctx_id) as [c|]; cbn.
  - destruct (tc_carrier_count c >? 1).
    + exists (<[ctx_id:=dec_ctx c]> (tool_ctx σ)), (py_events σ), (tick σ).
      split; [by destruct σ|]. intros k Hk. by rewrite lookup_insert_ne.
    + eexists (delete ctx_id (tool_ctx σ)), _, _. split; [reflexivity|].
      intros k Hk. by rewrite lookup_delete_ne.
  - exists (tool_ctx σ), (py_events σ), (tick σ). split; [by destruct σ|done].
Qed.

Lemma dropped_tool_ctx e ctx_id σ :
  tool_ctx (dropped e ctx_id σ) !! ctx_id =
    match tool_ctx σ !! ctx_id with
    | Some c => if tc_carrier_count c >? 1 then Some (dec_ctx c) else None
    | None => None
    end.
Proof.
  unfold dropped. rewrite carrier_dec_run. cbn.
  destruct (tool_ctx σ !! ctx_id) as [c|] eqn:Hc; [|done].
  destruct (tc_carrier_count c >? 1); sproj; [apply lookup_insert_eq|apply lookup_delete_eq].
Qed.

Lemma dropped_events e ctx_id σ :
  py_events (dropped e ctx_id σ) = py_events σ ++
    match tool_ctx σ !! ctx_id with
    | Some c =>
        if tc_carrier_count c >? 1 then []
        else event_log e σ (cur_tgid e) (cur_tid e) EVENT_TOOL_CONTEXT_END ctx_id
               (tc_tool_id c) 0 0
    | None => []
    end.
Proof.
  unfold dropped. rewrite carrier_dec_run. cbn.
  destruct (tool_ctx σ !! ctx_id) as [c|]; [|by rewrite app_nil_r].
  destruct (tc_carrier_count c >? 1); [by rewrite app_nil_r|done].
Qed.

Lemma dropped_set_task_ctx_stack e ctx_id x σ :
  dropped e ctx_id (set_task_ctx_stack x σ) = set_task_ctx_stack x (dropped e ctx_id σ).
Proof.
  unfold dropped. rewrite !carrier_dec_run. cbn.
  destruct (tool_ctx σ !! ctx_id) as [c|]; [|done]. by destruct (tc_carrier_count c >? 1).
Qed.

(** Taking a reference and dropping it again. *)
Lemma inc_dec_count ctx_id e σ c :
  tool_ctx σ !! ctx_id = Some c → 1 ≤ tc_carrier_count c < 2 ^ 32 - 1 →
  tool_ctx (dropped e ctx_id (carrier_inc ctx_id e σ).2) !! ctx_id
  = Some (set_generation (u32 (tc_generation c + 1)) c).
Proof.
  intros Hc Hn. rewrite carrier_inc_run. cbn. rewrite dropped_tool_ctx. sproj.
  rewrite lookup_alter_eq, Hc. cbn. rewrite u32_small by (unfold in_u32; lia).
  destruct (Z.gtb_spec (tc_carrier_count c + 1) 1); [|lia].
  unfold dec_ctx. cbn. rewrite (u32_small (_ - 1)) by (unfold in_u32; lia).
  do 2 f_equal. destruct c. unfold set_carrier_count. cbn. f_equal. lia.
Qed.

(** ** Identifiers *)

Definition ctx_id_of (cpu n : Z) : Z := Z.lor (cpu ≪₆₄ 56) n.

(** The number the next allocation on [cpu] uses. *)
Definition next_id (σ : State) (cpu : Z) : Z :=
  let stored := unwrap_or (ctx_counter σ !! cpu) 0 in if stored =? 0 then 1 else stored.

Lemma alloc_ctx_id_run e σ :
  alloc_ctx_id e σ
  = (Some (ctx_id_of (u32 (processor_id e)) (next_id σ (u32 (processor_id e)))),
     set_ctx_counter
       (<[u32 (processor_id e) := next_id σ (u32 (processor_id e)) ⊞ 1]> (ctx_counter σ)) σ).
Proof. done. Qed.
#[export] Hint Resolve alloc_ctx_id_run : mrun.

(** On a machine with at most 256 processors, identifiers with counters below
    [2 ^ 56] name their processor and counter. *)
Lemma ctx_id_of_inj cpu cpu' n n' :
  0 ≤ cpu < 256 → 0 ≤ cpu' < 256 → 0 ≤ n < 2 ^ 56 → 0 ≤ n' < 2 ^ 56 →
  ctx_id_of cpu n = ctx_id_of cpu' n' → cpu = cpu' ∧ n = n'.
Proof.
  intros Hc Hc' Hn Hn'. unfold ctx_id_of.
  rewrite !u64_small by (unfold in_u64; rewrite Z.shiftl_mul_pow2 by lia; lia).
  rewrite !lor_shiftl_add by lia. intros E. assert (cpu = cpu') as -> by nia. lia.
Qed.

Lemma ctx_id_of_nonzero cpu n :
  0 ≤ cpu < 256 → 0 < n < 2 ^ 56 → ctx_id_of cpu n ≠ 0.
Proof.
  intros Hc Hn. unfold ctx_id_of.
  rewrite u64_small by (unfold in_u64; rewrite Z.shiftl_mul_pow2 by lia; lia).
  rewrite lor_shiftl_add by lia. lia.
Qed.
