(* ===== verification/Counting.v ===== *)
(** * Reference counts and identifiers of contexts

    The theorems about a single context: its life ends with the last reference,
    and no two contexts share an identifier. *)

From stdpp Require Import base gmap list.
From S2P Require Import Prelude Types Maps Ownership Contexts Samples.

(** ** Reference count *)

(** C20: dropping a reference on a live context.  A context with more than one
    reference stays, one lower; the last reference frees it and reports its end
    once; no other context changes. *)
Theorem carrier_dec_spec e σ ctx_id c :
  tool_ctx σ !! ctx_id = Some c →
  let σ' := (carrier_dec ctx_id e σ).2 in
  (if tc_carrier_count c >? 1
   then tool_ctx σ' !! ctx_id = Some (dec_ctx c) ∧ py_events σ' = py_events σ
   else tool_ctx σ' !! ctx_id = None
        ∧ py_events σ' = py_events σ ++ event_log e σ (cur_tgid e) (cur_tid e)
                           EVENT_TOOL_CONTEXT_END ctx_id (tc_tool_id c) 0 0)
  ∧ (∀ k, k ≠ ctx_id → tool_ctx σ' !! k = tool_ctx σ !! k).
Proof.
  intros Hc σ'. pose proof (dropped_tool_ctx e ctx_id σ) as Ht.
  pose proof (dropped_events e ctx_id σ) as He. rewrite Hc in Ht, He. split.
  - destruct (tc_carrier_count c >? 1); [by rewrite app_nil_r in He|done].
  - destruct (dropped_shape e ctx_id σ) as (cs & evs & t & E & Hk). intros k Hne.
    change σ' with (dropped e ctx_id σ). rewrite E. by apply Hk.
Qed.

Lemma carrier_dec_spec_witness :
  tool_ctx (carrier_dec 17 env0 state_ctx).2 !! 17 = None.
Proof.
  exact (proj1 (proj1 (carrier_dec_spec env0 state_ctx 17 (sample_ctx 5) eq_refl))).
Defined.

(** Taking a reference and dropping it again leaves the context as it was but
    for its generation, so that no pair of carriers can free a live context. *)
Theorem carrier_inc_dec e e' σ ctx_id c :
  tool_ctx σ !! ctx_id = Some c → 1 ≤ tc_carrier_count c < 2 ^ 32 - 1 →
  tool_ctx (carrier_dec ctx_id e' (carrier_inc ctx_id e σ).2).2 !! ctx_id
  = Some (set_generation (u32 (tc_generation c + 1)) c).
Proof. intros Hc Hn. exact (inc_dec_count ctx_id e' σ c Hc Hn). Qed.

Lemma carrier_inc_dec_witness :
  tool_ctx (carrier_dec 17 env_file (carrier_inc 17 env0 state_ctx).2).2 !! 17
  = Some (set_generation 1 (sample_ctx 5)).
Proof.
  apply (carrier_inc_dec env0 env_file state_ctx
           17 (sample_ctx 5)); [reflexivity|vm_compute; split; congruence].
Defined.

(** ** Identifiers *)

(** Allocations one after the other, each in a context of its own. *)
Fixpoint alloc_run (es : list Env) (σ : State) : list (option Z) :=
  match es with
  | [] => []
  | e :: es => let r := alloc_ctx_id e σ in r.1 :: alloc_run es r.2
  end.

Lemma cpu_small e : 0 ≤ processor_id e < 256 → u32 (processor_id e) = processor_id e.
Proof. intros. apply u32_small. unfold in_u32. lia. Qed.

Lemma next_id_step e σ cpu :
  let p := processor_id e in
  0 ≤ p < 256 → 1 ≤ next_id σ p < 2 ^ 64 - 1 →
  next_id (alloc_ctx_id e σ).2 cpu = if decide (cpu = p) then next_id σ p + 1 else next_id σ cpu.
Proof.
  intros p Hp Hn. rewrite alloc_ctx_id_run, cpu_small by done. fold p. cbn [snd].
  rewrite u64_small by (unfold in_u64; lia). set (N := next_id σ p) in *. unfold next_id. sproj.
  case_decide as Hd.
  - subst cpu. rewrite lookup_insert_eq. cbn. by destruct (Z.eqb_spec (N + 1) 0); [lia|].
  - by rewrite lookup_insert_ne.
Qed.

(** The identifiers of a run carry counters from the current one on. *)
Lemma alloc_run_from es σ id :
  Forall (λ e, 0 ≤ processor_id e < 256) es →
  (∀ cpu, 1 ≤ next_id σ cpu ∧ next_id σ cpu + Z.of_nat (length es) ≤ 2 ^ 56) →
  id ∈ alloc_run es σ →
  ∃ cpu n, id = Some (ctx_id_of cpu n) ∧ 0 ≤ cpu < 256 ∧ next_id σ cpu ≤ n < 2 ^ 56.
Proof.
  intros Hes. revert σ. induction Hes as [|e es Hcpu Hes IH]; intros σ Hn Hin; [by inversion Hin|].
  pose proof (cpu_small e Hcpu) as Hp.
  pose proof (Hn (processor_id e)) as Hne. cbn [length] in Hne, Hn.
  cbn [alloc_run] in Hin. apply elem_of_cons in Hin as [->|Hin].
  { exists (processor_id e), (next_id σ (processor_id e)). rewrite alloc_ctx_id_run, Hp.
    split_and!; [done|lia|lia|lia|lia]. }
  assert (∀ cpu, next_id (alloc_ctx_id e σ).2 cpu
    = if decide (cpu = processor_id e) then next_id σ (processor_id e) + 1 else next_id σ cpu)
    as Hstep by (intros cpu; apply next_id_step; lia).
  destruct (IH (alloc_ctx_id e σ).2) as (cpu & n & -> & Hc & Hlo); [|done|].
  { intros cpu. rewrite Hstep. pose proof (Hn cpu). case_decide; lia. }
  exists cpu, n. split_and!; [done|lia|lia| |lia]. rewrite Hstep in Hlo.
  case_decide as Hd; [subst cpu|]; lia.
Qed.

(** C36: on a machine with at most 256 processors, identifiers are never zero and
    never repeated, across processors, until a counter reaches 2^56. *)
Theorem alloc_ctx_id_unique es σ :
  Forall (λ e, 0 ≤ processor_id e < 256) es →
  (∀ cpu, 1 ≤ next_id σ cpu ∧ next_id σ cpu + Z.of_nat (length es) ≤ 2 ^ 56) →
  NoDup (alloc_run es σ) ∧ Forall (λ id, ∃ n, id = Some n ∧ n ≠ 0) (alloc_run es σ).
Proof.
  intros Hes. revert σ. induction Hes as [|e es Hcpu Hes IH]; intros σ Hn;
    [by split; [apply NoDup_nil|]|].
  pose proof (cpu_small e Hcpu) as Hp.
  pose proof (Hn (processor_id e)) as Hne. cbn [length] in Hne, Hn.
  assert (∀ cpu, next_id (alloc_ctx_id e σ).2 cpu
    = if decide (cpu = processor_id e) then next_id σ (processor_id e) + 1 else next_id σ cpu)
    as Hstep by (intros cpu; apply next_id_step; lia).
  assert (∀ cpu, 1 ≤ next_id (alloc_ctx_id e σ).2 cpu
    ∧ next_id (alloc_ctx_id e σ).2 cpu + Z.of_nat (length es) ≤ 2 ^ 56) as Hn'.
  { intros cpu. rewrite Hstep. pose proof (Hn cpu). case_decide; lia. }
  destruct (IH _ Hn') as [Hnd Hnz]. cbn [alloc_run]. split.
  - apply NoDup_cons. split; [|done]. intros Hin.
    destruct (alloc_run_from es _ _ Hes Hn' Hin) as (cpu & n & E & Hc & Hlo).
    rewrite alloc_ctx_id_run, Hp in E. injection E as E. pose proof (Hn' cpu).
    destruct (ctx_id_of_inj (processor_id e) cpu (next_id σ (processor_id e)) n)
      as [<- <-]; [lia..|done|]. rewrite Hstep in Hlo. case_decide; [lia|done].
  - constructor; [|done]. rewrite alloc_ctx_id_run, Hp. eexists. split; [done|].
    apply ctx_id_of_nonzero; lia.
Qed.

Lemma alloc_ctx_id_unique_witness : NoDup (alloc_run [env0; env_file; env0] empty_state).
Proof.
  apply (alloc_ctx_id_unique [env0; env_file; env0] empty_state).
  - repeat constructor; vm_compute; congruence.
  - intros cpu. unfold next_id, empty_state. sproj. rewrite lookup_empty. vm_compute.
    split; congruence.
Defined.
