(* ===== verification/Decision.v ===== *)
(** * The access decision of the security hooks

    [denies] is the policy a reader of the configuration expects, as a function
    of the configuration, of who acts ([subject]) and of the rule that matches.
    The three enforcing hooks compute it and return its answer to the kernel. *)

From stdpp Require Import base gmap list.
From S2P Require Import Prelude Types Maps Ownership Identity Worker Frames Tasks Events Lsm.
From S2P Require Import Probes Monotone Contexts.

(** ** Specification *)

(** Who acts: nobody the tracer knows, or a context. *)
Inductive Subject :=
| Unattributed
| Attributed (ctx_id : Z) (c : ToolCtx).

Definition denies (cfg : IronScopeConfig) (s : Subject) (permission : option Z) : bool :=
  match s with
  | Unattributed => ic_unattributed_policy cfg =? UNATTRIBUTED_DENY
  | Attributed _ c =>
      if has_flag (tc_flags c) TOOL_CTX_FLAG_RESOLVER_ERROR then
        ic_resolver_error_policy cfg =? RESOLVER_ERROR_DENY
      else if tc_tool_id c =? TOOL_IDLE then ic_unknown_tool_policy cfg =? UNKNOWN_TOOL_DENY
      else
        match permission with
        | Some perm => perm =? PERM_DENY
        | None => ic_default_tool_policy cfg =? DEFAULT_TOOL_DENY
        end
  end.

(** The subject as the kernel state records it for a thread. *)
Definition subject_of (σ : State) (tid : Z) : Subject :=
  match active_of σ tid with
  | Some ctx_id =>
      match tool_ctx σ !! ctx_id with
      | Some c => if ctx_id =? 0 then Unattributed else Attributed ctx_id c
      | None => Unattributed
      end
  | None => Unattributed
  end.

Definition subject_ctx (s : Subject) : Z :=
  match s with Unattributed => 0 | Attributed ctx_id _ => ctx_id end.
Definition subject_identity (s : Subject) : Z :=
  match s with
  | Unattributed => IDENTITY_STATE_UNATTRIBUTED
  | Attributed ctx_id c => identity_state ctx_id (tc_tool_id c) (tc_flags c)
  end.

(** The subject of a hook: the protected thread after its worker binding has
    been brought up to date; [None] for a thread that is not protected. *)
Definition is_protected (e : Env) (σ : State) : bool :=
  bool_decide (is_Some (protected_tgids σ !! cur_tgid e))
  || bool_decide (is_Some (active_of σ (cur_tid e))).

Definition refreshed (e : Env) (σ : State) : State :=
  (refresh_threadpool_worker_context (cur_tid e) e
     (is_protected_subject (cur_tgid e) (cur_tid e) e σ).2).2.

Definition hook_subject (e : Env) (σ : State) : Subject := subject_of (refreshed e σ) (cur_tid e).

(** The tool identifier under which the policy maps are searched. *)
Definition hook_tool (e : Env) (σ : State) : Z :=
  match active_of (refreshed e σ) (cur_tid e) with
  | Some ctx_id => unwrap_or (tc_tool_id <$> tool_ctx (refreshed e σ) !! ctx_id) TOOL_IDLE
  | None => TOOL_IDLE
  end.

(** [s] is refused access under the rule [permission]: the tracer enforces and
    the policy denies. *)
Definition blocks (σ : State) (s : Subject) (permission : option Z) : bool :=
  match ironscope_config σ !! 0 with
  | Some cfg => (ic_mode cfg =? MODE_ENFORCE) && denies cfg s permission
  | None => false
  end.

(** Device and inode of a [struct file]. *)
Definition file_identity (e : Env) (f : Z) : option (Z * Z) :=
  inode ← field e file_f_inode f;
  ino ← field e inode_i_ino inode;
  sb ← field e inode_i_sb inode;
  dev ← field e super_block_s_dev sb;
  Some (u32 dev, ino).

(** IPv4 address and port of a [struct sockaddr]. *)
Definition inet_endpoint (e : Env) (sa : Z) : option (Z * Z) :=
  family ← field e sockaddr_sa_family sa;
  if family =? AF_INET then
    addr ← field e sockaddr_in_s_addr sa;
    port ← field e sockaddr_in_sin_port sa;
    Some (addr, port)
  else None.

(** The rule for a file: the entry of the tool for its device and inode. *)
Definition fs_rule (e : Env) (σ : State) (dev ino : Z) : option Z :=
  tool_fs_policy σ !! {| fp_tool_id := hook_tool e σ; fp_dev := dev; fp_ino := ino |}.
(** The rule for an executable: that of the file or else the wildcard. *)
Definition exec_rule (e : Env) (σ : State) (dev ino : Z) : option Z :=
  match tool_exec_policy σ !! {| xp_tool_id := hook_tool e σ; xp_dev := dev; xp_ino := ino |} with
  | Some perm => Some perm
  | None => tool_exec_policy σ !! {| xp_tool_id := hook_tool e σ; xp_dev := 0; xp_ino := 0 |}
  end.
(** The rule for an endpoint: the longest matching prefix. *)
Definition net_rule (e : Env) (σ : State) (addr port : Z) : option Z :=
  lpm_get e (tool_net_policy σ) 96
    {| nd_tool_id := hook_tool e σ; nd_addr := addr; nd_port := port; nd_pad := 0 |}.

(** The answer of each enforcing hook. *)
Definition file_open_answer (e : Env) (σ : State) : Z :=
  if is_protected e σ then
    let f := unwrap_or (arg e 0) 0 in
    if f =? 0 then 0
    else match file_identity e f with
         | Some (dev, ino) =>
             if blocks σ (hook_subject e σ) (fs_rule e σ dev ino) then -1 else 0
         | None => 0
         end
  else 0.

Definition bprm_check_answer (e : Env) (σ : State) : Z :=
  if is_protected e σ then
    let bprm := unwrap_or (arg e 0) 0 in
    if bprm =? 0 then 0
    else match f ← field e linux_binprm_file bprm; file_identity e f with
         | Some (dev, ino) =>
             if blocks σ (hook_subject e σ) (exec_rule e σ dev ino) then -1 else 0
         | None => 0
         end
  else 0.

Definition socket_connect_answer (e : Env) (σ : State) : Z :=
  if is_protected e σ then
    let sa := unwrap_or (arg e 1) 0 in
    if sa =? 0 then 0
    else match inet_endpoint e sa with
         | Some (addr, port) =>
             if blocks σ (hook_subject e σ) (net_rule e σ addr port) then -1 else 0
         | None => 0
         end
  else 0.

(** ** The parts of a hook *)

Lemma is_protected_subject_run e σ :
  is_protected_subject (cur_tgid e) (cur_tid e) e σ
  = (is_protected e σ, (is_protected_subject (cur_tgid e) (cur_tid e) e σ).2).
Proof.
  rewrite (surjective_pairing (is_protected_subject _ _ _ _)) at 1. f_equal.
  unfold is_protected_subject, is_protected. mstep. sproj.
  destruct (protected_tgids σ !! cur_tgid e); by mrun.
Qed.

Lemma identity_subject σ tid c x :
  active_of σ tid = Some c → tool_ctx σ !! c = Some x →
  identity_state c (tc_tool_id x) (tc_flags x) = subject_identity (subject_of σ tid)
  ∧ c = subject_ctx (subject_of σ tid).
Proof.
  intros Ha Hx. unfold subject_of. rewrite Ha, Hx.
  destruct (Z.eqb_spec c 0) as [->|Hne]; [done|]. done.
Qed.

Lemma active_of_prune σ tid : active_of (prune_active tid σ) tid = active_of σ tid.
Proof.
  unfold prune_active, active_of. destruct (thread_active_ctx σ !! tid) as [c|] eqn:E.
  - destruct (live σ c) eqn:Hl; [by rewrite E, Hl|]. sproj. by rewrite lookup_delete_eq.
  - by rewrite E.
Qed.

Lemma tool_ctx_prune σ tid : tool_ctx (prune_active tid σ) = tool_ctx σ.
Proof. unfold prune_active. repeat case_match; done. Qed.

(** What [resolve_ctx] reports is the subject of the refreshed state. *)
Lemma resolve_ctx_run tid e σ :
  let σ1 := (refresh_threadpool_worker_context tid e σ).2 in
  resolve_ctx tid e σ
  = ((subject_ctx (subject_of σ1 tid),
      match active_of σ1 tid with
      | Some c => unwrap_or (tc_tool_id <$> tool_ctx σ1 !! c) TOOL_IDLE
      | None => TOOL_IDLE
      end, subject_identity (subject_of σ1 tid)), prune_active tid σ1).
Proof.
  intros σ1. unfold resolve_ctx. erewrite bind_run by apply surjective_pairing. fold σ1.
  mstep. destruct (active_of σ1 tid) as [c|] eqn:Ha; last first.
  { mrun. unfold subject_of. by rewrite Ha. }
  mstep. sproj. rewrite tool_ctx_prune. destruct (tool_ctx σ1 !! c) as [x|] eqn:Hx.
  - destruct (identity_subject _ _ _ _ Ha Hx) as [<- <-]. by mrun.
  - mrun. unfold subject_of. by rewrite Ha, Hx.
Qed.

Lemma enforce_permission_run b e σ :
  enforce_permission b e σ
  = (if b && match ironscope_config σ !! 0 with
             | Some cfg => ic_mode cfg =? MODE_ENFORCE
             | None => false
             end then -1 else 0, σ).
Proof.
  unfold enforce_permission. destruct b; [|done]. cbn [negb andb]. mstep. sproj.
  destruct (ironscope_config σ !! 0) as [cfg|]; [|done]. by destruct (ic_mode cfg =? _).
Qed.

Lemma subject_nonzero σ tid ctx_id c : subject_of σ tid = Attributed ctx_id c → ctx_id ≠ 0.
Proof.
  unfold subject_of. destruct (active_of σ tid) as [k|]; [|done].
  destruct (tool_ctx σ !! k); [|done]. destruct (Z.eqb_spec k 0); [done|]. by intros [= <- _].
Qed.

(** With a configuration, the decision the hooks share is [denies]. *)
Lemma hook_decision_denies σ0 tid permission e σ cfg :
  ironscope_config σ !! 0 = Some cfg →
  ∃ source, hook_decision (subject_identity (subject_of σ0 tid)) permission e σ
            = ((denies cfg (subject_of σ0 tid) permission, source), σ).
Proof.
  intros Hcfg. unfold hook_decision, identity_policy_decision.
  erewrite bind_run by (mstep; apply ret_run). sproj. rewrite Hcfg.
  destruct (subject_of σ0 tid) as [|ctx_id c] eqn:Hs; [by eexists|]. cbn [subject_identity denies].
  apply subject_nonzero in Hs. unfold identity_state. destruct (Z.eqb_spec ctx_id 0); [done|].
  destruct (has_flag (tc_flags c) TOOL_CTX_FLAG_RESOLVER_ERROR).
  { eexists. cbn. reflexivity. }
  destruct (tc_tool_id c =? TOOL_IDLE).
  { eexists. cbn. reflexivity. }
  cbn. unfold decide_known_tool_permission. destruct permission as [perm|]; [by eexists|].
  mstep. sproj. rewrite Hcfg. destruct (ic_default_tool_policy cfg =? _); by eexists.
Qed.

(** The configuration makes the hooks enforce. *)
Definition enforcing (σ : State) : bool :=
  match ironscope_config σ !! 0 with
  | Some cfg => ic_mode cfg =? MODE_ENFORCE
  | None => false
  end.

Lemma emit_then_enforce (emit : M unit) b e σ :
  Extends emit →
  ((emit;; ret ← enforce_permission b; mret (Ok ret)) e σ).1
  = Ok (if b && enforcing σ then -1 else 0).
Proof.
  intros Hemit. erewrite bind_run by apply surjective_pairing.
  destruct (Hemit σ e σ I (reflexivity σ)) as [Hp _ _ _]. set (σ1 := _.2) in *. clearbody σ1.
  injection Hp as _ _ _ Hc _ _.
  rewrite (bind_run _ _ _ _ _ _ _ _ (enforce_permission_run b e σ1)). cbn.
  unfold enforcing. by rewrite Hc.
Qed.

(** The decision and its enforcement, whatever is emitted in between. *)
Lemma decide_and_enforce σ0 tid permission (emit : bool → Z → M unit) e σ :
  (∀ b s, Extends (emit b s)) →
  ((d ← hook_decision (subject_identity (subject_of σ0 tid)) permission;
    let '(denied, source) := d in
    emit denied source;;
    ret ← enforce_permission denied;
    mret (Ok ret)) e σ).1
  = Ok (if blocks σ (subject_of σ0 tid) permission then -1 else 0).
Proof.
  intros Hemit. destruct (ironscope_config σ !! 0) as [cfg|] eqn:Hcfg.
  - destruct (hook_decision_denies σ0 tid permission e σ cfg Hcfg) as [source Hrun].
    erewrite bind_run by exact Hrun. cbv beta iota. rewrite emit_then_enforce by done.
    unfold blocks, enforcing. by rewrite Hcfg, andb_comm.
  - assert (∃ b source, hook_decision (subject_identity (subject_of σ0 tid)) permission e σ
              = ((b, source), σ)) as (b & source & Hrun).
    { unfold hook_decision, identity_policy_decision, decide_known_tool_permission.
      erewrite bind_run by (mstep; apply ret_run). sproj. rewrite Hcfg.
      destruct permission; [by eexists _, _|]. mrun. sproj. rewrite Hcfg. by eexists _, _. }
    erewrite bind_run by exact Hrun. cbv beta iota. rewrite emit_then_enforce by done.
    unfold blocks, enforcing. by rewrite Hcfg, andb_false_r.
Qed.

(** The prologue: the subject of a protected thread. *)
Lemma hook_identity_run kind e σ :
  ∃ σ', hook_identity kind e σ
        = (if is_protected e σ
           then Some (subject_ctx (hook_subject e σ), hook_tool e σ,
                      subject_identity (hook_subject e σ))
           else None, σ')
    ∧ policy_of σ' = policy_of σ.
Proof.
  exists (hook_identity kind e σ).2. split; last first.
  { apply (extends_hook_identity kind σ e σ I (reflexivity σ)). }
  rewrite (surjective_pairing (hook_identity _ _ _)) at 1. f_equal. unfold hook_identity.
  mstep. mstep. erewrite bind_run by apply is_protected_subject_run.
  destruct (is_protected e σ); cbn [negb]; last first.
  { by erewrite bind_run by apply surjective_pairing. }
  erewrite bind_run by apply resolve_ctx_run. cbv beta iota.
  by do 2 erewrite bind_run by apply surjective_pairing.
Qed.

Lemma get_file_identity_run f e σ : get_file_identity f e σ = (file_identity e f, σ).
Proof.
  unfold get_file_identity, file_identity, field. mstep.
  destruct (if f =? 0 then None else shim e file_f_inode f) as [i|]; [|done]. cbn.
  mstep. mstep. destruct (if i =? 0 then None else shim e inode_i_ino i); [|done].
  destruct (if i =? 0 then None else shim e inode_i_sb i) as [sb|]; [|done]. cbn. mstep.
  by destruct (if sb =? 0 then None else shim e super_block_s_dev sb).
Qed.

Lemma extends_emit_fs a b c d f g : Extends (emit_fs_event a b c d f g).
Proof. extend. Qed.
Lemma extends_emit_exec a b c d f g : Extends (emit_exec_event a b c d f g).
Proof. extend. Qed.
Lemma extends_emit_connect a b c d f g h i : Extends (emit_net_event a b c d f g h i).
Proof. extend. Qed.

(** A hook returns its answer, and 0 on an error. *)
Lemma ok_or_allow_run (m : M (result Z)) e σ :
  (ok_or_allow m e σ).1 = match (m e σ).1 with Ok ret => ret | Err _ => 0 end.
Proof. done. Qed.

(** What the hooks read of the policy is the policy of the call. *)
Lemma blocks_policy σ σ' s permission :
  policy_of σ' = policy_of σ → blocks σ' s permission = blocks σ s permission.
Proof. intros [= _ _ _ E _ _]. unfold blocks. by rewrite E. Qed.

(** ** The hooks *)

Lemma file_open_run e σ : (run_probe ag_file_open e σ).1 = file_open_answer e σ.
Proof.
  unfold file_open_answer. cbn [run_probe]. unfold handle_file_open, try_file_open. rewrite ok_or_allow_run.
  destruct (hook_identity_run EVENT_FS_OPEN e σ) as (σ' & Hrun & Hpol).
  erewrite bind_run by exact Hrun. destruct (is_protected e σ); [|done]. mstep.
  destruct (_ =? 0); [done|]. erewrite bind_run by apply get_file_identity_run.
  destruct (file_identity e _) as [[dev ino]|]; [|done]. mstep.
  unfold hook_subject.
  rewrite (decide_and_enforce _ _ _ (λ b s, emit_fs_event _ _ _ _ s (action_of b)))
    by (intros; apply extends_emit_fs).
  rewrite (blocks_policy σ) by done. injection Hpol as Hfs _ _ _ _ _. unfold fs_rule. sproj.
  by rewrite Hfs.
Qed.

Lemma bprm_check_run e σ : (run_probe ag_bprm_check e σ).1 = bprm_check_answer e σ.
Proof.
  unfold bprm_check_answer. cbn [run_probe]. unfold handle_bprm_check, try_bprm_check. rewrite ok_or_allow_run.
  destruct (hook_identity_run EVENT_EXEC e σ) as (σ' & Hrun & Hpol).
  erewrite bind_run by exact Hrun. destruct (is_protected e σ); [|done]. mstep.
  destruct (_ =? 0) eqn:Hb; [done|]. mstep. unfold field. rewrite Hb.
  destruct (shim e linux_binprm_file _) as [f|]; [|done]. cbn [mbind option_bind].
  erewrite bind_run by apply get_file_identity_run.
  destruct (file_identity e f) as [[dev ino]|]; [|done].
  erewrite bind_run; last first.
  { instantiate (1 := σ'). instantiate (1 := exec_rule e σ dev ino).
    injection Hpol as _ Hx _ _ _ _. unfold exec_permission, exec_rule. mstep. sproj. rewrite Hx.
    destruct (tool_exec_policy σ !! _); [done|]. unfold m_get. sproj. by rewrite Hx. }
  unfold hook_subject.
  rewrite (decide_and_enforce _ _ _ (λ b s, emit_exec_event _ _ _ _ s (action_of b)))
    by (intros; apply extends_emit_exec).
  by rewrite (blocks_policy σ) by done.
Qed.

Lemma socket_connect_run e σ : (run_probe ag_socket_connect e σ).1 = socket_connect_answer e σ.
Proof.
  unfold socket_connect_answer. cbn [run_probe]. unfold handle_socket_connect, try_socket_connect. rewrite ok_or_allow_run.
  mstep. destruct (hook_identity_run EVENT_NET_CONNECT e σ) as (σ' & Hrun & Hpol).
  erewrite bind_run by exact Hrun. destruct (is_protected e σ); [|done]. mstep.
  destruct (_ =? 0) eqn:Hb; [done|]. unfold connect_endpoint, inet_endpoint, field. rewrite Hb.
  erewrite try_run by apply surjective_pairing. mstep. rewrite Hb.
  destruct (shim e sockaddr_sa_family _) as [fam|]; [|done]. cbn [mbind option_bind].
  destruct (fam =? AF_INET); [|done]. cbn [negb]. mrun. rewrite Hb.
  destruct (shim e sockaddr_in_s_addr _) as [addr|]; [|done].
  destruct (shim e sockaddr_in_sin_port _) as [port|]; [|done]. cbn [fst snd mbind option_bind].
  erewrite bind_run by reflexivity.
  unfold hook_subject.
  rewrite (decide_and_enforce _ _ _ (λ b s, emit_net_event _ _ _ _ s (action_of b) _ _))
    by (intros; apply extends_emit_connect).
  rewrite (blocks_policy σ) by done. injection Hpol as _ _ Hn _ _ _. unfold net_rule.
  by rewrite Hn.
Qed.

(** The other programs report 0. *)
Definition returns {A} (P : A → Prop) (m : M A) : Prop := ∀ e σ, P (m e σ).1.

Lemma returns_bind {A B} (P : B → Prop) (m : M A) (k : A → M B) :
  (∀ a, returns P (k a)) → returns P (m ≫= k).
Proof. intros Hk e σ. apply Hk. Qed.

Lemma other_probe_run p e σ : is_lsm p = false → (run_probe p e σ).1 = 0.
Proof.
  assert (returns (λ r, r = Ok 0 ∨ ∃ c, r = Err c) handle_sched_fork) as Hfork.
  { unfold handle_sched_fork, returns.
    repeat first [progress (intros; cbv zeta)|apply returns_bind|case_match|by left|by right; eexists]. }
  destruct p; cbn [run_probe is_lsm]; try done; intros _.
  - unfold or_zero. erewrite bind_run by apply surjective_pairing. cbn.
    by destruct (Hfork e σ) as [->|[c ->]].
  - unfold gen_dealloc_prog. mstep. by destruct (arg e 0).
Qed.

(** ** What the hooks guarantee *)

(** C7: [file_open] on every branch.  A thread that is not protected, a null
    argument and a file whose identity cannot be read are let through; otherwise
    the answer is -1 exactly when the tracer enforces and the policy denies the
    subject the tool's rule for the file's device and inode. *)
Theorem file_open_value e σ :
  (run_probe ag_file_open e σ).1 =
    if is_protected e σ then
      let f := unwrap_or (arg e 0) 0 in
      if f =? 0 then 0
      else match file_identity e f with
           | Some (dev, ino) =>
               if blocks σ (hook_subject e σ) (fs_rule e σ dev ino) then -1 else 0
           | None => 0
           end
    else 0.
Proof. apply file_open_run. Qed.

(** [bprm_check_security] on every branch, with the tool's wildcard rule for
    an executable that has no rule of its own. *)
Theorem bprm_check_value e σ :
  (run_probe ag_bprm_check e σ).1 =
    if is_protected e σ then
      let bprm := unwrap_or (arg e 0) 0 in
      if bprm =? 0 then 0
      else match f ← field e linux_binprm_file bprm; file_identity e f with
           | Some (dev, ino) =>
               if blocks σ (hook_subject e σ) (exec_rule e σ dev ino) then -1 else 0
           | None => 0
           end
    else 0.
Proof. apply bprm_check_run. Qed.

(** [socket_connect] on every branch; only IPv4 endpoints are decided, under
    the longest prefix of the tool that matches the endpoint. *)
Theorem socket_connect_value e σ :
  (run_probe ag_socket_connect e σ).1 =
    if is_protected e σ then
      let sa := unwrap_or (arg e 1) 0 in
      if sa =? 0 then 0
      else match inet_endpoint e sa with
           | Some (addr, port) =>
               if blocks σ (hook_subject e σ) (net_rule e σ addr port) then -1 else 0
           | None => 0
           end
    else 0.
Proof. apply socket_connect_run. Qed.
