(* ===== verification/Enforcement.v ===== *)
(** * Enforcement and audit

    Consequences of the hooks' decision over whole runs of the system, and the
    audit records that go with it. *)

From stdpp Require Import base gmap list.
From S2P Require Import Prelude Types Maps Ownership Identity Worker Frames Tasks Events Lsm.
From S2P Require Import Probes Monotone Contexts Decision Samples.

(** Only an enforcing configuration refuses. *)
Lemma blocks_enforcing σ s permission : blocks σ s permission = true → enforcing σ = true.
Proof.
  unfold blocks, enforcing. destruct (ironscope_config σ !! 0); [|done].
  by intros [? _]%andb_prop.
Qed.

Lemma refusal p e σ :
  (run_probe p e σ).1 = 0
  ∨ (run_probe p e σ).1 = -1 ∧ is_lsm p = true ∧ is_protected e σ = true ∧ enforcing σ = true.
Proof.
  destruct (is_lsm p) eqn:Hp; [|left; by apply other_probe_run].
  destruct p; try done;
    [rewrite file_open_run; unfold file_open_answer
    |rewrite bprm_check_run; unfold bprm_check_answer
    |rewrite socket_connect_run; unfold socket_connect_answer];
    (destruct (is_protected e σ); [|by left]); cbv zeta; repeat case_match; eauto;
    right; eauto using blocks_enforcing.
Qed.

(** Programs do not change whether the tracer enforces. *)
Lemma enforcing_reachable G σ0 σ :
  reachable G σ0 σ → enforcing σ = enforcing σ0.
Proof.
  intros Hr. cut (extends σ0 σ).
  { intros [[= _ _ _ E _ _] _ _ _]. unfold enforcing. by rewrite E. }
  apply (reachable_invariant G (extends σ0) σ0 σ); [|reflexivity|done].
  intros p e σ' _. by apply (run_probe_extends p).
Qed.

(** Every program answers 0 or -1; -1 comes from one of the three LSM programs,
    for a protected thread, under a configuration in enforce mode. *)
Theorem refused_only_when_enforcing p e σ :
  (run_probe p e σ).1 = 0
  ∨ (run_probe p e σ).1 = -1 ∧ is_lsm p = true ∧ is_protected e σ = true ∧ enforcing σ = true.
Proof. apply refusal. Qed.

(** In monitor mode nothing is ever refused: whatever sequence of programs has
    run, in whatever contexts, the next program lets its caller through. *)
Theorem monitor_never_blocks σ0 σ p e :
  enforcing σ0 = false → reachable (λ _, True) σ0 σ → (run_probe p e σ).1 = 0.
Proof.
  intros Hm Hr%enforcing_reachable. rewrite Hm in Hr.
  destruct (refusal p e σ) as [?|(_ & _ & _ & He)]; [done|congruence].
Qed.

Lemma monitor_never_blocks_witness :
  let σ0 := state_denied MODE_MONITOR in
  (run_probe ag_file_open env_file (run_probe ag_file_open env_file σ0).2).1 = 0.
Proof.
  apply (monitor_never_blocks (state_denied MODE_MONITOR)); [reflexivity|].
  eapply reach_step; [apply reach_refl|]. by apply (step_probe _ ag_file_open env_file).
Defined.

(** ** Audit *)

(** A handler that submits no guard event. *)
Abbreviation Quiet m := (Leaves guard_events m).

Lemma quiet_walk fuel a b : Quiet (walk_frame_chain fuel a b).
Proof. revert b. induction fuel as [|fuel IH]; intros b; cbn [walk_frame_chain]; leaves. Qed.
#[export] Hint Resolve quiet_walk : leaves_db.

Lemma quiet_hook_identity kind : Quiet (hook_identity kind).
Proof. leaves. Qed.

(** Updates and reservations succeed. *)
Definition roomy (e : Env) : Prop := reliable e ∧ ∀ n, reserve_ok e n = true.

(** The guard events a handler appends. *)
Definition appends {A} (m : M A) (e : Env) (σ : State) (evs : list GuardEvent) : Prop :=
  guard_events (m e σ).2 = guard_events σ ++ evs.

Lemma quiet_appends {A} (m : M A) e σ : Quiet m → appends m e σ [].
Proof. intros Hm. unfold appends. rewrite app_nil_r. by apply (Hm (guard_events σ)). Qed.

Lemma appends_bind {A B} (m : M A) (k : A → M B) e σ evs evs' :
  appends m e σ evs → appends (k (m e σ).1) e (m e σ).2 evs' →
  appends (m ≫= k) e σ (evs ++ evs').
Proof. unfold appends. intros Hm Hk. rewrite app_assoc, <-Hm. exact Hk. Qed.

Lemma alloc_zero_run n e σ :
  reliable e → unwrap_or (alloc_state σ !! u32 (processor_id e)) 0 < MAX_ALLOCS →
  n ≤ HEAP_MAX_ALLOC_SIZE →
  let i := unwrap_or (alloc_state σ !! u32 (processor_id e)) 0 in
  alloc_zero n e σ = (Ok i, set_alloc_state (<[u32 (processor_id e) := i + 1]> (alloc_state σ))
                              (next_tick σ)).
Proof.
  intros [Hu _] Hi Hn. unfold alloc_zero. rewrite Hu.
  destruct (Z.geb_spec (unwrap_or (alloc_state σ !! u32 (processor_id e)) 0) MAX_ALLOCS); [lia|].
  by destruct (Z.gtb_spec n HEAP_MAX_ALLOC_SIZE); [lia|].
Qed.

Lemma submit_event_any ev e σ :
  submit_event ev e σ
  = (tt, if reserve_ok e (tick σ) then set_guard_events (guard_events σ ++ [ev]) (next_tick σ)
         else next_tick σ).
Proof. unfold submit_event. mstep. by destruct (reserve_ok e (tick σ)). Qed.

Lemma submit_event_run ev e σ :
  roomy e → submit_event ev e σ = (tt, set_guard_events (guard_events σ ++ [ev]) (next_tick σ)).
Proof. intros [_ Hr]. by rewrite submit_event_any, Hr. Qed.

Lemma emit_net_event_run pid tool ctx identity source action addr port e σ :
  roomy e →
  ∃ ts, appends (emit_net_event pid tool ctx identity source action addr port) e σ
    [with_endpoint addr port
       (guard_event pid (cur_tid e) EVENT_NET_CONNECT action tool ctx identity source ts)].
Proof.
  intros Hr. pose proof Hr as [He _]. eexists. unfold appends, emit_net_event, try_emit_net_event.
  erewrite bind_run; last first.
  { erewrite try_run by reflexivity. erewrite try_run; last first.
    { apply alloc_zero_run; [done|by sproj; rewrite lookup_insert_eq|done]. }
    mstep. mstep. erewrite bind_run by by apply submit_event_run. reflexivity. }
  reflexivity.
Qed.

(** A scratch allocation succeeds or fails, without a guard event, and does not fail
    while updates succeed and there are slots. *)
Lemma alloc_zero_any n e σ :
  let i := unwrap_or (alloc_state σ !! u32 (processor_id e)) 0 in
  alloc_zero n e σ = (Ok i, set_alloc_state (<[u32 (processor_id e) := i + 1]> (alloc_state σ))
                              (next_tick σ))
  ∨ ∃ c t, alloc_zero n e σ = (Err c, set_tick t σ)
      ∧ (reliable e → i < MAX_ALLOCS → n ≤ HEAP_MAX_ALLOC_SIZE → False).
Proof.
  cbv zeta. unfold alloc_zero. set (i := unwrap_or _ 0).
  destruct (i >=? MAX_ALLOCS) eqn:H1.
  { right. exists 1, (tick σ). split; [by destruct σ|]. apply Z.geb_le in H1. lia. }
  destruct (update_ok e (tick σ)) eqn:H2; cbn [negb]; [|right; exists 1, (S (tick σ)); split; [done|]].
  - destruct (n >? HEAP_MAX_ALLOC_SIZE) eqn:H3; [|by left]. right. exists 1, (S (tick σ)).
    split; [done|]. apply Z.gtb_lt in H3. lia.
  - intros [Hu _]. by rewrite Hu in H2.
Qed.

(** The records appended under a condition [room] that holds in an environment where updates
    and reservations succeed, and fails in one whose ring is full. *)
Definition recorded (e : Env) (path : result Path) (ev : Z → Path → GuardEvent)
    (before after : list GuardEvent) : Prop :=
  ∃ ts (room : bool),
    after = before ++ match path with Ok p => if room then [ev ts p] else [] | Err _ => [] end
    ∧ (roomy e → room = true) ∧ ((∀ n, reserve_ok e n = false) → room = false).

Lemma not_recorded e path ev evs : (roomy e → False) → recorded e path ev evs evs.
Proof.
  intros Hn. exists 0, false. split_and!; [by case_match; rewrite app_nil_r|by intros []%Hn|done].
Qed.

Lemma emit_path_event_run kind f tool ctx identity source action e σ :
  recorded e (core_resolve_file e f MAX_PATH_DEPTH Path_default)
    (λ ts, copy_path_to_event
       (guard_event (cur_tgid e) (cur_tid e) kind action tool ctx identity source ts))
    (guard_events σ)
    (guard_events (try_emit_path_event kind f tool ctx identity source action e σ).2).
Proof.
  unfold try_emit_path_event. erewrite try_run by reflexivity.
  edestruct (alloc_zero_any size_of_GuardEvent e) as [E|(c & t & E & Hf)];
    erewrite try_run by exact E; cbv beta iota; clear E.
  2: { apply not_recorded. intros [He _]. by apply Hf; [|sproj; rewrite lookup_insert_eq|]. }
  sproj. rewrite lookup_insert_eq. cbn [unwrap_or].
  edestruct (alloc_zero_any size_of_Path e) as [E|(c & t & E & Hf)];
    erewrite try_run by exact E; cbv beta iota; clear E.
  2: { apply not_recorded. intros [He _]. by apply Hf; [|sproj; rewrite lookup_insert_eq|]. }
  mstep. mstep. mstep. erewrite bind_run by reflexivity.
  destruct (core_resolve_file e f MAX_PATH_DEPTH Path_default) as [path|c]; last first.
  { exists 0, (reserve_ok e 0%nat). split_and!; [by rewrite app_nil_r|by intros []|done]. }
  erewrite bind_run by apply submit_event_any.
  match goal with |- context [reserve_ok e ?n] => set (m := n) end.
  eexists _, (reserve_ok e m). split_and!; [|by intros []|done].
  destruct (reserve_ok e m); [reflexivity|by rewrite app_nil_r].
Qed.

(** After the decision: the event, then an answer that changes nothing. *)
Lemma enforce_permission_state b e σ : (enforce_permission b e σ).2 = σ.
Proof. by rewrite enforce_permission_run. Qed.

Lemma decide_appends σ0 tid permission (emit : bool → Z → M unit) e σ cfg :
  ironscope_config σ !! 0 = Some cfg →
  ∃ source, ∀ evs, appends (emit (denies cfg (subject_of σ0 tid) permission) source) e σ evs →
    appends (d ← hook_decision (subject_identity (subject_of σ0 tid)) permission;
             let '(denied, source) := d in
             emit denied source;;
             ret ← enforce_permission denied;
             mret (Ok ret)) e σ evs.
Proof.
  intros Hcfg. destruct (hook_decision_denies σ0 tid permission e σ cfg Hcfg) as [source Hrun].
  exists source. intros evs Hevs. unfold appends in *. erewrite bind_run by exact Hrun.
  cbv beta iota. erewrite bind_run by apply surjective_pairing.
  erewrite bind_run by apply enforce_permission_run. exact Hevs.
Qed.

(** The state in which a protected thread's hook decides. *)
Lemma hook_identity_audit kind e σ :
  is_protected e σ = true →
  ∃ σ', hook_identity kind e σ
        = (Some (subject_ctx (hook_subject e σ), hook_tool e σ,
                 subject_identity (hook_subject e σ)), σ')
    ∧ policy_of σ' = policy_of σ ∧ guard_events σ' = guard_events σ.
Proof.
  intros Hp. destruct (hook_identity_run kind e σ) as (σ' & Hrun & Hpol). rewrite Hp in Hrun.
  exists σ'. split_and!; [done..|].
  pose proof (quiet_hook_identity kind (guard_events σ) e σ I eq_refl) as Hq.
  by rewrite Hrun in Hq.
Qed.

Lemma inet_endpoint_run sa e σ addr port :
  inet_endpoint e sa = Some (addr, port) →
  (sa =? 0) = false ∧ connect_endpoint sa e σ = (Ok (Some (addr, port)), σ).
Proof.
  unfold inet_endpoint, field, connect_endpoint. destruct (sa =? 0) eqn:Hsa; [done|]. intros H.
  split; [done|]. mstep. rewrite Hsa. destruct (shim e sockaddr_sa_family sa) as [fam|]; [|done].
  cbn in H. destruct (fam =? AF_INET); [|done]. cbn [negb]. mrun. rewrite Hsa.
  destruct (shim e sockaddr_in_s_addr sa); [|done].
  destruct (shim e sockaddr_in_sin_port sa); [|done]. cbn in H. by simplify_eq.
Qed.

(** Every decided [connect] leaves one guard event that names the thread, the
    context, the tool, the endpoint and the policy's verdict, in monitor mode as in
    enforce mode, when the ring has room. *)
Theorem socket_connect_audited e σ cfg sa addr port :
  roomy e → ironscope_config σ !! 0 = Some cfg → is_protected e σ = true →
  arg e 1 = Some sa → inet_endpoint e sa = Some (addr, port) →
  let s := hook_subject e σ in
  ∃ source ts, guard_events (run_probe ag_socket_connect e σ).2 = guard_events σ ++
    [with_endpoint addr port
       (guard_event (cur_tgid e) (cur_tid e) EVENT_NET_CONNECT
          (action_of (denies cfg s (net_rule e σ addr port)))
          (hook_tool e σ) (subject_ctx s) (subject_identity s) source ts)].
Proof.
  intros Hr Hcfg Hp Harg Hep s.
  destruct (hook_identity_audit EVENT_NET_CONNECT e σ Hp) as (σ' & Hrun & Hpol & Hg).
  injection Hpol as _ _ Hn Hc _ _. destruct (inet_endpoint_run sa e σ' addr port Hep) as [Hsa Hce].
  assert (ironscope_config σ' !! 0 = Some cfg) as Hcfg' by by rewrite Hc.
  cbn [run_probe]. unfold handle_socket_connect, ok_or_allow, try_socket_connect.
  destruct (decide_appends (refreshed e σ) (cur_tid e) (net_rule e σ addr port)
    (λ b source, emit_net_event (cur_tgid e) (hook_tool e σ) (subject_ctx s)
       (subject_identity s) source (action_of b) addr port) e σ' cfg Hcfg') as [source Hd].
  destruct (emit_net_event_run (cur_tgid e) (hook_tool e σ) (subject_ctx s) (subject_identity s)
    source (action_of (denies cfg s (net_rule e σ addr port))) addr port e σ' Hr) as [ts Hts].
  exists source, ts. erewrite bind_run by apply surjective_pairing. cbn [snd mret probeM_ret].
  mstep. erewrite bind_run by exact Hrun. cbv beta iota. mstep. rewrite Harg. cbn [unwrap_or]. rewrite Hsa.
  erewrite try_run by exact Hce. cbv beta iota. erewrite bind_run by (unfold net_permission; by rewrite Hn).
  rewrite <-Hg. exact (Hd _ Hts).
Qed.

Lemma socket_connect_audited_witness :
  ∃ source ts, guard_events (run_probe ag_socket_connect env_file (state_denied MODE_ENFORCE)).2
    = [] ++ [with_endpoint 0x0100000a 0xbb01
               (guard_event 7 9 EVENT_NET_CONNECT ACTION_DENY 5 17 IDENTITY_STATE_KNOWN_TOOL
                  source ts)].
Proof.
  apply (socket_connect_audited env_file (state_denied MODE_ENFORCE)
    (sample_config MODE_ENFORCE) 64 0x0100000a 0xbb01); try reflexivity.
  done.
Defined.

(** C39: a decided [file_open] leaves at most one guard event, which names the thread, the
    context, the tool, the verdict and the path.  It leaves it when the path can be rebuilt
    from the dentries and the scratch memory and the ring have room, as they do while
    updates and reservations succeed; when the path cannot be rebuilt, or when the ring is
    full, the decision, a refusal included, leaves no record. *)
Theorem file_open_audited e σ cfg f dev ino :
  ironscope_config σ !! 0 = Some cfg → is_protected e σ = true →
  arg e 0 = Some f → file_identity e f = Some (dev, ino) →
  let s := hook_subject e σ in
  ∃ source,
    recorded e (core_resolve_file e f MAX_PATH_DEPTH Path_default)
      (λ ts, copy_path_to_event
         (guard_event (cur_tgid e) (cur_tid e) EVENT_FS_OPEN
            (action_of (denies cfg s (fs_rule e σ dev ino)))
            (hook_tool e σ) (subject_ctx s) (subject_identity s) source ts))
      (guard_events σ) (guard_events (run_probe ag_file_open e σ).2).
Proof.
  intros Hcfg Hp Harg Hfi s.
  destruct (hook_identity_audit EVENT_FS_OPEN e σ Hp) as (σ' & Hrun & Hpol & Hg).
  injection Hpol as Hfs _ _ Hc _ _.
  assert (ironscope_config σ' !! 0 = Some cfg) as Hcfg' by by rewrite Hc.
  cbn [run_probe]. unfold handle_file_open, ok_or_allow, try_file_open.
  destruct (decide_appends (refreshed e σ) (cur_tid e) (fs_rule e σ dev ino)
    (λ b source, emit_fs_event f (hook_tool e σ) (subject_ctx s) (subject_identity s) source
       (action_of b)) e σ' cfg Hcfg') as [source Hd].
  destruct (emit_path_event_run EVENT_FS_OPEN f (hook_tool e σ) (subject_ctx s)
    (subject_identity s) source (action_of (denies cfg s (fs_rule e σ dev ino))) e σ')
    as (ts & room & Hts & Hroom).
  exists source, ts, room. split; [|exact Hroom].
  erewrite bind_run by apply surjective_pairing. cbn [snd mret probeM_ret].
  erewrite bind_run by exact Hrun. cbv beta iota. mstep. rewrite Harg. cbn [unwrap_or].
  destruct (f =? 0) eqn:Hf.
  { unfold file_identity, field in Hfi. by rewrite Hf in Hfi. }
  erewrite bind_run by apply get_file_identity_run. rewrite Hfi. cbv beta iota.
  erewrite bind_run by (unfold m_get; sproj; by rewrite Hfs).
  rewrite <-Hg. apply Hd. unfold emit_fs_event, appends in *.
  erewrite bind_run by apply surjective_pairing. exact Hts.
Qed.

Lemma file_open_audited_witness :
  ∃ source ts path,
    core_resolve_file env_file 64 MAX_PATH_DEPTH Path_default = Ok path
    ∧ as_slice path = [47; 97]
    ∧ guard_events (run_probe ag_file_open env_file (state_denied MODE_ENFORCE)).2
      = [] ++ [copy_path_to_event
                 (guard_event 7 9 EVENT_FS_OPEN ACTION_DENY 5 17 IDENTITY_STATE_KNOWN_TOOL
                    source ts) path].
Proof.
  assert (roomy env_file) as Hr by done.
  destruct (file_open_audited env_file (state_denied MODE_ENFORCE) (sample_config MODE_ENFORCE)
    64 1 500) as (source & ts & room & H & Hroom & _); try reflexivity.
  exists source, ts. rewrite (Hroom Hr) in H. clear Hroom Hr.
  destruct (core_resolve_file env_file 64 MAX_PATH_DEPTH Path_default) as [path|c] eqn:E;
    [|vm_compute in E; discriminate E].
  exists path. split; [reflexivity|]. split; [vm_compute in E; injection E as <-; reflexivity|exact H].
Defined.

