(* ===== verification/Stacks.v ===== *)
(** * Stacks encoded in BPF maps

    BPF has no growable arrays: the programs keep a stack as one map from
    (owner, index) to the element and a second one from the owner to the depth.
    This file relates that encoding to a list and proves what the shared loops
    [find_entry] and [shift_down] do to it. *)

From stdpp Require Import base gmap list.
From S2P Require Import Prelude Types Maps Ownership.

(** The indices below [N] hold exactly the elements of [l]. *)
Definition stack_at {K V} `{Countable K} (mm : gmap K V) (key : Z → K) (N : Z)
    (l : list V) : Prop :=
  ∀ i : nat, Z.of_nat i < N → mm !! key (Z.of_nat i) = l !! i.

(** The depth entry of a stack: absent for the empty one. *)
Definition depth_of {V} (l : list V) : option Z :=
  match l with [] => None | _ => Some (Z.of_nat (length l)) end.

(** Keys that differ on indices below [N]. *)
Definition key_inj {K} (key : Z → K) (N : Z) : Prop :=
  ∀ i j, 0 ≤ i < N → 0 ≤ j < N → key i = key j → i = j.

(** A key that is none of the stack's. *)
Definition off_stack {K} (key : Z → K) (N : Z) (k : K) : Prop :=
  ∀ i, 0 ≤ i < N → key i ≠ k.

Lemma depth_of_unwrap {V} (l : list V) : unwrap_or (depth_of l) 0 = Z.of_nat (length l).
Proof. by destruct l. Qed.

Lemma depth_of_Some {V} (l : list V) d :
  depth_of l = Some d → d = Z.of_nat (length l) ∧ 0 < d.
Proof. destruct l; [done|]. intros [= <-]. cbn. lia. Qed.

Lemma depth_of_None {V} (l : list V) : depth_of l = None → l = [].
Proof. by destruct l. Qed.

Lemma depth_of_snoc {V} (l : list V) x : depth_of (l ++ [x]) = Some (Z.of_nat (length l) + 1).
Proof.
  unfold depth_of. destruct (l ++ [x]) eqn:E; [by destruct l|].
  rewrite <-E, length_app. cbn. f_equal. lia.
Qed.

Lemma depth_of_length {V} (l l' : list V) : length l = length l' → depth_of l = depth_of l'.
Proof. destruct l, l'; cbn; intros; [done|lia|lia|]. do 2 f_equal. lia. Qed.

Section stack.
Context {K V : Type} `{Countable K}.
Context (key : Z → K) (N : Z) (Hinj : key_inj key N).
Implicit Types (mm : gmap K V) (l : list V).

Lemma key_ne i j : 0 ≤ i < N → 0 ≤ j < N → i ≠ j → key i ≠ key j.
Proof. intros Hi Hj Hne E. by apply Hne, Hinj. Qed.

Lemma stack_at_lookup mm l i :
  stack_at mm key N l → 0 ≤ i < N → mm !! key i = l !! Z.to_nat i.
Proof.
  intros Hst Hi. rewrite <-(Hst (Z.to_nat i)) by lia. by rewrite Z2Nat.id by lia.
Qed.

Lemma stack_at_agree mm mm' l :
  stack_at mm key N l → (∀ i, 0 ≤ i < N → mm' !! key i = mm !! key i) →
  stack_at mm' key N l.
Proof. intros Hst Hag i Hi. rewrite Hag by lia. by apply Hst. Qed.

Lemma stack_at_insert_off mm l k v :
  off_stack key N k → stack_at mm key N l → stack_at (<[k:=v]> mm) key N l.
Proof.
  intros Hk Hst i Hi. rewrite lookup_insert_ne; [by apply Hst|]. intros ->.
  eapply (Hk (Z.of_nat i)); [lia|done].
Qed.

Lemma stack_at_delete_off mm l k :
  off_stack key N k → stack_at mm key N l → stack_at (delete k mm) key N l.
Proof.
  intros Hk Hst i Hi. rewrite lookup_delete_ne; [by apply Hst|]. intros ->.
  eapply (Hk (Z.of_nat i)); [lia|done].
Qed.

(** Writing the entry one above the top pushes. *)
Lemma stack_at_push mm l v :
  Z.of_nat (length l) < N → stack_at mm key N l →
  stack_at (<[key (Z.of_nat (length l)) := v]> mm) key N (l ++ [v]).
Proof.
  intros Hlen Hst i Hi. destruct (decide (i = length l)) as [->|Hne].
  - by rewrite lookup_insert_eq, lookup_app_r, Nat.sub_diag by lia.
  - rewrite lookup_insert_ne by (apply key_ne; lia). rewrite Hst by done.
    destruct (decide (i < length l)%nat); [by rewrite lookup_app_l|].
    rewrite !lookup_ge_None_2; [done| |lia]. rewrite length_app. cbn. lia.
Qed.

(** Overwriting an entry in place. *)
Lemma stack_at_update mm l i v :
  (i < length l)%nat → Z.of_nat i < N → stack_at mm key N l →
  stack_at (<[key (Z.of_nat i) := v]> mm) key N (<[i:=v]> l).
Proof.
  intros Hi HN Hst j Hj. destruct (decide (j = i)) as [->|Hne].
  - by rewrite lookup_insert_eq, list_lookup_insert_eq.
  - rewrite lookup_insert_ne by (apply key_ne; lia).
    by rewrite list_lookup_insert_ne, Hst.
Qed.

(** Dropping the top entry pops. *)
Lemma stack_at_pop mm l v :
  Z.of_nat (length l) < N → stack_at mm key N (l ++ [v]) →
  stack_at (delete (key (Z.of_nat (length l))) mm) key N l.
Proof.
  intros Hlen Hst i Hi. destruct (decide (i = length l)) as [->|Hne].
  - by rewrite lookup_delete_eq, lookup_ge_None_2.
  - rewrite lookup_delete_ne by (apply key_ne; lia). rewrite Hst by done.
    destruct (decide (i < length l)%nat); [by rewrite lookup_app_l|].
    rewrite !lookup_ge_None_2; [done|lia|]. rewrite length_app. cbn. lia.
Qed.

(** During [shift_down] the entries between the removed index and the cursor
    have moved one down and the index below the cursor is free. *)
Definition shifting mm l (fi i : nat) : Prop :=
  ∀ j : nat, Z.of_nat j < N →
    mm !! key (Z.of_nat j) =
      if decide (j < fi)%nat then l !! j
      else if decide (S j < i)%nat then l !! S j
      else if decide (S j = i)%nat then None
      else l !! j.

Lemma shifting_start mm l fi :
  Z.of_nat fi < N → stack_at mm key N l →
  shifting (delete (key (Z.of_nat fi)) mm) l fi (S fi).
Proof.
  intros Hfi Hst j Hj. destruct (decide (j = fi)) as [->|Hne].
  - rewrite lookup_delete_eq. repeat case_decide; try lia. done.
  - rewrite lookup_delete_ne by (apply key_ne; lia). rewrite Hst by done.
    repeat case_decide; lia || done.
Qed.

Lemma shifting_step mm l fi i v :
  (fi < i)%nat → Z.of_nat i < N → l !! i = Some v → shifting mm l fi i →
  shifting (delete (key (Z.of_nat i)) (<[key (Z.of_nat i - 1) := v]> mm)) l fi (S i).
Proof.
  intros Hlt Hi Hv Hsh j Hj. destruct (decide (j = i)) as [->|Hne].
  { rewrite lookup_delete_eq. repeat case_decide; lia || done. }
  rewrite lookup_delete_ne by (apply key_ne; lia).
  destruct (decide (S j = i)) as [<-|Hne'].
  - replace (Z.of_nat (S j) - 1) with (Z.of_nat j) by lia.
    rewrite lookup_insert_eq. repeat case_decide; lia || done.
  - rewrite lookup_insert_ne by (apply key_ne; lia). rewrite Hsh by done.
    repeat case_decide; lia || done.
Qed.

Lemma shifting_end mm l fi :
  (fi < length l)%nat → Z.of_nat (length l) ≤ N → shifting mm l fi (length l) →
  stack_at mm key N (delete fi l).
Proof.
  intros Hfi Hlen Hsh j Hj. rewrite Hsh by done.
  assert (length (delete fi l) = (length l - 1)%nat) as Hd.
  { apply length_delete. by apply lookup_lt_is_Some_2. }
  case_decide; [by rewrite list_lookup_delete_lt|].
  case_decide; [by rewrite list_lookup_delete_ge by lia|].
  rewrite (lookup_ge_None_2 (delete fi l)) by (rewrite Hd; lia).
  case_decide; [done|]. by rewrite lookup_ge_None_2 by lia.
Qed.

(** Removing the indices from the bottom one by one. *)
Definition clearing mm l (i : nat) mm' : Prop :=
  (∀ j : nat, Z.of_nat j < N → mm' !! key (Z.of_nat j) = if decide (j < i)%nat then None else l !! j)
  ∧ (∀ k, off_stack key N k → mm' !! k = mm !! k).

Lemma clearing_start mm l : stack_at mm key N l → clearing mm l 0 mm.
Proof. intros Hst. split; [|done]. intros j Hj. by apply Hst. Qed.

Lemma clearing_step mm l i mm' :
  Z.of_nat i < N → clearing mm l i mm' → clearing mm l (S i) (delete (key (Z.of_nat i)) mm').
Proof.
  intros Hi [Hc Hoff]. split.
  - intros j Hj. destruct (decide (j = i)) as [->|Hne].
    + rewrite lookup_delete_eq. case_decide; [done|lia].
    + rewrite lookup_delete_ne by (apply key_ne; lia). rewrite Hc by done.
      repeat case_decide; lia || done.
  - intros k Hk. rewrite lookup_delete_ne by (apply Hk; lia). by apply Hoff.
Qed.

Lemma clearing_end mm l mm' : clearing mm l (length l) mm' → stack_at mm' key N [].
Proof.
  intros [Hc _] j Hj. rewrite Hc by done. case_decide; [done|]. by rewrite lookup_ge_None_2 by lia.
Qed.

(** ** The loops *)

Context (m : bpf_map K V) `{!MapLaws m}.

Lemma find_entry_from (p : V → bool) e σ l fuel (i : nat) :
  stack_at (bm_get m σ) key N l → (length l ≤ i + fuel)%nat → Z.of_nat (length l) ≤ N →
  scan fuel (Z.of_nat i) (Z.of_nat (length l)) (λ i,
    v ← m_get m (key i);
    mret (match v with Some v => if p v then Some (i, v) else None | None => None end)) e σ
  = ((n ← find_pos p (drop i l); x ← drop i l !! n; Some (Z.of_nat (i + n), x)), σ).
Proof.
  intros Hst Hf HN. revert i Hf. induction fuel as [|fuel IH]; intros i Hf; cbn.
  { by rewrite drop_ge by lia. }
  destruct (Z.geb_spec (Z.of_nat i) (Z.of_nat (length l))) as [Hge|Hlt].
  { by rewrite drop_ge by lia. }
  destruct (lookup_lt_is_Some_2 l i) as [v Hv]; [lia|].
  cbv beta iota zeta delta [mbind probeM_bind mret probeM_ret m_get]. cbn.
  rewrite Hst, Hv by lia.
  rewrite (drop_S _ _ _ Hv). cbn. destruct (p v); cbn.
  { by replace (i + 0)%nat with i by lia. }
  replace (Z.of_nat i + 1) with (Z.of_nat (S i)) by lia.
  rewrite IH by lia. destruct (find_pos p (drop (S i) l)) as [n|]; cbn; [|done].
  destruct (drop (S i) l !! n); cbn; [|done]. repeat f_equal. lia.
Qed.

Lemma find_entry_spec (p : V → bool) e σ l :
  stack_at (bm_get m σ) key N l → (length l ≤ 8)%nat → Z.of_nat (length l) ≤ N →
  find_entry m key (Z.of_nat (length l)) p e σ
  = ((n ← find_pos p l; x ← l !! n; Some (Z.of_nat n, x)), σ).
Proof. intros. by apply (find_entry_from p e σ l 8 0). Qed.

Lemma find_entry_found (p : V → bool) e σ l n :
  stack_at (bm_get m σ) key N l → (length l ≤ 8)%nat → Z.of_nat (length l) ≤ N →
  find_pos p l = Some n →
  ∃ x, l !! n = Some x ∧ p x = true
    ∧ find_entry m key (Z.of_nat (length l)) p e σ = (Some (Z.of_nat n, x), σ).
Proof.
  intros Hst H8 HN Hn. destruct (find_pos_Some p l n Hn) as (x & Hx & Hp & _).
  exists x. split_and!; [done..|]. rewrite find_entry_spec by done. rewrite Hn. cbn.
  by rewrite Hx.
Qed.

Lemma find_entry_missing (p : V → bool) e σ l :
  stack_at (bm_get m σ) key N l → (length l ≤ 8)%nat → Z.of_nat (length l) ≤ N →
  find_pos p l = None → find_entry m key (Z.of_nat (length l)) p e σ = (None, σ).
Proof. intros Hst H8 HN Hn. rewrite find_entry_spec by done. by rewrite Hn. Qed.

(** [σ'] is [σ] with another content of the map [m]. *)
Definition only (σ : State) (mm : gmap K V) (σ' : State) : Prop :=
  ∃ t, σ' = set_tick t (bm_set m mm σ).

Lemma shift_down_from e σ l fi fuel (i : nat) :
  reliable e → (fi < i)%nat → (i ≤ length l)%nat → (length l ≤ i + fuel)%nat →
  Z.of_nat (length l) ≤ N → shifting (bm_get m σ) l fi i →
  ∃ mm', only σ mm' (scan fuel (Z.of_nat i) (Z.of_nat (length l)) (λ src,
      v ← m_get m (key src);
      match v with
      | Some v => m_insert m (key (src - 1)) v;; m_remove m (key src);; mret None
      | None => mret (Some tt)
      end) e σ).2
    ∧ shifting mm' l fi (length l)
    ∧ (∀ k, off_stack key N k → mm' !! k = bm_get m σ !! k).
Proof.
  intros He. revert σ i. induction fuel as [|fuel IH]; intros σ i Hfi Hi Hf HN Hsh; cbn.
  { exists (bm_get m σ). replace (length l) with i by lia. split_and!; [|done..].
    exists (tick σ). rewrite map_set_get. by destruct σ. }
  destruct (Z.geb_spec (Z.of_nat i) (Z.of_nat (length l))) as [Hge|Hlt].
  { exists (bm_get m σ). replace (length l) with i by lia. split_and!; [|done..].
    exists (tick σ). rewrite map_set_get. by destruct σ. }
  destruct (lookup_lt_is_Some_2 l i) as [v Hv]; [lia|].
  assert (bm_get m σ !! key (Z.of_nat i) = Some v) as Hget.
  { rewrite Hsh by lia. repeat case_decide; lia || done. }
  cbv beta iota zeta delta [mbind probeM_bind mret probeM_ret m_get]. cbn.
  rewrite Hget. rewrite m_insert_reliable by done. cbn. unfold next_tick.
  rewrite map_set_tick, map_get_tick, map_get_set, map_set_tick, map_set_set.
  replace (Z.of_nat i + 1) with (Z.of_nat (S i)) by lia.
  match goal with |- context [scan _ _ _ _ e ?s] => set (σ1 := s) end.
  destruct (IH σ1 (S i)) as (mm' & [t Ht] & Hend & Hoff); [lia..|done| |].
  { subst σ1. rewrite map_get_tick, map_get_set. apply shifting_step; [lia|lia|done|done]. }
  exists mm'. split_and!; [|done|].
  - exists t. etrans; [exact Ht|]. subst σ1. by rewrite map_set_tick, map_set_set.
  - intros k Hk. rewrite Hoff by done. subst σ1. rewrite map_get_tick, map_get_set.
    rewrite lookup_delete_ne by (apply Hk; lia).
    by rewrite lookup_insert_ne by (apply Hk; lia).
Qed.

(** Closing the gap after index [fi] was removed deletes element [fi]. *)
Lemma remove_shift_spec e σ l (fi fuel : nat) :
  reliable e → (fi < length l)%nat → (length l ≤ S fi + fuel)%nat →
  Z.of_nat (length l) ≤ N → stack_at (bm_get m σ) key N l →
  ∃ mm' t,
    shift_down m key fuel (Z.of_nat fi) (Z.of_nat (length l)) e
      (bm_set m (delete (key (Z.of_nat fi)) (bm_get m σ)) σ)
    = (tt, set_tick t (bm_set m mm' σ))
    ∧ stack_at mm' key N (delete fi l)
    ∧ (∀ k, off_stack key N k → mm' !! k = bm_get m σ !! k).
Proof.
  intros He Hfi Hf HN Hst. set (σ1 := bm_set m _ σ).
  destruct (shift_down_from e σ1 l fi fuel (S fi)) as (mm' & [t Ht] & Hend & Hoff);
    [done|lia..|done| |].
  { subst σ1. rewrite map_get_set. apply shifting_start; [lia|done]. }
  exists mm', t. split_and!.
  - unfold shift_down. replace (Z.of_nat fi + 1) with (Z.of_nat (S fi)) by lia.
    erewrite bind_run; [|by apply surjective_pairing]. rewrite ret_run. f_equal.
    etrans; [exact Ht|]. subst σ1. by rewrite map_set_set.
  - by apply shifting_end.
  - intros k Hk. rewrite Hoff by done. subst σ1. rewrite map_get_set.
    by rewrite lookup_delete_ne by (apply Hk; lia).
Qed.
End stack.

(** ** Families of stacks

    One pair of maps holds a stack per owner (thread or task). *)

(** The keys of different (owner, index) pairs differ. *)
Class KeyFam {O K} (valid : O → Prop) (key : O → Z → K) (N : Z) : Prop :=
  key_fam o o' i j :
    valid o → valid o' → 0 ≤ i < N → 0 ≤ j < N → key o i = key o' j → o = o' ∧ i = j.

Section family.
Context {O K V : Type} `{Countable O, Countable K}.
Context (valid : O → Prop) (key : O → Z → K) (N bound : Z).
Context `{!KeyFam valid key N}.
Implicit Types (stk : gmap K V) (dep : gmap O Z) (l : list V).

(** Owner [o]'s stack is [l]. *)
Definition owner_stack stk dep (o : O) l : Prop :=
  stack_at stk (key o) N l ∧ dep !! o = depth_of l ∧ Z.of_nat (length l) ≤ bound.

(** Every owner has a stack. *)
Definition stacks_wf stk dep : Prop := ∀ o, valid o → ∃ l, owner_stack stk dep o l.

Lemma fam_inj o : valid o → key_inj (key o) N.
Proof. intros Ho i j Hi Hj E. by destruct (key_fam o o i j Ho Ho Hi Hj E). Qed.

Lemma fam_off o o' i : valid o → valid o' → o ≠ o' → 0 ≤ i < N → off_stack (key o') N (key o i).
Proof. intros Ho Ho' Hne Hi j Hj E. by destruct (key_fam o' o j i Ho' Ho Hj Hi E). Qed.

(** The other owners' stacks do not see a change at owner [o]'s keys. *)
Lemma owner_stack_other stk dep stk' dep' o o' l' :
  valid o → valid o' → o ≠ o' →
  (∀ k, off_stack (key o) N k → stk' !! k = stk !! k) →
  (∀ p, p ≠ o → dep' !! p = dep !! p) →
  owner_stack stk dep o' l' → owner_stack stk' dep' o' l'.
Proof.
  intros Ho Ho' Hne Hstk Hdep (Hst & Hd & Hl). split_and!; [|by rewrite Hdep|done].
  eapply stack_at_agree; [exact Hst|]. intros i Hi. apply Hstk. by apply fam_off.
Qed.

Lemma stacks_wf_update stk dep stk' dep' o l :
  valid o → stacks_wf stk dep →
  (∀ k, off_stack (key o) N k → stk' !! k = stk !! k) →
  (∀ p, p ≠ o → dep' !! p = dep !! p) →
  owner_stack stk' dep' o l → stacks_wf stk' dep'.
Proof.
  intros Ho Hwf Hstk Hdep Hl o' Ho'. destruct (decide (o = o')) as [<-|Hne]; [by exists l|].
  destruct (Hwf o' Ho') as [l' Hl']. exists l'. by apply (owner_stack_other stk dep stk' dep' o).
Qed.

Lemma owner_stack_fun stk dep o l l' :
  bound ≤ N → owner_stack stk dep o l → owner_stack stk dep o l' → l = l'.
Proof.
  intros HN (H1 & _ & Hl) (H2 & _ & Hl'). apply list_eq. intros i.
  destruct (decide (Z.of_nat i < N)) as [Hi|Hi].
  - by rewrite <-H1, <-H2.
  - by rewrite !lookup_ge_None_2 by lia.
Qed.

Lemma owner_stack_empty : 0 ≤ bound → stacks_wf ∅ ∅.
Proof.
  intros Hb o _. exists []. split_and!; [|done|done]. intros i _. by rewrite lookup_empty.
Qed.

(** Push. *)
Lemma owner_stack_push stk dep o l v :
  valid o → bound ≤ N → Z.of_nat (length l) < bound → owner_stack stk dep o l →
  owner_stack (<[key o (Z.of_nat (length l)) := v]> stk)
    (<[o := Z.of_nat (length l) + 1]> dep) o (l ++ [v]).
Proof.
  intros Ho HN Hb (Hst & Hd & _). split_and!.
  - apply stack_at_push; [by apply fam_inj|lia|done].
  - by rewrite lookup_insert_eq, depth_of_snoc.
  - rewrite length_app. cbn. lia.
Qed.

(** The depth map after one element is gone. *)
Definition pop_depth (o : O) (n : Z) dep : gmap O Z :=
  if n =? 0 then delete o dep else <[o := n]> dep.

Lemma pop_depth_lookup o l dep :
  pop_depth o (Z.of_nat (length l)) dep !! o = depth_of l.
Proof.
  unfold pop_depth. destruct l as [|v l].
  - apply lookup_delete_eq.
  - apply lookup_insert_eq.
Qed.

Lemma pop_depth_other o n dep p : p ≠ o → pop_depth o n dep !! p = dep !! p.
Proof.
  intros Hne. unfold pop_depth. destruct (n =? 0); [by rewrite lookup_delete_ne|].
  by rewrite lookup_insert_ne.
Qed.

(** The maps changed at owner [o] alone, whose stack is now [l]. *)
Definition changes stk dep (o : O) stk' dep' l : Prop :=
  owner_stack stk' dep' o l
  ∧ (∀ k, off_stack (key o) N k → stk' !! k = stk !! k)
  ∧ (∀ p, p ≠ o → dep' !! p = dep !! p).

Lemma changes_wf stk dep o stk' dep' l :
  valid o → stacks_wf stk dep → changes stk dep o stk' dep' l → stacks_wf stk' dep'.
Proof. intros Ho Hwf (Hl & Hs & Hd). by apply (stacks_wf_update stk dep stk' dep' o l). Qed.

Lemma changes_other stk dep o stk' dep' l o' l' :
  valid o → valid o' → o ≠ o' → changes stk dep o stk' dep' l →
  owner_stack stk dep o' l' → owner_stack stk' dep' o' l'.
Proof. intros Ho Ho' Hne (Hl & Hs & Hd). by apply owner_stack_other with o. Qed.

Lemma changes_refl stk dep o l : owner_stack stk dep o l → changes stk dep o stk dep l.
Proof. intros Hl. unfold changes. by split_and!. Qed.

Lemma changes_push stk dep o l v :
  valid o → bound ≤ N → Z.of_nat (length l) < bound → owner_stack stk dep o l →
  changes stk dep o (<[key o (Z.of_nat (length l)) := v]> stk)
    (<[o := Z.of_nat (length l) + 1]> dep) (l ++ [v]).
Proof.
  intros Ho HN Hb Hst. split_and!; [by apply owner_stack_push| |].
  - intros k Hk. rewrite lookup_insert_ne; [done|]. apply Hk. lia.
  - intros p Hp. by rewrite lookup_insert_ne.
Qed.

Lemma changes_pop stk dep o stk' n l :
  Z.of_nat (length l) ≤ bound → (n < length l)%nat →
  stack_at stk' (key o) N (delete n l) →
  (∀ k, off_stack (key o) N k → stk' !! k = stk !! k) →
  changes stk dep o stk' (pop_depth o (Z.of_nat (length l) - 1) dep) (delete n l).
Proof.
  intros Hb Hn Hst Hs.
  assert (Z.of_nat (length l) - 1 = Z.of_nat (length (delete n l))) as ->.
  { rewrite length_delete by by apply lookup_lt_is_Some_2. lia. }
  split_and!; [split_and!|done|].
  - done.
  - apply pop_depth_lookup.
  - rewrite length_delete by by apply lookup_lt_is_Some_2. lia.
  - intros p Hp. by apply pop_depth_other.
Qed.

Lemma insert_off_other stk o i v k :
  0 ≤ i < N → off_stack (key o) N k → <[key o i := v]> stk !! k = stk !! k.
Proof. intros Hi Hk. rewrite lookup_insert_ne; [done|]. by apply Hk. Qed.
End family.

(** ** Key families *)

#[global] Instance thread_key_fam : KeyFam in_u32 thread_key 256.
Proof. intros o o' i j Ho Ho' Hi Hj E. apply (pack_inj o o' 8); [done..|lia|lia|lia|done]. Qed.

#[global] Instance tool_key_fam : KeyFam in_u32 tool_key (2 ^ 32).
Proof. intros o o' i j Ho Ho' Hi Hj E. apply (pack_inj o o' 32); [done..|lia|lia|lia|done]. Qed.

#[global] Instance stash_key_fam : KeyFam in_u32 stash_key 65536.
Proof. intros o o' i j Ho Ho' Hi Hj E. apply (pack_inj o o' 16); [done..|lia|lia|lia|done]. Qed.

(** A task's stack keys: the owner is the process-qualified task pointer. *)
Definition task_key (o : PyObjectKey) (i : Z) : TaskStackKey :=
  {| ts_tgid := po_tgid o; ts_depth := i; ts_task_ptr := po_ptr o |}.

#[global] Instance task_key_fam : KeyFam (λ _, True) task_key (2 ^ 32).
Proof. intros [g p] [g' p'] i j _ _ _ _ [= -> -> ->]. done. Qed.
