(* ===== verification/ThreadStack.v ===== *)
(** * The per-thread context stack, refined to a list

    [thread_stack σ tid l] says that the two maps [THREAD_CTX_STACK] and
    [THREAD_CTX_DEPTH] hold the list [l] for thread [tid].  Each operation of
    [ownership.rs] on this stack is related to its list operation. *)

From stdpp Require Import base gmap list.
From S2P Require Import Prelude Types Maps Ownership Contexts Stacks Samples.

(** ** Representation *)

Definition thread_stack (σ : State) (tid : Z) (l : list Z) : Prop :=
  owner_stack thread_key 256 8 (thread_ctx_stack σ) (thread_ctx_depth σ) tid l.

(** It depends on the two maps alone. *)
Lemma thread_stack_ext σ σ' tid l :
  thread_ctx_stack σ' = thread_ctx_stack σ → thread_ctx_depth σ' = thread_ctx_depth σ →
  thread_stack σ tid l → thread_stack σ' tid l.
Proof. unfold thread_stack. by intros -> ->. Qed.

(** ** Reading *)

(** The top of the stack, if its context is alive. *)
Lemma ctx_stack_top_spec tid e σ l :
  thread_stack σ tid l →
  ctx_stack_top tid e σ
  = (match last l with Some c => if live σ c then Some c else None | None => None end, σ).
Proof.
  intros (Hst & Hd & Hl). unfold ctx_stack_top. step_run. sproj. rewrite Hd.
  destruct (depth_of l) as [d|] eqn:E; [|by apply depth_of_None in E as ->].
  apply depth_of_Some in E as [-> Hpos].
  destruct (Z.eqb_spec (Z.of_nat (length l)) 0); [lia|].
  rewrite (stack_at_lookup _ _ _ l) by (done || lia).
  rewrite last_lookup. replace (Z.to_nat _) with (pred (length l)) by lia.
  destruct (l !! pred (length l)); [|done]. rewrite ctx_is_live_run. by destruct (live σ z).
Qed.

(** Membership among the live contexts of the stack. *)
Lemma ctx_stack_contains_spec tid c e σ l :
  thread_stack σ tid l →
  ctx_stack_contains tid c e σ = (bool_decide (c ∈ l) && live σ c, σ).
Proof.
  intros (Hst & Hd & Hl). unfold ctx_stack_contains. mstep. sproj. rewrite Hd, depth_of_unwrap.
  set (p := λ c', (c' =? c) && live σ c').
  erewrite bind_run; last first.
  { apply (scan_list (λ _ v, if p v then Some tt else None)); [lia|].
    intros i v Hv. mstep. sproj. rewrite Hst, Hv by (apply lookup_lt_Some in Hv; lia).
    mrun. done. }
  mrun. f_equal. erewrite first_some_existsb by done.
  apply eq_true_iff_eq. rewrite existsb_exists, andb_true_iff, bool_decide_eq_true.
  unfold p. setoid_rewrite andb_true_iff. setoid_rewrite Z.eqb_eq.
  rewrite list_elem_of_In. naive_solver.
Qed.

(** ** Writing *)

(** The state after a push. *)
Definition pushed (tid c : Z) (l : list Z) (σ : State) : State :=
  set_tick (S (S (S (tick σ))))
    (set_thread_active_ctx (<[tid := c]> (thread_active_ctx σ))
      (set_thread_ctx_depth (<[tid := Z.of_nat (length l) + 1]> (thread_ctx_depth σ))
        (set_thread_ctx_stack (<[thread_key tid (Z.of_nat (length l)) := c]> (thread_ctx_stack σ))
          σ))).

Lemma ctx_stack_push_run tid c e σ l :
  reliable e → thread_stack σ tid l → (length l < 8)%nat →
  ctx_stack_push tid c e σ = (Ok tt, pushed tid c l σ).
Proof.
  intros He (Hst & Hd & Hb) Hl. unfold ctx_stack_push. mstep. sproj.
  rewrite Hd, depth_of_unwrap.
  destruct (Z.geb_spec (Z.of_nat (length l)) MAX_CTX_STACK_DEPTH) as [Hge|_].
  { unfold MAX_CTX_STACK_DEPTH in Hge. lia. }
  mrun. sproj. rewrite u8_small by lia. done.
Qed.

(** At depth eight the push is refused and reported. *)
Lemma ctx_stack_push_full_run tid c e σ l :
  thread_stack σ tid l → length l = 8%nat →
  ctx_stack_push tid c e σ
  = (Err 0, logged e (cur_tgid e) (cur_tid e) EVENT_AUDIT_STACK_OVERFLOW c 0 0 8 σ).
Proof.
  intros (Hst & Hd & Hb) Hl. unfold ctx_stack_push. mstep. sproj.
  rewrite Hd, depth_of_unwrap, Hl.
  change (Z.of_nat 8 >=? MAX_CTX_STACK_DEPTH) with true. cbn iota. by mrun.
Qed.

(** The stack loop of [ctx_stack_remove] deletes the element at the index found. *)
Lemma ctx_stack_remove_found tid c e σ l n :
  reliable e → in_u32 tid → thread_stack σ tid l → find_pos (λ c', c' =? c) l = Some n →
  let l' := delete n l in
  ∃ stk t,
    ctx_stack_remove tid c e σ
    = (last l',
       set_tick t
         (set_thread_active_ctx (match last l' with
                                 | Some p => <[tid := p]> (thread_active_ctx σ)
                                 | None => delete tid (thread_active_ctx σ)
                                 end)
           (set_thread_ctx_depth (pop_depth tid (Z.of_nat (length l')) (thread_ctx_depth σ))
             (set_thread_ctx_stack stk σ))))
    ∧ stack_at stk (thread_key tid) 256 l'
    ∧ (∀ k, off_stack (thread_key tid) 256 k → stk !! k = thread_ctx_stack σ !! k).
Proof.
  intros He Htid (Hst & Hd & Hb) Hn l'. pose proof (find_pos_lt _ _ _ Hn) as Hlt.
  assert (length l' = (length l - 1)%nat) as Hl'.
  { apply length_delete. by apply lookup_lt_is_Some_2. }
  unfold ctx_stack_remove. mstep. sproj. rewrite Hd.
  destruct (depth_of l) as [d|] eqn:E; [|apply depth_of_None in E as ->; done].
  apply depth_of_Some in E as [-> Hpos].
  destruct (Z.eqb_spec (Z.of_nat (length l)) 0); [lia|].
  destruct (find_entry_found (thread_key tid) 256 THREAD_CTX_STACK (λ c', c' =? c) e σ l n)
    as (v & Hv & _ & Hfind); [done|lia|lia|done|].
  erewrite bind_run by exact Hfind. cbv beta iota.
  destruct (remove_shift_spec (thread_key tid) 256 (fam_inj _ _ _ tid Htid) THREAD_CTX_STACK
              e σ l n 7) as (stk & t & Ht & Hst' & Hoff); [done|lia|lia|lia|done|].
  mstep. erewrite bind_run by exact Ht. cbv beta zeta.
  destruct (Z.eqb_spec (Z.of_nat (length l) - 1) 0) as [H1|H1].
  - assert (l' = []) as El by (apply nil_length_inv; lia). rewrite El. exists stk, t. mrun.
    split_and!; [done|by rewrite <-El|done].
  - mrun. sproj. fold l' in Hst'.
    assert (stk !! thread_key tid (Z.of_nat (length l) - 1 - 1) = last l') as ->.
    { rewrite (stack_at_lookup _ _ _ l') by (done || lia). rewrite last_lookup. f_equal. lia. }
    destruct (last l') as [p|] eqn:Hp; last first.
    { apply last_None in Hp. rewrite Hp in Hl'. cbn in Hl'. lia. }
    eexists stk, _. split_and!; [|done..]. mrun. rewrite u8_small by lia. unfold pop_depth.
    destruct (Z.eqb_spec (Z.of_nat (length l')) 0); [lia|].
    replace (Z.of_nat (length l) - 1) with (Z.of_nat (length l')) by lia. done.
Qed.

(** The other branches: nothing to remove. *)
Lemma ctx_stack_remove_missing tid c e σ l :
  thread_stack σ tid l → find_pos (λ c', c' =? c) l = None →
  ctx_stack_remove tid c e σ
  = (match last l with Some c => if live σ c then Some c else None | None => None end, σ).
Proof.
  intros Hts Hn. pose proof Hts as (Hst & Hd & Hb). unfold ctx_stack_remove. mstep. sproj.
  rewrite Hd. destruct (depth_of l) as [d|] eqn:E; [|by apply depth_of_None in E as ->].
  apply depth_of_Some in E as [-> Hpos].
  destruct (Z.eqb_spec (Z.of_nat (length l)) 0); [lia|].
  erewrite bind_run; last first.
  { by apply (find_entry_missing (thread_key tid) 256); [|lia|lia|]. }
  by apply ctx_stack_top_spec.
Qed.

(** ** The stack as a list *)

(** Removing the first occurrence. *)
Definition remove_first (c : Z) (l : list Z) : list Z :=
  match find_pos (λ c', c' =? c) l with Some n => delete n l | None => l end.

Lemma remove_first_snoc c l : c ∉ l → remove_first c (l ++ [c]) = l.
Proof.
  intros Hc. unfold remove_first.
  assert (find_pos (λ c', c' =? c) (l ++ [c]) = Some (length l)) as ->.
  { induction l as [|x l IH]; cbn; [by rewrite Z.eqb_refl|].
    apply not_elem_of_cons in Hc as [Hx Hc]. destruct (Z.eqb_spec x c); [congruence|].
    by rewrite IH. }
  by rewrite delete_middle, app_nil_r.
Qed.

Lemma pushed_stack tid c l σ :
  in_u32 tid → thread_stack σ tid l → (length l < 8)%nat →
  thread_stack (pushed tid c l σ) tid (l ++ [c]).
Proof.
  intros Ht Hts Hl.
  apply (owner_stack_push in_u32 thread_key 256 8 (thread_ctx_stack σ) (thread_ctx_depth σ));
    [done|lia|lia|done].
Qed.

Lemma pushed_other tid tid' c l l' σ :
  in_u32 tid → in_u32 tid' → tid ≠ tid' → (length l < 8)%nat →
  thread_stack σ tid' l' → thread_stack (pushed tid c l σ) tid' l'.
Proof.
  intros Ht Ht' Hne Hl. apply (owner_stack_other in_u32 _ _ _ _ _ _ _ tid); [done..| |].
  - intros k Hk. apply (insert_off_other _ 256); [lia|done].
  - intros p Hp. unfold pushed. sproj. by rewrite lookup_insert_ne.
Qed.

(** The whole effect of a removal. *)
Lemma ctx_stack_remove_spec tid c e σ l :
  reliable e → in_u32 tid → thread_stack σ tid l →
  let '(r, σ') := ctx_stack_remove tid c e σ in
  thread_stack σ' tid (remove_first c l)
  ∧ (∀ tid' l', in_u32 tid' → tid' ≠ tid → thread_stack σ tid' l' → thread_stack σ' tid' l')
  ∧ (c ∈ l → r = last (remove_first c l) ∧ thread_active_ctx σ' !! tid = r)
  ∧ (∃ stk dep act t, σ' = set_tick t (set_thread_active_ctx act
                             (set_thread_ctx_depth dep (set_thread_ctx_stack stk σ)))).
Proof.
  intros He Ht Hts. pose proof Hts as (Hst & Hd & Hb). unfold remove_first.
  destruct (find_pos _ l) as [n|] eqn:Hn; last first.
  { rewrite (ctx_stack_remove_missing _ _ _ _ l) by done. split_and!; [done|done| |].
    - intros (m & Hm & _)%find_pos_eq. congruence.
    - exists (thread_ctx_stack σ), (thread_ctx_depth σ), (thread_active_ctx σ), (tick σ).
      by destruct σ. }
  destruct (ctx_stack_remove_found tid c e σ l n) as (stk & t & Hrun & Hst' & Hoff); [done..|].
  rewrite Hrun. pose proof (find_pos_lt _ _ _ Hn) as Hlt.
  assert (length (delete n l) = (length l - 1)%nat).
  { apply length_delete. by apply lookup_lt_is_Some_2. }
  split_and!.
  - split_and!; [done|apply pop_depth_lookup|lia].
  - intros tid' l' Ht' Hne. apply (owner_stack_other in_u32 _ _ _ _ _ _ _ tid); [done..|].
    intros p Hp. by apply pop_depth_other.
  - intros _. split; [done|]. sproj.
    destruct (last (delete n l)); [by rewrite lookup_insert_eq|by rewrite lookup_delete_eq].
  - by eexists _, _, _, _.
Qed.

(** ** The theorems *)

(** The empty maps hold the empty stack. *)
Lemma empty_thread_stack tid : thread_stack empty_state tid [].
Proof. split_and!; [intros i _; apply lookup_empty|apply lookup_empty|done]. Qed.

(** A push appends to the thread's list and makes the context active while
    there are fewer than eight; the ninth is refused, reported once, and changes no
    stack; other threads see nothing. *)
Theorem ctx_stack_push_refines tid c e σ l :
  reliable e → in_u32 tid → thread_stack σ tid l →
  let '(r, σ') := ctx_stack_push tid c e σ in
  (if (length l <? 8)%nat
   then r = Ok tt ∧ thread_stack σ' tid (l ++ [c]) ∧ thread_active_ctx σ' !! tid = Some c
   else r = Err 0 ∧ thread_stack σ' tid l
        ∧ py_events σ' = py_events σ ++ event_log e σ (cur_tgid e) (cur_tid e)
                           EVENT_AUDIT_STACK_OVERFLOW c 0 0 8)
  ∧ (∀ tid' l', in_u32 tid' → tid ≠ tid' → thread_stack σ tid' l' → thread_stack σ' tid' l').
Proof.
  intros He Ht Hl. destruct (Nat.ltb_spec (length l) 8) as [Hlt|Hge].
  - rewrite (ctx_stack_push_run _ _ _ _ l) by done. split.
    + split_and!; [done|by apply pushed_stack|apply lookup_insert_eq].
    + intros tid' l' Ht' Hne. by apply pushed_other.
  - assert (length l = 8%nat) by (destruct Hl as (_ & _ & ?); lia).
    rewrite (ctx_stack_push_full_run _ _ _ _ l) by done. done.
Qed.

Lemma ctx_stack_push_refines_witness :
  thread_stack (ctx_stack_push 9 17 env0 empty_state).2 9 [17].
Proof.
  pose proof (ctx_stack_push_refines 9 17 env0 empty_state [] (sample_reliable _ _ _)
                ltac:(vm_compute; split; congruence) (empty_thread_stack 9)) as H.
  exact (proj1 (proj2 (proj1 H))).
Defined.

(** C21: a removal deletes the first occurrence of the context, wherever it is in
    the list, makes what is then on top the active context and returns it; other
    threads see nothing, and no map outside the thread's stack changes. *)
Theorem ctx_stack_remove_refines tid c e σ l :
  reliable e → in_u32 tid → thread_stack σ tid l →
  let '(r, σ') := ctx_stack_remove tid c e σ in
  thread_stack σ' tid (remove_first c l)
  ∧ (∀ tid' l', in_u32 tid' → tid' ≠ tid → thread_stack σ tid' l' → thread_stack σ' tid' l')
  ∧ (c ∈ l → r = last (remove_first c l) ∧ thread_active_ctx σ' !! tid = r)
  ∧ (∃ stk dep act t, σ' = set_tick t (set_thread_active_ctx act
                             (set_thread_ctx_depth dep (set_thread_ctx_stack stk σ)))).
Proof. apply ctx_stack_remove_spec. Qed.

Lemma ctx_stack_remove_refines_witness :
  thread_stack (ctx_stack_remove 9 17 env0 (ctx_stack_push 9 17 env0 empty_state).2).2 9 [].
Proof.
  assert (in_u32 9) as H9 by (vm_compute; split; congruence).
  assert (thread_stack (ctx_stack_push 9 17 env0 empty_state).2 9 [17]) as H.
  { rewrite (ctx_stack_push_run 9 17 env0 empty_state []);
      [apply (pushed_stack 9 17 []); [done|apply empty_thread_stack|cbn; lia]|done
      |apply empty_thread_stack|cbn; lia]. }
  pose proof (ctx_stack_remove_refines 9 17 env0 _ [17] (sample_reliable _ _ _) H9 H) as Hr.
  destruct (ctx_stack_remove 9 17 env0 _) as [r σ']. exact (proj1 Hr).
Defined.

(** Entering a tool and leaving it restores the thread: after the push and the
    removal of a context that was not on the stack, the stack is the old one and the
    active context its top. *)
Theorem ctx_stack_push_remove tid c e e' σ l :
  reliable e → reliable e' → in_u32 tid → thread_stack σ tid l → c ∉ l → (length l < 8)%nat →
  let σ' := (ctx_stack_remove tid c e' (ctx_stack_push tid c e σ).2).2 in
  thread_stack σ' tid l ∧ thread_active_ctx σ' !! tid = last l.
Proof.
  intros He He' Ht Hl Hc Hlt. rewrite (ctx_stack_push_run _ _ _ _ l) by done. cbn [snd].
  pose proof (ctx_stack_remove_spec tid c e' _ _ He' Ht (pushed_stack tid c l σ Ht Hl Hlt)) as Hr.
  destruct (ctx_stack_remove tid c e' _) as [r σ']. destruct Hr as (Hst & _ & Hact & _).
  destruct Hact as [Hr Hact]; [set_solver|]. cbn [snd]. rewrite Hact, Hr.
  by rewrite remove_first_snoc in * by done.
Qed.

Lemma ctx_stack_push_remove_witness :
  thread_stack (ctx_stack_remove 9 17 env_file (ctx_stack_push 9 17 env0 empty_state).2).2 9 [].
Proof.
  apply (ctx_stack_push_remove 9 17 env0 env_file empty_state []);
    [done|done|vm_compute; split; congruence|apply empty_thread_stack|apply not_elem_of_nil|cbn; lia].
Defined.

(** The context a thread is attributed to is alive: [get_active_ctx] answers
    with the recorded context if [TOOL_CTX] still holds it and otherwise forgets the
    record, and the top of the stack is reported only while it is alive. *)
Theorem active_ctx_is_live tid e σ c :
  (get_active_ctx tid e σ).1 = Some c ∨ (ctx_stack_top tid e σ).1 = Some c →
  is_Some (tool_ctx σ !! c).
Proof.
  rewrite <-live_Some. intros [H|H].
  - rewrite get_active_ctx_run in H. cbn in H. unfold active_of in H.
    destruct (thread_active_ctx σ !! tid) as [c'|]; [|done].
    destruct (live σ c') eqn:Hl; [by simplify_eq|done].
  - revert H. unfold ctx_stack_top. mstep. sproj.
    destruct (thread_ctx_depth σ !! tid) as [d|]; [|done]. destruct (d =? 0); [done|]. mstep.
    sproj. destruct (thread_ctx_stack σ !! _) as [c'|]; [|done]. mrun.
    destruct (live σ c') eqn:Hl; [|done]. by intros [= <-].
Qed.

Lemma active_ctx_is_live_witness :
  is_Some (tool_ctx (state_denied MODE_ENFORCE) !! 17).
Proof. apply (active_ctx_is_live 9 env0 _ 17). left. reflexivity. Defined.
