(* ===== verification/ToolStack.v ===== *)
(** * The tool, worker and task stacks, refined to lists

    The stacks of tool-root frames and of running workers of a thread and the
    context stack of an asyncio task, with the list operation that each of their
    operations implements. *)

From stdpp Require Import base gmap list.
From S2P Require Import Prelude Types Maps Ownership Worker Contexts Stacks.

(** ** Tool-root frames of a thread *)

Definition tool_frames (σ : State) (tid : Z) (l : list ToolStackEntry) : Prop :=
  owner_stack tool_key (2 ^ 32) 8 (tool_stack σ) (tool_stack_depth σ) tid l.

Definition tool_changes (σ : State) (tid : Z) (l : list ToolStackEntry) (σ' : State) : Prop :=
  ∃ stk dep t, σ' = set_tick t (set_tool_stack_depth dep (set_tool_stack stk σ))
    ∧ changes tool_key (2 ^ 32) 8 (tool_stack σ) (tool_stack_depth σ) tid stk dep l.

Lemma tool_changes_refl σ tid l : tool_frames σ tid l → tool_changes σ tid l σ.
Proof.
  intros Hl. exists (tool_stack σ), (tool_stack_depth σ), (tick σ).
  split; [by destruct σ|by apply changes_refl].
Qed.

Definition tool_entry (ctx_id frame_ptr parent_ptr tool_id : Z) : ToolStackEntry :=
  {| se_ctx_id := ctx_id; se_frame_ptr := frame_ptr; se_parent_ptr := parent_ptr;
     se_tool_id := tool_id |}.

(** A ninth frame is dropped. *)
Lemma tool_stack_push_spec tid c f p t e σ l :
  reliable e → in_u32 tid → tool_frames σ tid l →
  ∃ σ', tool_stack_push tid c f p t e σ = (tt, σ')
    ∧ tool_changes σ tid (if (length l <? 8)%nat then l ++ [tool_entry c f p t] else l) σ'.
Proof.
  intros He Ht Hts. pose proof Hts as (Hst & Hd & Hb). unfold tool_stack_push. mstep. sproj.
  rewrite Hd, depth_of_unwrap. unfold MAX_CTX_STACK_DEPTH.
  destruct (Z.geb_spec (Z.of_nat (length l)) 8) as [Hge|Hlt].
  { eexists. split; [by mrun|]. destruct (Nat.ltb_spec (length l) 8); [lia|].
    by apply tool_changes_refl. }
  destruct (Nat.ltb_spec (length l) 8); [|lia]. eexists. split.
  { mrun. by apply m_insert_reliable. }
  rewrite u32_small by (unfold in_u32; lia). sproj. eexists _, _, _. split; [reflexivity|].
  apply (changes_push in_u32 tool_key (2 ^ 32) 8); [done|lia|lia|done].
Qed.

(** The entry found is removed and returned. *)
Lemma tool_stack_remove_if_spec (p : ToolStackEntry → bool) tid e σ l :
  reliable e → in_u32 tid → tool_frames σ tid l →
  ∃ σ', tool_stack_remove_if p tid e σ
        = (match find_pos p l with Some n => l !! n | None => None end, σ')
    ∧ tool_changes σ tid (match find_pos p l with Some n => delete n l | None => l end) σ'.
Proof.
  intros He Ht Hts. pose proof Hts as (Hst & Hd & Hb). unfold tool_stack_remove_if. mstep.
  sproj. rewrite Hd. destruct (depth_of l) as [d|] eqn:E; last first.
  { apply depth_of_None in E as ->. eexists. split; [by mrun|]. by apply tool_changes_refl. }
  apply depth_of_Some in E as [-> Hpos].
  destruct (Z.eqb_spec (Z.of_nat (length l)) 0); [lia|].
  destruct (find_pos p l) as [n0|] eqn:Hn; last first.
  { erewrite bind_run; last first.
    { by apply (find_entry_missing (tool_key tid) (2 ^ 32)); [|lia|lia|]. }
    eexists. split; [by mrun|]. by apply tool_changes_refl. }
  destruct (find_entry_found (tool_key tid) (2 ^ 32) TOOL_STACK p e σ l n0)
    as (v & Hv & _ & Hfind); [done|lia|lia|done|].
  erewrite bind_run by exact Hfind. cbv beta iota. pose proof (find_pos_lt _ _ _ Hn) as Hlt.
  destruct (remove_shift_spec (tool_key tid) (2 ^ 32) (fam_inj _ _ _ tid Ht) TOOL_STACK
              e σ l n0 7) as (stk & t & Hrun & Hst' & Hoff); [done|lia|lia|lia|done|].
  mstep. erewrite bind_run by exact Hrun. cbv beta zeta. rewrite Hv. sproj.
  pose proof (changes_pop tool_key (2 ^ 32) 8 (tool_stack σ) (tool_stack_depth σ) tid stk n0 l
                Hb Hlt Hst' Hoff) as Hch. unfold pop_depth in Hch.
  destruct (Z.of_nat (length l) - 1 =? 0); eexists; (split; [by mrun|]); sproj.
  - by exists stk, (delete tid (tool_stack_depth σ)), t.
  - by exists stk, (<[tid := Z.of_nat (length l) - 1]> (tool_stack_depth σ)), (S t).
Qed.

(** An entry of the same frame and context is replaced in place. *)
Lemma tool_stack_refresh_spec tid c f p t e σ l :
  reliable e → in_u32 tid → tool_frames σ tid l →
  ∃ σ', tool_stack_refresh tid c f p t e σ = (tt, σ')
    ∧ tool_changes σ tid
        (match find_pos (λ en, (se_frame_ptr en =? f) && (se_ctx_id en =? c)) l with
         | Some n => <[n := tool_entry c f p t]> l
         | None => if (length l <? 8)%nat then l ++ [tool_entry c f p t] else l
         end) σ'.
Proof.
  intros He Ht Hts. pose proof Hts as (Hst & Hd & Hb). unfold tool_stack_refresh. mstep. sproj.
  rewrite Hd, depth_of_unwrap. set (q := λ en : ToolStackEntry, _ && _). destruct (find_pos q l) as [n|] eqn:Hn;
    last first.
  { erewrite bind_run; last first.
    { by apply (find_entry_missing (tool_key tid) (2 ^ 32)); [|lia|lia|]. }
    by apply tool_stack_push_spec. }
  destruct (find_entry_found (tool_key tid) (2 ^ 32) TOOL_STACK q e σ l n)
    as (v & Hv & _ & Hfind); [done|lia|lia|done|].
  erewrite bind_run by exact Hfind. cbv beta iota. pose proof (find_pos_lt _ _ _ Hn) as Hlt.
  eexists. split; [by apply m_insert_reliable|]. sproj.
  exists (<[tool_key tid (Z.of_nat n) := tool_entry c f p t]> (tool_stack σ)),
    (tool_stack_depth σ), (S (tick σ)). split; [done|]. unfold changes. split_and!.
  - split_and!.
    + apply stack_at_update; [exact (fam_inj in_u32 tool_key (2 ^ 32) tid Ht)|done|lia|done].
    + rewrite Hd. apply depth_of_length. by rewrite length_insert.
    + by rewrite length_insert.
  - intros k Hk. apply (insert_off_other _ (2 ^ 32)); [lia|done].
  - done.
Qed.

(** ** Running workers of a thread *)

Definition worker_runs (σ : State) (tid : Z) (l : list WorkerRunEntry) : Prop :=
  owner_stack thread_key 256 64 (worker_run_stack σ) (worker_run_depth σ) tid l.

Definition worker_changes (σ : State) (tid : Z) (l : list WorkerRunEntry) (σ' : State) : Prop :=
  ∃ stk dep t, σ' = set_tick t (set_worker_run_depth dep (set_worker_run_stack stk σ))
    ∧ changes thread_key 256 64 (worker_run_stack σ) (worker_run_depth σ) tid stk dep l.

Lemma worker_changes_refl σ tid l : worker_runs σ tid l → worker_changes σ tid l σ.
Proof.
  intros Hl. exists (worker_run_stack σ), (worker_run_depth σ), (tick σ).
  split; [by destruct σ|by apply changes_refl].
Qed.

Lemma worker_stack_push_spec tid en e σ l :
  reliable e → in_u32 tid → worker_runs σ tid l →
  ∃ σ', worker_stack_push tid en e σ = (tt, σ')
    ∧ worker_changes σ tid (if (length l <? 64)%nat then l ++ [en] else l) σ'.
Proof.
  intros He Ht Hts. pose proof Hts as (Hst & Hd & Hb). unfold worker_stack_push. mstep. sproj.
  rewrite Hd, depth_of_unwrap.
  destruct (Z.geb_spec (Z.of_nat (length l)) 64) as [Hge|Hlt].
  { eexists. split; [by mrun|]. destruct (Nat.ltb_spec (length l) 64); [lia|].
    by apply worker_changes_refl. }
  destruct (Nat.ltb_spec (length l) 64); [|lia]. eexists. split.
  { mrun. by apply m_insert_reliable. }
  sproj. eexists _, _, _. split; [reflexivity|].
  apply (changes_push in_u32 thread_key 256 64); [done|lia|lia|done].
Qed.

(** The loop of [worker_stack_remove_at], which skips holes instead of stopping. *)
Lemma worker_shift_from tid e σ l fi fuel (i : nat) :
  reliable e → in_u32 tid → (fi < i)%nat → (i ≤ length l)%nat → (length l ≤ i + fuel)%nat →
  (length l ≤ 64)%nat → shifting (thread_key tid) 256 (worker_run_stack σ) l fi i →
  ∃ stk t,
    scan fuel (Z.of_nat i) (Z.of_nat (length l)) (λ next,
      entry ← m_get WORKER_RUN_STACK (thread_key tid next);
      match entry with
      | Some entry => m_insert WORKER_RUN_STACK (thread_key tid (next - 1)) entry
      | None => mret tt
      end;;
      m_remove WORKER_RUN_STACK (thread_key tid next);;
      mret (None : option unit)) e σ
    = (None, set_tick t (set_worker_run_stack stk σ))
    ∧ shifting (thread_key tid) 256 stk l fi (length l)
    ∧ (∀ k, off_stack (thread_key tid) 256 k → stk !! k = worker_run_stack σ !! k).
Proof.
  intros He Ht. revert σ i. induction fuel as [|fuel IH]; intros σ i Hfi Hi Hf HN Hsh; cbn [scan].
  { exists (worker_run_stack σ), (tick σ). replace (length l) with i by lia.
    split_and!; [by destruct σ|done..]. }
  destruct (Z.geb_spec (Z.of_nat i) (Z.of_nat (length l))) as [Hge|Hlt].
  { exists (worker_run_stack σ), (tick σ). replace (length l) with i by lia.
    split_and!; [by destruct σ|done..]. }
  destruct (lookup_lt_is_Some_2 l i) as [v Hv]; [lia|].
  assert (worker_run_stack σ !! thread_key tid (Z.of_nat i) = Some v) as Hget.
  { rewrite Hsh by lia. repeat case_decide; lia || done. }
  erewrite bind_run; last first.
  { mstep. sproj. rewrite Hget. mrun. reflexivity. }
  cbv beta iota. replace (Z.of_nat i + 1) with (Z.of_nat (S i)) by lia.
  match goal with |- context [scan _ _ _ _ e ?s] => set (σ1 := s) end.
  destruct (IH σ1 (S i)) as (stk & t & Hrun & Hend & Hoff); [lia..| |].
  { apply shifting_step; [exact (fam_inj in_u32 thread_key 256 tid Ht)|lia|lia|done|done]. }
  exists stk, t. split_and!; [by rewrite Hrun|done|].
  intros k Hk. rewrite Hoff by done. subst σ1. sproj.
  rewrite lookup_delete_ne by (apply Hk; lia). by rewrite lookup_insert_ne by (apply Hk; lia).
Qed.

Lemma worker_stack_remove_at_spec tid (idx : nat) e σ l :
  reliable e → in_u32 tid → worker_runs σ tid l → (idx < length l)%nat →
  ∃ σ', worker_stack_remove_at tid (Z.of_nat idx) (Z.of_nat (length l)) e σ = (l !! idx, σ')
    ∧ worker_changes σ tid (delete idx l) σ'.
Proof.
  intros He Ht Hts Hidx. pose proof Hts as (Hst & Hd & Hb). unfold worker_stack_remove_at.
  destruct (Z.geb_spec (Z.of_nat idx) (Z.of_nat (length l))); [lia|].
  destruct (Z.eqb_spec (Z.of_nat (length l)) 0); [lia|]. cbn [orb].
  mstep. mstep. sproj. rewrite Z.min_l by lia.
  replace (Z.of_nat idx + 1) with (Z.of_nat (S idx)) by lia.
  match goal with |- context [mbind _ (scan _ _ _ _) _ ?s] => set (σ1 := s) end.
  destruct (worker_shift_from tid e σ1 l idx 63 (S idx)) as (stk & t & Hrun & Hend & Hoff);
    [done|done|lia..| |].
  { apply shifting_start; [exact (fam_inj in_u32 thread_key 256 tid Ht)|lia|done]. }
  erewrite bind_run by exact Hrun. cbv beta zeta. rewrite Hst by lia.
  assert (stack_at stk (thread_key tid) 256 (delete idx l)) as Hst'
    by (apply shifting_end; [done|lia|done]).
  assert (∀ k, off_stack (thread_key tid) 256 k → stk !! k = worker_run_stack σ !! k) as Hoff'.
  { intros k Hk. rewrite Hoff by done. subst σ1. sproj. by rewrite lookup_delete_ne by (apply Hk; lia). }
  pose proof (changes_pop thread_key 256 64 (worker_run_stack σ) (worker_run_depth σ) tid stk idx
                l Hb Hidx Hst' Hoff') as Hch. unfold pop_depth in Hch.
  destruct (Z.of_nat (length l) - 1 =? 0); eexists; (split; [by mrun|]); sproj.
  - by exists stk, (delete tid (worker_run_depth σ)), t.
  - by exists stk, (<[tid := Z.of_nat (length l) - 1]> (worker_run_depth σ)), (S t).
Qed.

(** The top two entries are candidates; at most one is removed. *)
Lemma worker_stack_remove_near_top_spec (p : WorkerRunEntry → bool) tid e σ l :
  reliable e → in_u32 tid → worker_runs σ tid l →
  ∃ r σ' l', worker_stack_remove_near_top p tid e σ = (r, σ') ∧ worker_changes σ tid l' σ'
    ∧ match r with
      | Some en => p en = true ∧ ∃ n, l !! n = Some en ∧ l' = delete n l
                                      ∧ (length l ≤ n + 2)%nat
      | None => l' = l
      end.
Proof.
  intros He Ht Hts. pose proof Hts as (Hst & Hd & Hb). unfold worker_stack_remove_near_top.
  mstep. sproj. rewrite Hd. destruct (depth_of l) as [d|] eqn:E; last first.
  { apply depth_of_None in E as ->. exists None, σ, []. split_and!; [by mrun| |done].
    by apply worker_changes_refl. }
  apply depth_of_Some in E as [-> Hpos].
  destruct (Z.eqb_spec (Z.of_nat (length l)) 0); [lia|]. mstep. sproj.
  rewrite (stack_at_lookup _ _ _ l) by (done || lia).
  destruct (lookup_lt_is_Some_2 l (Z.to_nat (Z.of_nat (length l) - 1))) as [v Hv]; [lia|].
  rewrite Hv. destruct (p v) eqn:Hp.
  { destruct (worker_stack_remove_at_spec tid (length l - 1) e σ l) as (σ' & Hrun & Hch);
      [done..|lia|]. replace (Z.of_nat (length l - 1)) with (Z.of_nat (length l) - 1) in Hrun by lia.
    eexists _, σ', _. split_and!; [exact Hrun|exact Hch|].
    replace (Z.to_nat (Z.of_nat (length l) - 1)) with (length l - 1)%nat in Hv by lia.
    rewrite Hv. split; [done|]. eexists. split_and!; [done|done|lia]. }
  destruct (Z.gtb_spec (Z.of_nat (length l)) 1); last first.
  { exists None, σ, l. split_and!; [by mrun|by apply worker_changes_refl|done]. }
  mstep. sproj. rewrite (stack_at_lookup _ _ _ l) by (done || lia).
  destruct (lookup_lt_is_Some_2 l (Z.to_nat (Z.of_nat (length l) - 2))) as [w Hw]; [lia|].
  rewrite Hw. destruct (p w) eqn:Hp'; last first.
  { exists None, σ, l. split_and!; [by mrun|by apply worker_changes_refl|done]. }
  destruct (worker_stack_remove_at_spec tid (length l - 2) e σ l) as (σ' & Hrun & Hch);
    [done..|lia|]. replace (Z.of_nat (length l - 2)) with (Z.of_nat (length l) - 2) in Hrun by lia.
  eexists _, σ', _. split_and!; [exact Hrun|exact Hch|].
  replace (Z.to_nat (Z.of_nat (length l) - 2)) with (length l - 2)%nat in Hw by lia.
  rewrite Hw. split; [done|]. eexists. split_and!; [done|done|lia].
Qed.
