(* ===== verification/TaskStack.v ===== *)
(** * The context stack of an asyncio task, refined to a list

    [task_stack σ o l]: the maps [TASK_CTX_STACK] and [TASK_CTX_DEPTH] hold [l]
    for the task [o]; a push takes a reference on the context and a removal drops
    it. *)

From stdpp Require Import base gmap list.
From S2P Require Import Prelude Types Maps Ownership Contexts Stacks Samples.

Abbreviation task_owner_stack := (owner_stack task_key (2 ^ 32) 8).
Abbreviation task_change := (changes task_key (2 ^ 32) 8).

Definition task_stack (σ : State) (o : PyObjectKey) (l : list Z) : Prop :=
  task_owner_stack (task_ctx_stack σ) (task_ctx_depth σ) o l.

(** The state with other task maps, contexts, active contexts and events. *)
Definition task_upd (σ : State) stk dep cur act cs evs t : State :=
  set_tick t (set_py_events evs (set_tool_ctx cs (set_thread_active_ctx act
    (set_task_ctx cur (set_task_ctx_depth dep (set_task_ctx_stack stk σ)))))).

Definition inc_ctx (c : ToolCtx) : ToolCtx := set_carrier_count (u32 (tc_carrier_count c + 1)) c.

(** ** Push *)

Lemma task_ctx_push_current tid p c t e σ :
  reliable e → task_ctx σ !! py_object_key e p = Some c →
  task_ctx_push tid p c t e σ
  = (Ok tt, set_tick (S (tick σ)) (set_thread_active_ctx (<[tid := c]> (thread_active_ctx σ)) σ)).
Proof.
  intros He Hc. unfold task_ctx_push. mstep. mstep. sproj. rewrite Hc.
  rewrite bool_decide_eq_true_2 by done. by mrun.
Qed.

Lemma task_ctx_push_full tid p c t e σ l :
  task_ctx σ !! py_object_key e p ≠ Some c → task_stack σ (py_object_key e p) l →
  length l = 8%nat →
  task_ctx_push tid p c t e σ
  = (Err 0, logged e (cur_tgid e) (cur_tid e) EVENT_AUDIT_STACK_OVERFLOW c t 0 8 σ).
Proof.
  intros Hc (Hst & Hd & Hb) Hl. unfold task_ctx_push. mstep. mstep. sproj.
  rewrite bool_decide_eq_false_2 by done. mstep. sproj. rewrite Hd, depth_of_unwrap, Hl.
  change (Z.of_nat 8 >=? MAX_CTX_STACK_DEPTH) with true. cbn iota. by mrun.
Qed.

Lemma task_ctx_push_run tid p c t e σ l :
  reliable e → task_ctx σ !! py_object_key e p ≠ Some c → task_stack σ (py_object_key e p) l →
  (length l < 8)%nat →
  let o := py_object_key e p in
  let σ1 := set_tick (tick σ + 4) (set_tool_ctx (alter inc_ctx c (tool_ctx σ)) σ) in
  task_ctx_push tid p c t e σ
  = (Ok tt, task_upd σ (<[task_key o (Z.of_nat (length l)) := c]> (task_ctx_stack σ))
              (<[o := Z.of_nat (length l) + 1]> (task_ctx_depth σ))
              (<[o := c]> (task_ctx σ)) (<[tid := c]> (thread_active_ctx σ))
              (alter inc_ctx c (tool_ctx σ))
              (py_events σ ++ event_log e σ1 (cur_tgid e) (cur_tid e) EVENT_TASK_BIND c t p 0)
              (event_tick e σ1)).
Proof.
  intros He Hc (Hst & Hd & Hb) Hl o σ1. unfold task_ctx_push. mstep. mstep. sproj.
  rewrite bool_decide_eq_false_2 by done. mstep. sproj. rewrite Hd, depth_of_unwrap.
  unfold MAX_CTX_STACK_DEPTH. destruct (Z.geb_spec (Z.of_nat (length l)) 8); [lia|].
  mrun. sproj. rewrite u32_small by (unfold in_u32; lia).
  unfold logged, event_log, event_tick, task_upd, inc_ctx. subst σ1. sproj.
  replace (tick σ + 4)%nat with (S (S (S (S (tick σ))))) by lia. reflexivity.
Qed.

(** ** Removal *)

Lemma task_ctx_remove_found tid p c e σ l n :
  reliable e → task_stack σ (py_object_key e p) l → find_pos (λ c', c' =? c) l = Some n →
  let o := py_object_key e p in
  let l' := delete n l in
  let tool := unwrap_or (tc_tool_id <$> tool_ctx σ !! c) TOOL_IDLE in
  let σ1 := logged e (cur_tgid e) (cur_tid e) EVENT_TASK_UNBIND c tool p 0 σ in
  ∃ stk t,
    task_ctx_remove tid p c e σ
    = (last l', task_upd σ stk (pop_depth o (Z.of_nat (length l')) (task_ctx_depth σ))
                  (match last l' with
                   | Some c' => <[o := c']> (task_ctx σ)
                   | None => delete o (task_ctx σ)
                   end)
                  (match last l' with
                   | Some c' => <[tid := c']> (thread_active_ctx σ)
                   | None => delete tid (thread_active_ctx σ)
                   end)
                  (tool_ctx (dropped e c σ1)) (py_events (dropped e c σ1)) t)
    ∧ task_change (task_ctx_stack σ) (task_ctx_depth σ) o stk
        (pop_depth o (Z.of_nat (length l')) (task_ctx_depth σ)) l'.
Proof.
  intros He Hts Hn o l' tool σ1. pose proof Hts as (Hst & Hd & Hb).
  pose proof (find_pos_lt _ _ _ Hn) as Hlt.
  assert (length l' = (length l - 1)%nat) as Hl'.
  { apply length_delete. by apply lookup_lt_is_Some_2. }
  unfold task_ctx_remove. mstep. mstep. mstep. sproj. rewrite Hd.
  destruct (depth_of l) as [d|] eqn:E; [|apply depth_of_None in E as ->; done].
  apply depth_of_Some in E as [-> Hpos].
  destruct (Z.eqb_spec (Z.of_nat (length l)) 0); [lia|].
  change (λ i, {| ts_tgid := cur_tgid e; ts_depth := i; ts_task_ptr := p |}) with (task_key o).
  destruct (find_entry_found (task_key o) (2 ^ 32) TASK_CTX_STACK (λ c', c' =? c) e σ l n)
    as (v & Hv & _ & Hfind); [done|lia|lia|done|].
  erewrite bind_run by exact Hfind. cbv beta iota. mstep. mstep. fold tool σ1. mstep. sproj.
  mstep. rewrite dropped_set_task_ctx_stack.
  destruct (dropped_shape e c σ1) as (cs & evs & t0 & E & _). set (σ2 := dropped e c σ1) in *.
  assert (task_ctx_stack σ2 = task_ctx_stack σ) as Hstk by by rewrite E.
  destruct (remove_shift_spec (task_key o) (2 ^ 32) (fam_inj (λ _, True) _ _ o I) TASK_CTX_STACK
              e σ2 l n 7) as (stk & t & Hrun & Hst' & Hoff);
    [done|lia|lia|lia|by cbn; rewrite Hstk|].
  cbn [bm_get bm_set TASK_CTX_STACK] in Hrun, Hoff. rewrite Hstk in Hrun, Hoff.
  erewrite bind_run by exact Hrun. cbv beta zeta. exists stk.
  assert (Z.of_nat (length l) - 1 = Z.of_nat (length l')) as -> by lia.
  assert (task_change (task_ctx_stack σ) (task_ctx_depth σ) o stk
        (pop_depth o (Z.of_nat (length l')) (task_ctx_depth σ)) l') as Hch.
  { replace (Z.of_nat (length l')) with (Z.of_nat (length l) - 1) by lia. by apply changes_pop. }
  fold l' in Hst'. unfold pop_depth in *.
  destruct (Z.eqb_spec (Z.of_nat (length l')) 0) as [H0|H0].
  - assert (l' = []) as El by (apply nil_length_inv; lia). rewrite El in *. cbn [last].
    exists t. split; [|done]. mrun. unfold task_upd. rewrite E. reflexivity.
  - mstep. mstep. sproj.
    match goal with |- context [stk !! ?k] =>
      change k with (task_key o (Z.of_nat (length l') - 1)) end.
    assert (stk !! task_key o (Z.of_nat (length l') - 1) = last l') as ->.
    { rewrite (stack_at_lookup _ _ _ l') by (done || lia). rewrite last_lookup. f_equal. lia. }
    destruct (last l') as [c'|] eqn:Hp; last first.
    { apply last_None in Hp. rewrite Hp in H0. done. }
    eexists. split; [|done]. mrun. unfold task_upd. rewrite E. reflexivity.
Qed.

Lemma task_ctx_remove_missing tid p c e σ l :
  task_stack σ (py_object_key e p) l → find_pos (λ c', c' =? c) l = None →
  task_ctx_remove tid p c e σ
  = (match l with [] => None | _ => task_ctx σ !! py_object_key e p end, σ).
Proof.
  intros (Hst & Hd & Hb) Hn. unfold task_ctx_remove. mstep. mstep. mstep. sproj. rewrite Hd.
  destruct (depth_of l) as [d|] eqn:E; [|apply depth_of_None in E as ->; by mrun].
  apply depth_of_Some in E as [-> Hpos].
  destruct (Z.eqb_spec (Z.of_nat (length l)) 0); [lia|].
  erewrite bind_run; last first.
  { by apply (find_entry_missing (task_key (py_object_key e p)) (2 ^ 32)); [|lia|lia|]. }
  by destruct l.
Qed.

(** ** The theorems *)

Lemma state_ctx_task_stack o : task_stack state_ctx o [].
Proof. split_and!; [intros i _; apply lookup_empty|apply lookup_empty|done]. Qed.

(** Binding a context to a task.  The task's current context is only made
    active again; another one is appended and gains a reference, so that it
    outlives its frame while the task holds it; a ninth is refused and reported. *)
Theorem task_ctx_push_refines tid p c t e σ l :
  reliable e → task_stack σ (py_object_key e p) l →
  let o := py_object_key e p in
  let '(r, σ') := task_ctx_push tid p c t e σ in
  if decide (task_ctx σ !! o = Some c) then
    r = Ok tt ∧ task_stack σ' o l ∧ tool_ctx σ' = tool_ctx σ ∧ thread_active_ctx σ' !! tid = Some c
  else if (length l <? 8)%nat then
    r = Ok tt ∧ task_stack σ' o (l ++ [c]) ∧ task_ctx σ' !! o = Some c
    ∧ tool_ctx σ' = alter inc_ctx c (tool_ctx σ) ∧ thread_active_ctx σ' !! tid = Some c
  else
    r = Err 0 ∧ task_stack σ' o l ∧ tool_ctx σ' = tool_ctx σ
    ∧ py_events σ' = py_events σ ++ event_log e σ (cur_tgid e) (cur_tid e)
                       EVENT_AUDIT_STACK_OVERFLOW c t 0 8.
Proof.
  intros He Hl o. case_decide as Hc.
  { rewrite task_ctx_push_current by done. split_and!; [done|done|done|apply lookup_insert_eq]. }
  destruct (Nat.ltb_spec (length l) 8) as [Hlt|Hge].
  - rewrite (task_ctx_push_run _ _ _ _ _ _ l) by done.
    split_and!; [done| |apply lookup_insert_eq|done|apply lookup_insert_eq].
    apply (owner_stack_push (λ _, True) task_key (2 ^ 32) 8 (task_ctx_stack σ)
             (task_ctx_depth σ)); [done|lia|lia|done].
  - assert (length l = 8%nat) by (destruct Hl as (_ & _ & ?); lia).
    by rewrite (task_ctx_push_full _ _ _ _ _ _ l) by done.
Qed.

Lemma task_ctx_push_refines_witness :
  let σ' := (task_ctx_push 9 640 17 5 env0 state_ctx).2 in
  task_stack σ' (py_object_key env0 640) [17].
Proof.
  pose proof (task_ctx_push_refines 9 640 17 5 env0
    state_ctx [] (sample_reliable _ _ _)
    (state_ctx_task_stack _)) as H.
  exact (proj1 (proj2 H)).
Defined.

(** C35: unbinding a context from a task deletes its first occurrence, drops the
    task's reference on it and makes the remaining top the current context of the
    task and of the thread. *)
Theorem task_ctx_remove_refines tid p c e σ l :
  reliable e → task_stack σ (py_object_key e p) l → c ∈ l →
  let o := py_object_key e p in
  let '(r, σ') := task_ctx_remove tid p c e σ in
  ∃ l1 l2, l = l1 ++ (c :: l2) ∧ c ∉ l1
  ∧ task_stack σ' o (l1 ++ l2) ∧ r = last (l1 ++ l2)
  ∧ task_ctx σ' !! o = r ∧ thread_active_ctx σ' !! tid = r
  ∧ tool_ctx σ' !! c = match tool_ctx σ !! c with
                       | Some x => if tc_carrier_count x >? 1 then Some (dec_ctx x) else None
                       | None => None
                       end.
Proof.
  intros He Hl Hc o. destruct (find_pos_eq c l Hc) as (n & Hn & Hx & Hnin).
  destruct (task_ctx_remove_found tid p c e σ l n) as (stk & t & -> & Hch); [done..|].
  exists (take n l), (drop (S n) l). rewrite <-delete_take_drop. split_and!.
  - symmetry. by apply take_drop_middle.
  - done.
  - apply Hch.
  - done.
  - unfold task_upd. sproj. fold o.
    destruct (last (delete n l)); [apply lookup_insert_eq|apply lookup_delete_eq].
  - unfold task_upd. sproj.
    destruct (last (delete n l)); [apply lookup_insert_eq|apply lookup_delete_eq].
  - unfold task_upd. sproj. by rewrite dropped_tool_ctx.
Qed.

Lemma task_ctx_remove_refines_witness :
  let σ := (task_ctx_push 9 640 17 5 env0 state_ctx).2 in
  tool_ctx (task_ctx_remove 9 640 17 env_file σ).2 !! 17 = Some (set_generation 1 (sample_ctx 5)).
Proof.
  intros σ. assert (task_stack σ (py_object_key env_file 640) [17]) as H.
  { unfold σ. rewrite (task_ctx_push_run _ _ _ _ _ _ []);
      [|done|done|apply state_ctx_task_stack|cbn; lia].
    apply (owner_stack_push (λ _, True) task_key (2 ^ 32) 8 ∅ ∅ _ [] 17);
      [done|lia|cbn; lia|apply state_ctx_task_stack]. }
  pose proof (task_ctx_remove_refines 9 640 17 env_file σ [17] (sample_reliable _ _ _) H
    ltac:(constructor)) as Hr.
  destruct (task_ctx_remove 9 640 17 env_file σ) as [r σ'] eqn:E.
  destruct Hr as (l1 & l2 & _ & _ & _ & _ & _ & _ & Hr). cbn [snd]. rewrite Hr. by vm_compute.
Defined.
