(* ===== verification/Invariant.v ===== *)
(** * The structural invariant of the BPF state

    [Inv T σ]: the stacks of contexts, tool frames and running workers of every
    thread are contiguous, of bounded depth and consistent with their depth
    entries, every thread identifier recorded for a running worker has its width,
    and the task stacks satisfy [T].  The operations that do not touch the task
    stacks preserve [Inv T] for every [T]. *)

From stdpp Require Import base gmap list.
From S2P Require Import Prelude Types Maps Ownership Identity Worker Contexts Stacks.
From S2P Require Import ThreadStack ToolStack TaskStack.

(** Instance search treats the handlers as atoms. *)
#[global] Typeclasses Opaque get_tgid get_tid bpf_ktime_get_ns ring_reserve PYTHON_OFFSETS_get
  ROOT_RULES_get probe_read_user read_user_u64 read_user_u32 read_user_u8 read_reg read_arg
  core_read core_read2 get_object_key get_task_stack_key push_py_event submit_py_event
  emit_py_event emit_py_event_carrier emit_py_event_carrier_for_tid emit_py_event_fork
  emit_py_event_aux ctx_tool_id ctx_flags alloc_ctx_id ctx_is_live get_active_ctx carrier_inc
  carrier_dec ctx_carrier_inc ctx_carrier_dec find_entry shift_down ctx_stack_top
  ctx_stack_contains ctx_stack_push ctx_stack_remove tool_stack_push tool_stack_refresh
  tool_stack_remove_if tool_stack_remove_ctx tool_stack_pop_if_frame_parent
  tool_stack_remove_frame_ctx task_ctx_current task_ctx_depth_for task_ctx_contains_tool
  task_ctx_push task_ctx_remove finish_tool_close finish_deferred_tool_close_at_depth
  finish_deferred_tool_close defer_tool_close cancel_deferred_tool_close
  deferred_tool_ctx_for_worker restore_deferred_tool_close task_clear_entry task_clear_pending
  task_ctx_clear frame_stash_push frame_stash_pop frame_stash_peek read_qualname
  read_qualname_hash qualname_has_tool_impl_suffix classify set_ctx_tool_id mark_resolver_error
  emit_audit_unresolved read_type_ptr push_resolver_event emit_resolver_candidate
  emit_resolver_failed resolve_slot_obj resolve_slot_name extract_and_resolve frame_self
  emit_frame_self_resolver_candidate cached_frame_self_tool_id read_frame_local
  read_self_from_frame read_parent_ptr classify_worker_kind worker_kind_for_frame
  read_frame_from_ctx remember_tstate read_tstate_current_frame worker_stack_push
  worker_stack_peek worker_stack_remove_at worker_stack_remove_near_top
  worker_stack_pop_for_parent worker_stack_remove_for_object handle_threadpool_worker_entry
  ctor_deferred_ctx ctor_bind handle_ctor_entry clear_threadpool_worker_ctx
  clear_threadpool_worker_for_object clear_threadpool_worker_for_thread
  finalize_worker_run_for_object clear_worker_runs_for_thread find_mapped_work_item_in_frame
  mapped_work_item_at walk_frame_chain find_mapped_work_item_in_current_chain
  bind_new_worker_ctx bind_threadpool_worker_context refresh_threadpool_worker_context run_bind
  handle_run_entry dispatch_entry dispatch_exit_for_parent handle_worker_frame_for_ptr
  worker_handle_frame_entry worker_handle_frame_func_entry worker_handle_frame_resume.

(** The maps the invariant is about. *)
Definition view (σ : State) :=
  (thread_ctx_stack σ, thread_ctx_depth σ, tool_stack σ, tool_stack_depth σ,
   worker_run_stack σ, worker_run_depth σ, worker_run_carrier σ,
   task_ctx_stack σ, task_ctx_depth σ).

Definition task_pred : Type := gmap TaskStackKey Z → gmap PyObjectKey Z → Prop.

Record Inv (T : task_pred) (σ : State) : Prop := {
  inv_threads : stacks_wf in_u32 thread_key 256 8 (thread_ctx_stack σ) (thread_ctx_depth σ);
  inv_tools : stacks_wf in_u32 tool_key (2 ^ 32) 8 (tool_stack σ) (tool_stack_depth σ);
  inv_workers : stacks_wf in_u32 thread_key 256 64 (worker_run_stack σ) (worker_run_depth σ);
  inv_carriers : map_Forall (λ _ tid, in_u32 tid) (worker_run_carrier σ);
  inv_tasks : T (task_ctx_stack σ) (task_ctx_depth σ)
}.

Lemma Inv_view T σ σ' : view σ' = view σ → Inv T σ → Inv T σ'.
Proof.
  intros E [H1 H2 H3 H4 H5]. injection E as E1 E2 E3 E4 E5 E6 E7 E8 E9.
  constructor; by rewrite ?E1, ?E2, ?E3, ?E4, ?E5, ?E6, ?E7, ?E8, ?E9.
Qed.

Abbreviation Keeps T m := (Preserves reliable (Inv T) m).

(** ** Operations on other maps *)

Class Unrelated {K V} `{Countable K} (m : bpf_map K V) : Prop :=
  unrelated x σ : view (bm_set m x σ) = view σ.

#[global] Hint Extern 0 (Unrelated _) => (intros ? ?; reflexivity) : typeclass_instances.

#[global] Instance ctor_carrier_map_unrelated kind : Unrelated (ctor_carrier_map kind).
Proof. intros x σ. unfold ctor_carrier_map. by destruct (kind =? _). Qed.
#[global] Instance run_carrier_map_unrelated kind : Unrelated (run_carrier_map kind).
Proof. intros x σ. unfold run_carrier_map. by destruct (kind =? _). Qed.

Section primitives.
Context (T : task_pred) {K V : Type} `{Countable K}.

#[global] Instance keeps_get (m : bpf_map K V) k : Keeps T (m_get m k).
Proof. by intros e σ _ Hσ. Qed.

#[global] Instance keeps_insert (m : bpf_map K V) `{!Unrelated m} k v : Keeps T (m_insert m k v).
Proof.
  intros e σ He Hσ. rewrite m_insert_reliable by done. cbn. eapply Inv_view; [|exact Hσ].
  by rewrite unrelated.
Qed.

#[global] Instance keeps_remove (m : bpf_map K V) `{!Unrelated m} k : Keeps T (m_remove m k).
Proof. intros e σ He Hσ. eapply Inv_view; [|exact Hσ]. apply unrelated. Qed.

#[global] Instance keeps_alter (m : bpf_map K V) `{!Unrelated m} f k : Keeps T (m_alter m f k).
Proof. intros e σ He Hσ. eapply Inv_view; [|exact Hσ]. apply unrelated. Qed.
End primitives.

(** An operation that leaves the view alone. *)
Lemma keeps_view T {A} (m : M A) : (∀ e σ, view (m e σ).2 = view σ) → Keeps T m.
Proof. intros Hv e σ _ Hσ. by eapply Inv_view; [apply Hv|]. Qed.

Section others.
Context (T : task_pred).

#[global] Instance keeps_get_tgid : Keeps T get_tgid.
Proof. by apply keeps_view. Qed.
#[global] Instance keeps_object_key p : Keeps T (get_object_key p).
Proof. by apply keeps_view. Qed.
#[global] Instance keeps_stack_key p d : Keeps T (get_task_stack_key p d).
Proof. by apply keeps_view. Qed.
#[global] Instance keeps_ktime : Keeps T bpf_ktime_get_ns.
Proof. by apply keeps_view. Qed.
#[global] Instance keeps_reserve : Keeps T ring_reserve.
Proof. by apply keeps_view. Qed.
#[global] Instance keeps_offsets i : Keeps T (PYTHON_OFFSETS_get i).
Proof. by apply keeps_view. Qed.
#[global] Instance keeps_rules i : Keeps T (ROOT_RULES_get i).
Proof. by apply keeps_view. Qed.
#[global] Instance keeps_probe_read n a : Keeps T (probe_read_user n a).
Proof. by apply keeps_view. Qed.
#[global] Instance keeps_read64 a : Keeps T (read_user_u64 a).
Proof. by apply keeps_view. Qed.
#[global] Instance keeps_read32 a : Keeps T (read_user_u32 a).
Proof. by apply keeps_view. Qed.
#[global] Instance keeps_read8 a : Keeps T (read_user_u8 a).
Proof. by apply keeps_view. Qed.
#[global] Instance keeps_reg i : Keeps T (read_reg i).
Proof. by apply keeps_view. Qed.
#[global] Instance keeps_arg i : Keeps T (read_arg i).
Proof. by apply keeps_view. Qed.
#[global] Instance keeps_core f p : Keeps T (core_read f p).
Proof. by apply keeps_view. Qed.
#[global] Instance keeps_alloc_id : Keeps T alloc_ctx_id.
Proof. by apply keeps_view. Qed.
#[global] Instance keeps_push_resolver ev : Keeps T (push_resolver_event ev).
Proof. by apply keeps_view. Qed.
#[global] Instance keeps_submit a b c d f g h : Keeps T (submit_py_event a b c d f g h).
Proof. apply keeps_view. intros e σ. by rewrite submit_py_event_run. Qed.
#[global] Instance keeps_get_active tid : Keeps T (get_active_ctx tid).
Proof.
  apply keeps_view. intros e σ. rewrite get_active_ctx_run. cbn. unfold prune_active.
  destruct (thread_active_ctx σ !! tid) as [c|]; [|done]. by destruct (live σ c).
Qed.
#[global] Instance keeps_dec c : Keeps T (carrier_dec c).
Proof.
  apply keeps_view. intros e σ. destruct (dropped_shape e c σ) as (cs & evs & t & E & _).
  unfold dropped in E. by rewrite E.
Qed.

(** Reading the thread identifier gives a 32-bit number, and so does reading
    the thread of a running worker. *)
Lemma keeps_tid {A} (k : Z → M A) :
  (∀ tid, in_u32 tid → Keeps T (k tid)) → Keeps T (get_tid ≫= k).
Proof. intros Hk e σ He Hσ. apply (Hk (cur_tid e)); [apply u32_range|done..]. Qed.

Lemma keeps_carrier_tid {A} key (k : option Z → M A) :
  (∀ r, (∀ tid, r = Some tid → in_u32 tid) → Keeps T (k r)) →
  Keeps T (m_get WORKER_RUN_CARRIER key ≫= k).
Proof.
  intros Hk e σ He Hσ. apply (Hk (worker_run_carrier σ !! key)); [|done..].
  intros tid Ht. by apply (inv_carriers T σ Hσ key).
Qed.

Lemma keeps_carrier_insert key tid :
  in_u32 tid → Keeps T (m_insert WORKER_RUN_CARRIER key tid).
Proof.
  intros Ht e σ He [H1 H2 H3 H4 H5]. rewrite m_insert_reliable by done.
  constructor; [done..| |done]. by apply map_Forall_insert_2.
Qed.

#[global] Instance keeps_carrier_remove key : Keeps T (m_remove WORKER_RUN_CARRIER key).
Proof.
  intros e σ He [H1 H2 H3 H4 H5]. constructor; [done..| |done]. by apply map_Forall_delete.
Qed.
End others.

(** ** Operations on the threads' stacks *)

Section stacks.
Context (T : task_pred).

(** Replacing one family by a well-formed one. *)
Lemma Inv_threads σ stk dep act t l tid :
  in_u32 tid → Inv T σ →
  changes thread_key 256 8 (thread_ctx_stack σ) (thread_ctx_depth σ) tid stk dep l →
  Inv T (set_tick t (set_thread_active_ctx act
           (set_thread_ctx_depth dep (set_thread_ctx_stack stk σ)))).
Proof.
  intros Ht [H1 H2 H3 H4 H5] Hch. constructor; [|done..]. exact (changes_wf in_u32 thread_key 256 8 _ _ tid _ _ _ Ht H1 Hch).
Qed.

Lemma Inv_tools σ tid l σ' : in_u32 tid → Inv T σ → tool_changes σ tid l σ' → Inv T σ'.
Proof.
  intros Ht [H1 H2 H3 H4 H5] (stk & dep & t & -> & Hch). constructor; [done| |done..].
  exact (changes_wf in_u32 tool_key (2 ^ 32) 8 _ _ tid _ _ _ Ht H2 Hch).
Qed.

Lemma Inv_workers σ tid l σ' : in_u32 tid → Inv T σ → worker_changes σ tid l σ' → Inv T σ'.
Proof.
  intros Ht [H1 H2 H3 H4 H5] (stk & dep & t & -> & Hch). constructor; [done|done| |done..].
  exact (changes_wf in_u32 thread_key 256 64 _ _ tid _ _ _ Ht H3 Hch).
Qed.

Lemma keeps_ctx_stack_push tid c : in_u32 tid → Keeps T (ctx_stack_push tid c).
Proof.
  intros Ht e σ He Hσ. destruct (inv_threads T σ Hσ tid Ht) as [l Hl].
  destruct (decide (length l < 8)%nat) as [Hlt|Hge].
  - rewrite (ctx_stack_push_run _ _ _ _ l) by done. unfold pushed.
    apply (Inv_threads _ _ _ _ _ (l ++ [c]) tid); [done..|].
    apply (changes_push in_u32 thread_key 256 8); [done|lia|lia|done].
  - assert (length l = 8%nat) by (destruct Hl as (_ & _ & ?); lia).
    rewrite (ctx_stack_push_full_run _ _ _ _ l) by done. by eapply Inv_view; [|exact Hσ].
Qed.

Lemma keeps_ctx_stack_remove tid c : in_u32 tid → Keeps T (ctx_stack_remove tid c).
Proof.
  intros Ht e σ He Hσ. destruct (inv_threads T σ Hσ tid Ht) as [l Hl].
  destruct (find_pos (λ c', c' =? c) l) as [n|] eqn:Hn; last first.
  { by rewrite (ctx_stack_remove_missing _ _ _ _ l). }
  destruct (ctx_stack_remove_found tid c e σ l n) as (stk & t & -> & Hst & Hoff); [done..|].
  pose proof (find_pos_lt _ _ _ Hn). destruct Hl as (_ & _ & Hb).
  apply (Inv_threads _ _ _ _ _ (delete n l) tid); [done..|].
  replace (Z.of_nat (length (delete n l))) with (Z.of_nat (length l) - 1).
  - by apply changes_pop.
  - rewrite length_delete by by apply lookup_lt_is_Some_2. lia.
Qed.

Lemma keeps_ctx_stack_top tid : Keeps T (ctx_stack_top tid).
Proof.
  apply keeps_view. intros e σ. unfold ctx_stack_top. mstep. sproj.
  destruct (thread_ctx_depth σ !! tid) as [d|]; [|done]. destruct (d =? 0); [done|].
  mstep. sproj. destruct (thread_ctx_stack σ !! _); by mrun.
Qed.

Lemma keeps_ctx_stack_contains tid c : Keeps T (ctx_stack_contains tid c).
Proof. unfold ctx_stack_contains, ctx_is_live. preserve. Qed.

Lemma keeps_tool_stack_push tid c f p t : in_u32 tid → Keeps T (tool_stack_push tid c f p t).
Proof.
  intros Ht e σ He Hσ. destruct (inv_tools T σ Hσ tid Ht) as [l Hl].
  destruct (tool_stack_push_spec tid c f p t e σ l) as (σ' & -> & Hch); [done..|].
  by eapply Inv_tools.
Qed.

Lemma keeps_tool_stack_refresh tid c f p t :
  in_u32 tid → Keeps T (tool_stack_refresh tid c f p t).
Proof.
  intros Ht e σ He Hσ. destruct (inv_tools T σ Hσ tid Ht) as [l Hl].
  destruct (tool_stack_refresh_spec tid c f p t e σ l) as (σ' & -> & Hch); [done..|].
  by eapply Inv_tools.
Qed.

Lemma keeps_tool_stack_remove_if p tid : in_u32 tid → Keeps T (tool_stack_remove_if p tid).
Proof.
  intros Ht e σ He Hσ. destruct (inv_tools T σ Hσ tid Ht) as [l Hl].
  destruct (tool_stack_remove_if_spec p tid e σ l) as (σ' & -> & Hch); [done..|].
  by eapply Inv_tools.
Qed.

Lemma keeps_worker_stack_push tid en : in_u32 tid → Keeps T (worker_stack_push tid en).
Proof.
  intros Ht e σ He Hσ. destruct (inv_workers T σ Hσ tid Ht) as [l Hl].
  destruct (worker_stack_push_spec tid en e σ l) as (σ' & -> & Hch); [done..|].
  by eapply Inv_workers.
Qed.

Lemma keeps_worker_stack_remove_near_top p tid :
  in_u32 tid → Keeps T (worker_stack_remove_near_top p tid).
Proof.
  intros Ht e σ He Hσ. destruct (inv_workers T σ Hσ tid Ht) as [l Hl].
  destruct (worker_stack_remove_near_top_spec p tid e σ l)
    as (r & σ' & l' & -> & Hch & _); [done..|]. by eapply Inv_workers.
Qed.
End stacks.

#[export] Hint Resolve keeps_carrier_insert keeps_ctx_stack_push keeps_ctx_stack_remove
  keeps_ctx_stack_top keeps_ctx_stack_contains keeps_tool_stack_push keeps_tool_stack_refresh
  keeps_tool_stack_remove_if keeps_worker_stack_push keeps_worker_stack_remove_near_top
  : preserve_db.

(** [keep] is [preserve] with the two reads whose results are 32-bit numbers. *)
Ltac keep_step :=
  lazymatch goal with
  | |- Preserves _ _ (get_tid ≫= _) => apply keeps_tid
  | |- Preserves _ _ (m_get WORKER_RUN_CARRIER _ ≫= _) => apply keeps_carrier_tid
  | |- Preserves _ _ (match ?x with Some _ => _ | None => _ end) => destruct x eqn:?
  | |- Preserves _ _ (if ?b then _ else _) => destruct b
  | |- Preserves _ _ (match ?x with _ => _ end) => destruct x
  | |- Preserves _ _ (_ ≫= _) => apply preserves_bind
  | |- Preserves _ _ (try_bind _ _) => apply preserves_try
  | |- Preserves _ _ (when _ _) => apply preserves_when
  | |- Preserves _ _ (scan _ _ _ _) => apply preserves_scan
  | |- Preserves _ _ (mret _) => apply preserves_ret
  | |- ∀ _, _ => intros ?
  | |- Preserves _ _ _ => solve [apply _ | eauto 4 with preserve_db nocore]
  end;
  try match goal with
      | H : ∀ tid, Some ?t = Some tid → in_u32 tid |- _ => specialize (H t eq_refl)
      end.
Ltac keep := repeat (cbv beta zeta; keep_step).

(** ** Contexts and frames ([ownership.rs]) *)

Section ownership.
Context (T : task_pred).

#[global] Instance keeps_live c : Keeps T (ctx_is_live c).
Proof. unfold ctx_is_live. keep. Qed.
#[global] Instance keeps_tool_id c : Keeps T (ctx_tool_id c).
Proof. unfold ctx_tool_id. keep. Qed.
#[global] Instance keeps_flags c : Keeps T (ctx_flags c).
Proof. unfold ctx_flags. keep. Qed.
#[global] Instance keeps_emit a b c : Keeps T (emit_py_event a b c).
Proof. apply keeps_view. intros e σ. by rewrite emit_py_event_run. Qed.
#[global] Instance keeps_emit_carrier a b c d : Keeps T (emit_py_event_carrier a b c d).
Proof. apply keeps_view. intros e σ. by rewrite emit_py_event_carrier_run. Qed.
#[global] Instance keeps_emit_carrier_tid a b c d f :
  Keeps T (emit_py_event_carrier_for_tid a b c d f).
Proof. apply keeps_view. intros e σ. by rewrite emit_py_event_carrier_for_tid_run. Qed.
#[global] Instance keeps_emit_fork a b c d : Keeps T (emit_py_event_fork a b c d).
Proof. apply keeps_view. intros e σ. by rewrite emit_py_event_fork_run. Qed.
#[global] Instance keeps_emit_aux a b c d : Keeps T (emit_py_event_aux a b c d).
Proof. apply keeps_view. intros e σ. by rewrite emit_py_event_aux_run. Qed.
#[global] Instance keeps_inc c : Keeps T (carrier_inc c).
Proof. unfold carrier_inc. keep. Qed.
#[global] Instance keeps_ctx_inc c : Keeps T (ctx_carrier_inc c).
Proof. unfold ctx_carrier_inc. keep. Qed.
#[global] Instance keeps_ctx_dec c : Keeps T (ctx_carrier_dec c).
Proof. unfold ctx_carrier_dec. keep. Qed.
#[global] Instance keeps_stash_push tid f : Keeps T (frame_stash_push tid f).
Proof. unfold frame_stash_push. keep. Qed.
#[global] Instance keeps_stash_pop tid : Keeps T (frame_stash_pop tid).
Proof. unfold frame_stash_pop. keep. Qed.
#[global] Instance keeps_stash_peek tid : Keeps T (frame_stash_peek tid).
Proof. unfold frame_stash_peek. keep. Qed.
#[global] Instance keeps_task_current p : Keeps T (task_ctx_current p).
Proof. unfold task_ctx_current. keep. Qed.
#[global] Instance keeps_task_depth p : Keeps T (task_ctx_depth_for p).
Proof. unfold task_ctx_depth_for. keep. Qed.
#[global] Instance keeps_task_contains p t : Keeps T (task_ctx_contains_tool p t).
Proof. unfold task_ctx_contains_tool. keep. Qed.
#[global] Instance keeps_defer p en : Keeps T (defer_tool_close p en).
Proof. unfold defer_tool_close. keep. Qed.
#[global] Instance keeps_cancel p c f : Keeps T (cancel_deferred_tool_close p c f).
Proof. unfold cancel_deferred_tool_close. keep. Qed.
#[global] Instance keeps_deferred_worker p : Keeps T (deferred_tool_ctx_for_worker p).
Proof. unfold deferred_tool_ctx_for_worker. keep. Qed.

Lemma keeps_tool_remove_ctx tid c : in_u32 tid → Keeps T (tool_stack_remove_ctx tid c).
Proof. unfold tool_stack_remove_ctx. keep. Qed.
Lemma keeps_tool_pop tid f p : in_u32 tid → Keeps T (tool_stack_pop_if_frame_parent tid f p).
Proof. unfold tool_stack_pop_if_frame_parent. keep. Qed.
Lemma keeps_tool_remove_frame tid f c :
  in_u32 tid → Keeps T (tool_stack_remove_frame_ctx tid f c).
Proof. unfold tool_stack_remove_frame_ctx. keep. Qed.
Lemma keeps_finish tid en : in_u32 tid → Keeps T (finish_tool_close tid en).
Proof. unfold finish_tool_close. keep. Qed.
Hint Resolve keeps_finish : preserve_db.
Lemma keeps_finish_at tid p d c :
  in_u32 tid → Keeps T (finish_deferred_tool_close_at_depth tid p d c).
Proof. unfold finish_deferred_tool_close_at_depth. keep. Qed.
Hint Resolve keeps_finish_at : preserve_db.
Lemma keeps_finish_deferred tid p c :
  in_u32 tid → Keeps T (finish_deferred_tool_close tid p c).
Proof. unfold finish_deferred_tool_close. keep. Qed.
End ownership.

#[export] Hint Resolve keeps_tool_remove_ctx keeps_tool_pop keeps_tool_remove_frame keeps_finish
  keeps_finish_at keeps_finish_deferred : preserve_db.

(** ** Task stacks *)

Definition task_wf : task_pred := stacks_wf (λ _, True) task_key (2 ^ 32) 8.

Lemma Inv_tasks (T T' : task_pred) σ stk dep cur act cs evs t :
  Inv T σ → T' stk dep → Inv T' (task_upd σ stk dep cur act cs evs t).
Proof. intros [H1 H2 H3 H4 _] Hch. by constructor. Qed.

Lemma task_change_wf stk dep o stk' dep' l :
  task_wf stk dep → task_change stk dep o stk' dep' l → task_wf stk' dep'.
Proof. intros Hwf Hch. exact (changes_wf (λ _, True) task_key (2 ^ 32) 8 _ _ o _ _ _ I Hwf Hch). Qed.

#[global] Instance keeps_task_push tid p c t : Keeps task_wf (task_ctx_push tid p c t).
Proof.
  intros e σ He Hσ. set (o := py_object_key e p).
  destruct (inv_tasks _ σ Hσ o I) as [l Hl].
  destruct (decide (task_ctx σ !! o = Some c)) as [Hc|Hc].
  { rewrite task_ctx_push_current by done. by eapply Inv_view; [|exact Hσ]. }
  destruct (decide (length l < 8)%nat) as [Hlt|Hge]; last first.
  { assert (length l = 8%nat) by (destruct Hl as (_ & _ & ?); lia).
    rewrite (task_ctx_push_full _ _ _ _ _ _ l) by done. by eapply Inv_view; [|exact Hσ]. }
  rewrite (task_ctx_push_run _ _ _ _ _ _ l) by done. eapply Inv_tasks; [exact Hσ|].
  eapply task_change_wf; [apply (inv_tasks _ _ Hσ)|].
  apply (changes_push (λ _, True) task_key (2 ^ 32) 8); [done|lia|lia|done].
Qed.

#[global] Instance keeps_task_remove tid p c : Keeps task_wf (task_ctx_remove tid p c).
Proof.
  intros e σ He Hσ. destruct (inv_tasks _ σ Hσ (py_object_key e p) I) as [l Hl].
  destruct (find_pos (λ c', c' =? c) l) as [n|] eqn:Hn; last first.
  { by rewrite (task_ctx_remove_missing _ _ _ _ _ l). }
  destruct (task_ctx_remove_found tid p c e σ l n) as (stk & t & -> & Hch); [done..|].
  eapply Inv_tasks; [exact Hσ|]. eapply task_change_wf; [apply (inv_tasks _ _ Hσ)|exact Hch].
Qed.

(** While a task is being cleared its [j] lowest entries are left. *)
Definition task_clearing (o : PyObjectKey) (l : list Z) (j : nat) : task_pred := λ stk dep,
  (∀ o', o' ≠ o → ∃ l', task_owner_stack stk dep o' l')
  ∧ stack_at stk (task_key o) (2 ^ 32) (take j l).

Lemma task_clearing_step o l j stk dep :
  (j < length l)%nat → (length l ≤ 8)%nat → task_clearing o l (S j) stk dep →
  task_clearing o l j (delete (task_key o (Z.of_nat j)) stk) dep.
Proof.
  intros Hj H8 [Ho Hst]. split.
  - intros o' Hne. destruct (Ho o' Hne) as [l' Hl']. exists l'.
    apply (owner_stack_other (λ _, True) task_key (2 ^ 32) 8 stk dep _ _ o); [done..| |done|done].
    intros k Hk. rewrite lookup_delete_ne; [done|]. apply Hk. lia.
  - destruct (lookup_lt_is_Some_2 l j Hj) as [v Hv]. rewrite (take_S_r _ _ _ Hv) in Hst.
    replace j with (length (take j l)) at 1 by (rewrite length_take; lia).
    apply (stack_at_pop _ _ (fam_inj (λ _, True) task_key (2 ^ 32) o I) _ _ v); [|done].
    rewrite length_take. lia.
Qed.

Lemma task_clear_entry_step tid p e σ l j :
  reliable e → in_u32 tid → (j < length l)%nat → (length l ≤ 8)%nat →
  Inv (task_clearing (py_object_key e p) l (S j)) σ →
  (task_clear_entry tid p (Z.of_nat j) e σ).1 = None
  ∧ Inv (task_clearing (py_object_key e p) l j) (task_clear_entry tid p (Z.of_nat j) e σ).2.
Proof.
  intros He Ht Hj H8 Hσ. split; [reflexivity|]. unfold task_clear_entry. mstep. mstep.
  erewrite bind_run by apply surjective_pairing.
  match goal with |- context [(?m e σ).2] => assert (Keeps (task_clearing (py_object_key e p) l (S j)) m) as Hm end.
  { keep. }
  specialize (Hm e σ He Hσ). set (σ1 := _.2) in *. clearbody σ1.
  mrun. destruct Hm as [H1 H2 H3 H4 H5]. constructor; [done..|]. by apply task_clearing_step.
Qed.

#[global] Instance keeps_clear_pending T tid p : in_u32 tid → Keeps T (task_clear_pending tid p).
Proof. intros Ht. unfold task_clear_pending. keep. Qed.

Lemma keeps_task_clear tid p : in_u32 tid → Keeps task_wf (task_ctx_clear tid p).
Proof.
  intros Ht e σ He Hσ. set (o := py_object_key e p).
  destruct (inv_tasks _ σ Hσ o I) as [l Hl]. pose proof Hl as (Hst & Hd & Hb).
  unfold task_ctx_clear. mstep. mstep. sproj. fold o. rewrite Hd, depth_of_unwrap.
  erewrite bind_run by apply surjective_pairing.
  destruct (scan_inv (λ i σ, Inv (task_clearing o l (length l - i)) σ)
    (λ i, task_clear_entry tid p (Z.of_nat (length l) - 1 - i)) e σ 8 (Z.of_nat (length l)))
    as [_ Hloop]; [lia| | |].
  - intros i σ' Hi Hσ'.
    replace (Z.of_nat (length l) - 1 - Z.of_nat i) with (Z.of_nat (length l - S i)) by lia.
    apply (task_clear_entry_step tid p e σ' l (length l - S i)); [done|done|lia|lia|].
    by replace (S (length l - S i)) with (length l - i)%nat by lia.
  - replace (length l - 0)%nat with (length l) by lia. destruct Hσ as [H1 H2 H3 H4 H5].
    constructor; [done..|]. split; [|by rewrite firstn_all]. intros o' _. by apply H5.
  - set (σ1 := _.2) in *. clearbody σ1. rewrite Nat2Z.id, Nat.sub_diag in Hloop.
    erewrite bind_run by apply surjective_pairing.
    pose proof (keeps_clear_pending _ tid p Ht e σ1 He Hloop) as Hσ2.
    set (σ2 := _.2) in *. clearbody σ2. mrun. unfold m_remove. sproj.
    destruct Hσ2 as [H1 H2 H3 H4 [Ho Hemp]]. constructor; [done..|]. cbn. intros o' _.
    destruct (decide (o' = o)) as [->|Hne].
    + exists []. split_and!; [done|by rewrite lookup_delete_eq|done].
    + destruct (Ho o' Hne) as [l' (Hl1 & Hl2 & Hl3)]. exists l'.
      split_and!; [done|by rewrite lookup_delete_ne|done].
Qed.
#[export] Hint Resolve keeps_task_clear : preserve_db.

Lemma keeps_restore tid p : in_u32 tid → Keeps task_wf (restore_deferred_tool_close tid p).
Proof. unfold restore_deferred_tool_close. keep. Qed.
#[export] Hint Resolve keeps_restore : preserve_db.
