(* ===== verification/System.v ===== *)
(** * The structural invariant in every reachable state

    Every handler, and so every attached program, preserves [Inv]; it holds in
    every state that the programs reach from the empty maps. *)

From stdpp Require Import base gmap list.
From S2P Require Import Prelude Types Maps Ownership Identity Worker Frames Tasks Events Lsm.
From S2P Require Import Probes Contexts Stacks ThreadStack ToolStack TaskStack Invariant.
From S2P Require Import Samples.

(** Instance search treats the handlers as atoms. *)
#[global] Typeclasses Opaque frame_parent_ptr offset_or_err find_root_rule with_active_task
  task_push_ignore publish_ctx start_cached_self_tool_root start_cached_parent_tool_if_needed
  close_tool_stack_entry close_frame_ctx reenter_frame ignored_frame_entry pending_frame_start
  start_pending_ctx frame_reentry discard_ctx other_async_tool_active task_runs_tool
  same_tool_active duplicate_tool tool_root_lc tool_root_lg tool_id_rule root_frame_entry
  new_generator_frame known_kind_frame_entry handle_tool_frame_entry_for_ptr_inner
  handle_frame_entry handle_frame_resume handle_frame_func_entry read_register
  handle_frame_exit_legacy handle_frame_exit handle_frame_exit_normal
  handle_frame_exit_exception select_task_step_ptr handle_task_init task_step_activate
  handle_task_step_entry task_step_restore handle_task_step_return dealloc_frame_key
  dealloc_frame_ctx dealloc_carriers handle_pyobj_dealloc reap_ctx_stack reap_fork_ctx
  reap_frame_stash reap_thread fork_inherited_ctx fork_bind_child handle_sched_fork
  handle_sched_exit handle_sched_exec alloc_init alloc_zero push_guard_event submit_event
  try_emit_path_event emit_fs_event emit_exec_event try_emit_net_event emit_net_event
  enforce_permission resolve_ctx mark_ctx_seen identity_policy_decision
  decide_known_tool_permission hook_decision is_protected_subject
  audit_unprotected_python_thread get_file_identity hook_identity try_file_open exec_permission
  try_bprm_check net_permission connect_endpoint try_socket_connect ok_or_allow
  handle_file_open handle_bprm_check handle_socket_connect fentry_identity try_fentry_file_open
  try_fentry_bprm_check try_fentry_socket_connect handle_fentry_file_open
  handle_fentry_bprm_check handle_fentry_socket_connect.

(** ** Code classification and identity *)

Section identity.
Context (T : task_pred).

#[global] Instance keeps_read_qualname c : Keeps T (read_qualname c).
Proof. unfold read_qualname. keep. Qed.
#[global] Instance keeps_qualname_hash c : Keeps T (read_qualname_hash c).
Proof. unfold read_qualname_hash. keep. Qed.
#[global] Instance keeps_suffix c : Keeps T (qualname_has_tool_impl_suffix c).
Proof. unfold qualname_has_tool_impl_suffix. keep. Qed.
#[global] Instance keeps_classify g c : Keeps T (classify g c).
Proof. unfold classify. keep. Qed.
#[global] Instance keeps_type_ptr p : Keeps T (read_type_ptr p).
Proof. unfold read_type_ptr. keep. Qed.
#[global] Instance keeps_mark_error c k : Keeps T (mark_resolver_error c k).
Proof. unfold mark_resolver_error. keep. Qed.
#[global] Instance keeps_unresolved c k : Keeps T (emit_audit_unresolved c k).
Proof. unfold emit_audit_unresolved. keep. Qed.
#[global] Instance keeps_candidate a b c d f : Keeps T (emit_resolver_candidate a b c d f).
Proof. unfold emit_resolver_candidate. keep. Qed.
#[global] Instance keeps_failed a b c d f g : Keeps T (emit_resolver_failed a b c d f g).
Proof. unfold emit_resolver_failed. keep. Qed.
#[global] Instance keeps_slot_obj a b c d f : Keeps T (resolve_slot_obj a b c d f).
Proof. unfold resolve_slot_obj, set_ctx_tool_id. keep. Qed.
#[global] Instance keeps_slot_name a b c : Keeps T (resolve_slot_name a b c).
Proof. unfold resolve_slot_name, set_ctx_tool_id. keep. Qed.
#[global] Instance keeps_extract a b c d : Keeps T (extract_and_resolve a b c d).
Proof. unfold extract_and_resolve. keep. Qed.
#[global] Instance keeps_frame_self f : Keeps T (frame_self f).
Proof. unfold frame_self. keep. Qed.
#[global] Instance keeps_self_candidate a b c :
  Keeps T (emit_frame_self_resolver_candidate a b c).
Proof. unfold emit_frame_self_resolver_candidate. keep. Qed.
#[global] Instance keeps_cached f : Keeps T (cached_frame_self_tool_id f).
Proof. unfold cached_frame_self_tool_id. keep. Qed.
End identity.

(** ** Workers *)

Section worker.
Context (T : task_pred).

#[global] Instance keeps_frame_local f i : Keeps T (read_frame_local f i).
Proof. unfold read_frame_local. keep. Qed.
#[global] Instance keeps_self f : Keeps T (read_self_from_frame f).
Proof. unfold read_self_from_frame. keep. Qed.
#[global] Instance keeps_parent f : Keeps T (read_parent_ptr f).
Proof. unfold read_parent_ptr. keep. Qed.
#[global] Instance keeps_classify_worker c : Keeps T (classify_worker_kind c).
Proof. unfold classify_worker_kind. keep. Qed.
#[global] Instance keeps_worker_kind p f : Keeps T (worker_kind_for_frame p f).
Proof. unfold worker_kind_for_frame. keep. Qed.
#[global] Instance keeps_frame_from_ctx : Keeps T read_frame_from_ctx.
Proof. unfold read_frame_from_ctx. keep. Qed.
#[global] Instance keeps_remember tid o : Keeps T (remember_tstate tid o).
Proof. unfold remember_tstate. keep. Qed.
#[global] Instance keeps_tstate_frame tid : Keeps T (read_tstate_current_frame tid).
Proof. unfold read_tstate_current_frame. keep. Qed.
#[global] Instance keeps_peek tid : Keeps T (worker_stack_peek tid).
Proof. unfold worker_stack_peek. keep. Qed.
#[global] Instance keeps_ctor_deferred tid k : Keeps T (ctor_deferred_ctx tid k).
Proof. unfold ctor_deferred_ctx. keep. Qed.
Lemma keeps_ctor_bind tid k c p s key : in_u32 tid → Keeps T (ctor_bind tid k c p s key).
Proof. unfold ctor_bind. keep. Qed.
Hint Resolve keeps_ctor_bind : preserve_db.
Lemma keeps_ctor tid f k : in_u32 tid → Keeps T (handle_ctor_entry tid f k).
Proof. unfold handle_ctor_entry. keep. Qed.
#[global] Instance keeps_clear_worker_ctx tid en : Keeps T (clear_threadpool_worker_ctx tid en).
Proof. unfold clear_threadpool_worker_ctx. keep. Qed.
#[global] Instance keeps_clear_worker_obj tid p :
  Keeps T (clear_threadpool_worker_for_object tid p).
Proof. unfold clear_threadpool_worker_for_object. keep. Qed.
#[global] Instance keeps_clear_worker_thread tid :
  Keeps T (clear_threadpool_worker_for_thread tid).
Proof. unfold clear_threadpool_worker_for_thread. keep. Qed.
Lemma keeps_remove_for_object tid o :
  in_u32 tid → Keeps T (worker_stack_remove_for_object tid o).
Proof. unfold worker_stack_remove_for_object. keep. Qed.
Lemma keeps_pop_for_parent tid p : in_u32 tid → Keeps T (worker_stack_pop_for_parent tid p).
Proof. unfold worker_stack_pop_for_parent. keep. Qed.
Hint Resolve keeps_remove_for_object keeps_pop_for_parent : preserve_db.
#[global] Instance keeps_finalize p c t : Keeps T (finalize_worker_run_for_object p c t).
Proof. unfold finalize_worker_run_for_object. keep. Qed.
#[global] Instance keeps_find_in_frame f : Keeps T (find_mapped_work_item_in_frame f).
Proof. unfold find_mapped_work_item_in_frame. keep. Qed.
#[global] Instance keeps_mapped_at k f : Keeps T (mapped_work_item_at k f).
Proof. unfold mapped_work_item_at. keep. Qed.
#[global] Instance keeps_walk fuel p f : Keeps T (walk_frame_chain fuel p f).
Proof. revert f. induction fuel; intros f; cbn [walk_frame_chain]; keep. Qed.
#[global] Instance keeps_find_chain tid : Keeps T (find_mapped_work_item_in_current_chain tid).
Proof. unfold find_mapped_work_item_in_current_chain. keep. Qed.
#[global] Instance keeps_bind_new tid w f : Keeps T (bind_new_worker_ctx tid w f).
Proof. unfold bind_new_worker_ctx. keep. Qed.
#[global] Instance keeps_bind_worker tid w f : Keeps T (bind_threadpool_worker_context tid w f).
Proof. unfold bind_threadpool_worker_context. keep. Qed.
#[global] Instance keeps_refresh tid : Keeps T (refresh_threadpool_worker_context tid).
Proof. unfold refresh_threadpool_worker_context. keep. Qed.
Lemma keeps_run_bind tid f k s c p key : in_u32 tid → Keeps T (run_bind tid f k s c p key).
Proof. unfold run_bind. keep. Qed.
Hint Resolve keeps_run_bind : preserve_db.
Lemma keeps_run tid f k : in_u32 tid → Keeps T (handle_run_entry tid f k).
Proof. unfold handle_run_entry. keep. Qed.
Hint Resolve keeps_ctor keeps_run : preserve_db.
Lemma keeps_dispatch k tid f : in_u32 tid → Keeps T (dispatch_entry k tid f).
Proof. unfold dispatch_entry, handle_threadpool_worker_entry. keep. Qed.
Lemma keeps_dispatch_exit tid p : in_u32 tid → Keeps T (dispatch_exit_for_parent tid p).
Proof. unfold dispatch_exit_for_parent. keep. Qed.
Hint Resolve keeps_dispatch : preserve_db.
#[global] Instance keeps_worker_frame f : Keeps T (handle_worker_frame_for_ptr f).
Proof. unfold handle_worker_frame_for_ptr. keep. Qed.
#[global] Instance keeps_worker_entry : Keeps T worker_handle_frame_entry.
Proof. unfold worker_handle_frame_entry. keep. Qed.
#[global] Instance keeps_worker_func_entry : Keeps T worker_handle_frame_func_entry.
Proof. unfold worker_handle_frame_func_entry. keep. Qed.
#[global] Instance keeps_worker_resume : Keeps T worker_handle_frame_resume.
Proof. unfold worker_handle_frame_resume. keep. Qed.
End worker.
#[export] Hint Resolve keeps_dispatch_exit : preserve_db.

(** ** Frames: these push and pop task stacks *)

Abbreviation KeepsWf m := (Preserves reliable (Inv task_wf) m).

#[global] Instance keeps_frame_parent T f : Keeps T (frame_parent_ptr f).
Proof. unfold frame_parent_ptr. keep. Qed.
#[global] Instance keeps_offset T i : Keeps T (offset_or_err i).
Proof. unfold offset_or_err. keep. Qed.
#[global] Instance keeps_find_rule T k : Keeps T (find_root_rule k).
Proof. unfold find_root_rule. keep. Qed.
#[global] Instance keeps_task_push_ignore tid c t p : KeepsWf (task_push_ignore tid c t p).
Proof. unfold task_push_ignore. keep. Qed.
Lemma keeps_with_task tid k : (∀ p, KeepsWf (k p)) → KeepsWf (with_active_task tid k).
Proof. intros Hk. unfold with_active_task. keep. Qed.
#[export] Hint Resolve keeps_with_task : preserve_db.
Lemma keeps_publish tid f c x : in_u32 tid → KeepsWf (publish_ctx tid f c x).
Proof. unfold publish_ctx. keep. Qed.
#[export] Hint Resolve keeps_publish : preserve_db.
Lemma keeps_start_cached tid f p t fl :
  in_u32 tid → KeepsWf (start_cached_self_tool_root tid f p t fl).
Proof. intros Ht. unfold start_cached_self_tool_root. keep. apply keeps_with_task. keep. Qed.
#[export] Hint Resolve keeps_start_cached : preserve_db.
Lemma keeps_start_parent tid p : in_u32 tid → KeepsWf (start_cached_parent_tool_if_needed tid p).
Proof. unfold start_cached_parent_tool_if_needed. keep. Qed.
Lemma keeps_close tid en : in_u32 tid → KeepsWf (close_tool_stack_entry tid en).
Proof. unfold close_tool_stack_entry. keep. Qed.
Lemma keeps_close_frame tid f c t : in_u32 tid → KeepsWf (close_frame_ctx tid f c t).
Proof. unfold close_frame_ctx. keep. Qed.
Lemma keeps_reenter tid f p c t : in_u32 tid → KeepsWf (reenter_frame tid f p c t).
Proof. intros Ht. unfold reenter_frame. keep. apply keeps_with_task. keep. Qed.
#[export] Hint Resolve keeps_start_parent keeps_close keeps_close_frame keeps_reenter
  : preserve_db.
Lemma keeps_ignored tid f c fl k : in_u32 tid → KeepsWf (ignored_frame_entry tid f c fl k).
Proof. unfold ignored_frame_entry. keep. Qed.
Lemma keeps_pending_start tid f p : in_u32 tid → KeepsWf (pending_frame_start tid f p).
Proof. unfold pending_frame_start. keep. Qed.
Lemma keeps_start_pending tid f p c t : in_u32 tid → KeepsWf (start_pending_ctx tid f p c t).
Proof. intros Ht. unfold start_pending_ctx. keep. apply keeps_with_task. keep. Qed.
#[export] Hint Resolve keeps_ignored keeps_pending_start keeps_start_pending : preserve_db.
Lemma keeps_reentry tid f p : in_u32 tid → KeepsWf (frame_reentry tid f p).
Proof. unfold frame_reentry. keep. Qed.
Lemma keeps_discard tid f c : in_u32 tid → KeepsWf (discard_ctx tid f c).
Proof. unfold discard_ctx. keep. Qed.
#[global] Instance keeps_other_async tid f c t fl :
  KeepsWf (other_async_tool_active tid f c t fl).
Proof. unfold other_async_tool_active. keep. Qed.
#[global] Instance keeps_task_runs tid t : KeepsWf (task_runs_tool tid t).
Proof. unfold task_runs_tool. keep. Qed.
#[global] Instance keeps_same_tool tid c t : KeepsWf (same_tool_active tid c t).
Proof. unfold same_tool_active. keep. Qed.
#[global] Instance keeps_duplicate tid f c t fl : KeepsWf (duplicate_tool tid f c t fl).
Proof. unfold duplicate_tool. keep. Qed.
#[export] Hint Resolve keeps_reentry keeps_discard : preserve_db.
Lemma keeps_root_lc tid f p c fl k : in_u32 tid → KeepsWf (tool_root_lc tid f p c fl k).
Proof. intros Ht. unfold tool_root_lc. keep. apply keeps_with_task. keep. Qed.
Lemma keeps_root_lg tid f fl : in_u32 tid → KeepsWf (tool_root_lg tid f fl).
Proof. unfold tool_root_lg. keep. Qed.
#[global] Instance keeps_id_rule tid f c k : KeepsWf (tool_id_rule tid f c k).
Proof. unfold tool_id_rule. keep. Qed.
#[export] Hint Resolve keeps_root_lc keeps_root_lg : preserve_db.
Lemma keeps_root_entry tid f p c fl k : in_u32 tid → KeepsWf (root_frame_entry tid f p c fl k).
Proof. unfold root_frame_entry. keep. Qed.
#[global] Instance keeps_new_generator f c k : KeepsWf (new_generator_frame f c k).
Proof. unfold new_generator_frame. keep. Qed.
#[export] Hint Resolve keeps_root_entry : preserve_db.
Lemma keeps_known_kind tid f c fl k b :
  in_u32 tid → KeepsWf (known_kind_frame_entry tid f c fl k b).
Proof. unfold known_kind_frame_entry. keep. Qed.
#[export] Hint Resolve keeps_known_kind : preserve_db.
#[global] Instance keeps_entry_inner f b : KeepsWf (handle_tool_frame_entry_for_ptr_inner f b).
Proof. unfold handle_tool_frame_entry_for_ptr_inner. keep. Qed.
#[global] Instance keeps_entry : KeepsWf handle_frame_entry.
Proof. unfold handle_frame_entry. keep. Qed.
#[global] Instance keeps_resume : KeepsWf handle_frame_resume.
Proof. unfold handle_frame_resume. keep. Qed.
#[global] Instance keeps_func_entry : KeepsWf handle_frame_func_entry.
Proof. unfold handle_frame_func_entry. keep. Qed.
#[global] Instance keeps_register T i : Keeps T (read_register i).
Proof. unfold read_register. keep. Qed.
Lemma keeps_legacy tid : in_u32 tid → KeepsWf (handle_frame_exit_legacy tid).
Proof. unfold handle_frame_exit_legacy. keep. Qed.
#[export] Hint Resolve keeps_legacy : preserve_db.
#[global] Instance keeps_exit r : KeepsWf (handle_frame_exit r).
Proof. unfold handle_frame_exit. keep. Qed.

(** ** Tasks and objects *)

#[global] Instance keeps_select T g : Keeps T (select_task_step_ptr g).
Proof. unfold select_task_step_ptr. keep. Qed.
#[global] Instance keeps_task_init : KeepsWf handle_task_init.
Proof. unfold handle_task_init. keep. Qed.
Lemma keeps_activate g tid p : in_u32 tid → KeepsWf (task_step_activate g tid p).
Proof. unfold task_step_activate. keep. Qed.
#[export] Hint Resolve keeps_activate : preserve_db.
#[global] Instance keeps_step_entry : KeepsWf handle_task_step_entry.
Proof. unfold handle_task_step_entry. keep. Qed.
#[global] Instance keeps_step_restore tid : KeepsWf (task_step_restore tid).
Proof. unfold task_step_restore. keep. Qed.
#[global] Instance keeps_step_return : KeepsWf handle_task_step_return.
Proof. unfold handle_task_step_return. keep. Qed.
#[global] Instance keeps_dealloc_key T p : Keeps T (dealloc_frame_key p).
Proof. unfold dealloc_frame_key. keep. Qed.
#[global] Instance keeps_dealloc_frame p k c : KeepsWf (dealloc_frame_ctx p k c).
Proof. unfold dealloc_frame_ctx. keep. Qed.
#[global] Instance keeps_dealloc_carriers p k : KeepsWf (dealloc_carriers p k).
Proof. unfold dealloc_carriers. keep. Qed.
#[global] Instance keeps_dealloc p : KeepsWf (handle_pyobj_dealloc p).
Proof. unfold handle_pyobj_dealloc. keep. Qed.

(** ** Fork *)

#[global] Instance keeps_inherited g tid : KeepsWf (fork_inherited_ctx g tid).
Proof. unfold fork_inherited_ctx. keep. Qed.
#[global] Instance keeps_bind_child c tid g : KeepsWf (fork_bind_child c tid g).
Proof. unfold fork_bind_child. keep. Qed.
#[global] Instance keeps_fork : KeepsWf handle_sched_fork.
Proof. unfold handle_sched_fork. keep. Qed.

(** ** Exit of a thread *)

Lemma view_logged e a b c d f g h σ : view (logged e a b c d f g h σ) = view σ.
Proof. done. Qed.

Lemma view_dropped e c σ : view (dropped e c σ) = view σ.
Proof. by destruct (dropped_shape e c σ) as (cs & evs & t & -> & _). Qed.

(** What the body of the loop does before it removes the entry. *)
Lemma reap_entry_view v e σ :
  view (match v with
        | Some ctx_id =>
            tool_id ← ctx_tool_id ctx_id;
            emit_py_event_aux EVENT_TOOL_FRAME_END ctx_id tool_id 1;;
            carrier_dec ctx_id
        | None => mret tt
        end e σ).2 = view σ.
Proof. destruct v as [c|]; [|done]. mrun. rewrite dropped_run'. cbn [snd]. by rewrite view_dropped. Qed.

Lemma view_thread_stack σ σ' stk x :
  view σ' = view (set_thread_ctx_stack stk σ) →
  thread_ctx_stack σ' = stk
  ∧ view (set_thread_ctx_stack x σ') = view (set_thread_ctx_stack x σ).
Proof. unfold view. sproj. intros E. injection E as -> -> -> -> -> -> -> -> ->. done. Qed.

(** The loop of [reap_thread] empties the stack of the thread. *)
Lemma reap_ctx_stack_spec tid e σ l :
  in_u32 tid → thread_stack σ tid l →
  ∃ stk, view (reap_ctx_stack tid (Z.of_nat (length l)) e σ).2
         = view (set_thread_ctx_depth (delete tid (thread_ctx_depth σ))
                   (set_thread_ctx_stack stk σ))
    ∧ changes thread_key 256 8 (thread_ctx_stack σ) (thread_ctx_depth σ) tid stk
        (delete tid (thread_ctx_depth σ)) [].
Proof.
  intros Ht (Hst & Hd & Hb). unfold reap_ctx_stack. erewrite bind_run by apply surjective_pairing.
  match goal with |- context [scan 8 0 _ ?b e σ] => set (body := b) end.
  destruct (scan_inv (λ i σ', ∃ stk, view σ' = view (set_thread_ctx_stack stk σ)
      ∧ clearing (thread_key tid) 256 (thread_ctx_stack σ) l i stk)
    body e σ 8 (Z.of_nat (length l))) as [_ (stk & Hv & Hcl)]; [lia| | |].
  - intros i σ' Hi (stk & Hv & Hcl). split; [reflexivity|].
    exists (delete (thread_key tid (Z.of_nat i)) stk). split; [|apply clearing_step;
      [exact (fam_inj in_u32 thread_key 256 tid Ht)|lia|done]].
    subst body. cbv beta zeta. mstep. erewrite bind_run by apply surjective_pairing.
    match goal with |- context [mbind _ _ e (?s).2] => pose proof (reap_entry_view
      (bm_get THREAD_CTX_STACK σ' !! thread_key tid (Z.of_nat i)) e σ') as Hv' end.
    set (σ1 := _.2) in *. clearbody σ1. rewrite Hv in Hv'. mrun. sproj.
    by destruct (view_thread_stack _ _ _ (delete (thread_key tid (Z.of_nat i)) stk) Hv') as [-> ?].
  - exists (thread_ctx_stack σ). split; [by destruct σ|]. by apply clearing_start.
  - set (σ1 := _.2) in *. clearbody σ1. rewrite Nat2Z.id in Hcl. unfold m_remove. cbn [snd]. sproj.
    exists stk. split.
    + unfold view in *. sproj_in Hv. sproj. injection Hv as -> -> -> -> -> -> -> -> ->. done.
    + split_and!; [|apply Hcl|by intros p Hp; rewrite lookup_delete_ne].
      split_and!; [by apply (clearing_end _ _ (thread_ctx_stack σ) l)|apply lookup_delete_eq|done].
Qed.

Lemma keeps_reap_ctx_stack T tid : in_u32 tid →
  Keeps T (d ← m_get THREAD_CTX_DEPTH tid; reap_ctx_stack tid (unwrap_or d 0)).
Proof.
  intros Ht e σ He Hσ. destruct (inv_threads T σ Hσ tid Ht) as [l Hl]. mstep. sproj.
  pose proof Hl as (_ & Hd & _). rewrite Hd, depth_of_unwrap.
  destruct (reap_ctx_stack_spec tid e σ l) as (stk & Hv & Hch); [done..|].
  eapply Inv_view; [exact Hv|]. destruct Hσ as [H1 H2 H3 H4 H5]. constructor; [|done..].
  exact (changes_wf in_u32 thread_key 256 8 _ _ tid _ _ _ Ht H1 Hch).
Qed.

(** The loop of [clear_worker_runs_for_thread]. *)
Lemma unbind_worker_run_view tid entry e σ :
  ∃ car, view (unbind_worker_run tid entry e σ).2 = view (set_worker_run_carrier car σ)
    ∧ car ⊆ worker_run_carrier σ.
Proof.
  unfold unbind_worker_run. mstep. mstep. sproj.
  destruct (worker_run_carrier σ !! _) as [v|]; [|by exists (worker_run_carrier σ)].
  mstep. exists (delete (py_object_key e (wr_self_obj entry)) (worker_run_carrier σ)).
  split; [|apply delete_subseteq].
  destruct (bm_get _ σ !! _) as [c|]; [|by mrun].
  erewrite bind_run by (mrun; apply emit_py_event_carrier_for_tid_run). done.
Qed.

Lemma view_worker_stack σ σ' stk car x y :
  view σ' = view (set_worker_run_carrier car (set_worker_run_stack stk σ)) →
  worker_run_stack σ' = stk ∧ worker_run_carrier σ' = car
  ∧ view (set_worker_run_stack y (set_worker_run_carrier x σ'))
    = view (set_worker_run_carrier x (set_worker_run_stack y σ)).
Proof. unfold view. sproj. intros E. injection E as -> -> -> -> -> -> -> -> ->. done. Qed.

Lemma keeps_clear_worker_runs T tid : in_u32 tid → Keeps T (clear_worker_runs_for_thread tid).
Proof.
  intros Ht e σ He Hσ. destruct (inv_workers T σ Hσ tid Ht) as [l Hl].
  pose proof Hl as (Hst & Hd & Hb). unfold clear_worker_runs_for_thread. mstep. sproj.
  rewrite Hd, depth_of_unwrap. erewrite bind_run by apply surjective_pairing.
  match goal with |- context [scan 64 0 _ ?b e σ] => set (body := b) end.
  destruct (scan_inv (λ i σ', ∃ stk car,
      view σ' = view (set_worker_run_carrier car (set_worker_run_stack stk σ))
      ∧ car ⊆ worker_run_carrier σ
      ∧ clearing (thread_key tid) 256 (worker_run_stack σ) l i stk)
    body e σ 64 (Z.of_nat (length l))) as [_ (stk & car & Hv & Hc & Hcl)]; [lia| | |].
  - intros i σ' Hi (stk & car & Hv & Hc & Hcl). split; [reflexivity|].
    exists (delete (thread_key tid (Z.of_nat i)) stk). subst body. cbv beta zeta. mstep.
    erewrite bind_run by apply surjective_pairing.
    match goal with |- context [mbind _ _ e (?m e σ').2] =>
      assert (∃ car', view (m e σ').2 = view (set_worker_run_carrier car' σ')
        ∧ car' ⊆ worker_run_carrier σ') as (car' & Hv' & Hc') end.
    { destruct (bm_get _ σ' !! _); [apply unbind_worker_run_view|].
      exists (worker_run_carrier σ'). split; [by destruct σ'|done]. }
    set (σ1 := _.2) in *. clearbody σ1.
    destruct (view_worker_stack _ _ _ _ car' stk Hv) as (E1 & E2 & E3).
    assert (view σ1 = view (set_worker_run_carrier car' (set_worker_run_stack stk σ))) as Hv1.
    { rewrite Hv', <-E3, <-E1. by destruct σ'. }
    exists car'. mrun. sproj. split_and!.
    + destruct (view_worker_stack _ _ _ _ car' (delete (thread_key tid (Z.of_nat i)) stk) Hv1)
        as (-> & E4 & <-). rewrite <-E4. by destruct σ1.
    + etrans; [exact Hc'|]. by rewrite E2.
    + apply clearing_step; [exact (fam_inj in_u32 thread_key 256 tid Ht)|lia|done].
  - exists (worker_run_stack σ), (worker_run_carrier σ). split_and!; [by destruct σ|done|].
    by apply clearing_start.
  - set (σ1 := _.2) in *. clearbody σ1. rewrite Nat2Z.id in Hcl. unfold m_remove. cbn [snd]. sproj.
    apply (Inv_view T (set_worker_run_depth (delete tid (worker_run_depth σ))
      (set_worker_run_carrier car (set_worker_run_stack stk σ)))).
    { unfold view in *. sproj_in Hv. sproj. injection Hv as -> -> -> -> -> -> -> -> ->. done. }
    destruct Hσ as [H1 H2 H3 H4 H5]. constructor; [done|done| | |done]; last first.
    { intros k t Hk. apply (H4 k). by eapply lookup_weaken. }
    apply (changes_wf in_u32 thread_key 256 64 _ _ tid stk _ [] Ht H3).
    split_and!; [|apply Hcl|by intros p Hp; sproj; rewrite lookup_delete_ne].
    split_and!; [by apply (clearing_end _ _ (worker_run_stack σ) l)|apply lookup_delete_eq|done].
Qed.

#[global] Instance keeps_reap_stash T tid : Keeps T (reap_frame_stash tid).
Proof. unfold reap_frame_stash. keep. Qed.
#[global] Instance keeps_reap_fork T tid : Keeps T (reap_fork_ctx tid).
Proof. unfold reap_fork_ctx. keep. Qed.
#[export] Hint Resolve keeps_clear_worker_runs : preserve_db.

Lemma keeps_reap_thread T tid : in_u32 tid → Keeps T (reap_thread tid).
Proof.
  intros Ht e σ He Hσ. pose proof (keeps_reap_ctx_stack T tid Ht e σ He Hσ) as Hr.
  unfold reap_thread. mstep. rewrite (bind_run _ _ _ _ _ _ _ _ (eq_refl : m_get _ _ _ _ = _)) in Hr.
  erewrite bind_run by apply surjective_pairing. set (σ1 := _.2) in *. clearbody σ1.
  match goal with |- Inv T (?m e σ1).2 => assert (Keeps T m) as Hm; [|by apply Hm] end. keep.
Qed.
#[export] Hint Resolve keeps_reap_thread : preserve_db.
#[global] Instance keeps_sched_exit : KeepsWf handle_sched_exit.
Proof. unfold handle_sched_exit. keep. Qed.
#[global] Instance keeps_sched_exec : KeepsWf handle_sched_exec.
Proof. unfold handle_sched_exec. keep. Qed.

(** ** Events and security hooks *)

Section hooks.
Context (T : task_pred).

#[global] Instance keeps_alloc_init : Keeps T alloc_init.
Proof. by apply keeps_view. Qed.
#[global] Instance keeps_alloc_zero n : Keeps T (alloc_zero n).
Proof. apply keeps_view. intros e σ. unfold alloc_zero. repeat case_match; done. Qed.
#[global] Instance keeps_push_guard ev : Keeps T (push_guard_event ev).
Proof. by apply keeps_view. Qed.
#[global] Instance keeps_net_permission a b c : Keeps T (net_permission a b c).
Proof. by apply keeps_view. Qed.
#[global] Instance keeps_pure {A} (f : Env → A) : Keeps T (λ e σ, (f e, σ)).
Proof. by apply keeps_view. Qed.
#[global] Instance keeps_submit_event ev : Keeps T (submit_event ev).
Proof. unfold submit_event. keep. Qed.
#[global] Instance keeps_emit_path a b c d f g h : Keeps T (try_emit_path_event a b c d f g h).
Proof. unfold try_emit_path_event. keep. Qed.
#[global] Instance keeps_emit_fs a b c d f g : Keeps T (emit_fs_event a b c d f g).
Proof. unfold emit_fs_event. keep. Qed.
#[global] Instance keeps_emit_exec a b c d f g : Keeps T (emit_exec_event a b c d f g).
Proof. unfold emit_exec_event. keep. Qed.
#[global] Instance keeps_emit_net a b c d f g h i : Keeps T (emit_net_event a b c d f g h i).
Proof. unfold emit_net_event, try_emit_net_event. keep. Qed.
#[global] Instance keeps_enforce b : Keeps T (enforce_permission b).
Proof. unfold enforce_permission. keep. Qed.
#[global] Instance keeps_resolve_ctx tid : Keeps T (resolve_ctx tid).
Proof. unfold resolve_ctx. keep. Qed.
#[global] Instance keeps_mark_seen c : Keeps T (mark_ctx_seen c).
Proof. unfold mark_ctx_seen. keep. Qed.
#[global] Instance keeps_decision i p : Keeps T (hook_decision i p).
Proof. unfold hook_decision, identity_policy_decision, decide_known_tool_permission. keep. Qed.
#[global] Instance keeps_protected g tid : Keeps T (is_protected_subject g tid).
Proof. unfold is_protected_subject. keep. Qed.
#[global] Instance keeps_file_identity f : Keeps T (get_file_identity f).
Proof. unfold get_file_identity. keep. Qed.
#[global] Instance keeps_hook_identity k : Keeps T (hook_identity k).
Proof. unfold hook_identity, audit_unprotected_python_thread. keep. Qed.
#[global] Instance keeps_exec_permission a b c : Keeps T (exec_permission a b c).
Proof. unfold exec_permission. keep. Qed.
#[global] Instance keeps_endpoint sa : Keeps T (connect_endpoint sa).
Proof. unfold connect_endpoint. keep. Qed.
#[global] Instance keeps_file_open : Keeps T handle_file_open.
Proof. unfold handle_file_open, ok_or_allow, try_file_open. keep. Qed.
#[global] Instance keeps_bprm : Keeps T handle_bprm_check.
Proof. unfold handle_bprm_check, ok_or_allow, try_bprm_check. keep. Qed.
#[global] Instance keeps_connect : Keeps T handle_socket_connect.
Proof. unfold handle_socket_connect, ok_or_allow, try_socket_connect. keep. Qed.
#[global] Instance keeps_fentry_identity k : Keeps T (fentry_identity k).
Proof. unfold fentry_identity. keep. Qed.
#[global] Instance keeps_fentry_open : Keeps T handle_fentry_file_open.
Proof. unfold handle_fentry_file_open, try_fentry_file_open. keep. Qed.
#[global] Instance keeps_fentry_bprm : Keeps T handle_fentry_bprm_check.
Proof. unfold handle_fentry_bprm_check, try_fentry_bprm_check. keep. Qed.
#[global] Instance keeps_fentry_connect : Keeps T handle_fentry_socket_connect.
Proof. unfold handle_fentry_socket_connect, try_fentry_socket_connect. keep. Qed.
End hooks.

(** ** Programs *)

#[global] Instance keeps_run_probe p : KeepsWf (run_probe p).
Proof.
  destruct p; cbn [run_probe]; unfold or_zero, then_zero, gen_dealloc_prog,
    handle_frame_exit_normal, handle_frame_exit_exception; keep; unfold then_zero; keep.
Qed.

(** No context, frame, task or worker is recorded. *)
Definition fresh (σ : State) : Prop :=
  thread_ctx_stack σ = ∅ ∧ thread_ctx_depth σ = ∅ ∧ tool_stack σ = ∅ ∧ tool_stack_depth σ = ∅
  ∧ worker_run_stack σ = ∅ ∧ worker_run_depth σ = ∅ ∧ worker_run_carrier σ = ∅
  ∧ task_ctx_stack σ = ∅ ∧ task_ctx_depth σ = ∅.

Lemma fresh_inv σ : fresh σ → Inv task_wf σ.
Proof.
  intros (E1 & E2 & E3 & E4 & E5 & E6 & E7 & E8 & E9).
  constructor; rewrite ?E1, ?E2, ?E3, ?E4, ?E5, ?E6, ?E7, ?E8, ?E9.
  - by apply owner_stack_empty.
  - by apply owner_stack_empty.
  - by apply owner_stack_empty.
  - apply map_Forall_empty.
  - by apply owner_stack_empty.
Qed.

(** The stacks that the invariant describes. *)
Definition stacks_described (σ : State) : Prop :=
  (∀ tid, in_u32 tid → (∃ l, thread_stack σ tid l) ∧ (∃ l, tool_frames σ tid l)
                       ∧ (∃ l, worker_runs σ tid l))
  ∧ (∀ o, ∃ l, task_stack σ o l).

Lemma inv_described σ : Inv task_wf σ → stacks_described σ.
Proof.
  intros [H1 H2 H3 _ H5].
  split; [intros tid Ht; split_and!; [by apply H1|by apply H2|by apply H3]|].
  intros o. by apply H5.
Qed.

(** From maps in which no stack is recorded, and as long as map updates succeed,
    every state that any sequence of programs reaches has well-formed stacks: each
    thread's contexts, tool frames and running workers and each task's contexts form
    a contiguous list of bounded length that agrees with its depth entry. *)
Theorem reachable_stacks_wf σ0 σ :
  fresh σ0 → reachable reliable σ0 σ →
  (∀ tid, in_u32 tid → (∃ l, thread_stack σ tid l) ∧ (∃ l, tool_frames σ tid l)
                       ∧ (∃ l, worker_runs σ tid l))
  ∧ (∀ o, ∃ l, task_stack σ o l).
Proof.
  intros H0 Hr. apply inv_described.
  apply (reachable_invariant reliable _ σ0); [apply keeps_run_probe|by apply fresh_inv|done].
Qed.

Lemma reachable_stacks_wf_witness :
  ∃ l, thread_stack (run_probe sched_process_exit env0
                       (run_probe eval_frame_entry env0 empty_state).2).2 9 l.
Proof.
  apply (reachable_stacks_wf empty_state).
  - by unfold fresh.
  - eapply reach_step; [eapply reach_step; [apply reach_refl|]|].
    + by apply (step_probe _ eval_frame_entry env0).
    + by apply (step_probe _ sched_process_exit env0).
  - vm_compute. split; congruence.
Defined.
