(* ===== verification/Session.v ===== *)
(** * The whole system at run time ([run_cpython_runtime] of [ironscope/src/main.rs])

    The event loop of user space drains the three rings, writes the answers of the
    resolver into the maps, and stops on a signal or after the configured time, while
    the BPF programs go on running.  A [Session] is the state of both; its steps are the
    runs of the programs and the actions of the loop, in any order.  The report that is
    written at the end is compared with what the programs logged. *)

From stdpp Require Import base gmap list relations.
From S2P Require Import Prelude Text Types Maps Ownership Probes Monotone Samples.
From S2P Require Import Compiler Runtime Decision Stacks ThreadStack ToolStack TaskStack.
From S2P Require Import Invariant System.

(** ** The event loop *)

(** Where the loop is: at its condition, in one of the three [while let] loops, or past
    its [break]. *)
Inductive loop_point := AtCheck | DrainPy | DrainResolver | DrainGuard | Finished.

#[global] Instance loop_point_eq : EqDecision loop_point.
Proof. solve_decision. Defined.

(** A ring that only one consumer reads is its log and the number of records consumed. *)
Record Session := mkSession {
  ss_point : loop_point;
  ss_runtime : Runtime;
  ss_py_read : nat;
  ss_resolver_read : nat;
  ss_guard_read : nat;
  ss_maps : State
}.

(** [(args.duration > 0).then(|| Duration::from_secs(args.duration))], in nanoseconds. *)
Definition max_duration (duration : Z) : option Z :=
  if duration >? 0 then Some (duration * 10 ^ 9) else None.

(** [*shutdown_rx.borrow() || max_duration.map_or(false, |d| start.elapsed() >= d)] *)
Definition stopping (duration : Z) (shutdown : bool) (elapsed : Z) : bool :=
  shutdown || match max_duration duration with Some d => d <=? elapsed | None => false end.

(** The collections before the loop. *)
Definition initial_runtime : Runtime := mkRuntime [] [] [] ∅ ∅.
Definition start_session (σ : State) : Session := mkSession AtCheck initial_runtime 0 0 0 σ.

Definition go (p : loop_point) (s : Session) : Session :=
  mkSession p (ss_runtime s) (ss_py_read s) (ss_resolver_read s) (ss_guard_read s) (ss_maps s).
Definition with_maps (σ : State) (s : Session) : Session :=
  mkSession (ss_point s) (ss_runtime s) (ss_py_read s) (ss_resolver_read s) (ss_guard_read s) σ.

Section session.
Context (detect_for_pid : Z → option CpythonResolver) (duration : Z).

(** One action of the loop: a test of its condition, or one record of a ring, or the end
    of a [while let] when its ring is empty. *)
Definition loop_step (shutdown : bool) (elapsed : Z) (e : Env) (s : Session) : Session :=
  let rt := ss_runtime s in
  let σ := ss_maps s in
  match ss_point s with
  | AtCheck => if stopping duration shutdown elapsed then go Finished s else go DrainPy s
  | DrainPy =>
      match py_events σ !! ss_py_read s with
      | Some ev =>
          mkSession DrainPy (handle_py_event ev rt) (S (ss_py_read s)) (ss_resolver_read s)
            (ss_guard_read s) σ
      | None => go DrainResolver s
      end
  | DrainResolver =>
      match resolver_events σ !! ss_resolver_read s with
      | Some ev =>
          let r := handle_resolver_event detect_for_pid ev rt e σ in
          mkSession DrainResolver r.1 (ss_py_read s) (S (ss_resolver_read s))
            (ss_guard_read s) r.2
      | None => go DrainGuard s
      end
  | DrainGuard =>
      match guard_events σ !! ss_guard_read s with
      | Some ev =>
          mkSession DrainGuard (handle_guard_event ev rt) (ss_py_read s) (ss_resolver_read s)
            (S (ss_guard_read s)) σ
      | None => go AtCheck s
      end
  | Finished => s
  end.

(** What happens next: a run of a program, or an action of the loop. *)
Inductive action :=
| Runs (p : probe) (e : Env)
| Loop (shutdown : bool) (elapsed : Z) (e : Env).

Definition act (a : action) (s : Session) : Session :=
  match a with
  | Runs p e => with_maps (run_probe p e (ss_maps s)).2 s
  | Loop shutdown elapsed e => loop_step shutdown elapsed e s
  end.

Definition action_env (a : action) : Env := match a with Runs _ e | Loop _ _ e => e end.

(** A schedule interleaves the two. *)
Definition run (s : Session) (l : list action) : Session := foldl (λ s a, act a s) s l.

Lemma run_snoc s l a : run s (l ++ [a]) = act a (run s l).
Proof. unfold run. by rewrite foldl_app. Qed.

(** What every action preserves holds after every schedule. *)
Lemma run_invariant (G : Env → Prop) (I : Session → Prop) s l :
  (∀ a s, G (action_env a) → I s → I (act a s)) →
  Forall (G ∘ action_env) l → I s → I (run s l).
Proof.
  intros Hact. revert s. induction l as [|a l IH]; intros s Hl Hs; [done|].
  apply Forall_cons in Hl as [Ha Hl]. apply IH; [done|]. by apply Hact.
Qed.

(** ** The maps *)

(** What user space writes after the start: the cache of tool objects and the contexts. *)
Definition fixed_parts (σ : State) := (policy_of σ, logs_of σ).

Lemma leaves_user_insert {A K V} `{Countable K} (f : State → A) (m : bpf_map K V) k v :
  (∀ t σ, f (set_tick t σ) = f σ) → (∀ x σ, f (bm_set m x σ) = f σ) → Leaves f (u_insert m k v).
Proof.
  intros Ht Hm x e σ _ Hσ. unfold u_insert. destruct (update_ok e (tick σ)).
  - by apply (leaves_insert f m Ht Hm k v x e σ).
  - cbn [snd]. unfold next_tick. by rewrite Ht.
Qed.

Lemma leaves_u_insert {K V} `{Countable K} (m : bpf_map K V) k v :
  Internal m → Leaves fixed_parts (u_insert m k v).
Proof.
  intros Hm. apply leaves_user_insert; [done|]. intros x σ. unfold fixed_parts.
  by rewrite (proj1 (Hm x σ)), (proj2 (Hm x σ)).
Qed.
#[local] Hint Extern 0 (Preserves _ _ (u_insert _ _ _)) =>
  (apply leaves_u_insert; apply _) : leaves_db.

Lemma resolver_event_leaves ev rt : Leaves fixed_parts (handle_resolver_event detect_for_pid ev rt).
Proof. leaves. Qed.

Lemma resolver_event_fixed ev rt e σ :
  fixed_parts (handle_resolver_event detect_for_pid ev rt e σ).2 = fixed_parts σ.
Proof. by apply (resolver_event_leaves ev rt (fixed_parts σ)). Qed.

#[local] Instance keeps_u_insert T {K V} `{Countable K} (m : bpf_map K V) `{!Unrelated m} k v :
  Preserves reliable (Inv T) (u_insert m k v).
Proof. intros e σ He Hσ. unfold u_insert. rewrite (proj1 He). by apply keeps_insert. Qed.

Lemma resolver_event_keeps ev rt : Keeps task_wf (handle_resolver_event detect_for_pid ev rt).
Proof.
  unfold handle_resolver_event, ensure_resolver, resolver_success, resolver_failure,
    resolved_ctx, mark_tool_ctx_map_resolver_error, ctx_read, ctx_write. keep.
Qed.

(** An action of the loop leaves the policy and the logs alone. *)
Lemma loop_fixed shutdown elapsed e s :
  fixed_parts (ss_maps (loop_step shutdown elapsed e s)) = fixed_parts (ss_maps s).
Proof.
  unfold loop_step. destruct (ss_point s); repeat case_match; try done. apply resolver_event_fixed.
Qed.

Lemma act_extends a σ0 s : extends σ0 (ss_maps s) → extends σ0 (ss_maps (act a s)).
Proof.
  destruct a as [p e|sh el e]; cbn [act with_maps ss_maps]; intros Hs.
  - by apply (run_probe_extends p).
  - pose proof (loop_fixed sh el e s) as [Hpol Hlog]%pair_equal_spec.
    by eapply extends_same.
Qed.

(** ** Progress through the rings *)

Definition logged (s : Session) : nat :=
  length (py_events (ss_maps s)) + length (resolver_events (ss_maps s))
  + length (guard_events (ss_maps s)).
Definition consumed (s : Session) : nat :=
  ss_py_read s + ss_resolver_read s + ss_guard_read s.

(** No more is read than was written. *)
Definition reads_ok (s : Session) : Prop :=
  (ss_py_read s ≤ length (py_events (ss_maps s)))%nat
  ∧ (ss_resolver_read s ≤ length (resolver_events (ss_maps s)))%nat
  ∧ (ss_guard_read s ≤ length (guard_events (ss_maps s)))%nat.

Lemma reads_logged s : reads_ok s → (consumed s ≤ logged s)%nat.
Proof. unfold reads_ok, consumed, logged. lia. Qed.

Lemma logs_grow s σ : extends (ss_maps s) σ → reads_ok s → reads_ok (with_maps σ s).
Proof.
  intros [_ H1%prefix_length H2%prefix_length H3%prefix_length] ?.
  unfold reads_ok in *. cbn. lia.
Qed.

Lemma act_reads_ok a s : reads_ok s → reads_ok (act a s).
Proof.
  destruct a as [p e|sh el e]; cbn [act].
  - apply logs_grow. by apply (run_probe_extends p).
  - unfold loop_step, reads_ok. intros (H1 & H2 & H3).
    destruct (ss_point s); repeat case_match; cbn;
      repeat match goal with
             | H : _ !! _ = Some _ |- _ => apply lookup_lt_Some in H
             | |- context [handle_resolver_event _ ?ev ?rt ?e ?σ] =>
                 destruct (proj1 (pair_equal_spec _ _ _ _) (resolver_event_fixed ev rt e σ))
                   as [_ Hl]; injection Hl as -> -> ->
             end; lia.
Qed.

Lemma run_reads_ok σ l : reads_ok (run (start_session σ) l).
Proof.
  apply (run_invariant (λ _, True) reads_ok); [intros; by apply act_reads_ok|by apply Forall_true|].
  unfold reads_ok. cbn. lia.
Qed.

(** The places that are left to pass before the loop ends. *)
Definition rank (p : loop_point) : nat :=
  match p with Finished => 0 | AtCheck => 1 | DrainGuard => 2 | DrainResolver => 3 | DrainPy => 4 end.

Definition is_loop (a : action) : bool := match a with Loop _ _ _ => true | _ => false end.
(** The number of actions of the loop in a schedule. *)
Definition loops (l : list action) : nat := length (filter (λ a, is_loop a = true) l).

(** The signal was received or the time is over, at every test of a schedule. *)
Definition told_to_stop (a : action) : Prop :=
  match a with Loop sh el _ => stopping duration sh el = true | Runs _ _ => True end.

Lemma loops_snoc l a : loops (l ++ [a]) = (loops l + if is_loop a then 1 else 0)%nat.
Proof. unfold loops. rewrite filter_app, length_app. cbn. by destruct a. Qed.

(** An action of the loop reads a record or passes a place. *)
Lemma loop_advances sh el e s :
  ss_point s ≠ Finished → (ss_point s = AtCheck → stopping duration sh el = true) →
  (S (consumed s + rank (ss_point (loop_step sh el e s)))
   = consumed (loop_step sh el e s) + rank (ss_point s))%nat.
Proof.
  intros Hp Hc. unfold loop_step, consumed.
  destruct (ss_point s); [rewrite Hc by done|..|done]; repeat case_match; cbn; lia.
Qed.

Lemma stopping_progress s l :
  Forall told_to_stop l → ss_point (run s l) ≠ Finished →
  (loops l + consumed s + rank (ss_point (run s l)) ≤ consumed (run s l) + rank (ss_point s))%nat.
Proof.
  induction l as [|a l IH] using rev_ind; [cbn; lia|].
  rewrite Forall_app, Forall_singleton, run_snoc, loops_snoc. intros [Hl Ha] Hp.
  destruct a as [p e|sh el e]; cbn [act is_loop] in *.
  - specialize (IH Hl Hp). unfold consumed in *. cbn in *. lia.
  - assert (ss_point (run s l) ≠ Finished) as Hp'.
    { intros E. apply Hp. unfold loop_step. by rewrite E. }
    pose proof (loop_advances sh el e _ Hp' (λ _, Ha)). specialize (IH Hl Hp'). lia.
Qed.

(** C23: the session ends.  From whatever the programs and the loop have done, once the
    signal has come or the time is over, the loop ends after at most four more actions
    than there are records to read, those included that programs log meanwhile. *)
Theorem session_terminates σ0 l0 l :
  let s := run (start_session σ0) l0 in
  Forall told_to_stop l → (4 + logged (run s l) - consumed s ≤ loops l)%nat →
  ss_point (run s l) = Finished.
Proof.
  intros s Hl Hn. destruct (decide (ss_point (run s l) = Finished)) as [|Hp]; [done|]. exfalso.
  pose proof (stopping_progress s l Hl Hp) as H.
  assert (reads_ok (run s l)) as Hok%reads_logged.
  { unfold s, run. rewrite <-foldl_app. apply run_reads_ok. }
  pose proof (run_reads_ok σ0 l0) as Hs%reads_logged. fold s in Hs.
  assert (rank (ss_point s) ≤ 4)%nat by (destruct (ss_point s); cbn; lia).
  assert (1 ≤ rank (ss_point (run s l)))%nat by (destruct (ss_point (run s l)); cbn; [lia..|done]).
  lia.
Qed.

(** ** The report *)

Definition with_tool (tool_id : Z) (ev : PyEvent) : PyEvent :=
  {| pe_pid := pe_pid ev; pe_tid := pe_tid ev; pe_ts_ns := pe_ts_ns ev;
     pe_kind := pe_kind ev; pe_ctx_id := pe_ctx_id ev; pe_tool_id := tool_id;
     pe_carrier_ptr := pe_carrier_ptr ev; pe_aux := pe_aux ev |}.

(** A collected event is the logged one, with a tool if it was logged without. *)
Definition collected (ev out : PyEvent) : Prop :=
  out = ev ∨ pe_tool_id ev = TOOL_IDLE ∧ ∃ tool_id, out = with_tool tool_id ev.
(** A failed candidate is followed by its failure. *)
Definition answered (ev : ResolverEvent) (out : list ResolverEvent) : Prop :=
  out = [ev] ∨ out = [ev; resolver_failed_event ev].
(** A guard event is shown with the name its tool had when it was read. *)
Definition shown (ev : GuardEvent) (out : GuardAuditEvent) : Prop :=
  ∃ table, out = audit_guard_event table ev.

(** The collections hold what was read from the rings, in this order. *)
Record reported (s : Session) : Prop := {
  rep_py : Forall2 collected (take (ss_py_read s) (py_events (ss_maps s)))
             (rt_py_events (ss_runtime s));
  rep_resolver : ∃ outs, Forall2 answered
                   (take (ss_resolver_read s) (resolver_events (ss_maps s))) outs
                   ∧ rt_resolver_events (ss_runtime s) = concat outs;
  rep_guard : Forall2 shown (take (ss_guard_read s) (guard_events (ss_maps s)))
                (rt_guard_events (ss_runtime s))
}.

Lemma backfill_collected ctx_id tool_id ev out :
  collected ev out → collected ev (backfill_tool_id ctx_id tool_id out).
Proof.
  unfold backfill_tool_id. destruct (_ && _) eqn:E; [|done].
  apply andb_true_iff in E as [_ E%Z.eqb_eq].
  intros [->|(Hid & id & ->)]; right; (split; [done|by exists tool_id]).
Qed.

Lemma backfill_all ctx_id tool_id evs outs :
  Forall2 collected evs outs → Forall2 collected evs (backfill_tool_id ctx_id tool_id <$> outs).
Proof. intros H. apply Forall2_fmap_r. eapply Forall2_impl; [done|]. intros. by apply backfill_collected. Qed.

(** What the handling of a resolver event does to the collections. *)
Definition handled (evs : list PyEvent) (rt rt' : Runtime) (out : list ResolverEvent) : Prop :=
  rt_guard_events rt' = rt_guard_events rt
  ∧ rt_resolver_events rt' = rt_resolver_events rt ++ out
  ∧ (Forall2 collected evs (rt_py_events rt) → Forall2 collected evs (rt_py_events rt')).

Lemma failure_handled evs ev rt e σ :
  ∃ out, (out = [] ∨ out = [resolver_failed_event ev])
         ∧ handled evs rt (resolver_failure ev rt e σ).1 out.
Proof.
  unfold resolver_failure, handled, mbind, probeM_bind, mret, probeM_ret. cbn.
  destruct (mark_tool_ctx_map_resolver_error (re_ctx_id ev) e σ).1 as [[]|].
  - eexists. split; [by right|done].
  - exists []. split; [by left|]. by rewrite app_nil_r.
  - exists []. split; [by left|]. by rewrite app_nil_r.
Qed.

Lemma success_handled evs ev resolved rt e σ :
  handled evs rt (resolver_success ev resolved rt e σ).1 [].
Proof.
  unfold resolver_success, handled, resolved_ctx, mbind, probeM_bind, mret, probeM_ret. cbn.
  rewrite app_nil_r.
  destruct (re_ctx_id ev =? 0); cbn; [done|]. case_match; cbn; [|done].
  case_match; cbn; [|done]. split_and!; [done..|]. apply backfill_all.
Qed.

Lemma answer_handled evs ev cpython rt e σ :
  ∃ out, (out = [] ∨ out = [resolver_failed_event ev])
         ∧ handled evs rt ((match resolve_candidate cpython ev with
                            | Ok resolved => resolver_success ev resolved rt
                            | Err _ => resolver_failure ev rt
                            end) e σ).1 out.
Proof.
  destruct (resolve_candidate cpython ev); [|apply failure_handled].
  exists []. split; [by left|apply success_handled].
Qed.

Lemma handled_after evs ev rt rt0 rt' :
  rt_guard_events rt0 = rt_guard_events rt → rt_py_events rt0 = rt_py_events rt →
  rt_resolver_events rt0 = rt_resolver_events rt ++ [ev] →
  (∃ out, (out = [] ∨ out = [resolver_failed_event ev]) ∧ handled evs rt0 rt' out) →
  ∃ out, answered ev out ∧ handled evs rt rt' out.
Proof.
  unfold handled. intros -> -> -> (out & Hout & H1 & H2 & H3).
  exists (ev :: out). rewrite <-app_assoc in H2. split; [|done].
  destruct Hout as [-> | ->]; [by left|by right].
Qed.

Lemma resolver_event_handled evs ev rt e σ :
  ∃ out, answered ev out ∧ handled evs rt (handle_resolver_event detect_for_pid ev rt e σ).1 out.
Proof.
  unfold handle_resolver_event. cbv zeta.
  destruct (negb _); [exists [ev]; split; [by left|done]|].
  unfold ensure_resolver. cbn [rt_resolvers rt_py_events rt_resolver_events rt_guard_events
    rt_tool_name_table].
  destruct (rt_resolvers rt !! re_pid ev) as [r|] eqn:Hr;
    [|destruct (detect_for_pid (re_pid ev)) as [r|]].
  - mstep. cbn [rt_resolvers]. rewrite Hr. eapply handled_after; [..|apply answer_handled]; done.
  - mstep. cbn [rt_resolvers]. rewrite lookup_insert_eq.
    eapply handled_after; [..|apply answer_handled]; done.
  - match goal with |- context [resolver_failure ev ?rt0] =>
      erewrite (bind_run _ _ (resolver_failure ev rt0) _ e σ) by apply surjective_pairing;
      assert (rt_resolvers (resolver_failure ev rt0 e σ).1 = rt_resolvers rt) as Hres end.
    { unfold resolver_failure, mbind, probeM_bind, mret, probeM_ret. cbn.
      by destruct (mark_tool_ctx_map_resolver_error _ e σ).1 as [[]|]. }
    rewrite Hres, Hr. cbn [mret probeM_ret fst].
    eapply handled_after; [..|apply failure_handled]; done.
Qed.

(** Growth of a log does not change what was read of it. *)
Lemma reported_grow s σ :
  reads_ok s → extends (ss_maps s) σ → reported s → reported (with_maps σ s).
Proof.
  intros (L1 & L2 & L3) [_ [k1 E1] [k2 E2] [k3 E3]] [H1 H2 H3].
  constructor; cbn; rewrite ?E1, ?E2, ?E3, take_app_le by done; done.
Qed.

Lemma act_reported a s : reads_ok s → reported s → reported (act a s).
Proof.
  intros Hok Hs. destruct a as [p e|sh el e]; cbn [act].
  { apply reported_grow; [done| |done]. by apply (run_probe_extends p). }
  destruct Hs as [H1 H2 H3]. unfold loop_step.
  destruct (ss_point s); repeat case_match; try (by constructor).
  - constructor; cbn; [|done|done]. erewrite take_S_r by done.
    apply Forall2_app; [done|]. by repeat constructor.
  - destruct (resolver_event_handled (take (ss_py_read s) (py_events (ss_maps s))) r
      (ss_runtime s) e (ss_maps s)) as (out & Hout & Hg & Hr & Hp).
    destruct (proj1 (pair_equal_spec _ _ _ _)
      (resolver_event_fixed r (ss_runtime s) e (ss_maps s))) as [_ Hl].
    injection Hl as E1 E2 E3. destruct H2 as (outs & Hall & Hcat).
    constructor; cbn; rewrite ?E1, ?E2, ?E3.
    + by apply Hp.
    + exists (outs ++ [out]). erewrite take_S_r by done. split.
      * apply Forall2_app; [done|]. constructor; [done|constructor].
      * rewrite Hr, Hcat, concat_app. cbn. by rewrite app_nil_r.
    + by rewrite Hg.
  - constructor; cbn; [done|done|]. erewrite take_S_r by done.
    apply Forall2_app; [done|]. repeat constructor. by eexists.
Qed.

Lemma report_is_log_aux σ0 l :
  let s := run (start_session σ0) l in reported s ∧ reads_ok s.
Proof.
  apply (run_invariant (λ _, True) (λ s, reported s ∧ reads_ok s)); [|by apply Forall_true|].
  - intros a s _ [Hs Hok]. split; [by apply act_reported|by apply act_reads_ok].
  - split; [|unfold reads_ok; cbn; lia]. constructor; cbn; rewrite ?take_0; [constructor| |constructor].
    exists []. by split.
Qed.

(** ** Every event is reported *)

Definition py_caught_up (s0 s : Session) : Prop :=
  (length (py_events (ss_maps s0)) ≤ ss_py_read s)%nat.
Definition resolver_caught_up (s0 s : Session) : Prop :=
  (length (resolver_events (ss_maps s0)) ≤ ss_resolver_read s)%nat.
Definition guard_caught_up (s0 s : Session) : Prop :=
  (length (guard_events (ss_maps s0)) ≤ ss_guard_read s)%nat.
(** Everything that was in the rings in [s0] has been read in [s]. *)
Definition caught_up (s0 s : Session) : Prop :=
  py_caught_up s0 s ∧ resolver_caught_up s0 s ∧ guard_caught_up s0 s.

(** The rings that the round which is under way has emptied. *)
Definition emptied (s0 s : Session) : Prop :=
  match ss_point s with
  | DrainPy => True
  | DrainResolver => py_caught_up s0 s
  | DrainGuard => py_caught_up s0 s ∧ resolver_caught_up s0 s
  | _ => caught_up s0 s
  end.

Lemma act_reads_mono a s :
  (ss_py_read s ≤ ss_py_read (act a s))%nat
  ∧ (ss_resolver_read s ≤ ss_resolver_read (act a s))%nat
  ∧ (ss_guard_read s ≤ ss_guard_read (act a s))%nat.
Proof.
  destruct a as [p e|sh el e]; cbn; [lia|]. unfold loop_step.
  destruct (ss_point s); repeat case_match; cbn; lia.
Qed.

Lemma caught_up_act s0 a s : caught_up s0 s → caught_up s0 (act a s).
Proof.
  unfold caught_up, py_caught_up, resolver_caught_up, guard_caught_up.
  pose proof (act_reads_mono a s). lia.
Qed.

Lemma emptied_act s0 a s :
  extends (ss_maps s0) (ss_maps s) → emptied s0 s → emptied s0 (act a s).
Proof.
  intros [_ H1%prefix_length H2%prefix_length H3%prefix_length].
  destruct a as [p e|sh el e]; cbn [act]; [done|].
  unfold emptied, loop_step, caught_up, py_caught_up, resolver_caught_up, guard_caught_up.
  destruct (ss_point s) eqn:E; repeat case_match; cbn in *; simplify_eq/=; rewrite ?E;
    repeat match goal with H : _ !! _ = None |- _ => apply lookup_ge_None in H end; try lia.
Qed.

Lemma run_extends s l : extends (ss_maps s) (ss_maps (run s l)).
Proof.
  apply (run_invariant (λ _, True) (λ s', extends (ss_maps s) (ss_maps s')));
    [intros a s' _; apply act_extends|by apply Forall_true|done].
Qed.

Lemma run_emptied s0 l : ss_point s0 = DrainPy → emptied s0 (run s0 l).
Proof.
  intros Hp. induction l as [|a l IH] using rev_ind; [unfold emptied; cbn; by rewrite Hp|].
  rewrite run_snoc. apply emptied_act; [apply run_extends|done].
Qed.

(** A round that is not over has advanced with each of its actions. *)
Lemma round_progress s0 l :
  ss_point s0 = DrainPy →
  caught_up s0 (run s0 l)
  ∨ (2 ≤ rank (ss_point (run s0 l)))%nat
    ∧ (loops l + consumed s0 + rank (ss_point (run s0 l)) ≤ consumed (run s0 l) + 4)%nat.
Proof.
  intros Hp. induction l as [|a l IH] using rev_ind; [right; cbn; rewrite Hp; cbn; lia|].
  pose proof (run_emptied s0 (l ++ [a]) Hp) as He.
  rewrite run_snoc, loops_snoc in *. destruct IH as [IH|[IH1 IH2]]; [left; by apply caught_up_act|].
  destruct a as [p e|sh el e]; cbn [act is_loop] in *;
    [right; cbn in *; unfold consumed in *; cbn in *; lia|].
  assert (ss_point (run s0 l) ≠ Finished ∧ ss_point (run s0 l) ≠ AtCheck) as [H1 H2].
  { split; intros E; rewrite E in IH1; cbn in IH1; lia. }
  pose proof (loop_advances sh el e _ H1 (λ H, False_ind _ (H2 H))). unfold emptied in He.
  destruct (ss_point (loop_step sh el e (run s0 l))); try (by left); right; cbn in *; lia.
Qed.

(** What was in a ring and has been read is found in the collection. *)
Lemma read_found {A B} (R : A → B → Prop) (evs0 evs : list A) outs n i ev :
  evs0 `prefix_of` evs → (length evs0 ≤ n)%nat → Forall2 R (take n evs) outs →
  evs0 !! i = Some ev → ∃ out, outs !! i = Some out ∧ R ev out.
Proof.
  intros Hpre Hn HR Hi. apply (Forall2_lookup_l _ _ _ _ _ HR).
  rewrite lookup_take_lt; [by eapply prefix_lookup_Some|]. apply lookup_lt_Some in Hi. lia.
Qed.

(** C22: what is in the rings when a round of the loop begins is reported.  After three
    more actions of the loop than there are records that were not read when the round
    began or that are logged by then (records that programs log meanwhile count too, so
    the number is not fixed in advance), each of them is in the collections: an event of
    the interpreter at the same place, perhaps with the tool of its context filled in; a
    candidate in its turn, followed by its failure if it could not be resolved; a guard
    event at the same place, rendered. *)
Theorem events_reported σ0 l0 l :
  let s0 := run (start_session σ0) l0 in
  ss_point s0 = DrainPy →
  let s := run s0 l in
  (3 + logged s - consumed s0 ≤ loops l)%nat →
  (∀ i ev, py_events (ss_maps s0) !! i = Some ev →
     ∃ out, rt_py_events (ss_runtime s) !! i = Some out ∧ collected ev out)
  ∧ (∃ outs, rt_resolver_events (ss_runtime s) = concat outs
       ∧ ∀ i ev, resolver_events (ss_maps s0) !! i = Some ev →
           ∃ out, outs !! i = Some out ∧ answered ev out)
  ∧ (∀ i ev, guard_events (ss_maps s0) !! i = Some ev →
       ∃ out, rt_guard_events (ss_runtime s) !! i = Some out ∧ shown ev out).
Proof.
  intros s0 Hp s Hn.
  assert (reported s ∧ reads_ok s) as [[H1 (outs & H2 & Hcat) H3] Hok%reads_logged].
  { unfold s, s0, run. rewrite <-foldl_app. apply (report_is_log_aux σ0 (l0 ++ l)). }
  assert (caught_up s0 s) as (C1 & C2 & C3).
  { destruct (round_progress s0 l Hp) as [|[Hr Hl]]; [done|]. fold s in Hr, Hl.
    pose proof (run_reads_ok σ0 l0) as Hs%reads_logged. fold s0 in Hs. lia. }
  destruct (run_extends s0 l) as [_ E1 E2 E3]. fold s in E1, E2, E3.
  split_and!; [|exists outs; split; [done|]|]; intros i ev Hi.
  - by apply (read_found _ _ _ _ _ _ _ E1 C1 H1).
  - by apply (read_found _ _ _ _ _ _ _ E2 C2 H2).
  - by apply (read_found _ _ _ _ _ _ _ E3 C3 H3).
Qed.

(** *** A busy ring *)

(** Whenever the loop looks, an interpreter event is waiting. *)
Fixpoint busy (s : Session) (l : list action) : Prop :=
  match l with
  | [] => True
  | a :: l =>
      (is_loop a = true → (ss_py_read s < length (py_events (ss_maps s)))%nat) ∧ busy (act a s) l
  end.

(** C27: a ring is read until it is found empty.  While an interpreter event is waiting at
    each action of the loop, the loop stays at the interpreter ring: however many actions
    it takes and whatever the signal and the clock say, it does not reach the stop test,
    and no candidate is resolved and no guard event collected. *)
Theorem busy_ring_starves s l :
  ss_point s = DrainPy → busy s l →
  let s' := run s l in
  ss_point s' = DrainPy
  ∧ ss_py_read s' = (ss_py_read s + loops l)%nat
  ∧ ss_resolver_read s' = ss_resolver_read s ∧ ss_guard_read s' = ss_guard_read s
  ∧ rt_resolver_events (ss_runtime s') = rt_resolver_events (ss_runtime s)
  ∧ rt_guard_events (ss_runtime s') = rt_guard_events (ss_runtime s).
Proof.
  revert s. induction l as [|a l IH]; intros s Hp Hb; [by rewrite Nat.add_0_r|].
  destruct Hb as [Ha Hb].
  assert (loops (a :: l) = (if is_loop a then 1 else 0) + loops l)%nat as ->
    by (by destruct a).
  change (run s (a :: l)) with (run (act a s) l).
  destruct a as [p e|sh el e]; cbn [act is_loop] in *; [by apply (IH (with_maps _ s))|].
  destruct (lookup_lt_is_Some_2 _ _ (Ha eq_refl)) as [ev Hev].
  assert (loop_step sh el e s
    = mkSession DrainPy (handle_py_event ev (ss_runtime s)) (S (ss_py_read s))
        (ss_resolver_read s) (ss_guard_read s) (ss_maps s)) as E
    by (unfold loop_step; by rewrite Hp, Hev).
  rewrite E in *. edestruct IH as (H1 & H2 & H3 & H4 & H5 & H6); [|exact Hb|]; [done|].
  cbv zeta. rewrite H1, H2, H3, H4, H5, H6. cbn. split_and!; [done|lia|done..].
Qed.

(** ** The end *)

Lemma finished_final s l :
  ss_point s = Finished → ss_point (run s l) = Finished ∧ ss_runtime (run s l) = ss_runtime s.
Proof.
  intros Hp. induction l as [|a l [IH1 IH2]] using rev_ind; [done|]. rewrite run_snoc.
  destruct a as [p e|sh el e]; cbn; [done|]. unfold loop_step. rewrite IH1. done.
Qed.

(** C38: the rings are not drained after the last test.  When the test of the loop says
    stop, the report holds what was read before, whatever the rings still hold: an
    action refused since the last round is not in it. *)
Theorem unread_events_lost σ0 l0 l shutdown elapsed e :
  let s := run (start_session σ0) l0 in
  ss_point s = AtCheck → stopping duration shutdown elapsed = true →
  let s' := run (loop_step shutdown elapsed e s) l in
  ss_point s' = Finished
  ∧ length (rt_guard_events (ss_runtime s')) = ss_guard_read s
  ∧ length (rt_py_events (ss_runtime s')) = ss_py_read s.
Proof.
  intros s Hp Hstop s'.
  assert (ss_point (loop_step shutdown elapsed e s) = Finished
          ∧ ss_runtime (loop_step shutdown elapsed e s) = ss_runtime s) as [H1 H2].
  { unfold loop_step. by rewrite Hp, Hstop. }
  destruct (finished_final _ l H1) as [H3 H4]. split; [done|]. unfold s'. rewrite H4, H2.
  destruct (report_is_log_aux σ0 l0) as [[R1 _ R3] (L1 & _ & L3)]. fold s in R1, R3, L1, L3.
  apply Forall2_length in R1, R3. rewrite length_take in R1. rewrite length_take in R3. lia.
Qed.

(** C19: the report is the log.  After any schedule of programs and loop actions, the
    events collected for the report are those read from the rings, in order, none
    missing, repeated or made up; only the tool of an event logged without one is filled
    in, and a candidate that could not be resolved is followed by its failure. *)
Theorem report_is_log σ0 l :
  let s := run (start_session σ0) l in reported s ∧ reads_ok s.
Proof. apply report_is_log_aux. Qed.

(** ** What holds throughout *)

(** C30: while programs run in any contexts (failing updates and evictions included) and
    user space writes answers back, the policy, the configuration, the classification
    rules and the offsets stay those that were loaded, and the three logs only grow. *)
Theorem session_policy_frozen σ0 l :
  let σ := ss_maps (run (start_session σ0) l) in
  policy_of σ = policy_of σ0
  ∧ py_events σ0 `prefix_of` py_events σ
  ∧ resolver_events σ0 `prefix_of` resolver_events σ
  ∧ guard_events σ0 `prefix_of` guard_events σ.
Proof. by destruct (run_extends (start_session σ0) l). Qed.

(** C6: from maps in which no stack is recorded, and as long as map updates succeed, in
    every state that the programs and the event loop reach in any interleaving, the
    contexts, tool frames and running workers of each thread and the contexts of each
    task form a contiguous list of bounded length that agrees with its depth entry. *)
Theorem session_stacks_wf σ0 l :
  fresh σ0 → Forall (reliable ∘ action_env) l →
  stacks_described (ss_maps (run (start_session σ0) l)).
Proof.
  intros H0 Hl. apply inv_described.
  apply (run_invariant reliable (λ s, Inv task_wf (ss_maps s))); [|done|by apply fresh_inv].
  intros [p e|sh el e] s He Hs; cbn [act with_maps ss_maps].
  - by apply keeps_run_probe.
  - unfold loop_step. destruct (ss_point s); repeat case_match; try done.
    by apply resolver_event_keeps.
Qed.
End session.

(** ** States of the running system *)

(** [σ] is a state that the programs and the event loop reach from [σ0]. *)
Definition reaches (σ0 σ : State) : Prop :=
  ∃ detect_for_pid duration l, σ = ss_maps (run detect_for_pid duration (start_session σ0) l).

Lemma reaches_refl σ : reaches σ σ.
Proof. by exists (λ _, None), 0, []. Qed.

Lemma reaches_extends σ0 σ : reaches σ0 σ → extends σ0 σ.
Proof. intros (detect & duration & l & ->). apply (run_extends detect duration (start_session σ0) l). Qed.

(** ** Instances *)

(** A program refuses thread 9 the file; the loop tests, drains, and tests again. *)
Definition refusal : action := Runs ag_file_open env_file.
Definition turn (shutdown : bool) : action := Loop shutdown 0 env0.
Definition sample_session (l : list action) : Session :=
  run (λ _, None) 0 (start_session (state_denied MODE_ENFORCE)) l.

Lemma session_terminates_witness :
  ss_point (run (λ _, None) 0 (sample_session [turn false]) (refusal :: replicate 6 (turn true)))
  = Finished.
Proof.
  apply (session_terminates (λ _, None) 0 (state_denied MODE_ENFORCE) [turn false]).
  - repeat constructor.
  - vm_compute. lia.
Defined.

Lemma events_reported_witness :
  ∃ ev out, guard_events (ss_maps (sample_session [turn false; refusal])) !! 0%nat = Some ev
    ∧ rt_guard_events (ss_runtime (run (λ _, None) 0 (sample_session [turn false; refusal])
        (replicate 6 (turn false)))) !! 0%nat = Some out
    ∧ shown ev out.
Proof.
  destruct (events_reported (λ _, None) 0 (state_denied MODE_ENFORCE) [turn false; refusal]
    (replicate 6 (turn false))) as (_ & _ & H); [reflexivity|vm_compute; lia|].
  destruct (guard_events (ss_maps (sample_session [turn false; refusal])) !! 0%nat) as [ev|] eqn:E;
    [|vm_compute in E; discriminate E].
  destruct (H 0%nat ev E) as (out & Ho & Hs).
  exists ev, out. split; [reflexivity|]. split; [exact Ho|exact Hs].
Defined.

(** Two interpreter events are waiting, the stop is requested, and a program refuses an
    access: the loop is still at the interpreter ring and the refusal is not collected. *)
Definition state_busy : State :=
  set_py_events (replicate 2 {| pe_pid := 7; pe_tid := 9; pe_ts_ns := 0; pe_kind := 0;
    pe_ctx_id := 0; pe_tool_id := 0; pe_carrier_ptr := 0; pe_aux := 0 |})
    (state_denied MODE_ENFORCE).
Definition busy_schedule : list action := [turn true; refusal; turn true].

Lemma busy_ring_starves_witness :
  let s := run (λ _, None) 0 (start_session state_busy) [turn false] in
  let s' := run (λ _, None) 0 s busy_schedule in
  ss_point s' = DrainPy ∧ length (guard_events (ss_maps s')) = 1%nat
  ∧ rt_guard_events (ss_runtime s') = rt_guard_events (ss_runtime s).
Proof.
  cbv zeta.
  destruct (busy_ring_starves (λ _, None) 0 (run (λ _, None) 0 (start_session state_busy)
    [turn false]) busy_schedule) as (H1 & _ & _ & _ & _ & H2);
    [vm_compute; reflexivity|cbn [busy busy_schedule]; split_and!; [intros _|intros [=]|intros _|done];
      vm_compute; lia|].
  split; [exact H1|]. split; [vm_compute; reflexivity|exact H2].
Defined.

Lemma unread_events_lost_witness :
  (run_probe ag_file_open env_file (state_denied MODE_ENFORCE)).1 = -1
  ∧ length (guard_events (ss_maps (sample_session (replicate 4 (turn false) ++ [refusal])))) = 1%nat
  ∧ length (rt_guard_events (ss_runtime (run (λ _, None) 0
      (loop_step (λ _, None) 0 true 0 env0
        (sample_session (replicate 4 (turn false) ++ [refusal]))) []))) = 0%nat.
Proof.
  split; [vm_compute; reflexivity|]. split; [vm_compute; reflexivity|].
  apply (unread_events_lost (λ _, None) 0 (state_denied MODE_ENFORCE)
    (replicate 4 (turn false) ++ [refusal]) [] true 0 env0); vm_compute; reflexivity.
Defined.

Lemma session_stacks_wf_witness :
  stacks_described (ss_maps (run (λ _, None) 0 (start_session empty_state)
    [turn false; Runs eval_frame_entry env0; turn false])).
Proof.
  apply (session_stacks_wf (λ _, None) 0 empty_state).
  - by unfold fresh.
  - repeat (constructor; [done|]). constructor.
Defined.
