(* ===== verification/Exit.v ===== *)
(** * Exit of a thread ([lifecycle.rs], [fork_probes.rs])

    What the exit program clears of the maps that are keyed by the thread's identifier,
    which the kernel will give to another thread, and what it leaves in them. *)

From stdpp Require Import base gmap list.
From S2P Require Import Prelude Types Maps Ownership Identity Worker Frames Tasks Events Lsm.
From S2P Require Import Probes Monotone Contexts Stacks ThreadStack ToolStack TaskStack.
From S2P Require Import Invariant System Samples.

(** ** Stepping through a handler *)

Section after.
Context (e : Env).

(** Go past the first operation, keeping what [Q] says of the state after it. *)
Lemma after_bind {A B} (Q P : State → Prop) (m : M A) (k : A → M B) σ :
  Q (m e σ).2 → (∀ a σ1, Q σ1 → P (k a e σ1).2) → P ((m ≫= k) e σ).2.
Proof. intros Hm Hk. by apply Hk. Qed.

Lemma leaves_at {A B} (f : State → A) (P : A → Prop) (m : M B) σ :
  Leaves f m → P (f σ) → P (f (m e σ).2).
Proof. intros Hm HP. by rewrite (Hm (f σ) e σ I eq_refl). Qed.
End after.

Ltac skip := cbv zeta; apply (after_bind _ (λ _, True)); [done|intros ? ? _; cbv zeta].

(** ** The parts of [reap_thread] *)

(** A thread without an active context does not get one back when its binding to a
    worker is cleared. *)
Lemma clear_worker_ctx_inactive tid en e σ :
  thread_active_ctx σ !! tid = None →
  thread_active_ctx (clear_threadpool_worker_ctx tid en e σ).2 !! tid = None.
Proof.
  intros Hn. unfold clear_threadpool_worker_ctx. mstep. mstep. mstep. mstep.
  unfold active_of, prune_active. sproj. rewrite Hn. rewrite bool_decide_eq_false_2 by done.
  erewrite bind_run by by rewrite when_run. rewrite dropped_run. cbn [snd].
  match goal with |- context [dropped e ?c ?s] =>
    destruct (dropped_shape e c s) as (cs & evs & t & -> & _) end. by sproj.
Qed.

Lemma clear_worker_thread_inactive tid e σ :
  thread_active_ctx σ !! tid = None →
  thread_active_ctx (clear_threadpool_worker_for_thread tid e σ).2 !! tid = None.
Proof.
  intros Hn. unfold clear_threadpool_worker_for_thread. mstep. sproj.
  apply (after_bind e (λ σ, thread_active_ctx σ !! tid = None)).
  { destruct (threadpool_worker_ctx σ !! tid); [by apply clear_worker_ctx_inactive|done]. }
  intros _ σ1 H1. by mrun.
Qed.

Lemma clear_worker_thread_unbound tid e σ :
  threadpool_worker_ctx (clear_threadpool_worker_for_thread tid e σ).2 !! tid = None.
Proof.
  unfold clear_threadpool_worker_for_thread. mstep. sproj.
  apply (after_bind e (λ σ, threadpool_worker_ctx σ !! tid = None)).
  { destruct (threadpool_worker_ctx σ !! tid) as [en|] eqn:E; [|done].
    unfold clear_threadpool_worker_ctx. mstep.
    match goal with |- context [?m e ?s] =>
      lazymatch m with mbind _ _ =>
        apply (leaves_at e threadpool_worker_ctx (λ x, x !! tid = None) m s) end end; [leaves|].
    sproj. apply lookup_delete_eq. }
  intros _ σ1 H1. by mrun.
Qed.

(** The last operations clear the frames and the interpreter state of the thread. *)
Lemma clear_worker_thread_frames tid e σ :
  let σ' := (clear_threadpool_worker_for_thread tid e σ).2 in
  threadpool_worker_frame σ' !! tid = None ∧ thread_current_frame σ' !! tid = None
  ∧ thread_tstate σ' !! tid = None.
Proof.
  unfold clear_threadpool_worker_for_thread. do 2 skip. split_and!; apply lookup_delete_eq.
Qed.

(** What the exit program clears: of the maps keyed by threads, all but the two of the
    stack of tool frames and, in some states, the context bound by [fork]. *)
Record thread_cleared (tid : Z) (σ : State) : Prop := {
  cleared_stack : thread_ctx_depth σ !! tid = None;
  cleared_active : thread_active_ctx σ !! tid = None;
  cleared_task : thread_active_task σ !! tid = None;
  cleared_spawn : pending_worker_spawn σ !! tid = None;
  cleared_binding : threadpool_worker_ctx σ !! tid = None;
  cleared_worker_frame : threadpool_worker_frame σ !! tid = None;
  cleared_current_frame : thread_current_frame σ !! tid = None;
  cleared_tstate : thread_tstate σ !! tid = None;
  cleared_stash : frame_stash_depth σ !! tid = None;
  cleared_runs : worker_run_depth σ !! tid = None;
  cleared_step : task_step_stash σ !! tid = None;
  cleared_prev : task_step_prev_task σ !! tid = None
}.

(** One map: the operations up to the one that clears it are skipped, the rest
    leaves it alone. *)
Tactic Notation "cleared_by" integer(n) constr(f) :=
  unfold reap_thread; do n skip;
  lazymatch goal with
  | |- _ !! ?t = None =>
      apply (after_bind _ (λ σ, f σ !! t = None));
      [|intros ? ? ?; apply (leaves_at _ f (λ x, x !! t = None)); [leaves|done]]
  end.

Lemma reap_thread_clears tid e σ : thread_cleared tid (reap_thread tid e σ).2.
Proof.
  constructor.
  - cleared_by 1 thread_ctx_depth. unfold reap_ctx_stack. skip. apply lookup_delete_eq.
  - unfold reap_thread. do 3 skip. apply (after_bind e (λ σ, thread_active_ctx σ !! tid = None)).
    { apply lookup_delete_eq. }
    intros _ ? H1. apply (after_bind e (λ σ, thread_active_ctx σ !! tid = None)); [done|].
    intros _ ? H2. apply (after_bind e (λ σ, thread_active_ctx σ !! tid = None)); [done|].
    intros _ ? H3. apply (after_bind e (λ σ, thread_active_ctx σ !! tid = None)).
    { by apply clear_worker_thread_inactive. }
    intros _ ? H4. apply (leaves_at e thread_active_ctx (λ x, x !! tid = None)); [leaves|done].
  - cleared_by 4 thread_active_task. apply lookup_delete_eq.
  - cleared_by 5 pending_worker_spawn. apply lookup_delete_eq.
  - cleared_by 6 threadpool_worker_ctx. apply clear_worker_thread_unbound.
  - cleared_by 6 threadpool_worker_frame. apply clear_worker_thread_frames.
  - cleared_by 6 thread_current_frame. apply clear_worker_thread_frames.
  - cleared_by 6 thread_tstate. apply clear_worker_thread_frames.
  - cleared_by 7 frame_stash_depth. unfold reap_frame_stash. do 2 skip. apply lookup_delete_eq.
  - cleared_by 8 worker_run_depth. unfold clear_worker_runs_for_thread. do 2 skip.
    apply lookup_delete_eq.
  - cleared_by 9 task_step_stash. apply lookup_delete_eq.
  - unfold reap_thread. do 10 skip. apply lookup_delete_eq.
Qed.

(** ** The theorem *)

(** The last step of the exit program touches the protected processes only. *)
Definition unprotect (e : Env) (σ : State) : State :=
  if cur_tid e =? cur_tgid e
  then set_protected_tgids (delete (cur_tgid e) (protected_tgids σ)) σ else σ.

Lemma sched_exit_run e σ :
  (run_probe sched_process_exit e σ).2 = unprotect e (reap_thread (cur_tid e) e σ).2.
Proof.
  cbn [run_probe]. unfold or_zero, handle_sched_exit.
  erewrite bind_run by apply surjective_pairing. cbn [snd mret probeM_ret]. mstep. mstep.
  erewrite bind_run by apply surjective_pairing. mrun. unfold unprotect.
  by destruct (cur_tid e =? cur_tgid e).
Qed.

Lemma unprotect_cleared e σ :
  thread_cleared (cur_tid e) σ →
  thread_cleared (cur_tid e) (unprotect e σ)
  ∧ (cur_tid e = cur_tgid e → protected_tgids (unprotect e σ) !! cur_tgid e = None).
Proof.
  intros []. unfold unprotect. split.
  - destruct (cur_tid e =? cur_tgid e); by constructor.
  - intros E. rewrite (proj2 (Z.eqb_eq _ _) E). sproj. apply lookup_delete_eq.
Qed.

Lemma sched_exit_cleared e σ :
  thread_cleared (cur_tid e) (run_probe sched_process_exit e σ).2
  ∧ (cur_tid e = cur_tgid e →
     protected_tgids (run_probe sched_process_exit e σ).2 !! cur_tgid e = None).
Proof. rewrite sched_exit_run. apply unprotect_cleared, reap_thread_clears. Qed.

(** *** What is left *)

(** The context that [fork] bound to the thread is dropped only when no context is on the
    thread's stack. *)
Definition reaped_fork_ctx (tid : Z) (σ : State) : gmap Z Z :=
  if unwrap_or (thread_ctx_depth σ !! tid) 0 =? 0 then delete tid (fork_ctx σ) else fork_ctx σ.

Lemma reap_fork_ctx_gone tid e σ : fork_ctx (reap_fork_ctx tid e σ).2 = delete tid (fork_ctx σ).
Proof.
  unfold reap_fork_ctx. mstep. sproj. destruct (fork_ctx σ !! tid) as [ctx_id|] eqn:E.
  - set (F := fork_ctx σ).
    apply (after_bind e (λ σ, fork_ctx σ = F));
      [apply (leaves_at e fork_ctx (λ x, x = F)); [leaves|done]|intros ? σ1 H1].
    apply (after_bind e (λ σ, fork_ctx σ = F));
      [apply (leaves_at e fork_ctx (λ x, x = F)); [leaves|done]|intros ? σ2 H2].
    apply (after_bind e (λ σ, fork_ctx σ = delete tid F)); [by rewrite <-H2|].
    intros _ ? H3. apply (leaves_at e fork_ctx (λ x, x = delete tid F)); [leaves|done].
  - cbn. by rewrite delete_id.
Qed.

Lemma reap_thread_fork tid e σ : fork_ctx (reap_thread tid e σ).2 = reaped_fork_ctx tid σ.
Proof.
  unfold reap_thread, reaped_fork_ctx. mstep. cbv zeta.
  apply (after_bind e (λ σ1, fork_ctx σ1 = fork_ctx σ)).
  { apply (leaves_at e fork_ctx (λ x, x = fork_ctx σ)); [leaves|done]. }
  intros _ σ1 <-. match goal with |- _ = ?x => set (r := x) end.
  apply (after_bind e (λ σ2, fork_ctx σ2 = r)); [|intros _ σ2 H2].
  - subst r. destruct (_ =? 0); cbn [when]; [apply reap_fork_ctx_gone|done].
  - apply (leaves_at e fork_ctx (λ x, x = r)); [leaves|done].
Qed.

(** What the exit program leaves of a thread. *)
Record thread_leftover (tid : Z) (σ σ' : State) : Prop := {
  left_tool_stack : tool_stack σ' = tool_stack σ;
  left_tool_depth : tool_stack_depth σ' = tool_stack_depth σ;
  left_fork : fork_ctx σ' = reaped_fork_ctx tid σ
}.

Lemma unprotect_fork e σ : fork_ctx (unprotect e σ) = fork_ctx σ.
Proof. unfold unprotect. by destruct (cur_tid e =? cur_tgid e). Qed.

Lemma sched_exit_leftover e σ :
  thread_leftover (cur_tid e) σ (run_probe sched_process_exit e σ).2.
Proof.
  constructor.
  - apply (leaves_at e tool_stack (λ x, x = tool_stack σ)); [cbn [run_probe]; leaves|done].
  - apply (leaves_at e tool_stack_depth (λ x, x = tool_stack_depth σ)); [cbn [run_probe]; leaves|done].
  - rewrite sched_exit_run, <-(reap_thread_fork _ e). apply unprotect_fork.
Qed.


(** Thread 9 exits with a context on its stack, a tool frame and a context from [fork]:
    the first is cleared, the other two stay. *)
Definition state_exiting : State :=
  set_fork_ctx {[9 := 18]} (tool_stack_push 9 17 0 0 0 env0
    (ctx_stack_push 9 17 env0 empty_state).2).2.

Lemma fork_ctx_inv v σ : Inv task_wf σ → Inv task_wf (set_fork_ctx v σ).
Proof. intros []. by constructor. Qed.

