(* ===== verification/ToolLife.v ===== *)
(** * The life of a tool invocation ([frame_probes.rs])

    From the entry of a tool's root frame to its exit, for a frame that runs
    outside asyncio: what the thread, the frame and the context look like in
    between and what is left afterwards. *)

From stdpp Require Import base gmap list.
From S2P Require Import Prelude Types Maps Samples Ownership Identity Worker Frames Tasks.
From S2P Require Import Events Lsm Probes Monotone Contexts Stacks ThreadStack ToolStack.

(** ** Start *)

(** Publishing a context: it is stored, bound to its frame, pushed and active. *)
Definition published (e : Env) (tid frame_ptr ctx_id : Z) (c : ToolCtx) (l : list Z) (σ : State)
    : State :=
  pushed tid ctx_id l
    (set_tick (S (S (tick σ)))
      (set_frame_ctx (<[py_object_key e frame_ptr := ctx_id]> (frame_ctx σ))
        (set_tool_ctx (<[ctx_id := c]> (tool_ctx σ)) σ))).

Lemma publish_ctx_run tid frame_ptr ctx_id c e σ l :
  reliable e → thread_stack σ tid l → (length l < 8)%nat →
  publish_ctx tid frame_ptr ctx_id c e σ = (true, published e tid frame_ptr ctx_id c l σ).
Proof.
  intros He Hl Hlt. unfold publish_ctx. mstep. mstep. mstep. sproj.
  erewrite bind_run by by apply (ctx_stack_push_run _ _ _ _ l). cbn [is_ok]. mrun.
  unfold published. by sproj.
Qed.

Lemma published_facts e tid frame_ptr ctx_id c l σ :
  in_u32 tid → thread_stack σ tid l → (length l < 8)%nat →
  let σ' := published e tid frame_ptr ctx_id c l σ in
  tool_ctx σ' = <[ctx_id := c]> (tool_ctx σ)
  ∧ frame_ctx σ' = <[py_object_key e frame_ptr := ctx_id]> (frame_ctx σ)
  ∧ thread_active_ctx σ' !! tid = Some ctx_id
  ∧ thread_active_task σ' = thread_active_task σ ∧ py_events σ' = py_events σ
  ∧ (∀ fl, tool_frames σ tid fl → tool_frames σ' tid fl)
  ∧ thread_stack σ' tid (l ++ [ctx_id]).
Proof.
  intros Ht Hl Hlt. unfold published.
  split_and!; [done|done|apply lookup_insert_eq|done|done|done|]. by apply pushed_stack.
Qed.

(** With eight contexts on the stack nothing is left of the new one. *)
Lemma publish_ctx_full tid frame_ptr ctx_id c e σ l :
  reliable e → thread_stack σ tid l → length l = 8%nat →
  let σ' := (publish_ctx tid frame_ptr ctx_id c e σ).2 in
  (publish_ctx tid frame_ptr ctx_id c e σ).1 = false
  ∧ tool_ctx σ' = delete ctx_id (tool_ctx σ)
  ∧ frame_ctx σ' = delete (py_object_key e frame_ptr) (frame_ctx σ)
  ∧ thread_stack σ' tid l ∧ thread_active_ctx σ' = thread_active_ctx σ.
Proof.
  intros He Hl H8. unfold publish_ctx. mstep. mstep. mstep. sproj.
  erewrite bind_run by by apply (ctx_stack_push_full_run _ _ _ _ l). cbn [is_ok]. mrun. cbn [fst snd].
  unfold logged. sproj. split_and!; [done|by rewrite delete_insert_eq|by rewrite delete_insert_eq|done|done].
Qed.

Lemma with_active_task_none tid k e σ :
  thread_active_task σ !! tid = None → with_active_task tid k e σ = (tt, σ).
Proof. intros Hn. unfold with_active_task. mstep. sproj. by rewrite Hn. Qed.

(** The state after [start_cached_self_tool_root], without an active task. *)
Record started (e : Env) (tid frame_ptr parent_ptr tool_id flags ctx_id : Z) (l : list Z)
    (fl : list ToolStackEntry) (σ σ' : State) : Prop := {
  st_ctx : ∃ ts, tool_ctx σ' = <[ctx_id := new_tool_ctx tool_id
                                   (Z.lor TOOL_CTX_FLAG_RESOLVED flags) ts]> (tool_ctx σ);
  st_frame : frame_ctx σ' = <[py_object_key e frame_ptr := ctx_id]> (frame_ctx σ);
  st_stack : thread_stack σ' tid (l ++ [ctx_id]);
  st_active : thread_active_ctx σ' !! tid = Some ctx_id;
  st_tools : tool_frames σ' tid
               (if (length fl <? 8)%nat
                then fl ++ [tool_entry ctx_id frame_ptr parent_ptr tool_id] else fl);
  st_events : ∃ σ1, py_events σ' = py_events σ ++ event_log e σ1 (cur_tgid e) (cur_tid e)
                                     EVENT_TOOL_START ctx_id tool_id 0 0;
  st_task : thread_active_task σ' = thread_active_task σ
}.

(** The part of the start that follows the publication. *)
Lemma start_tail_run tid frame_ptr parent_ptr tool_id ctx_id e σ fl :
  reliable e → in_u32 tid → tool_frames σ tid fl → thread_active_task σ !! tid = None →
  ∃ stk dep t σ1,
    (tool_stack_push tid ctx_id frame_ptr parent_ptr tool_id;;
     emit_py_event EVENT_TOOL_START ctx_id tool_id;;
     with_active_task tid (task_push_ignore tid ctx_id tool_id);;
     mret (Ok tt : result unit)) e σ
    = (Ok tt, set_tick t (set_py_events (py_events σ ++ event_log e σ1 (cur_tgid e) (cur_tid e)
                                            EVENT_TOOL_START ctx_id tool_id 0 0)
                (set_tool_stack_depth dep (set_tool_stack stk σ))))
    ∧ owner_stack tool_key (2 ^ 32) 8 stk dep tid
        (if (length fl <? 8)%nat
         then fl ++ [tool_entry ctx_id frame_ptr parent_ptr tool_id] else fl).
Proof.
  intros He Ht Hfl Htask.
  destruct (tool_stack_push_spec tid ctx_id frame_ptr parent_ptr tool_id e σ fl)
    as (σ2 & Hrun & (stk & dep & t & E & Hch)); [done..|].
  exists stk, dep, (event_tick e σ2), σ2. split; [|apply Hch].
  erewrite bind_run by exact Hrun. mstep. erewrite bind_run; last first.
  { apply with_active_task_none. unfold logged. rewrite E. exact Htask. }
  mrun. unfold logged. f_equal. rewrite E. reflexivity.
Qed.

Lemma start_run tid frame_ptr parent_ptr tool_id flags e σ l fl :
  reliable e → in_u32 tid → tool_id ≠ TOOL_IDLE →
  thread_stack σ tid l → (length l < 8)%nat → tool_frames σ tid fl →
  thread_active_task σ !! tid = None →
  let cpu := u32 (processor_id e) in
  ∃ σ', start_cached_self_tool_root tid frame_ptr parent_ptr tool_id flags e σ = (Ok tt, σ')
    ∧ started e tid frame_ptr parent_ptr tool_id flags (ctx_id_of cpu (next_id σ cpu)) l fl σ σ'.
Proof.
  intros He Ht Htool Hl Hlt Hfl Htask cpu. unfold start_cached_self_tool_root.
  destruct (Z.eqb_spec tool_id TOOL_IDLE); [done|]. mstep. cbv beta iota. mstep.
  fold cpu. generalize (ctx_id_of cpu (next_id σ cpu)) as id. intros id.
  erewrite bind_run by by apply (publish_ctx_run _ _ _ _ _ _ l). cbv beta iota.
  match goal with |- context [published e tid frame_ptr id ?c l ?s] =>
    generalize (published_facts e tid frame_ptr id c l s Ht Hl Hlt);
    generalize (published e tid frame_ptr id c l s) end.
  intros σ1 (Hc & Hf & Ha & Hk & Hev & Hfl' & Hst).
  destruct (start_tail_run tid frame_ptr parent_ptr tool_id id e σ1 fl)
    as (stk & dep & t & σ2 & -> & Htl); [done|done|by apply Hfl'|by rewrite Hk|].
  eexists. split; [done|]. constructor; sproj.
  - by eexists.
  - done.
  - exact Hst.
  - done.
  - exact Htl.
  - rewrite Hev. by eexists.
  - done.
Qed.

(** ** End *)

(** The close of a frame that owns the last reference on its context. *)
Record ended (e : Env) (tid ctx_id tool_id : Z) (key : PyObjectKey) (l : list Z) (σ σ' : State)
    : Prop := {
  en_ctx : tool_ctx σ' = delete ctx_id (tool_ctx σ);
  en_frame : frame_ctx σ' = delete key (frame_ctx σ);
  en_stack : thread_stack σ' tid l;
  en_active : thread_active_ctx σ' !! tid = last l;
  en_events : ∃ σ1 σ2 t, py_events σ' = py_events σ
    ++ event_log e σ1 (cur_tgid e) (cur_tid e) EVENT_TOOL_FRAME_END ctx_id tool_id 0 0
    ++ event_log e σ2 (cur_tgid e) (cur_tid e) EVENT_TOOL_CONTEXT_END ctx_id t 0 0
}.

(** Logging and dropping a reference touch neither stacks nor frames. *)
Lemma logged_dropped_facts e c σ pid tid' kind tool :
  let σ' := dropped e c (logged e pid tid' kind c tool 0 0 σ) in
  (∀ tid l, thread_stack σ tid l → thread_stack σ' tid l)
  ∧ thread_active_ctx σ' = thread_active_ctx σ ∧ frame_ctx σ' = frame_ctx σ.
Proof.
  destruct (dropped_shape e c (logged e pid tid' kind c tool 0 0 σ)) as (cs & evs & t & E & _).
  cbv zeta. rewrite E. split_and!; [|done|done]. intros tid l. by apply thread_stack_ext.
Qed.

(** Dropping the last reference frees the context and logs its end. *)
Lemma dropped_last e c σ x :
  tool_ctx σ !! c = Some x → tc_carrier_count x ≤ 1 →
  tool_ctx (dropped e c σ) = delete c (tool_ctx σ)
  ∧ py_events (dropped e c σ) = py_events σ ++ event_log e σ (cur_tgid e) (cur_tid e)
                                  EVENT_TOOL_CONTEXT_END c (tc_tool_id x) 0 0.
Proof.
  intros Hx Hc. unfold dropped. rewrite carrier_dec_run, Hx. cbn [snd].
  by destruct (Z.gtb_spec (tc_carrier_count x) 1); [lia|].
Qed.

Lemma finish_run tid en e σ l c :
  reliable e → in_u32 tid → thread_stack σ tid (l ++ [se_ctx_id en]) → se_ctx_id en ∉ l →
  frame_ctx σ !! py_object_key e (se_frame_ptr en) = Some (se_ctx_id en) →
  tool_ctx σ !! se_ctx_id en = Some c → tc_carrier_count c ≤ 1 →
  ∃ σ', finish_tool_close tid en e σ = (true, σ')
    ∧ ended e tid (se_ctx_id en) (se_tool_id en) (py_object_key e (se_frame_ptr en)) l σ σ'.
Proof.
  intros He Ht Hl Hnin Hf Hc Hcount. unfold finish_tool_close. mstep. mstep. sproj. rewrite Hf.
  rewrite bool_decide_eq_true_2 by done. mstep. sproj.
  match goal with |- context [mbind _ (ctx_stack_remove _ _) _ ?s] =>
    pose proof (ctx_stack_remove_spec tid (se_ctx_id en) e s _ He Ht Hl) as Hr;
    destruct (ctx_stack_remove tid (se_ctx_id en) e s) as [r σ2] eqn:Hrun end.
  erewrite bind_run by exact Hrun. destruct Hr as (Hst & _ & Hact & (stk & dep & act & t & E)).
  destruct Hact as [-> Hact]; [set_solver|]. rewrite remove_first_snoc in Hst, Hact by done.
  assert (tool_ctx σ2 = tool_ctx σ ∧ py_events σ2 = py_events σ
    ∧ frame_ctx σ2 = delete (py_object_key e (se_frame_ptr en)) (frame_ctx σ)) as (Et & Ee & Ef)
    by by rewrite E.
  clear E Hrun. mstep. mstep. eexists. split; [by mrun|].
  pose proof (logged_dropped_facts e (se_ctx_id en) σ2 (cur_tgid e) (cur_tid e)
    EVENT_TOOL_FRAME_END (se_tool_id en)) as (Hts & Hta & Hfr).
  destruct (dropped_last e (se_ctx_id en)
    (logged e (cur_tgid e) (cur_tid e) EVENT_TOOL_FRAME_END (se_ctx_id en) (se_tool_id en) 0 0 σ2)
    c) as [Hd Hde]; [by rewrite <-Hc, <-Et|done|].
  constructor.
  - rewrite Hd. unfold logged. sproj. by rewrite Et.
  - by rewrite Hfr.
  - by apply Hts.
  - by rewrite Hta.
  - rewrite Hde. eexists _, _, _. unfold logged at 1. sproj. by rewrite Ee, <-app_assoc.
Qed.

(** Without an active task the close of a tool frame is immediate. *)
Lemma close_run tid en e σ l c :
  reliable e → in_u32 tid → thread_stack σ tid (l ++ [se_ctx_id en]) → se_ctx_id en ∉ l →
  frame_ctx σ !! py_object_key e (se_frame_ptr en) = Some (se_ctx_id en) →
  tool_ctx σ !! se_ctx_id en = Some c → tc_carrier_count c ≤ 1 →
  thread_active_task σ !! tid = None →
  ∃ σ', close_tool_stack_entry tid en e σ = (Ok tt, σ')
    ∧ ended e tid (se_ctx_id en) (se_tool_id en) (py_object_key e (se_frame_ptr en)) l σ σ'.
Proof.
  intros He Ht Hl Hnin Hf Hc Hcount Htask.
  destruct (finish_run tid en e σ l c) as (σ' & Hrun & Hend); [done..|].
  exists σ'. split; [|done]. unfold close_tool_stack_entry. mstep. mstep. sproj. rewrite Hf.
  rewrite bool_decide_eq_true_2 by done. cbn [negb]. mstep. sproj. rewrite Htask.
  cbn [unwrap_or Z.eqb negb]. by erewrite bind_run by exact Hrun.
Qed.

(** ** The theorems *)

(** The start of a known tool on a thread with room: a context with one
    reference and the tool's identity is stored, bound to the frame, on top of the
    thread's stack and active, and its start is logged. *)
Theorem tool_start tid frame_ptr parent_ptr tool_id flags e σ l fl :
  reliable e → in_u32 tid → tool_id ≠ TOOL_IDLE →
  thread_stack σ tid l → (length l < 8)%nat → tool_frames σ tid fl →
  thread_active_task σ !! tid = None →
  let cpu := u32 (processor_id e) in
  ∃ σ', start_cached_self_tool_root tid frame_ptr parent_ptr tool_id flags e σ = (Ok tt, σ')
    ∧ started e tid frame_ptr parent_ptr tool_id flags (ctx_id_of cpu (next_id σ cpu)) l fl σ σ'.
Proof. apply start_run. Qed.

Lemma tool_start_witness :
  ∃ σ', start_cached_self_tool_root 9 640 320 5 0 env0 empty_state = (Ok tt, σ')
    ∧ started env0 9 640 320 5 0 (2 ^ 56 + 1) [] [] empty_state σ'.
Proof.
  apply (tool_start 9 640 320 5 0 env0 empty_state [] []);
    [done|unfold in_u32; lia|done|apply empty_thread_stack|cbn; lia| |done].
  split_and!; [intros i _; apply lookup_empty|apply lookup_empty|done].
Defined.

(** The tool that [σ1] has just started for a frame is still at work in [σ]: its context
    is on top of the thread's stack, bound to the frame and referenced by nothing else,
    and the thread runs no asyncio task. *)
Record at_work (tid id : Z) (key : PyObjectKey) (l : list Z) (σ : State) : Prop := {
  aw_stack : thread_stack σ tid (l ++ [id]);
  aw_frame : frame_ctx σ !! key = Some id;
  aw_ctx : ∃ x, tool_ctx σ !! id = Some x ∧ tc_carrier_count x ≤ 1;
  aw_task : thread_active_task σ !! tid = None
}.

(** C14: a tool invocation is a bracket.  A tool started on a thread with room on its
    stack and without an asyncio task, in a frame that is not bound and with an identifier
    not in use, is active there and logged, provided map updates succeed; in every later state
    in which it is still at work, whatever happened meanwhile, closing its frame removes
    its context, the binding of the frame and the entry on the stack and nothing else of
    these, makes the top of the stack active (so not a context that was active without
    being on the stack) and logs the end of the frame and of the context, in this order.
    Closed at once, contexts and frames are those before the start. *)
Theorem tool_start_close tid frame_ptr parent_ptr tool_id flags e e' σ l fl :
  reliable e → reliable e' → cur_tgid e' = cur_tgid e → in_u32 tid → tool_id ≠ TOOL_IDLE →
  thread_stack σ tid l → (length l < 8)%nat → tool_frames σ tid fl →
  thread_active_task σ !! tid = None → frame_ctx σ !! py_object_key e frame_ptr = None →
  let id := ctx_id_of (u32 (processor_id e)) (next_id σ (u32 (processor_id e))) in
  let key := py_object_key e frame_ptr in
  id ∉ l → tool_ctx σ !! id = None →
  ∃ σ1, start_cached_self_tool_root tid frame_ptr parent_ptr tool_id flags e σ = (Ok tt, σ1)
    ∧ thread_active_ctx σ1 !! tid = Some id
    ∧ (∃ s1, py_events σ1 = py_events σ
         ++ event_log e s1 (cur_tgid e) (cur_tid e) EVENT_TOOL_START id tool_id 0 0)
    ∧ at_work tid id key l σ1
    ∧ delete id (tool_ctx σ1) = tool_ctx σ ∧ delete key (frame_ctx σ1) = frame_ctx σ
    ∧ ∀ σ', at_work tid id key l σ' →
        ∃ σ2, close_tool_stack_entry tid (tool_entry id frame_ptr parent_ptr tool_id) e' σ'
              = (Ok tt, σ2)
          ∧ tool_ctx σ2 = delete id (tool_ctx σ') ∧ frame_ctx σ2 = delete key (frame_ctx σ')
          ∧ thread_stack σ2 tid l ∧ thread_active_ctx σ2 !! tid = last l
          ∧ ∃ s2 s3 t, py_events σ2 = py_events σ'
              ++ event_log e' s2 (cur_tgid e') (cur_tid e') EVENT_TOOL_FRAME_END id tool_id 0 0
              ++ event_log e' s3 (cur_tgid e') (cur_tid e') EVENT_TOOL_CONTEXT_END id t 0 0.
Proof.
  intros He He' Hg Ht Htool Hl Hlt Hfl Htask Hframe id key Hid Hnew.
  destruct (start_run tid frame_ptr parent_ptr tool_id flags e σ l fl)
    as (σ1 & Hrun & [(ts & Hctx) Hfr Hst Hact _ Hev Htk]); [done..|].
  fold id key in Hctx, Hfr, Hst, Hact, Hev.
  assert (py_object_key e' frame_ptr = key) as Hkey.
  { unfold key, py_object_key. by rewrite Hg. }
  exists σ1. split_and!; [done|done|done| | | |].
  - constructor; [done|by rewrite Hfr, lookup_insert_eq| |by rewrite Htk].
    rewrite Hctx, lookup_insert_eq. by eexists.
  - by rewrite Hctx, delete_insert_id.
  - by rewrite Hfr, delete_insert_id.
  - intros σ' [Hs Hf (x & Hx & Hcount) Hk].
    destruct (close_run tid (tool_entry id frame_ptr parent_ptr tool_id) e' σ' l x)
      as (σ2 & Hrun' & [Ec Ef Es Ea Ee]); cbn [se_ctx_id se_frame_ptr tool_entry]; try done.
    { by rewrite Hkey. }
    exists σ2. cbn [se_ctx_id se_frame_ptr se_tool_id tool_entry] in *. by rewrite Hkey in Ef.
Qed.

Lemma tool_start_close_witness :
  ∃ σ1 σ2,
    start_cached_self_tool_root 9 640 320 5 0 env0 empty_state = (Ok tt, σ1)
    ∧ close_tool_stack_entry 9 (tool_entry (2 ^ 56 + 1) 640 320 5) env_file σ1 = (Ok tt, σ2)
    ∧ tool_ctx σ2 = ∅ ∧ thread_active_ctx σ1 !! 9 = Some (2 ^ 56 + 1)
    ∧ thread_active_ctx σ2 !! 9 = None.
Proof.
  destruct (tool_start_close 9 640 320 5 0 env0 env_file empty_state [] [])
    as (σ1 & H1 & H2 & _ & H3 & H4 & _ & H5);
    [done|done|done|unfold in_u32; lia|done|apply empty_thread_stack|cbn; lia| |done|done
    |apply not_elem_of_nil|done|].
  { split_and!; [intros i _; apply lookup_empty|apply lookup_empty|done]. }
  destruct (H5 σ1 H3) as (σ2 & H6 & H7 & _ & _ & H8 & _). exists σ1, σ2.
  split_and!; [exact H1|exact H6|rewrite H7; exact H4|exact H2|exact H8].
Defined.

(** ** The guards against duplicate starts *)

Lemma active_of_self σ tid c c' :
  thread_active_ctx σ !! tid = Some c → active_of σ tid = Some c' → c' = c.
Proof. unfold active_of. intros ->. destruct (live σ c); [by intros [= ->]|done]. Qed.

Lemma leaves_extract a b c d : Leaves thread_active_ctx (extract_and_resolve a b c d).
Proof. leaves. Qed.

(** In the [CODE_KIND_TOOL_ROOT_LC] arm two of the three guards never fire.  Both
    look for a context other than the new one that is active on the thread, but the
    new context has just been pushed and is itself the active one. *)
Theorem duplicate_guards_dead tid frame_ptr code_ptr rule ctx_id tool_id co_flags c l e σ :
  let σ1 := published e tid frame_ptr ctx_id c l σ in
  let σ2 := (extract_and_resolve frame_ptr code_ptr rule ctx_id e σ1).2 in
  (other_async_tool_active tid frame_ptr ctx_id tool_id co_flags e σ2).1 = false
  ∧ (same_tool_active tid ctx_id tool_id e σ2).1 = false.
Proof.
  intros σ1 σ2.
  assert (thread_active_ctx σ2 !! tid = Some ctx_id) as Ha.
  { unfold σ2. rewrite (leaves_extract frame_ptr code_ptr rule ctx_id _ e σ1 I eq_refl).
    apply lookup_insert_eq. }
  revert Ha. generalize σ2. clear σ1 σ2. intros σ2 Ha. split.
  - unfold other_async_tool_active. destruct (is_generator co_flags); [|done]. mstep.
    destruct (active_of σ2 tid) as [c'|] eqn:E; [|done].
    rewrite (active_of_self _ _ _ _ Ha E). mrun. by rewrite Z.eqb_refl.
  - unfold same_tool_active. mstep. destruct (active_of σ2 tid) as [c'|] eqn:E; [|done].
    rewrite (active_of_self _ _ _ _ Ha E). mrun. by rewrite Z.eqb_refl.
Qed.
