(* ===== verification/Classify.v ===== *)
(** * Agreement of kernel and user space on names

    User space hashes the names of the rules and of the tools; the kernel hashes
    the bytes it reads from the traced process.  Both sides compute the same
    function of the name, so that a rule selects the code objects of its name. *)

From stdpp Require Import base gmap list strings.
From S2P Require Import Prelude Types Maps Samples Ownership Identity Compiler.

(** ** The bytes the kernel reads

    A C string [s] in a buffer of 64 bytes: [s], a NUL and what follows. *)
Definition c_buffer (s junk : list Z) : list Z := take 64 (s ++ 0 :: junk).

Definition nul_free (s : list Z) : Prop := Forall (λ b, b ≠ 0) s.

Lemma strnlen_app s rest :
  nul_free s → strnlen (s ++ 0 :: rest) = Z.of_nat (length s).
Proof.
  induction 1 as [|b s Hb Hs IH]; [done|]. cbn. destruct (Z.eqb_spec b 0); [done|].
  rewrite IH. lia.
Qed.

Lemma strnlen_free s : nul_free s → strnlen s = Z.of_nat (length s).
Proof.
  induction 1 as [|b s Hb Hs IH]; [done|]. cbn. destruct (Z.eqb_spec b 0); [done|].
  rewrite IH. lia.
Qed.

(** Either the name ends in the buffer or it fills it. *)
Lemma c_buffer_cases s junk :
  c_buffer s junk = take 64 s ∧ (64 ≤ length s)%nat
  ∨ ∃ rest, c_buffer s junk = s ++ 0 :: rest ∧ (length s < 64)%nat.
Proof.
  unfold c_buffer. destruct (decide (64 ≤ length s)%nat) as [Hle|Hlt].
  - left. by rewrite take_app_le.
  - right. exists (take (63 - length s) junk). split; [|lia].
    rewrite take_app_ge by lia. by replace (64 - length s)%nat with (S (63 - length s)) by lia.
Qed.

Lemma nul_free_take n s : nul_free s → nul_free (take n s).
Proof. apply Forall_take. Qed.

Lemma c_buffer_strnlen s junk :
  nul_free s → strnlen (c_buffer s junk) = Z.of_nat (length (take 64 s)).
Proof.
  intros Hs. destruct (c_buffer_cases s junk) as [[-> Hl]|(rest & -> & Hl)].
  - apply strnlen_free. by apply nul_free_take.
  - rewrite strnlen_app by done. by rewrite take_ge by lia.
Qed.

(** ** FNV-1a *)

Lemma fnv1a_64_loop_fold buf i len h :
  0 ≤ i →
  fnv1a_64_loop buf i len h
  = foldl (λ hash b, Z.lxor hash b ⊠ FNV_PRIME) h (take (Z.to_nat (len - i)) buf).
Proof.
  revert i h. induction buf as [|b buf IH]; intros i h Hi; cbn [fnv1a_64_loop].
  { by rewrite take_nil. }
  rewrite IH by lia. destruct (Z.ltb_spec i len).
  - replace (Z.to_nat (len - i)) with (S (Z.to_nat (len - (i + 1)))) by lia. done.
  - by replace (Z.to_nat (len - i)) with 0%nat by lia;
      replace (Z.to_nat (len - (i + 1))) with 0%nat by lia.
Qed.

Lemma fnv1a_64_c_buffer s junk :
  nul_free s →
  fnv1a_64 (c_buffer s junk) (strnlen (c_buffer s junk)) = rules_fnv1a_64 s.
Proof.
  intros Hs. unfold fnv1a_64. rewrite fnv1a_64_loop_fold by lia.
  rewrite c_buffer_strnlen, Z.sub_0_r, Nat2Z.id by done. unfold rules_fnv1a_64. f_equal.
  destruct (c_buffer_cases s junk) as [[-> Hl]|(rest & -> & Hl)].
  - by rewrite firstn_all.
  - rewrite (take_ge s 64) by lia. by rewrite take_app_length.
Qed.

Lemma fnv1a_32_loop_app s rest h :
  nul_free s →
  fnv1a_32_loop (s ++ 0 :: rest) h = foldl (λ h b, u32 (Z.lxor h b * 0x01000193)) h s.
Proof.
  intros Hs. revert h. induction Hs as [|b s Hb Hs IH]; intros h; [done|]. cbn.
  destruct (Z.eqb_spec b 0); [done|]. apply IH.
Qed.

Lemma fnv1a_32_loop_free s h :
  nul_free s → fnv1a_32_loop s h = foldl (λ h b, u32 (Z.lxor h b * 0x01000193)) h s.
Proof.
  intros Hs. revert h. induction Hs as [|b s Hb Hs IH]; intros h; [done|]. cbn.
  destruct (Z.eqb_spec b 0); [done|]. apply IH.
Qed.

Lemma fnv1a_32_c_buffer s junk :
  nul_free s → fnv1a_32 (c_buffer s junk) = rules_fnv1a_32 s.
Proof.
  intros Hs. unfold fnv1a_32, rules_fnv1a_32.
  destruct (c_buffer_cases s junk) as [[-> Hl]|(rest & -> & Hl)].
  - rewrite fnv1a_32_loop_free; [done|]. by apply nul_free_take.
  - rewrite fnv1a_32_loop_app by done. by rewrite (take_ge s 64) by lia.
Qed.

Lemma rules_fnv1a_32_nonzero s : rules_fnv1a_32 s ≠ TOOL_IDLE.
Proof.
  unfold rules_fnv1a_32, TOOL_IDLE.
  match goal with |- (if ?h =? 0 then _ else _) ≠ _ => by destruct (Z.eqb_spec h 0) end.
Qed.

(** ** Rules in the kernel *)

(** The array holds [rules], zeroes elsewhere. *)
Definition rules_loaded (σ : State) (rules : list RootRule) : Prop :=
  (length rules ≤ 64)%nat
  ∧ ∀ i : nat, root_rules σ !! Z.of_nat i = rules !! i.

(** Loading them from user space. *)
Lemma populate_root_rules_run e σ (done rules : list RootRule) :
  reliable e → (length done + length rules ≤ 64)%nat →
  (∀ i : nat, root_rules σ !! Z.of_nat i = done !! i) →
  (populate_root_rules (Z.of_nat (length done)) rules e σ).1 = Ok tt
  ∧ rules_loaded (populate_root_rules (Z.of_nat (length done)) rules e σ).2 (done ++ rules).
Proof.
  intros He. revert σ done. induction rules as [|r rules IH]; intros σ dn Hlen Hdone.
  { rewrite app_nil_r. split; [done|]. cbn in Hlen. split; [lia|done]. }
  cbn [populate_root_rules length] in *. pose proof He as [Hu _].
  erewrite try_run; last first.
  { rewrite Hu. destruct (Z.ltb_spec (Z.of_nat (length dn)) 64); [|lia]. reflexivity. }
  cbv beta iota. replace (Z.of_nat (length dn) + 1) with (Z.of_nat (length (dn ++ [r])))
    by (rewrite length_app; cbn; lia).
  replace (dn ++ r :: rules) with ((dn ++ [r]) ++ rules) by by rewrite <-app_assoc.
  apply IH; [rewrite length_app; cbn; lia|]. intros i. sproj.
  destruct (decide (i = length dn)) as [->|Hne].
  - by rewrite lookup_insert_eq, lookup_app_r, Nat.sub_diag by lia.
  - rewrite lookup_insert_ne by lia. rewrite Hdone.
    destruct (decide (i < length dn)%nat); [by rewrite lookup_app_l|].
    rewrite !lookup_ge_None_2; [done| |lia]. rewrite length_app. cbn. lia.
Qed.

(** ** Classification *)

Definition rule_matches (hash : Z) (r : RootRule) : bool :=
  negb (rr_kind r =? 0) && (rr_qualname_hash r =? hash).

(** The state after the classifier has cached [kind]. *)
Definition classified (key : CodeKindKey) (kind : Z) (σ : State) : State :=
  set_code_kind (<[key := kind]> (code_kind σ)) (next_tick σ).

Lemma ROOT_RULES_get_loaded σ rules (i : nat) e :
  rules_loaded σ rules → (i < 64)%nat →
  ROOT_RULES_get (Z.of_nat i) e σ = (Some (unwrap_or (rules !! i) RootRule_default), σ).
Proof.
  intros [_ Hr] Hi. unfold ROOT_RULES_get. rewrite Hr.
  destruct (Z.leb_spec 0 (Z.of_nat i)); [|lia]. by destruct (Z.ltb_spec (Z.of_nat i) 64); [|lia].
Qed.

(** The loop over the rules finds the first match. *)
Lemma classify_scan e σ rules key hash fuel (i : nat) :
  reliable e → rules_loaded σ rules → (i + fuel = 64)%nat →
  scan fuel (Z.of_nat i) 64 (λ i,
    rule ← ROOT_RULES_get i;
    match rule with
    | Some rule =>
        if negb (rr_kind rule =? 0) && (rr_qualname_hash rule =? hash) then
          m_insert CODE_KIND key (rr_kind rule);; mret (Some (rr_kind rule))
        else mret None
    | None => mret None
    end) e σ
  = match (n ← find_pos (rule_matches hash) (drop i rules); drop i rules !! n) with
    | Some r => (Some (rr_kind r), classified key (rr_kind r) σ)
    | None => (None, σ)
    end.
Proof.
  intros He Hr. revert i. induction fuel as [|fuel IH]; intros i Hi; cbn [scan].
  { pose proof (proj1 Hr). by rewrite drop_ge by lia. }
  destruct (Z.geb_spec (Z.of_nat i) 64); [lia|].
  assert (Z.of_nat i + 1 = Z.of_nat (S i)) as -> by lia.
  set (r := unwrap_or (rules !! i) RootRule_default).
  assert (∀ k : option Z → M (option Z), ((λ i, rule ← ROOT_RULES_get i;
      match rule with
      | Some rule =>
          if negb (rr_kind rule =? 0) && (rr_qualname_hash rule =? hash) then
            m_insert CODE_KIND key (rr_kind rule);; mret (Some (rr_kind rule))
          else mret None
      | None => mret None
      end) (Z.of_nat i) ≫= k) e σ
    = if rule_matches hash r then k (Some (rr_kind r)) e (classified key (rr_kind r) σ)
      else k None e σ) as ->.
  { intros k. unfold mbind at 1, probeM_bind at 1.
    rewrite (bind_run _ _ _ _ _ _ _ _ (ROOT_RULES_get_loaded σ rules i e Hr ltac:(lia))). fold r.
    cbv beta iota. fold (rule_matches hash r). destruct (rule_matches hash r); [|done].
    by erewrite bind_run by by apply m_insert_reliable. }
  unfold r. destruct (rules !! i) as [r'|] eqn:Hri; cbn [unwrap_or].
  - rewrite (drop_S _ _ _ Hri). cbn [find_pos]. destruct (rule_matches hash r'); [done|].
    rewrite IH by lia.
    destruct (find_pos (rule_matches hash) (drop (S i) rules)) as [n|]; [|done]. cbn.
    by destruct (drop (S i) rules !! n).
  - apply lookup_ge_None in Hri. rewrite drop_ge by lia. cbn [find_pos]. cbn. rewrite IH by lia.
    by rewrite drop_ge by lia.
Qed.

(** The kind that the rules give to a name. *)
Definition kind_of_name (entries : list RuleEntry) (s : str) : Z :=
  unwrap_or
    (n ← find_pos (λ en, negb (ru_kind en =? 0)
                         && (rules_fnv1a_64 (ru_qualname en) =? rules_fnv1a_64 s)) entries;
     ru_kind <$> entries !! n) CODE_KIND_IGNORE.

Lemma find_pos_fmap {A B} (f : A → B) (p : B → bool) (q : A → bool) l :
  (∀ a, p (f a) = q a) → find_pos p (f <$> l) = find_pos q l.
Proof.
  intros Hpq. induction l as [|x l IH]; [done|]. cbn. rewrite Hpq, <-IH. done.
Qed.

(** ** The theorems *)

(** The kernel's 64-bit hash of the bytes it reads at a name is the hash that
    user space puts into the rules, for every name, cut or not by the buffer. *)
Theorem qualname_hash_agrees s junk :
  nul_free s →
  fnv1a_64 (c_buffer s junk) (strnlen (c_buffer s junk)) = rules_fnv1a_64 s.
Proof. apply fnv1a_64_c_buffer. Qed.

Lemma qualname_hash_agrees_witness :
  fnv1a_64 (c_buffer (lit "BaseTool.run") [7; 7; 7]) 12 = rules_fnv1a_64 (lit "BaseTool.run").
Proof.
  apply (qualname_hash_agrees (lit "BaseTool.run") [7; 7; 7]). by apply (bool_decide_unpack _).
Defined.

(** C34: the identifier the kernel derives from a tool's name is the identifier under
    which the compiler files the rules of that tool, and it is never the idle one. *)
Theorem tool_id_agrees s junk :
  nul_free s → fnv1a_32 (c_buffer s junk) = rules_fnv1a_32 s ∧ rules_fnv1a_32 s ≠ TOOL_IDLE.
Proof.
  intros Hs. split; [by apply fnv1a_32_c_buffer|apply rules_fnv1a_32_nonzero].
Qed.

Lemma tool_id_agrees_witness :
  fnv1a_32 (c_buffer (lit "search") [0; 1]) = rules_fnv1a_32 (lit "search").
Proof.
  apply (tool_id_agrees (lit "search") [0; 1]). by apply (bool_decide_unpack _).
Defined.

(** C31: the classifier gives a code object the kind of the first loaded rule for its
    qualified name, or none, and remembers the answer. *)
Theorem classify_by_rules tgid code_ptr s junk entries e σ :
  reliable e → rules_loaded σ (load_rules entries) → nul_free s → s ≠ [] →
  read_qualname code_ptr e σ = (Some (c_buffer s junk), σ) →
  classify tgid code_ptr e σ
  = (kind_of_name entries s,
     classified {| ck_tgid := tgid; ck_code_ptr := code_ptr |} (kind_of_name entries s) σ).
Proof.
  intros He Hr Hs Hne Hq. unfold classify.
  assert (read_qualname_hash code_ptr e σ = (Some (rules_fnv1a_64 s), σ)) as Hh.
  { unfold read_qualname_hash. erewrite bind_run by exact Hq. rewrite ret_run.
    rewrite fnv1a_64_c_buffer, c_buffer_strnlen by done.
    destruct (Z.eqb_spec (Z.of_nat (length (take 64 s))) 0); [by destruct s|done]. }
  erewrite bind_run by exact Hh. cbv beta iota.
  pose proof (classify_scan e σ (load_rules entries) {| ck_tgid := tgid; ck_code_ptr := code_ptr |}
    (rules_fnv1a_64 s) 64 0 He Hr eq_refl) as Hsc. rewrite drop_0 in Hsc.
  unfold kind_of_name, load_rules in *. rewrite (find_pos_fmap _ _ (λ en, negb (ru_kind en =? 0)
    && (rules_fnv1a_64 (ru_qualname en) =? rules_fnv1a_64 s))) in Hsc by done.
  destruct (find_pos _ entries) as [n|]; cbn [mbind option_bind] in *;
    [rewrite list_lookup_fmap in Hsc; destruct (entries !! n) as [en|]|];
    erewrite bind_run by exact Hsc; cbv beta iota;
    [done|by erewrite bind_run by by apply m_insert_reliable..].
Qed.

(** A code object at address 4096 whose qualified name is [BaseTool.run]. *)
Definition sample_name : str := lit "BaseTool.run".
Definition name_mem (a : Z) : option Z :=
  if (4096 <=? a) && (a <? 4104) then Some (if a =? 4097 then 0x20 else 0)
  else c_buffer sample_name (replicate 64 0) !! Z.to_nat (a - 8192).
Definition env_name : Env :=
  {| pid_tgid := 7 * 2 ^ 32 + 9; processor_id := 1; ktime := Z.of_nat;
     update_ok := λ _, true; evicts := λ _ _, false; reserve_ok := λ _, true;
     user_mem := name_mem; reg := λ _, None; arg := λ _, None; shim := λ _ _, None;
     mount_of := λ v, v; kernel_mem := λ _, None; lpm_get := λ _ _ _, None |}.
Definition sample_rules : list RuleEntry :=
  [{| ru_qualname := sample_name; ru_kind := CODE_KIND_TOOL_ROOT_LC; ru_filename := None;
      ru_extractor_kind := EXTRACTOR_SLOT_OBJ; ru_slot := 0 |}].
Definition state_rules : State :=
  set_root_rules {[ 0 := load_rule (unwrap_or (head sample_rules)
    {| ru_qualname := []; ru_kind := 0; ru_filename := None; ru_extractor_kind := 0;
       ru_slot := 0 |}) ]} empty_state.

Lemma classify_by_rules_witness :
  (classify 7 4096 env_name state_rules).1 = CODE_KIND_TOOL_ROOT_LC.
Proof.
  rewrite (classify_by_rules 7 4096 sample_name (replicate 64 0) sample_rules env_name state_rules);
    [by vm_compute|done| |by apply (bool_decide_unpack _)|done|by vm_compute].
  split; [cbn; lia|]. intros [|i]; [by vm_compute|]. unfold state_rules. sproj.
  by rewrite lookup_singleton_ne by lia.
Defined.
