(* ===== verification/Typed.v ===== *)
(** * Types of the shared records

    In whatever order programs and event loop run, with failing updates and evictions,
    the records they exchange keep the types of their Rust declarations, and more than
    that: a context is marked resolved exactly when it names a tool. *)

From stdpp Require Import base gmap list strings.
From S2P Require Import Prelude Text Types Maps Samples Ownership Identity Worker Frames Tasks.
From S2P Require Import Events Lsm Probes Monotone Compiler Runtime Contexts Session Classify.

(** ** Types *)

(** The values of [ToolCtx.flags]: [RESOLVED], [RESOLVER_ERROR], [ASYNC_FRAME] and their
    unions; no program sets [PENDING_START]. *)
Definition ctx_flag_values : list Z := [0; 1; 2; 3; 8; 9; 10; 11].

Record ctx_typed (c : ToolCtx) : Prop := {
  ct_tool_id : in_u32 (tc_tool_id c);
  ct_generation : in_u32 (tc_generation c);
  ct_carrier_count : in_u32 (tc_carrier_count c);
  ct_flags : tc_flags c ∈ ctx_flag_values;
  ct_started_ns : in_u64 (tc_started_ns c);
  ct_last_seen_ns : in_u64 (tc_last_seen_ns c);
  ct_resolved : has_flag (tc_flags c) TOOL_CTX_FLAG_RESOLVED = true ↔ tc_tool_id c ≠ TOOL_IDLE
}.

Record typed (σ : State) : Prop := {
  ty_ctx : map_Forall (λ _, ctx_typed) (tool_ctx σ);
  ty_obj : map_Forall (λ _ en, in_u32 (to_tool_id en)) (tool_obj σ);
  (** The deferred start of a tool is never requested. *)
  ty_pending : pending_frame_tool σ = ∅
}.

(** [bpf_ktime_get_ns] returns a [u64]. *)
Definition clocked (e : Env) : Prop := ∀ t, in_u64 (ktime e t).

Abbreviation Types m := (Preserves clocked typed m).

(** ** Updates of a context *)

Lemma ctx_flag_cases f : f ∈ ctx_flag_values → f = 0 ∨ f = 1 ∨ f = 2 ∨ f = 3 ∨ f = 8 ∨ f = 9 ∨ f = 10 ∨ f = 11.
Proof. unfold ctx_flag_values. rewrite !elem_of_cons, elem_of_nil. tauto. Qed.

Ltac flag_value := apply (bool_decide_unpack _); vm_compute; exact I.
Ltac flag_test :=
  repeat match goal with
         | _ : context [has_flag ?f ?m] |- _ =>
             let b := eval vm_compute in (has_flag f m) in change (has_flag f m) with b in *
         | |- context [has_flag ?f ?m] =>
             let b := eval vm_compute in (has_flag f m) in change (has_flag f m) with b
         end.
(** A typed context with some members replaced. *)
Ltac ctx_type :=
  intros;
  match goal with
  | c : ToolCtx, H : ctx_typed ?c |- _ =>
      destruct c as [t g n f s l];
      destruct H as [? ? ? Hf ? ? ?]; cbn [tc_flags tc_tool_id] in *;
      apply ctx_flag_cases in Hf as [->|[->|[->|[->|[->|[->|[->| ->]]]]]]]
  end;
  constructor; cbn [tc_tool_id tc_generation tc_carrier_count tc_flags tc_started_ns tc_last_seen_ns
    set_tool_id_resolved or_flags mark_tool_ctx_resolver_error mark_tool_ctx_resolved] in *;
  first [apply u32_range | done | flag_value | flag_test; naive_solver].

Lemma typed_new tool_id flags now :
  in_u32 tool_id → in_u64 now → flags ∈ ctx_flag_values →
  (has_flag flags TOOL_CTX_FLAG_RESOLVED = true ↔ tool_id ≠ TOOL_IDLE) →
  ctx_typed (new_tool_ctx tool_id flags now).
Proof. intros. constructor; cbn; try done; unfold in_u32, in_u64; lia. Qed.
Lemma typed_set_count n c : ctx_typed c → ctx_typed (set_carrier_count (u32 n) c).
Proof. intros []. constructor; cbn; auto using u32_range. Qed.
Lemma typed_set_generation n c : ctx_typed c → ctx_typed (set_generation (u32 n) c).
Proof. intros []. constructor; cbn; auto using u32_range. Qed.
Lemma typed_set_last_seen now c : in_u64 now → ctx_typed c → ctx_typed (set_last_seen now c).
Proof. intros ? []. by constructor; cbn. Qed.
Lemma typed_resolved tool_id c :
  in_u32 tool_id → tool_id ≠ TOOL_IDLE → ctx_typed c → ctx_typed (set_tool_id_resolved tool_id c).
Proof. ctx_type. Qed.
Lemma typed_error c : ctx_typed c → ctx_typed (or_flags TOOL_CTX_FLAG_RESOLVER_ERROR c).
Proof. ctx_type. Qed.
Lemma typed_marked_error c : ctx_typed c → ctx_typed (mark_tool_ctx_resolver_error c).
Proof. ctx_type. Qed.
Lemma typed_marked_resolved tool_id c :
  in_u32 tool_id → tool_id ≠ TOOL_IDLE → ctx_typed c → ctx_typed (mark_tool_ctx_resolved tool_id c).
Proof. ctx_type. Qed.
Lemma typed_started c :
  ctx_typed c →
  ctx_typed {| tc_tool_id := tc_tool_id c; tc_generation := tc_generation c;
               tc_carrier_count := tc_carrier_count c;
               tc_flags := Z.ldiff (tc_flags c) TOOL_CTX_FLAG_PENDING_START;
               tc_started_ns := tc_started_ns c; tc_last_seen_ns := tc_last_seen_ns c |}.
Proof. ctx_type. Qed.

(** ** Operations *)

Definition shared (σ : State) := (tool_ctx σ, tool_obj σ, pending_frame_tool σ).

Lemma types_same {A} (m : M A) : (∀ e σ, shared (m e σ).2 = shared σ) → Types m.
Proof. intros Hm e σ _ []. injection (Hm e σ) as E1 E2 E3. by constructor; rewrite ?E1, ?E2, ?E3. Qed.

Section operations.
Context {K V : Type} `{Countable K} (m : bpf_map K V).
Context (Hm : ∀ x σ, shared (bm_set m x σ) = shared σ).

Lemma types_insert k v : Types (m_insert m k v).
Proof using Hm. apply types_same. intros e σ. unfold m_insert. destruct (update_ok _ _); [by apply (eq_trans (Hm _ _))|done]. Qed.
Lemma types_remove k : Types (m_remove m k).
Proof using Hm. apply types_same. intros e σ. apply Hm. Qed.
Lemma types_alter f k : Types (m_alter m f k).
Proof using Hm. apply types_same. intros e σ. apply Hm. Qed.
End operations.

Lemma types_remove_ctx k : Types (m_remove TOOL_CTX k).
Proof. intros e σ _ []. constructor; [by apply map_Forall_delete|done|done]. Qed.
Lemma types_remove_obj k : Types (m_remove TOOL_OBJ k).
Proof. intros e σ _ []. constructor; [done|by apply map_Forall_delete|done]. Qed.
Lemma types_remove_pending k : Types (m_remove PENDING_FRAME_TOOL k).
Proof. intros e σ _ [? ? Hp]. constructor; [done|done|]. cbn. rewrite Hp. apply delete_empty. Qed.
Lemma types_alter_ctx f k : (∀ c, ctx_typed c → ctx_typed (f c)) → Types (m_alter TOOL_CTX f k).
Proof.
  intros Hf e σ _ [Hc ? ?]. constructor; [|done|done]. cbn. intros i c Hi.
  apply lookup_alter_Some in Hi as [(-> & c0 & Hc0 & ->)|[_ Hi]]; [by apply Hf, (Hc i)|by apply (Hc i)].
Qed.
Lemma types_insert_ctx k c : ctx_typed c → Types (m_insert TOOL_CTX k c).
Proof.
  intros Hc e σ _ [H1 H2 H3]. unfold m_insert. destruct (update_ok _ _); [|by constructor].
  constructor; [|done|done]. cbn. by apply map_Forall_insert_2.
Qed.
Lemma types_insert_obj k en : in_u32 (to_tool_id en) → Types (m_insert TOOL_OBJ k en).
Proof.
  intros Hc e σ _ [H1 H2 H3]. unfold m_insert. destruct (update_ok _ _); [|by constructor].
  constructor; [done| |done]. cbn. by apply map_Forall_insert_2.
Qed.

(** *** What an operation returns *)

Section bind.
Context {B : Type}.

Lemma types_clock (k : Z → M B) : (∀ now, in_u64 now → Types (k now)) → Types (bpf_ktime_get_ns ≫= k).
Proof. intros Hk e σ He Hσ. apply Hk; [apply He|done|]. by apply (types_same bpf_ktime_get_ns). Qed.
Lemma types_get_ctx i (k : option ToolCtx → M B) :
  Types (k None) → (∀ c, ctx_typed c → Types (k (Some c))) → Types (m_get TOOL_CTX i ≫= k).
Proof.
  intros H0 Hk e σ He Hσ. change (m_get TOOL_CTX i ≫= k) with (λ e σ, k (tool_ctx σ !! i) e σ).
  cbv beta. destruct (tool_ctx σ !! i) as [c|] eqn:E; [|by apply H0]. apply Hk; [|done|done].
  by apply (ty_ctx σ Hσ i).
Qed.
Lemma types_get_obj i (k : option ToolObjCacheEntry → M B) :
  Types (k None) → (∀ en, in_u32 (to_tool_id en) → Types (k (Some en))) →
  Types (m_get TOOL_OBJ i ≫= k).
Proof.
  intros H0 Hk e σ He Hσ. change (m_get TOOL_OBJ i ≫= k) with (λ e σ, k (tool_obj σ !! i) e σ).
  cbv beta. destruct (tool_obj σ !! i) as [c|] eqn:E; [|by apply H0]. apply Hk; [|done|done].
  by apply (ty_obj σ Hσ i).
Qed.
Lemma types_get_pending i (k : option Z → M B) :
  Types (k None) → Types (m_get PENDING_FRAME_TOOL i ≫= k).
Proof.
  intros H0 e σ He Hσ.
  change (m_get PENDING_FRAME_TOOL i ≫= k) with (λ e σ, k (pending_frame_tool σ !! i) e σ).
  cbv beta. rewrite (ty_pending σ Hσ), lookup_empty. by apply H0.
Qed.
End bind.

(** The maps that are chosen at run time. *)
Lemma shared_ctor_carrier kind x σ : shared (bm_set (ctor_carrier_map kind) x σ) = shared σ.
Proof. unfold ctor_carrier_map. by destruct (kind =? _). Qed.
Lemma shared_run_carrier kind x σ : shared (bm_set (run_carrier_map kind) x σ) = shared σ.
Proof. unfold run_carrier_map. by destruct (kind =? _). Qed.

Create HintDb types_db discriminated.
#[export] Hint Constants Opaque : types_db.

Ltac other_map := first [by intros | apply shared_ctor_carrier | apply shared_run_carrier].
Ltac types_prim _ :=
  first [apply types_insert; other_map | apply types_remove; other_map
        | apply types_alter; other_map | apply types_remove_ctx | apply types_remove_obj
        | apply types_remove_pending | apply types_same; by intros
        | apply types_alter_ctx; intros; by first [apply typed_set_last_seen | apply typed_started]].
Ltac types_step :=
  lazymatch goal with
  | |- Preserves _ _ (mbind _ bpf_ktime_get_ns) => apply types_clock; intros ? ?
  | |- Preserves _ _ (mbind _ (m_get TOOL_OBJ _)) => apply types_get_obj; [|intros ? ?]
  | |- Preserves _ _ (mbind _ (m_get PENDING_FRAME_TOOL _)) => apply types_get_pending
  | |- _ => follow_step types_prim ltac:(fun _ => eauto 3 with types_db nocore)
  end.
Ltac types := repeat (cbv beta zeta; types_step).

Lemma types_alloc_zero n : Types (alloc_zero n).
Proof. apply types_same. intros e σ. unfold alloc_zero. by repeat case_match. Qed.
#[export] Hint Resolve types_alloc_zero : types_db.

(** ** The operations on contexts *)

Lemma types_carrier_inc c : Types (carrier_inc c).
Proof. apply types_alter_ctx. intros. by apply typed_set_count. Qed.
Lemma types_carrier_dec c : Types (carrier_dec c).
Proof.
  unfold carrier_dec. types; apply types_alter_ctx; intros; apply typed_set_generation; [|done].
  by apply typed_set_count.
Qed.
Lemma types_set_tool_id c t : in_u32 t → t ≠ TOOL_IDLE → Types (set_ctx_tool_id c t).
Proof. intros. apply types_alter_ctx. intros. by apply typed_resolved. Qed.
Lemma types_resolver_error c k : Types (mark_resolver_error c k).
Proof.
  unfold mark_resolver_error. apply preserves_bind; [|intros ?; types].
  apply types_alter_ctx, typed_error.
Qed.
#[export] Hint Resolve types_carrier_inc types_carrier_dec types_resolver_error : types_db.

Lemma fnv1a_32_typed buf : in_u32 (fnv1a_32 buf) ∧ fnv1a_32 buf ≠ TOOL_IDLE.
Proof.
  assert (∀ buf h, in_u32 h → in_u32 (fnv1a_32_loop buf h)) as Hl.
  { induction buf0 as [|b l IH]; intros h Hh; cbn; [done|]. destruct (b =? 0); [done|].
    apply IH, u32_range. }
  unfold fnv1a_32. destruct (Z.eqb_spec (fnv1a_32_loop buf 0x811c9dc5) 0) as [_|Hne].
  - split; [unfold in_u32; lia|done].
  - split; [|done]. apply Hl. unfold in_u32. lia.
Qed.

(** A valid cache entry names a tool. *)
Lemma cache_valid_tool en ty : cache_valid en ty = true → to_tool_id en ≠ TOOL_IDLE.
Proof. unfold cache_valid, TOOL_IDLE. intros [[?%negb_true_iff _]%andb_prop _]%andb_prop. lia. Qed.

Lemma types_slot_obj o f c r i : Types (resolve_slot_obj o f c r i).
Proof.
  unfold resolve_slot_obj. apply preserves_bind; [types|intros key].
  apply types_get_obj; [types|intros en Hen]. apply preserves_bind; [types|intros ty].
  destruct (cache_valid en ty) eqn:V; [|types]. apply preserves_bind; [|types].
  by eapply types_set_tool_id, cache_valid_tool.
Qed.
Lemma types_slot_name o r i : Types (resolve_slot_name o r i).
Proof.
  unfold resolve_slot_name. apply preserves_bind; [types|intros [off|]; [|types]].
  apply preserves_bind; [types|intros [buf|]; [|types]]. cbv zeta.
  apply preserves_bind; [|types]. apply types_set_tool_id; apply fnv1a_32_typed.
Qed.
#[export] Hint Resolve types_slot_obj types_slot_name : types_db.

Lemma types_extract f c r i : Types (extract_and_resolve f c r i).
Proof. types. Qed.
#[export] Hint Resolve types_extract : types_db.

Lemma types_assoc {A B C} (m : M A) (f : A → M B) (k : B → M C) :
  Types (m ≫= λ a, f a ≫= k) → Types ((m ≫= f) ≫= k).
Proof. exact id. Qed.

(** The identifier a frame's [self] is cached under. *)
Lemma types_cached {B} f (k : Z → M B) :
  (∀ t, in_u32 t → Types (k t)) → Types (cached_frame_self_tool_id f ≫= k).
Proof.
  intros Hk. assert (Types (k 0)) as H0 by by apply Hk; unfold in_u32. unfold cached_frame_self_tool_id.
  apply types_assoc, preserves_bind; [types|intros [obj|]; [|exact H0]].
  apply types_assoc, preserves_bind; [types|intros key].
  apply types_assoc, types_get_obj; [exact H0|intros en Hen].
  apply types_assoc, preserves_bind; [types|intros ty]. change (Types (k (if cache_valid en ty then to_tool_id en else 0))).
  destruct (cache_valid en ty); [by apply Hk|exact H0].
Qed.

(** ** Starting a tool *)

Lemma types_publish t f i c : ctx_typed c → Types (publish_ctx t f i c).
Proof. intros Hc. unfold publish_ctx. apply preserves_bind; [by apply types_insert_ctx|types]. Qed.

Lemma tool_flags_values co : tool_flags_of co ∈ [0; TOOL_CTX_FLAG_ASYNC_FRAME].
Proof. unfold tool_flags_of. destruct (is_generator co); [right; left|left]. Qed.
Lemma async_flag_value : TOOL_CTX_FLAG_ASYNC_FRAME ∈ [0; TOOL_CTX_FLAG_ASYNC_FRAME].
Proof. right; left. Qed.
#[export] Hint Resolve tool_flags_values async_flag_value : types_db.

Lemma typed_new_known tool_id flags now :
  in_u32 tool_id → tool_id ≠ TOOL_IDLE → in_u64 now → flags ∈ [0; TOOL_CTX_FLAG_ASYNC_FRAME] →
  ctx_typed (new_tool_ctx tool_id (Z.lor TOOL_CTX_FLAG_RESOLVED flags) now).
Proof.
  intros Ht Hne Hn Hf. rewrite !elem_of_cons, elem_of_nil in Hf.
  apply typed_new; [done|done|..]; destruct Hf as [->|[->|[]]]; first [flag_value | flag_test; naive_solver].
Qed.
Lemma typed_new_unknown flags now :
  in_u64 now → flags ∈ [0; TOOL_CTX_FLAG_ASYNC_FRAME] → ctx_typed (new_tool_ctx TOOL_IDLE flags now).
Proof.
  intros Hn Hf. rewrite !elem_of_cons, elem_of_nil in Hf.
  apply typed_new; [by unfold in_u32|done|..]; destruct Hf as [->|[->|[]]];
    first [flag_value | flag_test; naive_solver].
Qed.

Lemma types_start t f p tool flags :
  in_u32 tool → flags ∈ [0; TOOL_CTX_FLAG_ASYNC_FRAME] →
  Types (start_cached_self_tool_root t f p tool flags).
Proof.
  intros Ht Hf. unfold start_cached_self_tool_root.
  destruct (Z.eqb_spec tool TOOL_IDLE) as [_|Hne]; [types|].
  apply preserves_bind; [types|intros [i|]; [|types]]. apply types_clock. intros now Hnow.
  apply preserves_bind; [by apply types_publish, typed_new_known|types].
Qed.
#[export] Hint Resolve types_start : types_db.

(** ** Every program *)

Ltac program_step :=
  lazymatch goal with
  | |- Preserves _ _ (mbind _ (cached_frame_self_tool_id _)) => apply types_cached; intros ? ?
  | |- _ => types_step
  end.
Ltac program := repeat (cbv beta zeta; program_step).

Lemma types_ctx_push t c : Types (ctx_stack_push t c).
Proof. program. Qed.
Lemma types_ctx_remove t c : Types (ctx_stack_remove t c).
Proof. program. Qed.
Lemma types_tool_push a b c d f : Types (tool_stack_push a b c d f).
Proof. program. Qed.
Lemma types_tool_remove p t : Types (tool_stack_remove_if p t).
Proof. program. Qed.
#[export] Hint Resolve types_ctx_push types_ctx_remove types_tool_push types_tool_remove : types_db.
Lemma types_task_push a b c d : Types (task_ctx_push a b c d).
Proof. program. Qed.
Lemma types_finish_close t en : Types (finish_tool_close t en).
Proof. program. Qed.
Lemma types_close t en : Types (close_tool_stack_entry t en).
Proof. program. Qed.
Lemma types_task_clear a b : Types (task_ctx_clear a b).
Proof. program. Qed.
Lemma types_worker_kind a b : Types (worker_kind_for_frame a b).
Proof. program. Qed.
Lemma types_find_in_frame f : Types (find_mapped_work_item_in_frame f).
Proof. program. Qed.
#[export] Hint Resolve types_task_push types_finish_close types_close types_task_clear
  types_worker_kind types_find_in_frame : types_db.
Lemma types_walk fuel a b : Types (walk_frame_chain fuel a b).
Proof. revert b. induction fuel as [|fuel IH]; intros b; cbn [walk_frame_chain]; program. Qed.
#[export] Hint Resolve types_walk : types_db.
Lemma types_refresh t : Types (refresh_threadpool_worker_context t).
Proof. program. Qed.
Lemma types_emit_path a b c d f g h : Types (try_emit_path_event a b c d f g h).
Proof. program. Qed.
Lemma types_emit_net a b c d f g h i : Types (try_emit_net_event a b c d f g h i).
Proof. program. Qed.
Lemma types_start_parent t p : Types (start_cached_parent_tool_if_needed t p).
Proof. program. Qed.
Lemma types_pending t f p : Types (pending_frame_start t f p).
Proof. program. Qed.
#[export] Hint Resolve types_refresh types_emit_path types_emit_net types_start_parent
  types_pending : types_db.

Lemma types_root_lc a b c d f g : Types (tool_root_lc a b c d f g).
Proof.
  unfold tool_root_lc. apply preserves_bind; [program|intros [i|]; [|program]].
  apply types_clock. intros now Hnow.
  apply preserves_bind; [by apply types_publish, typed_new_unknown, tool_flags_values|program].
Qed.
Lemma types_root_lg a b c : Types (tool_root_lg a b c).
Proof.
  unfold tool_root_lg. apply preserves_bind; [program|intros [i|]; [|program]].
  apply types_clock. intros now Hnow.
  apply preserves_bind; [by apply types_publish, typed_new_unknown, tool_flags_values|program].
Qed.
#[export] Hint Resolve types_root_lc types_root_lg : types_db.
Lemma types_entry_inner f b : Types (handle_tool_frame_entry_for_ptr_inner f b).
Proof. program. Qed.
Lemma types_worker_frame f : Types (handle_worker_frame_for_ptr f).
Proof. program. Qed.
Lemma types_exit r : Types (handle_frame_exit r).
Proof. program. Qed.
#[export] Hint Resolve types_entry_inner types_worker_frame types_exit : types_db.
Lemma types_hook_identity kind : Types (hook_identity kind).
Proof. program. Qed.
Lemma types_fentry_identity kind : Types (fentry_identity kind).
Proof. program. Qed.
Lemma types_decision i p : Types (hook_decision i p).
Proof. program. Qed.
Lemma types_file_identity f : Types (get_file_identity f).
Proof. program. Qed.
Lemma types_endpoint sa : Types (connect_endpoint sa).
Proof. program. Qed.
Lemma types_task_remove a b c : Types (task_ctx_remove a b c).
Proof. program. Qed.
Lemma types_restore_close a b : Types (restore_deferred_tool_close a b).
Proof. program. Qed.
Lemma types_step_restore a : Types (task_step_restore a).
Proof. program. Qed.
Lemma types_clear_thread a : Types (clear_threadpool_worker_for_thread a).
Proof. program. Qed.
Lemma types_clear_runs a : Types (clear_worker_runs_for_thread a).
Proof. program. Qed.
Lemma types_inherited a b : Types (fork_inherited_ctx a b).
Proof. program. Qed.
#[export] Hint Resolve types_hook_identity types_fentry_identity types_decision
  types_file_identity types_endpoint types_task_remove types_restore_close types_step_restore
  types_clear_thread types_clear_runs types_inherited : types_db.

Lemma types_run_probe p : Types (run_probe p).
Proof. destruct p; cbn [run_probe]; program. Qed.

(** ** The event loop *)

Lemma rules_fnv1a_32_typed s : in_u32 (rules_fnv1a_32 s).
Proof.
  assert (∀ l h, in_u32 h → in_u32 (foldl (λ h b, u32 (Z.lxor h b * 0x01000193)) h l)) as Hl.
  { induction l as [|b l IH]; intros h Hh; cbn; [done|]. apply IH, u32_range. }
  unfold rules_fnv1a_32. destruct (_ =? 0); [unfold in_u32; lia|]. apply Hl. unfold in_u32. lia.
Qed.

Lemma types_u_insert {K V} `{Countable K} (m : bpf_map K V) k v :
  Types (m_insert m k v) → Types (u_insert m k v).
Proof.
  intros Hm e σ He Hσ. unfold u_insert. destruct (update_ok e (tick σ)); [by apply Hm|].
  by destruct Hσ.
Qed.

Lemma types_mark_error i : Types (mark_tool_ctx_map_resolver_error i).
Proof.
  unfold mark_tool_ctx_map_resolver_error. destruct (i =? 0); [types|].
  apply types_get_ctx; [types|intros c Hc]. apply preserves_try; [|types].
  by apply types_u_insert, types_insert_ctx, typed_marked_error.
Qed.

Lemma resolved_tool_typed cpython ev r :
  resolve_candidate cpython ev = Ok r → in_u32 (rl_tool_id r) ∧ rl_tool_id r ≠ TOOL_IDLE.
Proof.
  intros H. assert (∃ s, rl_tool_id r = rules_fnv1a_32 s) as [s ->].
  { unfold resolve_candidate, resolve_tool in H. repeat case_match; simplify_eq; by eexists. }
  split; [apply rules_fnv1a_32_typed|apply rules_fnv1a_32_nonzero].
Qed.

Lemma types_success ev r rt :
  in_u32 (rl_tool_id r) → rl_tool_id r ≠ TOOL_IDLE → Types (resolver_success ev r rt).
Proof.
  intros Hr Hne. unfold resolver_success.
  apply preserves_bind; [by apply types_u_insert, types_insert_obj|intros _].
  apply preserves_bind; [|types]. unfold resolved_ctx. destruct (_ =? 0); [types|].
  apply types_get_ctx; [types|intros c Hc]. apply preserves_bind; [|types].
  by apply types_u_insert, types_insert_ctx, typed_marked_resolved.
Qed.

Lemma types_failure ev rt : Types (resolver_failure ev rt).
Proof. apply preserves_bind; [apply types_mark_error|types]. Qed.

Lemma types_resolver_event detect ev rt : Types (handle_resolver_event detect ev rt).
Proof.
  unfold handle_resolver_event. cbv zeta. destruct (negb _); [types|].
  apply preserves_bind; [unfold ensure_resolver; repeat case_match; try apply types_failure; types|intros rt'].
  destruct (_ !! _) as [cpython|]; [|types].
  destruct (resolve_candidate cpython ev) as [r|] eqn:E; [|apply types_failure].
  apply resolved_tool_typed in E as []. by apply types_success.
Qed.

(** C11: the records that programs and user space share are well typed, always.  From
    well-typed maps, in every state that any interleaving of programs and event loop
    reaches (failing updates and evictions included, the clock being a [u64]), every
    context has its members in their widths and none but the declared flags, and is
    marked resolved exactly when it names a tool; every cached tool object has a [u32]
    identifier; and no deferred start is ever pending. *)
Theorem session_well_typed detect_for_pid duration σ0 l :
  typed σ0 → Forall (clocked ∘ action_env) l →
  typed (ss_maps (run detect_for_pid duration (start_session σ0) l)).
Proof.
  intros H0 Hl. apply (run_invariant detect_for_pid duration clocked (λ s, typed (ss_maps s)));
    [|done|done].
  intros [p e|sh el e] s He Hs; cbn [act with_maps ss_maps].
  - by apply types_run_probe.
  - unfold loop_step. destruct (ss_point s); repeat case_match; try done.
    by apply types_resolver_event.
Qed.

Lemma session_well_typed_witness :
  typed (ss_maps (run (λ _, None) 0 (start_session empty_state)
    [turn false; Runs eval_frame_entry env0; turn false])).
Proof.
  apply (session_well_typed (λ _, None) 0 empty_state).
  - split; [apply map_Forall_empty|apply map_Forall_empty|reflexivity].
  - repeat (constructor; [intros t; apply u64_range|]). constructor.
Defined.
