(* ===== verification/Isolation.v ===== *)
(** * Isolation of processes

    Thread identifiers and Python pointers of all processes meet in the same maps.
    What programs run for other processes leaves everything recorded for a process,
    and for a thread of it, as it is: [private_same] says what that is, [placed] is the
    invariant behind it (no object of another process is bound to the thread, and the
    depths are in bounds, so that no packed key runs into the next thread's), and the
    lemmas [apart_...] carry both through every program. *)

From stdpp Require Import base gmap list.
From S2P Require Import Prelude Types Maps Samples Ownership Identity Worker Frames Tasks.
From S2P Require Import Events Lsm Probes Monotone Compiler Runtime Stacks ThreadStack ToolStack.
From S2P Require Import Invariant System Session.

(** ** What is recorded for a process and a thread of it *)

(** The two maps hold the same at the keys that [own] selects. *)
Definition agree {K V} `{Countable K} (own : K → Prop) (x y : gmap K V) : Prop :=
  ∀ k, own k → x !! k = y !! k.

#[global] Instance agree_equiv {K V} `{Countable K} (own : K → Prop) :
  Equivalence (agree (V := V) own).
Proof.
  split; [by intros x k|by intros x y Hxy k Hk; rewrite Hxy|].
  intros x y z Hxy Hyz k Hk. by rewrite Hxy, Hyz.
Qed.

Section owners.
Context (P t : Z).

Definition of_thread (k : Z) : Prop := k = t.
(** The packed keys, [(tid << n) | i]. *)
Definition of_stack (n k : Z) : Prop := ∃ i, 0 ≤ i < 2 ^ n ∧ k = pack t n i.
Definition of_object (k : PyObjectKey) : Prop := po_tgid k = P.
Definition of_task (k : TaskStackKey) : Prop := ts_tgid k = P.
Definition of_code (k : CodeKindKey) : Prop := ck_tgid k = P.
Definition of_pending (k : PendingToolResolveKey) : Prop := pr_tgid k = P.
Definition of_process (k : Z) : Prop := k = P.

(** All that the maps record for process [P] and its thread [t], but for the stash of
    frames, whose packed keys can overlap, the contexts, which processes share, and
    the answers of user space. *)
Record private_same (σ0 σ : State) : Prop := {
  same_active_ctx : agree of_thread (thread_active_ctx σ) (thread_active_ctx σ0);
  same_active_task : agree of_thread (thread_active_task σ) (thread_active_task σ0);
  same_ctx_stack : agree (of_stack 8) (thread_ctx_stack σ) (thread_ctx_stack σ0);
  same_ctx_depth : agree of_thread (thread_ctx_depth σ) (thread_ctx_depth σ0);
  same_tool_stack : agree (of_stack 32) (tool_stack σ) (tool_stack σ0);
  same_tool_depth : agree of_thread (tool_stack_depth σ) (tool_stack_depth σ0);
  same_run_stack : agree (of_stack 8) (worker_run_stack σ) (worker_run_stack σ0);
  same_run_depth : agree of_thread (worker_run_depth σ) (worker_run_depth σ0);
  same_stash_depth : agree of_thread (frame_stash_depth σ) (frame_stash_depth σ0);
  same_fork : agree of_thread (fork_ctx σ) (fork_ctx σ0);
  same_spawn : agree of_thread (pending_worker_spawn σ) (pending_worker_spawn σ0);
  same_pool_frame : agree of_thread (threadpool_worker_frame σ) (threadpool_worker_frame σ0);
  same_pool_ctx : agree of_thread (threadpool_worker_ctx σ) (threadpool_worker_ctx σ0);
  same_frame : agree of_thread (thread_current_frame σ) (thread_current_frame σ0);
  same_tstate : agree of_thread (thread_tstate σ) (thread_tstate σ0);
  same_step : agree of_thread (task_step_stash σ) (task_step_stash σ0);
  same_step_prev : agree of_thread (task_step_prev_task σ) (task_step_prev_task σ0);
  same_frame_ctx : agree of_object (frame_ctx σ) (frame_ctx σ0);
  same_frame_tool : agree of_object (pending_frame_tool σ) (pending_frame_tool σ0);
  same_task_ctx : agree of_object (task_ctx σ) (task_ctx σ0);
  same_task_depth : agree of_object (task_ctx_depth σ) (task_ctx_depth σ0);
  same_workitem : agree of_object (workitem_ctx σ) (workitem_ctx σ0);
  same_thread_obj : agree of_object (pythread_obj_ctx σ) (pythread_obj_ctx σ0);
  same_obj_thread : agree of_object (pythread_obj_thread σ) (pythread_obj_thread σ0);
  same_item_thread :
    agree of_object (threadpool_workitem_thread σ) (threadpool_workitem_thread σ0);
  same_carrier : agree of_object (worker_run_carrier σ) (worker_run_carrier σ0);
  same_task_stack : agree of_task (task_ctx_stack σ) (task_ctx_stack σ0);
  same_close : agree of_task (pending_tool_close σ) (pending_tool_close σ0);
  same_code : agree of_code (code_kind σ) (code_kind σ0);
  same_resolve : agree of_pending (pending_tool_resolve σ) (pending_tool_resolve σ0);
  same_protected : agree of_process (protected_tgids σ) (protected_tgids σ0)
}.

(** Where the threads that objects are bound to belong, and the bounds of the depths. *)
Definition threads_placed (x : gmap PyObjectKey Z) : Prop :=
  map_Forall (λ k v, in_u32 v ∧ (po_tgid k ≠ P → v ≠ t)) x.
Definition depths_below (n : Z) (x : gmap Z Z) : Prop := map_Forall (λ _ d, 0 ≤ d ≤ n) x.

Record placed (σ : State) : Prop := {
  placed_carriers : threads_placed (worker_run_carrier σ);
  placed_items : threads_placed (threadpool_workitem_thread σ);
  placed_ctx_depth : depths_below 8 (thread_ctx_depth σ);
  placed_tool_depth : depths_below 8 (tool_stack_depth σ);
  placed_run_depth : depths_below 64 (worker_run_depth σ)
}.
End owners.

#[global] Instance private_same_preorder P t : PreOrder (private_same P t).
Proof.
  split; [intros σ; constructor; reflexivity|].
  intros σ1 σ2 σ3 [] []. constructor; etrans; eassumption.
Qed.

(** ** Writes of one map *)

(** [m] holds the process's and thread's entries at the keys [own]. *)
Class PrivateMap {K V} `{Countable K} (P t : Z) (m : bpf_map K V) (own : K → Prop) : Prop :=
  private_map σ0 σ x : private_same P t σ0 σ → agree own x (bm_get m σ) →
    private_same P t σ0 (bm_set m x σ).
(** [m] is none of the maps of [placed]. *)
Class UnplacedMap {K V} `{Countable K} (P t : Z) (m : bpf_map K V) : Prop :=
  unplaced σ x : placed P t σ → placed P t (bm_set m x σ).

Ltac private_map_tac :=
  intros ? ? ? [] ?; constructor; first [assumption | etrans; [eassumption|assumption]].
#[global] Hint Extern 0 (UnplacedMap _ _ _) => (intros ? ? []; constructor; assumption)
  : typeclass_instances.

Section private_maps.
Context (P t : Z).
Abbreviation PM m own := (PrivateMap P t m own).
Abbreviation thread := (of_thread t).
Abbreviation object := (of_object P).

#[global] Instance pm_active : PM THREAD_ACTIVE_CTX thread. Proof. private_map_tac. Qed.
#[global] Instance pm_active_task : PM THREAD_ACTIVE_TASK thread. Proof. private_map_tac. Qed.
#[global] Instance pm_ctx_stack : PM THREAD_CTX_STACK (of_stack t 8). Proof. private_map_tac. Qed.
#[global] Instance pm_ctx_depth : PM THREAD_CTX_DEPTH thread. Proof. private_map_tac. Qed.
#[global] Instance pm_tool_stack : PM TOOL_STACK (of_stack t 32). Proof. private_map_tac. Qed.
#[global] Instance pm_tool_depth : PM TOOL_STACK_DEPTH thread. Proof. private_map_tac. Qed.
#[global] Instance pm_run_stack : PM WORKER_RUN_STACK (of_stack t 8). Proof. private_map_tac. Qed.
#[global] Instance pm_run_depth : PM WORKER_RUN_DEPTH thread. Proof. private_map_tac. Qed.
#[global] Instance pm_stash_depth : PM FRAME_STASH_DEPTH thread. Proof. private_map_tac. Qed.
#[global] Instance pm_fork : PM FORK_CTX thread. Proof. private_map_tac. Qed.
#[global] Instance pm_spawn : PM PENDING_WORKER_SPAWN thread. Proof. private_map_tac. Qed.
#[global] Instance pm_pool_frame : PM THREADPOOL_WORKER_FRAME thread. Proof. private_map_tac. Qed.
#[global] Instance pm_pool_ctx : PM THREADPOOL_WORKER_CTX thread. Proof. private_map_tac. Qed.
#[global] Instance pm_frame : PM THREAD_CURRENT_FRAME thread. Proof. private_map_tac. Qed.
#[global] Instance pm_tstate : PM THREAD_TSTATE thread. Proof. private_map_tac. Qed.
#[global] Instance pm_step : PM TASK_STEP_STASH thread. Proof. private_map_tac. Qed.
#[global] Instance pm_step_prev : PM TASK_STEP_PREV_TASK thread. Proof. private_map_tac. Qed.
#[global] Instance pm_frame_ctx : PM FRAME_CTX object. Proof. private_map_tac. Qed.
#[global] Instance pm_frame_tool : PM PENDING_FRAME_TOOL object. Proof. private_map_tac. Qed.
#[global] Instance pm_task_ctx : PM TASK_CTX object. Proof. private_map_tac. Qed.
#[global] Instance pm_task_depth : PM TASK_CTX_DEPTH object. Proof. private_map_tac. Qed.
#[global] Instance pm_workitem : PM WORKITEM_CTX object. Proof. private_map_tac. Qed.
#[global] Instance pm_thread_obj : PM PYTHREAD_OBJ_CTX object. Proof. private_map_tac. Qed.
#[global] Instance pm_obj_thread : PM PYTHREAD_OBJ_THREAD object. Proof. private_map_tac. Qed.
#[global] Instance pm_item : PM THREADPOOL_WORKITEM_THREAD object. Proof. private_map_tac. Qed.
#[global] Instance pm_carrier : PM WORKER_RUN_CARRIER object. Proof. private_map_tac. Qed.
#[global] Instance pm_task_stack : PM TASK_CTX_STACK (of_task P). Proof. private_map_tac. Qed.
#[global] Instance pm_close : PM PENDING_TOOL_CLOSE (of_task P). Proof. private_map_tac. Qed.
#[global] Instance pm_code : PM CODE_KIND (of_code P). Proof. private_map_tac. Qed.
#[global] Instance pm_resolve : PM PENDING_TOOL_RESOLVE (of_pending P). Proof. private_map_tac. Qed.
#[global] Instance pm_protected : PM PROTECTED_TGIDS (of_process P). Proof. private_map_tac. Qed.
(** The maps that belong to nobody. *)
#[global] Instance pm_tool_ctx : PM TOOL_CTX (λ _, False). Proof. private_map_tac. Qed.
#[global] Instance pm_tool_obj : PM TOOL_OBJ (λ _, False). Proof. private_map_tac. Qed.
#[global] Instance pm_stash : PM FRAME_ENTRY_STASH (λ _, False). Proof. private_map_tac. Qed.
End private_maps.

#[global] Instance pm_ctor_carrier P t kind :
  PrivateMap P t (ctor_carrier_map kind) (of_object P).
Proof. unfold ctor_carrier_map. destruct (kind =? _); apply _. Qed.
#[global] Instance pm_run_carrier P t kind : PrivateMap P t (run_carrier_map kind) (of_object P).
Proof. unfold run_carrier_map. destruct (kind =? _); apply _. Qed.
#[global] Instance unplaced_ctor_carrier P t kind : UnplacedMap P t (ctor_carrier_map kind).
Proof. unfold ctor_carrier_map. destruct (kind =? _); apply _. Qed.
#[global] Instance unplaced_run_carrier P t kind : UnplacedMap P t (run_carrier_map kind).
Proof. unfold run_carrier_map. destruct (kind =? _); apply _. Qed.
#[global] Instance ctor_carrier_laws kind : MapLaws (ctor_carrier_map kind).
Proof. unfold ctor_carrier_map. destruct (kind =? _); apply _. Qed.
#[global] Instance run_carrier_laws kind : MapLaws (run_carrier_map kind).
Proof. unfold run_carrier_map. destruct (kind =? _); apply _. Qed.

(** Instance search treats the maps as atoms. *)
#[global] Typeclasses Opaque TOOL_CTX TOOL_OBJ CODE_KIND PENDING_TOOL_RESOLVE PENDING_FRAME_TOOL
  FORK_CTX FRAME_CTX TASK_CTX TASK_CTX_STACK TASK_CTX_DEPTH WORKITEM_CTX PYTHREAD_OBJ_CTX
  PYTHREAD_OBJ_THREAD PENDING_WORKER_SPAWN THREADPOOL_WORKER_FRAME THREADPOOL_WORKER_CTX
  THREADPOOL_WORKITEM_THREAD WORKER_RUN_CARRIER THREAD_CURRENT_FRAME THREAD_TSTATE TOOL_STACK
  TOOL_STACK_DEPTH PENDING_TOOL_CLOSE THREAD_ACTIVE_CTX THREAD_ACTIVE_TASK THREAD_CTX_STACK
  THREAD_CTX_DEPTH FRAME_ENTRY_STASH FRAME_STASH_DEPTH TASK_STEP_STASH TASK_STEP_PREV_TASK
  WORKER_RUN_STACK WORKER_RUN_DEPTH PROTECTED_TGIDS IRONSCOPE_CONFIG TOOL_FS_POLICY
  TOOL_EXEC_POLICY ctor_carrier_map run_carrier_map.

(** Keys of two threads differ while the index fits its field. *)
Lemma other_stack tid t n i :
  in_u32 tid → in_u32 t → tid ≠ t → 0 ≤ n ≤ 32 → 0 ≤ i < 2 ^ n → ¬ of_stack t n (pack tid n i).
Proof.
  intros Htid Ht Hne Hn Hi (j & Hj & E). rewrite !pack_add in E by done. apply Hne.
  assert (tid - t = 0); [|lia]. destruct (Z.lt_trichotomy (tid - t) 0) as [?|[?|?]]; [nia|done|nia].
Qed.

(** ** One run of a program

    The run has the context [e0].  [spared] says that the run is to spare the process
    [P] and its thread [t]; a run that is not keeps [placed] alone. *)

Section run.
Context (P t : Z) (σ0 : State) (e0 : Env) (spared : Prop).
Context (Ht : in_u32 t) (Hown : cur_tid e0 = t → cur_tgid e0 = P).
Context (Hspared : spared → cur_tgid e0 ≠ P).
Context (Hevict : spared → ∀ n k, evicts e0 n k = false).

Definition isolated (σ : State) : Prop := placed P t σ ∧ (spared → private_same P t σ0 σ).
Abbreviation Apart m := (Preserves (λ e, e = e0) isolated m).

(** A thread of another process than [P] is not [t]; an object of the running process. *)
Definition outside (tid : Z) : Prop := in_u32 tid ∧ (cur_tgid e0 ≠ P → tid ≠ t).
Definition here (k : PyObjectKey) : Prop := po_tgid k = cur_tgid e0.

Lemma outside_current : outside (cur_tid e0).
Proof. split; [apply u32_range|]. intros H E. by apply H, Hown. Qed.

Lemma isolated_tick n σ : isolated σ → isolated (set_tick n σ).
Proof. intros [[] Hs]. split; [by constructor|]. intros Hq. by destruct (Hs Hq). Qed.

(** *** Writes *)

Section writes.
Context {K V : Type} `{Countable K} (m : bpf_map K V) (own : K → Prop).
Context `{!MapLaws m, !PrivateMap P t m own}.

Lemma isolated_set σ x :
  isolated σ → placed P t (bm_set m x σ) → (spared → agree own x (bm_get m σ)) →
  isolated (bm_set m x σ).
Proof. intros [_ Hs] Hp Hx. split; [done|]. intros Hq. apply private_map; auto. Qed.

(** What an update makes of the map, before the new entry. *)
Lemma insert_agree (kind : map_kind) k v (x : gmap K V) n :
  (spared → ¬ own k) → spared →
  agree own (<[k:=v]> (match kind with
                       | Hash => x
                       | Lru => filter (λ kv, evicts e0 n (encode kv.1) = false) x
                       end)) x.
Proof using Hevict.
  intros Hk Hq i Hi. rewrite lookup_insert_ne by (intros ->; by apply (Hk Hq)).
  destruct kind; [done|]. rewrite map_filter_id; [done|]. intros. by apply Hevict.
Qed.

Lemma apart_insert_placed k v :
  (spared → ¬ own k) →
  (∀ σ n, placed P t σ → placed P t (bm_set m (<[k:=v]> (match bm_kind m with
                       | Hash => bm_get m σ
                       | Lru => filter (λ kv, evicts e0 n (encode kv.1) = false) (bm_get m σ)
                       end)) (next_tick σ))) →
  Apart (m_insert m k v).
Proof using Hevict MapLaws0 PrivateMap0.
  intros Hk Hp e σ -> Hσ. unfold m_insert. destruct (update_ok _ _); [|by apply isolated_tick].
  cbn [snd]. apply isolated_set; [by apply isolated_tick|by apply Hp, Hσ|].
  intros Hq. unfold next_tick. rewrite map_get_tick. by apply insert_agree.
Qed.

Lemma apart_insert `{!UnplacedMap P t m} k v : (spared → ¬ own k) → Apart (m_insert m k v).
Proof using Hevict MapLaws0 PrivateMap0.
  intros Hk. apply apart_insert_placed; [done|]. intros σ n Hσ. apply unplaced. by destruct Hσ.
Qed.

Lemma apart_remove_placed k :
  (spared → ¬ own k) → (∀ σ, placed P t σ → placed P t (bm_set m (delete k (bm_get m σ)) σ)) →
  Apart (m_remove m k).
Proof using PrivateMap0.
  intros Hk Hp e σ -> Hσ. apply isolated_set; [done|by apply Hp, Hσ|].
  intros Hq i Hi. rewrite lookup_delete_ne; [done|]. intros ->. by apply (Hk Hq).
Qed.

Lemma apart_remove `{!UnplacedMap P t m} k : (spared → ¬ own k) → Apart (m_remove m k).
Proof using PrivateMap0. intros Hk. apply apart_remove_placed; [done|]. intros. by apply unplaced. Qed.

Lemma apart_alter `{!UnplacedMap P t m} f k : (spared → ¬ own k) → Apart (m_alter m f k).
Proof using PrivateMap0.
  intros Hk e σ -> Hσ. apply isolated_set; [done|by apply unplaced, Hσ|].
  intros Hq i Hi. rewrite lookup_alter_ne; [done|]. intros ->. by apply (Hk Hq).
Qed.
End writes.

(** The maps of [placed]: a removal keeps it, an insertion must be in bounds. *)
Ltac placed_remove :=
  eapply apart_remove_placed; [apply _|eassumption|];
  intros ? []; constructor; first [assumption | by apply map_Forall_delete].
Ltac placed_insert :=
  eapply apart_insert_placed; [apply _|apply _|eassumption|];
  intros ? ? []; constructor; first [assumption | by apply map_Forall_insert_2].

Lemma apart_remove_carrier k : (spared → ¬ of_object P k) → Apart (m_remove WORKER_RUN_CARRIER k).
Proof. intros. placed_remove. Qed.
Lemma apart_remove_item k :
  (spared → ¬ of_object P k) → Apart (m_remove THREADPOOL_WORKITEM_THREAD k).
Proof. intros. placed_remove. Qed.
Lemma apart_remove_ctx_depth tid :
  (spared → ¬ of_thread t tid) → Apart (m_remove THREAD_CTX_DEPTH tid).
Proof. intros. placed_remove. Qed.
Lemma apart_remove_tool_depth tid :
  (spared → ¬ of_thread t tid) → Apart (m_remove TOOL_STACK_DEPTH tid).
Proof. intros. placed_remove. Qed.
Lemma apart_remove_run_depth tid :
  (spared → ¬ of_thread t tid) → Apart (m_remove WORKER_RUN_DEPTH tid).
Proof. intros. placed_remove. Qed.

Lemma outside_placed k tid : here k → outside tid → in_u32 tid ∧ (po_tgid k ≠ P → tid ≠ t).
Proof. intros Hk []. by rewrite Hk. Qed.
Lemma apart_insert_carrier k tid :
  here k → outside tid → Apart (m_insert WORKER_RUN_CARRIER k tid).
Proof using Hspared Hevict.
  intros Hk Htid. pose proof (outside_placed k tid Hk Htid).
  assert (spared → ¬ of_object P k) by (unfold of_object; rewrite Hk; exact Hspared). placed_insert.
Qed.
Lemma apart_insert_item k tid :
  here k → outside tid → Apart (m_insert THREADPOOL_WORKITEM_THREAD k tid).
Proof using Hspared Hevict.
  intros Hk Htid. pose proof (outside_placed k tid Hk Htid).
  assert (spared → ¬ of_object P k) by (unfold of_object; rewrite Hk; exact Hspared). placed_insert.
Qed.
Lemma apart_insert_ctx_depth tid d :
  0 ≤ d ≤ 8 → (spared → ¬ of_thread t tid) → Apart (m_insert THREAD_CTX_DEPTH tid d).
Proof using Hevict. intros. placed_insert. Qed.
Lemma apart_insert_tool_depth tid d :
  0 ≤ d ≤ 8 → (spared → ¬ of_thread t tid) → Apart (m_insert TOOL_STACK_DEPTH tid d).
Proof using Hevict. intros. placed_insert. Qed.
Lemma apart_insert_run_depth tid d :
  0 ≤ d ≤ 64 → (spared → ¬ of_thread t tid) → Apart (m_insert WORKER_RUN_DEPTH tid d).
Proof using Hevict. intros. placed_insert. Qed.

(** *** What is read *)

Section reads.
Context {B : Type}.

Lemma bind_tid (k : Z → M B) : Apart (k (cur_tid e0)) → Apart (get_tid ≫= k).
Proof. intros Hk e σ ->. by apply Hk. Qed.
Lemma bind_tgid (k : Z → M B) : Apart (k (cur_tgid e0)) → Apart (get_tgid ≫= k).
Proof. intros Hk e σ ->. by apply Hk. Qed.
Lemma bind_object p (k : PyObjectKey → M B) :
  Apart (k (py_object_key e0 p)) → Apart (get_object_key p ≫= k).
Proof. intros Hk e σ ->. by apply Hk. Qed.
Lemma bind_stack_key p d (k : TaskStackKey → M B) :
  Apart (k (task_stack_key e0 p d)) → Apart (get_task_stack_key p d ≫= k).
Proof. intros Hk e σ ->. by apply Hk. Qed.

(** A read whose result [I] vouches for. *)
Lemma bind_get {K V} `{Countable K} (m : bpf_map K V) i (R : V → Prop) (k : option V → M B) :
  (∀ σ v, placed P t σ → bm_get m σ !! i = Some v → R v) →
  Apart (k None) → (∀ v, R v → Apart (k (Some v))) → Apart (m_get m i ≫= k).
Proof.
  intros HR H0 Hk e σ He Hσ. change ((m_get m i ≫= k) e σ) with (k (bm_get m σ !! i) e σ).
  destruct (bm_get m σ !! i) as [v|] eqn:E; [|by apply H0]. apply Hk; [|done|done].
  eapply HR; [apply Hσ|exact E].
Qed.

Lemma bind_ctx_depth tid (k : option Z → M B) :
  Apart (k None) → (∀ d, 0 ≤ d ≤ 8 → Apart (k (Some d))) → Apart (m_get THREAD_CTX_DEPTH tid ≫= k).
Proof. apply bind_get. intros σ d Hσ. apply (placed_ctx_depth _ _ _ Hσ). Qed.
Lemma bind_tool_depth tid (k : option Z → M B) :
  Apart (k None) → (∀ d, 0 ≤ d ≤ 8 → Apart (k (Some d))) → Apart (m_get TOOL_STACK_DEPTH tid ≫= k).
Proof. apply bind_get. intros σ d Hσ. apply (placed_tool_depth _ _ _ Hσ). Qed.
Lemma bind_run_depth tid (k : option Z → M B) :
  Apart (k None) → (∀ d, 0 ≤ d ≤ 64 → Apart (k (Some d))) → Apart (m_get WORKER_RUN_DEPTH tid ≫= k).
Proof. apply bind_get. intros σ d Hσ. apply (placed_run_depth _ _ _ Hσ). Qed.
Lemma bind_carrier key (k : option Z → M B) :
  here key → Apart (k None) → (∀ tid, outside tid → Apart (k (Some tid))) →
  Apart (m_get WORKER_RUN_CARRIER key ≫= k).
Proof.
  intros Hk. apply bind_get. intros σ v Hσ Hv. destruct (placed_carriers _ _ _ Hσ key v Hv).
  split; [done|]. by rewrite <-Hk.
Qed.
Lemma bind_item key (k : option Z → M B) :
  here key → Apart (k None) → (∀ tid, outside tid → Apart (k (Some tid))) →
  Apart (m_get THREADPOOL_WORKITEM_THREAD key ≫= k).
Proof.
  intros Hk. apply bind_get. intros σ v Hσ Hv. destruct (placed_items _ _ _ Hσ key v Hv).
  split; [done|]. by rewrite <-Hk.
Qed.

(** The search over a stack reads only, and answers with an index below the depth. *)
Lemma find_entry_bounds {K V} `{Countable K} (m : bpf_map K V) key p depth e σ :
  (find_entry m key depth p e σ).2 = σ
  ∧ ∀ i v, (find_entry m key depth p e σ).1 = Some (i, v) → 0 ≤ i < depth.
Proof.
  unfold find_entry.
  match goal with |- context [scan 8 0 depth ?b] => set (body := b) end.
  enough (∀ fuel i, 0 ≤ i → (scan fuel i depth body e σ).2 = σ
    ∧ ∀ j v, (scan fuel i depth body e σ).1 = Some (j, v) → 0 ≤ j < depth) as Hs by by apply Hs.
  induction fuel as [|fuel IH]; intros i Hi; cbn [scan]; [done|].
  destruct (Z.geb_spec i depth); [done|].
  assert (body i e σ = (match bm_get m σ !! key i with
                        | Some v => if p v then Some (i, v) else None | None => None end, σ)) as E
    by done.
  rewrite (bind_run _ _ _ _ _ _ _ _ E). destruct (bm_get m σ !! key i) as [v|]; [|apply IH; lia].
  destruct (p v); [|apply IH; lia]. split; [done|]. intros ? ? [= <- _]. lia.
Qed.

Lemma bind_find {K V} `{Countable K} (m : bpf_map K V) key p depth (k : option (Z * V) → M B) :
  Apart (k None) → (∀ i v, 0 ≤ i < depth → Apart (k (Some (i, v)))) →
  Apart (find_entry m key depth p ≫= k).
Proof.
  intros H0 Hk e σ He Hσ. destruct (find_entry_bounds m key p depth e σ) as [E Hr].
  erewrite bind_run by apply surjective_pairing. rewrite E.
  destruct (find_entry m key depth p e σ).1 as [[i v]|]; [|by apply H0].
  apply Hk; [by apply (Hr i v)|done|done].
Qed.
End reads.

(** *** Keys that are not the thread's *)

Lemma spare_thread tid : outside tid → spared → ¬ of_thread t tid.
Proof. intros [_ H] Hq. by apply H, Hspared. Qed.
Lemma spare_thread_key tid i : outside tid → 0 ≤ i < 256 → spared → ¬ of_stack t 8 (thread_key tid i).
Proof. intros [Hu H] Hi Hq. apply other_stack; [done|done|by apply H, Hspared|lia|done]. Qed.
Lemma spare_tool_key tid i : outside tid → 0 ≤ i < 256 → spared → ¬ of_stack t 32 (tool_key tid i).
Proof. intros [Hu H] Hi Hq. apply other_stack; [done|done|by apply H, Hspared|lia|lia]. Qed.
Lemma spare_object k : here k → spared → ¬ of_object P k.
Proof. intros Hk Hq. unfold of_object. rewrite Hk. by apply Hspared. Qed.
Lemma spare_running : spared → cur_tgid e0 ≠ P.
Proof. exact Hspared. Qed.
Lemma here_key p : here (py_object_key e0 p).
Proof. done. Qed.

(** The side conditions of a write. *)
Ltac out := first [assumption | apply outside_current].
Ltac spare :=
  lazymatch goal with
  | |- _ → ¬ of_thread _ _ => apply spare_thread; out
  | |- _ → ¬ of_object _ _ => apply spare_object; first [assumption | reflexivity]
  | |- _ → ¬ of_stack _ _ (thread_key _ _) => apply spare_thread_key; [out|lia]
  | |- _ → ¬ of_stack _ _ (tool_key _ _) => apply spare_tool_key; [out|lia]
  | |- _ → ¬ of_task _ _ => exact spare_running
  | |- _ → ¬ of_code _ _ => exact spare_running
  | |- _ → ¬ of_pending _ _ => exact spare_running
  | |- _ → ¬ of_process _ _ => exact spare_running
  | |- _ => by intros _ []
  end.
Ltac bounds := first [lia | rewrite ?u8_small, ?u32_small by (unfold in_u32; lia); lia].

Lemma apart_same {A} (m : M A) :
  (∀ e σ, placed P t σ → placed P t (m e σ).2) →
  (∀ e σ σ1, private_same P t σ1 σ → private_same P t σ1 (m e σ).2) → Apart m.
Proof. intros Hp Hs e σ _ [H1 H2]. split; [by apply Hp|]. intros Hq. by apply Hs, H2. Qed.

Ltac same := apply apart_same; [intros ? ? []|intros ? ? ? []]; constructor; assumption.
(** *** Loops *)

(** A loop whose body sees the indices below its bound only. *)
Lemma apart_scan {A} fuel i depth (body : Z → M (option A)) :
  (∀ j, i ≤ j < depth → Apart (body j)) → Apart (scan fuel i depth body).
Proof.
  revert i. induction fuel as [|fuel IH]; intros i Hb; cbn [scan]; [apply preserves_ret|].
  destruct (Z.geb_spec i depth); [apply preserves_ret|]. apply preserves_bind; [apply Hb; lia|].
  intros [a|]; [apply preserves_ret|]. apply IH. intros j Hj. apply Hb. lia.
Qed.

Section shift.
Context {K V : Type} `{Countable K} (m : bpf_map K V) (own : K → Prop) (key : Z → K).
Context `{!MapLaws m, !PrivateMap P t m own, !UnplacedMap P t m}.

Lemma apart_shift fuel fi depth :
  (∀ j, fi ≤ j < depth → spared → ¬ own (key j)) → Apart (shift_down m key fuel fi depth).
Proof using All.
  intros Hk. unfold shift_down. apply preserves_bind; [|intros _; apply preserves_ret]. apply apart_scan. intros j Hj.
  apply preserves_bind; [same|]. intros [v|]; [|apply preserves_ret].
  apply preserves_bind; [apply apart_insert with (own := own); [apply _..|apply Hk; lia]|intros _].
  apply preserves_bind; [apply apart_remove with (own := own); [apply _..|apply Hk; lia]|intros _; apply preserves_ret].
Qed.
End shift.

Ltac here_tac := first [assumption | reflexivity].
Ltac apart_prim _ :=
  lazymatch goal with
  | |- Preserves _ _ (m_insert THREAD_CTX_DEPTH _ _) => apply apart_insert_ctx_depth; [bounds|spare]
  | |- Preserves _ _ (m_insert TOOL_STACK_DEPTH _ _) => apply apart_insert_tool_depth; [bounds|spare]
  | |- Preserves _ _ (m_insert WORKER_RUN_DEPTH _ _) => apply apart_insert_run_depth; [bounds|spare]
  | |- Preserves _ _ (m_insert WORKER_RUN_CARRIER _ _) => apply apart_insert_carrier; [here_tac|out]
  | |- Preserves _ _ (m_insert THREADPOOL_WORKITEM_THREAD _ _) =>
      apply apart_insert_item; [here_tac|out]
  | |- Preserves _ _ (m_insert _ _ _) => eapply apart_insert; [apply _|apply _|apply _|spare]
  | |- Preserves _ _ (m_remove THREAD_CTX_DEPTH _) => apply apart_remove_ctx_depth; spare
  | |- Preserves _ _ (m_remove TOOL_STACK_DEPTH _) => apply apart_remove_tool_depth; spare
  | |- Preserves _ _ (m_remove WORKER_RUN_DEPTH _) => apply apart_remove_run_depth; spare
  | |- Preserves _ _ (m_remove WORKER_RUN_CARRIER _) => apply apart_remove_carrier; spare
  | |- Preserves _ _ (m_remove THREADPOOL_WORKITEM_THREAD _) => apply apart_remove_item; spare
  | |- Preserves _ _ (m_remove _ _) => eapply apart_remove; [apply _|apply _|spare]
  | |- Preserves _ _ (m_alter _ _ _) => eapply apart_alter; [apply _|apply _|spare]
  | |- _ => same
  end.

Create HintDb apart_db discriminated.
Hint Constants Opaque : apart_db.
Hint Resolve outside_current here_key : apart_db.

Ltac apart_step :=
  lazymatch goal with
  | |- Preserves _ _ (mbind _ get_tid) => apply bind_tid
  | |- Preserves _ _ (mbind _ get_tgid) => apply bind_tgid
  | |- Preserves _ _ (mbind _ (get_object_key _)) => apply bind_object
  | |- Preserves _ _ (mbind _ (get_task_stack_key _ _)) => apply bind_stack_key
  | |- Preserves _ _ (mbind _ (m_get THREAD_CTX_DEPTH _)) => apply bind_ctx_depth; [|intros ? ?]
  | |- Preserves _ _ (mbind _ (m_get TOOL_STACK_DEPTH _)) => apply bind_tool_depth; [|intros ? ?]
  | |- Preserves _ _ (mbind _ (m_get WORKER_RUN_DEPTH _)) => apply bind_run_depth; [|intros ? ?]
  | |- Preserves _ _ (mbind _ (m_get WORKER_RUN_CARRIER _)) =>
      apply bind_carrier; [first [assumption|reflexivity]| |intros ? ?]
  | |- Preserves _ _ (mbind _ (m_get THREADPOOL_WORKITEM_THREAD _)) =>
      apply bind_item; [first [assumption|reflexivity]| |intros ? ?]
  | |- Preserves _ _ (mbind _ (find_entry _ _ _ _)) => apply bind_find; [|intros ? ? ?]
  | |- Preserves _ _ (scan _ _ _ _) => apply apart_scan; intros ? ?
  | |- Preserves _ _ (shift_down _ _ _ _ _) => eapply apart_shift; [apply _..|intros ? ?; spare]
  | |- Preserves _ _ (if (?x >=? ?y) || _ then _ else _) =>
      destruct (Z.geb_spec x y); cbn [orb]
  | |- Preserves _ _ (if ?x >=? ?y then _ else _) =>
      destruct (Z.geb_spec x y); unfold MAX_CTX_STACK_DEPTH in *
  | |- Preserves _ _ (if ?x >? ?y then _ else _) => destruct (Z.gtb_spec x y)
  | |- Preserves _ _ (if ?x =? ?y then _ else _) => destruct (Z.eqb_spec x y)
  | |- _ => follow_step apart_prim ltac:(fun _ => eauto 3 with apart_db nocore)
  end.
Ltac apart := repeat (cbv beta zeta; cbn [unwrap_or]; apart_step).

(** *** The stacks *)

Lemma apart_ctx_push tid c : outside tid → Apart (ctx_stack_push tid c).
Proof using All. intros Htid. apart. Qed.
Lemma apart_ctx_remove tid c : outside tid → Apart (ctx_stack_remove tid c).
Proof using All. intros Htid. apart. Qed.
Lemma apart_tool_push tid a b c d : outside tid → Apart (tool_stack_push tid a b c d).
Proof using All. intros Htid. apart. Qed.
Lemma apart_tool_remove p tid : outside tid → Apart (tool_stack_remove_if p tid).
Proof using All. intros Htid. apart. Qed.
Hint Resolve apart_ctx_push apart_ctx_remove apart_tool_push apart_tool_remove : apart_db.

Lemma apart_worker_push tid en : outside tid → Apart (worker_stack_push tid en).
Proof using All. intros Htid. apart. Qed.
Lemma apart_worker_remove_at tid i d :
  outside tid → 0 ≤ i → d ≤ 64 → Apart (worker_stack_remove_at tid i d).
Proof using All. intros. apart. Qed.
Lemma apart_worker_near_top p tid : outside tid → Apart (worker_stack_remove_near_top p tid).
Proof using All. intros. apart. Qed.
Hint Resolve apart_worker_push apart_worker_near_top : apart_db.

(** *** The operations *)

Lemma apart_alloc_zero n : Apart (alloc_zero n).
Proof.
  apply apart_same.
  - intros e σ []. unfold alloc_zero. repeat case_match; constructor; assumption.
  - intros e σ σ1 []. unfold alloc_zero. repeat case_match; constructor; assumption.
Qed.
Lemma apart_carrier_dec c : Apart (carrier_dec c).
Proof using All. apart. Qed.
Hint Resolve apart_alloc_zero apart_carrier_dec : apart_db.
Lemma apart_task_push tid a b c : outside tid → Apart (task_ctx_push tid a b c).
Proof using All. intros. apart. Qed.
Lemma apart_task_remove tid a b : outside tid → Apart (task_ctx_remove tid a b).
Proof using All. intros. apart. Qed.
Hint Resolve apart_task_push apart_task_remove : apart_db.
Lemma apart_get_active tid : outside tid → Apart (get_active_ctx tid).
Proof using All. intros. apart. Qed.
Hint Resolve apart_get_active : apart_db.
Lemma apart_finish tid en : outside tid → Apart (finish_tool_close tid en).
Proof using All. intros. apart. Qed.
Hint Resolve apart_finish : apart_db.
Lemma apart_close tid en : outside tid → Apart (close_tool_stack_entry tid en).
Proof using All. intros. apart. Qed.
Hint Resolve apart_close : apart_db.
Lemma apart_finish_deferred tid p c : outside tid → Apart (finish_deferred_tool_close tid p c).
Proof using All. intros. apart. Qed.
Lemma apart_restore tid p : outside tid → Apart (restore_deferred_tool_close tid p).
Proof using All. intros. apart. Qed.
Lemma apart_task_clear tid p : outside tid → Apart (task_ctx_clear tid p).
Proof using All. intros. apart. Qed.
Lemma apart_stash_push tid f : outside tid → Apart (frame_stash_push tid f).
Proof using All. intros. apart. Qed.
Lemma apart_stash_pop tid : outside tid → Apart (frame_stash_pop tid).
Proof using All. intros. apart. Qed.
Hint Resolve apart_finish_deferred apart_restore apart_task_clear apart_stash_push apart_stash_pop : apart_db.
Lemma apart_classify c : Apart (classify (cur_tgid e0) c).
Proof using All. intros. apart. Qed.
Lemma apart_candidate a b c d f : Apart (emit_resolver_candidate a b c d f).
Proof using All. intros. apart. Qed.
Lemma apart_extract a b c d : Apart (extract_and_resolve a b c d).
Proof using All. intros. apart. Qed.
Lemma apart_cached f : Apart (cached_frame_self_tool_id f).
Proof using All. intros. apart. Qed.
Lemma apart_worker_kind f : Apart (worker_kind_for_frame (cur_tgid e0) f).
Proof using All. intros. apart. Qed.
Lemma apart_find_in_frame f : Apart (find_mapped_work_item_in_frame f).
Proof using All. intros. apart. Qed.
Hint Resolve apart_classify apart_candidate apart_extract apart_cached apart_worker_kind apart_find_in_frame : apart_db.
Lemma apart_walk fuel f : Apart (walk_frame_chain fuel (cur_tgid e0) f).
Proof using All. revert f. induction fuel as [|fuel IH]; intros f; cbn [walk_frame_chain]; apart. Qed.
Hint Resolve apart_walk : apart_db.
Lemma apart_clear_pool tid en : outside tid → Apart (clear_threadpool_worker_ctx tid en).
Proof using All. intros. apart. Qed.
Hint Resolve apart_clear_pool : apart_db.
Lemma apart_clear_pool_object tid p : outside tid → Apart (clear_threadpool_worker_for_object tid p).
Proof using All. intros. apart. Qed.
Lemma apart_refresh tid : outside tid → Apart (refresh_threadpool_worker_context tid).
Proof using All. intros. apart. Qed.
Lemma apart_finalize p c i : Apart (finalize_worker_run_for_object p c i).
Proof using All. intros. apart. Qed.
Lemma apart_clear_runs tid : outside tid → Apart (clear_worker_runs_for_thread tid).
Proof using All. intros. apart. Qed.
Hint Resolve apart_clear_pool_object apart_refresh apart_finalize apart_clear_runs : apart_db.

(** *** The handlers *)

Lemma apart_publish tid f i c : outside tid → Apart (publish_ctx tid f i c).
Proof using All. intros. apart. Qed.
Hint Resolve apart_publish : apart_db.
Lemma apart_start tid f p i fl : outside tid → Apart (start_cached_self_tool_root tid f p i fl).
Proof using All. intros. apart. Qed.
Hint Resolve apart_start : apart_db.
Lemma apart_start_parent tid p : outside tid → Apart (start_cached_parent_tool_if_needed tid p).
Proof using All. intros. apart. Qed.
Lemma apart_reenter tid f p c i : outside tid → Apart (reenter_frame tid f p c i).
Proof using All. intros. apart. Qed.
Lemma apart_pending tid f p : outside tid → Apart (pending_frame_start tid f p).
Proof using All. intros. apart. Qed.
Lemma apart_duplicate tid f c i fl : outside tid → Apart (duplicate_tool tid f c i fl).
Proof using All. intros. apart. Qed.
Hint Resolve apart_start_parent apart_reenter apart_pending apart_duplicate : apart_db.
Lemma apart_root_lc tid f p c fl k : outside tid → Apart (tool_root_lc tid f p c fl k).
Proof using All. intros. apart. Qed.
Lemma apart_reentry tid f p : outside tid → Apart (frame_reentry tid f p).
Proof using All. intros. apart. Qed.
Lemma apart_ignored tid f c fl k : outside tid → Apart (ignored_frame_entry tid f c fl k).
Proof using All. intros. apart. Qed.
Hint Resolve apart_root_lc apart_reentry apart_ignored : apart_db.
Lemma apart_entry_inner f b : Apart (handle_tool_frame_entry_for_ptr_inner f b).
Proof using All. intros. apart. Qed.
Hint Resolve apart_entry_inner : apart_db.
Lemma apart_ctor tid f k : outside tid → Apart (handle_ctor_entry tid f k).
Proof using All. intros. apart. Qed.
Lemma apart_run_entry tid f k : outside tid → Apart (handle_run_entry tid f k).
Proof using All. intros. apart. Qed.
Lemma apart_dispatch_exit tid p : outside tid → Apart (dispatch_exit_for_parent tid p).
Proof using All. intros. apart. Qed.
Hint Resolve apart_ctor apart_run_entry apart_dispatch_exit : apart_db.
Lemma apart_worker_frame f : Apart (handle_worker_frame_for_ptr f).
Proof using All. intros. apart. Qed.
Lemma apart_exit r : Apart (handle_frame_exit r).
Proof using All. intros. apart. Qed.
Hint Resolve apart_worker_frame apart_exit : apart_db.

(** *** Tasks, objects and threads *)

Lemma apart_task_init : Apart (handle_task_init).
Proof using All. intros. apart. Qed.
Lemma apart_step_entry : Apart (handle_task_step_entry).
Proof using All. intros. apart. Qed.
Lemma apart_step_return : Apart (handle_task_step_return).
Proof using All. intros. apart. Qed.
Hint Resolve apart_task_init apart_step_entry apart_step_return : apart_db.
Lemma apart_dealloc_frame p key c : here key → Apart (dealloc_frame_ctx p key c).
Proof using All. intros. apart. Qed.
Lemma apart_dealloc_carriers p key : here key → Apart (dealloc_carriers p key).
Proof using All. intros. apart. Qed.
Hint Resolve apart_dealloc_frame apart_dealloc_carriers : apart_db.

(** The frame context of a deallocated object is one of the running process. *)
Lemma bind_dealloc_key {B} p (k : PyObjectKey → M B) :
  (∀ key, here key → Apart (k key)) → Apart (dealloc_frame_key p ≫= k).
Proof using All.
  intros Hk e σ -> Hσ.
  assert (Apart (dealloc_frame_key p)) as Hm by apart.
  erewrite bind_run by apply surjective_pairing.
  apply Hk; [|done|by apply Hm]. unfold dealloc_frame_key. mstep. mstep.
  match goal with |- context [match ?o with Some _ => _ | None => _ end e0 σ] =>
    destruct o as [off|] end; [|exact (here_key p)].
  destruct (negb _); [|exact (here_key p)]. mstep. mstep. mstep.
  destruct (bm_get FRAME_CTX _ !! _); apply here_key.
Qed.
Lemma apart_dealloc p : Apart (handle_pyobj_dealloc p).
Proof using All.
  unfold handle_pyobj_dealloc. repeat (cbv beta zeta; cbn [unwrap_or];
    lazymatch goal with
    | |- Preserves _ _ (mbind _ (dealloc_frame_key _)) => apply bind_dealloc_key; intros ? ?
    | |- _ => apart_step
    end).
Qed.
Hint Resolve apart_dealloc : apart_db.
Lemma apart_reap tid : outside tid → Apart (reap_thread tid).
Proof using All. intros. apart. Qed.
Lemma apart_inherited tid : outside tid → Apart (fork_inherited_ctx (cur_tgid e0) tid).
Proof using All. intros. apart. Qed.
Hint Resolve apart_reap apart_inherited : apart_db.
Lemma apart_sched_exit : Apart (handle_sched_exit).
Proof using All. intros. apart. Qed.
Hint Resolve apart_sched_exit : apart_db.

(** A child that the run creates is neither the thread nor of the process. *)
Definition fork_spares : Prop := ∀ child pid tgid,
  arg e0 1 = Some child → field e0 task_struct_pid child = Some pid →
  field e0 task_struct_tgid child = Some tgid → u32 pid ≠ t ∧ u32 tgid ≠ P.

Lemma apart_bind_child c pid tgid :
  (spared → u32 pid ≠ t ∧ u32 tgid ≠ P) → Apart (fork_bind_child c (u32 pid) (u32 tgid)).
Proof using All.
  intros Hc. assert (spared → ¬ of_thread t (u32 pid)) by (intros Hq; by apply Hc).
  assert (spared → ¬ of_process P (u32 tgid)) by (intros Hq; by apply Hc).
  unfold fork_bind_child.
  repeat (cbv beta zeta; first
    [ eapply apart_insert; [apply _|apply _|apply _|assumption] | apart_step ]).
Qed.

Lemma apart_fork : (spared → fork_spares) → Apart handle_sched_fork.
Proof using All.
  intros Hf. unfold handle_sched_fork.
  apply bind_tgid, bind_tid. apply preserves_bind; [apart|intros prot].
  apply preserves_bind; [apart|intros c]. apply preserves_bind; [apart|intros config]. cbv zeta.
  destruct (_ && _); [apart|]. intros e σ -> Hσ. mstep.
  destruct (arg e0 1) as [child|] eqn:Ea; cbn [unwrap_or]; [|exact Hσ].
  destruct (Z.eqb_spec child 0) as [|Hne]; [exact Hσ|]. mstep.
  change (if child =? 0 then None else shim e0 task_struct_pid child)
    with (field e0 task_struct_pid child).
  destruct (field e0 task_struct_pid child) as [pid|] eqn:Ep; [|exact Hσ].
  destruct (u32 pid =? 0); [exact Hσ|]. mstep.
  change (if child =? 0 then None else shim e0 task_struct_tgid child)
    with (field e0 task_struct_tgid child).
  destruct (field e0 task_struct_tgid child) as [tgid|] eqn:Eg; [|exact Hσ].
  erewrite bind_run by apply surjective_pairing.
  apply (apart_bind_child c pid tgid); [|done|exact Hσ]. intros Hq. by apply (Hf Hq child).
Qed.

Hint Resolve apart_fork : apart_db.

(** *** Hooks and programs *)

Lemma apart_emit_path a b c d f g h : Apart (try_emit_path_event a b c d f g h).
Proof using All. intros. apart. Qed.
Lemma apart_emit_net a b c d f g h i : Apart (try_emit_net_event a b c d f g h i).
Proof using All. intros. apart. Qed.
Lemma apart_hook_identity k : Apart (hook_identity k).
Proof using All. intros. apart. Qed.
Lemma apart_fentry_identity k : Apart (fentry_identity k).
Proof using All. intros. apart. Qed.
Lemma apart_decision i p : Apart (hook_decision i p).
Proof using All. intros. apart. Qed.
Lemma apart_file_identity f : Apart (get_file_identity f).
Proof using All. intros. apart. Qed.
Lemma apart_endpoint sa : Apart (connect_endpoint sa).
Proof using All. intros. apart. Qed.
Hint Resolve apart_emit_path apart_emit_net apart_hook_identity apart_fentry_identity apart_decision apart_file_identity apart_endpoint : apart_db.

(** Every program, where a fork that is to spare [t] does not create it. *)
Lemma apart_run_probe p :
  (spared → p = sched_process_fork → fork_spares) → Apart (run_probe p).
Proof using All.
  intros Hf. destruct p; cbn [run_probe].
  { unfold or_zero. apply preserves_bind; [apply apart_fork; auto|apart]. }
  all: clear Hf; apart.
Qed.
End run.

(** ** Sessions *)

(** The event loop changes contexts and cached tool objects. *)
Definition kernel_part (σ : State) : State := set_tick 0 (set_tool_ctx ∅ (set_tool_obj ∅ σ)).

Lemma kernel_part_placed P t σ σ' : kernel_part σ' = kernel_part σ → placed P t σ → placed P t σ'.
Proof.
  intros E [H1 H2 H3 H4 H5].
  assert (placed P t (kernel_part σ)) as Hk by by constructor. rewrite <-E in Hk.
  destruct Hk. by constructor.
Qed.
Lemma kernel_part_private P t σ0 σ σ' :
  kernel_part σ' = kernel_part σ → private_same P t σ0 σ → private_same P t σ0 σ'.
Proof.
  intros E []. assert (private_same P t σ0 (kernel_part σ)) as Hk by (constructor; assumption).
  rewrite <-E in Hk. destruct Hk. constructor; assumption.
Qed.

Section session.
Context (detect_for_pid : Z → option CpythonResolver) (duration : Z).
Abbreviation run := (run detect_for_pid duration).

#[local] Hint Extern 0 (Preserves _ _ (u_insert _ _ _)) =>
  (apply leaves_user_insert; by intros) : leaves_db.

Lemma resolver_event_kernel ev rt :
  Leaves kernel_part (handle_resolver_event detect_for_pid ev rt).
Proof. leaves. Qed.

Lemma loop_kernel shutdown elapsed e s :
  kernel_part (ss_maps (loop_step detect_for_pid duration shutdown elapsed e s))
  = kernel_part (ss_maps s).
Proof.
  unfold loop_step. destruct (ss_point s); repeat case_match; try done.
  by apply (resolver_event_kernel _ _ (kernel_part (ss_maps s))).
Qed.

(** Thread [t] runs in process [P] only. *)
Definition runs_in (P t : Z) (a : action) : Prop :=
  match a with Runs _ e => cur_tid e = t → cur_tgid e = P | Loop _ _ _ => True end.

(** The action runs no program for process [P]; no entry is evicted, and a fork creates
    neither the thread nor a thread of the process. *)
Definition elsewhere (P t : Z) (a : action) : Prop :=
  match a with
  | Runs p e =>
      cur_tgid e ≠ P ∧ cur_tid e ≠ t ∧ (∀ n k, evicts e n k = false)
      ∧ (p = sched_process_fork → fork_spares P t e)
  | Loop _ _ _ => True
  end.

(** No object is bound to a thread and no depth is recorded. *)
Definition unbound (σ : State) : Prop :=
  worker_run_carrier σ = ∅ ∧ threadpool_workitem_thread σ = ∅ ∧ thread_ctx_depth σ = ∅
  ∧ tool_stack_depth σ = ∅ ∧ worker_run_depth σ = ∅.

Lemma unbound_placed P t σ : unbound σ → placed P t σ.
Proof.
  intros (E1 & E2 & E3 & E4 & E5).
  constructor; rewrite ?E1, ?E2, ?E3, ?E4, ?E5; apply map_Forall_empty.
Qed.

Lemma run_placed P t s l :
  in_u32 t → Forall (runs_in P t) l → placed P t (ss_maps s) → placed P t (ss_maps (run s l)).
Proof.
  intros Ht. revert s. induction l as [|a l IH]; intros s Hl Hs; [done|].
  apply Forall_cons in Hl as [Ha Hl]. apply IH; [done|].
  destruct a as [p e|sh el e]; cbn [act with_maps ss_maps].
  - by refine (proj1 (apart_run_probe P t (ss_maps s) e False Ht Ha _ _ p _ e _ eq_refl _)).
  - eapply kernel_part_placed; [apply loop_kernel|done].
Qed.

Lemma run_private P t σ0 s l :
  in_u32 t → Forall (elsewhere P t) l → placed P t (ss_maps s) →
  private_same P t σ0 (ss_maps s) → private_same P t σ0 (ss_maps (run s l)).
Proof.
  intros Ht. revert s. induction l as [|a l IH]; intros s Hl Hs Hp; [done|].
  apply Forall_cons in Hl as [Ha Hl].
  assert (placed P t (ss_maps (act detect_for_pid duration a s))
    ∧ private_same P t σ0 (ss_maps (act detect_for_pid duration a s))) as [H1 H2]; [|by apply IH].
  destruct a as [p e|sh el e]; cbn [act with_maps ss_maps].
  - destruct Ha as (Hg & Htid & Hev & Hf).
    assert (isolated P t σ0 True (run_probe p e (ss_maps s)).2) as [? ?]; [|by auto].
    by refine (apart_run_probe P t σ0 e True Ht _ _ _ p _ e _ eq_refl _); auto.
  - split; [eapply kernel_part_placed|eapply kernel_part_private]; (apply loop_kernel || done).
Qed.

(** C12: processes do not see each other.  From maps without bound objects, after any
    schedule in which thread [t] runs in process [P] only (failing updates and
    evictions included), nothing that programs then run for other processes, nor the
    event loop, changes what is recorded for [P] and [t]: the thread's contexts, tool
    frames, workers, active context, task and saved steps, and the contexts of the
    process's frames, tasks, work items and threads, its classified code and whether it
    is protected.  Only an eviction, and a fork that creates the thread or a thread of
    the process, are excepted. *)
Theorem process_isolation P t σ0 l0 l :
  unbound σ0 → in_u32 t → Forall (runs_in P t) l0 → Forall (elsewhere P t) l →
  let s := run (start_session σ0) l0 in
  private_same P t (ss_maps s) (ss_maps (run s l)).
Proof.
  intros H0 Ht Hl0 Hl s. apply run_private; [done|done| |reflexivity].
  apply run_placed; [done|done|]. by apply unbound_placed.
Qed.
End session.

(** Thread 11 of process 8, which runs context 17 as thread 9 of process 7 does. *)
Definition env_other : Env :=
  {| pid_tgid := 8 * 2 ^ 32 + 11; processor_id := 0; ktime := λ _, 0; update_ok := λ _, true;
     evicts := λ _ _, false; reserve_ok := λ _, true; user_mem := λ _, None;
     reg := λ _, None; arg := λ _, None; shim := λ _ _, None; mount_of := id;
     kernel_mem := λ _, None; lpm_get := λ _ _ _, None |}.
Definition state_both : State :=
  set_thread_active_ctx {[ 9 := 17; 11 := 17 ]} (state_denied MODE_ENFORCE).

Lemma process_isolation_witness :
  let s := run (λ _, None) 0 (start_session state_both) [Runs eval_frame_entry env0] in
  let s' := run (λ _, None) 0 s [Runs ag_file_open env_other; turn false;
                                 Runs sched_process_exit env_other] in
  thread_active_ctx (ss_maps s') !! 11 = None
  ∧ thread_active_ctx (ss_maps s') !! 9 = thread_active_ctx (ss_maps s) !! 9
  ∧ thread_active_ctx (ss_maps s) !! 9 = Some 17.
Proof.
  intros s s'. split; [vm_compute; reflexivity|]. split; [|vm_compute; reflexivity].
  refine (same_active_ctx _ _ _ _ (process_isolation (λ _, None) 0 7 9 state_both
    [Runs eval_frame_entry env0] [Runs ag_file_open env_other; turn false;
                                  Runs sched_process_exit env_other] _ _ _ _) 9 eq_refl).
  - by repeat split.
  - unfold in_u32; lia.
  - repeat constructor.
  - repeat constructor; by discriminate.
Defined.
