(* ===== verification/Confined.v ===== *)
(** * Contexts stay with their processes

    A context is in the reach of the family of processes whose program allocated it
    only: a process with the descendants that inherit its context.  [confined] is the
    invariant: no map that leads to contexts leads to this one for a thread or an object
    of another process.  Programs of the family keep it, and programs of other processes
    keep it and leave alone the record of the context and the active contexts of the
    family's threads.  The judgement [Gives] carries both through every program, with
    what is known of the value returned; [Grows] also bounds the counters of identifiers,
    so that a fresh identifier is never the context's. *)

From stdpp Require Import base gmap list.
From S2P Require Import Prelude Types Maps Samples Ownership Identity Worker Frames Tasks.
From S2P Require Import Events Lsm Probes Monotone Compiler Runtime Contexts Counting Decision.
From S2P Require Import Session Isolation.

Section confined.
Context (P T : Z → Prop) (c : Z).

(** ** Who holds the context

    [P] is a family of processes, [T] their threads, [c] the context.  The predicates say
    of an entry that it leads to [c] only for a thread of [T] or an object of [P]. *)

Definition not_ctx (v : Z) : Prop := v ≠ c.
Definition entry_ok (en : ToolStackEntry) : Prop := se_ctx_id en ≠ c.
Definition run_ok (en : WorkerRunEntry) : Prop := wr_prev_ctx en ≠ c.
Definition spawn_ok (s : PendingWorkerSpawn) : Prop := pw_ctx_id s ≠ c.
Definition local_ok (l : WorkerLocalCtx) : Prop := wl_ctx_id l ≠ c ∧ wl_prev_ctx l ≠ c.

Definition by_thread {V} (ok : V → Prop) (k : Z) (v : V) : Prop := ¬ T k → ok v.
Definition by_stack {V} (n : Z) (ok : V → Prop) (k : Z) (v : V) : Prop :=
  ok v ∨ ∃ t i, T t ∧ in_u32 t ∧ 0 ≤ i < 2 ^ n ∧ k = pack t n i.
Definition by_object {V} (ok : V → Prop) (k : PyObjectKey) (v : V) : Prop := ¬ P (po_tgid k) → ok v.
Definition by_task {V} (ok : V → Prop) (k : TaskStackKey) (v : V) : Prop := ¬ P (ts_tgid k) → ok v.
(** The thread that an object is bound to, and a depth. *)
Definition by_binding (k : PyObjectKey) (v : Z) : Prop :=
  in_u32 v ∧ (¬ P (po_tgid k) → ¬ T v) ∧ (P (po_tgid k) → T v).
Definition below {K} (n : Z) (_ : K) (d : Z) : Prop := 0 ≤ d ≤ n.

Record confined (σ : State) : Prop := {
  cf_active : map_Forall (by_thread not_ctx) (thread_active_ctx σ);
  cf_fork : map_Forall (by_thread not_ctx) (fork_ctx σ);
  cf_step : map_Forall (by_thread not_ctx) (task_step_stash σ);
  cf_spawn : map_Forall (by_thread spawn_ok) (pending_worker_spawn σ);
  cf_pool : map_Forall (by_thread local_ok) (threadpool_worker_ctx σ);
  cf_ctx_stack : map_Forall (by_stack 8 not_ctx) (thread_ctx_stack σ);
  cf_tool_stack : map_Forall (by_stack 32 entry_ok) (tool_stack σ);
  cf_run_stack : map_Forall (by_stack 8 run_ok) (worker_run_stack σ);
  cf_frame : map_Forall (by_object not_ctx) (frame_ctx σ);
  cf_task : map_Forall (by_object not_ctx) (task_ctx σ);
  cf_item : map_Forall (by_object not_ctx) (workitem_ctx σ);
  cf_thread_obj : map_Forall (by_object not_ctx) (pythread_obj_ctx σ);
  cf_task_stack : map_Forall (by_task not_ctx) (task_ctx_stack σ);
  cf_close : map_Forall (by_task entry_ok) (pending_tool_close σ);
  cf_carriers : map_Forall by_binding (worker_run_carrier σ);
  cf_items : map_Forall by_binding (threadpool_workitem_thread σ);
  cf_ctx_depth : map_Forall (below 8) (thread_ctx_depth σ);
  cf_tool_depth : map_Forall (below 8) (tool_stack_depth σ);
  cf_run_depth : map_Forall (below 64) (worker_run_depth σ)
}.

(** [m] keeps its entries in [Q]; nothing else is required of it. *)
Class Tracked {K V} `{Countable K} (m : bpf_map K V) (Q : K → V → Prop) : Prop := {
  tracked_get σ : confined σ → map_Forall Q (bm_get m σ);
  tracked_set σ y : confined σ → map_Forall Q y → confined (bm_set m y σ);
  tracked_ctx σ y : tool_ctx (bm_set m y σ) = tool_ctx σ;
  tracked_counter σ y : ctx_counter (bm_set m y σ) = ctx_counter σ
}.
(** [m] is not the map of active contexts. *)
Class Quiet {K V} `{Countable K} (m : bpf_map K V) : Prop :=
  quiet σ y : thread_active_ctx (bm_set m y σ) = thread_active_ctx σ.
End confined.

Ltac tracked_tac :=
  constructor; [intros ? []; assumption|intros ? ? [] ?; constructor; assumption|done|done].
(** The maps that lead to no context. *)
Ltac plain_tac :=
  constructor; [by intros ? _ ? ? _|intros ? ? [] ?; constructor; assumption|done|done].
Definition any {K V : Type} (_ : K) (_ : V) : Prop := True.

Section maps.
Context (P T : Z → Prop) (c : Z).
Abbreviation Tr m Q := (Tracked P T c m Q).

#[global] Instance tr_active : Tr THREAD_ACTIVE_CTX (by_thread T (not_ctx c)). Proof. tracked_tac. Qed.
#[global] Instance tr_fork : Tr FORK_CTX (by_thread T (not_ctx c)). Proof. tracked_tac. Qed.
#[global] Instance tr_step : Tr TASK_STEP_STASH (by_thread T (not_ctx c)). Proof. tracked_tac. Qed.
#[global] Instance tr_spawn : Tr PENDING_WORKER_SPAWN (by_thread T (spawn_ok c)). Proof. tracked_tac. Qed.
#[global] Instance tr_pool : Tr THREADPOOL_WORKER_CTX (by_thread T (local_ok c)). Proof. tracked_tac. Qed.
#[global] Instance tr_ctx_stack : Tr THREAD_CTX_STACK (by_stack T 8 (not_ctx c)). Proof. tracked_tac. Qed.
#[global] Instance tr_tool_stack : Tr TOOL_STACK (by_stack T 32 (entry_ok c)). Proof. tracked_tac. Qed.
#[global] Instance tr_run_stack : Tr WORKER_RUN_STACK (by_stack T 8 (run_ok c)). Proof. tracked_tac. Qed.
#[global] Instance tr_frame : Tr FRAME_CTX (by_object P (not_ctx c)). Proof. tracked_tac. Qed.
#[global] Instance tr_task : Tr TASK_CTX (by_object P (not_ctx c)). Proof. tracked_tac. Qed.
#[global] Instance tr_item : Tr WORKITEM_CTX (by_object P (not_ctx c)). Proof. tracked_tac. Qed.
#[global] Instance tr_thread_obj : Tr PYTHREAD_OBJ_CTX (by_object P (not_ctx c)). Proof. tracked_tac. Qed.
#[global] Instance tr_task_stack : Tr TASK_CTX_STACK (by_task P (not_ctx c)). Proof. tracked_tac. Qed.
#[global] Instance tr_close : Tr PENDING_TOOL_CLOSE (by_task P (entry_ok c)). Proof. tracked_tac. Qed.
#[global] Instance tr_carriers : Tr WORKER_RUN_CARRIER (by_binding P T). Proof. tracked_tac. Qed.
#[global] Instance tr_items :
  Tr THREADPOOL_WORKITEM_THREAD (by_binding P T). Proof. tracked_tac. Qed.
#[global] Instance tr_ctx_depth : Tr THREAD_CTX_DEPTH (below 8). Proof. tracked_tac. Qed.
#[global] Instance tr_tool_depth : Tr TOOL_STACK_DEPTH (below 8). Proof. tracked_tac. Qed.
#[global] Instance tr_run_depth : Tr WORKER_RUN_DEPTH (below 64). Proof. tracked_tac. Qed.

#[global] Instance tr_obj : Tr TOOL_OBJ any. Proof. plain_tac. Qed.
#[global] Instance tr_code : Tr CODE_KIND any. Proof. plain_tac. Qed.
#[global] Instance tr_resolve : Tr PENDING_TOOL_RESOLVE any. Proof. plain_tac. Qed.
#[global] Instance tr_frame_tool : Tr PENDING_FRAME_TOOL any. Proof. plain_tac. Qed.
#[global] Instance tr_task_depth : Tr TASK_CTX_DEPTH any. Proof. plain_tac. Qed.
#[global] Instance tr_obj_thread : Tr PYTHREAD_OBJ_THREAD any. Proof. plain_tac. Qed.
#[global] Instance tr_pool_frame : Tr THREADPOOL_WORKER_FRAME any. Proof. plain_tac. Qed.
#[global] Instance tr_cur_frame : Tr THREAD_CURRENT_FRAME any. Proof. plain_tac. Qed.
#[global] Instance tr_tstate : Tr THREAD_TSTATE any. Proof. plain_tac. Qed.
#[global] Instance tr_active_task : Tr THREAD_ACTIVE_TASK any. Proof. plain_tac. Qed.
#[global] Instance tr_stash : Tr FRAME_ENTRY_STASH any. Proof. plain_tac. Qed.
#[global] Instance tr_stash_depth : Tr FRAME_STASH_DEPTH any. Proof. plain_tac. Qed.
#[global] Instance tr_step_prev : Tr TASK_STEP_PREV_TASK any. Proof. plain_tac. Qed.
#[global] Instance tr_protected : Tr PROTECTED_TGIDS any. Proof. plain_tac. Qed.
#[global] Instance tr_config : Tr IRONSCOPE_CONFIG any. Proof. plain_tac. Qed.
#[global] Instance tr_fs : Tr TOOL_FS_POLICY any. Proof. plain_tac. Qed.
#[global] Instance tr_exec : Tr TOOL_EXEC_POLICY any. Proof. plain_tac. Qed.

#[global] Instance tr_ctor_carrier kind : Tr (ctor_carrier_map kind) (by_object P (not_ctx c)).
Proof. unfold ctor_carrier_map. destruct (kind =? _); apply _. Qed.
#[global] Instance tr_run_carrier kind : Tr (run_carrier_map kind) (by_object P (not_ctx c)).
Proof. unfold run_carrier_map. destruct (kind =? _); apply _. Qed.
End maps.

#[global] Hint Extern 0 (Quiet _) => (intros ? ?; reflexivity) : typeclass_instances.
#[global] Instance quiet_ctor_carrier kind : Quiet (ctor_carrier_map kind).
Proof. intros σ y. unfold ctor_carrier_map. by destruct (kind =? _). Qed.
#[global] Instance quiet_run_carrier kind : Quiet (run_carrier_map kind).
Proof. intros σ y. unfold run_carrier_map. by destruct (kind =? _). Qed.

(** Instance search treats the predicates as atoms. *)
#[local] Typeclasses Opaque by_thread by_stack by_object by_task by_binding below any.

(** ** One run of a program

    The run is [foreign], for a process outside the family on none of the threads, or it
    is one of the family's own on one of its threads; only a foreign run owes anything
    to the record of the context and to the active contexts of the threads. *)

Section run.
Context (P T : Z → Prop) (cpu lo : Z) (x : option ToolCtx) (active : Z → option Z).
Context (e0 : Env) (foreign allocated : Prop).
Abbreviation c := (ctx_id_of cpu lo).
Context (Hc : c ≠ 0) (Hallocated : foreign → allocated).
Context (Hside : foreign ∧ ¬ P (cur_tgid e0) ∧ ¬ T (cur_tid e0)
                 ∨ ¬ foreign ∧ P (cur_tgid e0) ∧ T (cur_tid e0)).

(** The counters stand at most at [n], and once the context has been allocated that of
    its processor is past it. *)
Definition counted (n : Z) (σ : State) : Prop :=
  (∀ p, 1 ≤ next_id σ p ≤ n) ∧ (allocated → lo < next_id σ cpu).

(** The record of the context is [x], the contexts of the threads are [active]. *)
Definition kept (σ : State) : Prop :=
  tool_ctx σ !! c = x ∧ ∀ t, T t → thread_active_ctx σ !! t = active t.

Definition held (n : Z) (σ : State) : Prop :=
  confined P T c σ ∧ (foreign → kept σ) ∧ counted n σ.

(** [m] keeps the context held, raises no bound of the counters, and its value is in [R]. *)
Definition Gives {A} (R : A → Prop) (m : M A) : Prop :=
  ∀ n σ, held n σ → held n (m e0 σ).2 ∧ R (m e0 σ).1.

(** A thread on the run's side, and what a foreign run does not handle. *)
Definition ours (tid : Z) : Prop := in_u32 tid ∧ (foreign → ¬ T tid) ∧ (¬ foreign → T tid).
Definition nctx (v : Z) : Prop := foreign → v ≠ c.
Definition nentry (en : ToolStackEntry) : Prop := foreign → entry_ok c en.
Definition nrun (en : WorkerRunEntry) : Prop := foreign → run_ok c en.
Definition nlocal (l : WorkerLocalCtx) : Prop := foreign → local_ok c l.
Definition local (k : PyObjectKey) : Prop := po_tgid k = cur_tgid e0.
Definition opt {V} (R : V → Prop) (r : option V) : Prop :=
  match r with Some v => R v | None => True end.
Definition anything {A} (_ : A) : Prop := True.

Abbreviation G := Gives.

Lemma gives_ret {A} (R : A → Prop) a : R a → G R (mret a).
Proof. by intros Ha n σ Hσ. Qed.
Lemma gives_done {A} (a : A) : G anything (mret a).
Proof. by apply gives_ret. Qed.
Lemma gives_bind {A B} (R' : A → Prop) (R : B → Prop) (m : M A) (k : A → M B) :
  G R' m → (∀ a, R' a → G R (k a)) → G R (m ≫= k).
Proof. intros Hm Hk n σ Hσ. destruct (Hm n σ Hσ) as [H1 H2]. by apply Hk. Qed.
Lemma gives_weaken {A} (R R' : A → Prop) (m : M A) : G R m → (∀ a, R a → R' a) → G R' m.
Proof. intros Hm HR n σ Hσ. destruct (Hm n σ Hσ). split; [done|by apply HR]. Qed.
Lemma gives_anything {A} (R : A → Prop) (m : M A) : G R m → G anything m.
Proof. intros Hm. by eapply gives_weaken. Qed.
Lemma gives_tail {A} (R : A → Prop) (m : M A) : G R (m ≫= mret) → G R m.
Proof.
  intros Hm n σ Hσ. specialize (Hm n σ Hσ). erewrite bind_run in Hm by apply surjective_pairing.
  exact Hm.
Qed.
Lemma gives_when b (m : M unit) : (b = true → G anything m) → G anything (when b m).
Proof. intros Hm. destruct b; [by apply Hm|by apply gives_ret]. Qed.
Lemma gives_try {A B} (R' : A → Prop) (R : result B → Prop) (m : M (result A))
    (k : A → M (result B)) :
  G (λ r, match r with Ok a => R' a | Err _ => True end) m → (∀ a, R' a → G R (k a)) →
  (∀ code, R (Err code)) → G R (try_bind m k).
Proof.
  intros Hm Hk He. eapply gives_bind; [exact Hm|]. intros [a|code] Ha; [by apply Hk|].
  by apply gives_ret.
Qed.
Lemma gives_scan {A} (R : A → Prop) fuel i depth (body : Z → M (option A)) :
  (∀ j, i ≤ j < depth → G (opt R) (body j)) → G (opt R) (scan fuel i depth body).
Proof.
  revert i. induction fuel as [|fuel IH]; intros i Hb; cbn [scan]; [by apply gives_ret|].
  destruct (Z.geb_spec i depth); [by apply gives_ret|].
  eapply gives_bind; [apply Hb; lia|]. intros [a|] Ha; [by apply gives_ret|].
  apply IH. intros j Hj. apply Hb. lia.
Qed.

(** *** Primitives *)

Lemma counted_same n σ σ' : ctx_counter σ' = ctx_counter σ → counted n σ → counted n σ'.
Proof. intros E. unfold counted, next_id. by rewrite E. Qed.

Lemma gives_same {A} (m : M A) :
  (∀ σ, confined P T c σ → confined P T c (m e0 σ).2) →
  (∀ σ, tool_ctx (m e0 σ).2 = tool_ctx σ) → (∀ σ, ctx_counter (m e0 σ).2 = ctx_counter σ) →
  (∀ σ, thread_active_ctx (m e0 σ).2 = thread_active_ctx σ) → G anything m.
Proof.
  intros H1 H2 H3 H4 n σ (Hf & Hx & Hn). split; [|done].
  split; [by apply H1|split; [|eapply counted_same; [apply H3|exact Hn]]].
  intros Hq. destruct (Hx Hq). split; [by rewrite H2|by rewrite H4].
Qed.

Lemma held_tick n k σ : held n σ → held n (set_tick k σ).
Proof. intros ([] & Hx & Hn). split; [constructor; assumption|split; [exact Hx|exact Hn]]. Qed.

Section tracked.
Context {K V : Type} `{Countable K} (m : bpf_map K V) (Q : K → V → Prop).
Context `{!MapLaws m, !Tracked P T c m Q}.

Lemma held_set `{!Quiet m} n σ y : held n σ → map_Forall Q y → held n (bm_set m y σ).
Proof.
  intros (Hf & Hx & Hn) Hy. split; [by eapply tracked_set|split].
  - intros Hq. destruct (Hx Hq). split; [by rewrite (tracked_ctx P T c (m := m))|by rewrite quiet].
  - eapply counted_same; [apply (tracked_counter P T c (m := m))|exact Hn].
Qed.
Lemma held_get n σ k v : held n σ → bm_get m σ !! k = Some v → Q k v.
Proof. intros (Hf & _) Hv. by eapply (tracked_get P T c (m := m)). Qed.

Lemma gives_insert `{!Quiet m} k v : Q k v → G anything (m_insert m k v).
Proof using All.
  intros Hv n σ Hσ. split; [|done]. unfold m_insert. destruct (update_ok _ _); [|by apply held_tick].
  cbn [snd]. apply held_set; [by apply held_tick|]. apply map_Forall_insert_2; [done|].
  assert (map_Forall Q (bm_get m σ)) as Hq by (intros i w Hi; by eapply held_get).
  destruct (bm_kind m); [done|]. intros i w [Hi _]%map_lookup_filter_Some. by apply Hq.
Qed.
Lemma gives_remove `{!Quiet m} k : G anything (m_remove m k).
Proof using Tracked0.
  intros n σ Hσ. split; [|done]. apply held_set; [done|].
  apply map_Forall_delete. intros i w Hi. by eapply held_get.
Qed.
Lemma gives_get {B} (R : B → Prop) k (f : option V → M B) :
  G R (f None) → (∀ v, Q k v → G R (f (Some v))) → G R (m_get m k ≫= f).
Proof using Tracked0.
  intros H0 Hf n σ Hσ. change ((m_get m k ≫= f) e0 σ) with (f (bm_get m σ !! k) e0 σ).
  destruct (bm_get m σ !! k) as [v|] eqn:E; [|by apply H0]. apply Hf; [|done]. by eapply held_get.
Qed.
End tracked.

(** The contexts themselves. *)
Lemma held_contexts n σ y : held n σ → (foreign → y !! c = x) → held n (set_tool_ctx y σ).
Proof.
  intros ([] & Hx & Hn) Hy. split; [constructor; assumption|split; [|exact Hn]].
  intros Hq. split; [by apply Hy|by apply Hx].
Qed.
Lemma gives_ctx_insert k v : nctx k → G anything (m_insert TOOL_CTX k v).
Proof using Type.
  intros Hk n σ Hσ. split; [|done]. unfold m_insert. destruct (update_ok _ _); [|by apply held_tick].
  apply held_contexts; [by apply held_tick|]. intros Hf. cbn.
  rewrite lookup_insert_ne by by apply Hk. by apply (proj1 (proj2 Hσ) Hf).
Qed.
Lemma gives_ctx_remove k : nctx k → G anything (m_remove TOOL_CTX k).
Proof using Type.
  intros Hk n σ Hσ. split; [|done]. apply held_contexts; [done|]. intros Hf. cbn.
  rewrite lookup_delete_ne by by apply Hk. by apply (proj1 (proj2 Hσ) Hf).
Qed.
Lemma gives_ctx_alter f k : nctx k → G anything (m_alter TOOL_CTX f k).
Proof using Type.
  intros Hk n σ Hσ. split; [|done]. apply held_contexts; [done|]. intros Hf. cbn.
  rewrite lookup_alter_ne by by apply Hk. by apply (proj1 (proj2 Hσ) Hf).
Qed.
Lemma gives_ctx_get {B} (R : B → Prop) k (f : option ToolCtx → M B) :
  (∀ v, G R (f v)) → G R (m_get TOOL_CTX k ≫= f).
Proof using Type. intros Hf n σ Hσ. exact (Hf (tool_ctx σ !! k) n σ Hσ). Qed.

(** The active contexts. *)
Lemma held_active n σ y :
  held n σ → map_Forall (by_thread T (not_ctx c)) y →
  (foreign → ∀ t, T t → y !! t = thread_active_ctx σ !! t) → held n (set_thread_active_ctx y σ).
Proof.
  intros ([] & Hx & Hn) Hy Hs. split; [constructor; assumption|split; [|exact Hn]].
  intros Hq. destruct (Hx Hq) as [? Ha]. split; [done|]. intros t Ht. etrans; [by apply Hs|by apply Ha].
Qed.

(** *** The entries of the run's side

    A foreign run reads what does not lead to the context, and may write no other. *)

Lemma side_foreign : foreign → ¬ P (cur_tgid e0).
Proof using Hside. intros Hf. by destruct Hside as [(_ & ? & _)|(? & _)]. Qed.

Lemma put_thread {V} (ok : V → Prop) tid v :
  (¬ foreign → T tid) → (foreign → ok v) → by_thread T ok tid v.
Proof using Hside.
  intros Ho Hv Hn. destruct Hside as [(Hf & _)|(Hf & _)]; [by apply Hv|].
  by destruct Hn; apply Ho.
Qed.
Lemma put_object {V} (ok : V → Prop) k v : local k → (foreign → ok v) → by_object P ok k v.
Proof using Hside.
  intros Hk Hv Hn. destruct Hside as [(Hf & _)|(_ & Hp & _)]; [by apply Hv|].
  destruct Hn. by rewrite Hk.
Qed.
Lemma put_task {V} (ok : V → Prop) k v :
  ts_tgid k = cur_tgid e0 → (foreign → ok v) → by_task P ok k v.
Proof using Hside.
  intros Hk Hv Hn. destruct Hside as [(Hf & _)|(_ & Hp & _)]; [by apply Hv|].
  destruct Hn. by rewrite Hk.
Qed.
Lemma put_stack {V} (ok : V → Prop) w tid i v :
  ours tid → 0 ≤ i < 2 ^ w → (foreign → ok v) → by_stack T w ok (pack tid w i) v.
Proof using Hside.
  intros (Hu & _ & Ho) Hi Hv. destruct Hside as [(Hf & _)|(Hf & _)]; [by left; apply Hv|].
  right. exists tid, i. split; [by apply Ho|by split].
Qed.
Lemma put_thread_stack {V} (ok : V → Prop) tid i v :
  ours tid → 0 ≤ i < 256 → (foreign → ok v) → by_stack T 8 ok (thread_key tid i) v.
Proof using Hside. intros. by apply put_stack. Qed.
Lemma put_tool_stack {V} (ok : V → Prop) tid i v :
  ours tid → 0 ≤ i < 256 → (foreign → ok v) → by_stack T 32 ok (tool_key tid i) v.
Proof using Hside. intros. apply put_stack; [done|lia|done]. Qed.
Lemma put_binding k tid : local k → ours tid → by_binding P T k tid.
Proof using Hside.
  intros Hk (Hu & Hf & Hn). split; [done|]. rewrite Hk.
  destruct Hside as [(? & ? & _)|(? & ? & _)]; split; intros E; (done || auto).
Qed.

Lemma gives_active_insert tid v : ours tid → nctx v → G anything (m_insert THREAD_ACTIVE_CTX tid v).
Proof using Hside.
  intros Ht Hv n σ Hσ. split; [|done]. unfold m_insert. destruct (update_ok _ _); [|by apply held_tick].
  apply held_active; [by apply held_tick| |].
  - apply map_Forall_insert_2; [apply put_thread; [by apply Ht|exact Hv]|].
    destruct Hσ as [[] _]. assumption.
  - intros Hf t HT. cbn. apply lookup_insert_ne. intros ->. by apply (proj1 (proj2 Ht) Hf).
Qed.
Lemma gives_active_remove tid : ours tid → G anything (m_remove THREAD_ACTIVE_CTX tid).
Proof using Type.
  intros Ht n σ Hσ. split; [|done]. apply held_active; [done| |].
  - apply map_Forall_delete. destruct Hσ as [[] _]. assumption.
  - intros Hf t HT. apply lookup_delete_ne. intros ->. by apply (proj1 (proj2 Ht) Hf).
Qed.

(** An entry at a key of a stack of the run's side. *)
Lemma stack_value {V} (ok : V → Prop) w tid i v :
  0 ≤ w ≤ 32 → ours tid → 0 ≤ i < 2 ^ w → by_stack T w ok (pack tid w i) v → foreign → ok v.
Proof using Type.
  intros Hw (Hu & Ho & _) Hi [Hv|(t & j & Ht & Htu & Hj & E)] Hf; [done|]. exfalso.
  apply (other_stack tid t w i); [done|done|intros ->; by apply Ho|done|done|by exists j].
Qed.

Section reads.
Context {B : Type} (R : B → Prop).

Lemma read_tid (f : Z → M B) : G R (f (cur_tid e0)) → G R (get_tid ≫= f).
Proof using Type. exact id. Qed.
Lemma read_tgid (f : Z → M B) : G R (f (cur_tgid e0)) → G R (get_tgid ≫= f).
Proof using Type. exact id. Qed.
Lemma read_key p (f : PyObjectKey → M B) : G R (f (py_object_key e0 p)) → G R (get_object_key p ≫= f).
Proof using Type. exact id. Qed.
Lemma read_stack_key p d (f : TaskStackKey → M B) :
  G R (f (task_stack_key e0 p d)) → G R (get_task_stack_key p d ≫= f).
Proof using Type. exact id. Qed.

Lemma read_thread {V} (m : bpf_map Z V) ok `{!Tracked P T c m (by_thread T ok)} tid f :
  ours tid → G R (f None) → (∀ v, (foreign → ok v) → G R (f (Some v))) → G R (m_get m tid ≫= f).
Proof using Type.
  intros (_ & Ho & _) H0 Hf. eapply gives_get; [apply _|done|]. intros v Hv.
  apply Hf. intros Hq. by apply Hv, Ho.
Qed.
Lemma read_object {V} (m : bpf_map PyObjectKey V) ok `{!Tracked P T c m (by_object P ok)} k f :
  local k → G R (f None) → (∀ v, (foreign → ok v) → G R (f (Some v))) → G R (m_get m k ≫= f).
Proof using Hside.
  intros Hk H0 Hf. eapply gives_get; [apply _|done|]. intros v Hv. apply Hf. intros Hq. apply Hv.
  rewrite Hk. by apply side_foreign.
Qed.
Lemma read_binding (m : bpf_map PyObjectKey Z) `{!Tracked P T c m (by_binding P T)} k f :
  local k → G R (f None) → (∀ v, ours v → G R (f (Some v))) → G R (m_get m k ≫= f).
Proof using Hside.
  intros Hk H0 Hf. eapply gives_get; [apply _|done|]. intros v (Hu & Ho & Hi). apply Hf.
  rewrite Hk in Ho, Hi. split; [done|].
  destruct Hside as [(? & ? & _)|(? & ? & _)]; split; intros E; (done || auto).
Qed.
Lemma read_task {V} (m : bpf_map TaskStackKey V) ok `{!Tracked P T c m (by_task P ok)} k f :
  ts_tgid k = cur_tgid e0 → G R (f None) → (∀ v, (foreign → ok v) → G R (f (Some v))) →
  G R (m_get m k ≫= f).
Proof using Hside.
  intros Hk H0 Hf. eapply gives_get; [apply _|done|]. intros v Hv. apply Hf. intros Hq. apply Hv.
  rewrite Hk. by apply side_foreign.
Qed.
Lemma read_thread_stack {V} (m : bpf_map Z V) ok `{!Tracked P T c m (by_stack T 8 ok)} tid i f :
  ours tid → 0 ≤ i < 256 →
  G R (f None) → (∀ v, (foreign → ok v) → G R (f (Some v))) → G R (m_get m (thread_key tid i) ≫= f).
Proof using Type.
  intros Ho Hi H0 Hf. eapply gives_get; [apply _|done|]. intros v Hv.
  by apply Hf, (stack_value ok 8 tid i).
Qed.
Lemma read_tool_stack {V} (m : bpf_map Z V) ok `{!Tracked P T c m (by_stack T 32 ok)} tid i f :
  ours tid → 0 ≤ i < 256 →
  G R (f None) → (∀ v, (foreign → ok v) → G R (f (Some v))) → G R (m_get m (tool_key tid i) ≫= f).
Proof using Type.
  intros Ho Hi H0 Hf. eapply gives_get; [apply _|done|]. intros v Hv.
  apply Hf, (stack_value ok 32 tid i); [lia|done|lia|done].
Qed.
End reads.

Lemma ours_current : ours (cur_tid e0).
Proof using Hside. split; [apply u32_range|]. by destruct Hside as [(? & _ & ?)|(? & _ & ?)]. Qed.
Lemma ours_side tid : ours tid → ¬ foreign → T tid.
Proof using Type. by intros (_ & _ & H). Qed.
Lemma local_key p : local (py_object_key e0 p).
Proof using Type. done. Qed.
Lemma zero_ok : nctx 0.
Proof using Hc. intros _. by apply not_eq_sym. Qed.
Lemma unwrap_ok (r : option Z) : opt nctx r → nctx (unwrap_or r 0).
Proof using Hc. destruct r; [done|]. intros _. exact zero_ok. Qed.
Lemma local_ctx l : nlocal l → nctx (wl_ctx_id l).
Proof using Type. intros H Hf. by apply H. Qed.
Lemma local_prev l : nlocal l → nctx (wl_prev_ctx l).
Proof using Type. intros H Hf. by apply H. Qed.

(** *** Loops over a stack *)

Section stack.
Context {K V : Type} `{Countable K} (m : bpf_map K V) (Q : K → V → Prop) (ok : V → Prop).
Context `{!MapLaws m, !Tracked P T c m Q, !Quiet m} (key : Z → K) (lower upper : Z).
Context (Hget : ∀ i v, lower ≤ i < upper → Q (key i) v → foreign → ok v).
Context (Hput : ∀ i v, lower ≤ i < upper → (foreign → ok v) → Q (key i) v).

Lemma gives_find p :
  lower = 0 → G (opt (λ iv, 0 ≤ iv.1 < upper ∧ (foreign → ok iv.2))) (find_entry m key upper p).
Proof using Tracked0 Hget.
  clear Hput. intros ->. unfold find_entry. apply gives_scan. intros j Hj.
  eapply gives_get; [apply _|by apply gives_ret|]. intros v Hv. apply gives_ret.
  destruct (p v); [|done]. split; [done|by apply (Hget j)].
Qed.

Lemma gives_shift fuel : G anything (shift_down m key fuel lower upper).
Proof using All.
  unfold shift_down. eapply gives_bind; [|intros; apply gives_done].
  apply (gives_scan anything). intros j Hj.
  eapply gives_get; [apply _|by apply gives_ret|]. intros v Hv.
  eapply gives_bind; [|intros _ _; eapply gives_bind; [|intros _ _; by apply gives_ret]].
  - eapply gives_insert; [apply _|apply _|apply _|]. apply Hput; [lia|]. apply (Hget j); [lia|done].
  - eapply gives_remove; apply _.
Qed.
End stack.

Lemma gives_try_any {A B} (R : result B → Prop) (m : M (result A)) (k : A → M (result B)) :
  G anything m → (∀ a, G R (k a)) → (∀ code, R (Err code)) → G R (try_bind m k).
Proof using Type.
  intros Hm Hk He. apply (gives_try anything); [|by intros a _|done].
  eapply gives_weaken; [exact Hm|]. by intros [].
Qed.

(** Stacks of threads and tasks. *)
Lemma find_thread {V} (m : bpf_map Z V) ok `{!MapLaws m, !Tracked P T c m (by_stack T 8 ok)} tid d p :
  ours tid → d ≤ 256 →
  G (opt (λ iv, 0 ≤ iv.1 < d ∧ (foreign → ok iv.2))) (find_entry m (thread_key tid) d p).
Proof using All.
  intros Ho Hd. eapply (gives_find m _ ok (thread_key tid) 0); [|done].
  intros i v Hi. apply (stack_value ok 8 tid i); [lia|done|lia].
Qed.
Lemma find_tool {V} (m : bpf_map Z V) ok `{!MapLaws m, !Tracked P T c m (by_stack T 32 ok)} tid d p :
  ours tid → d ≤ 256 →
  G (opt (λ iv, 0 ≤ iv.1 < d ∧ (foreign → ok iv.2))) (find_entry m (tool_key tid) d p).
Proof using All.
  intros Ho Hd. eapply (gives_find m _ ok (tool_key tid) 0); [|done].
  intros i v Hi. apply (stack_value ok 32 tid i); [lia|done|lia].
Qed.
Lemma shift_thread {V} (m : bpf_map Z V) ok `{!MapLaws m, !Tracked P T c m (by_stack T 8 ok), !Quiet m} tid k i d :
  ours tid → 0 ≤ i → d ≤ 256 → G anything (shift_down m (thread_key tid) k i d).
Proof using All.
  intros Ho Hi Hd. eapply (gives_shift m _ ok (thread_key tid) i d).
  - intros j v Hj. apply (stack_value ok 8 tid j); [lia|done|lia].
  - intros j v Hj. apply put_thread_stack; [done|lia].
Qed.
Lemma shift_tool {V} (m : bpf_map Z V) ok `{!MapLaws m, !Tracked P T c m (by_stack T 32 ok), !Quiet m} tid k i d :
  ours tid → 0 ≤ i → d ≤ 256 → G anything (shift_down m (tool_key tid) k i d).
Proof using All.
  intros Ho Hi Hd. eapply (gives_shift m _ ok (tool_key tid) i d).
  - intros j v Hj. apply (stack_value ok 32 tid j); [lia|done|lia].
  - intros j v Hj. apply put_tool_stack; [done|lia].
Qed.
Lemma find_task p d q :
  G (opt (λ iv, 0 ≤ iv.1 < d ∧ (foreign → not_ctx c iv.2)))
    (find_entry TASK_CTX_STACK (λ i, task_stack_key e0 p i) d q).
Proof using All.
  eapply (gives_find TASK_CTX_STACK _ _ _ 0); [|done].
  intros i v _ Hv Hf. apply Hv. by apply side_foreign.
Qed.
Lemma shift_task p k i d :
  G anything (shift_down TASK_CTX_STACK (λ i, task_stack_key e0 p i) k i d).
Proof using All.
  eapply (gives_shift TASK_CTX_STACK _ (not_ctx c)).
  - intros j v _ Hv Hf. apply Hv. by apply side_foreign.
  - intros j v _. by apply put_task.
Qed.

(** *** Stepping *)

Ltac outs := first [assumption | exact ours_current].
Ltac bound := first [lia | rewrite ?u8_small, ?u32_small by (unfold in_u32; lia); lia].
Ltac loc := first [assumption | reflexivity].
(** [foreign → ok v], and the conditions on an entry that is written. *)
Ltac fine :=
  cbv beta; cbn [se_ctx_id wr_prev_ctx pw_ctx_id wl_ctx_id wl_prev_ctx];
  first
    [ assumption | exact zero_ok | apply unwrap_ok; assumption
    | apply local_ctx; assumption | apply local_prev; assumption
    | case_match; fine
    | let Hf := fresh in intros Hf;
      progress unfold entry_ok, run_ok, spawn_ok, local_ok, not_ctx;
      cbn [se_ctx_id wr_prev_ctx pw_ctx_id wl_ctx_id wl_prev_ctx];
      repeat split; revert Hf; fine ].
Ltac okay :=
  cbv beta; cbn [opt fst snd unwrap_or];
  lazymatch goal with
  | |- anything _ => exact I
  | |- any _ _ => exact I
  | |- True => exact I
  | |- by_thread _ _ _ _ =>
      apply put_thread; [first [assumption | apply ours_side; outs]|fine]
  | |- by_object _ _ _ _ => apply put_object; [loc|fine]
  | |- by_task _ _ _ _ => apply put_task; [reflexivity|fine]
  | |- by_binding _ _ _ _ => apply put_binding; [loc|outs]
  | |- by_stack _ _ _ (thread_key _ _) _ => apply put_thread_stack; [outs|bound|fine]
  | |- by_stack _ _ _ (tool_key _ _) _ => apply put_tool_stack; [outs|bound|fine]
  | |- below _ _ _ => unfold below; bound
  | |- local _ => first [assumption | reflexivity | case_match; okay]
  | |- _ ∧ _ => split; okay
  | |- opt _ _ => first [assumption | case_match; okay]
  | |- _ => fine
  end.

Create HintDb conf_db discriminated.
Hint Constants Opaque : conf_db.
Hint Resolve ours_current local_key zero_ok local_ctx local_prev : conf_db.
Ltac known := solve [eauto 3 with conf_db nocore].
Ltac same_tac := apply gives_same; [intros ? []; constructor; assumption|done|done|done].

(** The kind of map decides what its entries say. *)
Ltac read_map m :=
  lazymatch m with
  | TOOL_CTX => apply gives_ctx_get; intros ?
  | THREAD_CTX_STACK => eapply read_thread_stack; [apply _|outs|bound| |intros ? ?]
  | WORKER_RUN_STACK => eapply read_thread_stack; [apply _|outs|bound| |intros ? ?]
  | TOOL_STACK => eapply read_tool_stack; [apply _|outs|bound| |intros ? ?]
  | TASK_CTX_STACK => eapply read_task; [apply _|reflexivity| |intros ? ?]
  | PENDING_TOOL_CLOSE => eapply read_task; [apply _|reflexivity| |intros ? ?]
  | _ =>
      let Q := lazymatch goal with |- _ =>
        let i := constr:(ltac:(eexists; apply (_ : Tracked P T c m _)) : ∃ Q, Tracked P T c m Q) in
        lazymatch i with ex_intro _ ?Q _ => Q end end in
      lazymatch Q with
      | by_thread _ _ => eapply read_thread; [apply _|outs| |intros ? ?]
      | by_object _ _ =>
          eapply read_object; [apply _|loc| |intros ? ?]
      | by_binding _ _ =>
          eapply read_binding; [apply _|loc| |intros ? ?]
      | _ => eapply gives_get; [apply _| |intros ?; let H := fresh in intros H; unfold below in H]
      end
  end.
Ltac search_map m :=
  eapply gives_bind;
  [ lazymatch m with
    | TASK_CTX_STACK => apply find_task
    | TOOL_STACK => eapply find_tool; [apply _|apply _|outs|bound]
    | _ => eapply find_thread; [apply _|apply _|outs|bound]
    end
  | intros [[? ?]|]; [intros [? ?]; cbn [fst snd] in *|intros _] ].
Ltac shift_map m :=
  lazymatch m with
  | TASK_CTX_STACK => apply shift_task
  | TOOL_STACK => eapply shift_tool; [apply _|apply _|apply _|outs|lia|lia]
  | _ => eapply shift_thread; [apply _|apply _|apply _|outs|lia|lia]
  end.

Ltac conf_step :=
  lazymatch goal with
  | |- Gives _ (mbind _ get_tid) => apply read_tid
  | |- Gives _ (mbind _ get_tgid) => apply read_tgid
  | |- Gives _ (mbind _ (get_object_key _)) => apply read_key
  | |- Gives _ (mbind _ (get_task_stack_key _ _)) => apply read_stack_key
  | |- Gives _ (mbind _ (m_get ?m _)) => read_map m
  | |- Gives _ (mbind _ (find_entry ?m _ _ _)) => search_map m
  | |- Gives _ (mbind _ (scan _ _ _ _)) => apply (gives_bind (opt anything)); [|intros ? _]
  | |- Gives _ (mbind _ _) =>
      first [eapply gives_bind; [known|intros ? ?] | apply (gives_bind anything); [|intros ? _]]
  | |- Gives _ (try_bind _ _) => apply gives_try_any; [|intros ?|intros ?; okay]
  | |- Gives _ (when _ _) => apply gives_when; intros _
  | |- Gives anything (scan _ _ _ _) => apply (gives_anything (opt anything))
  | |- Gives _ (scan _ _ _ _) => apply gives_scan; intros ? ?
  | |- Gives _ (mret _) => apply gives_ret; okay
  | |- Gives _ (shift_down ?m _ _ _ _) => shift_map m
  | |- Gives _ (m_get _ _) => apply gives_tail
  | |- Gives _ (m_insert TOOL_CTX _ _) => apply gives_ctx_insert; okay
  | |- Gives _ (m_remove TOOL_CTX _) => apply gives_ctx_remove; okay
  | |- Gives _ (m_alter TOOL_CTX _ _) => apply gives_ctx_alter; okay
  | |- Gives _ (m_insert THREAD_ACTIVE_CTX _ _) => apply gives_active_insert; [outs|okay]
  | |- Gives _ (m_remove THREAD_ACTIVE_CTX _) => apply gives_active_remove; outs
  | |- Gives _ (m_insert _ _ _) => eapply gives_insert; [apply _|apply _|apply _|okay]
  | |- Gives _ (m_remove _ _) => eapply gives_remove; apply _
  | |- Gives _ (λ _ _, _) => same_tac
  | |- Gives _ (if (?y >=? ?z) || _ then _ else _) => destruct (Z.geb_spec y z); cbn [orb]
  | |- Gives _ (if ?y >=? ?z then _ else _) =>
      destruct (Z.geb_spec y z); unfold MAX_CTX_STACK_DEPTH in *
  | |- Gives _ (if ?y >? ?z then _ else _) => destruct (Z.gtb_spec y z)
  | |- Gives _ (if ?y =? ?z then _ else _) => destruct (Z.eqb_spec y z)
  | |- Gives _ (if ?b then _ else _) => destruct b
  | |- Gives _ (match ?y with _ => _ end) => destruct y
  | |- Gives _ ?m =>
      first [known | eapply gives_anything; known | let h := head_of m in unfold h]
  end.
Ltac conf := repeat (cbv beta zeta; cbn [unwrap_or opt]; conf_step).

(** The same where the conditionals that are bound have a value in [R]. *)
Ltac conf_if R :=
  repeat (cbv beta zeta; cbn [unwrap_or opt];
    lazymatch goal with
    | |- Gives _ (mbind _ (if _ then _ else _)) =>
        first [apply (gives_bind R); [|intros ? ?] | conf_step]
    | |- _ => conf_step
    end).

Lemma conf_carrier_dec k : nctx k → G anything (carrier_dec k).
Proof using All. intros. conf. Qed.
Lemma conf_ctx_push tid k : ours tid → nctx k → G anything (ctx_stack_push tid k).
Proof using All. intros. conf. Qed.
Lemma conf_ctx_remove tid k : ours tid → G (opt nctx) (ctx_stack_remove tid k).
Proof using All. intros. conf. Qed.
Lemma conf_tool_push tid k f p i : ours tid → nctx k → G anything (tool_stack_push tid k f p i).
Proof using All. intros. conf. Qed.
Lemma conf_tool_remove q tid : ours tid → G (opt nentry) (tool_stack_remove_if q tid).
Proof using All. intros. conf. Qed.
Hint Resolve conf_carrier_dec conf_ctx_push conf_ctx_remove conf_tool_push conf_tool_remove : conf_db.
Lemma conf_remove_ctx tid k : ours tid → G (opt nentry) (tool_stack_remove_ctx tid k).
Proof using All. apply conf_tool_remove. Qed.
Lemma conf_remove_frame tid f k :
  ours tid → G (opt nentry) (tool_stack_remove_frame_ctx tid f k).
Proof using All. apply conf_tool_remove. Qed.
Lemma conf_pop_frame tid f q :
  ours tid → G (opt nentry) (tool_stack_pop_if_frame_parent tid f q).
Proof using All. apply conf_tool_remove. Qed.
Hint Resolve conf_remove_ctx conf_remove_frame conf_pop_frame : conf_db.
Lemma conf_worker_push tid en : ours tid → nrun en → G anything (worker_stack_push tid en).
Proof using All. intros. conf. Qed.
Lemma conf_worker_remove_at tid i d :
  ours tid → 0 ≤ i → d ≤ 64 → G (opt nrun) (worker_stack_remove_at tid i d).
Proof using All. intros. conf. Qed.
Hint Resolve conf_worker_push : conf_db.
Lemma conf_worker_near_top q tid : ours tid → G (opt nrun) (worker_stack_remove_near_top q tid).
Proof using All.
  intros. conf; apply conf_worker_remove_at; (assumption || lia).
Qed.
Lemma conf_worker_pop tid q : ours tid → G (opt nrun) (worker_stack_pop_for_parent tid q).
Proof using All. apply conf_worker_near_top. Qed.
Hint Resolve conf_worker_near_top conf_worker_pop : conf_db.

(** *** The operations *)

Lemma conf_alloc_zero i : G anything (alloc_zero i).
Proof using All.
  apply gives_same; intros σ; unfold alloc_zero; [intros []|..]; repeat case_match; try done;
    constructor; assumption.
Qed.
Hint Resolve conf_alloc_zero : conf_db.
Lemma conf_task_push tid a k i : ours tid → nctx k → G anything (task_ctx_push tid a k i).
Proof using All. intros. conf. Qed.
Lemma conf_task_remove tid a k : ours tid → nctx k → G (opt nctx) (task_ctx_remove tid a k).
Proof using All. intros. conf. Qed.
Lemma conf_get_active tid : ours tid → G (opt nctx) (get_active_ctx tid).
Proof using All. intros. conf. Qed.
Lemma conf_ctx_top tid : ours tid → G (opt nctx) (ctx_stack_top tid).
Proof using All. intros. conf. Qed.
Hint Resolve conf_task_push conf_task_remove conf_get_active conf_ctx_top : conf_db.
Lemma conf_finish tid en : ours tid → nentry en → G anything (finish_tool_close tid en).
Proof using All. intros. conf. Qed.
Hint Resolve conf_finish : conf_db.
Lemma conf_defer a en : nentry en → G anything (defer_tool_close a en).
Proof using All. intros. conf. Qed.
Hint Resolve conf_defer : conf_db.
Lemma conf_close tid en : ours tid → nentry en → G anything (close_tool_stack_entry tid en).
Proof using All. intros. conf. Qed.
Hint Resolve conf_close : conf_db.
Lemma conf_finish_deferred tid a k : ours tid → G anything (finish_deferred_tool_close tid a k).
Proof using All. intros. conf. Qed.
Lemma conf_deferred_worker a : G (opt nctx) (deferred_tool_ctx_for_worker a).
Proof using All. intros. conf. Qed.
Lemma conf_task_clear tid a : ours tid → G anything (task_ctx_clear tid a).
Proof using All. intros. conf. Qed.
Lemma conf_stash_push tid f : G anything (frame_stash_push tid f).
Proof using All. intros. conf. Qed.
Lemma conf_stash_pop tid : G anything (frame_stash_pop tid).
Proof using All. intros. conf. Qed.
Hint Resolve conf_finish_deferred conf_deferred_worker conf_task_clear conf_stash_push conf_stash_pop : conf_db.
Lemma conf_restore tid a : ours tid → G (opt nctx) (restore_deferred_tool_close tid a).
Proof using All.
  intros. unfold restore_deferred_tool_close.
  apply (gives_bind (opt (opt nctx))); [conf|intros [r|] Hr; conf].
Qed.
Hint Resolve conf_restore : conf_db.
Lemma conf_classify g a : G anything (classify g a).
Proof using All. intros. conf. Qed.
Lemma conf_candidate a b d f g : G anything (emit_resolver_candidate a b d f g).
Proof using All. intros. conf. Qed.
Lemma conf_extract f a r k : nctx k → G anything (extract_and_resolve f a r k).
Proof using All. intros. conf. Qed.
Lemma conf_cached f : G anything (cached_frame_self_tool_id f).
Proof using All. intros. conf. Qed.
Lemma conf_worker_kind g f : G anything (worker_kind_for_frame g f).
Proof using All. intros. conf. Qed.
Lemma conf_find_in_frame f : G anything (find_mapped_work_item_in_frame f).
Proof using All. intros. conf. Qed.
Hint Resolve conf_classify conf_candidate conf_extract conf_cached conf_worker_kind conf_find_in_frame : conf_db.
Lemma conf_walk fuel g f : G anything (walk_frame_chain fuel g f).
Proof using All. revert f. induction fuel as [|fuel IH]; intros f; cbn [walk_frame_chain]; conf. Qed.
Hint Resolve conf_walk : conf_db.
Lemma conf_clear_pool tid en : ours tid → nlocal en → G anything (clear_threadpool_worker_ctx tid en).
Proof using All. intros. conf. Qed.
Hint Resolve conf_clear_pool : conf_db.
Lemma conf_clear_pool_object tid q : ours tid → G anything (clear_threadpool_worker_for_object tid q).
Proof using All. intros. conf. Qed.
Lemma conf_refresh tid : ours tid → G anything (refresh_threadpool_worker_context tid).
Proof using All. intros. conf. Qed.
Lemma conf_finalize q k i : G anything (finalize_worker_run_for_object q k i).
Proof using All. intros. conf. Qed.
Lemma conf_clear_runs tid : ours tid → G anything (clear_worker_runs_for_thread tid).
Proof using All. intros. conf. Qed.
Hint Resolve conf_clear_pool_object conf_refresh conf_finalize conf_clear_runs : conf_db.

(** *** The handlers that start no tool *)

Lemma conf_publish tid f k v : ours tid → nctx k → G anything (publish_ctx tid f k v).
Proof using All. intros. conf. Qed.
Lemma conf_reenter tid f q k i : ours tid → nctx k → G anything (reenter_frame tid f q k i).
Proof using All. intros. conf. Qed.
Lemma conf_duplicate tid f k i fl : ours tid → G anything (duplicate_tool tid f k i fl).
Proof using All. intros. conf. Qed.
Lemma conf_discard tid f k : ours tid → nctx k → G anything (discard_ctx tid f k).
Proof using All. intros. conf. Qed.
Lemma conf_reentry tid f q : ours tid → G anything (frame_reentry tid f q).
Proof using All. intros. conf. Qed.
Lemma conf_new_generator f a k : G anything (new_generator_frame f a k).
Proof using All. intros. conf. Qed.
Hint Resolve conf_publish conf_reenter conf_duplicate conf_discard conf_reentry conf_new_generator : conf_db.
Lemma conf_ctor_deferred tid k : ours tid → G (opt (λ p, nctx p.1)) (ctor_deferred_ctx tid k).
Proof using All. intros. conf. Qed.
Hint Resolve conf_ctor_deferred : conf_db.
Lemma conf_ctor_bind tid k i q o key : ours tid → local key → nctx i → G anything (ctor_bind tid k i q o key).
Proof using All. intros. conf. Qed.
Hint Resolve conf_ctor_bind : conf_db.
Lemma conf_ctor tid f k : ours tid → G anything (handle_ctor_entry tid f k).
Proof using All. 
  intros. unfold handle_ctor_entry. eapply gives_bind; [known|intros [[k0 p0]|] Hd];
    cbn [opt fst unwrap_or] in *; conf_if (opt nctx).
Qed.
Lemma conf_run_bind tid f k o i q key : ours tid → local key → nctx i → nctx q → G anything (run_bind tid f k o i q key).
Proof using All. intros. conf. Qed.
Hint Resolve conf_run_bind : conf_db.
Lemma conf_run_entry tid f k : ours tid → G anything (handle_run_entry tid f k).
Proof using All. intros. unfold handle_run_entry. conf_if nctx. Qed.
Lemma conf_dispatch_exit tid q : ours tid → G anything (dispatch_exit_for_parent tid q).
Proof using All. intros. conf. Qed.
Hint Resolve conf_ctor conf_run_entry conf_dispatch_exit : conf_db.
Lemma conf_worker_frame f : G anything (handle_worker_frame_for_ptr f).
Proof using All. intros. conf. Qed.
Lemma conf_exit r : G anything (handle_frame_exit r).
Proof using All. intros. conf. Qed.
Hint Resolve conf_worker_frame conf_exit : conf_db.
Lemma conf_task_init : G anything (handle_task_init).
Proof using All. intros. conf. Qed.
Lemma conf_step_restore tid : ours tid → G anything (task_step_restore tid).
Proof using All. intros. unfold task_step_restore. conf_if nctx. Qed.
Hint Resolve conf_step_restore : conf_db.
Lemma conf_step_entry : G anything (handle_task_step_entry).
Proof using All. intros. conf. Qed.
Lemma conf_step_return : G anything (handle_task_step_return).
Proof using All. intros. conf. Qed.
Hint Resolve conf_task_init conf_step_entry conf_step_return : conf_db.
Lemma conf_dealloc_key q : G local (dealloc_frame_key q).
Proof using All. intros. conf. Qed.
Lemma conf_dealloc_frame q key k : nctx k → G anything (dealloc_frame_ctx q key k).
Proof using All. intros. conf. Qed.
Lemma conf_dealloc_carriers q key : local key → G anything (dealloc_carriers q key).
Proof using All. intros. conf. Qed.
Hint Resolve conf_dealloc_key conf_dealloc_frame conf_dealloc_carriers : conf_db.
Lemma conf_dealloc q : G anything (handle_pyobj_dealloc q).
Proof using All. intros. conf. Qed.
Hint Resolve conf_dealloc : conf_db.
Lemma conf_reap tid : ours tid → G anything (reap_thread tid).
Proof using All. intros. conf. Qed.
Lemma conf_bind_child k t g :
  ours t → opt nctx k → G anything (fork_bind_child k t g).
Proof using All. intros. conf. Qed.
Lemma conf_inherited tid : ours tid → G (opt nctx) (fork_inherited_ctx (cur_tgid e0) tid).
Proof using All.
  intros. unfold fork_inherited_ctx. eapply gives_bind; [known|intros a Ha].
  apply (gives_bind (opt nctx)); [conf|intros k Hk; conf].
Qed.
Hint Resolve conf_reap conf_bind_child conf_inherited : conf_db.

(** A fork creates a thread of the family exactly when the family forks. *)
Definition fork_keeps : Prop := ∀ child pid,
  arg e0 1 = Some child → field e0 task_struct_pid child = Some pid →
  T (u32 pid) ↔ P (cur_tgid e0).

Lemma conf_fork : fork_keeps → G anything handle_sched_fork.
Proof using All.
  intros Hf. unfold handle_sched_fork. apply read_tgid, read_tid.
  apply (gives_bind anything); [conf|intros prot _].
  eapply gives_bind; [known|intros k Hk].
  apply (gives_bind anything); [conf|intros config _]. cbv zeta. destruct (_ && _); [conf|].
  intros n σ Hσ. mstep.
  destruct (arg e0 1) as [child|] eqn:Ea; cbn [unwrap_or]; [|by split].
  destruct (Z.eqb_spec child 0) as [|Hne]; [by split|]. mstep.
  change (if child =? 0 then None else shim e0 task_struct_pid child)
    with (field e0 task_struct_pid child).
  destruct (field e0 task_struct_pid child) as [pid|] eqn:Ep; [|by split].
  destruct (u32 pid =? 0); [by split|].
  assert (ours (u32 pid)) as Hpid.
  { specialize (Hf child pid Ea Ep). split; [apply u32_range|]. rewrite Hf.
    destruct Hside as [(? & ? & _)|(? & ? & _)]; tauto. }
  match goal with |- held n (?m e0 σ).2 ∧ _ => enough (G anything m) as Hm by by apply Hm end.
  apply (gives_bind anything); [conf|intros g _]. destruct g; [|conf].
  apply (gives_bind anything); [by apply conf_bind_child|intros [] _; conf].
Qed.
Lemma conf_sched_exit : G anything (handle_sched_exit).
Proof using All. intros. conf. Qed.
Hint Resolve conf_sched_exit : conf_db.
Lemma conf_emit_path a b k f g h i : G anything (try_emit_path_event a b k f g h i).
Proof using All. intros. conf. Qed.
Lemma conf_emit_net a b k f g h i j : G anything (try_emit_net_event a b k f g h i j).
Proof using All. intros. conf. Qed.
Lemma conf_resolve_ctx tid : ours tid → G (λ r, nctx r.1.1) (resolve_ctx tid).
Proof using All. intros. conf. Qed.
Hint Resolve conf_emit_path conf_emit_net conf_resolve_ctx : conf_db.
Lemma conf_mark_seen k : nctx k → G anything (mark_ctx_seen k).
Proof using All. intros. conf. Qed.
Hint Resolve conf_mark_seen : conf_db.
Lemma conf_hook_identity k : G anything (hook_identity k).
Proof using All. intros. conf. Qed.
Lemma conf_fentry_identity k : G anything (fentry_identity k).
Proof using All. intros. conf. Qed.
Lemma conf_decision i q : G anything (hook_decision i q).
Proof using All. intros. conf. Qed.
Lemma conf_file_identity f : G anything (get_file_identity f).
Proof using All. intros. conf. Qed.
Lemma conf_endpoint sa : G anything (connect_endpoint sa).
Proof using All. intros. conf. Qed.
Hint Resolve conf_hook_identity conf_fentry_identity conf_decision conf_file_identity conf_endpoint : conf_db.

(** *** Allocation

    An allocation raises the bound of the counters by one; [Grows k m] says that [m]
    raises it by at most [k]. *)

Context (Hcpu : 0 ≤ cpu < 256) (Hlo : 1 ≤ lo) (He : 0 ≤ processor_id e0 < 256).

Definition Grows (k : Z) {A} (R : A → Prop) (m : M A) : Prop :=
  ∀ n σ, n + k ≤ 2 ^ 56 → held n σ → held (n + k) (m e0 σ).2 ∧ R (m e0 σ).1.

Lemma held_weaken n n' σ : n ≤ n' → held n σ → held n' σ.
Proof.
  intros Hn (H1 & H2 & H3 & H4). split; [done|]. split; [done|]. split; [|done].
  intros p. specialize (H3 p). lia.
Qed.

Lemma grows_gives {A} (R : A → Prop) k (m : M A) :
  0 ≤ k → G R m → Grows k R m.
Proof.
  intros Hk Hm n σ _ Hσ. destruct (Hm n σ Hσ) as [H1 H2]. split; [|done].
  eapply held_weaken; [|exact H1]. lia.
Qed.
Lemma grows_weaken {A} (R R' : A → Prop) k k' (m : M A) :
  k ≤ k' → Grows k R m → (∀ a, R a → R' a) → Grows k' R' m.
Proof.
  intros Hk Hm HR n σ Hn Hσ. destruct (Hm n σ) as [H1 H2]; [lia|done|].
  split; [|by apply HR]. eapply held_weaken; [|exact H1]. lia.
Qed.
Lemma grows_then {A B} (R' : A → Prop) (R : B → Prop) k1 k2 (m : M A) (f : A → M B) :
  0 ≤ k1 → 0 ≤ k2 → Grows k1 R' m → (∀ a, R' a → Grows k2 R (f a)) → Grows (k1 + k2) R (m ≫= f).
Proof using Type.
  intros Hk1 Hk2 Hm Hf n σ Hn Hσ. destruct (Hm n σ) as [H1 H2]; [lia|done|].
  destruct (Hf _ H2 (n + k1) (m e0 σ).2) as [H3 H4]; [lia|done|]. split; [|exact H4].
  by replace (n + (k1 + k2)) with (n + k1 + k2) by lia.
Qed.
Lemma grows_then_gives {A B} (R' : A → Prop) (R : B → Prop) k (m : M A) (f : A → M B) :
  0 ≤ k → G R' m → (∀ a, R' a → Grows k R (f a)) → Grows k R (m ≫= f).
Proof using Type.
  intros Hk Hm Hf. apply (grows_then R' R 0 k); [done|done| |done]. by apply grows_gives.
Qed.
Lemma grows_tid {B} (R : B → Prop) k (f : Z → M B) :
  Grows k R (f (cur_tid e0)) → Grows k R (get_tid ≫= f).
Proof using Type. exact id. Qed.
Lemma grows_tgid {B} (R : B → Prop) k (f : Z → M B) :
  Grows k R (f (cur_tgid e0)) → Grows k R (get_tgid ≫= f).
Proof using Type. exact id. Qed.
Lemma grows_key {B} (R : B → Prop) k q (f : PyObjectKey → M B) :
  Grows k R (f (py_object_key e0 q)) → Grows k R (get_object_key q ≫= f).
Proof using Type. exact id. Qed.

(** A foreign run gets a fresh identifier, not the context's. *)
Lemma grows_alloc : Grows 1 (opt nctx) alloc_ctx_id.
Proof using All.
  intros n σ Hn (H1 & H2 & H3 & H4). pose proof (H3 (processor_id e0)) as Hp. pose proof (H3 cpu).
  split.
  - split; [|split].
    + rewrite alloc_ctx_id_run. destruct H1. constructor; assumption.
    + rewrite alloc_ctx_id_run. exact H2.
    + split.
      * intros p. rewrite (next_id_step e0 σ p) by lia. specialize (H3 p). case_decide; lia.
      * intros Ha. specialize (H4 Ha). rewrite (next_id_step e0 σ cpu) by lia.
        case_decide as Hd; [rewrite <-Hd|]; lia.
  - rewrite alloc_ctx_id_run, cpu_small by done. cbn. intros Hf E.
    specialize (H4 (Hallocated Hf)). apply ctx_id_of_inj in E as [E1 E2]; [|lia..].
    rewrite E1 in E2. lia.
Qed.

Create HintDb grow_db discriminated.
Hint Constants Opaque : grow_db.
Hint Resolve ours_current grows_alloc : grow_db.

Ltac no_growth := apply grows_gives; [lia|conf].
Ltac grow_step :=
  cbv beta zeta; cbn [unwrap_or opt];
  lazymatch goal with
  | |- Grows _ _ (if ?b then _ else _) => destruct b
  | |- Grows _ _ (match ?y with _ => _ end) => destruct y
  | |- Grows _ _ (mbind _ get_tid) => apply grows_tid
  | |- Grows _ _ (mbind _ get_tgid) => apply grows_tgid
  | |- Grows _ _ (mbind _ (get_object_key _)) => apply grows_key
  | |- Grows _ _ (mbind _ (m_get FRAME_CTX _)) =>
      apply (grows_then_gives (opt nctx)); [lia|conf|intros ? ?]
  | |- Grows _ _ (try_bind _ _) => unfold try_bind
  | |- Grows _ _ (then_zero _) => unfold then_zero
  | |- Grows ?k _ (mbind _ _) =>
      first
        [ let r := eval cbv in (k - 1) in
          eapply (grows_then _ _ 1 r); [lia|lia|solve [eauto 3 with grow_db nocore]|intros ? ?]
        | eapply (grows_then _ _ k 0); [lia|lia|solve [eauto 3 with grow_db nocore]|intros ? ?]
        | eapply grows_then_gives; [lia|known|intros ? ?]
        | apply (grows_then_gives anything); [lia|solve [conf]|intros ? _] ]
  | |- Grows _ _ ?m =>
      first
        [ eapply grows_weaken; [|solve [eauto 3 with grow_db nocore]|by intros]; lia
        | solve [no_growth] | let h := head_of m in unfold h ]
  end.
Ltac grow := repeat grow_step.

Lemma grow_start tid f q i fl :
  ours tid → Grows 1 anything (start_cached_self_tool_root tid f q i fl).
Proof using All. intros. grow. Qed.
Hint Resolve grow_start : grow_db.
Lemma grow_start_parent tid q :
  ours tid → Grows 1 anything (start_cached_parent_tool_if_needed tid q).
Proof using All. intros. grow. Qed.
Hint Resolve grow_start_parent : grow_db.
Lemma grow_pending tid f q : ours tid → Grows 1 anything (pending_frame_start tid f q).
Proof using All. intros. grow. Qed.
Lemma grow_root_lc tid f q a fl k :
  ours tid → Grows 1 anything (tool_root_lc tid f q a fl k).
Proof using All. intros. grow. Qed.
Hint Resolve grow_pending grow_root_lc : grow_db.
Lemma grow_root tid f q a fl k :
  ours tid → Grows 1 anything (root_frame_entry tid f q a fl k).
Proof using All. intros. grow. Qed.
Hint Resolve grow_root : grow_db.
Lemma grow_ignored tid f a fl k : ours tid → Grows 2 anything (ignored_frame_entry tid f a fl k).
Proof using All. intros. grow. Qed.
Lemma grow_known tid f a fl k b :
  ours tid → Grows 2 anything (known_kind_frame_entry tid f a fl k b).
Proof using All. intros. unfold known_kind_frame_entry. destruct b; cbn [negb]; grow. Qed.
Hint Resolve grow_ignored grow_known : grow_db.
Lemma grow_entry_inner f b : Grows 2 anything (handle_tool_frame_entry_for_ptr_inner f b).
Proof using All. unfold handle_tool_frame_entry_for_ptr_inner. grow. Qed.
Hint Resolve grow_entry_inner : grow_db.
Lemma grow_entry : Grows 2 anything handle_frame_entry.
Proof using All. unfold handle_frame_entry. grow. Qed.
Lemma grow_func_entry : Grows 2 anything handle_frame_func_entry.
Proof using All. unfold handle_frame_func_entry. grow. Qed.
Lemma grow_resume : Grows 2 anything handle_frame_resume.
Proof using All. unfold handle_frame_resume. grow. Qed.
Hint Resolve grow_entry grow_func_entry grow_resume : grow_db.
Lemma grow_run_probe p :
  (p = sched_process_fork → fork_keeps) → Grows 2 anything (run_probe p).
Proof using All.
  intros Hf. destruct p; cbn [run_probe].
  { apply grows_gives; [lia|]. unfold or_zero.
    apply (gives_bind anything); [apply conf_fork; auto|intros ? _; conf]. }
  all: clear Hf; grow.
Qed.
End run.

(** ** Sessions *)

(** What is assumed of an action: it runs on one of 256 processors, the threads [T] are
    those of the processes [P], and forks go along with this. *)
Definition keeps_apart (P T : Z → Prop) (a : action) : Prop :=
  match a with
  | Runs p e =>
      (T (cur_tid e) ↔ P (cur_tgid e)) ∧ 0 ≤ processor_id e < 256
      ∧ (p = sched_process_fork → fork_keeps P T e)
  | Loop _ _ _ => True
  end.
(** The action runs a program for one of the processes, for another process. *)
Definition by_family (P : Z → Prop) (a : action) : Prop :=
  match a with Runs _ e => P (cur_tgid e) | Loop _ _ _ => False end.
Definition by_others (P : Z → Prop) (a : action) : Prop :=
  match a with Runs _ e => ¬ P (cur_tgid e) | Loop _ _ _ => False end.

Lemma kernel_part_confined P T c σ σ' :
  kernel_part σ' = kernel_part σ → confined P T c σ → confined P T c σ'.
Proof.
  intros E []. assert (confined P T c (kernel_part σ)) as Hk by (constructor; assumption).
  rewrite <-E in Hk. destruct Hk. constructor; assumption.
Qed.

Section session.
Context (detect_for_pid : Z → option CpythonResolver) (duration : Z).
Abbreviation act := (act detect_for_pid duration).
Abbreviation run := (run detect_for_pid duration).
Context (P T : Z → Prop) `{!∀ p, Decision (P p)}.
Context (cpu lo : Z) (Hcpu : 0 ≤ cpu < 256) (Hlo : 1 ≤ lo < 2 ^ 56).
Abbreviation c := (ctx_id_of cpu lo).
Abbreviation len l := (Z.of_nat (length l)).

Lemma c_nonzero : c ≠ 0.
Proof using All. apply ctx_id_of_nonzero; lia. Qed.

(** The context has been handed out, and nothing of other processes leads to it. *)
Definition guarded (n : Z) (s : Session) : Prop :=
  confined P T c (ss_maps s) ∧ counted cpu lo True n (ss_maps s).

(** What programs of other processes keep. *)
Definition unchanged (s s' : Session) : Prop :=
  tool_ctx (ss_maps s') !! c = tool_ctx (ss_maps s) !! c
  ∧ ∀ t, T t → thread_active_ctx (ss_maps s') !! t = thread_active_ctx (ss_maps s) !! t.

(** A program of the family, whether or not it allocates the context. *)
Lemma own_held (allocated : Prop) n p e s :
  n + 2 ≤ 2 ^ 56 → keeps_apart P T (Runs p e) → P (cur_tgid e) →
  confined P T c (ss_maps s) → counted cpu lo allocated n (ss_maps s) →
  let s' := act (Runs p e) s in
  confined P T c (ss_maps s') ∧ counted cpu lo allocated (n + 2) (ss_maps s').
Proof using All.
  intros Hn (HT & He & Hf) HP Hs Hk.
  assert (held P T cpu lo None (λ _, None) False allocated n (ss_maps s)) as Hh.
  { split; [exact Hs|split; [done|exact Hk]]. }
  destruct (grow_run_probe P T cpu lo None (λ _, None) e False allocated c_nonzero)
    with p n (ss_maps s) as [(H1 & _ & H2) _];
    [done|by right; split_and!; [auto|done|apply HT]|lia|lia|done|exact Hf|done|done|].
  by split.
Qed.

(** A program of another process. *)
Lemma others_held n p e s :
  n + 2 ≤ 2 ^ 56 → keeps_apart P T (Runs p e) → ¬ P (cur_tgid e) → guarded n s →
  guarded (n + 2) (act (Runs p e) s) ∧ unchanged s (act (Runs p e) s).
Proof using All.
  intros Hn (HT & He & Hf) HP [Hs Hk].
  set (x := tool_ctx (ss_maps s) !! c). set (a := λ t, thread_active_ctx (ss_maps s) !! t).
  assert (held P T cpu lo x a True True n (ss_maps s)) as Hh.
  { split; [exact Hs|split; [by split|exact Hk]]. }
  destruct (grow_run_probe P T cpu lo x a e True True c_nonzero)
    with p n (ss_maps s) as [(H1 & H2 & H3) _];
    [done|by left; split_and!; [done|done|by rewrite HT]|lia|lia|done|exact Hf|done|done|].
  split; [by split|]. by apply H2.
Qed.

Lemma any_held n a s : n + 2 ≤ 2 ^ 56 → keeps_apart P T a → guarded n s → guarded (n + 2) (act a s).
Proof using All.
  intros Hn Ha [Hs Hk]. destruct a as [p e|sh el e].
  - destruct (decide (P (cur_tgid e))) as [HP|HP]; [by apply own_held|by apply others_held].
  - pose proof (loop_kernel detect_for_pid duration sh el e s) as E. split.
    + by eapply kernel_part_confined.
    + destruct Hk as [Hk1 Hk2]. pose proof (f_equal ctx_counter E) as Ec. cbn in Ec.
      unfold counted, next_id. cbn [Session.act]. rewrite Ec. split; [|exact Hk2].
      intros q. specialize (Hk1 q). unfold next_id in Hk1. lia.
Qed.

Lemma run_any_held n s l :
  n + 2 * len l ≤ 2 ^ 56 → Forall (keeps_apart P T) l → guarded n s →
  guarded (n + 2 * len l) (run s l).
Proof using All.
  revert n s. induction l as [|a l IH]; intros n s Hn Hl Hs; [by rewrite Z.add_0_r|].
  apply Forall_cons in Hl as [Ha Hl]. cbn [length] in *.
  replace (n + 2 * Z.of_nat (S (length l))) with (n + 2 + 2 * len l) by lia.
  apply IH; [lia|done|]. apply any_held; [lia|done|done].
Qed.
Lemma run_others_held n s l :
  n + 2 * len l ≤ 2 ^ 56 → Forall (keeps_apart P T) l → Forall (by_others P) l → guarded n s →
  unchanged s (run s l).
Proof using All.
  revert n s. induction l as [|a l IH]; intros n s Hn Hl Ho Hs; [done|].
  apply Forall_cons in Hl as [Ha Hl]. apply Forall_cons in Ho as [Hoa Ho]. cbn [length] in *.
  destruct a as [p e|]; [|done].
  destruct (others_held n p e s) as [H1 [H2 H3]]; [lia|done..|].
  destruct (IH (n + 2) (act (Runs p e) s)) as [H4 H5]; [lia|done..|].
  split; [by etrans|]. intros t Ht. etrans; [by apply H5|by apply H3].
Qed.

(** A thread stays attributed to a context whose record stays. *)
Lemma attributed_same t σ σ' k x :
  thread_active_ctx σ' !! t = thread_active_ctx σ !! t → tool_ctx σ' !! k = tool_ctx σ !! k →
  subject_of σ t = Attributed k x → subject_of σ' t = Attributed k x.
Proof using Type.
  intros Ea Hk. unfold subject_of, active_of. rewrite Ea.
  destruct (thread_active_ctx σ !! t) as [k'|]; [|done].
  destruct (live σ k') eqn:Lk; [|done].
  destruct (tool_ctx σ !! k') as [y|] eqn:Ey; [|done].
  destruct (Z.eqb_spec k' 0); [done|]. intros [= <- <-]. unfold live.
  rewrite Hk, Ey, bool_decide_eq_true_2 by done.
  by rewrite Hk, Ey, (proj2 (Z.eqb_neq _ _)).
Qed.

(** C13: a context is out of the reach of unrelated processes.  Take a family of
    processes [P] with their threads [T], such that a fork creates a thread of [T]
    exactly when a process of [P] forks, a process with all its descendants for example,
    and the identifiers of its threads are not those of threads of others.
    From maps in which nothing of other processes leads to the identifier [c], a
    program of the family runs, by whose end the identifier has been handed out; then
    come programs of the family and of others in any order, with failing updates and
    evictions, and turns of the event loop.  In the maps that lead to contexts no thread or object of another
    process is then recorded with [c].  What programs next run for others leaves the
    record of the context (its tool, flags and references) as it is, or leaves it
    ended, and every thread of the family that was attributed to the context still is.
    There are at most 256 processors, and the counters of identifiers stay below 2^56,
    for which the bound on the number of actions provides. *)
Theorem context_out_of_reach n s0 p e l l' :
  let s := run s0 (Runs p e :: l) in
  n + 2 * (1 + len l + len l') ≤ 2 ^ 56 →
  confined P T c (ss_maps s0) → (∀ q, 1 ≤ next_id (ss_maps s0) q ≤ n) →
  P (cur_tgid e) → lo < next_id (run_probe p e (ss_maps s0)).2 cpu →
  Forall (keeps_apart P T) (Runs p e :: l ++ l') → Forall (by_others P) l' →
  let σ := ss_maps s in
  let σ' := ss_maps (run s l') in
  confined P T c σ ∧ confined P T c σ' ∧ tool_ctx σ' !! c = tool_ctx σ !! c
  ∧ (∀ t x, T t → subject_of σ t = Attributed c x → subject_of σ' t = Attributed c x).
Proof using All.
  intros s Hn Hs Hk HP Hlast Hall Ho σ σ'.
  apply Forall_cons in Hall as [Hp Hall]. apply Forall_app in Hall as [Hl Hl'].
  destruct (own_held False n p e s0) as [H1 [H2 _]]; [lia|done|done|done|by split|].
  assert (guarded (n + 2) (act (Runs p e) s0)) as Hg by (split; [done|by split]).
  apply (run_any_held _ _ l) in Hg; [|lia|done]. change (guarded (n + 2 + 2 * len l) s) in Hg.
  pose proof (run_any_held (n + 2 + 2 * len l) s l' ltac:(lia) Hl' Hg) as [H3 _].
  pose proof (run_others_held (n + 2 + 2 * len l) s l' ltac:(lia) Hl' Ho Hg) as [H4 H5].
  split_and!; [apply Hg|done|done|]. intros t x Ht. apply attributed_same; [by apply H5|done].
Qed.
End session.

(** *** Instance *)

(** The frame at 1000 of thread 9 of process 7 runs a tool, which starts process 70 with
    thread 71; thread 11 of process 8 is in another context. *)
Definition env_frame : Env :=
  {| pid_tgid := 7 * 2 ^ 32 + 9; processor_id := 1; ktime := Z.of_nat;
     update_ok := λ _, true; evicts := λ _ _, false; reserve_ok := λ _, true;
     user_mem := λ a, if (1000 <=? a) && (a <? 1008) then le_bytes 8 2000 !! Z.to_nat (a - 1000)
                      else None;
     reg := λ _, None; arg := λ _, Some 1000;
     shim := λ f _, match f with
                    | task_struct_pid => Some 71 | task_struct_tgid => Some 70 | _ => None
                    end;
     mount_of := id; kernel_mem := λ _, None; lpm_get := λ _ _ _, None |}.
Definition state_apart : State :=
  set_code_kind {[ {| ck_tgid := 7; ck_code_ptr := 2000 |} := CODE_KIND_TOOL_ROOT_LC ]}
    (set_tool_ctx {[ 18 := sample_ctx 6 ]} (set_thread_active_ctx {[ 11 := 18 ]} empty_state)).
Abbreviation family := (λ p, p = 7 ∨ p = 70).
Abbreviation members := (λ t, t = 9 ∨ t = 71).

Lemma state_apart_confined : confined family members (ctx_id_of 1 1) state_apart.
Proof.
  constructor; try apply map_Forall_empty. apply map_Forall_singleton. intros _. by vm_compute.
Qed.
Lemma env_frame_apart p : keeps_apart family members (Runs p env_frame).
Proof.
  split_and!; [by split; left|cbn; lia|cbn; lia|]. intros _ child pid [= <-] H.
  vm_compute in H. injection H as <-. split; intros _; [by left|by right].
Qed.
Lemma env_other_apart p : p ≠ sched_process_fork → keeps_apart family members (Runs p env_other).
Proof.
  intros Hp. split_and!; [|cbn; lia|cbn; lia|by intros].
  split; intros [H|H]; vm_compute in H; congruence.
Qed.

Lemma context_out_of_reach_witness :
  let s := run (λ _, None) 0 (start_session state_apart)
             [Runs eval_frame_func_entry env_frame; Runs sched_process_fork env_frame;
              Runs ag_file_open env_other; turn false] in
  let s' := run (λ _, None) 0 s [Runs ag_file_open env_other; Runs sched_process_exit env_other] in
  thread_active_ctx (ss_maps s) !! 11 = Some 18 ∧ thread_active_ctx (ss_maps s') !! 11 = None
  ∧ ∃ x, subject_of (ss_maps s) 71 = Attributed (ctx_id_of 1 1) x
         ∧ subject_of (ss_maps s') 71 = Attributed (ctx_id_of 1 1) x.
Proof.
  intros s s'. split; [vm_compute; reflexivity|]. split; [vm_compute; reflexivity|].
  set (x := {| tc_tool_id := 0; tc_generation := 0; tc_carrier_count := 2; tc_flags := 0;
               tc_started_ns := 2; tc_last_seen_ns := 0 |}).
  exists x. split; [vm_compute; reflexivity|].
  refine (proj2 (proj2 (proj2 (context_out_of_reach (λ _, None) 0 family members 1 1 _ _ 1
    (start_session state_apart) eval_frame_func_entry env_frame
    [Runs sched_process_fork env_frame; Runs ag_file_open env_other; turn false]
    [Runs ag_file_open env_other; Runs sched_process_exit env_other] _ _ _ _ _ _ _)))
    71 x (or_intror eq_refl) _).
  - lia.
  - lia.
  - cbn [length]. lia.
  - exact state_apart_confined.
  - intros q. unfold next_id. cbn [ss_maps start_session].
    assert (ctx_counter state_apart !! q = None) as -> by apply lookup_empty. cbn. lia.
  - by left.
  - vm_compute. reflexivity.
  - repeat apply Forall_cons_2; [apply env_frame_apart|apply env_frame_apart
      |by apply env_other_apart|done|by apply env_other_apart|by apply env_other_apart|done].
  - repeat apply Forall_cons_2; [| |done]; intros [H|H]; vm_compute in H; congruence.
  - vm_compute. reflexivity.
Defined.
