(* ===== verification/PolicyLoad.v ===== *)
(** * From the policy file to the kernel's answer

    Loading a compiled policy makes the last rule for a key the one the kernel
    finds; the compiler lists denials after permissions, so that a denial wins;
    and what was loaded holds for the rest of the run. *)

From stdpp Require Import base gmap list strings.
From S2P Require Import Prelude Types Maps Samples Ownership Identity Worker Frames Tasks.
From S2P Require Import Events Lsm Probes Monotone Compiler Contexts Decision Enforcement.
From S2P Require Import Session Classify.

(** ** The last rule for a key *)

Section last_rule.
Context {K : Type} `{Countable K}.
Implicit Types (rules : list (K * Z)) (k : K).

Definition rule_for k rules : option Z :=
  snd <$> last (filter (λ r, r.1 = k) rules).

Lemma rule_for_app k rules rules' :
  rule_for k (rules ++ rules') =
    match rule_for k rules' with Some v => Some v | None => rule_for k rules end.
Proof.
  unfold rule_for. rewrite filter_app, last_app.
  by destruct (last (filter _ rules')).
Qed.

Lemma rule_for_snoc k rules r :
  rule_for k (rules ++ [r]) = if decide (r.1 = k) then Some r.2 else rule_for k rules.
Proof.
  rewrite rule_for_app. unfold rule_for at 1. rewrite filter_cons. by case_decide.
Qed.

(** All rules for [k] say [v], and there is one. *)
Lemma rule_for_all k rules v :
  (∃ v', (k, v') ∈ rules) → (∀ r, r ∈ rules → r.1 = k → r.2 = v) → rule_for k rules = Some v.
Proof.
  intros [v' Hin] Hall. unfold rule_for.
  destruct (last (filter (λ r, r.1 = k) rules)) as [r|] eqn:Hl; cbn.
  - apply last_Some_elem_of in Hl. apply list_elem_of_filter in Hl as [Hk Hr].
    by rewrite (Hall r Hr Hk).
  - apply last_None in Hl. assert ((k, v') ∈ filter (λ r, r.1 = k) rules) as Hf
      by by apply list_elem_of_filter. rewrite Hl in Hf. by apply not_elem_of_nil in Hf.
Qed.

Lemma rule_for_none k rules : (∀ r, r ∈ rules → r.1 ≠ k) → rule_for k rules = None.
Proof.
  intros Hall. unfold rule_for. destruct (last _) as [r|] eqn:Hl; [|done].
  apply last_Some_elem_of in Hl. apply list_elem_of_filter in Hl as [Hk Hr].
  by destruct (Hall r Hr).
Qed.

(** A map filled from a list of rules. *)
Definition filled (m : gmap K Z) rules : gmap K Z :=
  foldl (λ m r, <[r.1 := r.2]> m) m rules.

Lemma filled_lookup m rules k :
  filled m rules !! k = match rule_for k rules with Some v => Some v | None => m !! k end.
Proof.
  induction rules as [|r rules IH] using rev_ind; [done|]. unfold filled.
  rewrite foldl_app, rule_for_snoc. cbn. case_decide as Hk.
  - subst k. apply lookup_insert_eq.
  - rewrite lookup_insert_ne by done. exact IH.
Qed.
End last_rule.

(** ** Loading *)

(** The entry of a network rule in the kernel's trie. *)
Definition net_entry (r : ToolNetKey * Z) : Z * ToolNetData * Z :=
  (nk_prefixlen r.1,
   {| nd_tool_id := nk_tool_id r.1; nd_addr := nk_addr r.1; nd_port := nk_port r.1;
      nd_pad := nk_pad r.1 |}, r.2).

(** One insertion of [populate_maps]. *)
Inductive policy_write :=
| WriteFs (r : ToolPolicyKey * Z)
| WriteExec (r : ToolExecKey * Z)
| WriteNet (r : ToolNetKey * Z)
| WriteAgent (pid : Z)
| WriteConfig (entry : IronScopeConfig).

Definition do_write (w : policy_write) : M (result unit) :=
  match w with
  | WriteFs r => u_insert TOOL_FS_POLICY r.1 r.2
  | WriteExec r => u_insert TOOL_EXEC_POLICY r.1 r.2
  | WriteNet r => net_insert r
  | WriteAgent pid => u_insert PROTECTED_TGIDS pid 1
  | WriteConfig entry => u_insert IRONSCOPE_CONFIG 0 entry
  end.

(** The insertions of [populate_maps] before that of the configuration, and all. *)
Definition rule_writes (c : CompiledPolicy) : list policy_write :=
  (WriteFs <$> cp_fs_rules c) ++ (WriteExec <$> cp_exec_rules c) ++ (WriteNet <$> cp_net_rules c)
  ++ (WriteAgent <$> cp_agent_pids c).
Definition policy_writes (c : CompiledPolicy) : list policy_write :=
  rule_writes c ++ [WriteConfig (config_entry c)].

(** The security hooks are attached before the policy is loaded: [loading σ0 ws σ]
    when the insertions [ws] have succeeded, with programs run in between. *)
Inductive loading (σ0 : State) : list policy_write → State → Prop :=
| loading_start : loading σ0 [] σ0
| loading_runs ws σ p e : loading σ0 ws σ → loading σ0 ws (run_probe p e σ).2
| loading_write ws σ w e σ' :
    loading σ0 ws σ → do_write w e σ = (Ok tt, σ') → loading σ0 (ws ++ [w]) σ'.

(** Undisturbed, the insertions are [populate_maps]. *)
Lemma for_each_loading {A} (f : A → policy_write) g l e σ0 ws σ σ' :
  (∀ a, g a = do_write (f a)) → loading σ0 ws σ → for_each g l e σ = (Ok tt, σ') →
  loading σ0 (ws ++ (f <$> l)) σ'.
Proof.
  intros Hg. revert ws σ. induction l as [|a l IH]; intros ws σ Hl; cbn [for_each].
  { intros [= ->]. by rewrite app_nil_r. }
  destruct (g a e σ) as [r σ1] eqn:E. erewrite try_run by exact E. destruct r as [[]|]; [|done].
  intros Hr. rewrite fmap_cons, cons_middle, app_assoc. eapply IH, Hr.
  rewrite Hg in E. by eapply loading_write.
Qed.

Lemma try_ok {A} (m : M (result unit)) (k : unit → M (result A)) e σ a σ' :
  try_bind m k e σ = (Ok a, σ') → ∃ σ1, m e σ = (Ok tt, σ1) ∧ k tt e σ1 = (Ok a, σ').
Proof.
  destruct (m e σ) as [r σ1] eqn:E. erewrite try_run by exact E. destruct r as [[]|]; [|done]. by exists σ1.
Qed.

Lemma populate_loading c e σ σ' :
  populate_maps c e σ = (Ok tt, σ') → loading σ (policy_writes c) σ'.
Proof.
  unfold populate_maps, policy_writes, rule_writes. rewrite <-!app_assoc.
  intros (σ1 & H1 & H)%try_ok. intros. apply try_ok in H as (σ2 & H2 & H).
  apply try_ok in H as (σ3 & H3 & H). apply try_ok in H as (σ4 & H4 & H).
  rewrite !app_assoc. eapply loading_write; [|exact H].
  eapply for_each_loading; [|by eapply for_each_loading; [|eapply for_each_loading;
    [|by eapply (for_each_loading WriteFs _ _ _ _ []); [|constructor|exact H1]|exact H2]|exact H3]|exact H4].
  all: done.
Qed.

(** The policy maps hold what was written, whatever ran in between. *)
Record written (σ0 : State) (ws : list policy_write) (σ : State) : Prop := {
  wr_fs : tool_fs_policy σ = filled (tool_fs_policy σ0)
            (omap (λ w, match w with WriteFs r => Some r | _ => None end) ws);
  wr_exec : tool_exec_policy σ = filled (tool_exec_policy σ0)
              (omap (λ w, match w with WriteExec r => Some r | _ => None end) ws);
  wr_net : tool_net_policy σ = tool_net_policy σ0
             ++ omap (λ w, match w with WriteNet r => Some (net_entry r) | _ => None end) ws;
  wr_config : ironscope_config σ !! 0
              = match last (omap (λ w, match w with WriteConfig en => Some en | _ => None end) ws) with
                | Some en => Some en | None => ironscope_config σ0 !! 0 end;
  wr_prefix : Forall (λ w, match w with WriteNet r => nk_prefixlen r.1 ≤ NET_KEY_BITS | _ => True end) ws
}.

Lemma u_insert_ok {K V} `{Countable K} (m : bpf_map K V) k v e σ σ' :
  bm_kind m = Hash → u_insert m k v e σ = (Ok tt, σ') →
  σ' = bm_set m (<[k:=v]> (bm_get m σ)) (next_tick σ).
Proof.
  unfold u_insert, m_insert. intros ->. destruct (update_ok e (tick σ)); [|done]. by intros [= <-].
Qed.

Lemma loading_written σ0 ws σ : loading σ0 ws σ → written σ0 ws σ.
Proof.
  induction 1 as [|ws σ p e _ [F X N C P]|ws σ w e σ' _ [F X N C P] E].
  - by constructor; rewrite ?app_nil_r.
  - destruct (run_probe_extends p σ e σ I (reflexivity σ)) as [[= E1 E2 E3 E4 _ _] _ _ _].
    by constructor; rewrite ?E1, ?E2, ?E3, ?E4.
  - assert (∀ {A} (f : policy_write → option A), omap f (ws ++ [w])
      = omap f ws ++ match f w with Some r => [r] | None => [] end) as Ho.
    { intros A f. rewrite omap_app. cbn. by destruct (f w). }
    destruct w as [r|r|r|pid|en]; cbn [do_write] in E.
    all: try (apply u_insert_ok in E as ->; [|done]).
    all: try (unfold net_insert in E; destruct (update_ok e (tick σ)); [|done];
              destruct (Z.leb_spec (nk_prefixlen r.1) NET_KEY_BITS); [|done]; injection E as <-).
    all: constructor; rewrite ?Ho; cbn; rewrite ?app_nil_r; sproj;
      rewrite ?F, ?X, ?N; unfold filled; rewrite ?foldl_app, ?app_assoc; try done.
    all: try (apply Forall_app; by repeat constructor).
    by rewrite last_snoc, lookup_insert_eq.
Qed.

Lemma omap_fmap_some {A B C} (f : A → B) (g : B → option C) (h : A → C) (l : list A) :
  (∀ a, g (f a) = Some (h a)) → omap g (f <$> l) = h <$> l.
Proof. intros H. induction l as [|a l IH]; [done|]. cbn. by rewrite H, IH. Qed.
Lemma omap_fmap_none {A B C} (f : A → B) (g : B → option C) (l : list A) :
  (∀ a, g (f a) = None) → omap g (f <$> l) = [].
Proof. intros H. induction l as [|a l IH]; [done|]. cbn. by rewrite H. Qed.

(** The maps of a policy that is loaded. *)
Lemma loaded_policy c σ0 σ :
  loading σ0 (policy_writes c) σ →
  tool_fs_policy σ = filled (tool_fs_policy σ0) (cp_fs_rules c)
  ∧ tool_exec_policy σ = filled (tool_exec_policy σ0) (cp_exec_rules c)
  ∧ ironscope_config σ !! 0 = Some (config_entry c)
  ∧ tool_net_policy σ = tool_net_policy σ0 ++ (net_entry <$> cp_net_rules c)
  ∧ Forall (λ r, nk_prefixlen r.1 ≤ NET_KEY_BITS) (cp_net_rules c).
Proof.
  intros [F X N C P]%loading_written. unfold policy_writes, rule_writes in *.
  rewrite !Forall_app, !Forall_fmap in P.
  rewrite !omap_app, (omap_fmap_some WriteFs _ id), !omap_fmap_none, list_fmap_id, !app_nil_r in F by done.
  rewrite !omap_app, (omap_fmap_some WriteExec _ id), !omap_fmap_none, list_fmap_id, !app_nil_r in X by done.
  rewrite !omap_app, (omap_fmap_some WriteNet _ net_entry), !omap_fmap_none, !app_nil_r in N by done.
  rewrite !omap_app, !omap_fmap_none in C by done. destruct P as ((_ & _ & P & _) & _).
  split_and!; [done..|exact C|done|exact P].
Qed.

(** Before its last insertion. *)
Lemma loading_unconfigured c σ0 ws σ :
  loading σ0 ws σ → ws `prefix_of` rule_writes c →
  ironscope_config σ !! 0 = ironscope_config σ0 !! 0.
Proof.
  intros [_ _ _ -> _]%loading_written [k Hk].
  assert (omap (λ w, match w with WriteConfig en => Some en | _ => None end) (rule_writes c) = []) as E.
  { unfold rule_writes. by rewrite !omap_app, !omap_fmap_none. }
  rewrite Hk, omap_app in E. by apply app_nil in E as [-> _].
Qed.

(** ** Compiled rules *)

(** The policy maps are searched under the subject's tool. *)
Lemma hook_tool_subject e σ ctx_id x :
  hook_subject e σ = Attributed ctx_id x → hook_tool e σ = tc_tool_id x.
Proof.
  unfold hook_subject, subject_of, hook_tool. destruct (active_of _ _) as [k|]; [|done].
  destruct (tool_ctx _ !! k); [|done]. destruct (k =? 0); [done|]. by intros [= _ <-].
Qed.

Lemma rule_for_bind {A K} `{Countable K} (f : A → list (K * Z)) l k v :
  (∃ a, a ∈ l ∧ rule_for k (f a) = Some v) →
  (∀ a, a ∈ l → rule_for k (f a) = None ∨ rule_for k (f a) = Some v) →
  rule_for k (l ≫= f) = Some v.
Proof.
  intros (a & Ha & Hv) Hall.
  assert (rule_for k (l ≫= f) = None ∨ rule_for k (l ≫= f) = Some v) as [Hn|]; [| |done].
  { clear a Ha Hv. induction l as [|b l IH]; [by left|]. rewrite bind_cons, rule_for_app.
    destruct IH as [-> | ->]; [by intros; apply Hall; right|apply Hall; left|by right]. }
  exfalso. clear Hall. induction l as [|b l IH]; [by inversion Ha|].
  rewrite bind_cons, rule_for_app in Hn. destruct (rule_for k (l ≫= f)) eqn:E; [done|].
  apply elem_of_cons in Ha as [->|Ha]; [congruence|by apply IH].
Qed.

Lemma rule_for_bind_none {A K} `{Countable K} (f : A → list (K * Z)) l k :
  (∀ a, a ∈ l → rule_for k (f a) = None) → rule_for k (l ≫= f) = None.
Proof.
  intros Hall. induction l as [|b l IH]; [done|]. rewrite bind_cons, rule_for_app.
  rewrite IH by (intros; apply Hall; by right). apply Hall. by left.
Qed.

(** Rules compiled from a list of paths, all with one permission. *)
Lemma rule_for_omap {A K} `{Countable K} (f : A → option (K * Z)) l k perm :
  (∀ a r, f a = Some r → r.2 = perm) →
  (∃ a, a ∈ l ∧ f a = Some (k, perm)) ∧ rule_for k (omap f l) = Some perm
  ∨ (∀ a, a ∈ l → f a ≠ Some (k, perm)) ∧ rule_for k (omap f l) = None.
Proof.
  intros Hf. destruct (decide (Exists (λ a, f a = Some (k, perm)) l)) as [He|He].
  - left. apply Exists_exists in He as (a & Ha & E). split; [by exists a|].
    apply rule_for_all; [exists perm; apply list_elem_of_omap; by exists a|].
    intros r (b & _ & Hb)%list_elem_of_omap _. by apply (Hf b).
  - right. rewrite Exists_exists in He. split; [naive_solver|]. apply rule_for_none.
    intros r (b & Hb & E)%list_elem_of_omap Hk. apply He. exists b. split; [done|].
    rewrite E. f_equal. rewrite <-(Hf b r E), <-Hk. by destruct r.
Qed.

(** A denial is listed after every permission of the same tool. *)
Lemma compile_fs_deny metadata tool_id policy path dev ino :
  path ∈ ad_deny policy → metadata (clean_path path) = Some (dev, ino) →
  rule_for {| fp_tool_id := tool_id; fp_dev := userspace_dev_to_kernel_dev dev; fp_ino := ino |}
    (compile_fs_rules metadata tool_id policy) = Some PERM_DENY.
Proof.
  intros Hp Hm. unfold compile_fs_rules. rewrite rule_for_app.
  match goal with |- context [omap ?f (ad_deny policy)] =>
    destruct (rule_for_omap f (ad_deny policy) {| fp_tool_id := tool_id;
      fp_dev := userspace_dev_to_kernel_dev dev; fp_ino := ino |} PERM_DENY) as [[_ ->]|[Hn _]] end.
  - intros a r. destruct (resolve_path_inode metadata (clean_path a)); by intros [= <-].
  - done.
  - destruct (Hn path Hp). unfold resolve_path_inode. by rewrite Hm.
Qed.

Lemma compile_fs_other metadata tool_id policy k :
  fp_tool_id k ≠ tool_id → rule_for k (compile_fs_rules metadata tool_id policy) = None.
Proof.
  intros Hk. apply rule_for_none. intros r Hr <-. apply Hk. unfold compile_fs_rules in Hr.
  apply elem_of_app in Hr as [Hr|Hr]; apply list_elem_of_omap in Hr as (p & _ & Hr);
    destruct (resolve_path_inode metadata (clean_path p)); by simplify_eq/=.
Qed.

(** The policy maps before the load. *)
Definition fresh_policy (σ : State) : Prop :=
  tool_fs_policy σ = ∅ ∧ tool_exec_policy σ = ∅ ∧ tool_net_policy σ = [].

(** ** A deployed policy

    The policy [c] is the compiled configuration, and loading it succeeded. *)

Section deployed.
Context (metadata : str → option (Z * Z)) (first_ipv4 : str → option (list Z))
  (resolv_conf : option str) (set_order : list Z → list Z).
Context (config : IronScopeSection) (c : CompiledPolicy) (σ0 σ : State).

(** From empty maps the compiled configuration was loaded, while programs ran; [σ] is
    a state that the programs and the event loop have reached since. *)
Definition deployed : Prop :=
  fresh_policy σ0
  ∧ compile_with_hashed_tool_ids metadata first_ipv4 resolv_conf set_order config = Ok c
  ∧ ∃ σ1, loading σ0 (policy_writes c) σ1 ∧ reaches σ1 σ.

(** What the kernel finds in any later state is the last compiled rule. *)
Lemma deployed_lookup :
  deployed →
  (∀ k, tool_fs_policy σ !! k = rule_for k (cp_fs_rules c))
  ∧ (∀ k, tool_exec_policy σ !! k = rule_for k (cp_exec_rules c))
  ∧ ironscope_config σ !! 0 = Some (config_entry c)
  ∧ tool_net_policy σ = net_entry <$> cp_net_rules c
  ∧ Forall (λ r, nk_prefixlen r.1 ≤ NET_KEY_BITS) (cp_net_rules c).
Proof.
  intros ((Hf & Hx & Hn) & _ & σ1 & (H1 & H2 & H3 & H4 & H5)%loaded_policy & Hr).
  destruct (reaches_extends _ _ Hr) as [[= E1 E2 E3 E4 _ _] _ _ _].
  rewrite E1, E2, E3, E4, H1, H2, H4, Hf, Hx, Hn. split_and!; [| |done|done|done].
  - intros k. rewrite filled_lookup. by destruct (rule_for k _).
  - intros k. rewrite filled_lookup. by destruct (rule_for k _).
Qed.

(** Rules of every tool, filed under the hash of its name. *)
Lemma deployed_rules :
  deployed → ∃ ids,
    ids = (λ tool, (rules_fnv1a_32 (td_name tool), tool)) <$> cf_tools config
    ∧ cp_fs_rules c = rules_of td_fs (compile_fs_rules metadata) ids
    ∧ cp_exec_rules c = rules_of td_exec (compile_exec_rules metadata) ids.
Proof.
  intros (_ & Hc & _). eexists. split; [reflexivity|].
  unfold compile_with_hashed_tool_ids, compile_with_tool_ids in Hc.
  assert (∀ l : list ToolDef, imap (λ (_ : nat) tool, (rules_fnv1a_32 (td_name tool), tool)) l
    = (λ tool, (rules_fnv1a_32 (td_name tool), tool)) <$> l) as E.
  { intros l. exact (imap_const (λ tool, (rules_fnv1a_32 (td_name tool), tool)) l). }
  cbv zeta in Hc. rewrite E in Hc. repeat case_match; by simplify_eq/=.
Qed.
End deployed.

(** The rule of one tool, in the rules of all: no other tool has the identifier. *)
Lemma rules_of_tool {K} `{Countable K} (section : ToolDef → option AllowDeny)
    (compile : Z → AllowDeny → list (K * Z)) (tool_of : K → Z) tools td policy k :
  (∀ t p, tool_of k ≠ t → rule_for k (compile t p) = None) →
  td ∈ tools → section td = Some policy → tool_of k = rules_fnv1a_32 (td_name td) →
  (∀ td', td' ∈ tools → rules_fnv1a_32 (td_name td') = rules_fnv1a_32 (td_name td) → td' = td) →
  rule_for k (rules_of section compile
                ((λ tool, (rules_fnv1a_32 (td_name tool), tool)) <$> tools))
  = rule_for k (compile (tool_of k) policy).
Proof.
  intros Hother Hin Hsec Hk Huniq. unfold rules_of.
  set (f := λ '(tool_id, tool), match section tool with Some p => compile tool_id p | None => [] end).
  assert (∀ a, a ∈ (λ tool, (rules_fnv1a_32 (td_name tool), tool)) <$> tools →
    rule_for k (f a) = None ∨ rule_for k (f a) = rule_for k (compile (tool_of k) policy)) as Hall.
  { intros [t td'] (td'' & [= -> ->] & Hin')%list_elem_of_fmap. unfold f.
    destruct (decide (tool_of k = rules_fnv1a_32 (td_name td''))) as [E|E].
    - rewrite (Huniq td'') by congruence. right. by rewrite Hsec, <-Hk.
    - left. destruct (section td''); [by apply Hother|done]. }
  destruct (rule_for k (compile (tool_of k) policy)) as [v|] eqn:Hv.
  - apply rule_for_bind; [|done]. exists (rules_fnv1a_32 (td_name td), td).
    split; [apply list_elem_of_fmap; by exists td|]. unfold f. by rewrite Hsec, <-Hk.
  - apply rule_for_bind_none. intros a Ha. by destruct (Hall a Ha).
Qed.

(** C1: a file that the policy file denies to a tool is refused to it, for good.
    When the policy has been compiled and loaded in enforce mode, in every state that
    the programs and the event loop reach in any interleaving, opening the file (the device translated as the
    kernel stores it) from a thread attributed to the tool is answered with -1,
    whatever the tool's permissions say. *)
Theorem denied_file_is_blocked metadata first_ipv4 resolv_conf set_order config c σ0 σ e
    td policy path dev ino ctx_id x f :
  deployed metadata first_ipv4 resolv_conf set_order config c σ0 σ →
  cp_mode c = MODE_ENFORCE →
  td ∈ cf_tools config → td_fs td = Some policy → path ∈ ad_deny policy →
  metadata (clean_path path) = Some (dev, ino) →
  (∀ td', td' ∈ cf_tools config →
     rules_fnv1a_32 (td_name td') = rules_fnv1a_32 (td_name td) → td' = td) →
  is_protected e σ = true → hook_subject e σ = Attributed ctx_id x →
  tc_tool_id x = rules_fnv1a_32 (td_name td) →
  has_flag (tc_flags x) TOOL_CTX_FLAG_RESOLVER_ERROR = false →
  arg e 0 = Some f → file_identity e f = Some (userspace_dev_to_kernel_dev dev, ino) →
  (run_probe ag_file_open e σ).1 = -1.
Proof.
  intros Hd Hmode Htd Hfs Hpath Hmeta Huniq Hprot Hsub Hid Hflag Harg Hfi.
  destruct (deployed_lookup _ _ _ _ _ _ _ _ Hd) as (Hlook & _ & Hcfg & _).
  destruct (deployed_rules _ _ _ _ _ _ _ _ Hd) as (ids & -> & Hrules & _).
  rewrite file_open_run. unfold file_open_answer. rewrite Hprot, Harg. cbn [unwrap_or].
  destruct (f =? 0) eqn:Hf.
  { unfold file_identity, field in Hfi. by rewrite Hf in Hfi. }
  rewrite Hfi. unfold fs_rule. rewrite (hook_tool_subject _ _ _ _ Hsub), Hid, Hlook, Hrules.
  rewrite (rules_of_tool _ _ fp_tool_id _ td policy);
    [|by intros; apply compile_fs_other|done|done|done|done].
  cbn [fp_tool_id]. rewrite (compile_fs_deny _ _ _ path dev ino) by done.
  unfold blocks. rewrite Hcfg, Hsub. cbn. rewrite Hmode, Hflag, Hid.
  by rewrite (proj2 (Z.eqb_neq _ _) (rules_fnv1a_32_nonzero _)).
Qed.

(** ** Executables *)

Lemma exec_path_rule_perm metadata tool_id perm path r :
  exec_path_rule metadata tool_id perm path = Some r → r.2 = perm ∧ xp_tool_id r.1 = tool_id.
Proof.
  unfold exec_path_rule. case_bool_decide; [by intros [= <-]|].
  destruct (resolve_path_inode metadata path); by intros [= <-].
Qed.

Lemma compile_exec_other metadata tool_id policy k :
  xp_tool_id k ≠ tool_id → rule_for k (compile_exec_rules metadata tool_id policy) = None.
Proof.
  intros Hk. apply rule_for_none. intros r Hr <-. apply Hk. unfold compile_exec_rules in Hr.
  apply elem_of_app in Hr as [Hr|Hr]; apply list_elem_of_omap in Hr as (p & _ & Hr);
    by apply exec_path_rule_perm in Hr as [_ ->].
Qed.

(** The rule for a key: a denial if a denied path compiles to it, else a permission
    if a permitted one does. *)
Lemma compile_exec_rule_for metadata tool_id policy k :
  let hits perm paths := ∃ p, p ∈ paths ∧ exec_path_rule metadata tool_id perm p = Some (k, perm) in
  (hits PERM_DENY (ad_deny policy)
   ∧ rule_for k (compile_exec_rules metadata tool_id policy) = Some PERM_DENY)
  ∨ (¬ hits PERM_DENY (ad_deny policy) ∧ hits PERM_ALLOW (ad_allow policy)
     ∧ rule_for k (compile_exec_rules metadata tool_id policy) = Some PERM_ALLOW)
  ∨ (¬ hits PERM_DENY (ad_deny policy) ∧ ¬ hits PERM_ALLOW (ad_allow policy)
     ∧ rule_for k (compile_exec_rules metadata tool_id policy) = None).
Proof.
  intros hits. unfold compile_exec_rules. rewrite rule_for_app.
  destruct (rule_for_omap (exec_path_rule metadata tool_id PERM_DENY) (ad_deny policy) k PERM_DENY)
    as [[Hd ->]|[Hd ->]]; [by intros a r [-> _]%exec_path_rule_perm|by left|].
  destruct (rule_for_omap (exec_path_rule metadata tool_id PERM_ALLOW) (ad_allow policy) k
    PERM_ALLOW) as [[Ha ->]|[Ha ->]]; [by intros a r [-> _]%exec_path_rule_perm| |]; right.
  - left. split_and!; [intros (p & Hp & E); by destruct (Hd p Hp)|done|done].
  - right. split_and!; [intros (p & Hp & E); by destruct (Hd p Hp)
      |intros (p & Hp & E); by destruct (Ha p Hp)|done].
Qed.

Lemma compile_exec_star metadata tool_id policy :
  lit "*" ∈ ad_deny policy →
  rule_for {| xp_tool_id := tool_id; xp_dev := 0; xp_ino := 0 |}
    (compile_exec_rules metadata tool_id policy) = Some PERM_DENY.
Proof.
  intros Hs. destruct (compile_exec_rule_for metadata tool_id policy
    {| xp_tool_id := tool_id; xp_dev := 0; xp_ino := 0 |}) as [[_ ->]|[(Hn & _)|(Hn & _)]];
    [done|destruct Hn; by exists (lit "*")..].
Qed.

(** C10: an exec policy that denies [*] is an allow list.  In enforce mode a thread of
    the tool may execute a file exactly when a permitted path (not [*]) leads to its
    inode and no denied one does. *)
Theorem exec_allow_list metadata first_ipv4 resolv_conf set_order config c σ0 σ e
    td policy dev ino ctx_id x bprm f :
  deployed metadata first_ipv4 resolv_conf set_order config c σ0 σ →
  cp_mode c = MODE_ENFORCE →
  td ∈ cf_tools config → td_exec td = Some policy → lit "*" ∈ ad_deny policy →
  (∀ td', td' ∈ cf_tools config →
     rules_fnv1a_32 (td_name td') = rules_fnv1a_32 (td_name td) → td' = td) →
  is_protected e σ = true → hook_subject e σ = Attributed ctx_id x →
  tc_tool_id x = rules_fnv1a_32 (td_name td) →
  has_flag (tc_flags x) TOOL_CTX_FLAG_RESOLVER_ERROR = false →
  arg e 0 = Some bprm → field e linux_binprm_file bprm = Some f →
  file_identity e f = Some (dev, ino) → (dev, ino) ≠ (0, 0) →
  let leads paths := ∃ p, p ∈ paths ∧ p ≠ lit "*"
                          ∧ resolve_path_inode metadata p = Some (dev, ino) in
  (run_probe ag_bprm_check e σ).1 = 0 ↔ leads (ad_allow policy) ∧ ¬ leads (ad_deny policy).
Proof.
  intros Hd Hmode Htd Hex Hstar Huniq Hprot Hsub Hid Hflag Harg Hbf Hfi Hne leads.
  destruct (deployed_lookup _ _ _ _ _ _ _ _ Hd) as (_ & Hlook & Hcfg & _).
  destruct (deployed_rules _ _ _ _ _ _ _ _ Hd) as (ids & -> & _ & Hrules).
  set (t := rules_fnv1a_32 (td_name td)) in *.
  assert (∀ k, xp_tool_id k = t → tool_exec_policy σ !! k
    = rule_for k (compile_exec_rules metadata t policy)) as Hk.
  { intros k Ek. rewrite Hlook, Hrules, (rules_of_tool _ _ xp_tool_id _ td policy);
      [by rewrite Ek|by intros; apply compile_exec_other|done..]. }
  assert (∀ perm paths, (∃ p, p ∈ paths ∧ exec_path_rule metadata t perm p
      = Some ({| xp_tool_id := t; xp_dev := dev; xp_ino := ino |}, perm)) ↔ leads paths) as Hleads.
  { intros perm paths. unfold leads, exec_path_rule. split; intros (p & Hp & H); exists p.
    - case_bool_decide; [by simplify_eq/=|].
      destruct (resolve_path_inode metadata p) as [[]|]; by simplify_eq/=.
    - destruct H as [Hs ->]. by rewrite bool_decide_eq_false_2. }
  rewrite bprm_check_run. unfold bprm_check_answer. rewrite Hprot, Harg. cbn [unwrap_or].
  destruct (bprm =? 0) eqn:Hb.
  { unfold field in Hbf. by rewrite Hb in Hbf. }
  rewrite Hbf. cbn [mbind option_bind]. rewrite Hfi. unfold exec_rule.
  rewrite (hook_tool_subject _ _ _ _ Hsub), Hid, !Hk by done.
  assert (∀ perm, blocks σ (hook_subject e σ) (Some perm) = (perm =? PERM_DENY)) as Hblocks.
  { intros perm. unfold blocks. rewrite Hcfg, Hsub. cbn. rewrite Hmode, Hflag, Hid.
    by rewrite (proj2 (Z.eqb_neq t TOOL_IDLE) (rules_fnv1a_32_nonzero _)). }
  destruct (compile_exec_rule_for metadata t policy
    {| xp_tool_id := t; xp_dev := dev; xp_ino := ino |})
    as [[Hden ->]|[(Hnd & Hal & ->)|(Hnd & Hnal & ->)]].
  - rewrite Hblocks. cbn. rewrite Hleads in Hden. naive_solver.
  - rewrite Hblocks. cbn. rewrite Hleads in Hnd, Hal. naive_solver.
  - rewrite Hleads in Hnal. rewrite (compile_exec_star metadata t policy) by done.
    rewrite Hblocks. cbn. naive_solver.
Qed.

(** ** An instance *)

(** Tool [t] may not open [/a] nor connect to 10.0.0.0/8, and may only execute [/a]. *)
Definition sample_tool : ToolDef :=
  {| td_name := lit "t";
     td_fs := Some {| ad_allow := [lit "/a"]; ad_deny := [lit "/a"] |};
     td_exec := Some {| ad_allow := [lit "/a"]; ad_deny := [lit "*"] |};
     td_net := Some {| ad_allow := []; ad_deny := [lit "10.0.0.0/8"] |} |}.
Definition sample_section : IronScopeSection :=
  {| cf_agents := [{| ag_pid := Some 7 |}]; cf_tools := [sample_tool]; cf_mode := lit "enforce";
     cf_unknown_tool_policy := default_unknown_tool_policy;
     cf_resolver_error_policy := default_resolver_error_policy;
     cf_agent_child_scope := default_agent_child_scope;
     cf_default_tool_policy := default_tool_policy |}.
Definition sample_metadata (p : str) : option (Z * Z) :=
  if bool_decide (p = lit "/a") then Some (1, 500) else None.
Definition sample_compiled : CompiledPolicy :=
  match compile_with_hashed_tool_ids sample_metadata (λ _, None) None (λ l, l) sample_section with
  | Ok c => c
  | Err _ => {| cp_tool_name_to_id := ∅; cp_agent_pids := []; cp_fs_rules := [];
                cp_exec_rules := []; cp_net_rules := []; cp_mode := 0;
                cp_unknown_tool_policy := 0; cp_resolver_error_policy := 0;
                cp_child_scope := 0; cp_default_tool_policy := 0 |}
  end.
(** Thread 9 of process 7 runs context 17 of the tool. *)
Definition sample_state : State :=
  set_thread_active_ctx {[ 9 := 17 ]}
    (set_tool_ctx {[ 17 := sample_ctx (rules_fnv1a_32 (lit "t")) ]} empty_state).

(** A policy loaded by [populate_maps] alone. *)
Lemma deployed_now metadata first_ipv4 resolv_conf set_order config c e σ0 :
  fresh_policy σ0 →
  compile_with_hashed_tool_ids metadata first_ipv4 resolv_conf set_order config = Ok c →
  (populate_maps c e σ0).1 = Ok tt →
  deployed metadata first_ipv4 resolv_conf set_order config c σ0 (populate_maps c e σ0).2.
Proof.
  intros Hf Hc Hp. split_and!; [done..|]. eexists. split; [|apply reaches_refl].
  apply (populate_loading c e). rewrite <-Hp. apply surjective_pairing.
Qed.

Lemma sample_deployed :
  deployed sample_metadata (λ _, None) None (λ l, l) sample_section sample_compiled sample_state
    (populate_maps sample_compiled env0 sample_state).2.
Proof. apply deployed_now; [done|by vm_compute|by vm_compute]. Qed.

Lemma denied_file_is_blocked_witness :
  (run_probe ag_file_open env_file (populate_maps sample_compiled env0 sample_state).2).1 = -1.
Proof.
  apply (denied_file_is_blocked sample_metadata (λ _, None) None (λ l, l) sample_section
    sample_compiled sample_state _ env_file sample_tool
    {| ad_allow := [lit "/a"]; ad_deny := [lit "/a"] |} (lit "/a") 1 500 17
    (sample_ctx (rules_fnv1a_32 (lit "t"))) 64);
    [exact sample_deployed|vm_compute; reflexivity|constructor|reflexivity
    |constructor|vm_compute; reflexivity| |vm_compute; reflexivity..].
  intros td' [->|Htd]%elem_of_cons _; [reflexivity|by inversion Htd].
Defined.

(** The program file of the call is the file at address 64. *)
Definition env_exec : Env :=
  sample_env (λ _, Some 32)
    (λ f p, match f with linux_binprm_file => Some 64 | _ => file_accessor f p end)
    (λ _ _ _, None).

Lemma exec_allow_list_witness :
  (run_probe ag_bprm_check env_exec (populate_maps sample_compiled env0 sample_state).2).1 = 0.
Proof.
  apply (exec_allow_list sample_metadata (λ _, None) None (λ l, l) sample_section
    sample_compiled sample_state _ env_exec sample_tool
    {| ad_allow := [lit "/a"]; ad_deny := [lit "*"] |} 1 500 17
    (sample_ctx (rules_fnv1a_32 (lit "t"))) 32 64);
    [exact sample_deployed|vm_compute; reflexivity|constructor|reflexivity
    |constructor| |vm_compute; reflexivity..|congruence|].
  - intros td' [->|Htd]%elem_of_cons _; [reflexivity|by inversion Htd].
  - split.
    + exists (lit "/a"). split_and!; [constructor|vm_compute; congruence|vm_compute; reflexivity].
    + intros (p & [->|Hp]%elem_of_cons & Hs & _); [by destruct Hs|by inversion Hp].
Defined.

(** Activity that no tool accounts for is never refused.  Loading a policy always
    leaves the configuration to audit unattributed activity only, so that in every
    later state the hooks let an unattributed thread through, in enforce mode too. *)
Theorem unattributed_never_blocked metadata first_ipv4 resolv_conf set_order config c σ0 σ e p :
  deployed metadata first_ipv4 resolv_conf set_order config c σ0 σ →
  hook_subject e σ = Unattributed → (run_probe p e σ).1 = 0.
Proof.
  intros Hd Hs. destruct (deployed_lookup _ _ _ _ _ _ _ _ Hd) as (_ & _ & Hcfg & _).
  assert (∀ perm, blocks σ (hook_subject e σ) perm = false) as Hb.
  { intros perm. unfold blocks. rewrite Hcfg, Hs. cbn. apply andb_false_r. }
  destruct (is_lsm p) eqn:Hp; [|by apply other_probe_run].
  destruct p; try done; [rewrite file_open_run; unfold file_open_answer
    |rewrite bprm_check_run; unfold bprm_check_answer
    |rewrite socket_connect_run; unfold socket_connect_answer];
    cbv zeta; repeat case_match; try done; congruence.
Qed.

Lemma unattributed_never_blocked_witness :
  (run_probe ag_file_open env_file (populate_maps sample_compiled env0 empty_state).2).1 = 0.
Proof.
  apply (unattributed_never_blocked sample_metadata (λ _, None) None (λ l, l) sample_section
    sample_compiled empty_state); [|vm_compute; reflexivity].
  apply deployed_now; [done|vm_compute; reflexivity..].
Defined.
