(* ===== verification/Net.v ===== *)
(** * Network policy: notation, prefixes and the kernel's trie

    The text of a network rule, the key it is compiled to, and which endpoints the
    key covers in a longest-prefix-match trie. *)

From stdpp Require Import base gmap list strings.
From S2P Require Import Prelude Types Maps Samples Ownership Identity Worker Frames Tasks.
From S2P Require Import Events Lsm Probes Monotone Compiler Contexts Decision Enforcement.
From S2P Require Import Classify PolicyLoad.

#[global] Instance ToolNetKey_eq : EqDecision ToolNetKey.
Proof. solve_decision. Defined.
#[global] Instance ToolNetData_eq : EqDecision ToolNetData.
Proof. solve_decision. Defined.

(** ** Text *)

Lemma split_on_none c s : c ∉ s → split_on c s = [s].
Proof.
  induction s as [|b s IH]; [done|]. intros [Hb Hs]%not_elem_of_cons. unfold split_on in *. cbn.
  destruct (Z.eqb_spec b c); [congruence|]. by rewrite IH.
Qed.

Lemma split_on_cons c x y : c ∉ x → split_on c (x ++ c :: y) = x :: split_on c y.
Proof.
  induction x as [|b x IH].
  { intros _. unfold split_on. cbn. by rewrite Z.eqb_refl. }
  intros [Hb Hx]%not_elem_of_cons. unfold split_on in *. cbn.
  destruct (Z.eqb_spec b c); [congruence|]. by rewrite IH.
Qed.

Lemma rsplit_once_none c s : c ∉ s → rsplit_once c s = None.
Proof.
  induction s as [|b s IH]; [done|]. intros [Hb Hs]%not_elem_of_cons. cbn.
  rewrite IH by done. by destruct (Z.eqb_spec b c).
Qed.

Lemma rsplit_once_cons c x y : c ∉ y → rsplit_once c (x ++ c :: y) = Some (x, y).
Proof.
  intros Hy. induction x as [|b x IH]; cbn.
  - by rewrite rsplit_once_none, Z.eqb_refl.
  - by rewrite IH.
Qed.

Definition digitsb (s : str) : bool := forallb (λ b, (48 <=? b) && (b <=? 57)) s.

Lemma digitsb_not_in s c : digitsb s = true → ¬ (48 ≤ c ≤ 57) → c ∉ s.
Proof.
  intros Hd Hc Hin. unfold digitsb in Hd. rewrite forallb_forall in Hd.
  specialize (Hd c (proj1 (list_elem_of_In _ _) Hin)). lia.
Qed.

Lemma show_dec_digits k n : 0 ≤ n → digitsb (show_dec k n) = true.
Proof.
  revert n. induction k as [|k IH]; intros n Hn; [done|]. cbn [show_dec].
  destruct (Z.ltb_spec n 10).
  - cbn. rewrite andb_true_r. lia.
  - pose proof (Z.mod_pos_bound n 10). unfold digitsb in *. rewrite forallb_app, IH.
    + cbn. rewrite andb_true_r. lia.
    + apply Z.div_pos; lia.
Qed.

Lemma parse_digits_snoc max acc s b :
  parse_digits max acc (s ++ [b]) = parse_digits max acc s ≫= λ a, parse_digits max a [b].
Proof.
  revert acc. induction s as [|c s IH]; intros acc; [done|]. cbn [app parse_digits].
  destruct (digit c) as [d|]; [|done]. cbn [mbind option_bind].
  destruct (_ >? max); [done|]. apply IH.
Qed.

Lemma parse_one_digit max acc d :
  0 ≤ d < 10 → acc * 10 + d ≤ max → parse_digits max acc [48 + d] = Some (acc * 10 + d).
Proof.
  intros Hd Hm. cbn [parse_digits]. unfold digit.
  replace ((48 <=? 48 + d) && (48 + d <=? 57)) with true by (symmetry; lia).
  cbn [mbind option_bind]. replace (48 + d - 48) with d by lia.
  by replace (acc * 10 + d >? max) with false by (symmetry; lia).
Qed.

(** Decimal notation is read back, within the bound of the type. *)
Lemma parse_show_dec max k n :
  0 ≤ n ≤ max → n < 10 ^ Z.of_nat k → parse_digits max 0 (show_dec k n) = Some n.
Proof.
  revert n. induction k as [|k IH]; intros n Hn Hk; [cbn in *; f_equal; lia|]. cbn [show_dec].
  destruct (Z.ltb_spec n 10); [by rewrite parse_one_digit by lia|].
  pose proof (Z.mod_pos_bound n 10). pose proof (Z.div_mod n 10).
  rewrite Nat2Z.inj_succ, Z.pow_succ_r in Hk by lia.
  assert (n / 10 < 10 ^ Z.of_nat k) by (apply Z.div_lt_upper_bound; lia).
  assert (0 ≤ n / 10) by (apply Z.div_pos; lia).
  rewrite parse_digits_snoc, IH by lia. cbn [mbind option_bind].
  rewrite parse_one_digit by lia. f_equal. lia.
Qed.

Lemma parse_uint_digits max b s :
  48 ≤ b → parse_uint max (b :: s) = parse_digits max 0 (b :: s).
Proof.
  intros Hb. unfold parse_uint. destruct b as [|p|p]; [done| |done].
  do 6 (destruct p as [p|p|]; try done); lia.
Qed.

Lemma show_dec_nonempty k n : show_dec (S k) n ≠ [].
Proof. cbn. case_match; [done|]. by destruct (show_dec k (n / 10)). Qed.

Lemma parse_uint_show max k n :
  0 ≤ n ≤ max → n < 10 ^ Z.of_nat (S k) → parse_uint max (show_dec (S k) n) = Some n.
Proof.
  intros Hn Hk. pose proof (show_dec_digits (S k) n ltac:(lia)) as Hd.
  pose proof (show_dec_nonempty k n) as Hne. rewrite <- (parse_show_dec max (S k) n Hn Hk).
  destruct (show_dec (S k) n) as [|b s]; [done|]. apply parse_uint_digits. cbn in Hd. lia.
Qed.

(** A check of every number below a bound. *)
Lemma check_below (p : Z → bool) n x :
  forallb p (seqZ 0 n) = true → 0 ≤ x < n → p x = true.
Proof.
  intros Hall Hx. rewrite forallb_forall in Hall. apply Hall, list_elem_of_In, elem_of_seqZ. lia.
Qed.

Lemma show_octet n : 0 ≤ n < 256 →
  digitsb (show_dec 3 n) = true ∧ parse_octet (show_dec 3 n) = Some n.
Proof.
  intros Hn. split; [by apply show_dec_digits; lia|].
  pose proof (check_below (λ n, bool_decide (parse_octet (show_dec 3 n) = Some n)) 256 n) as H.
  apply (proj1 (bool_decide_eq_true _)), H; [vm_compute; reflexivity|done].
Qed.

(** Dotted decimal. *)
Definition show_ipv4 (a b c d : Z) : str :=
  show_dec 3 a ++ 46 :: show_dec 3 b ++ 46 :: show_dec 3 c ++ 46 :: show_dec 3 d.

Lemma parse_show_ipv4 a b c d :
  octet a → octet b → octet c → octet d →
  parse_ipv4 (show_ipv4 a b c d) = Some (le_decode [a; b; c; d]).
Proof.
  intros Ha Hb Hc Hd. unfold parse_ipv4, show_ipv4.
  destruct (show_octet a Ha) as [Da Pa], (show_octet b Hb) as [Db Pb],
    (show_octet c Hc) as [Dc Pc], (show_octet d Hd) as [Dd Pd].
  rewrite !split_on_cons by (eapply digitsb_not_in; [done|lia]).
  rewrite split_on_none by (eapply digitsb_not_in; [done|lia]).
  by rewrite Pa, Pb, Pc, Pd.
Qed.

Lemma show_ipv4_not_in a b c d x :
  octet a → octet b → octet c → octet d → ¬ (46 ≤ x ≤ 57) ∨ x = 47 → x ∉ show_ipv4 a b c d.
Proof.
  intros Ha Hb Hc Hd Hx. unfold show_ipv4.
  destruct (show_octet a Ha) as [Da _], (show_octet b Hb) as [Db _],
    (show_octet c Hc) as [Dc _], (show_octet d Hd) as [Dd _].
  rewrite !not_elem_of_app, !not_elem_of_cons, !not_elem_of_app, !not_elem_of_cons,
    !not_elem_of_app, !not_elem_of_cons.
  split_and!; (lia || (eapply digitsb_not_in; [done|lia])).
Qed.

Section rules.
Context (first_ipv4 : str → option (list Z)) (tool_id : Z).

Lemma parse_cidr a b c d n :
  octet a → octet b → octet c → octet d → 0 ≤ n ≤ 32 →
  parse_net_rule first_ipv4 tool_id (show_ipv4 a b c d ++ 47 :: show_dec 2 n)
  = Some {| nk_prefixlen := 32 + n; nk_tool_id := tool_id;
            nk_addr := le_decode [a; b; c; d]; nk_port := 0; nk_pad := 0 |}.
Proof.
  intros Ha Hb Hc Hd Hn. unfold parse_net_rule.
  pose proof (show_dec_digits 2 n ltac:(lia)) as Dn.
  pose proof (parse_uint_show (2 ^ 32 - 1) 1 n ltac:(lia) ltac:(lia)) as Pn.
  rewrite split_on_cons by (apply show_ipv4_not_in; auto).
  rewrite split_on_none by (eapply digitsb_not_in; [done|lia]).
  rewrite parse_show_ipv4 by done. cbn [mbind option_bind]. rewrite Pn. cbn.
  by rewrite u32_small by (unfold in_u32; lia).
Qed.

Lemma parse_endpoint a b c d n :
  octet a → octet b → octet c → octet d → 0 ≤ n < 65536 →
  parse_net_rule first_ipv4 tool_id (show_ipv4 a b c d ++ 58 :: show_dec 5 n)
  = Some {| nk_prefixlen := 96; nk_tool_id := tool_id;
            nk_addr := le_decode [a; b; c; d]; nk_port := to_be16 n; nk_pad := 0 |}.
Proof.
  intros Ha Hb Hc Hd Hn. unfold parse_net_rule.
  pose proof (show_dec_digits 5 n ltac:(lia)) as Dn.
  pose proof (parse_uint_show 65535 4 n ltac:(lia) ltac:(lia)) as Pn. rewrite split_on_none.
  - unfold parse_endpoint_rule.
    rewrite rsplit_once_cons by (eapply digitsb_not_in; [done|lia]).
    rewrite Pn. cbn [mbind option_bind]. by rewrite parse_show_ipv4.
  - rewrite not_elem_of_app, not_elem_of_cons. split_and!.
    + apply show_ipv4_not_in; auto.
    + lia.
    + eapply digitsb_not_in; [done|lia].
Qed.

(** What is written is what is compiled: a rule [a.b.c.d/p] becomes the prefix
    of the tool and the first [p] bits of the address, a rule [a.b.c.d:port] the full
    key with the port in network order; the name service is not asked. *)
Theorem net_rule_roundtrip a b c d n :
  octet a → octet b → octet c → octet d →
  (0 ≤ n ≤ 32 → parse_net_rule first_ipv4 tool_id (show_ipv4 a b c d ++ 47 :: show_dec 2 n)
     = Some {| nk_prefixlen := 32 + n; nk_tool_id := tool_id;
               nk_addr := le_decode [a; b; c; d]; nk_port := 0; nk_pad := 0 |})
  ∧ (0 ≤ n < 65536 → parse_net_rule first_ipv4 tool_id (show_ipv4 a b c d ++ 58 :: show_dec 5 n)
     = Some {| nk_prefixlen := 96; nk_tool_id := tool_id;
               nk_addr := le_decode [a; b; c; d]; nk_port := to_be16 n; nk_pad := 0 |}).
Proof. intros. split; [by apply parse_cidr|by apply parse_endpoint]. Qed.
End rules.

Lemma net_rule_roundtrip_witness :
  parse_net_rule (λ _, None) 5 (lit "10.1.2.0/24")
  = Some {| nk_prefixlen := 56; nk_tool_id := 5; nk_addr := 131338; nk_port := 0; nk_pad := 0 |}.
Proof.
  apply (net_rule_roundtrip (λ _, None) 5 10 1 2 0 24); unfold octet; lia.
Defined.
