(* ===== verification/Lpm.v ===== *)
(** * The kernel's longest-prefix-match trie

    [TOOL_NET_POLICY] is a trie of the kernel ([BPF_MAP_TYPE_LPM_TRIE]), whose
    documented lookup is written here as [longest_match]: an entry matches a key when
    the first bits of their data agree, most significant bit of each byte first, as
    many as the entry's prefix length; the longest matching entry is the result, the
    latest insertion among equally long ones.  The laws below turn the comparison of
    bits into arithmetic on addresses. *)

From stdpp Require Import base gmap list strings.
From S2P Require Import Prelude Types Maps Compiler Net.

(** ** Bits of a key *)

Definition byte_bits (b : Z) : list bool := Z.testbit b <$> [7; 6; 5; 4; 3; 2; 1; 0].

Definition tool_bits (t : Z) : list bool := le_bytes 4 t ≫= byte_bits.
Definition addr_bits (a : Z) : list bool := le_bytes 4 a ≫= byte_bits.
Definition tail_bits (port pad : Z) : list bool := (le_bytes 2 port ++ le_bytes 2 pad) ≫= byte_bits.

(** The layout of [ToolNetData] in memory. *)
Definition data_bits (d : ToolNetData) : list bool :=
  tool_bits (nd_tool_id d) ++ addr_bits (nd_addr d) ++ tail_bits (nd_port d) (nd_pad d).

Definition covers (p : Z) (d k : ToolNetData) : bool :=
  bool_decide (take (Z.to_nat p) (data_bits d) = take (Z.to_nat p) (data_bits k)).

Abbreviation entry := (Z * ToolNetData * Z)%type.

(** The longest match and its value. *)
Fixpoint best (k : ToolNetData) (entries : list entry) : option (Z * Z) :=
  match entries with
  | [] => None
  | (p, d, v) :: entries =>
      let later := best k entries in
      if covers p d k then
        match later with
        | Some (p', v') => if p' <? p then Some (p, v) else Some (p', v')
        | None => Some (p, v)
        end
      else later
  end.

Definition longest_match (entries : list entry) (plen : Z) (k : ToolNetData) : option Z :=
  snd <$> best k (filter (λ r, r.1.1 ≤ plen) entries).

(** ** Longest matches *)

Lemma best_in k l p v : best k l = Some (p, v) → ∃ d, (p, d, v) ∈ l ∧ covers p d k = true.
Proof.
  revert p v. induction l as [|[[p0 d0] v0] l IH]; intros p v; [done|]. cbn.
  destruct (covers p0 d0 k) eqn:Hc.
  - destruct (best k l) as [[p' v']|]; [case_match|]; intros [= <- <-].
    + exists d0. by split; [left|].
    + destruct (IH p' v' eq_refl) as (d & Hd & Hcd). exists d. by split; [right|].
    + exists d0. by split; [left|].
  - intros (d & Hd & Hcd)%IH. exists d. by split; [right|].
Qed.

Lemma best_longest k l p d v :
  (p, d, v) ∈ l → covers p d k = true → ∃ p' v', best k l = Some (p', v') ∧ p ≤ p'.
Proof.
  induction l as [|[[p0 d0] v0] l IH]; [by intros ?%not_elem_of_nil|]. cbn.
  intros [[= <- <- <-]|Hin]%elem_of_cons Hc.
  - rewrite Hc. destruct (best k l) as [[p' v']|]; [|by eauto with lia].
    destruct (Z.ltb_spec p' p); eexists _, _; (split; [done|lia]).
  - destruct (IH Hin Hc) as (p' & v' & -> & Hp). destruct (covers p0 d0 k); [|by eauto].
    destruct (Z.ltb_spec p' p0); eexists _, _; (split; [done|lia]).
Qed.

Lemma best_none k l : (∀ r, r ∈ l → covers r.1.1 r.1.2 k = false) → best k l = None.
Proof.
  intros Hl. destruct (best k l) as [[p v]|] eqn:E; [|done].
  apply best_in in E as (d & Hd & Hc). specialize (Hl _ Hd). cbn in Hl. congruence.
Qed.

(** Of two lists the later wins unless the earlier has a longer match. *)
Lemma best_app k l l' :
  best k (l ++ l') =
    match best k l, best k l' with
    | Some (p, v), Some (p', v') => if p' <? p then Some (p, v) else Some (p', v')
    | Some r, None => Some r
    | None, r => r
    end.
Proof.
  induction l as [|[[p0 d0] v0] l IH]; [done|]. cbn. rewrite IH.
  destruct (covers p0 d0 k), (best k l) as [[p v]|], (best k l') as [[p' v']|];
    repeat (case_match; simplify_eq); (done || lia).
Qed.

Lemma longest_match_all l plen k :
  Forall (λ r, r.1.1 ≤ plen) l → longest_match l plen k = snd <$> best k l.
Proof.
  intros Hl. unfold longest_match. do 2 f_equal.
  induction Hl as [|r l Hr Hl IH]; [done|]. by rewrite filter_cons, IH, decide_True by done.
Qed.

(** ** Prefixes as arithmetic *)

Definition bits_val (l : list bool) : Z := foldl (λ acc (b : bool), 2 * acc + Z.b2z b) 0 l.

Lemma bits_val_snoc l b : bits_val (l ++ [b]) = 2 * bits_val l + Z.b2z b.
Proof. unfold bits_val. by rewrite foldl_app. Qed.

Lemma bits_val_app l l' :
  bits_val (l ++ l') = bits_val l * 2 ^ Z.of_nat (length l') + bits_val l'.
Proof.
  induction l' as [|b l' IH] using rev_ind; [rewrite app_nil_r; cbn; lia|].
  rewrite app_assoc, !bits_val_snoc, IH, length_app. cbn [length].
  rewrite Nat2Z.inj_add, Z.pow_add_r by lia. change (2 ^ Z.of_nat 1) with 2. lia.
Qed.

Lemma bits_val_range l : 0 ≤ bits_val l < 2 ^ Z.of_nat (length l).
Proof.
  induction l as [|b l IH] using rev_ind; [done|]. rewrite bits_val_snoc, length_app. cbn [length].
  rewrite Nat2Z.inj_add, Z.pow_add_r by lia. change (2 ^ Z.of_nat 1) with 2. destruct b; cbn; lia.
Qed.

Lemma bits_val_inj l l' : length l = length l' → bits_val l = bits_val l' → l = l'.
Proof.
  revert l'. induction l as [|b l IH] using rev_ind; intros l' Hl Hv.
  { by destruct l'. }
  destruct l' as [|b' l' _] using rev_ind; [rewrite length_app in Hl; cbn in Hl; lia|].
  rewrite !length_app in Hl. rewrite !bits_val_snoc in Hv. cbn in Hl.
  f_equal; [apply IH|f_equal]; destruct b, b'; cbn in *; lia.
Qed.

(** The first bits are the quotient. *)
Lemma bits_val_take n l :
  (n ≤ length l)%nat → bits_val (take n l) = bits_val l / 2 ^ Z.of_nat (length l - n).
Proof.
  intros Hn. pose proof (bits_val_app (take n l) (drop n l)) as H.
  rewrite take_drop, length_drop in H. pose proof (bits_val_range (drop n l)) as Hr.
  rewrite length_drop in Hr. rewrite H.
  apply Z.div_unique with (bits_val (drop n l)); lia.
Qed.

Lemma take_bits_eq n l l' :
  length l = length l' → (n ≤ length l)%nat →
  take n l = take n l' ↔
  bits_val l / 2 ^ Z.of_nat (length l - n) = bits_val l' / 2 ^ Z.of_nat (length l - n).
Proof.
  intros Hl Hn. pose proof (bits_val_take n l Hn) as H. pose proof (bits_val_take n l') as H'.
  rewrite <-Hl in H'. rewrite <-H, <-H' by done. split; [congruence|].
  apply bits_val_inj. rewrite !length_take. lia.
Qed.

Lemma byte_bits_val b : octet b → bits_val (byte_bits b) = b.
Proof.
  intros Hb. apply Z.eqb_eq.
  apply (check_below (λ b, bits_val (byte_bits b) =? b) 256); [vm_compute; reflexivity|done].
Qed.

Lemma bits32_length x : length (le_bytes 4 x ≫= byte_bits) = 32%nat.
Proof. done. Qed.

(** A dotted address as the number of its notation. *)
Definition ipv4_number (a b c d : Z) : Z := a * 2 ^ 24 + b * 2 ^ 16 + c * 2 ^ 8 + d.

Lemma addr_bits_val a b c d :
  octet a → octet b → octet c → octet d →
  bits_val (addr_bits (le_decode [a; b; c; d])) = ipv4_number a b c d.
Proof.
  intros Ha Hb Hc Hd. unfold addr_bits.
  pose proof (le_bytes_decode [a; b; c; d] ltac:(by rewrite !Forall_cons)) as E.
  cbn [length] in E. rewrite E. cbn [mbind list_bind app].
  rewrite !bits_val_app, !byte_bits_val by done. cbn. unfold ipv4_number. lia.
Qed.

(** ** What an entry covers *)

Lemma bytes_bits_inj l l' :
  Forall octet l → Forall octet l' → length l = length l' →
  l ≫= byte_bits = l' ≫= byte_bits → l = l'.
Proof.
  intros Hl. revert l'. induction Hl as [|b l Hb Hl IH]; intros [|b' l'] Hl' Hlen; try done.
  inversion Hl' as [|?? Hb' Hl'']; subst. cbn [mbind list_bind]. intros [H1 H2]%app_inj_1; [|done].
  rewrite <-(byte_bits_val b), <-(byte_bits_val b'), H1 by done. f_equal. apply IH; try done.
  by injection Hlen.
Qed.

Lemma bits32_inj x y :
  in_u32 x → in_u32 y → le_bytes 4 x ≫= byte_bits = le_bytes 4 y ≫= byte_bits → x = y.
Proof.
  unfold in_u32. intros Hx Hy H. destruct (le_bytes_octets 4 x) as [Ox Lx], (le_bytes_octets 4 y) as [Oy Ly].
  rewrite <-(le_decode_bytes 4 x), <-(le_decode_bytes 4 y) by (cbn; lia).
  f_equal. apply bytes_bits_inj; congruence || done.
Qed.

Section covers.
Context (d k : ToolNetData).
Context (Hd : in_u32 (nd_tool_id d)) (Hk : in_u32 (nd_tool_id k)).

(** An entry that includes the tool identifier covers keys of that tool only. *)
Lemma covers_tool p : 32 ≤ p → covers p d k = true → nd_tool_id d = nd_tool_id k.
Proof.
  intros Hp Hc%bool_decide_eq_true. apply bits32_inj; [done..|].
  apply (f_equal (take 32)) in Hc. rewrite !take_take, Nat.min_l in Hc by lia.
  unfold data_bits in Hc. by rewrite !(take_app_length' _ _ 32) in Hc by done.
Qed.

(** One that includes the address covers that address only. *)
Lemma covers_address p :
  64 ≤ p → in_u32 (nd_addr d) → in_u32 (nd_addr k) → covers p d k = true →
  nd_addr d = nd_addr k.
Proof using.
  intros Hp Ud Uk Hc%bool_decide_eq_true. apply bits32_inj; [done..|].
  apply (f_equal (λ l, drop 32 (take 64 l))) in Hc. rewrite !take_take, Nat.min_l in Hc by lia.
  assert (∀ x, drop 32 (take 64 (data_bits x)) = addr_bits (nd_addr x)) as E by done.
  by rewrite !E in Hc.
Qed.

Lemma covers_addr n :
  0 ≤ n ≤ 32 →
  covers (32 + n) d k = true ↔
    nd_tool_id d = nd_tool_id k
    ∧ take (Z.to_nat n) (addr_bits (nd_addr d)) = take (Z.to_nat n) (addr_bits (nd_addr k)).
Proof.
  intros Hn. assert (∀ x, take (Z.to_nat (32 + n)) (data_bits x)
    = tool_bits (nd_tool_id x) ++ take (Z.to_nat n) (addr_bits (nd_addr x))) as E.
  { intros x. unfold data_bits. rewrite Z2Nat.inj_add by lia.
    rewrite take_app_add' by done. by rewrite take_app_le by (change (length _) with 32%nat; lia). }
  unfold covers. rewrite bool_decide_eq_true, !E. split.
  - intros [H1 H2]%app_inj_1; [|done]. by split; [apply bits32_inj|].
  - by intros [-> ->].
Qed.
End covers.

(** The network [a.b.c.d/n] covers the addresses whose number agrees in its first [n] bits. *)
Definition in_network (net n ip : Z) : Prop := net / 2 ^ (32 - n) = ip / 2 ^ (32 - n).

Lemma covers_network a b c d a' b' c' d' n t port pad :
  octet a → octet b → octet c → octet d → octet a' → octet b' → octet c' → octet d' →
  in_u32 t → 0 ≤ n ≤ 32 →
  covers (32 + n)
    {| nd_tool_id := t; nd_addr := le_decode [a; b; c; d]; nd_port := 0; nd_pad := 0 |}
    {| nd_tool_id := t; nd_addr := le_decode [a'; b'; c'; d']; nd_port := port; nd_pad := pad |} = true
  ↔ in_network (ipv4_number a b c d) n (ipv4_number a' b' c' d').
Proof.
  intros Ha Hb Hc Hd Ha' Hb' Hc' Hd' Ht Hn. rewrite covers_addr by done. cbn [nd_tool_id nd_addr].
  rewrite take_bits_eq by (unfold addr_bits; rewrite ?bits32_length; lia).
  rewrite !addr_bits_val by done. unfold in_network.
  replace (Z.of_nat (length (addr_bits (le_decode [a; b; c; d])) - Z.to_nat n)) with (32 - n)
    by (unfold addr_bits; rewrite bits32_length; lia).
  split; [by intros [_ ?]|done].
Qed.
