(* ===== verification/NetPolicy.v ===== *)
(** * Network rules in force

    What the trie of a deployed policy answers for an endpoint: denied networks are
    refused, and the resolvers of the host stay reachable on every port for which no
    rule names the port. *)

From stdpp Require Import base gmap list strings.
From S2P Require Import Prelude Types Maps Samples Ownership Identity Worker Frames Tasks.
From S2P Require Import Events Lsm Probes Monotone Compiler Contexts Decision Enforcement.
From S2P Require Import Session Classify PolicyLoad Net Lpm.

(** ** Identifiers of compiled keys *)

Lemma rules_fnv1a_32_range s : in_u32 (rules_fnv1a_32 s).
Proof.
  unfold rules_fnv1a_32. cbv zeta. destruct (_ =? 0); [done|].
  assert (∀ l h, in_u32 h → in_u32 (foldl (λ h b, u32 (Z.lxor h b * 0x01000193)) h l)) as H.
  { induction l as [|b l IH]; intros h Hh; [done|]. cbn [foldl]. apply IH, u32_range. }
  by apply H.
Qed.

Lemma parse_net_rule_tool first_ipv4 t entry k :
  parse_net_rule first_ipv4 t entry = Some k → nk_tool_id k = t.
Proof.
  unfold parse_net_rule, parse_endpoint_rule, parse_host_rule.
  intros H. repeat (case_match || simplify_option_eq); by simplify_eq/=.
Qed.

Lemma compile_net_rules_in first_ipv4 t policy r :
  r ∈ compile_net_rules first_ipv4 t policy → nk_tool_id r.1 = t.
Proof.
  unfold compile_net_rules. intros [Hr|Hr]%elem_of_app; apply list_elem_of_omap in Hr as (s & _ & Hr);
    destruct (parse_net_rule first_ipv4 t s) as [k|] eqn:E; simplify_eq/=;
    by apply parse_net_rule_tool in E.
Qed.

Abbreviation hashed tools := ((λ tool, (rules_fnv1a_32 (td_name tool), tool)) <$> tools).
Abbreviation trie rules := (net_entry <$> rules).

(** The rules of other tools match the key at most by less than an identifier. *)
Definition short (b : option (Z * Z)) : Prop :=
  match b with Some (p, _) => p < 32 | None => True end.

Lemma best_other_tools k rules :
  in_u32 (nd_tool_id k) →
  (∀ r, r ∈ rules → in_u32 (nk_tool_id r.1) ∧ nk_tool_id r.1 ≠ nd_tool_id k) →
  short (best k (trie rules)).
Proof.
  intros Hk Hr. destruct (best k (trie rules)) as [[p v]|] eqn:E; [|done]. cbn.
  apply best_in in E as (d & Hin & Hc). apply list_elem_of_fmap in Hin as (r & [= -> -> ->] & Hin).
  destruct (Hr r Hin) as [Hu Hne]. destruct (Z.lt_ge_cases (nk_prefixlen r.1) 32); [done|].
  destruct Hne. by apply (covers_tool (net_entry r).1.2 k) in Hc.
Qed.

Lemma rules_of_tools first_ipv4 tools r :
  r ∈ rules_of td_net (compile_net_rules first_ipv4) (hashed tools) →
  ∃ tool, tool ∈ tools ∧ nk_tool_id r.1 = rules_fnv1a_32 (td_name tool).
Proof.
  unfold rules_of. intros ([t tool] & Hr & Hin)%list_elem_of_bind.
  apply list_elem_of_fmap in Hin as (tool' & [= -> ->] & Hin). exists tool'. split; [done|].
  destruct (td_net tool'); [by apply compile_net_rules_in in Hr|by apply not_elem_of_nil in Hr].
Qed.

Lemma best_short_l k l l' p v :
  short (best k l) → best k l' = Some (p, v) → 32 ≤ p → best k (l ++ l') = Some (p, v).
Proof.
  intros Hs Hl Hp. rewrite best_app, Hl. destruct (best k l) as [[p' v']|]; [|done].
  cbn in Hs. destruct (Z.ltb_spec p p'); [lia|done].
Qed.

Lemma best_short_r k l l' p v :
  short (best k l') → best k l = Some (p, v) → 32 ≤ p → best k (l ++ l') = Some (p, v).
Proof.
  intros Hs Hl Hp. rewrite best_app, Hl. destruct (best k l') as [[p' v']|]; [|done].
  cbn in Hs. destruct (Z.ltb_spec p' p); [done|lia].
Qed.

(** The best rule of a tool is the best of all. *)
Lemma best_of_tool first_ipv4 tools td policy k p v :
  NoDup ((λ tool, rules_fnv1a_32 (td_name tool)) <$> tools) → td ∈ tools →
  td_net td = Some policy → nd_tool_id k = rules_fnv1a_32 (td_name td) →
  best k (trie (compile_net_rules first_ipv4 (rules_fnv1a_32 (td_name td)) policy)) = Some (p, v) →
  32 ≤ p →
  best k (trie (rules_of td_net (compile_net_rules first_ipv4) (hashed tools))) = Some (p, v).
Proof.
  intros Hnd (l1 & l2 & ->)%list_elem_of_split Hnet Hk Hb Hp.
  rewrite fmap_app, fmap_cons, NoDup_app, NoDup_cons in Hnd. destruct Hnd as (_ & Hl1 & Hl2 & _).
  assert (∀ l, (∀ tool, tool ∈ l → rules_fnv1a_32 (td_name tool) ≠ rules_fnv1a_32 (td_name td)) →
    short (best k (trie (rules_of td_net (compile_net_rules first_ipv4) (hashed l))))) as Hother.
  { intros l Hl. apply best_other_tools; [rewrite Hk; apply rules_fnv1a_32_range|].
    intros r (tool & Hin & ->)%rules_of_tools. rewrite Hk.
    split; [apply rules_fnv1a_32_range|by apply Hl]. }
  unfold rules_of. rewrite fmap_app, bind_app, fmap_app, fmap_cons, bind_cons, fmap_app.
  apply best_short_l; [apply Hother| |done].
  { intros tool Hin E. apply (Hl1 (rules_fnv1a_32 (td_name tool))); [|rewrite E; by left].
    apply list_elem_of_fmap. by exists tool. }
  rewrite Hnet. apply best_short_r; [apply Hother|done|done].
  intros tool Hin E. apply Hl2. apply list_elem_of_fmap. by exists tool.
Qed.

Lemma same_element {A} (f : A → Z) l x y :
  NoDup (f <$> l) → x ∈ l → y ∈ l → f x = f y → x = y.
Proof.
  intros Hnd [i Hi]%list_elem_of_lookup [j Hj]%list_elem_of_lookup E.
  assert (i = j) as ->; [|congruence].
  apply (NoDup_lookup (f <$> l) i j (f x)); [done|by rewrite list_lookup_fmap, Hi|].
  by rewrite list_lookup_fmap, Hj, E.
Qed.

(** ** Resolvers *)

Lemma dns_rules_in resolv_conf set_order rules r :
  r ∈ dns_rules resolv_conf set_order rules →
  ∃ t ip, t ∈ set_order (remove_dups ((λ r, nk_tool_id r.1) <$> rules))
    ∧ ip ∈ discover_dns_resolver_ips resolv_conf
    ∧ r = ({| nk_prefixlen := 64; nk_tool_id := t; nk_addr := ip; nk_port := 0; nk_pad := 0 |},
           PERM_ALLOW).
Proof.
  unfold dns_rules, inject_dns_allows. intros (t & Hr & Ht)%list_elem_of_bind.
  apply list_elem_of_fmap in Hr as (ip & -> & Hip). by exists t, ip.
Qed.

(** ** Rules of one tool *)

Lemma compile_net_best first_ipv4 t policy k :
  best k (trie (compile_net_rules first_ipv4 t policy)) =
    match best k (trie (omap (λ s, key ← parse_net_rule first_ipv4 t s; Some (key, PERM_ALLOW))
                             (ad_allow policy))),
          best k (trie (omap (λ s, key ← parse_net_rule first_ipv4 t s; Some (key, PERM_DENY))
                             (ad_deny policy))) with
    | Some (p, v), Some (p', v') => if p' <? p then Some (p, v) else Some (p', v')
    | Some r, None => Some r
    | None, r => r
    end.
Proof. unfold compile_net_rules. by rewrite fmap_app, best_app. Qed.

Lemma parse_digits_range max acc s n :
  0 ≤ acc ≤ max → parse_digits max acc s = Some n → 0 ≤ n ≤ max.
Proof.
  revert acc. induction s as [|b s IH]; intros acc Ha; cbn [parse_digits]; [by intros [= <-]|].
  unfold digit. destruct ((48 <=? b) && (b <=? 57)) eqn:Hb; [|done]. cbn [mbind option_bind].
  destruct (acc * 10 + (b - 48) >? max) eqn:Hm; [done|]. apply IH. lia.
Qed.

Lemma parse_octet_range s n : parse_octet s = Some n → octet n.
Proof.
  unfold parse_octet, octet. intros H.
  assert (parse_digits 255 0 s = Some n) as Hp%parse_digits_range; [|lia..].
  repeat (case_match; try done).
Qed.

Lemma parse_ipv4_range s ip :
  parse_ipv4 s = Some ip →
  ∃ a b c d, octet a ∧ octet b ∧ octet c ∧ octet d ∧ ip = le_decode [a; b; c; d].
Proof.
  unfold parse_ipv4. intros H. destruct (split_on 46 s) as [|w [|x [|y [|z []]]]]; try done.
  repeat match type of H with context [parse_octet ?s] =>
    let E := fresh "E" in destruct (parse_octet s) eqn:E; [|done];
    apply parse_octet_range in E; cbn [mbind option_bind] in H end.
  injection H as <-. do 4 eexists. split_and!; [..|reflexivity]; done.
Qed.

Lemma octets_u32 a b c d :
  octet a → octet b → octet c → octet d → in_u32 (le_decode [a; b; c; d]).
Proof. unfold octet, in_u32. cbn. lia. Qed.

Lemma resolver_ips_range resolv_conf ip :
  ip ∈ discover_dns_resolver_ips resolv_conf → in_u32 ip.
Proof.
  assert (∀ s x, parse_ipv4 s = Some x → in_u32 x) as Hparse.
  { intros s x (a & b & c & d & Ha & Hb & Hc & Hd & ->)%parse_ipv4_range. by apply octets_u32. }
  unfold discover_dns_resolver_ips. cbv zeta.
  match goal with |- context [foldl ?f [] _] => set (of_line := f) end.
  assert (∀ lines acc, Forall in_u32 acc → Forall in_u32 (foldl of_line acc lines)) as Hfold.
  { induction lines as [|l lines IH]; intros acc Hacc; [done|]. cbn [foldl]. apply IH.
    unfold of_line. destruct (strip_prefix _ _) as [rest|]; [|done].
    destruct (parse_ipv4 (trim rest)) as [x|] eqn:E; [|done].
    case_bool_decide; [done|]. apply Forall_app. split; [done|].
    apply Forall_singleton. by apply (Hparse (trim rest)). }
  destruct (match resolv_conf with Some contents => _ | None => _ end) as [|x l] eqn:E; intros Hin.
  - apply list_elem_of_omap in Hin as (s & _ & Hs). by apply (Hparse s).
  - destruct resolv_conf as [s|]; [|done]. specialize (Hfold (split_on 10 s) [] (Forall_nil_2 _)).
    rewrite E in Hfold. by apply (proj1 (Forall_forall _ _) Hfold).
Qed.

(** ** The trie of a deployed policy *)

(** The trie behaves as the kernel documents. *)
Definition lpm_documented (e : Env) : Prop :=
  ∀ entries k, lpm_get e entries NET_KEY_BITS k = longest_match entries NET_KEY_BITS k.

Section deployed.
Context (metadata : str → option (Z * Z)) (first_ipv4 : str → option (list Z))
  (resolv_conf : option str) (set_order : list Z → list Z).
Context (config : IronScopeSection) (c : CompiledPolicy) (σ0 σ : State) (e : Env).
Context (Hd : deployed metadata first_ipv4 resolv_conf set_order config c σ0 σ).
Context (Hmode : cp_mode c = MODE_ENFORCE) (Hlpm : lpm_documented e).
(** The call of a thread that a tool with a network policy accounts for. *)
Context (td : ToolDef) (policy : AllowDeny) (ctx_id : Z) (x : ToolCtx).
Context (Htd : td ∈ cf_tools config) (Hnet : td_net td = Some policy).
Context (Huniq : NoDup ((λ tool, rules_fnv1a_32 (td_name tool)) <$> cf_tools config)).
Context (Hprot : is_protected e σ = true) (Hsub : hook_subject e σ = Attributed ctx_id x).
Context (Hid : tc_tool_id x = rules_fnv1a_32 (td_name td)).
Context (Hflag : has_flag (tc_flags x) TOOL_CTX_FLAG_RESOLVER_ERROR = false).

Let net_rules := rules_of td_net (compile_net_rules first_ipv4) (hashed (cf_tools config)).

Lemma deployed_net : cp_net_rules c = net_rules ++ dns_rules resolv_conf set_order net_rules.
Proof using Hd.
  clear Hmode. destruct Hd as (_ & Hc & _). unfold net_rules.
  unfold compile_with_hashed_tool_ids, compile_with_tool_ids in Hc. cbv zeta in Hc.
  assert (∀ l : list ToolDef, imap (λ (_ : nat) tool, (rules_fnv1a_32 (td_name tool), tool)) l
    = hashed l) as E.
  { intros l. exact (imap_const (λ tool, (rules_fnv1a_32 (td_name tool), tool)) l). }
  rewrite E in Hc. repeat case_match; by simplify_eq/=.
Qed.

Definition endpoint_key (addr port : Z) : ToolNetData :=
  {| nd_tool_id := rules_fnv1a_32 (td_name td); nd_addr := addr; nd_port := port; nd_pad := 0 |}.

(** The rule in force is the best compiled one. *)
Lemma deployed_net_rule addr port :
  net_rule e σ addr port
  = snd <$> best (endpoint_key addr port)
      (trie net_rules ++ trie (dns_rules resolv_conf set_order net_rules)).
Proof using Hd Hlpm Hsub Hid.
  destruct (deployed_lookup _ _ _ _ _ _ _ _ Hd) as (_ & _ & _ & Htrie & Hok).
  unfold net_rule. rewrite Htrie. change 96 with NET_KEY_BITS. rewrite Hlpm.
  rewrite (hook_tool_subject _ _ _ _ Hsub), Hid.
  rewrite longest_match_all by by apply Forall_fmap. by rewrite deployed_net, fmap_app.
Qed.

(** The answer to a connection follows the rule in force. *)
Lemma deployed_connect sa addr port :
  arg e 1 = Some sa → inet_endpoint e sa = Some (addr, port) →
  (run_probe ag_socket_connect e σ).1
  = match net_rule e σ addr port with
    | Some perm => if perm =? PERM_DENY then -1 else 0
    | None => if cp_default_tool_policy c =? DEFAULT_TOOL_DENY then -1 else 0
    end.
Proof using Hd Hmode Hprot Hsub Hid Hflag.
  intros Harg Hep. destruct (deployed_lookup _ _ _ _ _ _ _ _ Hd) as (_ & _ & Hcfg & _).
  rewrite socket_connect_run. unfold socket_connect_answer. rewrite Hprot, Harg. cbn [unwrap_or].
  destruct (sa =? 0) eqn:Hsa.
  { unfold inet_endpoint, field in Hep. by rewrite Hsa in Hep. }
  rewrite Hep. unfold blocks. rewrite Hcfg, Hsub. cbn. rewrite Hmode, Hflag, Hid.
  rewrite (proj2 (Z.eqb_neq _ TOOL_IDLE) (rules_fnv1a_32_nonzero _)).
  by destruct (net_rule e σ addr port).
Qed.

Let t := rules_fnv1a_32 (td_name td).

(** Rules compiled from texts with one permission. *)
Definition texts_rules (perm : Z) (texts : list str) : list (ToolNetKey * Z) :=
  omap (λ s, key ← parse_net_rule first_ipv4 t s; Some (key, perm)) texts.

Lemma texts_rules_in perm texts p d v :
  (p, d, v) ∈ trie (texts_rules perm texts) →
  ∃ s key, s ∈ texts ∧ parse_net_rule first_ipv4 t s = Some key ∧ p = nk_prefixlen key
           ∧ d = (net_entry (key, perm)).1.2 ∧ v = perm.
Proof using.
  intros (r & [= -> -> ->] & (s & Hs & Hr')%list_elem_of_omap)%list_elem_of_fmap.
  destruct (parse_net_rule first_ipv4 t s) as [key|] eqn:E; [|done].
  injection Hr' as <-. by exists s, key.
Qed.

Lemma texts_rules_intro perm texts s key :
  s ∈ texts → parse_net_rule first_ipv4 t s = Some key →
  (nk_prefixlen key, (net_entry (key, perm)).1.2, perm) ∈ trie (texts_rules perm texts).
Proof using.
  intros Hs E. apply list_elem_of_fmap. exists (key, perm). split; [done|].
  apply list_elem_of_omap. exists s. by rewrite E.
Qed.

(** Endpoints that are not resolvers are not touched by the resolver rules. *)
Lemma best_no_resolver addr port :
  in_u32 addr → addr ∉ discover_dns_resolver_ips resolv_conf →
  best (endpoint_key addr port) (trie (dns_rules resolv_conf set_order net_rules)) = None.
Proof using.
  intros Ha Hno. apply best_none. intros r (r' & -> & Hin)%list_elem_of_fmap.
  apply dns_rules_in in Hin as (t' & ip & _ & Hip & ->). cbn.
  match goal with |- ?b = false => destruct b eqn:Hcov; [|done] end.
  apply covers_address in Hcov; [|lia|by apply (resolver_ips_range resolv_conf)|done].
  cbn in Hcov. by subst ip.
Qed.

(** C9: a network that the policy denies to a tool is refused to it, for good.  Once
    the policy is loaded in enforce mode, in every later state a thread of the tool
    that connects to an address whose number has the first [n] bits of [a.b.c.d] is
    answered with -1 when the rule [a.b.c.d/n] is denied, no permission of the tool
    names a longer matching prefix, and the address is not a resolver of the host. *)
Theorem denied_network_is_blocked (a b c' d n a2 b2 c2 d2 sa port : Z) :
  octet a → octet b → octet c' → octet d → octet a2 → octet b2 → octet c2 → octet d2 →
  0 ≤ n ≤ 32 → show_ipv4 a b c' d ++ 47 :: show_dec 2 n ∈ ad_deny policy →
  in_network (ipv4_number a b c' d) n (ipv4_number a2 b2 c2 d2) →
  le_decode [a2; b2; c2; d2] ∉ discover_dns_resolver_ips resolv_conf →
  (∀ s key, s ∈ ad_allow policy →
     parse_net_rule first_ipv4 (rules_fnv1a_32 (td_name td)) s = Some key →
     covers (nk_prefixlen key) (net_entry (key, PERM_ALLOW)).1.2
       (endpoint_key (le_decode [a2; b2; c2; d2]) port) = true →
     nk_prefixlen key ≤ 32 + n) →
  arg e 1 = Some sa → inet_endpoint e sa = Some (le_decode [a2; b2; c2; d2], port) →
  (run_probe ag_socket_connect e σ).1 = -1.
Proof using Hd Hmode Hlpm Htd Hnet Huniq Hprot Hsub Hid Hflag.
  intros Ha Hb Hc' Hd' Ha2 Hb2 Hc2 Hd2 Hn Hdeny Hin Hdns Hallow Harg Hep.
  rewrite (deployed_connect sa _ port Harg Hep).
  assert (∃ p, 32 + n ≤ p ∧ best (endpoint_key (le_decode [a2; b2; c2; d2]) port)
    (trie (compile_net_rules first_ipv4 t policy)) = Some (p, PERM_DENY)) as (p & Hp & Hbest).
  { rewrite compile_net_best.
    pose proof (parse_cidr first_ipv4 t a b c' d n Ha Hb Hc' Hd' Hn) as Hparse.
    destruct (best_longest (endpoint_key (le_decode [a2; b2; c2; d2]) port) _ _ _ _ (texts_rules_intro PERM_DENY _ _ _ Hdeny Hparse))
      as (p & v & Hbd & Hp).
    { apply covers_network; try done. apply rules_fnv1a_32_range. }
    cbn [nk_prefixlen] in Hp. pose proof (best_in _ _ _ _ Hbd) as (dd & Hdd & _).
    apply texts_rules_in in Hdd as (_ & _ & _ & _ & _ & _ & ->).
    exists p. split; [done|]. fold (texts_rules PERM_DENY (ad_deny policy)). rewrite Hbd.
    fold (texts_rules PERM_ALLOW (ad_allow policy)).
    destruct (best _ (trie (texts_rules PERM_ALLOW (ad_allow policy)))) as [[pa va]|] eqn:Hba;
      [|done].
    apply best_in in Hba as (da & Hda & Hcov).
    apply texts_rules_in in Hda as (s & key & Hs & Hkey & -> & -> & ->).
    specialize (Hallow s key Hs Hkey Hcov). destruct (Z.ltb_spec p (nk_prefixlen key)); [lia|done]. }
  rewrite deployed_net_rule, best_app, best_no_resolver by (done || by apply octets_u32).
  pose proof (best_of_tool first_ipv4 _ td policy (endpoint_key (le_decode [a2; b2; c2; d2]) port)
    p PERM_DENY Huniq Htd Hnet eq_refl Hbest) as E.
  fold net_rules in E. by rewrite E by lia.
Qed.

(** A rule of the tool is among all rules, and conversely. *)
Lemma net_rules_tool r :
  r ∈ net_rules ∧ nk_tool_id r.1 = t ↔ r ∈ compile_net_rules first_ipv4 t policy.
Proof using Htd Hnet Huniq.
  split.
  - unfold net_rules, rules_of. intros [(ids & Hin & Hids)%list_elem_of_bind Ht].
    apply list_elem_of_fmap in Hids as (td' & -> & Htd').
    destruct (td_net td') as [policy'|] eqn:Hnet'; [|by apply not_elem_of_nil in Hin].
    pose proof (compile_net_rules_in _ _ _ _ Hin) as Ht'.
    assert (td' = td) as ->.
    { apply (same_element (λ tool, rules_fnv1a_32 (td_name tool)) (cf_tools config)); try done.
      unfold t in Ht. congruence. }
    rewrite Hnet in Hnet'. by injection Hnet' as <-.
  - intros Hin. split; [|by apply compile_net_rules_in in Hin].
    apply list_elem_of_bind. exists (t, td). cbn. rewrite Hnet. split; [done|].
    apply list_elem_of_fmap. by exists td.
Qed.

Lemma best_resolver addr port :
  (∀ l, set_order l ≡ₚ l) →
  (∃ s key, s ∈ ad_allow policy ++ ad_deny policy ∧ parse_net_rule first_ipv4 t s = Some key) →
  in_u32 addr → addr ∈ discover_dns_resolver_ips resolv_conf →
  best (endpoint_key addr port) (trie (dns_rules resolv_conf set_order net_rules))
  = Some (64, PERM_ALLOW).
Proof using Htd Hnet Huniq.
  intros Hperm (s & key & Hs & Hkey) Hu Haddr.
  pose (r := ({| nk_prefixlen := 64; nk_tool_id := t; nk_addr := addr; nk_port := 0;
                 nk_pad := 0 |}, PERM_ALLOW)).
  assert (net_entry r ∈ trie (dns_rules resolv_conf set_order net_rules)) as Hr'.
  { apply list_elem_of_fmap. exists r. split; [done|]. apply list_elem_of_bind. exists t. split.
    - apply list_elem_of_fmap. by exists addr.
    - rewrite (Hperm _), elem_of_remove_dups. apply list_elem_of_fmap.
      assert (∃ v, (key, v) ∈ compile_net_rules first_ipv4 t policy) as [v Hv].
      { unfold compile_net_rules. apply elem_of_app in Hs as [Hs|Hs]; eexists;
          apply elem_of_app; [left|right]; apply list_elem_of_omap; exists s; by rewrite Hkey. }
      exists (key, v). apply net_rules_tool in Hv as [? ?]. done. }
  destruct (best_longest (endpoint_key addr port) _ _ _ _ Hr') as (p & v & Hb & _).
  { apply (covers_addr (net_entry r).1.2 (endpoint_key addr port) (rules_fnv1a_32_range _)
      (rules_fnv1a_32_range _) 32); [lia|done]. }
  rewrite Hb. apply best_in in Hb as (d & Hin & _).
  apply list_elem_of_fmap in Hin as (r' & E & Hin).
  apply dns_rules_in in Hin as (t' & ip & _ & _ & ->). by injection E as -> _ ->.
Qed.

(** The longest match cannot be a denial when no denial is that long. *)
Lemma best_long_allow addr port p v :
  (∀ s key, s ∈ ad_deny policy → parse_net_rule first_ipv4 t s = Some key →
     covers (nk_prefixlen key) (net_entry (key, PERM_DENY)).1.2 (endpoint_key addr port) = true →
     nk_prefixlen key ≤ 64) →
  64 < p → best (endpoint_key addr port) (trie net_rules) = Some (p, v) → v = PERM_ALLOW.
Proof using Htd Hnet Huniq.
  intros Hdeny Hp Hb. apply best_in in Hb as (d & Hin & Hcov).
  apply list_elem_of_fmap in Hin as (r & [= -> -> ->] & Hin).
  assert (r ∈ compile_net_rules first_ipv4 t policy) as Hr'.
  { apply net_rules_tool. split; [done|].
    apply (covers_tool _ (endpoint_key addr port)) in Hcov; [done| |apply rules_fnv1a_32_range|lia].
    apply rules_of_tools in Hin as (tool & _ & ->). apply rules_fnv1a_32_range. }
  unfold compile_net_rules in Hr'. apply elem_of_app in Hr' as [Hr'|Hr'];
    apply list_elem_of_omap in Hr' as (s & Hs & E);
    destruct (parse_net_rule first_ipv4 t s) as [key|] eqn:Ekey; try done; injection E as <-.
  - done.
  - specialize (Hdeny s key Hs Ekey Hcov). cbn in Hp. lia.
Qed.

(** C40: the host's resolvers stay reachable.  A tool whose network policy has any
    rule that compiles may connect to every address of [resolv.conf], whatever
    networks it denies, the resolver's own address included, unless a denied rule
    names the port: the resolver rules are loaded last. *)
Theorem resolver_stays_reachable (sa addr port : Z) :
  (∀ l, set_order l ≡ₚ l) →
  (∃ s key, s ∈ ad_allow policy ++ ad_deny policy
     ∧ parse_net_rule first_ipv4 (rules_fnv1a_32 (td_name td)) s = Some key) →
  in_u32 addr → addr ∈ discover_dns_resolver_ips resolv_conf →
  (∀ s key, s ∈ ad_deny policy →
     parse_net_rule first_ipv4 (rules_fnv1a_32 (td_name td)) s = Some key →
     covers (nk_prefixlen key) (net_entry (key, PERM_DENY)).1.2 (endpoint_key addr port) = true →
     nk_prefixlen key ≤ 64) →
  arg e 1 = Some sa → inet_endpoint e sa = Some (addr, port) →
  (run_probe ag_socket_connect e σ).1 = 0.
Proof using Hd Hmode Hlpm Htd Hnet Huniq Hprot Hsub Hid Hflag.
  intros Hperm Hrule Hu Haddr Hdeny Harg Hep. rewrite (deployed_connect sa _ port Harg Hep).
  rewrite deployed_net_rule, best_app.
  rewrite best_resolver by done.
  destruct (best _ (trie net_rules)) as [[p v]|] eqn:Hb; [|done].
  destruct (Z.ltb_spec 64 p) as [Hp|Hp]; [|done]. cbn.
  rewrite (best_long_allow addr port p v) by done. done.
Qed.
End deployed.

(** ** Instances *)

(** The socket address reads 10.0.0.1:443; the trie is [longest_match]. *)
Definition env_net : Env := sample_env (λ _, Some 64) file_accessor longest_match.

Lemma denied_network_is_blocked_witness :
  (run_probe ag_socket_connect env_net (populate_maps sample_compiled env0 sample_state).2).1 = -1.
Proof.
  apply (denied_network_is_blocked sample_metadata (λ _, None) None (λ l, l) sample_section
    sample_compiled sample_state (populate_maps sample_compiled env0 sample_state).2 env_net
    sample_deployed) with (td := sample_tool)
    (policy := {| ad_allow := []; ad_deny := [lit "10.0.0.0/8"] |}) (ctx_id := 17)
    (x := sample_ctx (rules_fnv1a_32 (lit "t"))) (a := 10) (b := 0) (c' := 0) (d := 0) (n := 8)
    (a2 := 10) (b2 := 0) (c2 := 0) (d2 := 1) (sa := 64) (port := 0xbb01).
  10-17: unfold octet; lia.
  1, 6, 7: vm_compute; reflexivity.
  - done.
  - constructor.
  - done.
  - apply NoDup_singleton.
  - done.
  - done.
  - lia.
  - vm_compute. constructor.
  - vm_compute; reflexivity.
  - vm_compute. intros [?|[?|?%not_elem_of_nil]%elem_of_cons]%elem_of_cons; done.
  - by intros s key ?%not_elem_of_nil.
  - done.
  - done.
Defined.

(** The same policy on a host whose resolver is the denied 10.0.0.1. *)
Definition resolver_conf : option str := Some (lit "nameserver 10.0.0.1").
Definition resolver_compiled : CompiledPolicy :=
  match compile_with_hashed_tool_ids sample_metadata (λ _, None) resolver_conf (λ l, l)
          sample_section with
  | Ok c => c
  | Err _ => sample_compiled
  end.

Lemma resolver_deployed :
  deployed sample_metadata (λ _, None) resolver_conf (λ l, l) sample_section resolver_compiled
    sample_state (populate_maps resolver_compiled env0 sample_state).2.
Proof. apply deployed_now; [done|by vm_compute|by vm_compute]. Qed.

Lemma resolver_stays_reachable_witness :
  (run_probe ag_socket_connect env_net (populate_maps resolver_compiled env0 sample_state).2).1 = 0.
Proof.
  apply (resolver_stays_reachable sample_metadata (λ _, None) resolver_conf (λ l, l) sample_section
    resolver_compiled sample_state (populate_maps resolver_compiled env0 sample_state).2
    env_net resolver_deployed) with (td := sample_tool)
    (policy := {| ad_allow := []; ad_deny := [lit "10.0.0.0/8"] |}) (ctx_id := 17)
    (x := sample_ctx (rules_fnv1a_32 (lit "t"))) (sa := 64) (addr := 0x0100000a) (port := 0xbb01).
  1, 6, 7: vm_compute; reflexivity.
  - done.
  - constructor.
  - done.
  - apply NoDup_singleton.
  - done.
  - done.
  - done.
  - eexists _, _. split; [apply list_elem_of_here|vm_compute; reflexivity].
  - done.
  - vm_compute. constructor.
  - intros s key [->|?%not_elem_of_nil]%elem_of_cons; [|done]. intros E _.
    assert (nk_prefixlen <$> parse_net_rule (λ _, None) (rules_fnv1a_32 (td_name sample_tool))
      (lit "10.0.0.0/8") = Some 40) as H by (vm_compute; reflexivity).
    rewrite E in H. cbn in H. injection H as ->. lia.
  - done.
  - done.
Defined.
