(* ===== verification/Resolver.v ===== *)
(** * The resolver and the kernel side

    User space answers the resolver candidates of the frame programs.  An answer
    makes the cache lookup of the kernel programs succeed for the same object; a
    failure leaves a context that the hooks refuse under the default policy.  The
    answer is written with two system calls, between which the kernel may run. *)

From stdpp Require Import base gmap list strings.
From S2P Require Import Prelude Types Maps Samples Ownership Identity Worker Frames Tasks.
From S2P Require Import Events Lsm Probes Monotone Compiler Runtime Contexts Decision.
From S2P Require Import Enforcement Classify Lpm Session.

(** ** Properties of a context that the hooks keep *)

(** Every context [k] satisfies [P]; reference counting does not touch [P]. *)
Definition ctx_all (k : Z) (P : ToolCtx → Prop) (σ : State) : Prop :=
  ∀ c, tool_ctx σ !! k = Some c → P c.

Definition count_stable (P : ToolCtx → Prop) : Prop :=
  ∀ c n, P c → P (set_carrier_count n c) ∧ P (set_generation n c) ∧ P (set_last_seen n c).

Section ctx_all.
Context (k : Z) (P : ToolCtx → Prop) (HP : count_stable P).

Lemma ctx_all_same {A} (m : M A) :
  (∀ e σ, tool_ctx (m e σ).2 = tool_ctx σ) → Preserves (λ _, True) (ctx_all k P) m.
Proof using. intros Hm e σ _ Hσ c. rewrite Hm. apply Hσ. Qed.

Lemma ctx_all_insert {K V} `{Countable K} (m : bpf_map K V) i v :
  (∀ x σ, tool_ctx (bm_set m x σ) = tool_ctx σ) →
  Preserves (λ _, True) (ctx_all k P) (m_insert m i v).
Proof using.
  intros Hm. apply ctx_all_same. intros e σ. unfold m_insert.
  destruct (update_ok _ _); cbn [snd]; [by rewrite Hm|done].
Qed.

Lemma ctx_all_remove i : Preserves (λ _, True) (ctx_all k P) (m_remove TOOL_CTX i).
Proof using.
  intros e σ _ Hσ c Hc. cbn in Hc. apply lookup_delete_Some in Hc as [_ Hc]. by apply Hσ.
Qed.

Lemma ctx_all_alter f i :
  (∀ c, P c → P (f c)) → Preserves (λ _, True) (ctx_all k P) (m_alter TOOL_CTX f i).
Proof using.
  intros Hf e σ _ Hσ c Hc. cbn in Hc. destruct (decide (i = k)) as [->|Hne].
  - rewrite lookup_alter_eq in Hc. apply fmap_Some in Hc as (c0 & Hc0 & ->). by apply Hf, Hσ.
  - rewrite lookup_alter_ne in Hc by done. by apply Hσ.
Qed.

Ltac ctx_all_prim _ :=
  first [ apply ctx_all_insert; by intros
        | apply ctx_all_remove
        | apply ctx_all_alter; intros; repeat apply HP; done
        | apply ctx_all_same; by intros ].

Lemma walk_ctx_all fuel pid f :
  Preserves (λ _, True) (ctx_all k P) (walk_frame_chain fuel pid f).
Proof using.
  revert f. induction fuel as [|fuel IH]; intros f; cbn [walk_frame_chain];
    follow ctx_all_prim ltac:(fun _ => exact (IH _)).
Qed.

Lemma refresh_ctx_all tid :
  Preserves (λ _, True) (ctx_all k P) (refresh_threadpool_worker_context tid).
Proof using HP. follow ctx_all_prim ltac:(fun _ => apply walk_ctx_all). Qed.

Lemma protected_ctx_all tgid tid :
  Preserves (λ _, True) (ctx_all k P) (is_protected_subject tgid tid).
Proof using. follow ctx_all_prim ltac:(fun _ => fail). Qed.

(** What holds of a context holds of it when a hook looks at it. *)
Lemma hook_subject_all e σ x :
  ctx_all k P σ → hook_subject e σ = Attributed k x → P x.
Proof using HP.
  intros Hσ Hs. unfold hook_subject, subject_of in Hs.
  assert (ctx_all k P (refreshed e σ)) as Hr.
  { unfold refreshed. apply refresh_ctx_all; [done|]. by apply protected_ctx_all. }
  destruct (active_of _ _) as [c|]; [|done]. destruct (tool_ctx _ !! c) as [y|] eqn:E; [|done].
  destruct (c =? 0); [done|]. injection Hs as -> ->. by apply Hr.
Qed.
End ctx_all.

(** ** Failure *)

Lemma mark_resolver_error_flags c :
  has_flag (tc_flags (mark_tool_ctx_resolver_error c)) TOOL_CTX_FLAG_RESOLVER_ERROR = true.
Proof.
  unfold has_flag, mark_tool_ctx_resolver_error. cbn [tc_flags]. apply negb_true_iff, Z.eqb_neq.
  intros H. apply (f_equal (λ z, Z.testbit z 1)) in H. rewrite Z.land_spec, Z.lor_spec in H.
  change (Z.testbit TOOL_CTX_FLAG_RESOLVER_ERROR 1) with true in H.
  rewrite orb_true_r in H. discriminate H.
Qed.

(** Marking a context, by a successful pair of system calls. *)
Lemma mark_map_run ctx_id c e σ :
  reliable e → ctx_id ≠ 0 → tool_ctx σ !! ctx_id = Some c →
  mark_tool_ctx_map_resolver_error ctx_id e σ
  = (Ok true, set_tool_ctx (<[ctx_id := mark_tool_ctx_resolver_error c]> (tool_ctx σ)) (next_tick σ)).
Proof.
  intros He Hne Hc. unfold mark_tool_ctx_map_resolver_error, ctx_read.
  rewrite (proj2 (Z.eqb_neq _ _) Hne). mstep. sproj. rewrite Hc.
  erewrite try_run; last first.
  { unfold ctx_write, u_insert. rewrite (proj1 He), m_insert_reliable by done. reflexivity. }
  done.
Qed.

(** The candidate [ev] cannot be resolved: there is no resolver for the process and
    none can be attached, or the one there is reports an error. *)
Definition unresolvable (detect : Z → option CpythonResolver) (rt : Runtime) (ev : ResolverEvent)
    : Prop :=
  match rt_resolvers rt !! re_pid ev with
  | Some r => is_ok (resolve_candidate r ev) = false
  | None => match detect (re_pid ev) with
            | Some r => is_ok (resolve_candidate r ev) = false
            | None => True
            end
  end.

Lemma failure_run detect rt ev e σ c :
  reliable e → re_kind ev = EVENT_RESOLVER_CANDIDATE → re_ctx_id ev ≠ 0 →
  tool_ctx σ !! re_ctx_id ev = Some c → unresolvable detect rt ev →
  (handle_resolver_event detect ev rt e σ).2
  = set_tool_ctx (<[re_ctx_id ev := mark_tool_ctx_resolver_error c]> (tool_ctx σ)) (next_tick σ)
  ∧ rt_resolver_events (handle_resolver_event detect ev rt e σ).1
    = rt_resolver_events rt ++ [ev; resolver_failed_event ev].
Proof.
  intros He Hk Hne Hc Hu. unfold handle_resolver_event, unresolvable in *. cbv zeta. rewrite Hk.
  change (negb (EVENT_RESOLVER_CANDIDATE =? EVENT_RESOLVER_CANDIDATE)) with false. cbv iota.
  unfold ensure_resolver. cbn [rt_resolvers].
  assert (∀ rt', resolver_failure ev rt' e σ
    = (mkRuntime (rt_py_events rt') (rt_resolver_events rt' ++ [resolver_failed_event ev])
         (rt_guard_events rt') (rt_tool_name_table rt') (rt_resolvers rt'),
       set_tool_ctx (<[re_ctx_id ev := mark_tool_ctx_resolver_error c]> (tool_ctx σ)) (next_tick σ)))
    as Hfail.
  { intros rt'. unfold resolver_failure. erewrite bind_run by by apply mark_map_run. done. }
  destruct (rt_resolvers rt !! re_pid ev) as [r|] eqn:Hr.
  - mstep. cbn [rt_resolvers]. rewrite Hr. destruct (resolve_candidate r ev); [done|].
    rewrite Hfail. cbn. by rewrite <-app_assoc.
  - destruct (detect (re_pid ev)) as [r|].
    + mstep. cbn [rt_resolvers]. rewrite lookup_insert_eq.
      destruct (resolve_candidate r ev); [done|]. rewrite Hfail. cbn. by rewrite <-app_assoc.
    + erewrite bind_run by apply Hfail. cbn [rt_resolvers]. rewrite Hr. cbn.
      by rewrite <-app_assoc.
Qed.

(** Refusal by an enforcing hook, whatever rule matches. *)
Lemma refused_whatever_rule e σ :
  is_protected e σ = true → (∀ perm, blocks σ (hook_subject e σ) perm = true) →
  (∀ f i, arg e 0 = Some f → file_identity e f = Some i → (run_probe ag_file_open e σ).1 = -1)
  ∧ (∀ bprm f i, arg e 0 = Some bprm → field e linux_binprm_file bprm = Some f →
       file_identity e f = Some i → (run_probe ag_bprm_check e σ).1 = -1)
  ∧ (∀ sa i, arg e 1 = Some sa → inet_endpoint e sa = Some i →
       (run_probe ag_socket_connect e σ).1 = -1).
Proof.
  intros Hp Hb. split_and!.
  - intros f [dev ino] Ha Hi. rewrite file_open_run. unfold file_open_answer.
    rewrite Hp, Ha. cbn [unwrap_or]. rewrite Hi, Hb. destruct (f =? 0) eqn:E; [|done].
    unfold file_identity, field in Hi. by rewrite E in Hi.
  - intros bprm f [dev ino] Ha Hf Hi. rewrite bprm_check_run. unfold bprm_check_answer.
    rewrite Hp, Ha. cbn [unwrap_or]. rewrite Hf. cbn [mbind option_bind]. rewrite Hi, Hb.
    destruct (bprm =? 0) eqn:E; [|done]. unfold field in Hf. by rewrite E in Hf.
  - intros sa [addr port] Ha Hi. rewrite socket_connect_run. unfold socket_connect_answer.
    rewrite Hp, Ha. cbn [unwrap_or]. rewrite Hi, Hb. destruct (sa =? 0) eqn:E; [|done].
    unfold inet_endpoint, field in Hi. by rewrite E in Hi.
Qed.

(** C2: a tool that cannot be identified is refused.  When the resolver fails on a
    candidate, and map updates succeed then, the context in flight is marked, keeps its references, and the failure is
    logged.  In the enforcing mode with the default resolver policy, in every state that
    programs and event loop reach from there, as long as the context carries the mark
    (a later successful candidate can take it away), a protected thread that runs in the
    context gets -1 for every file it opens or executes whose inode can be read, and for
    every IPv4 endpoint it connects to, whatever the rules; other families of addresses
    no policy covers. *)
Theorem unresolved_tool_fails_closed detect rt ev e0 σ c cfg :
  reliable e0 → re_kind ev = EVENT_RESOLVER_CANDIDATE → re_ctx_id ev ≠ 0 →
  tool_ctx σ !! re_ctx_id ev = Some c → unresolvable detect rt ev →
  ironscope_config σ !! 0 = Some cfg → ic_mode cfg = MODE_ENFORCE →
  ic_resolver_error_policy cfg = RESOLVER_ERROR_DENY →
  let id := re_ctx_id ev in
  let marked := ctx_all id (λ y, has_flag (tc_flags y) TOOL_CTX_FLAG_RESOLVER_ERROR = true) in
  let σ' := (handle_resolver_event detect ev rt e0 σ).2 in
  tool_ctx σ' !! id = Some (mark_tool_ctx_resolver_error c) ∧ marked σ'
  ∧ tc_carrier_count (mark_tool_ctx_resolver_error c) = tc_carrier_count c
  ∧ rt_resolver_events (handle_resolver_event detect ev rt e0 σ).1
    = rt_resolver_events rt ++ [ev; resolver_failed_event ev]
  ∧ ∀ σ2 e x, reaches σ' σ2 → marked σ2 → is_protected e σ2 = true →
      hook_subject e σ2 = Attributed id x →
      (∀ f i, arg e 0 = Some f → file_identity e f = Some i → (run_probe ag_file_open e σ2).1 = -1)
      ∧ (∀ bprm f i, arg e 0 = Some bprm → field e linux_binprm_file bprm = Some f →
           file_identity e f = Some i → (run_probe ag_bprm_check e σ2).1 = -1)
      ∧ (∀ sa i, arg e 1 = Some sa → inet_endpoint e sa = Some i →
           (run_probe ag_socket_connect e σ2).1 = -1).
Proof.
  intros He Hk Hne Hc Hu Hcfg Hmode Hpol id marked σ'.
  destruct (failure_run detect rt ev e0 σ c He Hk Hne Hc Hu) as [Hσ Hlog].
  fold σ' in Hσ. assert (tool_ctx σ' !! id = Some (mark_tool_ctx_resolver_error c)) as Hctx.
  { rewrite Hσ. apply lookup_insert_eq. }
  split_and!; [done| |done|done|].
  - intros y. rewrite Hctx. intros [= <-]. apply mark_resolver_error_flags.
  - intros σ2 e x Hr Hm Hprot Hsub. apply refused_whatever_rule; [done|].
    intros perm. unfold blocks. destruct (reaches_extends _ _ Hr) as [[= _ _ _ E _ _] _ _ _].
    assert (ironscope_config σ2 !! 0 = Some cfg) as -> by by rewrite E, Hσ.
    rewrite Hsub. cbn. rewrite Hmode, Hpol.
    by rewrite (hook_subject_all id
      (λ c, has_flag (tc_flags c) TOOL_CTX_FLAG_RESOLVER_ERROR = true) ltac:(done) e σ2 x Hm Hsub).
Qed.

(** ** Success *)

Lemma resolve_candidate_id r ev resolved :
  resolve_candidate r ev = Ok resolved → rl_tool_id resolved = rules_fnv1a_32 (rl_name resolved).
Proof.
  assert (∀ obj, resolve_tool r obj = Ok resolved →
    rl_tool_id resolved = rules_fnv1a_32 (rl_name resolved)) as H.
  { intros obj. unfold resolve_tool. intros E. repeat case_match; by simplify_eq/=. }
  unfold resolve_candidate. case_match; [apply H|]. repeat case_match; try done. apply H.
Qed.

(** The resolver that answers [ev]. *)
Definition answers (detect : Z → option CpythonResolver) (rt : Runtime) (ev : ResolverEvent)
    (r : CpythonResolver) : Prop :=
  rt_resolvers rt !! re_pid ev = Some r
  ∨ rt_resolvers rt !! re_pid ev = None ∧ detect (re_pid ev) = Some r.

Lemma resolved_ctx_run ctx_id tool_id rt e σ :
  reliable e → ∃ rt', resolved_ctx ctx_id tool_id rt e σ
    = (rt', if ctx_id =? 0 then σ
            else match tool_ctx σ !! ctx_id with
                 | Some c => set_tool_ctx (<[ctx_id := mark_tool_ctx_resolved tool_id c]> (tool_ctx σ))
                               (next_tick σ)
                 | None => σ
                 end).
Proof.
  intros He. unfold resolved_ctx, ctx_read, ctx_write. destruct (ctx_id =? 0); [by eexists|].
  mstep. sproj. destruct (tool_ctx σ !! ctx_id) as [c|]; [|by eexists].
  erewrite bind_run; last first.
  { unfold u_insert. rewrite (proj1 He), m_insert_reliable by done. reflexivity. }
  by eexists.
Qed.

Lemma success_run detect rt ev r resolved e σ :
  reliable e → re_kind ev = EVENT_RESOLVER_CANDIDATE → answers detect rt ev r →
  resolve_candidate r ev = Ok resolved →
  let σ' := (handle_resolver_event detect ev rt e σ).2 in
  tool_obj σ' = <[{| po_tgid := re_pid ev; po_ptr := re_self_ptr ev |} :=
    {| to_type_ptr := re_type_ptr ev; to_tool_id := rl_tool_id resolved;
       to_name_hash := rl_tool_id resolved; to_generation := 0 |}]> (tool_obj σ)
  ∧ (∀ c, re_ctx_id ev ≠ 0 → tool_ctx σ !! re_ctx_id ev = Some c →
       tool_ctx σ' !! re_ctx_id ev = Some (mark_tool_ctx_resolved (rl_tool_id resolved) c)).
Proof.
  intros He Hk Ha Hres. unfold handle_resolver_event. cbv zeta. rewrite Hk.
  change (negb (EVENT_RESOLVER_CANDIDATE =? EVENT_RESOLVER_CANDIDATE)) with false. cbv iota.
  match goal with |- context [ensure_resolver detect ev ?rt0] =>
    assert (∃ rt1, ensure_resolver detect ev rt0 e σ = (rt1, σ)
                   ∧ rt_resolvers rt1 !! re_pid ev = Some r) as (rt1 & Hrun & Hr) end.
  { unfold ensure_resolver. cbn [rt_resolvers]. destruct Ha as [Hr|[Hn Hd]].
    - rewrite Hr. eexists. split; [reflexivity|done].
    - rewrite Hn, Hd. eexists. split; [reflexivity|]. apply lookup_insert_eq. }
  erewrite bind_run by exact Hrun. rewrite Hr, Hres. unfold resolver_success.
  erewrite bind_run; last first.
  { unfold u_insert. rewrite (proj1 He), m_insert_reliable by done. reflexivity. }
  cbn [snd]. sproj. match goal with |- context [mbind _ _ e ?s] =>
    destruct (resolved_ctx_run (re_ctx_id ev) (rl_tool_id resolved) rt1 e s He) as [rt2 H2] end.
  erewrite bind_run by exact H2. cbn [snd]. sproj.
  destruct (Z.eqb_spec (re_ctx_id ev) 0) as [E|E]; [by rewrite E|].
  destruct (tool_ctx σ !! re_ctx_id ev) as [c|] eqn:Hc; [|done]. sproj. split; [done|].
  intros c' _ [= <-]. apply lookup_insert_eq.
Qed.

Lemma resolved_flags tool_id c :
  has_flag (tc_flags (mark_tool_ctx_resolved tool_id c)) TOOL_CTX_FLAG_RESOLVED = true.
Proof.
  unfold has_flag, mark_tool_ctx_resolved. cbn [tc_flags]. apply negb_true_iff, Z.eqb_neq.
  intros H. apply (f_equal (λ z, Z.testbit z 0)) in H. rewrite Z.land_spec, Z.lor_spec in H.
  change (Z.testbit TOOL_CTX_FLAG_RESOLVED 0) with true in H.
  rewrite orb_true_r in H. discriminate H.
Qed.

Lemma frame_self_pure f e σ : frame_self f e σ = ((frame_self f e σ).1, σ).
Proof. by rewrite (surjective_pairing (frame_self f e σ)) at 1. Qed.
Lemma read_type_ptr_pure p e σ : read_type_ptr p e σ = ((read_type_ptr p e σ).1, σ).
Proof. by rewrite (surjective_pairing (read_type_ptr p e σ)) at 1. Qed.

(** C32: what user space resolves the kernel programs know.  After a candidate has been
    resolved to a tool name, the identifier is the one the policy of that name is filed
    under; a context still in flight carries it; and any frame of the process whose
    [self] is the resolved object, of unchanged type, is recognised as a frame of the
    tool by the cache lookup of the frame programs. *)
Theorem resolved_tool_is_known detect rt ev r resolved e0 σ :
  reliable e0 → re_kind ev = EVENT_RESOLVER_CANDIDATE → answers detect rt ev r →
  resolve_candidate r ev = Ok resolved →
  let σ' := (handle_resolver_event detect ev rt e0 σ).2 in
  rl_tool_id resolved = rules_fnv1a_32 (rl_name resolved)
  ∧ (∀ c, re_ctx_id ev ≠ 0 → tool_ctx σ !! re_ctx_id ev = Some c →
       ∃ c', tool_ctx σ' !! re_ctx_id ev = Some c' ∧ tc_tool_id c' = rl_tool_id resolved
             ∧ has_flag (tc_flags c') TOOL_CTX_FLAG_RESOLVED = true
             ∧ tc_carrier_count c' = tc_carrier_count c)
  ∧ (∀ e frame_ptr, cur_tgid e = re_pid ev →
       (frame_self frame_ptr e σ').1 = Some (re_self_ptr ev) →
       (read_type_ptr (re_self_ptr ev) e σ').1 = re_type_ptr ev → re_type_ptr ev ≠ 0 →
       (cached_frame_self_tool_id frame_ptr e σ').1 = rl_tool_id resolved).
Proof.
  intros He Hk Ha Hres σ'. pose proof (resolve_candidate_id _ _ _ Hres) as Hid.
  destruct (success_run detect rt ev r resolved e0 σ He Hk Ha Hres) as [Hobj Hctx].
  fold σ' in Hobj, Hctx. split; [done|]. split.
  - intros c Hne Hc. eexists. split; [by apply Hctx|]. split_and!; [done| |done].
    apply resolved_flags.
  - intros e frame_ptr Htg Hself Htype Hnz. unfold cached_frame_self_tool_id.
    erewrite bind_run by (rewrite (frame_self_pure frame_ptr e σ'), Hself; reflexivity).
    cbv beta iota. mstep. mstep. sproj. unfold py_object_key. rewrite Hobj, Htg, lookup_insert_eq.
    erewrite bind_run by (rewrite (read_type_ptr_pure (re_self_ptr ev) e σ'), Htype; reflexivity).
    unfold cache_valid. cbn. rewrite Z.eqb_refl, andb_true_r, (proj2 (Z.eqb_neq _ _) Hnz), Hid.
    by rewrite (proj2 (Z.eqb_neq _ 0) (rules_fnv1a_32_nonzero _)).
Qed.

(** ** Interleaving *)

(** The write of an answer undoes what the kernel did since the read.  User space
    reads a context, a kernel program drops a reference, user space writes its copy
    back: the context is the marked copy, with the count it had before the drop; when
    the drop was the last, the context had ended and is live again. *)
Theorem stale_write_undoes_drop ctx_id c eu ek σ :
  reliable eu → tool_ctx σ !! ctx_id = Some c →
  let σ1 := (ctx_read ctx_id eu σ).2 in
  let σ2 := (carrier_dec ctx_id ek σ1).2 in
  let σ3 := (ctx_write ctx_id (mark_tool_ctx_resolver_error c) eu σ2).2 in
  (ctx_read ctx_id eu σ).1 = Some c
  ∧ (tc_carrier_count c ≤ 1 → live σ2 ctx_id = false)
  ∧ tool_ctx σ3 !! ctx_id = Some (mark_tool_ctx_resolver_error c)
  ∧ tc_carrier_count (mark_tool_ctx_resolver_error c) = tc_carrier_count c.
Proof.
  intros He Hc σ1 σ2 σ3. split_and!; [done| | |done].
  - intros Hn. change σ2 with (dropped ek ctx_id σ). unfold live. rewrite dropped_tool_ctx, Hc.
    destruct (Z.gtb_spec (tc_carrier_count c) 1); [lia|done].
  - unfold σ3, ctx_write, u_insert. rewrite (proj1 He), m_insert_reliable by done.
    apply lookup_insert_eq.
Qed.

(** ** Instances *)

(** Process 7 has an object at 2000, of the type at 3000, that is [self] of the frame at
    1000; its attribute [name] is the string [t]. *)
Definition env_frame : Env :=
  {| pid_tgid := 7 * 2 ^ 32 + 9; processor_id := 1; ktime := Z.of_nat;
     update_ok := λ _, true; evicts := λ _ _, false; reserve_ok := λ _, true;
     user_mem := λ a, if (1000 <=? a) && (a <? 1008) then le_bytes 8 2000 !! Z.to_nat (a - 1000)
                      else if (2000 <=? a) && (a <? 2008) then le_bytes 8 3000 !! Z.to_nat (a - 2000)
                      else None;
     reg := λ _, None; arg := λ _, None; shim := λ _ _, None; mount_of := λ v, v;
     kernel_mem := λ _, None; lpm_get := λ _ _ _, None |}.

Definition sample_resolver (name : str) : CpythonResolver :=
  {| cr_read_type_ptr := λ _, Ok 0; cr_read_type_name := λ _, Ok [];
     cr_read_unicode := λ _, Ok name; cr_read_dict_item := λ _ _, Ok None;
     cr_read_attr := λ _ _, Ok (Some 1); cr_read_code_filename := λ _, Ok [];
     cr_read_code_qualname := λ _, Ok [] |}.

Definition sample_candidate : ResolverEvent :=
  {| re_pid := 7; re_tid := 9; re_ts_ns := 1; re_kind := EVENT_RESOLVER_CANDIDATE;
     re_code_kind := CODE_KIND_IGNORE; re_ctx_id := 17; re_self_ptr := 2000; re_type_ptr := 3000;
     re_frame_ptr := 1000; re_code_ptr := 4000 |}.

Definition sample_runtime : Runtime := mkRuntime [] [] [] ∅ ∅.

(** The thread is looked at by another hook before it opens the file. *)
Lemma unresolved_tool_fails_closed_witness :
  (run_probe ag_file_open env_file
     (run_probe ag_socket_connect env0
       (handle_resolver_event (λ _, None) sample_candidate sample_runtime env0
          (state_denied MODE_ENFORCE)).2).2).1 = -1.
Proof.
  destruct (unresolved_tool_fails_closed (λ _, None) sample_runtime sample_candidate env0
    (state_denied MODE_ENFORCE) (sample_ctx 5) (sample_config MODE_ENFORCE))
    as (_ & _ & _ & _ & H); [done..|].
  match goal with |- (run_probe _ _ ?σ).1 = _ => destruct (hook_subject env_file σ) as [|i x] eqn:E;
    [vm_compute in E; discriminate E|];
    destruct (H σ env_file x) as (H1 & _);
    [by exists (λ _, None), 0, [Runs ag_socket_connect env0]| |vm_compute; reflexivity
    |rewrite E; f_equal; vm_compute in E |- *; congruence|] end.
  - intros y Hy. vm_compute in Hy. injection Hy as <-. vm_compute. reflexivity.
  - apply (H1 64 (1, 500)); vm_compute; reflexivity.
Defined.

Lemma resolved_tool_is_known_witness :
  (cached_frame_self_tool_id 1000 env_frame
     (handle_resolver_event (λ _, Some (sample_resolver (lit "t"))) sample_candidate sample_runtime
        env0 (state_denied MODE_ENFORCE)).2).1 = rules_fnv1a_32 (lit "t").
Proof.
  destruct (resolved_tool_is_known (λ _, Some (sample_resolver (lit "t"))) sample_runtime
    sample_candidate (sample_resolver (lit "t"))
    {| rl_name := lit "t"; rl_tool_id := rules_fnv1a_32 (lit "t") |} env0
    (state_denied MODE_ENFORCE)) as (_ & _ & H);
    [done|done|by right|vm_compute; reflexivity|].
  by apply (H env_frame 1000); vm_compute.
Defined.

Lemma stale_write_undoes_drop_witness :
  tool_ctx (ctx_write 17 (mark_tool_ctx_resolver_error (sample_ctx 5)) env0
    (carrier_dec 17 env0 (state_denied MODE_ENFORCE)).2).2 !! 17
  = Some (mark_tool_ctx_resolver_error (sample_ctx 5)).
Proof.
  by apply (stale_write_undoes_drop 17 (sample_ctx 5) env0 env0 (state_denied MODE_ENFORCE)).
Defined.
