(* ===== verification/Fork.v ===== *)
(** * Children of a tool ([fork_probes.rs])

    A thread or process that a tool starts runs in the tool's context from its first
    instruction. *)

From stdpp Require Import base gmap list.
From S2P Require Import Prelude Types Maps Samples Ownership Identity Worker Frames Tasks.
From S2P Require Import Events Lsm Probes Monotone Contexts Decision.

(** The active context of the parent is handed down unless it belongs to a coroutine
    and the thread runs no work item. *)
Definition hands_down (σ : State) (tid ctx_id : Z) : Prop :=
  active_of σ tid = Some ctx_id
  ∧ (has_flag (unwrap_or (tc_flags <$> tool_ctx σ !! ctx_id) 0) TOOL_CTX_FLAG_ASYNC_FRAME = false
     ∨ unwrap_or (worker_run_depth σ !! tid) 0 ≠ 0).

Lemma prune_active_live σ tid ctx_id : active_of σ tid = Some ctx_id → prune_active tid σ = σ.
Proof.
  unfold active_of, prune_active. destruct (thread_active_ctx σ !! tid) as [c|]; [|done].
  by destruct (live σ c).
Qed.

Lemma fork_inherited_run tgid tid ctx_id e σ :
  hands_down σ tid ctx_id → fork_inherited_ctx tgid tid e σ = (Some ctx_id, σ).
Proof.
  intros [Ha Hf]. unfold fork_inherited_ctx. mstep. rewrite (prune_active_live _ _ _ Ha), Ha.
  erewrite bind_run by (mstep; mstep; sproj; apply ret_run).
  destruct (has_flag _ _), (Z.eqb_spec (unwrap_or (worker_run_depth σ !! tid) 0) 0); try done.
  by destruct Hf.
Qed.

(** The child's entries after the tracepoint. *)
Lemma fork_bind_child_facts ctx_id child_tid child_tgid e σ c :
  reliable e → tool_ctx σ !! ctx_id = Some c → child_tgid ≠ 0 →
  let σ' := (fork_bind_child (Some ctx_id) child_tid child_tgid e σ).2 in
  protected_tgids σ' = <[child_tgid := 1]> (protected_tgids σ)
  ∧ thread_active_ctx σ' = <[child_tid := ctx_id]> (thread_active_ctx σ)
  ∧ fork_ctx σ' = <[child_tid := ctx_id]> (fork_ctx σ)
  ∧ tool_ctx σ' = <[ctx_id := set_carrier_count (u32 (tc_carrier_count c + 1)) c]> (tool_ctx σ).
Proof.
  intros He Hc Hg. unfold fork_bind_child. rewrite (proj2 (Z.eqb_neq _ _) Hg). cbn [negb].
  erewrite bind_run by (rewrite when_run; by apply m_insert_reliable).
  mstep. mstep. mstep. mstep. rewrite emit_py_event_fork_run. cbn [snd]. unfold logged. sproj.
  split_and!; try done. exact (alter_insert_eq _ _ _ _ Hc).
Qed.

(** C15: a child of a tool is bound to the tool before it runs.  When a thread forks whose
    live active context is handed down (that of a coroutine frame is so only inside the
    run of a worker), the child's identifiers can be read and map updates succeed, then
    after the tracepoint the child's process is protected, the child is attributed to the
    parent's context, the context counts the child as a carrier, and all other contexts
    are as before. *)
Theorem fork_child_attributed e σ ctx_id c child pid tgid :
  reliable e → hands_down σ (cur_tid e) ctx_id → tool_ctx σ !! ctx_id = Some c → ctx_id ≠ 0 →
  arg e 1 = Some child → field e task_struct_pid child = Some pid → u32 pid ≠ 0 →
  field e task_struct_tgid child = Some tgid → u32 tgid ≠ 0 →
  let σ' := (run_probe sched_process_fork e σ).2 in
  let c' := set_carrier_count (u32 (tc_carrier_count c + 1)) c in
  (run_probe sched_process_fork e σ).1 = 0
  ∧ protected_tgids σ' !! u32 tgid = Some 1
  ∧ subject_of σ' (u32 pid) = Attributed ctx_id c'
  ∧ fork_ctx σ' !! u32 pid = Some ctx_id
  ∧ (∀ k, k ≠ ctx_id → tool_ctx σ' !! k = tool_ctx σ !! k).
Proof.
  intros He Hh Hc Hne Harg Hpid Hp0 Htg Ht0.
  assert ((child =? 0) = false) as Hch.
  { unfold field in Hpid. by destruct (child =? 0). }
  assert (run_probe sched_process_fork e σ
    = (0, (fork_bind_child (Some ctx_id) (u32 pid) (u32 tgid) e σ).2)) as Hrun.
  { cbn [run_probe]. unfold or_zero.
    erewrite (bind_run _ _ _ _ _ _ (Ok 0)); [reflexivity|]. unfold handle_sched_fork. mstep. mstep. mstep.
    erewrite bind_run by by apply fork_inherited_run. mstep. cbn [negb andb].
    change (bool_decide (Some ctx_id = None)) with false. cbn [negb andb]. mstep. rewrite Harg.
    cbn [unwrap_or]. rewrite Hch. mstep. unfold field in Hpid, Htg. rewrite Hch in Hpid, Htg.
    rewrite Hch, Hpid. cbv beta iota. rewrite (proj2 (Z.eqb_neq _ _) Hp0). mstep. rewrite Hch, Htg.
    erewrite bind_run by apply surjective_pairing. reflexivity. }
  rewrite Hrun. cbn [fst snd].
  destruct (fork_bind_child_facts ctx_id (u32 pid) (u32 tgid) e σ c He Hc Ht0) as (H1 & H2 & H3 & H4).
  split_and!; [done|by rewrite H1, lookup_insert_eq| |by rewrite H3, lookup_insert_eq|].
  - unfold subject_of, active_of, live. rewrite H2, lookup_insert_eq, H4, lookup_insert_eq.
    rewrite bool_decide_eq_true_2 by done. rewrite lookup_insert_eq.
    by rewrite (proj2 (Z.eqb_neq _ _) Hne).
  - intros k Hk. by rewrite H4, lookup_insert_ne.
Qed.

(** A child process 70 with the thread 71. *)
Definition env_fork : Env :=
  sample_env (λ _, Some 64)
    (λ f _, match f with task_struct_pid => Some 71 | task_struct_tgid => Some 70 | _ => None end)
    (λ _ _ _, None).

Lemma fork_child_attributed_witness :
  subject_of (run_probe sched_process_fork env_fork (state_denied MODE_ENFORCE)).2 71
  = Attributed 17 (set_carrier_count 2 (sample_ctx 5)).
Proof.
  by apply (fork_child_attributed env_fork (state_denied MODE_ENFORCE) 17 (sample_ctx 5) 64 71 70);
    try (split; [done|by left]).
Defined.
