(* ===== verification/WorkerFlow.v ===== *)
(** * The way of a context to a worker thread ([worker_probes.rs])

    A work item or a [threading.Thread] object takes the context of the thread that
    creates it; the thread that runs it is attributed to this context from the entry of
    [run] to its exit, and gets back what it had before. *)

From stdpp Require Import base gmap list.
From S2P Require Import Prelude Types Maps Samples Ownership Identity Worker Frames Tasks.
From S2P Require Import Events Lsm Probes Monotone Contexts Stacks ToolStack Decision Fork.

(** The two kinds of object: the kind of its constructor and of its [run]. *)
Definition carrier_kinds (ctor run : Z) : Prop :=
  ctor = CODE_KIND_WORKITEM_CTOR ∧ run = CODE_KIND_WORKITEM_RUN
  ∨ ctor = CODE_KIND_THREAD_CTOR ∧ run = CODE_KIND_THREAD_RUN.

(** The map that holds the contexts of these objects. *)
Definition carriers (run : Z) (σ : State) : gmap PyObjectKey Z :=
  if run =? CODE_KIND_WORKITEM_RUN then workitem_ctx σ else pythread_obj_ctx σ.

Definition set_carriers (run : Z) (m : gmap PyObjectKey Z) (σ : State) : State :=
  if run =? CODE_KIND_WORKITEM_RUN then set_workitem_ctx m σ else set_pythread_obj_ctx m σ.

Lemma read_self_run f e σ :
  read_self_from_frame f e σ = ((read_self_from_frame f e σ).1, σ).
Proof. by rewrite (surjective_pairing (read_self_from_frame f e σ)) at 1. Qed.
Lemma read_parent_run f e σ : read_parent_ptr f e σ = ((read_parent_ptr f e σ).1, σ).
Proof. by rewrite (surjective_pairing (read_parent_ptr f e σ)) at 1. Qed.
#[local] Hint Resolve read_self_run read_parent_run : mrun.

Lemma subject_attributed σ tid c x :
  thread_active_ctx σ !! tid = Some c → tool_ctx σ !! c = Some x → c ≠ 0 →
  subject_of σ tid = Attributed c x.
Proof.
  intros Ha Hx Hc. unfold subject_of, active_of, live. rewrite Ha, Hx, bool_decide_eq_true_2 by done.
  by rewrite Hx, (proj2 (Z.eqb_neq _ _) Hc).
Qed.

(** ** The constructor *)

(** The thread is inside a tool or a worker. *)
Definition inside (σ : State) (tid : Z) : Prop :=
  unwrap_or (thread_ctx_depth σ !! tid) 0 ≠ 0 ∨ unwrap_or (worker_run_depth σ !! tid) 0 ≠ 0.

(** The search for a tool whose close is deferred only reads. *)
Lemma deferred_run task e σ :
  deferred_tool_ctx_for_worker task e σ = ((deferred_tool_ctx_for_worker task e σ).1, σ).
Proof.
  rewrite (surjective_pairing (deferred_tool_ctx_for_worker _ _ _)) at 1. f_equal.
  unfold deferred_tool_ctx_for_worker. generalize 8%nat as fuel, 0 as i.
  induction fuel as [|fuel IH]; intros i; cbn [scan]; [done|].
  destruct (i >=? MAX_TASK_CTX_STACK_DEPTH); [done|].
  set (k := task_stack_key e task (MAX_TASK_CTX_STACK_DEPTH - 1 - i)).
  erewrite bind_run; last first.
  { mstep. mstep. sproj. fold k. instantiate (1 := σ).
    instantiate (1 := match pending_tool_close σ !! k with
                      | Some en => if live σ (se_ctx_id en) then Some (se_ctx_id en) else None
                      | None => None end).
    destruct (pending_tool_close σ !! k) as [en|]; [|done]. mstep. done. }
  destruct (pending_tool_close σ !! k) as [en|]; [destruct (live _ _)|]; [done|apply IH..].
Qed.

(** The constructor finds no tool that waits for a worker. *)
Lemma ctor_deferred_run tid kind e σ :
  ctor_deferred_ctx tid kind e σ = ((ctor_deferred_ctx tid kind e σ).1, σ).
Proof.
  rewrite (surjective_pairing (ctor_deferred_ctx tid kind e σ)) at 1. f_equal.
  unfold ctor_deferred_ctx. destruct (kind =? _); [|done]. mstep. sproj.
  destruct (thread_active_task σ !! tid) as [t|]; [|done]. destruct (t =? 0); [done|].
  by erewrite bind_run by apply deferred_run.
Qed.

Lemma ctor_bind_facts tid ctor run c obj e σ x :
  reliable e → carrier_kinds ctor run → tool_ctx σ !! c = Some x →
  let key := py_object_key e obj in
  let σ' := (ctor_bind tid ctor c 0 obj key e σ).2 in
  carriers run σ' = <[key := c]> (carriers run σ)
  ∧ tool_ctx σ' = <[c := set_carrier_count (u32 (tc_carrier_count x + 1)) x]> (tool_ctx σ)
  ∧ thread_active_ctx σ' = thread_active_ctx σ.
Proof.
  intros He Hk Hx. unfold ctor_bind. cbn [Z.eqb negb when]. rewrite andb_false_r. cbn [when].
  destruct Hk as [[-> ->]|[-> ->]]; cbn; mrun; cbn [snd]; unfold logged; sproj;
    (split_and!; [done| |done]); by rewrite (alter_insert_eq _ _ _ x).
Qed.

(** The object takes the active context of the thread that creates it, and a reference
    on it. *)
Lemma ctor_run tid f ctor run c x obj e σ :
  reliable e → carrier_kinds ctor run → active_of σ tid = Some c → tool_ctx σ !! c = Some x →
  inside σ tid → c ≠ 0 →
  (ctor_deferred_ctx tid ctor e σ).1 = None →
  (read_self_from_frame f e σ).1 = Some obj → carriers run σ !! py_object_key e obj = None →
  handle_ctor_entry tid f ctor e σ = ctor_bind tid ctor c 0 obj (py_object_key e obj) e σ.
Proof.
  intros He Hk Ha Hx Hin Hc Hd Hself Hnew. unfold handle_ctor_entry.
  erewrite bind_run by apply ctor_deferred_run. rewrite Hd. cbn [unwrap_or Z.eqb]. mstep.
  rewrite Ha, (prune_active_live _ _ _ Ha). cbv beta iota. mstep. mstep. sproj.
  match goal with |- context [if ?b then mret tt else _] => assert (b = false) as -> end.
  { destruct Hin as [H|H]; rewrite (proj2 (Z.eqb_neq _ _) H); [done|]. by rewrite andb_false_r. }
  mstep. rewrite Hself. mstep. mstep.
  assert (bm_get (ctor_carrier_map ctor) σ !! py_object_key e obj = None) as ->; [|done].
  destruct Hk as [[-> ->]|[-> ->]]; exact Hnew.
Qed.

(** ** The run *)

Definition run_entry (kind f parent obj prev : Z) : WorkerRunEntry :=
  {| wr_kind := kind; wr_frame_ptr := f; wr_parent_ptr := parent; wr_self_obj := obj;
     wr_prev_ctx := prev |}.

Lemma worker_peek_run σ tid l e :
  worker_runs σ tid l → worker_stack_peek tid e σ = (last l, σ).
Proof.
  intros (Hst & Hd & Hb). unfold worker_stack_peek. mstep. sproj. rewrite Hd.
  destruct (depth_of l) as [d|] eqn:E; [|by apply depth_of_None in E as ->].
  apply depth_of_Some in E as [-> Hpos]. destruct (Z.eqb_spec (Z.of_nat (length l)) 0); [lia|].
  unfold m_get. sproj. rewrite (stack_at_lookup _ _ _ l) by (done || lia). f_equal.
  rewrite last_lookup. f_equal. lia.
Qed.

(** What the binding of a run does: the entry is pushed, the context is active, the
    object is known to run here; contexts are left alone. *)
Record run_bound (tid c : Z) (key : PyObjectKey) (kind : Z) (l : list WorkerRunEntry) (σ σ' : State)
    : Prop := {
  rb_runs : worker_runs σ' tid l;
  rb_active : thread_active_ctx σ' = <[tid := c]> (thread_active_ctx σ);
  rb_carrier : worker_run_carrier σ' = <[key := tid]> (worker_run_carrier σ);
  rb_ctx : tool_ctx σ' = tool_ctx σ;
  rb_carriers : carriers kind σ' = carriers kind σ
}.

Lemma run_bind_facts tid f kind obj c prev key e σ l :
  reliable e → in_u32 tid → worker_runs σ tid l → (length l < 64)%nat →
  run_bound tid c key kind (l ++ [run_entry kind f (read_parent_ptr f e σ).1 obj prev]) σ
    (run_bind tid f kind obj c prev key e σ).2.
Proof.
  intros He Ht Hl Hlt. unfold run_bind. mstep.
  match goal with |- context [worker_stack_push tid ?en] =>
    destruct (worker_stack_push_spec tid en e σ l) as (σ1 & Hrun & stk & dep & t & -> & Hch);
    [done..|] end.
  erewrite bind_run by exact Hrun. rewrite (proj2 (Nat.ltb_lt _ _) Hlt) in Hch.
  mstep. destruct (kind =? CODE_KIND_THREAD_RUN); cbn [when]; mrun;
    rewrite m_insert_reliable by done; cbn [snd]; unfold logged; sproj;
    (constructor; [apply Hch|done|done|done|unfold carriers; by destruct (kind =? _)]).
Qed.

Lemma prune_facts tid σ :
  tool_ctx (prune_active tid σ) = tool_ctx σ
  ∧ (∀ l, worker_runs σ tid l → worker_runs (prune_active tid σ) tid l)
  ∧ fork_ctx (prune_active tid σ) = fork_ctx σ
  ∧ worker_run_carrier (prune_active tid σ) = worker_run_carrier σ
  ∧ (∀ kind, carriers kind (prune_active tid σ) = carriers kind σ)
  ∧ (∀ t, t ≠ tid → thread_active_ctx (prune_active tid σ) !! t = thread_active_ctx σ !! t).
Proof.
  unfold prune_active. destruct (thread_active_ctx σ !! tid) as [c|]; [|done].
  destruct (live σ c); [done|]. split_and!; try done. intros t Ht. sproj. by apply lookup_delete_ne.
Qed.

(** The thread was forked for this object: it holds a reference of its own, which the
    reference of the object replaces. *)
Definition forked_for (σ : State) (tid c : Z) : bool := bool_decide (fork_ctx σ !! tid = Some c).

(** The context that the exit restores. *)
Definition run_prev (σ : State) (tid c : Z) : Z :=
  if forked_for σ tid c then 0 else unwrap_or (active_of σ tid) 0.

(** The state in which the run is bound. *)
Definition run_ready (e : Env) (tid c : Z) (σ : State) : State :=
  let σ1 := prune_active tid σ in
  if forked_for σ tid c then dropped e c (set_fork_ctx (delete tid (fork_ctx σ1)) σ1) else σ1.

Definition same_run (kind f obj : Z) (en : option WorkerRunEntry) : bool :=
  match en with
  | Some en => (wr_kind en =? kind) && (wr_frame_ptr en =? f) && (wr_self_obj en =? obj)
  | None => false
  end.

Lemma run_ready_facts e tid c σ :
  (∀ l, worker_runs σ tid l → worker_runs (run_ready e tid c σ) tid l)
  ∧ worker_run_carrier (run_ready e tid c σ) = worker_run_carrier σ
  ∧ (∀ kind, carriers kind (run_ready e tid c σ) = carriers kind σ)
  ∧ (∀ t, t ≠ tid → thread_active_ctx (run_ready e tid c σ) !! t = thread_active_ctx σ !! t)
  ∧ tool_ctx (run_ready e tid c σ) !! c
    = if forked_for σ tid c
      then match tool_ctx σ !! c with
           | Some x => if tc_carrier_count x >? 1 then Some (dec_ctx x) else None
           | None => None
           end
      else tool_ctx σ !! c.
Proof.
  destruct (prune_facts tid σ) as (H1 & H2 & H3 & H4 & H5 & H6). unfold run_ready.
  destruct (forked_for σ tid c); [|by rewrite H1].
  match goal with |- context [dropped e c ?s] =>
    pose proof (dropped_tool_ctx e c s) as Hd;
    destruct (dropped_shape e c s) as (cs & evs & t & E & _) end.
  rewrite Hd. clear Hd. rewrite E. sproj. rewrite H1.
  split_and!; [intros l Hl; by apply H2| done|exact H5|exact H6|done].
Qed.

Lemma run_entry_run tid f kind obj c l e σ :
  reliable e → in_u32 tid →
  (read_self_from_frame f e σ).1 = Some obj → carriers kind σ !! py_object_key e obj = Some c →
  worker_runs σ tid l → same_run kind f obj (last l) = false →
  handle_run_entry tid f kind e σ
  = run_bind tid f kind obj c (run_prev σ tid c) (py_object_key e obj) e (run_ready e tid c σ).
Proof.
  intros He Ht Hself Hc Hl Hsame. unfold handle_run_entry. mstep. rewrite Hself. mstep. mstep.
  assert (bm_get (run_carrier_map kind) σ !! py_object_key e obj = Some c) as ->.
  { unfold run_carrier_map, carriers in *. by destruct (kind =? CODE_KIND_WORKITEM_RUN). }
  mstep. mstep. sproj. destruct (prune_facts tid σ) as (_ & Hp & Hf & _).
  destruct (run_ready_facts e tid c σ) as (Hr & _). rewrite Hf. unfold run_prev.
  unfold forked_for in *. unfold run_ready, forked_for in Hr |- *. cbv zeta in *.
  destruct (bool_decide (fork_ctx σ !! tid = Some c)).
  - erewrite bind_run; last first.
    { mrun. reflexivity. }
    erewrite bind_run by (apply worker_peek_run, Hr, Hl). cbv beta iota.
    unfold same_run in Hsame. by rewrite Hsame.
  - mstep. erewrite bind_run by (apply worker_peek_run, Hp, Hl). cbv beta iota.
    unfold same_run in Hsame. by rewrite Hsame.
Qed.

(** The state after the entry of a run. *)
Lemma run_entry_facts tid f kind obj c l e σ :
  reliable e → in_u32 tid →
  (read_self_from_frame f e σ).1 = Some obj → carriers kind σ !! py_object_key e obj = Some c →
  worker_runs σ tid l → (length l < 64)%nat → same_run kind f obj (last l) = false →
  run_bound tid c (py_object_key e obj) kind
    (l ++ [run_entry kind f (read_parent_ptr f e (run_ready e tid c σ)).1 obj (run_prev σ tid c)])
    (run_ready e tid c σ) (handle_run_entry tid f kind e σ).2.
Proof.
  intros He Ht Hself Hc Hl Hlt Hsame. rewrite (run_entry_run _ _ _ obj c l) by done.
  apply run_bind_facts; [done|done| |done]. by apply run_ready_facts.
Qed.

(** C3: the thread that runs a work item or a [threading.Thread] works for the tool
    that created it.  When an object that carries no context yet is constructed
    on a thread that has a context on its stack or runs a worker (a thread that only holds
    the context it was forked with gives nothing away), and no tool of its asyncio task
    waits for a worker, the object takes the active context of the thread and a reference
    on it, provided map updates succeed.  When then a thread of
    the process with room for the run enters [run] (and not again the run on top of its
    stack), in any later state in which the
    object still carries the context and the context is alive (with another reference
    besides the one of the thread, if it was forked with the context), the thread is
    attributed to this context with the tool it then has, whatever it did before, and
    no other thread changes. *)
Theorem worker_inherits ctor run tid1 f1 e1 σ c x obj tid2 f2 e2 σ' x' l :
  reliable e1 → reliable e2 → carrier_kinds ctor run → cur_tgid e2 = cur_tgid e1 →
  active_of σ tid1 = Some c → tool_ctx σ !! c = Some x → inside σ tid1 → c ≠ 0 →
  (ctor_deferred_ctx tid1 ctor e1 σ).1 = None →
  (read_self_from_frame f1 e1 σ).1 = Some obj → carriers run σ !! py_object_key e1 obj = None →
  let σ1 := (handle_ctor_entry tid1 f1 ctor e1 σ).2 in
  carriers run σ' !! py_object_key e1 obj = carriers run σ1 !! py_object_key e1 obj →
  tool_ctx σ' !! c = Some x' → (forked_for σ' tid2 c = true → 1 < tc_carrier_count x') →
  in_u32 tid2 → worker_runs σ' tid2 l → (length l < 64)%nat →
  (read_self_from_frame f2 e2 σ').1 = Some obj → same_run run f2 obj (last l) = false →
  let σ2 := (handle_run_entry tid2 f2 run e2 σ').2 in
  tool_ctx σ1 !! c = Some (set_carrier_count (u32 (tc_carrier_count x + 1)) x)
  ∧ (∃ x2, subject_of σ2 tid2 = Attributed c x2 ∧ tc_tool_id x2 = tc_tool_id x'
           ∧ tc_flags x2 = tc_flags x')
  ∧ (∀ t, t ≠ tid2 → thread_active_ctx σ2 !! t = thread_active_ctx σ' !! t).
Proof.
  intros He1 He2 Hk Hg Ha Hx Hin Hc Hd Hself1 Hnew σ1 Hcar Hx' Hfork Ht Hl Hlt Hself2 Hsame σ2.
  assert (py_object_key e2 obj = py_object_key e1 obj) as Hkey.
  { unfold py_object_key. by rewrite Hg. }
  destruct (ctor_bind_facts tid1 ctor run c obj e1 σ x) as (B1 & B2 & _); [done..|].
  unfold σ1 in *. rewrite (ctor_run _ _ _ run c x obj) in * by done.
  rewrite B1, lookup_insert_eq in Hcar. rewrite <-Hkey in Hcar.
  destruct (run_entry_facts tid2 f2 run obj c l e2 σ') as [_ Hact _ Hctx _]; [done..|].
  destruct (run_ready_facts e2 tid2 c σ') as (_ & _ & _ & Hoth & Hrc). fold σ2 in Hact, Hctx.
  split; [by rewrite B2, lookup_insert_eq|]. split.
  - assert (∃ x2, tool_ctx σ2 !! c = Some x2 ∧ tc_tool_id x2 = tc_tool_id x'
      ∧ tc_flags x2 = tc_flags x') as (x2 & E2 & Hid & Hfl).
    { rewrite Hctx, Hrc, Hx'. destruct (forked_for σ' tid2 c); [|by exists x'].
      specialize (Hfork eq_refl). destruct (Z.gtb_spec (tc_carrier_count x') 1); [|lia].
      by exists (dec_ctx x'). }
    exists x2. split; [|done]. apply subject_attributed; [|done|done].
    by rewrite Hact, lookup_insert_eq.
  - intros t Hne. rewrite Hact, lookup_insert_ne by done. by apply Hoth.
Qed.

(** ** The exit *)

Lemma worker_pop_top (p : WorkerRunEntry → bool) tid en e σ l :
  reliable e → in_u32 tid → worker_runs σ tid (l ++ [en]) → p en = true →
  ∃ σ', worker_stack_remove_near_top p tid e σ = (Some en, σ') ∧ worker_changes σ tid l σ'.
Proof.
  intros He Ht Hts Hp. pose proof Hts as (Hst & Hd & Hb). unfold worker_stack_remove_near_top.
  mstep. sproj. rewrite Hd, depth_of_snoc. rewrite length_app in Hb. cbn in Hb.
  destruct (Z.eqb_spec (Z.of_nat (length l) + 1) 0); [lia|]. mstep. sproj.
  rewrite (stack_at_lookup _ _ _ (l ++ [en])) by (done || lia).
  replace (Z.to_nat (Z.of_nat (length l) + 1 - 1)) with (length l) by lia.
  rewrite list_lookup_middle by done. rewrite Hp.
  destruct (worker_stack_remove_at_spec tid (length l) e σ (l ++ [en])) as (σ' & Hrun & Hch);
    [done|done|done|rewrite length_app; cbn; lia|].
  rewrite list_lookup_middle, length_app in Hrun by done. cbn [length] in Hrun.
  replace (Z.of_nat (length l) + 1 - 1) with (Z.of_nat (length l)) by lia.
  replace (Z.of_nat (length l + 1)) with (Z.of_nat (length l) + 1) in Hrun by lia.
  exists σ'. split; [done|]. by rewrite delete_middle, app_nil_r in Hch.
Qed.

Lemma unit_run (m : M unit) e σ : m e σ = (tt, (m e σ).2).
Proof. by destruct (m e σ) as [[] ?]. Qed.

(** The end of a carrier. *)
Definition exit_carrier (kind obj c : Z) (e : Env) (σ : State) : State :=
  let key := py_object_key e obj in
  ((tool_id ← ctx_tool_id c;
    emit_py_event_carrier EVENT_WORKER_UNBIND c tool_id obj;;
    m_remove WORKER_RUN_CARRIER key;;
    emit_py_event_carrier EVENT_WORKER_CARRIER_UNBIND c tool_id obj;;
    when (kind =? CODE_KIND_THREAD_RUN) (m_remove PYTHREAD_OBJ_THREAD key);;
    m_remove (run_carrier_map kind) key;;
    ctx_carrier_dec c) e σ).2.

Lemma exit_carrier_facts kind obj c x e σ :
  tool_ctx σ !! c = Some x →
  let σ' := exit_carrier kind obj c e σ in
  (∀ tid l, worker_runs σ tid l → worker_runs σ' tid l)
  ∧ thread_active_ctx σ' = thread_active_ctx σ
  ∧ carriers kind σ' = delete (py_object_key e obj) (carriers kind σ)
  ∧ worker_run_carrier σ' = delete (py_object_key e obj) (worker_run_carrier σ)
  ∧ tool_ctx σ' !! c = (if tc_carrier_count x >? 1 then Some (dec_ctx x) else None)
  ∧ (∀ k, k ≠ c → tool_ctx σ' !! k = tool_ctx σ !! k).
Proof.
  intros Hx. unfold exit_carrier. cbv zeta. unfold run_carrier_map, carriers.
  destruct (kind =? CODE_KIND_THREAD_RUN), (kind =? CODE_KIND_WORKITEM_RUN); cbn [when]; mrun;
    rewrite dropped_run; cbn [snd];
    match goal with |- context [dropped e c ?s] =>
      pose proof (dropped_tool_ctx e c s) as Hd;
      destruct (dropped_shape e c s) as (cs & evs & t & E & Ho) end;
    rewrite Hd; clear Hd; rewrite E; unfold logged in *; sproj; sproj_in Ho; rewrite Hx;
    (split_and!; [by intros|done|done|done|done|exact Ho]).
Qed.

(** C16: the run of a worker is a bracket.  Take the entry of a run on a thread with room
    for it, in a frame that has a caller, and any later state, whatever happened
    meanwhile, in which the thread's stack of runs is as the entry left it and the object
    still carries a live context.  The exit for the same caller takes the run off the
    stack, makes the context active that was active at the entry (none, if the thread had
    been forked with the context of the object), and ends the carrier: the object is
    forgotten and its reference on the context dropped, other contexts stay. *)
Theorem worker_run_exit tid f kind obj c l e e' σ σ' x :
  reliable e → reliable e' → cur_tgid e' = cur_tgid e → in_u32 tid →
  (read_self_from_frame f e σ).1 = Some obj → carriers kind σ !! py_object_key e obj = Some c →
  worker_runs σ tid l → (length l < 64)%nat → same_run kind f obj (last l) = false →
  let σ1 := (handle_run_entry tid f kind e σ).2 in
  let parent := (read_parent_ptr f e (run_ready e tid c σ)).1 in
  parent ≠ 0 →
  (∀ runs, worker_runs σ1 tid runs → worker_runs σ' tid runs) →
  carriers kind σ' !! py_object_key e obj = Some c → tool_ctx σ' !! c = Some x →
  let r := dispatch_exit_for_parent tid parent e' σ' in
  r.1 = true ∧ worker_runs r.2 tid l
  ∧ thread_active_ctx r.2 !! tid = (if run_prev σ tid c =? 0 then None else Some (run_prev σ tid c))
  ∧ carriers kind r.2 = delete (py_object_key e obj) (carriers kind σ')
  ∧ worker_run_carrier r.2 = delete (py_object_key e obj) (worker_run_carrier σ')
  ∧ tool_ctx r.2 !! c = (if tc_carrier_count x >? 1 then Some (dec_ctx x) else None)
  ∧ (∀ k, k ≠ c → tool_ctx r.2 !! k = tool_ctx σ' !! k).
Proof.
  intros He He' Hg Ht Hself Hc Hl Hlt Hsame σ1 parent Hp Hruns Hc' Hx r.
  destruct (run_entry_facts tid f kind obj c l e σ) as [Hr _ _ _ _]; [done..|].
  fold σ1 parent in Hr. apply Hruns in Hr.
  assert (py_object_key e' obj = py_object_key e obj) as Hkey.
  { unfold py_object_key. by rewrite Hg. }
  destruct (worker_pop_top (λ en, negb (wr_parent_ptr en =? 0) && (wr_parent_ptr en =? parent))
    tid _ e' σ' l He' Ht Hr) as (σ2 & Hrun & stk & dep & t & E & Hch).
  { cbn. by rewrite (proj2 (Z.eqb_neq _ _) Hp), Z.eqb_refl. }
  assert (carriers kind σ2 = carriers kind σ' ∧ worker_run_carrier σ2 = worker_run_carrier σ'
    ∧ tool_ctx σ2 = tool_ctx σ' ∧ worker_runs σ2 tid l) as (E1 & E2 & E3 & E4).
  { rewrite E. split_and!; [unfold carriers; by destruct (kind =? _)|done|done|apply Hch]. }
  clear E Hch. unfold r, dispatch_exit_for_parent, worker_stack_pop_for_parent.
  erewrite bind_run by exact Hrun. unfold run_entry. cbn [wr_kind wr_self_obj wr_prev_ctx]. mstep.
  mstep. assert (bm_get (run_carrier_map kind) σ2 !! py_object_key e' obj = Some c) as ->.
  { rewrite Hkey, <-Hc', <-E1. unfold run_carrier_map, carriers. by destruct (kind =? _). }
  erewrite bind_run by apply unit_run. cbv beta iota.
  match goal with |- context [mbind _ (if _ then _ else _) e' ?s] =>
    change s with (exit_carrier kind obj c e' σ2) end.
  rewrite <-E3 in Hx.
  destruct (exit_carrier_facts kind obj c x e' σ2 Hx) as (F1 & F2 & F3 & F4 & F5 & F6).
  revert F1 F2 F3 F4 F5 F6. generalize (exit_carrier kind obj c e' σ2).
  intros σ3 F1 F2 F3 F4 F5 F6. rewrite <-Hkey, <-E1, <-E2, <-E3.
  destruct (Z.eqb_spec (run_prev σ tid c) 0) as [Hz|Hz]; cbn [negb]; mrun; cbn [fst snd]; sproj;
    (split_and!; [done|by apply F1| |exact F3|done|exact F5|exact F6]).
  - apply lookup_delete_eq.
  - apply lookup_insert_eq.
Qed.

(** ** Instances *)

(** The first local of the frame at 1000 is the object at 2000. *)
Definition env_self : Env :=
  {| pid_tgid := 7 * 2 ^ 32 + 9; processor_id := 1; ktime := Z.of_nat;
     update_ok := λ _, true; evicts := λ _ _, false; reserve_ok := λ _, true;
     user_mem := λ a, if (1000 <=? a) && (a <? 1008) then le_bytes 8 2000 !! Z.to_nat (a - 1000)
                      else None;
     reg := λ _, None; arg := λ _, None; shim := λ _ _, None; mount_of := λ v, v;
     kernel_mem := λ _, None; lpm_get := λ _ _ _, None |}.

(** Thread 9 has the context 17 on its stack. *)
Definition state_inside : State :=
  set_thread_ctx_depth {[ 9 := 1 ]} (set_thread_ctx_stack {[ thread_key 9 0 := 17 ]}
    (state_denied MODE_ENFORCE)).

Lemma no_runs σ tid : worker_run_stack σ = ∅ → worker_run_depth σ = ∅ → worker_runs σ tid [].
Proof.
  intros E1 E2. unfold worker_runs. rewrite E1, E2.
  split_and!; [intros i _; apply lookup_empty|apply lookup_empty|cbn; lia].
Qed.

Lemma worker_inherits_witness :
  ∃ x2, subject_of (handle_run_entry 12 1000 CODE_KIND_WORKITEM_RUN env_self
          (handle_ctor_entry 9 1000 CODE_KIND_WORKITEM_CTOR env_self state_inside).2).2 12
        = Attributed 17 x2 ∧ tc_tool_id x2 = 5.
Proof.
  destruct (worker_inherits CODE_KIND_WORKITEM_CTOR CODE_KIND_WORKITEM_RUN 9 1000 env_self
    state_inside 17 (sample_ctx 5) 2000 12 1000 env_self
    (handle_ctor_entry 9 1000 CODE_KIND_WORKITEM_CTOR env_self state_inside).2
    (set_carrier_count 2 (sample_ctx 5)) []) as (_ & (x2 & H & Hid & _) & _);
    [done|done|by left|done|reflexivity|reflexivity|by left|done|reflexivity|reflexivity|reflexivity
    |reflexivity|vm_compute; reflexivity| |unfold in_u32; lia|by apply no_runs|cbn; lia
    |reflexivity|reflexivity|].
  - intros H. vm_compute in H. discriminate H.
  - exists x2. split; [exact H|exact Hid].
Defined.

Lemma worker_run_exit_witness :
  thread_active_ctx (dispatch_exit_for_parent 12 2000 env_self
    (handle_run_entry 12 1000 CODE_KIND_WORKITEM_RUN env_self
      (set_workitem_ctx {[ py_object_key env_self 2000 := 17 ]} state_inside)).2).2 !! 12 = None.
Proof.
  apply (worker_run_exit 12 1000 CODE_KIND_WORKITEM_RUN 2000 17 [] env_self env_self
    (set_workitem_ctx {[ py_object_key env_self 2000 := 17 ]} state_inside) _ (sample_ctx 5));
    [done|done|done|unfold in_u32; lia|reflexivity|vm_compute; reflexivity|by apply no_runs
    |cbn; lia|reflexivity| |done|vm_compute; reflexivity|vm_compute; reflexivity].
  vm_compute. congruence.
Defined.
