(* ===== verification/TaskFlow.v ===== *)
(** * The way of a context through asyncio tasks ([task_probes.rs])

    A task takes the context of the thread that creates it; each of its steps runs in
    this context; the return of a step gives back what the thread had before, as far as
    the stack of the thread vouches for it. *)

From stdpp Require Import base gmap list.
From S2P Require Import Prelude Types Maps Samples Ownership Identity Worker Frames Tasks.
From S2P Require Import Events Lsm Probes Monotone Contexts Stacks ThreadStack TaskStack Decision.
From S2P Require Import Fork WorkerFlow.

(** ** Creation *)

(** The task in whose step a task is created hands the context on, if it has others. *)
Definition hand_on (e : Env) (task c : Z) (σ : State) : State :=
  let parent := unwrap_or (thread_active_task σ !! cur_tid e) 0 in
  let o := py_object_key e parent in
  if negb (parent =? 0) && negb (parent =? task) && bool_decide (task_ctx σ !! o = Some c)
     && (unwrap_or (task_ctx_depth σ !! o) 0 >? 1)
  then (task_ctx_remove (cur_tid e) parent c e σ).2 else σ.

Lemma task_init_run e σ task c :
  arg e 0 = Some task → task ≠ 0 → active_of σ (cur_tid e) = Some c →
  (run_probe asyncio_task_init e σ).2
  = (task_ctx_push (cur_tid e) task c
       (unwrap_or (tc_tool_id <$> tool_ctx σ !! c) TOOL_IDLE) e (hand_on e task c σ)).2.
Proof.
  intros Harg Hnz Ha. cbn [run_probe]. unfold then_zero, handle_task_init.
  erewrite bind_run by apply surjective_pairing. cbn [mret probeM_ret snd]. mstep. mstep. rewrite Harg.
  cbv beta iota. rewrite (proj2 (Z.eqb_neq _ _) Hnz). mstep. rewrite Ha, (prune_active_live _ _ _ Ha).
  cbv beta iota. mstep. mstep. sproj. unfold hand_on, task_ctx_current, task_ctx_depth_for.
  set (parent := unwrap_or _ 0). erewrite bind_run by (mstep; reflexivity).
  erewrite bind_run by (mstep; mstep; reflexivity). sproj.
  destruct (_ && (_ >? 1)); cbn [when].
  - erewrite bind_run; last first.
    { erewrite bind_run by apply surjective_pairing. reflexivity. }
    by erewrite bind_run by apply surjective_pairing.
  - mstep. by erewrite bind_run by apply surjective_pairing.
Qed.

Lemma hand_on_facts e task c σ x lp :
  let parent := unwrap_or (thread_active_task σ !! cur_tid e) 0 in
  let o := py_object_key e task in
  reliable e → tool_ctx σ !! c = Some x → (parent ≠ 0 → 1 < tc_carrier_count x) →
  task_stack σ (py_object_key e parent) lp → task_ctx σ !! o = None → task_stack σ o [] →
  let σ' := hand_on e task c σ in
  task_ctx σ' !! o = None ∧ task_stack σ' o []
  ∧ ∃ x', tool_ctx σ' !! c = Some x' ∧ (x' = x ∨ parent ≠ 0 ∧ x' = dec_ctx x).
Proof.
  intros parent o He Hx Hcount Hlp Hnew Hst σ'. unfold σ', hand_on. fold parent.
  destruct (Z.eqb_spec parent 0) as [|Hp]; cbn [negb andb]; [by eauto 6|].
  destruct (Z.eqb_spec parent task) as [|Hne]; cbn [negb andb]; [by eauto 6|].
  destruct (bool_decide _ && _); [|by eauto 6].
  assert (o ≠ py_object_key e parent) as Hkey by by intros [= ?].
  destruct (find_pos (λ c', c' =? c) lp) as [n|] eqn:Hn.
  - destruct (task_ctx_remove_found (cur_tid e) parent c e σ lp n) as (stk & t & -> & Hch); [done..|].
    cbn [snd]. unfold task_upd. sproj. split_and!.
    + destruct (last (delete n lp)); by rewrite ?lookup_insert_ne, ?lookup_delete_ne by done.
    + by apply (changes_other (λ _, True) task_key (2 ^ 32) 8 _ _ _ _ _ _ _ _ I I (not_eq_sym Hkey) Hch).
    + exists (dec_ctx x). split; [|by right]. rewrite dropped_tool_ctx. unfold logged. sproj.
      rewrite Hx. specialize (Hcount Hp). by destruct (Z.gtb_spec (tc_carrier_count x) 1); [|lia].
  - rewrite (task_ctx_remove_missing _ _ _ _ _ lp) by done. by eauto 6.
Qed.

(** ** Steps *)

(** The context that is active during a step of a task bound to [c]: [c] itself if the
    thread has it on its stack or has no live context on top of it. *)
Definition step_ctx (σ : State) (l : list Z) (c : Z) : Z :=
  if bool_decide (c ∈ l) then c
  else match last l with
       | Some t => if live σ t && negb (t =? 0) then t else c
       | None => c
       end.

(** The context that the return of a step makes active. *)
Definition restored_ctx (σ : State) (l : list Z) (prev : Z) : option Z :=
  if negb (prev =? 0) && bool_decide (prev ∈ l) && live σ prev then Some prev
  else match last l with
       | Some t => if live σ t && negb (t =? 0) then Some t else None
       | None => None
       end.

(** The state during a step. *)
Record stepping (tid task c : Z) (σ σ' : State) : Prop := {
  sp_active : thread_active_ctx σ' = <[tid := c]> (thread_active_ctx (prune_active tid σ));
  sp_task : thread_active_task σ' = <[tid := task]> (thread_active_task σ);
  sp_ctx : tool_ctx σ' = tool_ctx σ;
  sp_stash : task_step_stash σ' !! tid = Some (unwrap_or (active_of σ tid) 0);
  sp_prev : task_step_prev_task σ' !! tid = Some (unwrap_or (thread_active_task σ !! tid) 0);
  sp_stack : ∀ l, thread_stack σ tid l → thread_stack σ' tid l;
  sp_offsets : python_offsets σ' = python_offsets σ
}.

Lemma select_run tgid e σ :
  select_task_step_ptr tgid e σ = ((select_task_step_ptr tgid e σ).1, σ).
Proof. by rewrite (surjective_pairing (select_task_step_ptr tgid e σ)) at 1. Qed.

Lemma prune_stack tid t l σ : thread_stack σ t l → thread_stack (prune_active tid σ) t l.
Proof. unfold prune_active. repeat case_match; done. Qed.

Lemma step_activate_run e σ task c x l tid :
  reliable e → task_ctx σ !! py_object_key e task = Some c → tool_ctx σ !! c = Some x →
  thread_stack σ tid l →
  task_step_activate (cur_tgid e) tid task e σ
  = (tt, set_thread_active_ctx (<[tid := step_ctx σ l c]> (thread_active_ctx σ)) (next_tick σ)).
Proof.
  intros He Hc Hx Hl. unfold task_step_activate. mstep. sproj. fold (py_object_key e task).
  rewrite Hc. cbv beta iota. mstep.
  assert (live σ c = true) as Hlc by (apply live_Some; by rewrite Hx). rewrite Hlc. cbn [negb].
  erewrite bind_run by by apply (ctx_stack_contains_spec _ _ _ _ l). rewrite Hlc, andb_true_r.
  unfold step_ctx. case_bool_decide; [by rewrite m_insert_reliable|].
  erewrite bind_run by by apply (ctx_stack_top_spec _ _ _ l).
  destruct (last l) as [t|]; [destruct (live σ t); [destruct (t =? 0) eqn:E|]|];
    cbn [unwrap_or andb negb Z.eqb]; cbv zeta; rewrite ?E; cbn [negb]; by rewrite m_insert_reliable.
Qed.

Lemma prune_maps tid σ :
  task_ctx (prune_active tid σ) = task_ctx σ ∧ tool_ctx (prune_active tid σ) = tool_ctx σ
  ∧ thread_active_task (prune_active tid σ) = thread_active_task σ
  ∧ python_offsets (prune_active tid σ) = python_offsets σ.
Proof. unfold prune_active. by repeat case_match. Qed.

Lemma step_entry_run e σ task c x l :
  reliable e → (select_task_step_ptr (cur_tgid e) e σ).1 = Ok task → task ≠ 0 →
  task_ctx σ !! py_object_key e task = Some c → tool_ctx σ !! c = Some x →
  thread_stack σ (cur_tid e) l →
  stepping (cur_tid e) task (step_ctx σ l c) σ (run_probe asyncio_task_step e σ).2.
Proof.
  intros He Hsel Hnz Hc Hx Hl. cbn [run_probe]. unfold then_zero.
  erewrite bind_run by apply surjective_pairing. cbn [mret probeM_ret snd].
  unfold handle_task_step_entry. mstep. mstep. erewrite try_run by apply select_run. rewrite Hsel.
  cbv beta iota. rewrite (proj2 (Z.eqb_neq _ _) Hnz). mstep. mstep. mstep. mstep. mstep. sproj.
  destruct (prune_maps (cur_tid e) σ) as (P1 & P2 & P3 & P4).
  pose proof (prune_stack (cur_tid e) (cur_tid e) l σ Hl) as Hl'.
  erewrite bind_run; last first.
  { apply (step_activate_run _ _ _ c x l); [done|sproj; by rewrite P1|sproj; by rewrite P2|exact Hl']. }
  cbn [mret probeM_ret snd]. sproj. rewrite P3.
  match goal with |- context [step_ctx ?s l c] => assert (step_ctx s l c = step_ctx σ l c) as -> end.
  { unfold step_ctx, live. sproj. by rewrite P2. }
  constructor; sproj; try done; try apply lookup_insert_eq.
  intros l' H. by apply (prune_stack (cur_tid e)).
Qed.

(** The task is not done: its state reads 0 or cannot be read. *)
Definition unfinished (e : Env) (σ : State) (task : Z) : Prop :=
  ¬ 1 ≤ unwrap_or (read_user_u8 (task ⊞ unwrap_or (python_offsets σ !! OFF_TASK_STATE) 0) e σ).1 0.

Lemma restore_run tid e σ l prev prev_task :
  reliable e → thread_stack σ tid l →
  task_step_stash σ !! tid = Some prev → task_step_prev_task σ !! tid = Some prev_task →
  let σ' := (task_step_restore tid e σ).2 in
  thread_active_ctx σ' !! tid = restored_ctx σ l prev
  ∧ thread_active_task σ' !! tid = (if prev_task =? 0 then None else Some prev_task)
  ∧ tool_ctx σ' = tool_ctx σ ∧ thread_stack σ' tid l
  ∧ task_step_stash σ' !! tid = None ∧ task_step_prev_task σ' !! tid = None.
Proof.
  intros He Hl Hs Hp. unfold task_step_restore. mstep. mstep. sproj. rewrite Hs, Hp.
  cbn [unwrap_or].
  assert (∃ r, (if negb (prev =? 0) then ctx_stack_contains tid prev else mret false) e σ = (r, σ)
    ∧ r = negb (prev =? 0) && bool_decide (prev ∈ l) && live σ prev) as (r & Hr & Er).
  { destruct (prev =? 0); [by eexists|]. eexists.
    split; [by apply (ctx_stack_contains_spec _ _ _ _ l)|done]. }
  erewrite bind_run by exact Hr.
  assert ((if r then mret prev else top ← ctx_stack_top tid; mret (unwrap_or top 0)) e σ
    = (unwrap_or (restored_ctx σ l prev) 0, σ)) as Hrest.
  { unfold restored_ctx. rewrite <-Er. destruct r; [done|].
    erewrite bind_run by by apply (ctx_stack_top_spec _ _ _ l). rewrite ret_run. f_equal.
    destruct (last l) as [t|]; [|done]. destruct (live σ t); [|done].
    by destruct (Z.eqb_spec t 0) as [->|]. }
  erewrite bind_run by exact Hrest.
  assert (∀ t, restored_ctx σ l prev = Some t → t ≠ 0) as Hnz.
  { intros t. unfold restored_ctx. destruct (Z.eqb_spec prev 0); cbn [negb andb].
    - destruct (last l) as [t'|]; [|done]. destruct (live σ t'), (Z.eqb_spec t' 0); naive_solver.
    - destruct (bool_decide _ && _); [naive_solver|].
      destruct (last l) as [t'|]; [|done]. destruct (live σ t'), (Z.eqb_spec t' 0); naive_solver. }
  destruct (restored_ctx σ l prev) as [t|]; cbn [unwrap_or].
  - rewrite (proj2 (Z.eqb_neq _ _) (Hnz t eq_refl)). cbn [negb].
    destruct (prev_task =? 0); cbn [negb]; mrun; cbn [snd]; sproj;
      (split_and!; [apply lookup_insert_eq|by (apply lookup_insert_eq || apply lookup_delete_eq)|done|done
        |apply lookup_delete_eq|apply lookup_delete_eq]).
  - cbn [Z.eqb negb]. destruct (prev_task =? 0); cbn [negb]; mrun; cbn [snd]; sproj;
      (split_and!; [apply lookup_delete_eq|by (apply lookup_insert_eq || apply lookup_delete_eq)|done|done
        |apply lookup_delete_eq|apply lookup_delete_eq]).
Qed.

Lemma step_return_run e σ task :
  thread_active_task σ !! cur_tid e = Some task → task ≠ 0 → unfinished e σ task →
  (run_probe asyncio_task_step_ret e σ).2 = (task_step_restore (cur_tid e) e σ).2.
Proof.
  intros Ht Hnz Hu. cbn [run_probe]. unfold then_zero, handle_task_step_return.
  erewrite bind_run by apply surjective_pairing. cbn [mret probeM_ret snd]. mstep. mstep. sproj.
  rewrite Ht. cbn [unwrap_or]. rewrite (proj2 (Z.eqb_neq _ _) Hnz).
  erewrite bind_run by reflexivity. unfold OFF_TASK_STATE in *. cbn [Z.leb Z.compare Z.ltb andb Pos.compare Pos.compare_cont].
  erewrite bind_run by apply surjective_pairing. unfold unfinished in Hu.
  match goal with |- context [?a >=? 1] =>
    assert ((a >=? 1) = false) as -> by (rewrite Z.geb_leb; apply Z.leb_gt; exact (proj1 (Z.nle_gt _ _) Hu)) end.
  cbn [when]. mstep. by erewrite bind_run by apply surjective_pairing.
Qed.

(** C4: a task works for the tool that created it.  The initialiser, in the step of
    another task or outside of one, binds a new task to the active context of its thread
    with a reference, which it gets new or from the task that creates it.  When a thread
    of the process steps the task, in any later state in which it is still bound and the
    context is alive, the thread is in this task, and attributed to the context unless
    the context is not on the stack of the thread and another live one is on top of it,
    which is then active instead ([step_ctx]).  When a task creates the new one, the
    context must have a further reference than that of its task. *)
Theorem task_inherits e1 σ task c x lp e2 σ' x' l :
  reliable e1 → reliable e2 → cur_tgid e2 = cur_tgid e1 →
  arg e1 0 = Some task → task ≠ 0 → active_of σ (cur_tid e1) = Some c → c ≠ 0 →
  tool_ctx σ !! c = Some x →
  let parent := unwrap_or (thread_active_task σ !! cur_tid e1) 0 in
  task_stack σ (py_object_key e1 parent) lp → (parent ≠ 0 → 1 < tc_carrier_count x) →
  task_ctx σ !! py_object_key e1 task = None → task_stack σ (py_object_key e1 task) [] →
  let σ1 := (run_probe asyncio_task_init e1 σ).2 in
  task_ctx σ' !! py_object_key e1 task = task_ctx σ1 !! py_object_key e1 task →
  tool_ctx σ' !! c = Some x' → thread_stack σ' (cur_tid e2) l →
  (select_task_step_ptr (cur_tgid e2) e2 σ').1 = Ok task →
  let σ2 := (run_probe asyncio_task_step e2 σ').2 in
  (∃ x1, tool_ctx σ1 !! c = Some x1 ∧ (x1 = inc_ctx x ∨ parent ≠ 0 ∧ x1 = inc_ctx (dec_ctx x)))
  ∧ thread_active_task σ2 !! cur_tid e2 = Some task
  ∧ thread_active_ctx σ2 !! cur_tid e2 = Some (step_ctx σ' l c)
  ∧ (step_ctx σ' l c = c → subject_of σ2 (cur_tid e2) = Attributed c x').
Proof.
  intros He1 He2 Hg Harg Hnz Ha Hc Hx parent Hlp Hcount Hnew Hst σ1 Hb Hx' Hl Hsel σ2.
  assert (py_object_key e2 task = py_object_key e1 task) as Hkey.
  { unfold py_object_key. by rewrite Hg. }
  destruct (hand_on_facts e1 task c σ x lp) as (Hnew' & Hst' & xa & Hxa & Hor); [done..|].
  unfold σ1 in *. rewrite (task_init_run _ _ task c) in * by done.
  rewrite (task_ctx_push_run _ _ _ _ _ _ []) in * by (done || (cbn; lia) || by rewrite Hnew').
  unfold task_upd in *. cbn [snd] in *. sproj_in Hb. rewrite lookup_insert_eq, <-Hkey in Hb.
  destruct (step_entry_run e2 σ' task c x' l) as [Hact Htask Hctx _ _ _ _]; [done..|].
  fold σ2 in Hact, Htask, Hctx.
  assert (thread_active_ctx σ2 !! cur_tid e2 = Some (step_ctx σ' l c)) as Hact'
    by by rewrite Hact, lookup_insert_eq.
  split_and!.
  - exists (inc_ctx xa). sproj. rewrite lookup_alter_eq, Hxa. split; [done|].
    destruct Hor as [->|[Hp ->]]; [by left|by right].
  - by rewrite Htask, lookup_insert_eq.
  - done.
  - intros Hs. apply subject_attributed; [by rewrite Hact', Hs|by rewrite Hctx|done].
Qed.

(** C17: a step is a bracket.  Take the entry of a step of a task with a live context and
    the return of the step of an unfinished task on the same thread, with map updates that succeed, between which no
    other step, eager start or exit of the thread replaced the thread's active task and
    the two notes the entry took (on tasks that begin in between see
    [eager_start_unattributed]).  After it the thread has its former task again, and its
    former context if this is alive and on the stack of the thread, and otherwise the
    live top of this stack; the notes of the step are gone, contexts are untouched. *)
Theorem task_step_bracket e e' σ task c x l σ' l' :
  reliable e → reliable e' → cur_tid e' = cur_tid e →
  (select_task_step_ptr (cur_tgid e) e σ).1 = Ok task → task ≠ 0 →
  task_ctx σ !! py_object_key e task = Some c → tool_ctx σ !! c = Some x →
  thread_stack σ (cur_tid e) l →
  let tid := cur_tid e in
  let σ1 := (run_probe asyncio_task_step e σ).2 in
  thread_active_task σ' !! tid = thread_active_task σ1 !! tid →
  task_step_stash σ' !! tid = task_step_stash σ1 !! tid →
  task_step_prev_task σ' !! tid = task_step_prev_task σ1 !! tid →
  thread_stack σ' tid l' → unfinished e' σ' task →
  let σ2 := (run_probe asyncio_task_step_ret e' σ').2 in
  thread_active_ctx σ2 !! tid = restored_ctx σ' l' (unwrap_or (active_of σ tid) 0)
  ∧ unwrap_or (thread_active_task σ2 !! tid) 0 = unwrap_or (thread_active_task σ !! tid) 0
  ∧ tool_ctx σ2 = tool_ctx σ' ∧ thread_stack σ2 tid l'
  ∧ task_step_stash σ2 !! tid = None ∧ task_step_prev_task σ2 !! tid = None.
Proof.
  intros He He' Htid Hsel Hnz Hc Hx Hl tid σ1 Ht Hs Hp Hl' Hu σ2.
  destruct (step_entry_run e σ task c x l) as [_ Etask _ Es Ep _ _]; [done..|].
  fold σ1 tid in Etask, Es, Ep. rewrite Etask, lookup_insert_eq in Ht. rewrite Es in Hs. rewrite Ep in Hp.
  unfold σ2. rewrite (step_return_run e' σ' task) by (done || by rewrite Htid). rewrite Htid. fold tid.
  destruct (restore_run tid e' σ' l' _ _ He' Hl' Hs Hp) as (R1 & R2 & R3 & R4 & R5 & R6).
  split_and!; [done| |done..]. rewrite R2.
  by destruct (Z.eqb_spec (unwrap_or (thread_active_task σ !! tid) 0) 0) as [E|E].
Qed.


(** ** Instances *)

(** The task at 640 is the argument; its memory cannot be read. *)
Definition env_task : Env := sample_env (λ _, Some 640) (λ _ _, None) (λ _ _ _, None).

(** Task 640 is bound to context 17 and nothing else is known of the thread. *)
Definition state_bound : State :=
  set_task_ctx {[ py_object_key env_task 640 := 17 ]} state_ctx.
(** Thread 9 is in a step of task 320, in context 17. *)
Definition state_stepping : State :=
  set_thread_active_task {[ 9 := 320 ]} (set_thread_active_ctx {[ 9 := 17 ]} state_bound).

Lemma no_stack σ tid : thread_ctx_stack σ = ∅ → thread_ctx_depth σ = ∅ → thread_stack σ tid [].
Proof.
  intros E1 E2. unfold thread_stack. rewrite E1, E2.
  split_and!; [intros i _; apply lookup_empty|apply lookup_empty|cbn; lia].
Qed.

(** Task 640 is created in a step of task 320. *)
Lemma task_inherits_witness :
  let σ := set_thread_active_task {[ 9 := 320 ]}
             (set_tool_ctx {[ 17 := set_carrier_count 2 (sample_ctx 5) ]} (state_denied MODE_ENFORCE)) in
  subject_of (run_probe asyncio_task_step env_task
    (set_thread_active_ctx ∅ (run_probe asyncio_task_init env_task σ).2)).2 9
  = Attributed 17 (set_carrier_count 3 (sample_ctx 5)).
Proof.
  intros σ.
  assert (∀ o, task_stack σ o []) as Hs.
  { intros o. split_and!; [intros i _; apply lookup_empty|apply lookup_empty|cbn; lia]. }
  destruct (task_inherits env_task σ 640 17 (set_carrier_count 2 (sample_ctx 5)) []
    env_task (set_thread_active_ctx ∅ (run_probe asyncio_task_init env_task σ).2)
    (set_carrier_count 3 (sample_ctx 5)) []) as (_ & _ & _ & H);
    [done|done|done|done|done|reflexivity|done|reflexivity|apply Hs|cbn; lia|reflexivity|apply Hs
    |vm_compute; reflexivity|vm_compute; reflexivity|by apply no_stack|vm_compute; reflexivity|].
  apply H. vm_compute. reflexivity.
Defined.

Lemma task_step_bracket_witness :
  thread_active_ctx (run_probe asyncio_task_step_ret env_task
    (run_probe asyncio_task_step env_task state_bound).2).2 !! 9 = None.
Proof.
  apply (task_step_bracket env_task env_task state_bound 640 17 (sample_ctx 5) []
    (run_probe asyncio_task_step env_task state_bound).2 []);
    [done|done|done|vm_compute; reflexivity|done|reflexivity|reflexivity|by apply no_stack
    |reflexivity|reflexivity|reflexivity|by apply no_stack|].
  unfold unfinished. vm_compute. intros H. by apply H.
Defined.

