(* ===== verification/Report.v ===== *)
(** * The audit report ([main.rs])

    At shutdown the collected events are checked against each other: every guard event
    with a context has to fall between the start and the end of that context. *)

From stdpp Require Import base gmap list strings.
From S2P Require Import Prelude Types Maps Samples Compiler Runtime.

(** ** One context at a time

    The scan keeps its two tables per context; what it knows of the context [k] depends
    on the events of [k] alone. *)

Abbreviation tables := (gmap Z (list (Z * Z)) * gmap Z Z)%type.

Definition view (k : Z) (st : tables) : option (list (Z * Z)) * option Z := (st.1 !! k, st.2 !! k).

Definition starts (k : Z) (ev : PyEvent) : Prop := pe_kind ev = EVENT_TOOL_START ∧ pe_ctx_id ev = k.
Definition ends (k : Z) (ev : PyEvent) : Prop := pe_kind ev = EVENT_TOOL_END ∧ pe_ctx_id ev = k.

#[global] Instance starts_dec k ev : Decision (starts k ev).
Proof. unfold starts. apply _. Defined.
#[global] Instance ends_dec k ev : Decision (ends k ev).
Proof. unfold ends. apply _. Defined.

Lemma bracket_step_view k st ev :
  view k (bracket_step st ev) =
    if decide (starts k ev) then (st.1 !! k, Some (pe_ts_ns ev))
    else if decide (ends k ev) then
      match st.2 !! k with
      | Some s => (Some (unwrap_or (st.1 !! k) [] ++ [(s, pe_ts_ns ev)]), None)
      | None => (st.1 !! k, None)
      end
    else view k st.
Proof.
  destruct st as [b o]. unfold bracket_step, view. cbn [fst snd].
  destruct (decide (starts k ev)) as [[Hs <-]|Hs].
  { rewrite Hs. cbn. by rewrite lookup_insert_eq. }
  destruct (decide (ends k ev)) as [[He <-]|He].
  { rewrite He. cbn. destruct (o !! pe_ctx_id ev) as [s|] eqn:Ho; cbn; [|by rewrite Ho].
    unfold push_bracket. by rewrite lookup_insert_eq, lookup_delete_eq. }
  destruct (Z.eqb_spec (pe_kind ev) EVENT_TOOL_START) as [Es|Es].
  { cbn. rewrite lookup_insert_ne; [done|]. intros E. by apply Hs. }
  destruct (Z.eqb_spec (pe_kind ev) EVENT_TOOL_END) as [Ee|Ee]; [|done].
  destruct (o !! pe_ctx_id ev); cbn; [|done].
  assert (pe_ctx_id ev ≠ k) by (intros E; by apply He).
  unfold push_bracket. by rewrite lookup_insert_ne, lookup_delete_ne.
Qed.

(** Events of other contexts, and ends without a start, change nothing. *)
Lemma scan_closed k evs st :
  Forall (λ ev, ¬ starts k ev) evs → st.2 !! k = None →
  view k (foldl bracket_step st evs) = view k st.
Proof.
  intros Hevs. revert st. induction Hevs as [|ev evs Hev Hevs IH]; intros st Ho; [done|].
  cbn [foldl]. pose proof (bracket_step_view k st ev) as Hv.
  rewrite (decide_False (P := starts k ev)) in Hv by done. unfold view in Hv at 2. rewrite Ho in Hv.
  assert (view k (bracket_step st ev) = view k st) as E.
  { rewrite Hv. unfold view. rewrite Ho. by case_decide. }
  rewrite IH, E; [done|]. injection E as _ ->. done.
Qed.

(** An open start is closed by the first end. *)
Lemma scan_open k evs st s :
  Forall (λ ev, ¬ starts k ev) evs → st.1 !! k = None → st.2 !! k = Some s →
  view k (foldl bracket_step st evs) =
    match head (filter (ends k) evs) with
    | Some ev => (Some [(s, pe_ts_ns ev)], None)
    | None => (None, Some s)
    end.
Proof.
  intros Hevs. revert st. induction Hevs as [|ev evs Hev Hevs IH]; intros st Hb Ho.
  { unfold view. cbn. by rewrite Hb, Ho. }
  cbn [foldl]. pose proof (bracket_step_view k st ev) as Hv. rewrite filter_cons.
  rewrite (decide_False (P := starts k ev)) in Hv by done. case_decide as He.
  - rewrite Ho, Hb in Hv. cbn in Hv. cbn [head]. rewrite <-Hv. apply scan_closed; [done|].
    by injection Hv as _ ->.
  - unfold view in Hv at 2. injection Hv as H1 H2. apply IH; congruence.
Qed.

(** What is still open at the end stays open for ever. *)
Lemma close_open_starts k (b : gmap Z (list (Z * Z))) (l : list (Z * Z)) :
  NoDup l.*1 →
  foldl (λ b '(ctx_id, start_ts), push_bracket ctx_id (start_ts, u64_MAX) b) b l !! k =
    match (list_to_map l : gmap Z Z) !! k with
    | Some s => Some (unwrap_or (b !! k) [] ++ [(s, u64_MAX)])
    | None => b !! k
    end.
Proof.
  revert b. induction l as [|[j s] l IH]; intros b Hnd; [done|].
  rewrite fmap_cons, NoDup_cons in Hnd. destruct Hnd as [Hj Hnd]. cbn [foldl]. rewrite IH by done.
  cbn [list_to_map foldr curry]. unfold push_bracket. destruct (decide (j = k)) as [->|Hne].
  - rewrite lookup_insert_eq. apply not_elem_of_list_to_map in Hj. cbn in Hj.
    by rewrite Hj, lookup_insert_eq.
  - by rewrite !lookup_insert_ne by done.
Qed.

Lemma compute_brackets_lookup k evs :
  compute_brackets evs !! k =
    match view k (foldl bracket_step (∅, ∅) evs) with
    | (b, Some s) => Some (unwrap_or b [] ++ [(s, u64_MAX)])
    | (b, None) => b
    end.
Proof.
  unfold compute_brackets. destruct (foldl bracket_step (∅, ∅) evs) as [b o]. unfold view. cbn [fst snd].
  rewrite close_open_starts by apply NoDup_fst_map_to_list. by rewrite list_to_map_to_list.
Qed.

(** What the bracket check accepts.  A guard event of a context that never started
    is a violation; one of a context that started once is accepted exactly when it is
    not older than the start and not younger than the first end of the context after
    it, if there is one. *)
Theorem bracket_check evs ge :
  let k := ga_ctx_id ge in
  let ok := in_bracket (compute_brackets evs) ge in
  (Forall (λ ev, ¬ starts k ev) evs → ok = false)
  ∧ (∀ before start after,
       evs = before ++ start :: after → starts k start →
       Forall (λ ev, ¬ starts k ev) before → Forall (λ ev, ¬ starts k ev) after →
       ga_ts_ns ge ≤ u64_MAX →
       ok = true ↔ pe_ts_ns start ≤ ga_ts_ns ge
                   ∧ ∀ ev, head (filter (ends k) after) = Some ev → ga_ts_ns ge ≤ pe_ts_ns ev).
Proof.
  intros k ok. unfold ok, in_bracket. rewrite compute_brackets_lookup. split.
  { intros Hno. by rewrite scan_closed. }
  intros before start after -> Hst Hb Ha Hts. rewrite foldl_app. cbn [foldl].
  fold k. set (st := bracket_step (foldl bracket_step (∅, ∅) before) start).
  assert (view k st = (None, Some (pe_ts_ns start))) as Hv.
  { unfold st. rewrite bracket_step_view, decide_True by done.
    pose proof (scan_closed k before (∅, ∅) Hb (lookup_empty k)) as H. injection H as H1 _.
    by rewrite H1, lookup_empty. }
  injection Hv as Hv1 Hv2. rewrite (scan_open k after st (pe_ts_ns start)) by done.
  destruct (head (filter (ends k) after)) as [ev|]; cbn; rewrite orb_false_r, andb_true_iff, !Z.leb_le.
  - naive_solver.
  - naive_solver.
Qed.

Definition sample_event (kind ctx_id ts : Z) : PyEvent :=
  {| pe_pid := 7; pe_tid := 9; pe_ts_ns := ts; pe_kind := kind; pe_ctx_id := ctx_id;
     pe_tool_id := 5; pe_carrier_ptr := 0; pe_aux := 0 |}.
Definition sample_guard (ctx_id ts : Z) : GuardAuditEvent :=
  {| ga_kind := EVENT_FS_OPEN; ga_kind_str := lit "FILE_OPEN"; ga_ctx_id := ctx_id; ga_tool_id := 5;
     ga_tool_name := lit "web"; ga_identity_state := lit "known_tool"; ga_policy_source := lit "tool";
     ga_path := lit "/a"; ga_addr := None; ga_port := None; ga_action := lit "allow";
     ga_ts_ns := ts; ga_pid := 7; ga_tid := 9 |}.

Lemma bracket_check_witness :
  in_bracket (compute_brackets [sample_event EVENT_TOOL_START 17 5; sample_event EVENT_TOOL_END 17 9])
    (sample_guard 17 7) = true.
Proof.
  apply (proj2 (bracket_check [sample_event EVENT_TOOL_START 17 5; sample_event EVENT_TOOL_END 17 9]
    (sample_guard 17 7)) [] (sample_event EVENT_TOOL_START 17 5) [sample_event EVENT_TOOL_END 17 9]);
    [done|done|done| |by vm_compute|].
  - constructor; [by intros [] |done].
  - split; [by vm_compute|]. intros ev [= <-]. by vm_compute.
Defined.
