(* ===== verification/FrameStash.v ===== *)
(** * The per-thread frame stash, refined to a list ([ownership.rs])

    Entry probes stash the frame they saw and exit probes take it back.  Unlike the
    other stacks this one has no limit in the code: its index shares the key with the
    thread identifier, which bounds it to 65536 entries. *)

From stdpp Require Import base gmap list.
From S2P Require Import Prelude Types Maps Ownership Contexts Stacks Samples.

Definition stashed (σ : State) (tid : Z) (l : list Z) : Prop :=
  owner_stack stash_key 65536 65536 (frame_entry_stash σ) (frame_stash_depth σ) tid l.

(** The two maps changed at the thread's entries alone, whose stash is now [l]. *)
Definition stash_changes (σ : State) (tid : Z) (l : list Z) (σ' : State) : Prop :=
  ∃ stk dep t, σ' = set_tick t (set_frame_stash_depth dep (set_frame_entry_stash stk σ))
    ∧ changes stash_key 65536 65536 (frame_entry_stash σ) (frame_stash_depth σ) tid stk dep l.

Lemma stash_changes_refl σ tid l : stashed σ tid l → stash_changes σ tid l σ.
Proof.
  intros Hl. exists (frame_entry_stash σ), (frame_stash_depth σ), (tick σ).
  split; [by destruct σ|by apply changes_refl].
Qed.

Lemma frame_stash_push_spec tid f e σ l :
  reliable e → in_u32 tid → stashed σ tid l → Z.of_nat (length l) < 65536 →
  ∃ σ', frame_stash_push tid f e σ = (tt, σ') ∧ stash_changes σ tid (l ++ [f]) σ'.
Proof.
  intros He Ht Hl Hlt. pose proof Hl as (Hst & Hd & Hb). unfold frame_stash_push. mstep. sproj.
  rewrite Hd, depth_of_unwrap, u32_small by (unfold in_u32; lia). eexists. split.
  { mrun. by apply m_insert_reliable. }
  sproj. eexists _, _, _. split; [reflexivity|].
  apply (changes_push in_u32 stash_key 65536 65536); [done|lia|lia|done].
Qed.

Lemma frame_stash_peek_spec tid e σ l :
  stashed σ tid l → frame_stash_peek tid e σ = (last l, σ).
Proof.
  intros (Hst & Hd & Hb). unfold frame_stash_peek. mstep. sproj. rewrite Hd.
  destruct (depth_of l) as [d|] eqn:E; [|by apply depth_of_None in E as ->].
  apply depth_of_Some in E as [-> Hpos]. destruct (Z.eqb_spec (Z.of_nat (length l)) 0); [lia|].
  unfold m_get. f_equal. sproj. rewrite (stack_at_lookup _ _ _ l) by (done || lia).
  rewrite last_lookup. f_equal. lia.
Qed.

Lemma frame_stash_pop_spec tid e σ l :
  reliable e → in_u32 tid → stashed σ tid l →
  ∃ σ', frame_stash_pop tid e σ = (last l, σ') ∧ stash_changes σ tid (removelast l) σ'.
Proof.
  intros He Ht Hl. pose proof Hl as (Hst & Hd & Hb). unfold frame_stash_pop. mstep. sproj.
  rewrite Hd. destruct l as [|f l _] using rev_ind.
  { eexists. split; [by mrun|]. by apply stash_changes_refl. }
  rewrite depth_of_snoc, removelast_last, last_snoc, length_app in *. cbn [length] in *.
  destruct (Z.eqb_spec (Z.of_nat (length l) + 1) 0); [lia|].
  replace (Z.of_nat (length l) + 1 - 1) with (Z.of_nat (length l)) by lia. cbv zeta.
  mstep. mstep. sproj. rewrite (Hst (length l)) by lia.
  rewrite lookup_app_r, Nat.sub_diag by lia. cbn [lookup list_lookup].
  exists (set_tick (if Z.of_nat (length l) =? 0 then tick σ else S (tick σ))
    (set_frame_stash_depth (pop_depth tid (Z.of_nat (length l)) (frame_stash_depth σ))
      (set_frame_entry_stash (delete (stash_key tid (Z.of_nat (length l))) (frame_entry_stash σ)) σ))).
  split.
  { unfold pop_depth. destruct (Z.of_nat (length l) =? 0).
    - erewrite bind_run by reflexivity. by rewrite ret_run.
    - erewrite bind_run by by apply m_insert_reliable. reflexivity. }
  eexists _, _, _. split; [reflexivity|]. split_and!.
  - split_and!; [|apply pop_depth_lookup|lia].
    apply (stack_at_pop _ _ (fam_inj in_u32 stash_key 65536 tid Ht) _ _ f); [lia|done].
  - intros k Hk. rewrite lookup_delete_ne; [done|]. apply Hk. lia.
  - intros p Hp. by apply pop_depth_other.
Qed.

Lemma stash_changes_stashed σ tid l σ' : stash_changes σ tid l σ' → stashed σ' tid l.
Proof. intros (stk & dep & t & -> & Hc). apply Hc. Qed.

Lemma stash_changes_other σ tid l σ' tid' l' :
  in_u32 tid → in_u32 tid' → tid' ≠ tid → stash_changes σ tid l σ' →
  stashed σ tid' l' → stashed σ' tid' l'.
Proof.
  intros Ht Ht' Hne (stk & dep & t & -> & Hc).
  apply (changes_other in_u32 stash_key 65536 65536 _ _ tid _ _ l); done.
Qed.

(** The index runs into the thread identifier. *)
Lemma stash_key_wraps tid :
  in_u32 tid → tid `mod` 2 = 0 → stash_key tid 65536 = stash_key (tid + 1) 0.
Proof.
  unfold in_u32. intros Ht Heven. unfold stash_key, pack. rewrite Z.lor_0_r.
  change 65536 with (Z.shiftl 1 16).
  rewrite !u64_small by (unfold in_u64; rewrite Z.shiftl_mul_pow2 by lia; lia).
  rewrite <-Z.shiftl_lor. f_equal.
  pose proof (Z.add_lor_land tid 1) as H. pose proof (Z.land_ones tid 1 ltac:(lia)) as H1.
  change (Z.ones 1) with 1 in H1. change (2 ^ 1) with 2 in H1. lia.
Qed.

(** The frame stash is a stack per thread.  While there is room in the key, a push
    appends the frame; a peek reports the last frame and a pop also removes it; both
    report nothing on an empty stash; the stashes of other threads stay as they are. *)
Theorem frame_stash_refines tid f e σ l :
  reliable e → in_u32 tid → stashed σ tid l →
  (Z.of_nat (length l) < 65536 → stashed (frame_stash_push tid f e σ).2 tid (l ++ [f]))
  ∧ frame_stash_peek tid e σ = (last l, σ)
  ∧ (frame_stash_pop tid e σ).1 = last l
  ∧ stashed (frame_stash_pop tid e σ).2 tid (removelast l)
  ∧ (∀ tid' l', in_u32 tid' → tid' ≠ tid → stashed σ tid' l' →
       stashed (frame_stash_pop tid e σ).2 tid' l'
       ∧ (Z.of_nat (length l) < 65536 → stashed (frame_stash_push tid f e σ).2 tid' l')).
Proof.
  intros He Ht Hl. destruct (frame_stash_pop_spec tid e σ l He Ht Hl) as (σ1 & Hpop & H1).
  rewrite Hpop. cbn [fst snd]. split_and!.
  - intros Hlt. destruct (frame_stash_push_spec tid f e σ l He Ht Hl Hlt) as (σ2 & -> & H2).
    by apply stash_changes_stashed in H2.
  - by apply frame_stash_peek_spec.
  - done.
  - by apply stash_changes_stashed in H1.
  - intros tid' l' Ht' Hne Hl'. split; [by apply (stash_changes_other σ tid (removelast l))|].
    intros Hlt. destruct (frame_stash_push_spec tid f e σ l He Ht Hl Hlt) as (σ2 & -> & H2).
    by apply (stash_changes_other σ tid (l ++ [f])).
Qed.

Lemma frame_stash_refines_witness :
  (frame_stash_pop 9 env0 (frame_stash_push 9 500 env0 empty_state).2).1 = Some 500.
Proof.
  assert (stashed empty_state 9 []) as H0 by (split_and!; [by intros i _|done|by vm_compute]).
  destruct (frame_stash_refines 9 500 env0 empty_state []) as (Hp & _);
    [done|unfold in_u32; lia|done|].
  by apply (frame_stash_refines 9 0 env0 (frame_stash_push 9 500 env0 empty_state).2 [500]);
    [done|unfold in_u32; lia|apply Hp; cbn; lia].
Defined.

(** The stash has a limit that nothing checks.  When the depth of an even thread
    has reached 65536, the next push stores its frame in the bottom slot of the thread
    with the next identifier, whose exit probes then see it. *)
Theorem frame_stash_overflow tid f e σ l :
  reliable e → in_u32 tid → tid `mod` 2 = 0 → frame_stash_depth σ !! tid = Some 65536 →
  frame_stash_depth σ !! (tid + 1) = Some 1 → stashed σ (tid + 1) l →
  (frame_stash_peek (tid + 1) e σ).1 = last l
  ∧ (frame_stash_peek (tid + 1) e (frame_stash_push tid f e σ).2).1 = Some f.
Proof.
  intros He Ht Heven Hd Hd' Hl. split; [by rewrite (frame_stash_peek_spec _ _ _ l)|].
  assert (∃ t, frame_stash_push tid f e σ = (tt, set_tick t
    (set_frame_stash_depth (<[tid := 65537]> (frame_stash_depth σ))
      (set_frame_entry_stash (<[stash_key tid 65536 := f]> (frame_entry_stash σ)) σ)))) as [t ->].
  { unfold frame_stash_push. mstep. sproj. rewrite Hd. cbn [unwrap_or]. mstep.
    rewrite m_insert_reliable by done. eexists. reflexivity. }
  cbn [snd]. unfold frame_stash_peek. mstep. sproj. rewrite lookup_insert_ne by lia. rewrite Hd'. cbn.
  rewrite stash_key_wraps by done. apply lookup_insert_eq.
Qed.

(** Thread 8 after 65536 unmatched entries, thread 9 with frame 500. *)
Definition state_overflow : State :=
  set_frame_stash_depth {[ 8 := 65536; 9 := 1 ]}
    (set_frame_entry_stash {[ stash_key 9 0 := 500 ]} empty_state).

Lemma frame_stash_overflow_witness :
  (frame_stash_peek 9 env0 state_overflow).1 = Some 500
  ∧ (frame_stash_peek 9 env0 (frame_stash_push 8 600 env0 state_overflow).2).1 = Some 600.
Proof.
  apply (frame_stash_overflow 8 600 env0 state_overflow [500]);
    [done|unfold in_u32; lia|done|done|done|].
  split_and!; [|done|cbn; lia]. intros i Hi. change (8 + 1) with 9. unfold state_overflow. sproj.
  destruct i as [|i]; [by rewrite lookup_singleton_eq|].
  rewrite lookup_singleton_ne; [done|]. intros E.
  destruct (key_fam (valid := in_u32) (key := stash_key) (N := 65536) 9 9 0 (Z.of_nat (S i)));
    [unfold in_u32; lia|unfold in_u32; lia|lia|lia|done|lia].
Defined.
