(* ===== verification/Cpython.v ===== *)
(** * Reading a CPython process
    ([python_runtime/process_reader.rs], [cpython.rs], [cpython_312.rs])

    The resolver inspects the objects of the traced process through two system
    interfaces.  Address arithmetic is that of the release profile, modulo 2^64;
    [from_ne_bytes] is little-endian, as on the two supported architectures. *)

From stdpp Require Import base list strings.
From S2P Require Import Prelude Text Types Maps Compiler Runtime.

(** ** Process memory ([process_reader.rs])

    What the kernel answers for the process: [process_vm_readv] gives the bytes it
    could copy, [proc_mem] those that a read of [/proc/<pid>/mem] at the offset
    delivers before its end. *)
Record ProcessReader := {
  process_vm_readv : Z → nat → result (list Z);
  proc_mem : Z → nat → result (list Z)
}.

Definition read_process_vm (r : ProcessReader) (addr : Z) (len : nat) : result (list Z) :=
  bs ← process_vm_readv r addr len;
  if (length bs =? len)%nat then Ok bs else Err 0.

Definition read_proc_mem (r : ProcessReader) (addr : Z) (len : nat) : result (list Z) :=
  bs ← proc_mem r addr len;
  if (length bs <? len)%nat then Err 0 else Ok (take len bs).

Definition read_exact_at (r : ProcessReader) (addr : Z) (len : nat) : result (list Z) :=
  if (len =? 0)%nat then Ok []
  else if addr =? 0 then Err 0
  else match read_process_vm r addr len with
       | Ok bs => Ok bs
       | Err _ => read_proc_mem r addr len
       end.

Definition i64_of (x : Z) : Z := if x <? 2 ^ 63 then x else x - 2 ^ 64.
Definition i32_of (x : Z) : Z := if x <? 2 ^ 31 then x else x - 2 ^ 32.

Definition read_u8 (r : ProcessReader) (addr : Z) : result Z :=
  bs ← read_exact_at r addr 1; Ok (le_decode bs).
Definition read_u32 (r : ProcessReader) (addr : Z) : result Z :=
  bs ← read_exact_at r addr 4; Ok (le_decode bs).
Definition read_u64 (r : ProcessReader) (addr : Z) : result Z :=
  bs ← read_exact_at r addr 8; Ok (le_decode bs).
Definition read_i64 (r : ProcessReader) (addr : Z) : result Z :=
  bs ← read_exact_at r addr 8; Ok (i64_of (le_decode bs)).

Definition read_c_string (r : ProcessReader) (addr : Z) (max_len : nat) : result str :=
  if (max_len =? 0)%nat then Err 0
  else buf ← read_exact_at r addr max_len; from_utf8 (until_nul buf).

(** ** Layouts ([cpython.rs], [cpython_312.rs]) *)

Definition MAX_UNICODE_BYTES : Z := 16 * 1024.
Definition MAX_C_STRING : nat := 4096.
Definition MAX_DICT_ENTRIES : Z := 4096.

Record PythonVersion := { major : Z; minor : Z; micro : Z }.

Record CpythonOffsets := {
  ob_type : Z; unicode_length : Z; unicode_state : Z;
  unicode_compact_ascii_data : Z; unicode_compact_non_ascii_data : Z;
  type_tp_name : Z; type_tp_basicsize : Z; type_tp_itemsize : Z; type_tp_dictoffset : Z;
  managed_dict_ptr_from_object : Z;
  dict_ma_used : Z; dict_ma_keys : Z; dict_ma_values : Z;
  dict_keys_log2_size : Z; dict_keys_log2_index_bytes : Z; dict_keys_kind : Z;
  dict_keys_nentries : Z; dict_keys_indices : Z;
  dict_key_entry_size : Z; dict_unicode_entry_size : Z;
  dict_key_entry_key : Z; dict_key_entry_value : Z;
  dict_unicode_entry_key : Z; dict_unicode_entry_value : Z;
  code_filename : Z; code_qualname : Z; frame_executable : Z; frame_localsplus : Z
}.

Record CpythonProfile := {
  version : PythonVersion; pointer_width : Z; debug_build : bool; offsets : CpythonOffsets
}.

Definition offsets_312 : CpythonOffsets :=
  {| ob_type := 8; unicode_length := 16; unicode_state := 32;
     unicode_compact_ascii_data := 40; unicode_compact_non_ascii_data := 72;
     type_tp_name := 24; type_tp_basicsize := 32; type_tp_itemsize := 40;
     type_tp_dictoffset := 288; managed_dict_ptr_from_object := -24;
     dict_ma_used := 16; dict_ma_keys := 32; dict_ma_values := 40;
     dict_keys_log2_size := 8; dict_keys_log2_index_bytes := 9; dict_keys_kind := 10;
     dict_keys_nentries := 24; dict_keys_indices := 32;
     dict_key_entry_size := 24; dict_unicode_entry_size := 16;
     dict_key_entry_key := 8; dict_key_entry_value := 16;
     dict_unicode_entry_key := 0; dict_unicode_entry_value := 8;
     code_filename := 112; code_qualname := 128; frame_executable := 16;
     frame_localsplus := 72 |}.

Definition cpython_312_profile (v : PythonVersion) : CpythonProfile :=
  {| version := v; pointer_width := 8; debug_build := false; offsets := offsets_312 |}.

Definition for_version (v : PythonVersion) (width : Z) : result CpythonProfile :=
  if negb (major v =? 3) then Err 0
  else if (minor v =? 12) && (width =? 8) then Ok (cpython_312_profile v)
  else Err 0.

(** [(value + align - 1) & !(align - 1)] *)
Definition align_up (value align : Z) : Z :=
  Z.land (value ⊞ (align - 1)) (2 ^ 64 - 1 - (align - 1)).

(** ** Objects ([LiveCpythonResolver]) *)

Section live.
Context (reader : ProcessReader) (profile : CpythonProfile).
Abbreviation off := (offsets profile).

Definition read_usize (addr : Z) : result Z :=
  if pointer_width profile =? 8 then read_u64 reader addr
  else if pointer_width profile =? 4 then read_u32 reader addr
  else Err 0.

Definition read_isize (addr : Z) : result Z :=
  if pointer_width profile =? 8 then read_i64 reader addr
  else if pointer_width profile =? 4 then v ← read_u32 reader addr; Ok (i32_of v)
  else Err 0.

Definition read_dict_value_from_split_values (values index : Z) : result (option Z) :=
  if index <? 0 then Ok None
  else
    value ← read_usize (values ⊞ (index ⊠ pointer_width profile));
    Ok (if value =? 0 then None else Some value).

(** [u64::checked_sub]. *)
Definition checked_sub (x y : Z) : result Z := if x <? y then Err 0 else Ok (x - y).

Definition read_negative_dictoffset_dict (obj type_ptr dictoffset : Z) : result Z :=
  itemsize ← read_isize (type_ptr ⊞ type_tp_itemsize off);
  if negb (itemsize =? 0) then Err 0
  else
    basicsize ← read_isize (type_ptr ⊞ type_tp_basicsize off);
    let dict_offset := basicsize + dictoffset in
    if negb ((- 2 ^ 63 <=? dict_offset) && (dict_offset <? 2 ^ 63)) then Err 0
    else if dict_offset >=? 0 then read_usize (obj ⊞ dict_offset)
    else addr ← checked_sub obj (- dict_offset); read_usize addr.

Definition read_type_ptr (obj : Z) : result Z := read_usize (obj ⊞ ob_type off).

Definition read_type_name (obj : Z) : result str :=
  type_ptr ← read_type_ptr obj;
  tp_name ← read_usize (type_ptr ⊞ type_tp_name off);
  read_c_string reader tp_name MAX_C_STRING.

(** Where the characters of a compact string are and how wide each is. *)
Definition unicode_data (obj state : Z) : result (Z * Z) :=
  let kind := Z.land (Z.shiftr state 2) 7 in
  let compact := Z.land (Z.shiftr state 5) 1 =? 1 in
  let ascii := Z.land (Z.shiftr state 6) 1 =? 1 in
  if negb compact then Err 0
  else if ascii then Ok (obj ⊞ unicode_compact_ascii_data off, 1)
  else if (kind =? 1) || (kind =? 2) || (kind =? 4)
       then Ok (obj ⊞ unicode_compact_non_ascii_data off, kind)
       else Err 0.

Definition decode_unicode (width : Z) (buf : list Z) : result str :=
  if width =? 1 then from_utf8 buf
  else if width =? 2 then from_utf16 (le_decode <$> chunks_exact 2 buf)
  else
    let cps := le_decode <$> chunks_exact 4 buf in
    if forallb is_char cps then Ok (string_of_chars cps) else Err 0.

Definition read_unicode (obj : Z) : result str :=
  len ← read_isize (obj ⊞ unicode_length off);
  if len <? 0 then Err 0
  else if len >? MAX_UNICODE_BYTES then Err 0
  else
    state ← read_u32 reader (obj ⊞ unicode_state off);
    data ← unicode_data obj state;
    let '(data_addr, width) := data in
    let byte_len := len * width in
    if byte_len >=? 2 ^ 64 then Err 0
    else if byte_len >? MAX_UNICODE_BYTES then Err 0
    else
      buf ← read_exact_at reader data_addr (Z.to_nat byte_len);
      decode_unicode width buf.

(** One entry of a table: the key and the value, either of them null when the
    slot is free. *)
Definition read_dict_entry (kind values entries idx : Z) : result (Z * Z) :=
  if (kind =? 1) || (kind =? 2) then
    let entry := entries ⊞ (idx ⊠ dict_unicode_entry_size off) in
    key_ptr ← read_usize (entry ⊞ dict_unicode_entry_key off);
    value_ptr ←
      (if values =? 0 then read_usize (entry ⊞ dict_unicode_entry_value off)
       else v ← read_dict_value_from_split_values values idx; Ok (unwrap_or v 0));
    Ok (key_ptr, value_ptr)
  else
    let entry := entries ⊞ (idx ⊠ dict_key_entry_size off) in
    key_ptr ← read_usize (entry ⊞ dict_key_entry_key off);
    value_ptr ← read_usize (entry ⊞ dict_key_entry_value off);
    Ok (key_ptr, value_ptr).

(** [read_unicode(key_ptr).unwrap_or_default() == key] *)
Definition key_matches (key_ptr : Z) (key : str) : bool :=
  bool_decide (match read_unicode key_ptr with Ok s => s | Err _ => [] end = key).

(** [for idx in 0..nentries]. *)
Fixpoint dict_entries_loop (n : nat) (idx kind values entries : Z) (key : str)
    : result (option Z) :=
  match n with
  | O => Ok None
  | S n =>
      kv ← read_dict_entry kind values entries idx;
      let '(key_ptr, value_ptr) := kv in
      if (key_ptr =? 0) || (value_ptr =? 0) then
        dict_entries_loop n (idx + 1) kind values entries key
      else if key_matches key_ptr key then Ok (Some value_ptr)
      else dict_entries_loop n (idx + 1) kind values entries key
  end.

Definition read_dict_item (dict : Z) (key : str) : result (option Z) :=
  used ← read_isize (dict ⊞ dict_ma_used off);
  if used <=? 0 then Ok None
  else
    keys ← read_usize (dict ⊞ dict_ma_keys off);
    values ← read_usize (dict ⊞ dict_ma_values off);
    if keys =? 0 then Ok None
    else
      kind ← read_u8 reader (keys ⊞ dict_keys_kind off);
      index_bytes_log2 ← read_u8 reader (keys ⊞ dict_keys_log2_index_bytes off);
      if index_bytes_log2 >=? 64 then Err 0
      else
        let index_bytes := 1 ≪₆₄ index_bytes_log2 in
        nentries ← read_isize (keys ⊞ dict_keys_nentries off);
        if negb ((0 <=? nentries) && (nentries <=? MAX_DICT_ENTRIES)) then Err 0
        else
          let entries := align_up (keys ⊞ dict_keys_indices off ⊞ index_bytes) 8 in
          dict_entries_loop (Z.to_nat nentries) 0 kind values entries key.

(** The address of a member at a signed offset, [None] when it leaves [u64]. *)
Definition managed_addr (obj : Z) : result Z :=
  let managed := managed_dict_ptr_from_object off in
  if managed >=? 0 then (if obj + managed >=? 2 ^ 64 then Err 0 else Ok (obj + managed))
  else checked_sub obj (- managed).

(** The instance dictionary of an object whose type has [tp_dictoffset] [d]. *)
Definition read_dict_ptr (obj type_ptr d : Z) : result Z :=
  if d =? -1 then
    let offset := managed_dict_ptr_from_object off in
    if offset >=? 0 then read_usize (obj ⊞ offset)
    else addr ← checked_sub obj (- offset); read_usize addr
  else if d >? 0 then read_usize (obj ⊞ d)
  else
    match (addr ← managed_addr obj; read_usize addr) with
    | Ok candidate =>
        if negb (candidate =? 0)
           && match read_type_name candidate with
              | Ok name => bool_decide (name = lit "dict")
              | Err _ => false
              end
        then Ok candidate
        else read_negative_dictoffset_dict obj type_ptr d
    | Err _ => read_negative_dictoffset_dict obj type_ptr d
    end.

Definition read_attr (obj : Z) (key : str) : result (option Z) :=
  type_ptr ← read_type_ptr obj;
  dictoffset ← read_isize (type_ptr ⊞ type_tp_dictoffset off);
  if dictoffset =? 0 then Ok None
  else
    dict_ptr ← read_dict_ptr obj type_ptr dictoffset;
    if dict_ptr =? 0 then Ok None else read_dict_item dict_ptr key.

Definition read_code_filename (code : Z) : result str :=
  ptr ← read_usize (code ⊞ code_filename off); read_unicode ptr.
Definition read_code_qualname (code : Z) : result str :=
  ptr ← read_usize (code ⊞ code_qualname off); read_unicode ptr.

(** [impl CpythonResolver for LiveCpythonResolver]. *)
Definition LiveCpythonResolver : CpythonResolver :=
  {| cr_read_type_ptr := read_type_ptr; cr_read_type_name := read_type_name;
     cr_read_unicode := read_unicode; cr_read_dict_item := read_dict_item;
     cr_read_attr := read_attr; cr_read_code_filename := read_code_filename;
     cr_read_code_qualname := read_code_qualname |}.
End live.

(** ** Detection ([detect_python_for_pid])

    The interpreter of the process is run and prints its version as JSON; the parsed
    output has the elements of [version] ([None]: not an unsigned integer) and
    [pointer_width]. *)
Record ProbeOutput := { po_version : option (list (option Z)); po_pointer_width : option Z }.

Record DetectedPython := { dp_version : PythonVersion; dp_pointer_width : Z }.

Definition as_u8 (n : option Z) : result Z :=
  n ← ok_or n; if n >? 255 then Err 0 else Ok n.

Definition detect_python_for_pid (output : option ProbeOutput) : result DetectedPython :=
  value ← ok_or output;
  version ← ok_or (po_version value);
  match version with
  | [v0; v1; v2] =>
      width ← as_u8 (po_pointer_width value);
      v0 ← as_u8 v0; v1 ← as_u8 v1; v2 ← as_u8 v2;
      Ok {| dp_version := {| major := v0; minor := v1; micro := v2 |}; dp_pointer_width := width |}
  | _ => Err 0
  end.

Definition detect_for_pid (open : Z → ProcessReader) (probe : Z → option ProbeOutput) (pid : Z)
    : result (CpythonResolver * DetectedPython) :=
  detected ← detect_python_for_pid (probe pid);
  profile ← for_version (dp_version detected) (dp_pointer_width detected);
  Ok (LiveCpythonResolver (open pid) profile, detected).
