(* ===== verification/PyObjects.v ===== *)
(** * What the resolver finds in a CPython 3.12 process

    Strings, dictionaries and attributes as CPython 3.12 lays them out in memory, and
    what the reads of [cpython.rs] return on them. *)

From stdpp Require Import base list strings.
From S2P Require Import Prelude Text Types Maps Compiler Runtime Cpython.

(** ** Memory *)

(** The bytes [bs] are mapped from address [a] on. *)
Definition bytes_at (mem : Z → option Z) (a : Z) (bs : list Z) : Prop :=
  ∀ i b, bs !! i = Some b → mem (a + Z.of_nat i) = Some b.

Abbreviation word_at mem a w := (bytes_at mem a (le_bytes 8 w)).

(** [process_vm_readv] copies what is mapped. *)
Class Serves (r : ProcessReader) (mem : Z → option Z) : Prop :=
  serves : ∀ a bs, bytes_at mem a bs → process_vm_readv r a (length bs) = Ok bs.

(** An address of user space, from which the members of an object are reached
    without leaving 64 bits. *)
Definition user_ptr (a : Z) : Prop := 0 < a < 2 ^ 56.

Lemma add_small a k : 0 ≤ a < 2 ^ 62 → 0 ≤ k < 2 ^ 62 → a ⊞ k = a + k.
Proof. intros Ha Hk. apply u64_small. unfold in_u64. lia. Qed.
Lemma ptr_add a k : user_ptr a → 0 ≤ k < 2 ^ 56 → a ⊞ k = a + k.
Proof. unfold user_ptr. intros Ha Hk. apply add_small; lia. Qed.

(** ** Layouts *)

Inductive str_kind := Ascii | Ucs1 | Ucs2 | Ucs4.

Definition char_width (k : str_kind) : nat :=
  match k with Ascii | Ucs1 => 1 | Ucs2 => 2 | Ucs4 => 4 end.
Definition data_offset (k : str_kind) : Z := match k with Ascii => 40 | _ => 72 end.
Definition char_limit (k : str_kind) : Z :=
  match k with Ascii => 0x80 | Ucs1 => 0x100 | Ucs2 => 0x10000 | Ucs4 => 0x110000 end.

(** The state word of a compact string: two bits for interning, then the kind, the
    compact and the ASCII flag. *)
Definition compact_state (k : str_kind) (st : Z) : Prop :=
  in_u32 st ∧ Z.land (Z.shiftr st 2) 7 = Z.of_nat (char_width k)
  ∧ Z.land (Z.shiftr st 5) 1 = 1
  ∧ Z.land (Z.shiftr st 6) 1 = match k with Ascii => 1 | _ => 0 end.

(** A [str] object with the code points [cps]. *)
Record py_str (mem : Z → option Z) (obj : Z) (k : str_kind) (cps : list Z) : Prop := {
  str_ptr : user_ptr obj;
  str_length : word_at mem (obj + 16) (Z.of_nat (length cps));
  str_state : ∃ st, compact_state k st ∧ bytes_at mem (obj + 32) (le_bytes 4 st);
  str_data : bytes_at mem (obj + data_offset k) (cps ≫= le_bytes (char_width k));
  str_chars : Forall (λ c, 0 ≤ c < char_limit k) cps;
  str_fits : Z.of_nat (length cps) < 2 ^ 56
}.

(** A slot of a dictionary: key and value, either of them null in a free slot. *)
Record slot := { sl_key : Z; sl_value : Z; sl_name : list Z }.

Definition slot_live (s : slot) : bool := negb (sl_key s =? 0) && negb (sl_value s =? 0).

(** Text that the resolver reads back exactly. *)
Definition readable (mem : Z → option Z) (ptr : Z) (cps : list Z) : Prop :=
  ∃ k, k ≠ Ucs1 ∧ py_str mem ptr k cps ∧ Forall (λ c, is_char c = true) cps
       ∧ Z.of_nat (length cps) * Z.of_nat (char_width k) ≤ MAX_UNICODE_BYTES.

(** Where slot [i] keeps its key and its value: tables of string keys have entries
    without a hash, and a split table keeps the values apart. *)
Definition slot_addrs (kind values entries i : Z) : Z * Z :=
  if (kind =? 1) || (kind =? 2) then
    (entries + i * 16, if values =? 0 then entries + i * 16 + 8 else values + i * 8)
  else (entries + i * 24 + 8, entries + i * 24 + 16).

Record py_dict (mem : Z → option Z) (dict : Z) (slots : list slot) : Prop := {
  dict_ptr : user_ptr dict;
  dict_layout : ∃ used keys values kind log2,
    let entries := keys + 32 + 2 ^ log2 in
    0 < used < 2 ^ 63 ∧ word_at mem (dict + 16) used
    ∧ user_ptr keys ∧ keys `mod` 8 = 0 ∧ word_at mem (dict + 32) keys
    ∧ (values = 0 ∨ user_ptr values) ∧ word_at mem (dict + 40) values
    ∧ octet kind ∧ mem (keys + 10) = Some kind
    ∧ 3 ≤ log2 < 32 ∧ mem (keys + 9) = Some log2
    ∧ word_at mem (keys + 24) (Z.of_nat (length slots))
    ∧ ∀ i s, slots !! i = Some s →
        let '(k, v) := slot_addrs kind values entries (Z.of_nat i) in
        word_at mem k (sl_key s) ∧ word_at mem v (sl_value s);
  dict_small : Z.of_nat (length slots) ≤ MAX_DICT_ENTRIES;
  dict_keys : Forall (λ s, in_u64 (sl_key s) ∧ in_u64 (sl_value s)
                           ∧ (slot_live s = true → readable mem (sl_key s) (sl_name s))) slots
}.

(** What a lookup in the dictionary means. *)
Definition dict_lookup (slots : list slot) (name : list Z) : option Z :=
  sl_value <$> find (λ s, slot_live s && bool_decide (sl_name s = name)) slots.

(** An object that keeps its attributes in a dictionary: at the negative offset of
    CPython 3.12 for a type with a managed dictionary, at [tp_dictoffset] otherwise. *)
Definition py_instance (mem : Z → option Z) (obj dict : Z) : Prop :=
  ∃ type_ptr d,
    user_ptr obj ∧ 24 < obj ∧ user_ptr type_ptr ∧ word_at mem (obj + 8) type_ptr
    ∧ word_at mem (type_ptr + 288) (u64 d)
    ∧ (d = -1 ∧ word_at mem (obj - 24) dict
       ∨ 0 < d < 2 ^ 56 ∧ word_at mem (obj + d) dict).

(** ** Reading words *)

Lemma result_bind_ok {A B} (r : result A) (a : A) (k : A → result B) :
  r = Ok a → r ≫= k = k a.
Proof. by intros ->. Qed.

Lemma align_up_aligned x : 0 ≤ x < 2 ^ 63 → x `mod` 8 = 0 → align_up x 8 = x.
Proof.
  intros Hx Hm. unfold align_up. rewrite u64_small by (unfold in_u64; lia).
  change (2 ^ 64 - 1 - (8 - 1)) with (Z.shiftl (Z.ones 61) 3). change (8 - 1) with 7.
  replace (x + 7) with (Z.lor (Z.shiftl (x / 8) 3) 7).
  2: { rewrite lor_shiftl_add by lia. change (2 ^ 3) with 8. pose proof (Z.div_mod x 8). lia. }
  apply Z.bits_inj'. intros i Hi. rewrite Z.land_spec, Z.lor_spec, !Z.shiftl_spec by done.
  replace (Z.testbit x i) with (Z.testbit (Z.shiftl (x / 8) 3) i).
  2: { f_equal. rewrite Z.shiftl_mul_pow2 by lia. change (2 ^ 3) with 8.
       pose proof (Z.div_mod x 8). lia. }
  rewrite Z.shiftl_spec by done. destruct (decide (i < 3)).
  { by rewrite !(Z.testbit_neg_r _ (i - 3)), andb_false_r by lia. }
  rewrite (Z.bits_above_log2 7 i), orb_false_r by (cbn; lia).
  destruct (decide (i - 3 < 61)) as [Hlt|Hge].
  { by rewrite Z.ones_spec_low, andb_true_r by lia. }
  rewrite Z.ones_spec_high, andb_false_r by lia. symmetry.
  destruct (decide (x / 8 = 0)) as [->|]; [apply Z.bits_0|].
  apply Z.bits_above_log2; [apply Z.div_pos; lia|].
  apply Z.log2_lt_pow2; [pose proof (Z.div_pos x 8); lia|].
  apply Z.lt_le_trans with (2 ^ 61); [apply Z.div_lt_upper_bound; lia|].
  apply Z.pow_le_mono_r; lia.
Qed.

Section reading.
Context (r : ProcessReader) (mem : Z → option Z) `{!Serves r mem} (v : PythonVersion).
Abbreviation profile := (cpython_312_profile v).

Lemma read_exact_mapped a bs :
  a ≠ 0 → bytes_at mem a bs → read_exact_at r a (length bs) = Ok bs.
Proof.
  intros Ha Hb. unfold read_exact_at. destruct bs as [|b bs]; [done|].
  set (l := b :: bs) in *. replace (length l =? 0)%nat with false by done.
  rewrite (proj2 (Z.eqb_neq _ _) Ha). unfold read_process_vm.
  by rewrite (serves a l Hb), (result_bind_ok (Ok l) l), Nat.eqb_refl.
Qed.

Lemma read_mapped n a w :
  a ≠ 0 → bytes_at mem a (le_bytes n w) → read_exact_at r a n = Ok (le_bytes n w).
Proof.
  intros Ha Hb. destruct (le_bytes_octets n w) as [_ Hl]. rewrite <-Hl at 1.
  by apply read_exact_mapped.
Qed.

Lemma read_usize_mapped a w :
  a ≠ 0 → in_u64 w → word_at mem a w → read_usize r profile a = Ok w.
Proof.
  intros Ha Hw Hb. unfold read_usize, read_u64.
  change (pointer_width profile =? 8) with true. cbv iota.
  rewrite (read_mapped 8 a w) by done. cbn [mbind result_bind]. f_equal.
  by apply (le_decode_bytes 8).
Qed.

Lemma read_isize_mapped a w :
  a ≠ 0 → in_u64 w → word_at mem a w → read_isize r profile a = Ok (i64_of w).
Proof.
  intros Ha Hw Hb. unfold read_isize, read_i64.
  change (pointer_width profile =? 8) with true. cbv iota.
  rewrite (read_mapped 8 a w) by done. cbn [mbind result_bind].
  by rewrite (le_decode_bytes 8).
Qed.

Lemma read_byte_mapped a b : a ≠ 0 → octet b → mem a = Some b → read_u8 r a = Ok b.
Proof.
  unfold octet. intros Ha Hb Hm. unfold read_u8. rewrite (read_mapped 1 a b) by
    (done || intros [|i] c [= <-]; rewrite Z.add_0_r, Z.mod_small by lia; done).
  cbn. rewrite Z.mod_small by lia. f_equal. lia.
Qed.

Lemma i64_small w : 0 ≤ w < 2 ^ 63 → i64_of w = w.
Proof. intros Hw. unfold i64_of. by rewrite (proj2 (Z.ltb_lt _ _)) by lia. Qed.

(** ** Strings *)

Lemma unicode_data_state obj k st :
  user_ptr obj → compact_state k st →
  unicode_data profile obj st = Ok (obj + data_offset k, Z.of_nat (char_width k)).
Proof.
  intros Ho (_ & Hk & Hc & Ha). unfold unicode_data. rewrite Hk, Hc, Ha.
  destruct k; cbn; rewrite ptr_add by (done || lia); done.
Qed.

Lemma read_unicode_data obj k cps :
  py_str mem obj k cps →
  Z.of_nat (length cps) * Z.of_nat (char_width k) ≤ MAX_UNICODE_BYTES →
  read_unicode r profile obj
  = decode_unicode (Z.of_nat (char_width k)) (cps ≫= le_bytes (char_width k)).
Proof.
  intros [Ho Hl (st & Hst & Hm) Hd _ _] Hsz. unfold MAX_UNICODE_BYTES in Hsz.
  assert (1 ≤ Z.of_nat (char_width k)) by (destruct k; cbn; lia).
  assert (Z.of_nat (length cps) ≤ 16 * 1024) by nia. pose proof Ho as [??].
  unfold read_unicode. cbn [offsets cpython_312_profile offsets_312 unicode_length unicode_state].
  rewrite !ptr_add by (done || lia).
  rewrite (read_isize_mapped _ (Z.of_nat (length cps)))
    by first [done | unfold in_u64; lia].
  cbn [mbind result_bind]. rewrite i64_small by lia. unfold MAX_UNICODE_BYTES.
  rewrite (proj2 (Z.ltb_ge _ _)), Z.gtb_ltb, (proj2 (Z.ltb_ge _ _)) by lia.
  unfold read_u32. rewrite (read_mapped 4 _ st) by (done || lia). cbn [mbind result_bind].
  destruct Hst as [Hr Hst]. rewrite (le_decode_bytes 4) by apply Hr.
  rewrite (unicode_data_state obj k) by done. cbn [mbind result_bind].
  rewrite Z.geb_leb, (proj2 (Z.leb_gt _ _)), Z.gtb_ltb, (proj2 (Z.ltb_ge _ _)) by lia.
  replace (Z.to_nat _) with (length (cps ≫= le_bytes (char_width k)))
    by (rewrite length_flat_bytes; lia).
  by rewrite read_exact_mapped by (done || destruct k; cbn; lia).
Qed.

Lemma le_bytes_1 cps : Forall octet cps → cps ≫= le_bytes 1 = cps.
Proof.
  unfold octet. induction 1 as [|c cps Hc _ IH]; [done|]. cbn [mbind list_bind].
  change (list_bind _ _ (le_bytes 1) cps) with (cps ≫= le_bytes 1). rewrite IH. cbn.
  by rewrite Z.mod_small by lia.
Qed.

Lemma decode_chunks n cps :
  (0 < n)%nat → Forall (λ c, 0 ≤ c < 256 ^ Z.of_nat n) cps →
  le_decode <$> chunks_exact n (cps ≫= le_bytes n) = cps.
Proof.
  intros Hn Hc. rewrite chunks_exact_bytes by done. rewrite <-list_fmap_compose.
  induction Hc as [|c cps Hc _ IH]; [done|]. cbn [fmap list_fmap]. f_equal; [|exact IH].
  by apply (le_decode_bytes n).
Qed.

Lemma decode_unicode_chars k cps :
  k ≠ Ucs1 → Forall (λ c, 0 ≤ c < char_limit k) cps → Forall (λ c, is_char c = true) cps →
  decode_unicode (Z.of_nat (char_width k)) (cps ≫= le_bytes (char_width k))
  = Ok (string_of_chars cps).
Proof.
  intros Hk Hl Hc. unfold decode_unicode. destruct k; [| done | |]; cbn [char_width char_limit] in *.
  - rewrite le_bytes_1 by (eapply Forall_impl; [exact Hl|]; unfold octet; cbn; lia). cbn.
    rewrite <-(string_of_ascii cps) at 1 by (eapply Forall_impl; [exact Hl|]; done).
    by apply from_utf8_chars.
  - cbn. rewrite decode_chunks by (lia || (eapply Forall_impl; [exact Hl|]; cbn; lia)).
    unfold from_utf16. by rewrite decode_utf16_bmp.
  - cbn. rewrite decode_chunks by (lia || (eapply Forall_impl; [exact Hl|]; cbn; lia)).
    rewrite (proj2 (forallb_forall is_char cps)); [done|]. intros c Hin.
    rewrite Forall_forall in Hc. by apply Hc, list_elem_of_In.
Qed.

Lemma read_unicode_readable ptr cps :
  readable mem ptr cps → read_unicode r profile ptr = Ok (string_of_chars cps).
Proof.
  intros (k & Hk & Hs & Hc & Hsz). rewrite (read_unicode_data ptr k cps) by done.
  apply decode_unicode_chars; [done| |done]. by destruct Hs.
Qed.

(** ** Dictionaries and attributes *)

Lemma mul_small i k : 0 ≤ i ≤ MAX_DICT_ENTRIES → 0 ≤ k ≤ 24 → i ⊠ k = i * k.
Proof. unfold MAX_DICT_ENTRIES. intros Hi Hk. apply u64_small. unfold in_u64. nia. Qed.

Lemma read_split_value values i w :
  user_ptr values → 0 ≤ i ≤ MAX_DICT_ENTRIES → in_u64 w → word_at mem (values + i * 8) w →
  (v ← read_dict_value_from_split_values r profile values i; Ok (unwrap_or v 0)) = Ok w.
Proof.
  intros Hv Hi Hw Hm. unfold read_dict_value_from_split_values, MAX_DICT_ENTRIES, user_ptr in *.
  rewrite (proj2 (Z.ltb_ge _ _)) by lia. cbn [pointer_width cpython_312_profile].
  rewrite mul_small, add_small by (unfold MAX_DICT_ENTRIES; lia).
  rewrite (read_usize_mapped _ w) by (done || lia). cbn [mbind result_bind].
  by destruct (Z.eqb_spec w 0) as [->|].
Qed.

Lemma read_dict_entry_mapped kind values entries i s :
  0 < entries < 2 ^ 57 → (values = 0 ∨ user_ptr values) → 0 ≤ i ≤ MAX_DICT_ENTRIES →
  in_u64 (sl_key s) → in_u64 (sl_value s) →
  word_at mem (slot_addrs kind values entries i).1 (sl_key s) →
  word_at mem (slot_addrs kind values entries i).2 (sl_value s) →
  read_dict_entry r profile kind values entries i = Ok (sl_key s, sl_value s).
Proof.
  intros He Hv Hi Hk Hw. unfold slot_addrs, read_dict_entry.
  cbn [offsets cpython_312_profile offsets_312 dict_unicode_entry_size dict_key_entry_size
       dict_unicode_entry_key dict_unicode_entry_value dict_key_entry_key dict_key_entry_value].
  assert (0 ≤ i * 16 ∧ i * 24 < 2 ^ 20) by (unfold MAX_DICT_ENTRIES in *; lia).
  destruct (_ || _); cbn [fst snd]; intros Mk Mv; rewrite !mul_small, !(add_small entries), !add_small by lia.
  - rewrite Z.add_0_r, (read_usize_mapped (entries + i * 16) (sl_key s)) by (done || lia). cbn [mbind result_bind].
    destruct (Z.eqb_spec values 0) as [|Hn].
    + by rewrite (read_usize_mapped _ (sl_value s)) by (done || lia).
    + destruct Hv as [|Hv]; [done|].
      by rewrite (result_bind_ok _ _ _ (read_split_value values i _ Hv Hi Hw Mv)).
  - rewrite (read_usize_mapped (entries + i * 24 + 8) (sl_key s)) by (done || lia). cbn [mbind result_bind].
    by rewrite (read_usize_mapped _ (sl_value s)) by (done || lia).
Qed.

Lemma key_matches_name ptr name name' :
  readable mem ptr name → Forall (λ c, is_char c = true) name' →
  key_matches r profile ptr (string_of_chars name') = bool_decide (name = name').
Proof.
  intros Hr Hc. unfold key_matches. rewrite (read_unicode_readable ptr name) by done.
  destruct Hr as (_ & _ & _ & Hc' & _). apply bool_decide_ext. split; [|by intros ->].
  by apply string_of_chars_inj.
Qed.

Lemma dict_loop_lookup kind values entries name rest i :
  Forall (λ c, is_char c = true) name →
  (∀ j s, rest !! j = Some s →
     read_dict_entry r profile kind values entries (i + Z.of_nat j) = Ok (sl_key s, sl_value s)) →
  Forall (λ s, slot_live s = true → readable mem (sl_key s) (sl_name s)) rest →
  dict_entries_loop r profile (length rest) i kind values entries (string_of_chars name)
  = Ok (dict_lookup rest name).
Proof.
  intros Hn. revert i. induction rest as [|s rest IH]; intros i He Hl; [done|].
  apply Forall_cons in Hl as [Hs Hl]. cbn [length dict_entries_loop].
  pose proof (He 0%nat s eq_refl) as H0. rewrite Z.add_0_r in H0.
  rewrite (result_bind_ok _ _ _ H0). cbv iota.
  assert (dict_entries_loop r profile (length rest) (i + 1) kind values entries
            (string_of_chars name) = Ok (dict_lookup rest name)) as IH'.
  { apply IH; [|done]. intros j s' Hj. rewrite <-(He (S j) s' Hj). f_equal. lia. }
  unfold dict_lookup in *. cbn [find]. unfold slot_live in Hs |- * at 1.
  rewrite <-negb_orb in Hs |- *. destruct (_ || _); [done|]. cbn [negb andb].
  rewrite (key_matches_name _ (sl_name s)) by auto. by case_bool_decide.
Qed.

Lemma read_dict_item_lookup dict slots name :
  py_dict mem dict slots → Forall (λ c, is_char c = true) name →
  read_dict_item r profile dict (string_of_chars name) = Ok (dict_lookup slots name).
Proof.
  intros [Hd (used & keys & values & kind & log2 & Hu & Mu & Hk & Ha & Mk & Hv & Mv & Ho & Mo &
    Hg & Mg & Mn & Ms) Hsz Hkeys] Hn. unfold read_dict_item.
  cbn [offsets cpython_312_profile offsets_312 dict_ma_used dict_ma_keys dict_ma_values
       dict_keys_kind dict_keys_log2_index_bytes dict_keys_nentries dict_keys_indices].
  pose proof Hd as [??]. pose proof Hk as [??]. rewrite !ptr_add by (done || lia).
  unfold MAX_DICT_ENTRIES in *.
  rewrite (read_isize_mapped _ used) by first [done | unfold in_u64; lia]. cbn [mbind result_bind].
  rewrite i64_small, (proj2 (Z.leb_gt _ _)) by lia.
  rewrite (read_usize_mapped (dict + 32) keys) by first [done | unfold in_u64; lia].
  rewrite (read_usize_mapped _ values)
    by first [done | lia | unfold in_u64, user_ptr in *; lia]. cbn [mbind result_bind].
  rewrite (proj2 (Z.eqb_neq keys 0)), !(ptr_add keys) by (done || lia).
  rewrite (read_byte_mapped (keys + 10) kind), (read_byte_mapped _ log2)
    by first [done | lia | unfold octet; lia]. cbn [mbind result_bind].
  rewrite Z.geb_leb, (proj2 (Z.leb_gt _ _)) by lia.
  rewrite (read_isize_mapped _ (Z.of_nat (length slots))) by first [done | unfold in_u64; lia].
  cbn [mbind result_bind]. rewrite i64_small by lia.
  rewrite (proj2 (Z.leb_le 0 _)), (proj2 (Z.leb_le _ 4096)) by lia. cbn [andb negb].
  assert (0 < 2 ^ log2 < 2 ^ 32) as [??] by
    (split; [apply Z.pow_pos_nonneg; lia|apply Z.pow_lt_mono_r; lia]).
  rewrite Z.shiftl_1_l, (u64_small (2 ^ log2)), add_small by (unfold in_u64; lia).
  rewrite align_up_aligned; [|lia|].
  2: { replace (2 ^ log2) with (2 ^ (log2 - 3) * 8)
         by (change 8 with (2 ^ 3); rewrite <-Z.pow_add_r by lia; f_equal; lia).
       replace 32 with (4 * 8) by done. rewrite !Z.mod_add by lia. done. }
  rewrite Nat2Z.id. apply dict_loop_lookup; [done| |].
  - intros j s Hj. pose proof (lookup_lt_Some _ _ _ Hj). rewrite Forall_forall in Hkeys.
    destruct (Hkeys s ltac:(by eapply list_elem_of_lookup_2)) as (? & ? & _).
    specialize (Ms j s Hj). rewrite Z.add_0_l.
    destruct (slot_addrs kind values (keys + 32 + 2 ^ log2) (Z.of_nat j)) as [ka va] eqn:E.
    apply read_dict_entry_mapped; rewrite ?E; unfold MAX_DICT_ENTRIES; first [by apply Ms | done | lia].
  - eapply Forall_impl; [exact Hkeys|]. naive_solver.
Qed.

Lemma read_attr_lookup obj dict slots name :
  py_instance mem obj dict → py_dict mem dict slots → Forall (λ c, is_char c = true) name →
  read_attr r profile obj (string_of_chars name) = Ok (dict_lookup slots name).
Proof.
  intros (type_ptr & d & Ho & Ho' & Ht & Mt & Md & Hd) Hdict Hn.
  pose proof Ho as [??]. pose proof Ht as [??]. unfold read_attr, read_type_ptr.
  cbn [offsets cpython_312_profile offsets_312 ob_type type_tp_dictoffset].
  rewrite ptr_add, (read_usize_mapped _ type_ptr) by first [done | lia | unfold in_u64; lia].
  cbn [mbind result_bind]. rewrite ptr_add by (done || lia).
  rewrite (read_isize_mapped _ (u64 d)) by first [apply u64_range | done | lia].
  cbn [mbind result_bind].
  assert (i64_of (u64 d) = d) as ->.
  { destruct Hd as [[-> _]|[? _]]; [done|]. rewrite u64_small by (unfold in_u64; lia).
    apply i64_small. lia. }
  rewrite (proj2 (Z.eqb_neq d 0)) by lia. pose proof (dict_ptr _ _ _ Hdict) as Hp. pose proof Hp as [??].
  assert (read_dict_ptr r profile obj type_ptr d = Ok dict) as E.
  { unfold read_dict_ptr. destruct Hd as [[-> Hm]|[Hr Hm]].
    - cbn [offsets cpython_312_profile offsets_312 managed_dict_ptr_from_object Z.eqb Pos.eqb].
      unfold checked_sub. change (-24 >=? 0) with false. cbv iota.
      rewrite (proj2 (Z.ltb_ge _ _)) by lia. cbn [mbind result_bind].
      by rewrite (read_usize_mapped _ dict) by first [done | lia | unfold in_u64; lia].
    - rewrite (proj2 (Z.eqb_neq d (-1))), Z.gtb_ltb, (proj2 (Z.ltb_lt _ _)), ptr_add by (done || lia).
      by rewrite (read_usize_mapped _ dict) by first [done | lia | unfold in_u64; lia]. }
  rewrite E. cbn [mbind result_bind]. rewrite (proj2 (Z.eqb_neq dict 0)) by lia.
  by apply read_dict_item_lookup.
Qed.

Lemma read_unicode_too_large obj k cps :
  py_str mem obj k cps →
  MAX_UNICODE_BYTES < Z.of_nat (length cps) * Z.of_nat (char_width k) →
  read_unicode r profile obj = Err 0.
Proof.
  intros [Ho Hl (st & Hst & Hm) Hd _ Hf] Hsz. pose proof Ho as [??].
  assert (1 ≤ Z.of_nat (char_width k) ≤ 4) by (destruct k; cbn; lia).
  unfold read_unicode. cbn [offsets cpython_312_profile offsets_312 unicode_length unicode_state].
  rewrite !ptr_add by (done || lia).
  rewrite (read_isize_mapped _ (Z.of_nat (length cps)))
    by first [done | unfold in_u64; lia].
  cbn [mbind result_bind]. rewrite i64_small, (proj2 (Z.ltb_ge _ _)), Z.gtb_ltb by lia.
  destruct (Z.ltb_spec MAX_UNICODE_BYTES (Z.of_nat (length cps))); [done|].
  unfold read_u32. rewrite (read_mapped 4 _ st) by (done || lia). cbn [mbind result_bind].
  pose proof Hst as [Hr _]. rewrite (le_decode_bytes 4) by apply Hr.
  rewrite (unicode_data_state obj k) by done. cbn [mbind result_bind].
  destruct (_ >=? _); [done|]. by rewrite Z.gtb_ltb, (proj2 (Z.ltb_lt _ _)) by lia.
Qed.
End reading.
