(* ===== verification/PyResolve.v ===== *)
(** * The identity of a tool, from the memory of its process

    The resolver returns the name that a tool object holds, and the identifier under
    which the policy of that name is filed; what it makes of a string object depends
    on the representation CPython chose for it. *)

From stdpp Require Import base list strings.
From S2P Require Import Prelude Text Types Maps Compiler Runtime Cpython PyObjects.

(** A code object with its two names. *)
Definition py_code (mem : Z → option Z) (code : Z) (filename qualname : list Z) : Prop :=
  ∃ f q, user_ptr code ∧ user_ptr f ∧ user_ptr q
    ∧ word_at mem (code + 112) f ∧ readable mem f filename
    ∧ word_at mem (code + 128) q ∧ readable mem q qualname.

(** The code objects at which a LangChain tool is entered. *)
Definition boundary (filename qualname : list Z) : Prop :=
  string_of_chars qualname ∈ [lit "BaseTool.run"; lit "BaseTool.arun";
                              lit "BaseTool.invoke"; lit "BaseTool.ainvoke"]
  ∧ ends_with (lit "langchain_core/tools/base.py") (string_of_chars filename) = true.

(** The code points of [name]. *)
Definition name_attr : list Z := lit "name".

Section live.
Context (r : ProcessReader) (mem : Z → option Z) `{!Serves r mem} (v : PythonVersion).
Abbreviation live := (LiveCpythonResolver r (cpython_312_profile v)).

Lemma classify_code_boundary code filename qualname :
  py_code mem code filename qualname → boundary filename qualname →
  classify_code live code = Ok ToolBoundary.
Proof.
  intros (f & q & Hc & Hf & Hq & Mf & Rf & Mq & Rq) [Hb He].
  unfold classify_code. cbn [cr_read_code_qualname cr_read_code_filename LiveCpythonResolver].
  pose proof Hc as [??]. pose proof Hf as [??]. pose proof Hq as [??].
  assert (read_code_qualname r (cpython_312_profile v) code = Ok (string_of_chars qualname)) as ->.
  { unfold read_code_qualname. cbn [offsets cpython_312_profile offsets_312 code_qualname].
    rewrite ptr_add, (read_usize_mapped r mem v _ q) by first [done | lia | unfold in_u64; lia].
    by apply (read_unicode_readable r mem). }
  assert (read_code_filename r (cpython_312_profile v) code = Ok (string_of_chars filename)) as ->.
  { unfold read_code_filename. cbn [offsets cpython_312_profile offsets_312 code_filename].
    rewrite ptr_add, (read_usize_mapped r mem v _ f) by first [done | lia | unfold in_u64; lia].
    by apply (read_unicode_readable r mem). }
  by rewrite (bool_decide_eq_true_2 _ Hb), He.
Qed.

Lemma resolve_tool_name obj dict slots ptr cps :
  py_instance mem obj dict → py_dict mem dict slots →
  dict_lookup slots name_attr = Some ptr → readable mem ptr cps → cps ≠ [] →
  resolve_tool live obj
  = Ok {| rl_name := string_of_chars cps; rl_tool_id := rules_fnv1a_32 (string_of_chars cps) |}.
Proof.
  intros Hi Hd Hl Hr Hne. unfold resolve_tool. cbn [cr_read_attr cr_read_unicode LiveCpythonResolver].
  change (lit "name") with (string_of_chars name_attr).
  rewrite (read_attr_lookup r mem v obj dict slots name_attr Hi Hd), Hl by (by repeat constructor).
  rewrite (read_unicode_readable r mem v ptr cps Hr).
  destruct (string_of_chars cps) eqn:E; [|done]. destruct (string_longer cps) as [Hlen _].
  rewrite E in Hlen. by destruct cps; cbn in Hlen; [|lia].
Qed.
End live.

(** ** Text *)

(** C33: reading back what CPython stored.  A compact string of at most 16 KiB is
    returned as the UTF-8 encoding of its characters when it is stored as ASCII or
    with two or four bytes per character; a larger one is refused.  One that is
    stored as Latin-1, which CPython does for text with a character between U+0080
    and U+00FF and none above, is never returned as what it says: its bytes are
    taken for UTF-8. *)
Theorem read_unicode_spec r mem v obj k cps :
  Serves r mem → py_str mem obj k cps → Forall (λ c, is_char c = true) cps →
  let size := Z.of_nat (length cps) * Z.of_nat (char_width k) in
  let got := read_unicode r (cpython_312_profile v) obj in
  (k ≠ Ucs1 → size ≤ MAX_UNICODE_BYTES → got = Ok (string_of_chars cps))
  ∧ (MAX_UNICODE_BYTES < size → got = Err 0)
  ∧ (k = Ucs1 → size ≤ MAX_UNICODE_BYTES → got = from_utf8 cps)
  ∧ (k = Ucs1 → Exists (λ c, 128 ≤ c) cps → got ≠ Ok (string_of_chars cps)).
Proof.
  intros Hr Hs Hc size got.
  assert (k = Ucs1 → size ≤ MAX_UNICODE_BYTES → got = from_utf8 cps) as Hl.
  { intros -> Hsz. unfold got. rewrite (read_unicode_data r mem v obj Ucs1 cps Hs Hsz).
    cbn [char_width]. rewrite le_bytes_1; [done|].
    eapply Forall_impl; [apply (str_chars _ _ _ _ Hs)|]. unfold octet. cbn. lia. }
  split; [|split; [|split; [exact Hl|]]].
  - intros Hk Hsz. apply (read_unicode_readable r mem). by exists k.
  - apply (read_unicode_too_large r mem v obj k cps Hs).
  - intros Hk Hx. destruct (decide (size ≤ MAX_UNICODE_BYTES)) as [Hsz|Hsz].
    + rewrite (Hl Hk Hsz). unfold from_utf8. destruct (decode_utf8 cps); [|done].
      intros [= E]. destruct (string_longer cps) as [_ Hlt]. specialize (Hlt Hx).
      rewrite <-E in Hlt. lia.
    + unfold got. by rewrite (read_unicode_too_large r mem v obj k cps Hs) by (unfold size in *; lia).
Qed.

(** ** Tools *)

(** C18: the name in memory is the identity.  A candidate whose object keeps a
    readable [name] in its instance dictionary, and whose code is one of LangChain's
    entry points (or was recognised by its suffix), is resolved to that name and to
    the identifier that the policy compiler files the name's rules under. *)
Theorem resolve_candidate_live r mem v ev dict slots ptr cps :
  Serves r mem →
  (re_code_kind ev = CODE_KIND_IGNORE
   ∨ ∃ filename qualname, py_code mem (re_code_ptr ev) filename qualname
                          ∧ boundary filename qualname) →
  py_instance mem (re_self_ptr ev) dict → py_dict mem dict slots →
  dict_lookup slots name_attr = Some ptr → readable mem ptr cps → cps ≠ [] →
  resolve_candidate (LiveCpythonResolver r (cpython_312_profile v)) ev
  = Ok {| rl_name := string_of_chars cps; rl_tool_id := rules_fnv1a_32 (string_of_chars cps) |}.
Proof.
  intros Hs Hcode Hi Hd Hl Hr Hne. pose proof (resolve_tool_name r mem v _ _ _ _ _ Hi Hd Hl Hr Hne) as E.
  unfold resolve_candidate. destruct (Z.eqb_spec (re_code_kind ev) CODE_KIND_IGNORE); [exact E|].
  destruct Hcode as [|(filename & qualname & Hc & Hb)]; [done|].
  by rewrite (classify_code_boundary r mem v _ _ _ Hc Hb).
Qed.

(** ** A process with one tool *)

(** Memory made of segments, and the reader that serves it. *)
Definition mem_of (segs : list (Z * list Z)) (a : Z) : option Z :=
  foldr (λ seg rest, if (seg.1 <=? a) && (a <? seg.1 + Z.of_nat (length seg.2))
                     then seg.2 !! Z.to_nat (a - seg.1) else rest) None segs.

Fixpoint load (mem : Z → option Z) (a : Z) (n : nat) : option (list Z) :=
  match n with
  | O => Some []
  | S n => b ← mem a; bs ← load mem (a + 1) n; Some (b :: bs)
  end.

Definition reader_of (mem : Z → option Z) : ProcessReader :=
  {| process_vm_readv := λ a n, ok_or (load mem a n); proc_mem := λ _ _, Err 0 |}.

Lemma load_bytes_at mem a bs : load mem a (length bs) = Some bs ↔ bytes_at mem a bs.
Proof.
  revert a. induction bs as [|b bs IH]; intros a; cbn; [done|]. split.
  - intros H. destruct (mem a) as [b'|] eqn:E; [|done]. cbn in H.
    destruct (load mem (a + 1) (length bs)) as [bs'|] eqn:E'; [|done]. injection H as -> ->.
    apply IH in E'. intros [|i] c Hi; cbn in Hi.
    + injection Hi as <-. by rewrite Z.add_0_r.
    + replace (a + Z.of_nat (S i)) with (a + 1 + Z.of_nat i) by lia. by apply E'.
  - intros H. assert (mem a = Some b) as -> by (rewrite <-(H 0%nat b) by done; f_equal; lia). cbn.
    rewrite (proj2 (IH (a + 1))); [done|]. intros i c Hi.
    replace (a + 1 + Z.of_nat i) with (a + Z.of_nat (S i)) by lia. by apply H.
Qed.

#[global] Instance reader_of_serves mem : Serves (reader_of mem) mem.
Proof. intros a bs H. apply load_bytes_at in H. cbn. by rewrite H. Qed.

(** A compact string of ASCII text and one of Latin-1 text. *)
Definition ascii_object (obj : Z) (s : list Z) : list (Z * list Z) :=
  [(obj + 16, le_bytes 8 (Z.of_nat (length s))); (obj + 32, le_bytes 4 100); (obj + 40, s)].
Definition latin1_object (obj : Z) (s : list Z) : list (Z * list Z) :=
  [(obj + 16, le_bytes 8 (Z.of_nat (length s))); (obj + 32, le_bytes 4 36); (obj + 72, s)].

(** An instance at 1024 of a type at 2048 with a managed dictionary at 3072, whose
    keys at 4096 have the one entry [name] = [web]. *)
Definition tool_memory : Z → option Z := mem_of
  ([(1032, le_bytes 8 2048); (1000, le_bytes 8 3072); (2336, le_bytes 8 (2 ^ 64 - 1));
    (3088, le_bytes 8 1); (3104, le_bytes 8 4096); (3112, le_bytes 8 0);
    (4105, [3; 1]); (4120, le_bytes 8 1); (4136, le_bytes 8 5120); (4144, le_bytes 8 6144)]
   ++ ascii_object 5120 name_attr ++ ascii_object 6144 (lit "web") ++ latin1_object 7168 [233]).

Definition tool_slots : list slot := [{| sl_key := 5120; sl_value := 6144; sl_name := name_attr |}].

Ltac mapped := apply load_bytes_at; vm_compute; reflexivity.

Lemma sample_ascii obj s :
  user_ptr obj → Forall ascii s → Z.of_nat (length s) < 100 →
  word_at tool_memory (obj + 16) (Z.of_nat (length s)) →
  bytes_at tool_memory (obj + 32) (le_bytes 4 100) → bytes_at tool_memory (obj + 40) s →
  readable tool_memory obj s.
Proof.
  intros Ho Ha Hl H1 H2 H3. exists Ascii. split; [done|]. split; [split; try done|split].
  - exists 100. by split.
  - cbn. rewrite le_bytes_1; [done|]. eapply Forall_impl; [exact Ha|]. unfold ascii, octet. lia.
  - cbn. lia.
  - eapply Forall_impl; [exact Ha|]. unfold ascii. intros c Hc. apply is_char_spec. lia.
  - unfold MAX_UNICODE_BYTES. cbn. lia.
Qed.

Lemma sample_name : readable tool_memory 5120 name_attr.
Proof. apply sample_ascii; [done|by repeat constructor|done|mapped|mapped|mapped]. Qed.
Lemma sample_value : readable tool_memory 6144 (lit "web").
Proof. apply sample_ascii; [done|by repeat constructor|done|mapped|mapped|mapped]. Qed.

Lemma sample_instance : py_instance tool_memory 1024 3072.
Proof.
  exists 2048, (-1). unfold user_ptr. do 3 (split; [lia|]). split; [mapped|]. split; [mapped|].
  left. split; [done|]. mapped.
Qed.

Lemma sample_dict : py_dict tool_memory 3072 tool_slots.
Proof.
  split; [done| |done|].
  - exists 1, 4096, 0, 1, 3. unfold user_ptr, octet.
    split; [lia|]. split; [mapped|]. split; [lia|]. split; [done|]. split; [mapped|].
    split; [lia|]. split; [mapped|]. split; [lia|]. split; [by vm_compute|].
    split; [lia|]. split; [by vm_compute|]. split; [mapped|].
    intros [|[|i]] s; cbn; [|done|done]. intros [= <-]. split; mapped.
  - constructor; [|done]. split; [done|]. split; [done|]. intros _. apply sample_name.
Qed.

Lemma read_unicode_spec_witness :
  read_unicode (reader_of tool_memory) (cpython_312_profile {| major := 3; minor := 12; micro := 3 |})
    7168 ≠ Ok (string_of_chars [233]).
Proof.
  apply (read_unicode_spec (reader_of tool_memory) tool_memory _ 7168 Ucs1 [233]).
  - apply _.
  - split; [done|mapped| |cbn; mapped|by repeat constructor|done]. exists 36. split; [done|mapped].
  - by repeat constructor.
  - done.
  - by constructor.
Defined.

Lemma resolve_candidate_live_witness :
  resolve_candidate
    (LiveCpythonResolver (reader_of tool_memory)
       (cpython_312_profile {| major := 3; minor := 12; micro := 3 |}))
    {| re_pid := 7; re_tid := 9; re_ts_ns := 1; re_kind := EVENT_RESOLVER_CANDIDATE;
       re_code_kind := CODE_KIND_IGNORE; re_ctx_id := 5; re_self_ptr := 1024; re_type_ptr := 2048;
       re_frame_ptr := 1; re_code_ptr := 1 |}
  = Ok {| rl_name := lit "web"; rl_tool_id := rules_fnv1a_32 (lit "web") |}.
Proof.
  apply (resolve_candidate_live (reader_of tool_memory) tool_memory _ _ 3072 tool_slots 6144 (lit "web")).
  - apply _.
  - by left.
  - exact sample_instance.
  - exact sample_dict.
  - done.
  - exact sample_value.
  - done.
Defined.
