(* ===== verification/Contract.v ===== *)
(** * Probe contracts ([ironscope/src/python_symbols.rs])

    A contract says where in the interpreter the programs attach and how its objects
    are laid out.  It is only used when it matches the running interpreter and has
    been verified.  The file system, JSON and ELF parsing and [sha256sum] are
    parameters; paths and strings are lists of bytes. *)

From stdpp Require Import base gmap list strings.
From S2P Require Import Prelude Text Types Maps Compiler.

(** ** Data *)

Record ContractPythonInfo := {
  pi_implementation : str; pi_version : str; pi_arch : str; pi_build_id : str;
  pi_sha256_fallback : str
}.
Record ContractVerification := { cv_state : str; cv_verifier : str; cv_verified_ns : Z }.
Record LibPythonInfo := {
  lp_path : str; lp_build_id : str; lp_build_id_fallback_sha256 : str; lp_arch : str
}.
Record ModuleInfo := { mi_path : str; mi_build_id : str }.

Record SymbolEntry := {
  se_source : str; se_file_offset : Z;
  se_start_frame_file_offset : option Z; se_start_frame_extra_file_offsets : list Z;
  se_start_frame_offset_source : option str; se_frame_reg_idx : option Z; se_size : option Z;
  se_end_return_value_file_offset : option Z; se_end_return_value_frame_reg_idx : option Z;
  se_end_return_value_offset_source : option str;
  se_end_return_const_file_offset : option Z; se_end_return_const_frame_reg_idx : option Z;
  se_end_return_const_offset_source : option str;
  se_end_exception_file_offset : option Z; se_end_exception_frame_reg_idx : option Z;
  se_end_exception_offset_source : option str;
  se_yield_value_file_offset : option Z;
  se_resume_file_offset : option Z; se_resume_offset_source : option str
}.

Record OffsetsMap := {
  om_ob_type : Z;
  om_co_filename : Z; om_co_name : Z; om_co_qualname : Z; om_co_firstlineno : Z; om_co_flags : Z;
  om_compact_data : Z;
  om_f_executable : Z; om_previous : Z; om_owner : Z; om_localsplus : Z;
  om_gi_frame_state : Z; om_gi_iframe : Z;
  om_task_state : Z; om_task_coro : Z; om_task_result : Z;
  om_current_frame : Z
}.

Record FrameStateValues := { fv_created : Z; fv_suspended : Z; fv_executing : Z; fv_completed : Z }.
Record TaskStateValues := { tv_pending : Z; tv_cancelled : Z; tv_finished : Z }.

Record PythonContract := {
  pc_python : option ContractPythonInfo; pc_verification : option ContractVerification;
  pc_libpython : LibPythonInfo; pc_asyncio_module : ModuleInfo; pc_python_binary : ModuleInfo;
  pc_symbols : gmap str SymbolEntry; pc_offsets : OffsetsMap;
  pc_frame_state_values : FrameStateValues; pc_task_state_values : TaskStateValues;
  pc_contract_version : Z; pc_generated_ns : Z
}.

Record DetectedPythonRuntime := {
  dr_pid : Z; dr_python_path : str; dr_asyncio_path : str; dr_python_build_id : str;
  dr_python_sha256 : str; dr_asyncio_build_id : str; dr_arch : str
}.

Record ContractIndexEntry := {
  ie_path : str; ie_python_build_id : str; ie_asyncio_build_id : str; ie_arch : str;
  ie_python_version : str
}.
Record ContractIndex := { ix_version : Z; ix_contracts : list ContractIndexEntry }.

Record ResolvedPythonContract := {
  rp_contract : PythonContract; rp_detected : DetectedPythonRuntime
}.

(** ** Strings *)

(** [char::is_whitespace]. *)
Definition is_whitespace (c : Z) : bool :=
  between 9 13 c || (c =? 32) || (c =? 0x85) || (c =? 0xA0) || (c =? 0x1680)
  || between 0x2000 0x200A c || (c =? 0x2028) || (c =? 0x2029) || (c =? 0x202F)
  || (c =? 0x205F) || (c =? 0x3000).

(** The characters of a [str]. *)
Definition chars (s : str) : list Z := unwrap_or (decode_utf8 s) [].

(** [s.trim().is_empty()] *)
Definition is_blank (s : str) : bool := forallb is_whitespace (chars s).

Definition starts_with (pat s : str) : bool := bool_decide (is_Some (strip_prefix pat s)).

(** [s.contains(pat)] *)
Fixpoint contains (pat s : str) : bool :=
  starts_with pat s || match s with [] => false | _ :: s => contains pat s end.

(** ** Validation *)

Definition get_symbol (c : PythonContract) (name : string) : result SymbolEntry :=
  ok_or (pc_symbols c !! lit name).

Definition symbol_offset (c : PythonContract) (name : string) : result Z :=
  s ← get_symbol c name; Ok (se_file_offset s).

Definition symbol_binary (c : PythonContract) (name : string) : result str :=
  s ← get_symbol c name;
  let source := se_source s in
  if starts_with (lit "libpython") source || starts_with (lit "python_binary") source
  then Ok (lp_path (pc_libpython c))
  else if bool_decide (source = lit "callscan" ∨ source = lit "asyncio_symtab")
  then Ok (mi_path (pc_asyncio_module c))
  else Err 0.

Definition require_offset (offset : option Z) (source : option str) : result unit :=
  _ ← ok_or offset;
  source ← ok_or source;
  _ ← bail_if (is_blank source);
  bail_if (contains (lit "heuristic") source).

Definition REQUIRED_SYMBOLS : list string :=
  ["_asyncio_Task___init___impl"; "task_step"; "task_eager_start";
   "PyGen_Type_tp_dealloc"; "PyCoro_Type_tp_dealloc"; "PyAsyncGen_Type_tp_dealloc"]%string.

Fixpoint require_symbols (c : PythonContract) (names : list string) : result unit :=
  match names with
  | [] => Ok tt
  | name :: names =>
      sym ← get_symbol c name;
      _ ← bail_if (contains (lit "heuristic") (se_source sym));
      require_symbols c names
  end.

Definition EVAL_FRAME : string := "_PyEval_EvalFrameDefault".

Definition validate_attach_provenance (c : PythonContract) : result unit :=
  eval ← get_symbol c EVAL_FRAME;
  _ ← require_offset (se_start_frame_file_offset eval) (se_start_frame_offset_source eval);
  _ ← ok_or (se_frame_reg_idx eval);
  _ ← require_offset (se_end_return_value_file_offset eval) (se_end_return_value_offset_source eval);
  _ ← require_offset (se_end_return_const_file_offset eval) (se_end_return_const_offset_source eval);
  _ ← require_offset (se_end_exception_file_offset eval) (se_end_exception_offset_source eval);
  _ ← require_offset (se_resume_file_offset eval) (se_resume_offset_source eval);
  require_symbols c REQUIRED_SYMBOLS.

Definition validate_runtime_loadable (c : PythonContract) : result unit :=
  _ ← validate_attach_provenance c;
  if unwrap_or ((λ v, bool_decide (cv_state v = lit "verified")) <$> pc_verification c) false
  then Ok tt else Err 0.

(** ** Matching *)

(** [opt.filter(|s| !s.is_empty()).unwrap_or(d)] *)
Definition nonempty_or (o : option str) (d : str) : str :=
  match o with Some (b :: s) => b :: s | _ => d end.

Definition contract_python_build_id (c : PythonContract) : str :=
  nonempty_or (pi_build_id <$> pc_python c) (lp_build_id (pc_libpython c)).
Definition contract_arch (c : PythonContract) : str :=
  nonempty_or (pi_arch <$> pc_python c) (lp_arch (pc_libpython c)).

Definition contract_matches_detected (c : PythonContract) (d : DetectedPythonRuntime) : bool :=
  let fallback := lp_build_id_fallback_sha256 (pc_libpython c) in
  let python_match :=
    bool_decide (contract_python_build_id c = dr_python_build_id d)
    || (negb (bool_decide (fallback = [])) && bool_decide (fallback = dr_python_sha256 d)) in
  python_match && bool_decide (mi_build_id (pc_asyncio_module c) = dr_asyncio_build_id d)
  && bool_decide (contract_arch c = dr_arch d).

Definition rewrite_contract_runtime_paths (c : PythonContract) (d : DetectedPythonRuntime)
    : PythonContract :=
  {| pc_python := pc_python c; pc_verification := pc_verification c;
     pc_libpython :=
       {| lp_path := dr_python_path d; lp_build_id := lp_build_id (pc_libpython c);
          lp_build_id_fallback_sha256 := lp_build_id_fallback_sha256 (pc_libpython c);
          lp_arch := lp_arch (pc_libpython c) |};
     pc_asyncio_module :=
       {| mi_path := dr_asyncio_path d; mi_build_id := mi_build_id (pc_asyncio_module c) |};
     pc_python_binary :=
       {| mi_path := dr_python_path d; mi_build_id := mi_build_id (pc_python_binary c) |};
     pc_symbols := pc_symbols c; pc_offsets := pc_offsets c;
     pc_frame_state_values := pc_frame_state_values c;
     pc_task_state_values := pc_task_state_values c;
     pc_contract_version := pc_contract_version c; pc_generated_ns := pc_generated_ns c |}.

(** ** Contract directories *)

(** A directory of contracts: [None] for a missing [index.json]; the names that
    [read_dir] lists; [parse] reads and parses the contract at a path. *)
Record ContractDir := {
  cd_path : str;
  cd_index : option (result ContractIndex);
  cd_entries : result (list (result str));
  cd_parse : str → result PythonContract
}.

Definition is_absolute (p : str) : bool := starts_with (lit "/") p.

(** [Path::join] with a relative path. *)
Definition path_join (dir p : str) : str :=
  match last dir with
  | None => p
  | Some b => if b =? 47 then dir ++ p else dir ++ 47 :: p
  end.

Definition load (cd : ContractDir) (path : str) : result PythonContract :=
  c ← cd_parse cd path;
  _ ← bail_if (negb (pc_contract_version c =? 1) && negb (pc_contract_version c =? 2));
  Ok c.

Definition load_contract_index (cd : ContractDir) : result (option ContractIndex) :=
  match cd_index cd with
  | None => Ok None
  | Some r => index ← r; Ok (Some index)
  end.

(** The contract at a path, if it is for the detected interpreter. *)
Definition try_contract (cd : ContractDir) (path : str) (d : DetectedPythonRuntime)
    : result (option ResolvedPythonContract) :=
  c ← load cd path;
  if contract_matches_detected c d then
    _ ← validate_runtime_loadable c;
    Ok (Some {| rp_contract := rewrite_contract_runtime_paths c d; rp_detected := d |})
  else Ok None.

Fixpoint try_index (cd : ContractDir) (entries : list ContractIndexEntry)
    (d : DetectedPythonRuntime) : result (option ResolvedPythonContract) :=
  match entries with
  | [] => Ok None
  | entry :: entries =>
      if bool_decide (ie_python_build_id entry = dr_python_build_id d)
         && bool_decide (ie_asyncio_build_id entry = dr_asyncio_build_id d)
         && bool_decide (ie_arch entry = dr_arch d)
      then
        let path := if is_absolute (ie_path entry) then ie_path entry
                    else path_join (cd_path cd) (ie_path entry) in
        r ← try_contract cd path d;
        match r with Some rc => Ok (Some rc) | None => try_index cd entries d end
      else try_index cd entries d
  end.

(** [path.extension() == Some("json")]: a dot file has no extension. *)
Definition is_json (name : str) : bool :=
  match strip_suffix (lit ".json") name with Some (_ :: _) => true | _ => false end.

Fixpoint try_dir (cd : ContractDir) (names : list (result str)) (d : DetectedPythonRuntime)
    : result (option ResolvedPythonContract) :=
  match names with
  | [] => Ok None
  | name :: names =>
      name ← name;
      if bool_decide (name = lit "index.json") || negb (is_json name) then try_dir cd names d
      else
        r ← try_contract cd (path_join (cd_path cd) name) d;
        match r with Some rc => Ok (Some rc) | None => try_dir cd names d end
  end.

Definition load_contract_for_detected (cd : ContractDir) (d : DetectedPythonRuntime)
    : result ResolvedPythonContract :=
  index ← load_contract_index cd;
  r ← (match index with Some index => try_index cd (ix_contracts index) d | None => Ok None end);
  match r with
  | Some rc => Ok rc
  | None =>
      names ← cd_entries cd;
      r ← try_dir cd names d;
      ok_or r
  end.

(** ** Detection of the running interpreter *)

(** What the parser of an ELF file delivers: its bytes, the sections with their name,
    offset and size, the machine, and the names in its two symbol tables. *)
Record ElfFile := {
  elf_data : list Z; elf_sections : list (str * Z * Z); elf_machine : Z;
  elf_dynsyms : list str; elf_syms : list str
}.

(** [data[lo..hi]]. *)
Definition slice (data : list Z) (lo hi : Z) : list Z :=
  take (Z.to_nat (hi - lo)) (drop (Z.to_nat lo) data).

Definition hex_digit (n : Z) : Z := if n <? 10 then 48 + n else 87 + n.
(** Two lower-case hexadecimal digits for each byte. *)
Definition hex (bs : list Z) : str := bs ≫= λ b, [hex_digit (b / 16); hex_digit (b `mod` 16)].

Definition build_id_note (data : list Z) (start size : Z) : option str :=
  let stop := start + size in
  if (Z.of_nat (length data) <? stop) || (size <? 16) then None
  else
    let namesz := le_decode (slice data start (start + 4)) in
    let descsz := le_decode (slice data (start + 4) (start + 8)) in
    let desc_start := start + 12 + Z.land (namesz + 3) (2 ^ 64 - 1 - 3) in
    let desc_end := desc_start + descsz in
    if desc_end <=? stop then Some (hex (slice data desc_start desc_end)) else None.

Definition read_build_id (elf : ElfFile) : option str :=
  head (omap (λ '(name, offset, size),
    if bool_decide (name = lit ".note.gnu.build-id") then build_id_note (elf_data elf) offset size
    else None) (elf_sections elf)).

Definition elf_has_symbols (elf : ElfFile) (required : list str) : bool :=
  forallb (λ name, bool_decide (name ∈ elf_dynsyms elf) || bool_decide (name ∈ elf_syms elf))
    required.

(** Decimal digits of a machine number ([u16]). *)
Definition elf_arch (elf : ElfFile) : str :=
  if elf_machine elf =? 183 then lit "aarch64"
  else if elf_machine elf =? 62 then lit "x86_64"
  else lit "elf-machine-" ++ show_dec 5 (elf_machine elf).

(** [str::lines]: a line ends with LF or CR LF; the last one may lack it. *)
Definition lines (s : str) : list str :=
  let parts := split_on 10 s in
  let terminated := (λ l, unwrap_or (strip_suffix [13] l) l) <$> removelast parts in
  match last parts with Some (b :: l) => terminated ++ [b :: l] | _ => terminated end.

(** [split_whitespace]: the maximal runs of characters that are not white space. *)
Definition split_whitespace (s : str) : list str :=
  let '(word, words) :=
    foldr (λ c '(word, words),
             if is_whitespace c then
               ([], match word with [] => words | _ => word :: words end)
             else (c :: word, words)) ([], []) (chars s) in
  string_of_chars <$> match word with [] => words | _ => word :: words end.

(** [Path::file_name] of a path without trailing slashes. *)
Definition file_name (p : str) : str := unwrap_or (snd <$> rsplit_once 47 p) p.

(** What the detection asks the system about one process. *)
Record ProcessView := {
  pv_environ : option (list Z);
  pv_exe : result str;
  pv_maps : result str;
  pv_exists : str → bool;
  pv_elf : str → result ElfFile;
  (** The standard output of [sha256sum] on a file, once it could be run. *)
  pv_sha256sum : str → result (list Z)
}.

Definition sha256sum (p : ProcessView) (path : str) : result str :=
  stdout ← pv_sha256sum p path;
  ok_or (head (split_whitespace (from_utf8_lossy stdout))).

Definition check_no_gil (p : ProcessView) : bool :=
  match pv_environ p with
  | Some data => bool_decide (lit "PYTHON_GIL=0" ∈ split_on 0 data)
  | None => false
  end.

Definition mapped_python_binary (p : ProcessView) : result str :=
  exe ← pv_exe p;
  if pv_exists p exe then Ok exe
  else
    content ← pv_maps p;
    ok_or (head (omap (λ line,
      if negb (contains (lit "r-xp") line) then None
      else path ← last (split_whitespace line);
           if starts_with (lit "python") (file_name path) && pv_exists p path
           then Some path else None) (lines content))).

Definition mapped_asyncio_module (p : ProcessView) : result str :=
  content ← pv_maps p;
  ok_or (head (omap (λ line,
    if negb (contains (lit "_asyncio") line) || negb (contains (lit ".so") line) then None
    else path ← last (split_whitespace line);
         if pv_exists p path then Some path else None) (lines content))).

Definition read_build_id_or_sha256 (p : ProcessView) (path : str) : result (str * str) :=
  elf ← pv_elf p path;
  match read_build_id elf with
  | Some (b :: id) => Ok (b :: id, [])
  | _ => sum ← sha256sum p path; Ok ([], sum)
  end.

Definition ASYNCIO_SYMBOLS : list str :=
  [lit "PyInit__asyncio"; lit "task_step"; lit "_asyncio_Task___init___impl"].

Definition detect_runtime_for_pid (pid : Z) (p : ProcessView) : result DetectedPythonRuntime :=
  _ ← bail_if (check_no_gil p);
  python_path ← mapped_python_binary p;
  asyncio_path ←
    match mapped_asyncio_module p with
    | Ok path => Ok path
    | Err err =>
        elf ← pv_elf p python_path;
        if elf_has_symbols elf ASYNCIO_SYMBOLS then Ok python_path else Err err
    end;
  python ← read_build_id_or_sha256 p python_path;
  asyncio ← read_build_id_or_sha256 p asyncio_path;
  let '(python_build_id, python_sha256) := python in
  let '(asyncio_build_id, asyncio_sha256) := asyncio in
  let asyncio_identity := match asyncio_build_id with [] => asyncio_sha256 | _ => asyncio_build_id end in
  _ ← bail_if (bool_decide (python_build_id = []) && bool_decide (python_sha256 = []));
  _ ← bail_if (bool_decide (asyncio_identity = []));
  elf ← pv_elf p python_path;
  Ok {| dr_pid := pid; dr_python_path := python_path; dr_asyncio_path := asyncio_path;
        dr_python_build_id := python_build_id; dr_python_sha256 := python_sha256;
        dr_asyncio_build_id := asyncio_identity; dr_arch := elf_arch elf |}.

Definition load_contract_for_pid (cd : ContractDir) (pid : Z) (p : ProcessView)
    : result ResolvedPythonContract :=
  detected ← detect_runtime_for_pid pid p;
  load_contract_for_detected cd detected.
