(* ===== verification/Attach.v ===== *)
(** * Start-up: offsets and attachment of the programs ([ironscope/src/main.rs])

    What the loader derives from a contract: the entries of [PYTHON_OFFSETS] and the
    points at which each program is attached.  Whether the kernel accepts an
    attachment is a parameter. *)

From stdpp Require Import base gmap list strings.
From S2P Require Import Prelude Text Types Maps Ownership Identity Worker Frames Tasks Events Lsm.
From S2P Require Import Probes Compiler Contract.

(** ** [PYTHON_OFFSETS] *)

(** [offsets.set(i, &v, 0)?]: an array of 64 entries. *)
Definition offsets_set (i v : Z) : M (result unit) := λ e σ,
  if update_ok e (tick σ) && (i <? 64)
  then (Ok tt, set_python_offsets (<[i := v]> (python_offsets σ)) (next_tick σ))
  else (Err 0, next_tick σ).

Definition populate_python_offsets (c : PythonContract) : M (result unit) :=
  let off := pc_offsets c in
  let eval := pc_symbols c !! lit EVAL_FRAME in
  for_each (λ iv, offsets_set iv.1 iv.2)
    [(0, om_f_executable off); (1, om_co_qualname off); (2, om_co_filename off);
     (3, om_compact_data off); (4, om_co_firstlineno off); (5, om_localsplus off);
     (6, om_previous off); (7, om_owner off); (8, om_task_state off); (9, om_task_coro off)] ;;?
  frame_reg ←? mret (ok_or (eval ≫= se_frame_reg_idx));
  for_each (λ iv, offsets_set iv.1 iv.2)
    [(10, frame_reg); (11, om_co_flags off); (12, om_gi_iframe off); (13, om_current_frame off);
     (14, om_ob_type off); (15, om_gi_frame_state off)] ;;?
  exception_frame_reg ←? mret (ok_or (eval ≫= se_end_exception_frame_reg_idx));
  offsets_set 16 exception_frame_reg.

(** ** Attachment points *)

Inductive attach_point :=
| Kernel (name : string)
| Uprobe (binary : str) (offset : Z)
| UprobeSymbol (binary : str) (symbol : string).

#[global] Instance attach_point_eq : EqDecision attach_point.
Proof. solve_decision. Defined.

Definition attachment : Type := probe * attach_point.

Definition tracepoints : list attachment :=
  [(sched_process_fork, Kernel "sched_process_fork");
   (sched_process_exit, Kernel "sched_process_exit");
   (sched_process_exec, Kernel "sched_process_exec")].

Definition lsm_hooks : list attachment :=
  [(ag_file_open, Kernel "file_open"); (ag_bprm_check, Kernel "bprm_check_security");
   (ag_socket_connect, Kernel "socket_connect")].

Definition fentry_probes : list attachment :=
  [(ag_fentry_file_open, Kernel "security_file_open");
   (ag_fentry_bprm_check, Kernel "security_bprm_check");
   (ag_fentry_socket_connect, Kernel "security_socket_connect")].

(** [prog.load(..)?; prog.attach(..)?] one after the other: the attachments made and
    whether all of them were. *)
Fixpoint attach_each (accept : attachment → bool) (l : list attachment) : list attachment * bool :=
  match l with
  | [] => ([], true)
  | a :: l =>
      if accept a then let '(done, ok) := attach_each accept l in (a :: done, ok) else ([], false)
  end.

(** The security hooks, or the monitoring probes when the hooks cannot be attached or
    are not effective ([active_lsms]: the text of [/sys/kernel/security/lsm]). *)
Definition attach_hooks (accept : attachment → bool) (active_lsms : option str) : list attachment :=
  let '(hooks, ok) := attach_each accept lsm_hooks in
  let lsm_effective :=
    ok && match active_lsms with Some s => contains (lit "bpf") s | None => true end in
  if lsm_effective then hooks else hooks ++ (attach_each accept fentry_probes).1.

(** The points of the frame programs in the evaluation loop: the entries, the three
    exits unless they coincide, the function entry and the resumption. *)
Definition frame_points (binary : str) (starts : list Z) (rv rc exc entry resume : Z)
    : list attachment :=
  ((λ o, (eval_frame_entry, Uprobe binary o)) <$> starts)
  ++ ((λ o, (worker_eval_frame_entry, Uprobe binary o)) <$> starts)
  ++ [(eval_frame_end_rv, Uprobe binary rv)]
  ++ (if rc =? rv then [] else [(eval_frame_end_rc, Uprobe binary rc)])
  ++ (if (exc =? rv) || (exc =? rc) then [] else [(eval_frame_end_exc, Uprobe binary exc)])
  ++ [(eval_frame_func_entry, Uprobe binary entry);
      (worker_eval_frame_func_entry, Uprobe binary entry);
      (eval_resume, Uprobe binary resume); (worker_eval_resume, Uprobe binary resume)].

Definition frame_attachments (c : PythonContract) : result (list attachment) :=
  eval ← get_symbol c EVAL_FRAME;
  start ← ok_or (se_start_frame_file_offset eval);
  _ ← ok_or (se_frame_reg_idx eval);
  resume ← ok_or (se_resume_file_offset eval);
  rv ← ok_or (se_end_return_value_file_offset eval);
  rc ← ok_or (se_end_return_const_file_offset eval);
  exc ← ok_or (se_end_exception_file_offset eval);
  let extra := filter (λ o, o ≠ start ∧ o ≠ resume) (se_start_frame_extra_file_offsets eval) in
  Ok (frame_points (lp_path (pc_libpython c)) (start :: extra) rv rc exc (se_file_offset eval) resume).

Definition task_attachments (c : PythonContract) : result (list attachment) :=
  let binary := mi_path (pc_asyncio_module c) in
  init ← symbol_offset c "_asyncio_Task___init___impl";
  step ← symbol_offset c "task_step";
  eager ← symbol_offset c "task_eager_start";
  Ok [(asyncio_task_init, Uprobe binary init);
      (asyncio_task_step, Uprobe binary step); (asyncio_task_step_ret, Uprobe binary step);
      (asyncio_task_eager_start, Uprobe binary eager);
      (asyncio_task_eager_start_ret, Uprobe binary eager)].

Definition DEALLOC_SYMBOLS : list string :=
  ["PyGen_Type_tp_dealloc"; "PyCoro_Type_tp_dealloc"; "PyAsyncGen_Type_tp_dealloc"]%string.

(** One probe for each distinct deallocator. *)
Fixpoint dealloc_points (c : PythonContract) (seen : list (str * Z)) (names : list string)
    : result (list (str * Z)) :=
  match names with
  | [] => Ok seen
  | name :: names =>
      offset ← symbol_offset c name;
      binary ← symbol_binary c name;
      if bool_decide ((binary, offset) ∈ seen) then dealloc_points c seen names
      else dealloc_points c (seen ++ [(binary, offset)]) names
  end.

Definition dealloc_attachments (c : PythonContract) : result (list attachment) :=
  points ← dealloc_points c [] DEALLOC_SYMBOLS;
  let binary := lp_path (pc_libpython c) in
  Ok (((λ p, (gen_dealloc, Uprobe p.1 p.2)) <$> points)
      ++ [(gen_dealloc, UprobeSymbol binary "PyObject_Free");
          (gen_dealloc, UprobeSymbol binary "PyObject_GC_Del")]).

Definition uprobe_attachments (c : PythonContract) : result (list attachment) :=
  frames ← frame_attachments c;
  tasks ← task_attachments c;
  deallocs ← dealloc_attachments c;
  Ok (frames ++ tasks ++ deallocs).

(** ** The agents of one run *)

(** All configured processes have to run the interpreter of the first. *)
Definition same_interpreter (a b : DetectedPythonRuntime) : bool :=
  bool_decide (dr_python_path a = dr_python_path b)
  && bool_decide (dr_asyncio_path a = dr_asyncio_path b)
  && bool_decide (dr_python_build_id a = dr_python_build_id b)
  && bool_decide (dr_asyncio_build_id a = dr_asyncio_build_id b)
  && bool_decide (dr_arch a = dr_arch b).

Fixpoint check_other_agents (cd : ContractDir) (view : Z → ProcessView)
    (primary : ResolvedPythonContract) (pids : list Z) : result unit :=
  match pids with
  | [] => Ok tt
  | pid :: pids =>
      other ← load_contract_for_pid cd pid (view pid);
      _ ← bail_if (negb (same_interpreter (rp_detected other) (rp_detected primary)));
      check_other_agents cd view primary pids
  end.

Definition contract_for_agents (cd : ContractDir) (view : Z → ProcessView)
    (config : IronScopeSection) : result ResolvedPythonContract :=
  pids ← configured_agent_pids config;
  match pids with
  | [] => Err 0
  | primary_pid :: pids =>
      primary ← load_contract_for_pid cd primary_pid (view primary_pid);
      _ ← check_other_agents cd view primary pids;
      Ok primary
  end.
