(* ===== verification/Startup.v ===== *)
(** * What a contract guarantees at start-up

    Only a contract that is verified and identifies the running interpreter is used;
    what it says reaches the kernel programs under the indices they read; and it
    decides whether, and where, the programs are attached. *)

From stdpp Require Import base gmap list strings.
From S2P Require Import Prelude Text Types Maps Samples Ownership Identity Worker Frames Tasks.
From S2P Require Import Events Lsm Probes Compiler Contexts Contract Attach.

(** ** Sequences of checks *)

Lemma bind_ok_inv {A B} (m : result A) (k : A → result B) b :
  m ≫= k = Ok b ↔ ∃ a, m = Ok a ∧ k a = Ok b.
Proof.
  destruct m as [a|c]; cbn; [|naive_solver]. split; [by exists a|]. by intros (? & [= ->] & ?).
Qed.
Lemma ok_or_inv {A} (o : option A) a : ok_or o = Ok a ↔ o = Some a.
Proof. destruct o; cbn; naive_solver. Qed.
Lemma bail_if_inv b u : bail_if b = Ok u ↔ b = false.
Proof. destruct b, u; cbn; naive_solver. Qed.

(** An offset with an explicit origin that is not a guess. *)
Definition attested (offset : option Z) (source : option str) : Prop :=
  is_Some offset ∧ ∃ s, source = Some s ∧ is_blank s = false ∧ contains (lit "heuristic") s = false.

Lemma require_offset_ok offset source : require_offset offset source = Ok tt ↔ attested offset source.
Proof.
  unfold require_offset, attested. rewrite bind_ok_inv. setoid_rewrite ok_or_inv.
  setoid_rewrite bind_ok_inv. setoid_rewrite ok_or_inv. setoid_rewrite bind_ok_inv.
  setoid_rewrite bail_if_inv. split; [naive_solver|]. intros [[o ?] (s & ? & ? & ?)].
  exists o. split; [done|]. exists s. split; [done|]. by exists tt.
Qed.

Definition attested_symbol (c : PythonContract) (name : string) : Prop :=
  ∃ s, pc_symbols c !! lit name = Some s ∧ contains (lit "heuristic") (se_source s) = false.

Lemma require_symbols_ok c names :
  require_symbols c names = Ok tt ↔ Forall (attested_symbol c) names.
Proof.
  induction names as [|name names IH]; [done|]. cbn [require_symbols].
  rewrite Forall_cons, <-IH, bind_ok_inv. unfold get_symbol, attested_symbol.
  setoid_rewrite ok_or_inv. setoid_rewrite bind_ok_inv. setoid_rewrite bail_if_inv.
  split; [naive_solver|]. intros [(s & ? & ?) ?]. exists s. split; [done|]. by exists tt.
Qed.

(** What [validate_runtime_loadable] demands of a contract: five offsets of the evaluation
    loop with an explicit origin that is not a heuristic, the register of the frame, the
    required symbols, none found by a heuristic, and the mark of a verified contract.
    The function entry and the extra start offsets, which are attached as well, are not
    among them ([unattested_attachments]). *)
Definition loadable (c : PythonContract) : Prop :=
  (∃ eval, pc_symbols c !! lit EVAL_FRAME = Some eval
     ∧ is_Some (se_frame_reg_idx eval)
     ∧ attested (se_start_frame_file_offset eval) (se_start_frame_offset_source eval)
     ∧ attested (se_end_return_value_file_offset eval) (se_end_return_value_offset_source eval)
     ∧ attested (se_end_return_const_file_offset eval) (se_end_return_const_offset_source eval)
     ∧ attested (se_end_exception_file_offset eval) (se_end_exception_offset_source eval)
     ∧ attested (se_resume_file_offset eval) (se_resume_offset_source eval))
  ∧ Forall (attested_symbol c) REQUIRED_SYMBOLS
  ∧ ∃ v, pc_verification c = Some v ∧ cv_state v = lit "verified".

Lemma bind_unit_inv {B} (m : result unit) (k : unit → result B) b :
  m ≫= k = Ok b ↔ m = Ok tt ∧ k tt = Ok b.
Proof. rewrite bind_ok_inv. split; [by intros ([] & ? & ?)|]. intros []. by exists tt. Qed.

Lemma validate_loadable c : validate_runtime_loadable c = Ok tt ↔ loadable c.
Proof.
  unfold validate_runtime_loadable, validate_attach_provenance, get_symbol, loadable.
  rewrite bind_unit_inv, bind_ok_inv. setoid_rewrite ok_or_inv.
  assert ((if unwrap_or ((λ v, bool_decide (cv_state v = lit "verified")) <$> pc_verification c) false
           then Ok tt else Err 0) = Ok tt
          ↔ ∃ v, pc_verification c = Some v ∧ cv_state v = lit "verified") as ->.
  { destruct (pc_verification c) as [v|]; cbn [fmap option_fmap option_map unwrap_or]; [|naive_solver].
    case_bool_decide; naive_solver. }
  split.
  - intros [(eval & E & H) Hv]. rewrite bind_unit_inv, bind_ok_inv in H. destruct H as (H1 & i & H2 & H).
    rewrite !bind_unit_inv, require_symbols_ok in H. rewrite ok_or_inv in H2.
    rewrite !require_offset_ok in *. split; [|split; [apply H|done]]. exists eval. naive_solver.
  - intros [(eval & E & [i Hi] & H1 & H2 & H3 & H4 & H5) [H6 Hv]]. split; [|done].
    exists eval. split; [done|].
    rewrite bind_unit_inv, bind_ok_inv, require_offset_ok. split; [done|]. exists i. split; [by rewrite Hi|].
    by rewrite !bind_unit_inv, !require_offset_ok, require_symbols_ok.
Qed.

(** ** Build identifiers *)

(** The note of a build identifier, as linkers write it: the name [GNU], type 3. *)
Definition gnu_note (id : list Z) : list Z :=
  le_bytes 4 4 ++ le_bytes 4 (Z.of_nat (length id)) ++ le_bytes 4 3 ++ [71; 78; 85; 0] ++ id.

Lemma slice_at (pre l post data : list Z) lo hi :
  data = pre ++ l ++ post → lo = Z.of_nat (length pre) → hi = lo + Z.of_nat (length l) →
  slice data lo hi = l.
Proof.
  intros -> -> ->. unfold slice. rewrite Nat2Z.id, drop_app_length.
  replace (Z.to_nat _) with (length l) by lia. apply take_app_length.
Qed.

Lemma hex_inj ids ids' : Forall octet ids → Forall octet ids' → hex ids = hex ids' → ids = ids'.
Proof.
  intros H. revert ids'. induction H as [|b l Hb Hl IH]; intros ids' H'; destruct H' as [|b' l' Hb' Hl'];
    [done|done|done|]. unfold hex. rewrite !bind_cons. cbn [app]. intros [= E1 E2 E3].
  unfold octet in *. f_equal; [|by apply IH].
  assert (∀ x y, 0 ≤ x < 16 → 0 ≤ y < 16 → hex_digit x = hex_digit y → x = y) as Hd.
  { unfold hex_digit. intros x y Hx Hy. destruct (Z.ltb_spec x 10), (Z.ltb_spec y 10); lia. }
  apply Hd in E1; [|split; [apply Z.div_pos|apply Z.div_lt_upper_bound]; lia..].
  apply Hd in E2; [|apply Z.mod_pos_bound; lia..].
  rewrite (Z.div_mod b 16), (Z.div_mod b' 16) by lia. congruence.
Qed.

(** The identifier that is read is that of the note, wherever the section lies in the
    file, and different identifiers read differently. *)
Theorem build_id_read pre id post :
  Z.of_nat (length id) < 2 ^ 32 →
  build_id_note (pre ++ gnu_note id ++ post) (Z.of_nat (length pre)) (Z.of_nat (length (gnu_note id)))
  = Some (hex id).
Proof.
  intros Hid. assert (length (gnu_note id) = (16 + length id)%nat) as Hn.
  { unfold gnu_note. rewrite !length_app, !(proj2 (le_bytes_octets _ _)). done. }
  unfold build_id_note. cbv zeta. rewrite !length_app, Hn.
  destruct (Z.ltb_spec (Z.of_nat (length pre + (16 + length id + length post)))
    (Z.of_nat (length pre) + Z.of_nat (16 + length id))); [lia|].
  destruct (Z.ltb_spec (Z.of_nat (16 + length id)) 16); [lia|]. cbn [orb].
  pose proof (λ x, proj2 (le_bytes_octets 4 x)) as H4.
  rewrite (slice_at pre (le_bytes 4 4) (drop 4 (gnu_note id) ++ post)); [|done|done|by rewrite H4].
  rewrite (slice_at (pre ++ le_bytes 4 4) (le_bytes 4 (Z.of_nat (length id)))
    (drop 8 (gnu_note id) ++ post));
    [|by rewrite <-!app_assoc|rewrite length_app, H4; lia|rewrite H4; lia].
  rewrite !le_decode_bytes by (cbn -[Z.of_nat]; lia).
  change (Z.land (4 + 3) (2 ^ 64 - 1 - 3)) with 4.
  destruct (Z.leb_spec (Z.of_nat (length pre) + 12 + 4 + Z.of_nat (length id))
    (Z.of_nat (length pre) + Z.of_nat (16 + length id))); [|lia].
  do 2 f_equal. apply (slice_at (pre ++ take 16 (gnu_note id)) id post);
    [by rewrite <-!app_assoc|rewrite length_app, length_take, Hn; lia|done].
Qed.

(** ** Selection of the contract *)

(** The contract identifies the interpreter of the process as far as
    [contract_matches_detected] asks: the build identifiers are equal, which two missing
    ones are too ([sha256_not_compared]), or the contract has a SHA-256 sum, the one of
    the executable; and [_asyncio] has the same build identifier, and the architecture
    is the same. *)
Definition identified_as (c : PythonContract) (d : DetectedPythonRuntime) : Prop :=
  let fallback := lp_build_id_fallback_sha256 (pc_libpython c) in
  (contract_python_build_id c = dr_python_build_id d
   ∨ fallback ≠ [] ∧ fallback = dr_python_sha256 d)
  ∧ mi_build_id (pc_asyncio_module c) = dr_asyncio_build_id d ∧ contract_arch c = dr_arch d.

Lemma contract_matches_spec c d : contract_matches_detected c d = true ↔ identified_as c d.
Proof.
  unfold contract_matches_detected, identified_as.
  rewrite !andb_true_iff, orb_true_iff, andb_true_iff, negb_true_iff, bool_decide_eq_false,
    !bool_decide_eq_true. naive_solver.
Qed.

Lemma try_contract_ok cd path d rc :
  try_contract cd path d = Ok (Some rc) →
  ∃ c, load cd path = Ok c ∧ identified_as c d ∧ loadable c
       ∧ rc = {| rp_contract := rewrite_contract_runtime_paths c d; rp_detected := d |}.
Proof.
  unfold try_contract. rewrite bind_ok_inv. intros (c & Hl & H). exists c. split; [done|].
  destruct (contract_matches_detected c d) eqn:E; [|done]. apply contract_matches_spec in E.
  apply bind_unit_inv in H as [Hv [= <-]]. by apply validate_loadable in Hv.
Qed.

Lemma try_index_ok cd entries d rc :
  try_index cd entries d = Ok (Some rc) → ∃ path, try_contract cd path d = Ok (Some rc).
Proof.
  induction entries as [|entry entries IH]; cbn [try_index]; [done|].
  destruct (_ && _); [|done]. rewrite bind_ok_inv. intros ([rc'|] & H & H'); [|by apply IH].
  injection H' as ->. by eexists.
Qed.

Lemma try_dir_ok cd names d rc :
  try_dir cd names d = Ok (Some rc) → ∃ path, try_contract cd path d = Ok (Some rc).
Proof.
  induction names as [|name names IH]; cbn [try_dir]; [done|].
  rewrite bind_ok_inv. intros (n & _ & H). destruct (_ || _); [by apply IH|].
  apply bind_ok_inv in H as ([rc'|] & H & H'); [|by apply IH]. injection H' as ->. by eexists.
Qed.

Lemma load_detected_ok cd d rc :
  load_contract_for_detected cd d = Ok rc →
  ∃ path c, load cd path = Ok c ∧ identified_as c d ∧ loadable c
    ∧ rc = {| rp_contract := rewrite_contract_runtime_paths c d; rp_detected := d |}.
Proof.
  intros H. assert (∃ path, try_contract cd path d = Ok (Some rc)) as [path Hp].
  { unfold load_contract_for_detected in H. apply bind_ok_inv in H as (index & _ & H).
    apply bind_ok_inv in H as ([rc'|] & Hi & H).
    - injection H as ->. destruct index as [index|]; [|done]. by eapply try_index_ok.
    - apply bind_ok_inv in H as (names & _ & H). apply bind_ok_inv in H as (r & Hd & H).
      apply ok_or_inv in H as ->. by eapply try_dir_ok. }
  exists path. by apply try_contract_ok.
Qed.

(** C24: a contract that is selected comes from a file of a supported version; identifies
    the interpreter of the process (equal build identifiers, two missing ones counting as
    equal, or the SHA-256 sum the contract gives; equal build identifiers of [_asyncio];
    equal architecture); is marked verified, has the register of the frame, has the start,
    the three exit and the resume offsets of the evaluation loop each from an explicit
    source that is not a heuristic, and has the required symbols, none from a heuristic;
    and is applied to the files of the process.  The function entry and the extra start
    offsets are not covered. *)
Theorem load_contract_sound cd d rc :
  load_contract_for_detected cd d = Ok rc →
  ∃ path c, cd_parse cd path = Ok c ∧ (pc_contract_version c = 1 ∨ pc_contract_version c = 2)
    ∧ identified_as c d ∧ loadable c ∧ rp_detected rc = d
    ∧ rp_contract rc = rewrite_contract_runtime_paths c d
    ∧ lp_path (pc_libpython (rp_contract rc)) = dr_python_path d
    ∧ mi_path (pc_asyncio_module (rp_contract rc)) = dr_asyncio_path d.
Proof.
  intros (path & c & Hl & Hm & Hv & ->)%load_detected_ok. exists path, c.
  unfold load in Hl. apply bind_ok_inv in Hl as (c' & Hc & Hl). apply bind_unit_inv in Hl as [Hb [= ->]].
  rewrite bail_if_inv in Hb. repeat split; try done; try apply Hm; try apply Hv. lia.
Qed.

(** A missing build identifier is taken for a match.  When neither the contract
    nor the running executable has a build identifier, the comparison of the two
    empty strings succeeds and the SHA-256 sum, recorded for this very case, plays no
    role: the contract matches any executable without one. *)
Theorem sha256_not_compared c d sha :
  contract_python_build_id c = [] → dr_python_build_id d = [] →
  mi_build_id (pc_asyncio_module c) = dr_asyncio_build_id d → contract_arch c = dr_arch d →
  contract_matches_detected c
    {| dr_pid := dr_pid d; dr_python_path := dr_python_path d; dr_asyncio_path := dr_asyncio_path d;
       dr_python_build_id := dr_python_build_id d; dr_python_sha256 := sha;
       dr_asyncio_build_id := dr_asyncio_build_id d; dr_arch := dr_arch d |} = true.
Proof. intros Hc Hd Ha Hr. apply contract_matches_spec. split; [|done]. left. by rewrite Hc, Hd. Qed.

(** *** Offsets that are not attested *)

(** A symbol of which only the function entry and the extra start offsets differ. *)
Definition with_other_points (entry : Z) (extra : list Z) (s : SymbolEntry) : SymbolEntry :=
  {| se_source := se_source s; se_file_offset := entry;
     se_start_frame_file_offset := se_start_frame_file_offset s;
     se_start_frame_extra_file_offsets := extra;
     se_start_frame_offset_source := se_start_frame_offset_source s;
     se_frame_reg_idx := se_frame_reg_idx s; se_size := se_size s;
     se_end_return_value_file_offset := se_end_return_value_file_offset s;
     se_end_return_value_frame_reg_idx := se_end_return_value_frame_reg_idx s;
     se_end_return_value_offset_source := se_end_return_value_offset_source s;
     se_end_return_const_file_offset := se_end_return_const_file_offset s;
     se_end_return_const_frame_reg_idx := se_end_return_const_frame_reg_idx s;
     se_end_return_const_offset_source := se_end_return_const_offset_source s;
     se_end_exception_file_offset := se_end_exception_file_offset s;
     se_end_exception_frame_reg_idx := se_end_exception_frame_reg_idx s;
     se_end_exception_offset_source := se_end_exception_offset_source s;
     se_yield_value_file_offset := se_yield_value_file_offset s;
     se_resume_file_offset := se_resume_file_offset s;
     se_resume_offset_source := se_resume_offset_source s |}.

(** A contract with other symbols and another identity of the interpreter. *)
Definition with_parts (lp : LibPythonInfo) (symbols : gmap str SymbolEntry) (c : PythonContract)
    : PythonContract :=
  {| pc_python := pc_python c; pc_verification := pc_verification c; pc_libpython := lp;
     pc_asyncio_module := pc_asyncio_module c; pc_python_binary := pc_python_binary c;
     pc_symbols := symbols; pc_offsets := pc_offsets c;
     pc_frame_state_values := pc_frame_state_values c;
     pc_task_state_values := pc_task_state_values c;
     pc_contract_version := pc_contract_version c; pc_generated_ns := pc_generated_ns c |}.

(** Validation looks at neither the function entry nor the extra start offsets: whatever
    they are, a contract that is loadable with some is loadable with these, and the entry
    programs are attached to them. *)
Theorem unattested_attachments c eval entry extra :
  loadable c → pc_symbols c !! lit EVAL_FRAME = Some eval →
  let c' := with_parts (pc_libpython c)
    (<[lit EVAL_FRAME := with_other_points entry extra eval]> (pc_symbols c)) c in
  loadable c'
  ∧ ∃ l, frame_attachments c' = Ok l
      ∧ (eval_frame_func_entry, Uprobe (lp_path (pc_libpython c)) entry) ∈ l
      ∧ Forall (λ o, se_start_frame_file_offset eval ≠ Some o → se_resume_file_offset eval ≠ Some o →
          (eval_frame_entry, Uprobe (lp_path (pc_libpython c)) o) ∈ l) extra.
Proof.
  intros [(eval' & He' & Hl) [Hs Hv]] He c'. rewrite He in He'. injection He' as <-.
  assert (pc_symbols c' !! lit EVAL_FRAME = Some (with_other_points entry extra eval)) as E
    by apply lookup_insert_eq.
  split.
  { split; [by eexists|]. split; [|done]. eapply Forall_impl; [exact Hs|].
    intros name (s & Hn & Hh). unfold attested_symbol.
    destruct (decide (lit EVAL_FRAME = lit name)) as [Heq|Hd].
    - rewrite <-Heq in *. rewrite He in Hn. injection Hn as <-. by eexists.
    - exists s. unfold c'. cbn [pc_symbols with_parts]. by rewrite lookup_insert_ne. }
  destruct Hl as ([i Hi] & [[o1 H1] _] & [[o2 H2] _] & [[o3 H3] _] & [[o4 H4] _] & [[o5 H5] _]).
  unfold frame_attachments, get_symbol. rewrite E. cbn -[frame_points]. rewrite Hi, H1, H2, H3, H4, H5.
  eexists. split; [done|]. unfold frame_points. split; [set_solver|].
  rewrite Forall_forall. intros o Ho Hne1 Hne2. apply elem_of_app. left. apply list_elem_of_fmap.
  exists o. split; [done|]. right. apply list_elem_of_filter. naive_solver.
Qed.

(** ** Offsets *)

Lemma populate_entries l e σ :
  reliable e → Forall (λ iv : Z * Z, iv.1 < 64) l →
  ∃ σ', for_each (λ iv, offsets_set iv.1 iv.2) l e σ = (Ok tt, σ')
        ∧ python_offsets σ' = foldl (λ m iv, <[iv.1 := iv.2]> m) (python_offsets σ) l.
Proof.
  intros He. revert σ. induction l as [|[i v] l IH]; intros σ Hl; [by exists σ|].
  apply Forall_cons in Hl as [Hi Hl]. cbn [for_each foldl].
  set (σ1 := set_python_offsets (<[i := v]> (python_offsets σ)) (next_tick σ)).
  assert (offsets_set i v e σ = (Ok tt, σ1)) as E.
  { unfold offsets_set. destruct He as [-> _]. cbn in Hi. by rewrite (proj2 (Z.ltb_lt i 64) Hi). }
  destruct (IH σ1 Hl) as (σ' & E' & H). exists σ'. split; [|exact H].
  unfold try_bind. erewrite bind_run by exact E. exact E'.
Qed.

Definition eval_entries (off : OffsetsMap) (frame_reg exception_reg : Z) : list (Z * Z) :=
  [(OFF_FRAME_F_EXECUTABLE, om_f_executable off); (OFF_CODE_QUALNAME, om_co_qualname off);
   (OFF_CODE_FILENAME, om_co_filename off); (OFF_UNICODE_COMPACT_DATA, om_compact_data off);
   (OFF_CODE_FIRSTLINENO, om_co_firstlineno off); (OFF_FRAME_LOCALSPLUS, om_localsplus off);
   (OFF_FRAME_PREVIOUS, om_previous off); (OFF_FRAME_OWNER, om_owner off);
   (OFF_TASK_STATE, om_task_state off); (OFF_TASK_CORO, om_task_coro off);
   (OFF_FRAME_REG_IDX, frame_reg); (OFF_CODE_FLAGS, om_co_flags off);
   (OFF_GEN_IFRAME, om_gi_iframe off); (OFF_TSTATE_CURRENT_FRAME, om_current_frame off);
   (OFF_OBJ_TYPE, om_ob_type off); (OFF_GEN_FRAME_STATE, om_gi_frame_state off);
   (OFF_EXCEPTION_FRAME_REG_IDX, exception_reg)].

Lemma populate_offsets_run c e σ fr :
  reliable e → pc_symbols c !! lit EVAL_FRAME ≫= se_frame_reg_idx = Some fr →
  match pc_symbols c !! lit EVAL_FRAME ≫= se_end_exception_frame_reg_idx with
  | Some er =>
      ∃ σ', populate_python_offsets c e σ = (Ok tt, σ')
        ∧ python_offsets σ' = foldl (λ m iv, <[iv.1 := iv.2]> m) (python_offsets σ)
                                (eval_entries (pc_offsets c) fr er)
  | None => (populate_python_offsets c e σ).1 = Err 0
  end.
Proof.
  intros He Hf. unfold populate_python_offsets. cbv zeta.
  match goal with |- context [try_bind (for_each ?f ?l) ?k e σ] =>
    destruct (populate_entries l e σ He) as (σ1 & E1 & H1); [by repeat constructor|];
    rewrite !(try_run _ _ (for_each f l) k e σ _ _ E1) end. cbv iota.
  rewrite Hf. cbn [ok_or]. rewrite !(try_run _ _ (mret (Ok fr)) _ e σ1 (Ok fr) σ1 eq_refl). cbv iota beta.
  match goal with |- context [try_bind (for_each ?f ?l) ?k e σ1] =>
    destruct (populate_entries l e σ1 He) as (σ2 & E2 & H2); [by repeat constructor|];
    rewrite !(try_run _ _ (for_each f l) k e σ1 _ _ E2) end. cbv iota.
  destruct (_ ≫= se_end_exception_frame_reg_idx) as [er|]; cbn [ok_or].
  - rewrite (try_run _ _ (mret (Ok er)) _ e σ2 (Ok er) σ2 eq_refl). cbv iota beta.
    destruct (populate_entries [(16, er)] e σ2 He) as (σ3 & E3 & H3); [by repeat constructor|].
    exists σ3. split; [|by rewrite H3, H2, H1].
    cbn [for_each] in E3. unfold try_bind in E3.
    destruct (offsets_set 16 er e σ2) as [[[]|] σ4] eqn:E4; erewrite bind_run in E3 by exact E4; done.
  - by rewrite (try_run _ _ (mret (Err 0)) _ e σ2 (Err 0) σ2 eq_refl).
Qed.

(** The loader and the kernel programs agree on the offsets.  The loader writes
    the members of the contract under literal indices; each lookup of a kernel
    program, under the constant of that member, returns it. *)
Theorem offsets_agree c e σ fr er :
  reliable e → pc_symbols c !! lit EVAL_FRAME ≫= se_frame_reg_idx = Some fr →
  pc_symbols c !! lit EVAL_FRAME ≫= se_end_exception_frame_reg_idx = Some er →
  (populate_python_offsets c e σ).1 = Ok tt
  ∧ Forall (λ iv, ∀ e', (PYTHON_OFFSETS_get iv.1 e' (populate_python_offsets c e σ).2).1 = Some iv.2)
      (eval_entries (pc_offsets c) fr er).
Proof.
  intros He Hf Hx. pose proof (populate_offsets_run c e σ fr He Hf) as H. rewrite Hx in H.
  destruct H as (σ' & -> & Ho). split; [done|]. unfold PYTHON_OFFSETS_get. cbn [fst snd].
  rewrite Ho. cbn [eval_entries foldl fst snd].
  repeat (constructor; [intros e'; cbn [fst snd]; repeat first
    [rewrite lookup_insert_eq | rewrite lookup_insert_ne by done]; done|]). constructor.
Qed.

(** ** Attachment *)

(** The sources from which a deallocator can be attached. *)
Definition known_source (s : str) : Prop :=
  starts_with (lit "libpython") s = true ∨ starts_with (lit "python_binary") s = true
  ∨ s = lit "callscan" ∨ s = lit "asyncio_symtab".

Lemma symbol_binary_ok c name s :
  pc_symbols c !! lit name = Some s →
  is_ok (symbol_binary c name) = true ↔ known_source (se_source s).
Proof.
  intros H. unfold symbol_binary, get_symbol, known_source. rewrite H. cbn [ok_or mbind result_bind].
  generalize (starts_with (lit "libpython") (se_source s)),
    (starts_with (lit "python_binary") (se_source s)).
  case_bool_decide; intros [] []; cbn [orb is_ok]; tauto.
Qed.

Lemma dealloc_points_ok c seen names :
  Forall (attested_symbol c) names →
  is_ok (dealloc_points c seen names) = true
  ↔ Forall (λ name, ∃ s, pc_symbols c !! lit name = Some s ∧ known_source (se_source s)) names.
Proof.
  intros Hn. revert seen. induction Hn as [|name names (s & Hs & _) _ IH]; intros seen; [done|].
  cbn [dealloc_points]. rewrite Forall_cons. unfold symbol_offset, get_symbol. rewrite Hs.
  cbn [ok_or mbind result_bind]. pose proof (symbol_binary_ok c name s Hs) as Hb.
  assert ((∃ s', Some s = Some s' ∧ known_source (se_source s'))
          ↔ known_source (se_source s)) as ->.
  { split; [by intros (? & [= ->] & ?)|]. by exists s. }
  rewrite <-Hb. destruct (symbol_binary c name) as [binary|]; cbn; [|split; [done|by intros [? _]] ].
  case_bool_decide; rewrite IH; tauto.
Qed.

Lemma frame_attachments_ok c : loadable c → is_ok (frame_attachments c) = true.
Proof.
  intros [(eval & E & [i Hi] & [[o1 H1] _] & [[o2 H2] _] & [[o3 H3] _] & [[o4 H4] _] & [[o5 H5] _]) _].
  unfold frame_attachments, get_symbol. rewrite E. cbn [ok_or mbind result_bind].
  by rewrite Hi, H1, H2, H3, H4, H5.
Qed.

Lemma task_attachments_ok c : loadable c → is_ok (task_attachments c) = true.
Proof.
  intros (_ & Hs & _). unfold REQUIRED_SYMBOLS in Hs. rewrite !Forall_cons in Hs.
  destruct Hs as ((s1 & H1 & _) & (s2 & H2 & _) & (s3 & H3 & _) & _).
  unfold task_attachments, symbol_offset, get_symbol. by rewrite H1, H2, H3.
Qed.

Lemma uprobe_attachments_ok c :
  loadable c →
  is_ok (uprobe_attachments c) = true
  ↔ Forall (λ name, ∃ s, pc_symbols c !! lit name = Some s ∧ known_source (se_source s)) DEALLOC_SYMBOLS.
Proof.
  intros Hc. rewrite <-(dealloc_points_ok c []).
  - unfold uprobe_attachments, dealloc_attachments. pose proof (frame_attachments_ok c Hc) as Hf.
    pose proof (task_attachments_ok c Hc) as Ht.
    destruct (frame_attachments c), (task_attachments c), (dealloc_points c [] DEALLOC_SYMBOLS); done.
  - destruct Hc as (_ & Hs & _). unfold REQUIRED_SYMBOLS, DEALLOC_SYMBOLS in *.
    rewrite !Forall_cons in *. naive_solver.
Qed.

(** What validation does not cover.  A contract that passes validation starts if
    and only if it also names the register of the exception exit and gives one of the
    known sources for each deallocator; without these the start fails, after
    validation has passed. *)
Theorem validated_contract_starts c e σ :
  reliable e → validate_runtime_loadable c = Ok tt →
  ((populate_python_offsets c e σ).1 = Ok tt ∧ is_ok (uprobe_attachments c) = true)
  ↔ is_Some (pc_symbols c !! lit EVAL_FRAME ≫= se_end_exception_frame_reg_idx)
    ∧ Forall (λ name, ∃ s, pc_symbols c !! lit name = Some s ∧ known_source (se_source s))
        DEALLOC_SYMBOLS.
Proof.
  intros He Hv. apply validate_loadable in Hv. rewrite (uprobe_attachments_ok c Hv).
  destruct Hv as [(eval & E & [fr Hf] & _) _].
  assert (pc_symbols c !! lit EVAL_FRAME ≫= se_frame_reg_idx = Some fr) as Hr by (by rewrite E).
  pose proof (populate_offsets_run c e σ fr He Hr) as H.
  destruct (_ ≫= se_end_exception_frame_reg_idx) as [er|].
  - destruct H as (σ' & -> & _). naive_solver.
  - rewrite H. split; [by intros []|]. by intros [[] _].
Qed.
(** Programs that close a frame. *)
Definition is_exit (p : probe) : bool :=
  match p with eval_frame_end_rv | eval_frame_end_rc | eval_frame_end_exc => true | _ => false end.

(** Two groups of attachments of different programs do not meet. *)
Lemma NoDup_programs (l1 l2 : list attachment) (f : probe → bool) :
  NoDup l1 → NoDup l2 → Forall (λ a, f a.1 = true) l1 → Forall (λ a, f a.1 = false) l2 →
  NoDup (l1 ++ l2).
Proof.
  intros H1 H2 F1 F2. apply NoDup_app. split; [done|]. split; [|done].
  intros a Ha Ha'. rewrite Forall_forall in F1, F2. specialize (F1 a Ha). specialize (F2 a Ha').
  cbn in *. congruence.
Qed.

Lemma dealloc_points_NoDup c seen names points :
  NoDup seen → dealloc_points c seen names = Ok points → NoDup points.
Proof.
  revert seen. induction names as [|name names IH]; intros seen Hs; cbn [dealloc_points].
  { by intros [= <-]. }
  rewrite bind_ok_inv. intros (o & _ & H). apply bind_ok_inv in H as (b & _ & H).
  revert H. case_bool_decide as Hd; [by apply IH|]. apply IH, NoDup_app. split; [done|].
  split; [|apply NoDup_singleton]. intros x Hx ->%list_elem_of_singleton. done.
Qed.

Lemma NoDup_at (p : probe) (f : Z → attach_point) (os : list Z) :
  (∀ x y, f x = f y → x = y) → NoDup os → NoDup ((λ o, (p, f o)) <$> os).
Proof. intros Hf. apply NoDup_fmap_2. intros x y [= E]. by apply Hf. Qed.

Lemma program_at (p : probe) {A} (f : A → attach_point) (os : list A) (q : probe → bool) b :
  q p = b → Forall (λ a : attachment, q a.1 = b) ((λ o, (p, f o)) <$> os).
Proof. intros <-. apply Forall_fmap. by apply Forall_true. Qed.

Definition is_prog (p q : probe) : bool := bool_decide (q = p).

Lemma frame_points_NoDup binary starts rv rc exc entry resume :
  NoDup starts → NoDup (frame_points binary starts rv rc exc entry resume).
Proof.
  intros Hs. unfold frame_points.
  apply (NoDup_programs _ _ (is_prog eval_frame_entry));
    [by apply NoDup_at; [naive_solver|]| |by apply program_at|].
  2: { rewrite !Forall_app. split; [by apply program_at|]. repeat case_match; by repeat constructor. }
  apply (NoDup_programs _ _ (is_prog worker_eval_frame_entry));
    [by apply NoDup_at; [naive_solver|]| |by apply program_at|].
  2: { rewrite !Forall_app. repeat case_match; by repeat constructor. }
  repeat case_match; cbn [app]; repeat (apply NoDup_cons; split; [set_solver|]); apply NoDup_nil_2.
Qed.

Definition exits_at (binary : str) (o : Z) (l : list attachment) : list attachment :=
  filter (λ a, is_exit a.1 = true ∧ a.2 = Uprobe binary o) l.

Lemma exits_nil binary o l :
  Forall (λ a : attachment, is_exit a.1 = false) l → exits_at binary o l = [].
Proof.
  unfold exits_at. induction 1 as [|a l Ha _ IH]; [done|].
  rewrite filter_cons_False; [done|]. rewrite Ha. naive_solver.
Qed.

Lemma exits_app binary o l1 l2 :
  exits_at binary o (l1 ++ l2) = exits_at binary o l1 ++ exits_at binary o l2.
Proof. apply filter_app. Qed.

Lemma frame_points_exits binary starts rv rc exc entry resume o :
  o = rv ∨ o = rc ∨ o = exc →
  length (exits_at binary o (frame_points binary starts rv rc exc entry resume)) = 1%nat.
Proof.
  intros Ho. unfold frame_points. rewrite !exits_app, !length_app.
  rewrite (exits_nil binary o (_ <$> _)), (exits_nil binary o (_ <$> _)), (exits_nil binary o [_; _; _; _])
    by (by apply program_at || by repeat constructor). cbn [length plus].
  assert (∀ p x, is_exit p = true →
    length (exits_at binary o [(p, Uprobe binary x)]) = if o =? x then 1%nat else 0%nat) as Hone.
  { intros p x Hp. unfold exits_at. rewrite filter_cons, filter_nil. cbn. rewrite Hp.
    destruct (Z.eqb_spec o x); case_decide; naive_solver. }
  rewrite Hone by done.
  destruct (Z.eqb_spec rc rv), (Z.eqb_spec exc rv), (Z.eqb_spec exc rc); cbn [orb];
    rewrite ?Hone by done; cbn [length exits_at filter list_filter]; repeat case_match; lia.
Qed.

Lemma task_attachments_programs c l :
  task_attachments c = Ok l →
  NoDup l ∧ Forall (λ a, is_exit a.1 = false) l
  ∧ Forall (λ a, bool_decide (a.1 = gen_dealloc) = false) l
  ∧ Forall (λ a, a.1 ∈ [asyncio_task_init; asyncio_task_step; asyncio_task_step_ret;
                        asyncio_task_eager_start; asyncio_task_eager_start_ret]) l.
Proof.
  unfold task_attachments. rewrite bind_ok_inv. intros (i & _ & H). apply bind_ok_inv in H as (s & _ & H).
  apply bind_ok_inv in H as (g & _ & [= <-]).
  split; [repeat (apply NoDup_cons; split; [set_solver|]); apply NoDup_nil_2|].
  split; [by repeat constructor|]. split; [by repeat constructor|].
  repeat (constructor; [cbn; set_solver|]). constructor.
Qed.

Lemma dealloc_attachments_programs c l :
  dealloc_attachments c = Ok l → NoDup l ∧ Forall (λ a, a.1 = gen_dealloc) l.
Proof.
  unfold dealloc_attachments. rewrite bind_ok_inv. intros (points & Hp & [= <-]).
  apply dealloc_points_NoDup in Hp; [|apply NoDup_nil_2]. split.
  - apply NoDup_app. split; [|split].
    + apply NoDup_fmap_2; [|done]. intros [b o] [b' o']. cbn. naive_solver.
    + intros a (p & -> & _)%list_elem_of_fmap. set_solver.
    + repeat (apply NoDup_cons; split; [set_solver|]). apply NoDup_nil_2.
  - apply Forall_app. split; [|by repeat constructor]. apply Forall_fmap. by apply Forall_true.
Qed.

(** A program of the evaluation loop. *)
Definition is_frame_program (p : probe) : bool :=
  match p with
  | eval_frame_entry | worker_eval_frame_entry | eval_frame_end_rv | eval_frame_end_rc
  | eval_frame_end_exc | eval_frame_func_entry | worker_eval_frame_func_entry
  | eval_resume | worker_eval_resume => true
  | _ => false
  end.

Lemma frame_points_programs binary starts rv rc exc entry resume :
  Forall (λ a, is_frame_program a.1 = true) (frame_points binary starts rv rc exc entry resume).
Proof.
  unfold frame_points. rewrite !Forall_app. split; [by apply program_at|].
  split; [by apply program_at|]. repeat case_match; by repeat constructor.
Qed.

(** No program runs twice for one event.  If the contract lists no additional
    entry twice, no program is attached twice at a point; and each of the three exits
    of the evaluation loop, distinct or not, has exactly one program that closes the
    frame. *)
Theorem attached_once c l eval :
  uprobe_attachments c = Ok l → pc_symbols c !! lit EVAL_FRAME = Some eval →
  NoDup (se_start_frame_extra_file_offsets eval) →
  NoDup l
  ∧ ∀ o, Some o ∈ [se_end_return_value_file_offset eval; se_end_return_const_file_offset eval;
                   se_end_exception_file_offset eval] →
    length (exits_at (lp_path (pc_libpython c)) o l) = 1%nat.
Proof.
  intros Hl He Hn. unfold uprobe_attachments in Hl. apply bind_ok_inv in Hl as (frames & Hf & Hl).
  apply bind_ok_inv in Hl as (tasks & Ht & Hl). apply bind_ok_inv in Hl as (deallocs & Hd & [= <-]).
  apply task_attachments_programs in Ht as (Nt & Xt & Dt & Pt).
  apply dealloc_attachments_programs in Hd as (Nd & Pd).
  unfold frame_attachments, get_symbol in Hf. rewrite He in Hf. cbn [ok_or mbind result_bind] in Hf.
  apply bind_ok_inv in Hf as (start & Hs & Hf). apply bind_ok_inv in Hf as (? & _ & Hf).
  apply bind_ok_inv in Hf as (resume & Hr & Hf). apply bind_ok_inv in Hf as (rv & Hrv & Hf).
  apply bind_ok_inv in Hf as (rc & Hrc & Hf). apply bind_ok_inv in Hf as (exc & Hexc & [= <-]).
  rewrite ok_or_inv in *. rewrite Hrv, Hrc, Hexc. split.
  - apply (NoDup_programs _ _ is_frame_program).
    + apply frame_points_NoDup, NoDup_cons. split; [|by apply NoDup_filter].
      rewrite list_elem_of_filter. naive_solver.
    + apply (NoDup_programs _ _ (λ p, negb (bool_decide (p = gen_dealloc)))); [done|done| |].
      * eapply Forall_impl; [exact Dt|]. cbn. by intros a ->.
      * eapply Forall_impl; [exact Pd|]. cbn. by intros a ->.
    + apply frame_points_programs.
    + apply Forall_app. split; [eapply Forall_impl; [exact Pt|]|].
      { intros [p ?]. cbn. rewrite !elem_of_cons, elem_of_nil. naive_solver. }
      eapply Forall_impl; [exact Pd|]. cbn. by intros a ->.
  - intros o Ho. rewrite !exits_app, (exits_nil _ _ tasks), (exits_nil _ _ deallocs), app_nil_r by
      (done || (eapply Forall_impl; [exact Pd|]; cbn; by intros a ->)).
    apply frame_points_exits. rewrite !elem_of_cons, elem_of_nil in Ho. naive_solver.
Qed.

(** ** A contract *)

Definition sample_symbol (source : string) (offset : Z) : SymbolEntry :=
  {| se_source := lit source; se_file_offset := offset;
     se_start_frame_file_offset := Some 120; se_start_frame_extra_file_offsets := [130; 360];
     se_start_frame_offset_source := Some (lit "validated"); se_frame_reg_idx := Some 19;
     se_size := None;
     se_end_return_value_file_offset := Some 200; se_end_return_value_frame_reg_idx := None;
     se_end_return_value_offset_source := Some (lit "validated");
     se_end_return_const_file_offset := Some 200; se_end_return_const_frame_reg_idx := None;
     se_end_return_const_offset_source := Some (lit "validated");
     se_end_exception_file_offset := Some 280; se_end_exception_frame_reg_idx := Some 20;
     se_end_exception_offset_source := Some (lit "validated");
     se_yield_value_file_offset := None;
     se_resume_file_offset := Some 360; se_resume_offset_source := Some (lit "validated") |}.

Definition sample_contract : PythonContract :=
  {| pc_python := None;
     pc_verification := Some {| cv_state := lit "verified"; cv_verifier := []; cv_verified_ns := 1 |};
     pc_libpython := {| lp_path := lit "/packaged/python"; lp_build_id := [];
                        lp_build_id_fallback_sha256 := lit "aa"; lp_arch := lit "aarch64" |};
     pc_asyncio_module := {| mi_path := lit "/packaged/_asyncio.so"; mi_build_id := lit "cc" |};
     pc_python_binary := {| mi_path := lit "/packaged/python"; mi_build_id := [] |};
     pc_symbols :=
       list_to_map ((λ n, (lit n, sample_symbol "asyncio_symtab" 400)) <$>
                      (EVAL_FRAME :: REQUIRED_SYMBOLS));
     pc_offsets :=
       {| om_ob_type := 8; om_co_filename := 112; om_co_name := 120; om_co_qualname := 128;
          om_co_firstlineno := 68; om_co_flags := 48; om_compact_data := 40; om_f_executable := 0;
          om_previous := 8; om_owner := 70; om_localsplus := 72; om_gi_frame_state := 67;
          om_gi_iframe := 72; om_task_state := 64; om_task_coro := 96; om_task_result := 80;
          om_current_frame := 56 |};
     pc_frame_state_values := {| fv_created := -2; fv_suspended := -1; fv_executing := 0; fv_completed := 1 |};
     pc_task_state_values := {| tv_pending := 0; tv_cancelled := 1; tv_finished := 2 |};
     pc_contract_version := 2; pc_generated_ns := 1 |}.

Definition sample_detected : DetectedPythonRuntime :=
  {| dr_pid := 42; dr_python_path := lit "/live/python"; dr_asyncio_path := lit "/live/_asyncio.so";
     dr_python_build_id := []; dr_python_sha256 := lit "bb"; dr_asyncio_build_id := lit "cc";
     dr_arch := lit "aarch64" |}.

Definition sample_dir : ContractDir :=
  {| cd_path := lit "/contracts"; cd_index := None;
     cd_entries := Ok [Ok (lit "notes.txt"); Ok (lit "a.json")];
     cd_parse := λ p, if bool_decide (p = lit "/contracts/a.json") then Ok sample_contract else Err 0 |}.

(** The build identifiers of the contract and of the interpreter are the same. *)
Definition known_contract : PythonContract :=
  with_parts {| lp_path := lit "/packaged/python"; lp_build_id := lit "dd";
                lp_build_id_fallback_sha256 := lit "bb"; lp_arch := lit "aarch64" |}
    (pc_symbols sample_contract) sample_contract.
Definition known_detected : DetectedPythonRuntime :=
  {| dr_pid := 42; dr_python_path := lit "/live/python"; dr_asyncio_path := lit "/live/_asyncio.so";
     dr_python_build_id := lit "dd"; dr_python_sha256 := lit "bb"; dr_asyncio_build_id := lit "cc";
     dr_arch := lit "aarch64" |}.
Definition known_dir : ContractDir :=
  {| cd_path := lit "/contracts"; cd_index := None;
     cd_entries := Ok [Ok (lit "notes.txt"); Ok (lit "other.json"); Ok (lit "known.json")];
     cd_parse := λ p, if bool_decide (p = lit "/contracts/other.json") then Ok sample_contract
                      else if bool_decide (p = lit "/contracts/known.json") then Ok known_contract
                      else Err 0 |}.

(** The contract of another interpreter is passed over. *)
Lemma load_contract_sound_witness :
  contract_matches_detected sample_contract known_detected = false
  ∧ ∃ path c, cd_parse known_dir path = Ok c ∧ identified_as c known_detected ∧ loadable c
      ∧ rp_contract {| rp_contract := rewrite_contract_runtime_paths known_contract known_detected;
                       rp_detected := known_detected |}
        = rewrite_contract_runtime_paths c known_detected.
Proof.
  split; [vm_compute; reflexivity|].
  destruct (load_contract_sound known_dir known_detected
              {| rp_contract := rewrite_contract_runtime_paths known_contract known_detected;
                 rp_detected := known_detected |}) as (path & c & H).
  - vm_compute. reflexivity.
  - exists path, c. split; [apply H|]. split; [apply H|]. split; apply H.
Defined.

Lemma sha256_not_compared_witness :
  contract_matches_detected sample_contract sample_detected = true.
Proof.
  apply (sha256_not_compared sample_contract sample_detected (lit "bb")).
  - reflexivity.
  - reflexivity.
  - reflexivity.
  - reflexivity.
Defined.

Lemma offsets_agree_witness :
  (populate_python_offsets sample_contract env0 empty_state).1 = Ok tt.
Proof.
  apply (offsets_agree sample_contract env0 empty_state 19 20).
  - apply sample_reliable.
  - vm_compute. reflexivity.
  - vm_compute. reflexivity.
Defined.

Lemma validated_contract_starts_witness :
  (populate_python_offsets sample_contract env0 empty_state).1 = Ok tt
  ∧ is_ok (uprobe_attachments sample_contract) = true.
Proof.
  apply (validated_contract_starts sample_contract env0 empty_state).
  - apply sample_reliable.
  - vm_compute. reflexivity.
  - split; [vm_compute; eauto|].
    repeat (apply Forall_cons; split;
      [exists (sample_symbol "asyncio_symtab" 400); split; [vm_compute; reflexivity|by do 3 right]|]).
    apply Forall_nil_2.
Defined.

Lemma attached_once_witness :
  ∃ l, uprobe_attachments sample_contract = Ok l ∧ NoDup l
       ∧ length (exits_at (lit "/packaged/python") 200 l) = 1%nat.
Proof.
  destruct (uprobe_attachments sample_contract) as [l|] eqn:E; [|vm_compute in E; discriminate E].
  exists l. split; [reflexivity|].
  destruct (attached_once sample_contract l (sample_symbol "asyncio_symtab" 400)) as [H1 H2].
  - exact E.
  - vm_compute. reflexivity.
  - apply (bool_decide_unpack _). vm_compute. exact I.
  - split; [exact H1|]. apply H2. by constructor.
Defined.
