(* ===== verification/Cli.v ===== *)
(** * Command line and start ([ironscope/src/main.rs])

    The two [profile] commands and [run_cpython_runtime] up to its event loop.  What the
    host answers (environment, file system, parsed files, processes, the kernel's
    acceptance of an attachment) is the record [Host]; the BPF object itself loads. *)

From stdpp Require Import base gmap list strings.
From S2P Require Import Prelude Text Types Maps Compiler Contract Attach Probes.

(** ** The host *)

Record Host := {
  h_var : string → option str;
  h_exists : str → bool;
  (** The parent of the source directory at build time. *)
  h_workspace : option str;
  (** [read_to_string], and the YAML parser on a policy file. *)
  h_read : str → result str;
  h_yaml : str → result SectionFields;
  (** Whether [std::fs::write] succeeds at a path. *)
  h_write : str → bool;
  (** A file of framework rules and a contract, read and parsed. *)
  h_rules : str → result (list RuleEntry);
  h_contract : str → result PythonContract;
  h_contract_dir : str → ContractDir;
  h_view : Z → ProcessView;
  h_metadata : str → option (Z * Z);
  h_first_ipv4 : str → option (list Z);
  h_resolv_conf : option str;
  h_set_order : list Z → list Z;
  h_accept : attachment → bool;
  h_active_lsms : option str
}.

(** ** Arguments *)

Inductive ProfileCommand := Detect (pid : Z) | Validate (pid : Z) (contract : str).
Inductive Commands := Profile (command : ProfileCommand).

Record Args := {
  ar_command : option Commands;
  ar_config : option str; ar_mode : option str; ar_contract_dir : option str;
  ar_framework_rules : option str; ar_ready_file : str; ar_output : option str; ar_duration : Z
}.

Section host.
Context (h : Host).

(** ** Paths *)

Definition default_contract_dirs : list str :=
  match h_var h "IRONSCOPE_CONTRACT_DIR" with Some dir => [dir] | None => [] end
  ++ [lit "/usr/share/ironscope/python-contracts"]
  ++ match h_workspace h with Some root => [path_join root (lit "tools/python-contracts")] | None => [] end.

Definition resolve_contract_dir (explicit : option str) : result str :=
  match explicit with
  | Some dir => if h_exists h dir then Ok dir else Err 0
  | None => ok_or (head (filter (λ dir, h_exists h dir = true) default_contract_dirs))
  end.

Definition default_framework_rule_paths : list str :=
  match h_var h "IRONSCOPE_FRAMEWORK_RULES" with Some path => [path] | None => [] end
  ++ [lit "/usr/share/ironscope/rules/framework_rules.yaml"]
  ++ match h_workspace h with
     | Some root => [path_join root (lit "tools/rules/framework_rules.yaml")]
     | None => []
     end.

Definition resolve_framework_rules (explicit : option str) : result str :=
  match explicit with
  | Some path => if h_exists h path then Ok path else Err 0
  | None => ok_or (head (filter (λ path, h_exists h path = true) default_framework_rule_paths))
  end.

(** ** The [profile] commands *)

(** What a command prints. *)
Inductive ProfileOutput :=
| Printed (d : DetectedPythonRuntime)
| ContractValidated (pid : Z) (contract : str).

(** [PythonContract::load]: the version is checked as for a contract of a directory. *)
Definition load_contract (path : str) : result PythonContract :=
  c ← h_contract h path;
  _ ← bail_if (negb (pc_contract_version c =? 1) && negb (pc_contract_version c =? 2));
  Ok c.

Definition run_profile_command (command : ProfileCommand) : result ProfileOutput :=
  match command with
  | Detect pid => d ← detect_runtime_for_pid pid (h_view h pid); Ok (Printed d)
  | Validate pid contract =>
      detected ← detect_runtime_for_pid pid (h_view h pid);
      loaded ← load_contract contract;
      _ ← bail_if (negb (contract_matches_detected loaded detected));
      _ ← validate_attach_provenance loaded;
      Ok (ContractValidated pid contract)
  end.

Definition run_command (command : Commands) : result ProfileOutput :=
  match command with Profile command => run_profile_command command end.

(** ** The start of the runtime *)

(** [if let Some(ref mode) = args.mode { runtime_config.mode = mode.clone() }] *)
Definition override_mode (mode : option str) (s : IronScopeSection) : IronScopeSection :=
  match mode with
  | Some m =>
      {| cf_agents := cf_agents s; cf_tools := cf_tools s; cf_mode := m;
         cf_unknown_tool_policy := cf_unknown_tool_policy s;
         cf_resolver_error_policy := cf_resolver_error_policy s;
         cf_agent_child_scope := cf_agent_child_scope s;
         cf_default_tool_policy := cf_default_tool_policy s |}
  | None => s
  end.

(** Everything that is read before the BPF object is loaded. *)
Definition prepare (a : Args)
    : result (IronScopeSection * ResolvedPythonContract * list RootRule) :=
  config_path ← ok_or (ar_config a);
  yaml_config ← config_load (h_read h) (h_yaml h) config_path;
  let config := override_mode (ar_mode a) (yc_ironscope yaml_config) in
  _ ← configured_agent_pids config;
  contract_dir ← resolve_contract_dir (ar_contract_dir a);
  contract ← contract_for_agents (h_contract_dir h contract_dir) (h_view h) config;
  rules_path ← resolve_framework_rules (ar_framework_rules a);
  entries ← h_rules h rules_path;
  Ok (config, contract, load_rules entries).

(** [attach(..)?] for each: the start fails with the first that is refused. *)
Definition attach_all (l : list attachment) : result (list attachment) :=
  let '(made, ok) := attach_each (h_accept h) l in if ok : bool then Ok made else Err 0.

(** From the offsets to the event loop: the attachments of the running system. *)
Definition install (config : IronScopeSection) (contract : PythonContract) (rules : list RootRule)
    : M (result (list attachment)) :=
  populate_python_offsets contract ;;?
  populate_root_rules 0 rules ;;?
  traced ←? mret (attach_all tracepoints);
  let hooks := attach_hooks (h_accept h) (h_active_lsms h) in
  compiled ←? mret (compile_with_hashed_tool_ids (h_metadata h) (h_first_ipv4 h)
                      (h_resolv_conf h) (h_set_order h) config);
  populate_maps compiled ;;?
  points ←? mret (uprobe_attachments contract);
  probes ←? mret (attach_all points);
  mret (Ok (traced ++ hooks ++ probes)).

Definition start_runtime (a : Args) : M (result (list attachment)) :=
  prepared ←? mret (prepare a);
  let '(config, contract, rules) := prepared in
  install config (rp_contract contract) rules.

(** The program up to the event loop: a command's answer or the attachments. *)
Definition main (a : Args) : M (result (ProfileOutput + list attachment)) :=
  match ar_command a with
  | Some command => answer ←? mret (run_command command); mret (Ok (inl answer))
  | None => attached ←? start_runtime a; mret (Ok (inr attached))
  end.

(** ** The end of the run *)

(** What is done to the file system. *)
Inductive FileOp :=
| WriteFile (path content : str) | Chown (path : str) (uid gid : Z) | RemoveFile (path : str).

Definition sudo_id (name : string) : option Z := v ← h_var h name; parse_uint (2 ^ 32 - 1) v.

Definition chown_to_real_user (path : str) : list FileOp :=
  match sudo_id "SUDO_UID", sudo_id "SUDO_GID" with
  | Some uid, Some gid => [Chown path uid gid]
  | _, _ => []
  end.

(** From the report as JSON to the exit. *)
Definition finish_run (a : Args) (json : str) : result unit * list FileOp :=
  match ar_output a with
  | Some output_path =>
      if h_write h output_path then
        (Ok tt, WriteFile output_path json :: chown_to_real_user output_path
                ++ [RemoveFile (ar_ready_file a)])
      else (Err 0, [])
  | None => (Ok tt, [RemoveFile (ar_ready_file a)])
  end.
End host.
