(* ===== verification/Launch.v ===== *)
(** * The start of the system

    What a successful start guarantees: the compiled policy, the rules and the offsets
    are in the maps for the rest of the run, the contract is for the interpreter of
    every agent, and the programs are attached; and what holds while the policy is
    loaded under programs that already run. *)

From stdpp Require Import base gmap list strings.
From S2P Require Import Prelude Text Types Maps Samples Ownership Identity Worker Frames Tasks.
From S2P Require Import Events Lsm Probes Monotone Compiler Contexts Decision Enforcement Session.
From S2P Require Import Classify PolicyLoad Contract Attach Startup Cli.

(** ** The start window *)

(** C8: a policy is enforced as a whole or not at all.  While it is loaded, insertion by
    insertion, with programs running in between, a program that refuses anything does
    so under all rules of the policy: until the configuration is written, last, every
    program lets its caller through. *)
Theorem no_partial_enforcement c σ0 ws σ p e :
  fresh_policy σ0 → ironscope_config σ0 !! 0 = None →
  loading σ0 ws σ → ws `prefix_of` policy_writes c →
  (run_probe p e σ).1 = 0
  ∨ (∀ k, tool_fs_policy σ !! k = rule_for k (cp_fs_rules c))
    ∧ (∀ k, tool_exec_policy σ !! k = rule_for k (cp_exec_rules c))
    ∧ tool_net_policy σ = net_entry <$> cp_net_rules c
    ∧ ironscope_config σ !! 0 = Some (config_entry c).
Proof.
  intros (Hf & Hx & Hn) Hc Hl [rest Hws]. unfold policy_writes in Hws.
  destruct rest as [|w rest _] using rev_ind.
  - right. rewrite app_nil_r in Hws. subst ws.
    apply loaded_policy in Hl as (-> & -> & -> & -> & _). rewrite Hf, Hx, Hn.
    split_and!; [intros k; rewrite filled_lookup; by destruct (rule_for k _)..|done|done].
  - left. rewrite app_assoc in Hws. apply app_inj_tail in Hws as [Hws _].
    destruct (Enforcement.refusal p e σ) as [?|(_ & _ & _ & He)]; [done|]. unfold enforcing in He.
    rewrite (loading_unconfigured c σ0 ws σ Hl), Hc in He; [done|]. by exists rest.
Qed.

(** ** Loading of the offsets and rules *)

Lemma offsets_written l e σ σ' :
  for_each (λ iv, offsets_set iv.1 iv.2) l e σ = (Ok tt, σ') →
  python_offsets σ' = foldl (λ m iv, <[iv.1 := iv.2]> m) (python_offsets σ) l.
Proof.
  revert σ. induction l as [|[i v] l IH]; intros σ; [by intros [= ->]|].
  cbn [for_each foldl]. intros (σ1 & H1 & H)%try_ok. rewrite (IH _ H). f_equal.
  unfold offsets_set in H1. destruct (_ && _); [|done]. by injection H1 as <-.
Qed.

Lemma try_pure_ok {A B} (r : result A) (k : A → M (result B)) e σ b σ' :
  try_bind (mret r) k e σ = (Ok b, σ') → ∃ a, r = Ok a ∧ k a e σ = (Ok b, σ').
Proof. destruct r as [a|]; [|done]. by exists a. Qed.

(** What every lookup of an offset in [σ] gives is the member of the contract. *)
Definition offsets_of (c : PythonContract) (σ : State) : Prop :=
  ∃ fr er, pc_symbols c !! lit EVAL_FRAME ≫= se_frame_reg_idx = Some fr
    ∧ pc_symbols c !! lit EVAL_FRAME ≫= se_end_exception_frame_reg_idx = Some er
    ∧ Forall (λ iv, python_offsets σ !! iv.1 = Some iv.2) (eval_entries (pc_offsets c) fr er).

Lemma populate_offsets_ok c e σ σ' :
  populate_python_offsets c e σ = (Ok tt, σ') → offsets_of c σ'.
Proof.
  unfold populate_python_offsets. cbv zeta. intros (σ1 & H1 & H)%try_ok.
  apply try_pure_ok in H as (fr & Hf & H). apply try_ok in H as (σ2 & H2 & H).
  apply try_pure_ok in H as (er & Hx & H3). rewrite ok_or_inv in Hf, Hx.
  exists fr, er. split; [done|]. split; [done|].
  assert (for_each (λ iv, offsets_set iv.1 iv.2) [(16, er)] e σ2 = (Ok tt, σ')) as H4.
  { cbn [for_each fst snd]. erewrite try_run by exact H3. done. }
  rewrite (offsets_written _ _ _ _ H4), (offsets_written _ _ _ _ H2), (offsets_written _ _ _ _ H1).
  cbn [eval_entries foldl fst snd].
  repeat (constructor; [cbn [fst snd]; repeat first
    [rewrite lookup_insert_eq | rewrite lookup_insert_ne by done]; done|]). constructor.
Qed.

Lemma populate_root_rules_ok e σ σ' (done rules : list RootRule) :
  (length done ≤ 64)%nat → (∀ i : nat, root_rules σ !! Z.of_nat i = done !! i) →
  populate_root_rules (Z.of_nat (length done)) rules e σ = (Ok tt, σ') →
  rules_loaded σ' (done ++ rules).
Proof.
  revert σ done. induction rules as [|r rules IH]; intros σ dn Hl Hd; cbn [populate_root_rules].
  { intros [= <-]. by rewrite app_nil_r. }
  intros (σ1 & H1 & H)%try_ok. rewrite cons_middle, app_assoc.
  destruct (update_ok e (tick σ)); [|done].
  destruct (Z.ltb_spec (Z.of_nat (length dn)) 64); [|done]. injection H1 as <-.
  eapply (IH _ (dn ++ [r])); [rewrite length_app; cbn; lia| |].
  2: { rewrite length_app, Nat2Z.inj_add. exact H. }
  intros i. sproj. destruct (decide (i = length dn)) as [->|Hne].
  - by rewrite lookup_insert_eq, lookup_app_r, Nat.sub_diag by lia.
  - rewrite lookup_insert_ne by lia. rewrite Hd.
    destruct (decide (i < length dn)%nat); [by rewrite lookup_app_l|].
    rewrite !lookup_ge_None_2; [done| |lia]. rewrite length_app. cbn. lia.
Qed.

(** ** What the other loads leave alone *)

Lemma leaves_for_each {A B} (f : State → B) (g : A → M (result unit)) l :
  (∀ a, Leaves f (g a)) → Leaves f (for_each g l).
Proof.
  intros Hg x. induction l as [|a l IH]; cbn [for_each]; [by intros ? ? ?|].
  apply preserves_try; [apply Hg|done].
Qed.

Definition policy_maps (σ : State) := (tool_fs_policy σ, tool_exec_policy σ, tool_net_policy σ).

Lemma leaves_offsets c : Leaves (λ σ, (policy_maps σ, root_rules σ)) (populate_python_offsets c).
Proof.
  assert (∀ i v, Leaves (λ σ, (policy_maps σ, root_rules σ)) (offsets_set i v)) as Ho.
  { intros i v x e σ _ Hσ. unfold offsets_set. by destruct (_ && _). }
  intros x. unfold populate_python_offsets. cbv zeta.
  repeat first [apply preserves_try; [|intros ?] | apply leaves_for_each; intros ?
               | apply Ho | by intros ? ? ?].
Qed.

Lemma leaves_root_rules i rules :
  Leaves (λ σ, (policy_maps σ, python_offsets σ)) (populate_root_rules i rules).
Proof.
  intros x. revert i. induction rules as [|r rules IH]; intros i; cbn [populate_root_rules];
    [by intros ? ? ?|]. apply preserves_try; [|done].
  intros e σ _ Hσ. by destruct (_ && _).
Qed.

Lemma leaves_populate_maps c : Leaves (λ σ, (root_rules σ, python_offsets σ)) (populate_maps c).
Proof.
  intros x. unfold populate_maps.
  repeat first [apply preserves_try; [|intros ?] | apply leaves_for_each; intros ?
               | apply leaves_user_insert; by intros].
  intros y e σ _ Hσ. unfold net_insert. by destruct (_ && _).
Qed.

(** ** The contract of the agents *)

Lemma check_other_agents_ok cd view primary pids :
  check_other_agents cd view primary pids = Ok tt →
  Forall (λ pid, ∃ d, detect_runtime_for_pid pid (view pid) = Ok d
                      ∧ same_interpreter d (rp_detected primary) = true) pids.
Proof.
  induction pids as [|pid pids IH]; cbn [check_other_agents]; [by constructor|].
  rewrite bind_ok_inv. intros (other & Ho & H). apply bind_unit_inv in H as [Hs H].
  constructor; [|by apply IH]. rewrite bail_if_inv, negb_false_iff in Hs.
  unfold load_contract_for_pid in Ho. apply bind_ok_inv in Ho as (d & Hd & Ho).
  apply load_detected_ok in Ho as (? & ? & _ & _ & _ & ->). by exists d.
Qed.

Lemma contract_for_agents_ok cd view config rc :
  contract_for_agents cd view config = Ok rc →
  (∃ path c, load cd path = Ok c ∧ identified_as c (rp_detected rc) ∧ loadable c
     ∧ rp_contract rc = rewrite_contract_runtime_paths c (rp_detected rc))
  ∧ Forall (λ pid, ∃ d, detect_runtime_for_pid pid (view pid) = Ok d
                        ∧ same_interpreter d (rp_detected rc) = true) (omap ag_pid (cf_agents config)).
Proof.
  unfold contract_for_agents, configured_agent_pids. rewrite bind_ok_inv. intros (pids & Hp & H).
  destruct (omap ag_pid (cf_agents config)) as [|pid rest]; [done|]. injection Hp as <-.
  apply bind_ok_inv in H as (primary & Hl & H). apply bind_unit_inv in H as [Hc [= ->]].
  unfold load_contract_for_pid in Hl. apply bind_ok_inv in Hl as (d & Hd & Hl).
  apply load_detected_ok in Hl as (path & c & H1 & H2 & H3 & ->). split; [by exists path, c|].
  constructor; [|by apply check_other_agents_ok in Hc]. exists d. split; [done|].
  cbn. unfold same_interpreter. by rewrite !bool_decide_eq_true_2.
Qed.

(** ** A started system *)

Lemma attach_each_all accept l made : attach_each accept l = (made, true) → made = l.
Proof.
  revert made. induction l as [|a l IH]; cbn [attach_each]; intros made; [by intros [= <-]|].
  destruct (accept a); [|done]. destruct (attach_each accept l) as [m ok].
  intros [= <- ->]. by rewrite (IH m).
Qed.

Lemma attach_all_ok h l made : attach_all h l = Ok made → made = l.
Proof.
  unfold attach_all. destruct (attach_each (h_accept h) l) as [m ok] eqn:E.
  destruct ok; [|done]. intros [= <-]. by eapply attach_each_all.
Qed.

Lemma install_ok h config contract rules e σ0 atts σ1 :
  fresh_policy σ0 → root_rules σ0 = ∅ →
  install h config contract rules e σ0 = (Ok atts, σ1) →
  ∃ σ2 c points,
    fresh_policy σ2 ∧ loading σ2 (policy_writes c) σ1
    ∧ compile_with_hashed_tool_ids (h_metadata h) (h_first_ipv4 h) (h_resolv_conf h)
        (h_set_order h) config = Ok c
    ∧ rules_loaded σ1 rules ∧ offsets_of contract σ1 ∧ uprobe_attachments contract = Ok points
    ∧ atts = tracepoints ++ attach_hooks (h_accept h) (h_active_lsms h) ++ points.
Proof.
  intros (Hf & Hx & Hn) Hr. unfold install. intros (σa & Ha & H)%try_ok.
  apply try_ok in H as (σb & Hb & H). apply try_pure_ok in H as (traced & Ht & H).
  apply attach_all_ok in Ht as ->. apply try_pure_ok in H as (c & Hc & H).
  apply try_ok in H as (σc & Hm & H). apply try_pure_ok in H as (points & Hu & H).
  apply try_pure_ok in H as (probes & Hp & [= <- <-]). apply attach_all_ok in Hp as ->.
  pose proof (leaves_offsets contract _ e σ0 I eq_refl) as La. rewrite Ha in La. injection La as F1 X1 N1 R1.
  pose proof (leaves_root_rules 0 rules _ e σa I eq_refl) as Lb. rewrite Hb in Lb. injection Lb as F2 X2 N2 O2.
  pose proof (leaves_populate_maps c _ e σb I eq_refl) as Lc. rewrite Hm in Lc. injection Lc as R3 O3.
  exists σb, c, points. split; [by unfold fresh_policy; rewrite F2, X2, N2, F1, X1, N1|].
  split; [by eapply populate_loading|]. split; [done|].
  split; [|split; [|done]].
  - destruct (populate_root_rules_ok e σa σb [] rules) as [Hl Hi]; [cbn; lia| |exact Hb|].
    { intros i. by rewrite R1, Hr. }
    split; [done|]. intros i. by rewrite R3, Hi.
  - destruct (populate_offsets_ok _ _ _ _ Ha) as (fr & er & ? & ? & Ho). exists fr, er.
    by rewrite O3, O2.
Qed.

Lemma prepare_ok h a config rc rules :
  prepare h a = Ok (config, rc, rules) →
  ∃ path dir, ar_config a = Some path
    ∧ (∃ yaml, config_load (h_read h) (h_yaml h) path = Ok yaml
       ∧ config = override_mode (ar_mode a) (yc_ironscope yaml))
    ∧ resolve_contract_dir h (ar_contract_dir a) = Ok dir
    ∧ contract_for_agents (h_contract_dir h dir) (h_view h) config = Ok rc.
Proof.
  unfold prepare. rewrite bind_ok_inv. intros (path & Hp & H). apply ok_or_inv in Hp.
  apply bind_ok_inv in H as (section & Hs & H). cbv zeta in H. apply bind_ok_inv in H as (? & _ & H).
  apply bind_ok_inv in H as (dir & Hd & H). apply bind_ok_inv in H as (rc' & Hc & H).
  apply bind_ok_inv in H as (? & _ & H). apply bind_ok_inv in H as (? & _ & [= <- -> <-]).
  exists path, dir. naive_solver.
Qed.

(** C5: what a successful start means.  In every later state the compiled policy of the
    configuration file, with the mode of the command line, is in force, the kernel has
    all framework rules and the offsets of the contract; the contract comes from the
    contract directory, is verified and identifies the interpreter of the first agent,
    which all agents share; and every tracepoint and every point of the contract has
    its program. *)
Theorem start_sound h a e σ0 atts σ1 :
  fresh_policy σ0 → root_rules σ0 = ∅ →
  start_runtime h a e σ0 = (Ok atts, σ1) →
  ∃ path section rc rules c σ2 dir points,
    let config := override_mode (ar_mode a) section in
    prepare h a = Ok (config, rc, rules)
    ∧ ar_config a = Some path
    ∧ config_load (h_read h) (h_yaml h) path = Ok {| yc_ironscope := section |}
    ∧ cf_mode config = unwrap_or (ar_mode a) (cf_mode section) ∧ cf_tools config = cf_tools section
    ∧ (∀ σ, reaches σ1 σ →
         deployed (h_metadata h) (h_first_ipv4 h) (h_resolv_conf h) (h_set_order h) config c σ2 σ
         ∧ rules_loaded σ rules ∧ offsets_of (rp_contract rc) σ)
    ∧ resolve_contract_dir h (ar_contract_dir a) = Ok dir
    ∧ (∃ file c0, load (h_contract_dir h dir) file = Ok c0 ∧ identified_as c0 (rp_detected rc)
         ∧ loadable c0 ∧ rp_contract rc = rewrite_contract_runtime_paths c0 (rp_detected rc))
    ∧ Forall (λ pid, ∃ d, detect_runtime_for_pid pid (h_view h pid) = Ok d
                          ∧ same_interpreter d (rp_detected rc) = true)
        (omap ag_pid (cf_agents config))
    ∧ uprobe_attachments (rp_contract rc) = Ok points
    ∧ atts = tracepoints ++ attach_hooks (h_accept h) (h_active_lsms h) ++ points.
Proof.
  intros Hf Hr. unfold start_runtime. intros ([[config rc] rules] & Hp & H)%try_pure_ok.
  pose proof (prepare_ok _ _ _ _ _ Hp) as (path & dir & H1 & ([section] & H2 & ->) & H3 & H4).
  apply install_ok in H as (σ2 & c & points & Hf2 & Hl & Hc & Hrl & Ho & Hu & Hat); [|done..].
  apply contract_for_agents_ok in H4 as [H4 H5].
  exists path, section, rc, rules, c, σ2, dir, points. cbv zeta.
  split_and!; try done; [by destruct (ar_mode a)..|].
  intros σ Hr1. destruct (reaches_extends _ _ Hr1) as [[= _ _ _ _ R O] _ _ _]. split_and!.
  - split_and!; [done..|]. by exists σ1.
  - destruct Hrl as [? Hi]. split; [done|]. intros i. by rewrite R, Hi.
  - destruct Ho as (fr & er & ? & ? & Ho). exists fr, er. by rewrite O.
Qed.

(** ** The end of a run *)

(** The ready marker is removed by a run that succeeds, and only by one: when the report
    cannot be written the marker outlives the program. *)
Lemma ready_marker_removed h a json :
  RemoveFile (ar_ready_file a) ∈ (finish_run h a json).2 ↔ (finish_run h a json).1 = Ok tt.
Proof.
  unfold finish_run. destruct (ar_output a) as [path|]; [destruct (h_write h path)|]; cbn [fst snd].
  - split; [done|]. intros _. apply elem_of_cons. right. apply elem_of_app. right.
    by apply list_elem_of_singleton.
  - by split; [intros ?%elem_of_nil|].
  - split; [done|]. intros _. by apply list_elem_of_singleton.
Qed.

(** The report is written with the content given, and owned by the user behind [sudo]. *)
Lemma report_owner h a json path uid gid :
  ar_output a = Some path → h_write h path = true →
  sudo_id h "SUDO_UID" = Some uid → sudo_id h "SUDO_GID" = Some gid →
  (finish_run h a json).2 = [WriteFile path json; Chown path uid gid; RemoveFile (ar_ready_file a)].
Proof. unfold finish_run, chown_to_real_user. by intros -> -> -> ->. Qed.

(** ** [profile validate] *)

(** C26: [profile validate] checks what a start checks.  The start takes a contract file
    for a process exactly when the command accepts the file for the process and the
    file is marked verified, a mark the command does not ask for. *)
Theorem profile_validate_agrees h cd pid path d :
  detect_runtime_for_pid pid (h_view h pid) = Ok d → cd_parse cd path = h_contract h path →
  (∃ rc, try_contract cd path d = Ok (Some rc))
  ↔ run_profile_command h (Validate pid path) = Ok (ContractValidated pid path)
    ∧ ∃ c v, h_contract h path = Ok c ∧ pc_verification c = Some v ∧ cv_state v = lit "verified".
Proof.
  intros Hd Hp. cbn [run_profile_command]. rewrite Hd. cbn [mbind result_bind].
  unfold try_contract, load, load_contract. rewrite Hp.
  destruct (h_contract h path) as [c|] eqn:E; cbn [mbind result_bind]; [|naive_solver].
  destruct (bail_if _) as [[]|]; cbn [mbind result_bind]; [|naive_solver].
  destruct (contract_matches_detected c d); cbn [negb bail_if mbind result_bind]; [|naive_solver].
  unfold validate_runtime_loadable.
  destruct (validate_attach_provenance c) as [[]|]; cbn [mbind result_bind]; [|naive_solver].
  destruct (pc_verification c) as [v|] eqn:V; cbn [fmap option_fmap option_map unwrap_or]; [|naive_solver].
  case_bool_decide; cbn [mbind result_bind]; naive_solver.
Qed.

(** ** Instances *)

(** The file rule is written; thread 9 opens the file before the rest is. *)
Lemma no_partial_enforcement_witness :
  let σ := (run_probe ag_file_open env_file
              (do_write (WriteFs ({| fp_tool_id := rules_fnv1a_32 (lit "t"); fp_dev := 1;
                                     fp_ino := 500 |}, PERM_ALLOW)) env0 sample_state).2).2 in
  (run_probe ag_file_open env_file σ).1 = 0
  ∨ ironscope_config σ !! 0 = Some (config_entry sample_compiled).
Proof.
  intros σ. destruct (no_partial_enforcement sample_compiled sample_state
    [WriteFs ({| fp_tool_id := rules_fnv1a_32 (lit "t"); fp_dev := 1; fp_ino := 500 |}, PERM_ALLOW)]
    σ ag_file_open env_file) as [H|(_ & _ & _ & H)].
  - split_and!; reflexivity.
  - reflexivity.
  - apply loading_runs. eapply (loading_write _ [] _ _ env0); [apply loading_start|reflexivity].
  - exists (tail (policy_writes sample_compiled)). vm_compute. reflexivity.
  - left. exact H.
  - right. exact H.
Defined.

(** Process 7 runs [/live/python] with [_asyncio] in a module of its own; neither file
    has a build identifier. *)
Definition sample_elf : ElfFile :=
  {| elf_data := []; elf_sections := []; elf_machine := 183; elf_dynsyms := []; elf_syms := [] |}.
Definition sample_view : ProcessView :=
  {| pv_environ := None; pv_exe := Ok (lit "/live/python");
     pv_maps := Ok (lit "7f00-7f10 r-xp 0 00:00 9 /live/_asyncio.so"); pv_exists := λ _, true;
     pv_elf := λ _, Ok sample_elf;
     pv_sha256sum := λ p, Ok (if bool_decide (p = lit "/live/python") then lit "aa  -" else lit "cc  -") |}.
(** The file of [sample_section], whose policies are left to their defaults. *)
Definition sample_fields : SectionFields :=
  {| sf_agents := Some [{| ag_pid := Some 7 |}];
     sf_tools := Some [{| tf_name := lit "t";
       tf_fs := Some {| pf_allow := Some [lit "/a"]; pf_deny := Some [lit "/a"] |};
       tf_exec := Some {| pf_allow := Some [lit "/a"]; pf_deny := Some [lit "*"] |};
       tf_net := Some {| pf_allow := None; pf_deny := Some [lit "10.0.0.0/8"] |} |}];
     sf_mode := Some (lit "enforce"); sf_unknown_tool_policy := None;
     sf_resolver_error_policy := None; sf_agent_child_scope := None;
     sf_default_tool_policy := None |}.
Definition sample_host : Host :=
  {| h_var := λ _, None; h_exists := λ _, true; h_workspace := None;
     h_read := λ _, Ok []; h_yaml := λ _, Ok sample_fields;
     h_write := λ _, true;
     h_rules := λ _, Ok [{| ru_kind := 1; ru_qualname := lit "BaseTool.run"; ru_filename := None;
                            ru_slot := 0; ru_extractor_kind := 1 |}];
     h_contract := λ _, Ok sample_contract; h_contract_dir := λ _, sample_dir;
     h_view := λ _, sample_view; h_metadata := sample_metadata; h_first_ipv4 := λ _, None;
     h_resolv_conf := None; h_set_order := λ l, l; h_accept := λ _, true;
     h_active_lsms := Some (lit "lockdown,bpf") |}.
Definition sample_args : Args :=
  {| ar_command := None; ar_config := Some (lit "policy.yaml"); ar_mode := Some (lit "monitor");
     ar_contract_dir := None; ar_framework_rules := None; ar_ready_file := lit "/tmp/ironscope/ready";
     ar_output := None; ar_duration := 0 |}.

(** The result of a computation that is known to succeed. *)
Definition ok_list {A} (r : result (list A)) : list A := match r with Ok l => l | Err _ => [] end.

Lemma start_sound_witness :
  let r := start_runtime sample_host sample_args env0 sample_state in
  ∃ c σ2, deployed sample_metadata (λ _, None) None (λ l, l)
            (override_mode (Some (lit "monitor")) sample_section) c σ2 r.2
          ∧ tracepoints ⊆ ok_list r.1.
Proof.
  intros r. destruct (start_sound sample_host sample_args env0 sample_state (ok_list r.1) r.2)
    as (path & section & rc & rules & c & σ2 & dir & points & _ & _ & Hs & _ & _ & Hd & _ & _ & _ & _ & Ha).
  - split_and!; reflexivity.
  - reflexivity.
  - unfold r. vm_compute. reflexivity.
  - injection Hs as <-. exists c, σ2. split; [apply Hd, reaches_refl|].
    rewrite Ha. intros x Hx. apply elem_of_app. by left.
Defined.

Lemma profile_validate_agrees_witness :
  run_profile_command sample_host (Validate 7 (lit "/contracts/a.json"))
  = Ok (ContractValidated 7 (lit "/contracts/a.json")).
Proof.
  destruct (detect_runtime_for_pid 7 sample_view) as [d|] eqn:E; [|vm_compute in E; discriminate E].
  apply (profile_validate_agrees sample_host sample_dir 7 (lit "/contracts/a.json") d).
  - exact E.
  - vm_compute. reflexivity.
  - assert (d = {| dr_pid := 7; dr_python_path := lit "/live/python";
                   dr_asyncio_path := lit "/live/_asyncio.so"; dr_python_build_id := [];
                   dr_python_sha256 := lit "aa"; dr_asyncio_build_id := lit "cc";
                   dr_arch := lit "aarch64" |}) as ->.
    { vm_compute in E. injection E as <-. reflexivity. }
    eexists. vm_compute. reflexivity.
Defined.
