(* ===== verification/PathResolve.v ===== *)
(** * Paths of audited files ([path.rs], [main.rs])

    The walk over the dentries of a file spells its path from the root, across
    mounts, and the report shows that path. *)

From stdpp Require Import base gmap list strings.
From S2P Require Import Prelude Text Types Maps Samples Events Compiler Runtime.

(** ** What the walk should produce *)

(** The components from the root down, separated by slashes. *)
Fixpoint join_slash (names : list (list Z)) : list Z :=
  match names with
  | [] => []
  | [n] => n
  | n :: names => n ++ 47 :: join_slash names
  end.

(** The dentry has this name. *)
Definition dentry_named (e : Env) (d : Z) (name : list Z) : Prop :=
  ∃ addr, dentry_name e d = Some (addr, Z.of_nat (length name))
          ∧ Z.of_nat (length name) ≤ MAX_NAME
          ∧ kernel_bytes (kernel_mem e) addr (length name) = Some name.

(** [climbs e c names c' n]: [n] steps of the walk lead from [c] to [c'], over the named
    components, the last first; at the root of a mount the walk goes on from the mount
    point. *)
Inductive climbs (e : Env) : cursor → list (list Z) → cursor → nat → Prop :=
| climbs_refl c : climbs e c [] c 0
| climbs_mount c c1 names c' n :
    cu_entry c = cu_mnt_root c → cu_mount c ≠ cu_mnt_parent c → cross_mount e c = Some c1 →
    climbs e c1 names c' n → climbs e c names c' (S n)
| climbs_up c parent name names c' n :
    cu_entry c ≠ cu_mnt_root c → field e dentry_d_parent (cu_entry c) = Some parent →
    cu_entry c ≠ parent → parent ≠ 0 → name ≠ [] → dentry_named e (cu_entry c) name →
    climbs e {| cu_entry := parent; cu_mount := cu_mount c; cu_mnt_parent := cu_mnt_parent c;
                cu_mnt_root := cu_mnt_root c |} names c' n →
    climbs e c (name :: names) c' (S n).

(** The root of the outermost mount. *)
Definition at_root (c : cursor) : Prop :=
  cu_entry c = cu_mnt_root c ∧ cu_mount c = cu_mnt_parent c.

(** ** The buffer *)

(** The buffer ends with [s]. *)
Definition holds (p : Path) (s : list Z) : Prop :=
  length (p_buffer p) = 1024%nat ∧ p_len p = Z.of_nat (length s) ∧ (length s ≤ 1024)%nat
  ∧ drop (1024 - length s) (p_buffer p) = s.

Lemma holds_default : holds Path_default [].
Proof. repeat split; cbn; lia. Qed.

Lemma holds_space p s : holds p s → space_left p = 1024 - Z.of_nat (length s).
Proof.
  intros (_ & Hl & Hs & _). unfold space_left, MAX_PATH_LEN. rewrite Hl.
  apply u64_small. unfold in_u64. lia.
Qed.

Lemma holds_slice p s : holds p s → (length s ≤ 1023)%nat → as_slice p = s.
Proof.
  intros (Hb & Hl & _ & Hd) Hs. unfold as_slice, bound_value_for_verifier, MAX_PATH_LEN.
  rewrite Hl, Hb, (proj2 (Z.ltb_ge _ _)), Z.gtb_ltb, (proj2 (Z.ltb_ge _ _)) by lia.
  rewrite <-Hd at 2. f_equal. lia.
Qed.

Lemma prepend_sep_holds p s :
  holds p s → (length s < 1024)%nat → ∃ p', prepend_path_sep p = Ok p' ∧ holds p' (47 :: s).
Proof.
  intros Hp Hs. pose proof (holds_space p s Hp) as Hsp. destruct Hp as (Hb & Hl & _ & Hd).
  unfold prepend_path_sep. rewrite Hsp, Hb, (proj2 (Z.ltb_ge _ _)), Z.geb_leb, (proj2 (Z.leb_gt _ _)) by lia.
  eexists. split; [done|]. unfold holds. cbn [p_buffer p_len length].
  rewrite length_insert, Hl, u32_small by (unfold in_u32; lia). split; [done|]. split; [lia|]. split; [lia|].
  replace (1024 - S (length s))%nat with (Z.to_nat (1024 - Z.of_nat (length s) - 1)) by lia.
  set (i := Z.to_nat _). rewrite (drop_S _ 47 i) by (apply list_lookup_insert_eq; lia).
  f_equal. rewrite drop_insert_lt, <-Hd by lia. f_equal. lia.
Qed.

Lemma prepend_dentry_holds e d name p s :
  holds p s → dentry_named e d name → (length name + length s ≤ 1024)%nat →
  ∃ p', prepend_dentry e d p = Ok p' ∧ holds p' (name ++ s).
Proof.
  intros Hp (addr & Hn & Hm & Hk) Hs. pose proof (holds_space p s Hp) as Hsp.
  destruct Hp as (Hb & Hl & _ & Hd). unfold prepend_dentry. rewrite Hn.
  unfold prepend_qstr_name, cap_size, MAX_NAME in *.
  rewrite Hsp, (u32_small (1024 - _)) by (unfold in_u32; lia).
  rewrite u8_small, Z.gtb_ltb, (proj2 (Z.ltb_ge _ _)), (proj2 (Z.ltb_ge _ _)) by lia.
  rewrite (u32_small (1024 - _ - _)), Hb, Z.gtb_ltb, (proj2 (Z.ltb_ge _ _)) by (unfold in_u32; lia).
  assert ((if Z.of_nat (length name) >=? 255 then 255 else Z.of_nat (length name) `mod` 255)
          = Z.of_nat (length name)) as ->.
  { rewrite Z.geb_leb. destruct (Z.leb_spec 255 (Z.of_nat (length name))); [lia|].
    apply Z.mod_small. lia. }
  rewrite Nat2Z.id, Hk. eexists. split; [done|]. unfold holds, write_bytes. cbn [p_buffer p_len].
  set (i := Z.to_nat (1024 - Z.of_nat (length s) - Z.of_nat (length name))).
  assert (length (take i (p_buffer p)) = i) as Hi by (rewrite length_take; lia).
  rewrite Hl, u32_small, !length_app, Hi, length_drop, Hb by (unfold in_u32; lia).
  split; [lia|]. split; [lia|]. split; [lia|].
  replace (1024 - (length name + length s))%nat with i by lia.
  rewrite drop_app_length' by done. f_equal. rewrite <-Hd. f_equal. lia.
Qed.

(** ** The walk *)

(** What the walk adds in front of what it has: a name, with a separator unless it is
    the first. *)
Definition add_name (name s : list Z) : list Z :=
  match s with [] => name | _ => name ++ 47 :: s end.

Lemma prepend_component_holds e d name p s :
  holds p s → dentry_named e d name → (length (add_name name s) ≤ 1024)%nat →
  ∃ p', prepend_component e d p = Ok p' ∧ holds p' (add_name name s).
Proof.
  intros Hp Hn Hs. unfold prepend_component. destruct s as [|b s]; unfold is_empty.
  - destruct Hp as (Hb & Hl & Hr). rewrite Hl. cbn [length Z.of_nat Z.eqb add_name].
    rewrite <-(app_nil_r name). apply prepend_dentry_holds; [done|done|cbn in *; lia].
  - pose proof Hp as (_ & Hl & _). rewrite Hl, (proj2 (Z.eqb_neq _ _)) by (cbn; lia).
    cbn [add_name] in *. rewrite length_app in Hs. cbn in Hs.
    destruct (prepend_sep_holds p (b :: s) Hp) as (p1 & -> & H1); [cbn; lia|].
    apply prepend_dentry_holds; [done|done|cbn; lia].
Qed.

Definition add_names (names : list (list Z)) (s : list Z) : list Z :=
  foldl (λ s name, add_name name s) s names.

Lemma add_names_length names s : (length s ≤ length (add_names names s))%nat.
Proof.
  revert s. induction names as [|name names IH]; intros s; [done|]. cbn.
  etransitivity; [|apply IH]. destruct s; cbn; [lia|]. rewrite length_app. cbn. lia.
Qed.

Lemma resolve_loop_climbs e c names c' n fuel p s :
  climbs e c names c' n → holds p s → (length (add_names names s) ≤ 1024)%nat →
  ∃ p', resolve_loop e (n + fuel) c p = resolve_loop e fuel c' p' ∧ holds p' (add_names names s).
Proof.
  intros Hw. revert p s.
  induction Hw as [c|c c1 names c' n E1 E2 E3 _ IH|c parent name names c' n E1 E2 E3 E4 Hne Hd _ IH];
    intros p s Hp Hs; cbn [plus resolve_loop].
  - by exists p.
  - rewrite (proj2 (Z.eqb_eq _ _) E1), (proj2 (Z.eqb_neq _ _) E2), E3. by apply IH.
  - rewrite (proj2 (Z.eqb_neq _ _) E1), E2, (proj2 (Z.eqb_neq _ _) E3). cbn [add_names foldl] in *.
    fold (add_names names (add_name name s)) in *.
    destruct (prepend_component_holds e (cu_entry c) name p s Hp Hd) as (p1 & -> & H1).
    { pose proof (add_names_length names (add_name name s)). lia. }
    rewrite (proj2 (Z.eqb_neq _ _) E4). by apply IH.
Qed.

Lemma climbs_names e c names c' n : climbs e c names c' n → Forall (λ name, name ≠ []) names.
Proof. induction 1; by auto. Qed.

Lemma join_slash_nil names : Forall (λ n, n ≠ []) names → join_slash names = [] → names = [].
Proof. intros [|n [|n' l] Hn _]; cbn; [done|done|]. by intros [_ ?]%app_nil. Qed.

Lemma add_names_join names l :
  Forall (λ n, n ≠ []) names → Forall (λ n, n ≠ []) l →
  add_names names (join_slash l) = join_slash (rev names ++ l).
Proof.
  intros Hn. revert l. induction Hn as [|n names Hn Hns IH]; intros l Hl; [done|].
  cbn [add_names foldl rev]. rewrite <-app_assoc. cbn [app]. rewrite <-IH by (by constructor).
  unfold add_names. f_equal. unfold add_name. destruct (join_slash l) eqn:E.
  - by rewrite (join_slash_nil l Hl E).
  - destruct l; [done|]. cbn [join_slash] in *. by rewrite E.
Qed.

Lemma core_resolve_climbs e path c names c' n name :
  path ≠ 0 → start_cursor e path = Some c → climbs e c names c' n → dentry_named e (cu_entry c') name →
  (n = 128%nat ∨ (n < 128)%nat ∧ at_root c') →
  (length (name ++ join_slash (rev names)) ≤ 1023)%nat →
  ∃ p, core_resolve e path MAX_PATH_DEPTH Path_default = Ok p
       ∧ as_slice p = name ++ join_slash (rev names).
Proof.
  intros Hp Hc Hw Hd Hn Hlen. rewrite length_app in Hlen. unfold core_resolve.
  rewrite (proj2 (Z.eqb_neq _ _) Hp), Hc.
  pose proof (add_names_join names [] (climbs_names _ _ _ _ _ Hw) (Forall_nil_2 _)) as Hj.
  rewrite app_nil_r in Hj. cbn [join_slash] in Hj.
  destruct (resolve_loop_climbs e c names c' n (128 - n) Path_default []) as (p1 & E & H1);
    [done|apply holds_default|rewrite Hj; lia|]. rewrite Hj in H1.
  assert (n ≤ 128)%nat by (destruct Hn as [|[? _]]; lia).
  replace (n + (128 - n))%nat with (Z.to_nat MAX_PATH_DEPTH) in E
    by (change (Z.to_nat MAX_PATH_DEPTH) with 128%nat; lia). rewrite E.
  assert (resolve_loop e (128 - n) c' p1 = Ok (cu_entry c', p1)) as ->.
  { destruct Hn as [->|[Hn [R1 R2]]]; [done|]. destruct (128 - n)%nat eqn:E'; [lia|]. cbn [resolve_loop].
    by rewrite (proj2 (Z.eqb_eq _ _) R1), (proj2 (Z.eqb_eq _ _) R2). }
  destruct (prepend_dentry_holds e (cu_entry c') name p1 _ H1 Hd) as (p2 & -> & H2); [lia|].
  exists p2. split; [done|]. apply holds_slice; [done|]. rewrite length_app. lia.
Qed.

(** ** In the report *)

Lemma until_nul_free s : Forall (λ b, b ≠ 0) s → until_nul s = s.
Proof.
  induction 1 as [|b s Hb _ IH]; [done|]. cbn. by rewrite (proj2 (Z.eqb_neq b 0) Hb), IH.
Qed.

Lemma extract_copied pid tid kind action tool_id ctx_id identity source ts p cs :
  as_slice p = string_of_chars cs → Forall (λ c, is_char c = true) cs →
  Forall (λ b, b ≠ 0) (string_of_chars cs) → (0 < length (string_of_chars cs) ≤ 1023)%nat →
  extract_guard_path
    (copy_path_to_event
       (guard_event pid tid kind action tool_id ctx_id identity source ts) p) = string_of_chars cs.
Proof.
  intros Hp Hc Hz Hl. unfold copy_path_to_event. rewrite Hp. unfold MAX_EVENT_PATH_LEN.
  rewrite Z.min_l, (proj2 (Z.eqb_neq _ _)) by lia. unfold extract_guard_path, MAX_EVENT_PATH_LEN.
  cbn [ge_path ge_path_len]. unfold u16. rewrite Z.mod_small, Z.min_l by lia.
  rewrite Nat2Z.id, (take_ge (string_of_chars cs)) by lia.
  unfold write_bytes. rewrite take_0, app_nil_l, take_app_length.
  rewrite until_nul_free by done. by apply lossy_string.
Qed.

(** C37: the report shows the file that was opened.  For a file whose dentries spell
    the components [names] (the last first) up to the root of the outermost mount, over
    any mounts, in fewer than 128 steps and at most 1023 bytes, the path is rebuilt and
    the report shows the components from the root, each after a slash. *)
Theorem report_shows_path e f path c names root n table pid tid kind action tool_id ctx_id identity
    source ts cs :
  f ≠ 0 → field e file_f_path f = Some path → path ≠ 0 → start_cursor e path = Some c →
  climbs e c names root n → (n < 128)%nat → at_root root → dentry_named e (cu_entry root) [47] →
  string_of_chars cs = 47 :: join_slash (rev names) → Forall (λ c, is_char c = true) cs →
  Forall (λ b, b ≠ 0) (string_of_chars cs) → (length (string_of_chars cs) ≤ 1023)%nat →
  ∃ p, core_resolve_file e f MAX_PATH_DEPTH Path_default = Ok p
    ∧ ga_path (audit_guard_event table
                 (copy_path_to_event
                    (guard_event pid tid kind action tool_id ctx_id identity source ts) p))
      = 47 :: join_slash (rev names).
Proof.
  intros Hf Hp Hp' Hs Hw Hn Hr Hd Ht Hc Hz Hl.
  destruct (core_resolve_climbs e path c names root n [47] Hp' Hs Hw Hd) as (p & E & Hsl).
  - by right.
  - cbn. rewrite Ht in Hl. cbn in Hl. lia.
  - exists p. unfold core_resolve_file. rewrite (proj2 (Z.eqb_neq _ _) Hf), Hp. split; [exact E|].
    cbn [audit_guard_event ga_path]. rewrite <-Ht. apply extract_copied; [|done|done|].
    + by rewrite Hsl, Ht.
    + split; [|done]. rewrite Ht. cbn. lia.
Qed.

(** A deep path is shown wrong.  When the walk is cut off after its 128 steps, the
    name of the directory it has reached is put in front of what it has without a
    slash, and nothing above it is shown. *)
Theorem deep_path_cut e path c names c' name :
  path ≠ 0 → start_cursor e path = Some c → climbs e c names c' 128 →
  dentry_named e (cu_entry c') name → (length (name ++ join_slash (rev names)) ≤ 1023)%nat →
  ∃ p, core_resolve e path MAX_PATH_DEPTH Path_default = Ok p
       ∧ as_slice p = name ++ join_slash (rev names).
Proof. intros Hp Hs Hw Hd Hl. apply (core_resolve_climbs e path c names c' 128); auto. Qed.

(** ** Concrete files *)

Lemma report_shows_path_witness :
  ∃ p, core_resolve_file env_file 64 MAX_PATH_DEPTH Path_default = Ok p
    ∧ ga_path (audit_guard_event ∅
                 (copy_path_to_event (guard_event 7 9 EVENT_FS_OPEN ACTION_DENY 5 17 1 2 3) p)) = lit "/a".
Proof.
  apply (report_shows_path env_file 64 300
           {| cu_entry := 400; cu_mount := 468; cu_mnt_parent := 468; cu_mnt_root := 410 |} [[97]]
           {| cu_entry := 410; cu_mount := 468; cu_mnt_parent := 468; cu_mnt_root := 410 |} 1)
    with (cs := [47; 97]).
  - lia.
  - reflexivity.
  - lia.
  - reflexivity.
  - apply climbs_up with (parent := 410); [cbn; lia|reflexivity|cbn; lia|lia|done| |apply climbs_refl].
    exists 700. split; [reflexivity|]. split; [cbn; unfold MAX_NAME; lia|reflexivity].
  - lia.
  - done.
  - exists 710. split; [reflexivity|]. split; [cbn; unfold MAX_NAME; lia|reflexivity].
  - reflexivity.
  - by repeat constructor.
  - by repeat constructor.
  - cbn. lia.
Defined.

(** A dentry at 1000 with the parents 1001, 1002, ..., all named [a]. *)
Definition deep_accessor (f : core_field) (p : Z) : option Z :=
  match f with
  | path_dentry => Some 1000
  | path_mnt => Some 500
  | mount_mnt_parent => Some 468
  | vfsmount_mnt_root => Some 5
  | dentry_d_parent => Some (p + 1)
  | dentry_d_name => Some (p + 1000)
  | qstr_name => Some (p + 1000)
  | qstr_hash_len => Some (2 ^ 32)
  | _ => None
  end.
Definition env_deep : Env := sample_env (λ _, None) deep_accessor (λ _ _ _, None).
Definition deep_cursor (d : Z) : cursor :=
  {| cu_entry := d; cu_mount := 468; cu_mnt_parent := 468; cu_mnt_root := 5 |}.

Lemma deep_named d : 1000 ≤ d ≤ 2000 → dentry_named env_deep d [97].
Proof.
  intros Hd. exists (d + 1000 + 1000). split; [|split; [done|]].
  - unfold dentry_name, field. cbn [shim env_deep sample_env deep_accessor].
    replace (d =? 0) with false by lia. cbn [mbind option_bind].
    replace (d + 1000 =? 0) with false by lia. reflexivity.
  - unfold kernel_bytes, read_bytes. cbn [length seq mapM kernel_mem env_deep sample_env].
    rewrite u64_small by (unfold in_u64; lia).
    destruct (Z.eqb_spec (d + 1000 + 1000 + Z.of_nat 0) 710); [lia|]. reflexivity.
Qed.

Lemma deep_climbs n d :
  1000 ≤ d → d + Z.of_nat n ≤ 2000 →
  climbs env_deep (deep_cursor d) (replicate n [97]) (deep_cursor (d + Z.of_nat n)) n.
Proof.
  revert d. induction n as [|n IH]; intros d Hd Hn.
  - rewrite Z.add_0_r. apply climbs_refl.
  - cbn [replicate]. apply climbs_up with (parent := d + 1); try done; cbn [deep_cursor cu_entry cu_mnt_root].
    + lia.
    + unfold field. by replace (d =? 0) with false by lia.
    + lia.
    + lia.
    + apply deep_named. lia.
    + replace (d + Z.of_nat (S n)) with (d + 1 + Z.of_nat n) by lia. apply IH; lia.
Qed.

Lemma deep_path_cut_witness :
  ∃ p, core_resolve env_deep 1 MAX_PATH_DEPTH Path_default = Ok p
       ∧ as_slice p = 97 :: join_slash (rev (replicate 128 [97])).
Proof.
  apply (deep_path_cut env_deep 1 (deep_cursor 1000) (replicate 128 [97]) (deep_cursor 1128) [97]).
  - lia.
  - reflexivity.
  - apply (deep_climbs 128 1000); lia.
  - apply deep_named. cbn. lia.
  - vm_compute. lia.
Defined.
