(* ===== verification/NetReport.v ===== *)
(** * Endpoints in the report ([main.rs])

    The report shows an endpoint in the notation of the policy file. *)

From stdpp Require Import base gmap list strings.
From S2P Require Import Prelude Text Types Maps Samples Events Compiler Runtime Net.

Lemma swap_twice n x : 0 ≤ x < 256 ^ Z.of_nat n → swap_bytes n (swap_bytes n x) = x.
Proof.
  intros Hx. unfold swap_bytes. destruct (le_bytes_octets n x) as [Ho Hl].
  rewrite <-Hl at 1. rewrite <-(length_rev (le_bytes n x)), le_bytes_decode by (by apply Forall_rev).
  rewrite rev_involutive. by apply le_decode_bytes.
Qed.

Lemma swap_range x : 0 ≤ swap_bytes 2 x < 65536.
Proof.
  unfold swap_bytes. cbn. pose proof (Z.mod_pos_bound x 256 ltac:(lia)).
  pose proof (Z.mod_pos_bound (x / 256) 256 ltac:(lia)). lia.
Qed.

(** The two byte orders of a port, as the compiler and the report compute them. *)
Lemma to_be16_swap p : 0 ≤ p < 65536 → to_be16 p = swap_bytes 2 p.
Proof.
  intros Hp. unfold to_be16, swap_bytes. cbn [le_bytes rev app le_decode].
  rewrite Z.lor_comm, Z.shiftr_div_pow2 by lia. change (2 ^ 8) with 256.
  rewrite lor_shiftl_add; [|lia|].
  - change 0xff with (Z.ones 8). rewrite Z.land_ones by lia. change (2 ^ 8) with 256.
    rewrite (Z.mod_small (p / 256)); [lia|]. split; [apply Z.div_pos; lia|apply Z.div_lt_upper_bound; lia].
  - change (2 ^ 8) with 256. split; [apply Z.div_pos; lia|apply Z.div_lt_upper_bound; lia].
Qed.

Lemma format_ipv4_octets addr :
  in_u32 addr → ∃ a b c d, octet a ∧ octet b ∧ octet c ∧ octet d
    ∧ format_guard_ipv4 addr = show_ipv4 a b c d ∧ le_decode [a; b; c; d] = addr.
Proof.
  intros Ha. destruct (le_bytes_octets 4 addr) as [Ho Hl].
  destruct (le_bytes 4 addr) as [|a [|b [|c [|d [|? ?]]]]] eqn:E; try discriminate Hl.
  rewrite !Forall_cons in Ho. destruct Ho as (? & ? & ? & ? & _). exists a, b, c, d.
  do 4 (split; [done|]). split.
  - unfold format_guard_ipv4, swap_bytes. rewrite E. cbn [rev app].
    change 4%nat with (length [d; c; b; a]). rewrite le_bytes_decode by (by rewrite !Forall_cons).
    done.
  - rewrite <-E. by apply (le_decode_bytes 4).
Qed.

(** An endpoint that the report shows can be pasted into a policy.  The address and
    the port of a connect event, written as [address:port] in a network rule, compile to
    the key of exactly this endpoint, whatever the name service says. *)
Theorem reported_endpoint_is_rule first_ipv4 tool_id table ev :
  ge_kind ev = EVENT_NET_CONNECT → in_u32 (ge_addr ev) → 0 ≤ ge_port ev < 65536 →
  ∃ addr port, ga_addr (audit_guard_event table ev) = Some addr
    ∧ ga_port (audit_guard_event table ev) = Some port
    ∧ parse_net_rule first_ipv4 tool_id (addr ++ 58 :: show_dec 5 port)
      = Some {| nk_prefixlen := 96; nk_tool_id := tool_id; nk_addr := ge_addr ev;
                nk_port := ge_port ev; nk_pad := 0 |}.
Proof.
  intros Hk Ha Hp. destruct (format_ipv4_octets _ Ha) as (a & b & c & d & Oa & Ob & Oc & Od & Hf & Hd).
  exists (show_ipv4 a b c d), (swap_bytes 2 (ge_port ev)). cbn [audit_guard_event ga_addr ga_port].
  rewrite Hk, Hf. split; [done|]. split; [done|].
  rewrite (parse_endpoint first_ipv4 tool_id) by (done || apply swap_range).
  by rewrite Hd, to_be16_swap, swap_twice by (apply swap_range || done).
Qed.

Definition sample_connect : GuardEvent :=
  with_endpoint 0x0100000a 0xbb01
    (guard_event 7 9 EVENT_NET_CONNECT ACTION_DENY 5 17 IDENTITY_STATE_KNOWN_TOOL POLICY_SOURCE_TOOL 3).

Lemma reported_endpoint_is_rule_witness :
  ∃ addr port, ga_addr (audit_guard_event ∅ sample_connect) = Some addr
    ∧ ga_port (audit_guard_event ∅ sample_connect) = Some port
    ∧ parse_net_rule (λ _, None) 5 (addr ++ 58 :: show_dec 5 port)
      = Some {| nk_prefixlen := 96; nk_tool_id := 5; nk_addr := 0x0100000a;
                nk_port := 0xbb01; nk_pad := 0 |}.
Proof.
  apply (reported_endpoint_is_rule (λ _, None) 5 ∅ sample_connect).
  - reflexivity.
  - vm_compute. split; congruence.
  - vm_compute. split; congruence.
Defined.
