(* ===== verification/Device.v ===== *)
(** * Device numbers ([compiler.rs])

    [stat] reports a device in the encoding of the C library, [s_dev] holds the
    kernel's; the compiler translates the one into the other, so that a rule is filed
    under the number that the hooks look up. *)

From stdpp Require Import base gmap list strings.
From S2P Require Import Prelude Types Maps Compiler.

(** The encoding of the C library ([gnu_dev_makedev]) and the kernel's ([MKDEV]). *)
Definition gnu_dev_makedev (major minor : Z) : Z :=
  Z.lor (Z.lor (Z.shiftl (Z.land major 0xfff) 8) (Z.shiftl (Z.ldiff major 0xfff) 32))
        (Z.lor (Z.land minor 0xff) (Z.shiftl (Z.ldiff minor 0xff) 12)).
Definition MKDEV (major minor : Z) : Z := Z.lor (Z.shiftl major 20) minor.

(** A bit of a number of [w] bits. *)
Lemma bit_above x w i : 0 ≤ x < 2 ^ w → w ≤ i → Z.testbit x i = false.
Proof.
  intros Hx Hi. destruct (decide (x = 0)) as [->|]; [apply Z.bits_0|].
  apply Z.bits_above_log2; [lia|].
  apply Z.lt_le_trans with w; [|done]. apply Z.log2_lt_pow2; lia.
Qed.

Lemma mask_bit k i : 0 ≤ k → 0 ≤ i → Z.testbit (Z.ones k) i = (i <? k).
Proof. intros Hk Hi. by apply Z.testbit_ones_nonneg. Qed.

(** A number whose low bits are those of [y] is [y] modulo their weight. *)
Lemma low_bits x y w :
  0 ≤ w → 0 ≤ y < 2 ^ w → (∀ i, 0 ≤ i < w → Z.testbit x i = Z.testbit y i) → x `mod` 2 ^ w = y.
Proof.
  intros Hw Hy H. rewrite <-Z.land_ones by done. apply Z.bits_inj'. intros i Hi.
  rewrite Z.land_spec, mask_bit by done. destruct (Z.ltb_spec i w).
  - rewrite andb_true_r. apply H. lia.
  - by rewrite andb_false_r, (bit_above y w).
Qed.

(** The bit [i] of an expression from the bits of its parts: the bits outside a field
    are false, those of a mask are decided, the others are named by their index. *)
Ltac bits :=
  repeat first
    [ rewrite Z.lor_spec | rewrite Z.land_spec | rewrite Z.ldiff_spec | rewrite Z.lxor_spec
    | rewrite Z.shiftl_spec by lia | rewrite Z.shiftr_spec by lia ];
  repeat match goal with
    | |- context [Z.testbit ?x ?j] =>
        first [rewrite (Z.testbit_neg_r x j) by lia | rewrite (bit_above x 32 j) by lia]
    | |- context [Z.testbit (Z.ones ?k) ?j] =>
        rewrite (mask_bit k j) by lia;
        first [replace (j <? k) with true by lia | replace (j <? k) with false by lia]
    end;
  cbn [negb xorb]; rewrite ?andb_false_r, ?andb_true_r, ?andb_false_l, ?orb_false_r, ?orb_false_l;
  f_equal; lia.

(** What [major] and [minor] compute, bit by bit. *)
Lemma decoded_bits major minor i :
  0 ≤ major < 2 ^ 32 → 0 ≤ minor < 2 ^ 32 → 0 ≤ i < 32 →
  let dev := gnu_dev_makedev major minor in
  Z.testbit (Z.lor (Z.land (Z.shiftr dev 8) 0xfff)
               (Z.land (Z.shiftr dev 32) (Z.lxor (2 ^ 64 - 1) 0xfff))) i = Z.testbit major i
  ∧ Z.testbit (Z.lor (Z.land dev 0xff)
                 (Z.land (Z.shiftr dev 12) (Z.lxor (2 ^ 64 - 1) 0xff))) i = Z.testbit minor i.
Proof.
  intros Hj Hn Hi dev. unfold dev, gnu_dev_makedev.
  change 0xfff with (Z.ones 12). change 0xff with (Z.ones 8). change (2 ^ 64 - 1) with (Z.ones 64).
  assert (i < 4 ∨ 4 ≤ i < 8 ∨ 8 ≤ i < 12 ∨ 12 ≤ i < 20 ∨ 20 ≤ i < 24 ∨ 24 ≤ i) as [|[|[|[|[|]]]]] by lia;
    split; bits.
Qed.

Lemma decoded major minor :
  0 ≤ major < 2 ^ 32 → 0 ≤ minor < 2 ^ 32 →
  let dev := gnu_dev_makedev major minor in
  u32 (Z.lor (Z.land (Z.shiftr dev 8) 0xfff)
         (Z.land (Z.shiftr dev 32) (Z.lxor (2 ^ 64 - 1) 0xfff))) = major
  ∧ u32 (Z.lor (Z.land dev 0xff)
           (Z.land (Z.shiftr dev 12) (Z.lxor (2 ^ 64 - 1) 0xff))) = minor.
Proof.
  intros Hj Hn dev. split; (apply low_bits; [lia|done|]); intros i Hi;
    destruct (decoded_bits major minor i Hj Hn Hi); done.
Qed.

(** The rule is filed under the device that the hooks see.  For every device the
    kernel can have (12 bits of major, 20 bits of minor number), the translation of the
    number that [stat] reports is the kernel's number, and different devices have
    different numbers. *)
Theorem device_translated major minor :
  0 ≤ major < 2 ^ 12 → 0 ≤ minor < 2 ^ 20 →
  userspace_dev_to_kernel_dev (gnu_dev_makedev major minor) = MKDEV major minor
  ∧ (∀ major' minor', 0 ≤ major' < 2 ^ 12 → 0 ≤ minor' < 2 ^ 20 →
       userspace_dev_to_kernel_dev (gnu_dev_makedev major' minor')
       = userspace_dev_to_kernel_dev (gnu_dev_makedev major minor) → major' = major ∧ minor' = minor).
Proof.
  assert (∀ major minor, 0 ≤ major < 2 ^ 12 → 0 ≤ minor < 2 ^ 20 →
    userspace_dev_to_kernel_dev (gnu_dev_makedev major minor) = MKDEV major minor) as Hd.
  { clear. intros major minor Hj Hn. unfold userspace_dev_to_kernel_dev, MKDEV. cbv zeta.
    destruct (decoded major minor) as [-> ->]; [lia|lia|].
    rewrite u32_small; [done|]. unfold in_u32. rewrite Z.shiftl_mul_pow2 by lia. lia. }
  intros Hj Hn. split; [by apply Hd|]. intros major' minor' Hj' Hn'. rewrite !Hd by done.
  unfold MKDEV. rewrite !lor_shiftl_add by lia. intros E. lia.
Qed.

Lemma device_translated_witness :
  userspace_dev_to_kernel_dev (gnu_dev_makedev 259 300) = MKDEV 259 300.
Proof. apply (device_translated 259 300); lia. Defined.
