(* ===== verification/RepoTests.v ===== *)
(** * The repository's unit tests

    The tests of [compiler.rs], [config.rs], [python_symbols.rs], [main.rs] and
    [cpython.rs] that need no file, process or network, evaluated on the definitions of
    the development: each [Example] has the name and the assertions of a test.  Parsed
    YAML and JSON are given as the records the parsers return, and the addresses of
    resolvers and files as the answers of the host. *)

From stdpp Require Import base gmap list strings.
From S2P Require Import Prelude Text Types Maps Compiler Runtime Cpython Contract.

Module CompilerTests.
(** [to_socket_addrs] answers for the address alone. *)
Definition net_rule : Z → str → option ToolNetKey :=
  parse_net_rule (λ s, if bool_decide (s = lit "127.0.0.1:443") then Some [127; 0; 0; 1] else None).

Example test_parse_cidr :
  ∃ key, net_rule 1 (lit "10.0.0.0/8") = Some key ∧ nk_tool_id key = 1 ∧ nk_prefixlen key = 40.
Proof. by eexists. Qed.
Example test_parse_ipv4 : parse_ipv4 (lit "192.168.1.1") = Some (le_decode [192; 168; 1; 1]).
Proof. done. Qed.
Example test_parse_net_rule_uses_consistent_ipv4_encoding :
  ∃ bare cidr port,
    net_rule 7 (lit "127.0.0.1") = Some bare ∧ net_rule 7 (lit "127.0.0.1/32") = Some cidr
    ∧ net_rule 7 (lit "127.0.0.1:443") = Some port
    ∧ nk_addr bare = nk_addr cidr ∧ nk_addr port = nk_addr cidr.
Proof. eexists _, _, _. by repeat split. Qed.
Example test_parse_net_rule_port_rules_match_port_bits :
  ∃ with_port without_port,
    net_rule 7 (lit "127.0.0.1:443") = Some with_port
    ∧ net_rule 7 (lit "127.0.0.1") = Some without_port
    ∧ to_be16 (nk_port with_port) = 443
    ∧ nk_prefixlen with_port = 96 ∧ nk_prefixlen without_port = 64.
Proof. eexists _, _. by repeat split. Qed.
Example test_wildcard_cidr :
  ∃ key, net_rule 0 (lit "0.0.0.0/0") = Some key ∧ nk_prefixlen key = 32 ∧ nk_addr key = 0.
Proof. by eexists. Qed.
Example test_userspace_dev_to_kernel_dev :
  userspace_dev_to_kernel_dev 0xFD01 = 265289729 ∧ userspace_dev_to_kernel_dev 0x0800 = 8388608
  ∧ userspace_dev_to_kernel_dev 5 = 5.
Proof. done. Qed.

(** The assertion of the test, for every content of [/etc/resolv.conf]. *)
Example test_discover_dns_resolver_ips resolv_conf :
  discover_dns_resolver_ips resolv_conf ≠ [] ∧ NoDup (discover_dns_resolver_ips resolv_conf).
Proof.
  unfold discover_dns_resolver_ips.
  set (ips := match resolv_conf with Some _ => _ | None => _ end).
  assert (NoDup ips) as Hn.
  { subst ips. destruct resolv_conf as [contents|]; [|apply NoDup_nil_2].
    match goal with |- NoDup (foldl ?f [] ?l) =>
      cut (∀ acc, NoDup acc → NoDup (foldl f acc l)); [intros H; apply H, NoDup_nil_2|];
      induction l as [|line lines IH]; intros acc Ha; [done|]
    end.
    apply IH. repeat case_match; try done. case_bool_decide; [done|].
    apply NoDup_app. split_and!; [done| |apply NoDup_singleton].
    by intros ip ? ->%list_elem_of_singleton. }
  revert Hn. generalize ips. intros [|ip l] Hn; [|by split]. split; [by vm_compute|].
  apply NoDup_cons; split; [vm_compute; intros H; inversion H as [|? ? ? H2]; inversion H2|].
  apply NoDup_singleton.
Qed.
Example test_inject_dns_allows a b :
  let rules := inject_dns_allows 1 [a; b] in
  length rules = 2%nat
  ∧ Forall (λ r, r.2 = PERM_ALLOW ∧ nk_prefixlen r.1 = 64 ∧ nk_tool_id r.1 = 1) rules.
Proof. by repeat constructor. Qed.

(** The [ironscope] member of the YAML of a test. *)
Definition yaml (agents : option (list AgentDef)) (tools : option (list ToolFields))
    (mode unknown resolver_error child default : option str) : SectionFields :=
  {| sf_agents := agents; sf_tools := tools; sf_mode := mode;
     sf_unknown_tool_policy := unknown; sf_resolver_error_policy := resolver_error;
     sf_agent_child_scope := child; sf_default_tool_policy := default |}.
Definition tool (name : string) (fs exec net : option PolicyFields) : ToolFields :=
  {| tf_name := lit name; tf_fs := fs; tf_exec := exec; tf_net := net |}.
Definition allow (l : list str) : option PolicyFields :=
  Some {| pf_allow := Some l; pf_deny := None |}.
Definition deny (l : list str) : option PolicyFields :=
  Some {| pf_allow := None; pf_deny := Some l |}.
Definition agent (pid : Z) : option (list AgentDef) := Some [{| ag_pid := Some pid |}].
Definition policies (unknown resolver_error child default : str) : SectionFields :=
  yaml None None None (Some unknown) (Some resolver_error) (Some child) (Some default).
Definition nothing : SectionFields := yaml None None None None None None None.

(** [PolicyCompiler::compile], on a host where [/tmp] is inode 2 of device 1. *)
Definition compile (f : SectionFields) : result CompiledPolicy :=
  compile_with_tool_ids (λ p, if bool_decide (p = lit "/tmp") then Some (1, 2) else None)
    (λ _, None) (Some (lit "nameserver 10.0.0.2")) (λ l, l) (section_of_fields f)
    (λ i _, Z.of_nat i + 1).

Example test_compile_v0_1_runtime_policy_defaults :
  ∃ p, compile nothing = Ok p
    ∧ cp_unknown_tool_policy p = UNKNOWN_TOOL_ALLOW ∧ cp_resolver_error_policy p = RESOLVER_ERROR_DENY
    ∧ cp_child_scope p = CHILD_SCOPE_TOOL_ONLY ∧ cp_default_tool_policy p = DEFAULT_TOOL_ALLOW.
Proof. eexists. split; [vm_compute; reflexivity|done]. Qed.
Example test_compile_v0_1_runtime_policy_overrides :
  ∃ p, compile (policies (lit "deny") (lit "allow") (lit "protect_all_children") (lit "deny")) = Ok p
    ∧ cp_unknown_tool_policy p = UNKNOWN_TOOL_DENY ∧ cp_resolver_error_policy p = RESOLVER_ERROR_ALLOW
    ∧ cp_child_scope p = CHILD_SCOPE_ALL ∧ cp_default_tool_policy p = DEFAULT_TOOL_DENY.
Proof. eexists. split; [vm_compute; reflexivity|done]. Qed.
Example test_compile_rejects_invalid_v0_1_runtime_policy :
  is_ok (compile (yaml None None None None None None (Some (lit "maybe")))) = false.
Proof. by vm_compute. Qed.
Example test_compile_basic_config :
  ∃ p, compile (yaml (agent 12345) (Some [tool "bash" (allow [lit "/tmp"]) (deny [lit "*"]) None])
                  (Some (lit "enforce")) None None None None) = Ok p
    ∧ cp_tool_name_to_id p !! lit "bash" = Some 1 ∧ cp_mode p = MODE_ENFORCE
    ∧ cp_fs_rules p ≠ [] ∧ cp_exec_rules p ≠ [].
Proof. eexists. split; [vm_compute; reflexivity|by vm_compute]. Qed.
Example test_compile_with_net_deny_includes_dns :
  ∃ p, compile (yaml (agent 12345) (Some [tool "bash" None None (deny [lit "0.0.0.0/0"])])
                  (Some (lit "enforce")) None None None None) = Ok p
    ∧ Exists (λ r, r.2 = PERM_DENY) (cp_net_rules p)
    ∧ Forall (λ ip, Exists (λ r, nk_tool_id r.1 = 1 ∧ nk_addr r.1 = ip ∧ nk_prefixlen r.1 = 64
                                 ∧ r.2 = PERM_ALLOW) (cp_net_rules p))
        (discover_dns_resolver_ips (Some (lit "nameserver 10.0.0.2"))).
Proof.
  eexists. split; [vm_compute; reflexivity|]. split; [by apply Exists_cons_hd|].
  apply Forall_singleton, Exists_cons_tl, Exists_cons_hd. by vm_compute.
Qed.
End CompilerTests.

(** ** [config.rs] *)

Module ConfigTests.
Import CompilerTests.
Example test_parse_minimal_config :
  let c := section_of_fields (yaml (agent 1234) (Some [tool "get_weather" (allow [lit "/tmp"]) None None])
                                (Some (lit "monitor")) None None None None) in
  length (cf_agents c) = 1%nat ∧ length (cf_tools c) = 1%nat ∧ cf_mode c = lit "monitor"
  ∧ cf_unknown_tool_policy c = lit "allow" ∧ cf_resolver_error_policy c = lit "deny"
  ∧ cf_agent_child_scope c = lit "protect_only_tool_children" ∧ cf_default_tool_policy c = lit "allow".
Proof. done. Qed.
(** The asserted members are those of [default_config]. *)
Example test_parse_zero_config : section_of_fields nothing = default_config.
Proof. done. Qed.
Example test_parse_v0_1_runtime_policy_fields :
  let c := section_of_fields
    (policies (lit "deny") (lit "allow") (lit "protect_all_children") (lit "deny")) in
  cf_unknown_tool_policy c = lit "deny" ∧ cf_resolver_error_policy c = lit "allow"
  ∧ cf_agent_child_scope c = lit "protect_all_children" ∧ cf_default_tool_policy c = lit "deny".
Proof. done. Qed.
Example test_default_config :
  cf_agents default_config = [] ∧ cf_mode default_config = lit "monitor"
  ∧ cf_unknown_tool_policy default_config = lit "allow"
  ∧ cf_resolver_error_policy default_config = lit "deny"
  ∧ cf_agent_child_scope default_config = lit "protect_only_tool_children"
  ∧ cf_default_tool_policy default_config = lit "allow".
Proof. done. Qed.
Example test_parse_pid_match :
  head (cf_agents (section_of_fields (yaml (agent 1234) (Some []) None None None None None)))
  = Some {| ag_pid := Some 1234 |}.
Proof. done. Qed.
Example test_parse_full_policy :
  let c := section_of_fields (yaml (agent 1234)
    (Some [tool "bash"
       (Some {| pf_allow := Some [lit "/tmp"; lit "/home/user/workspace"];
                pf_deny := Some [lit "/etc/shadow"; lit "/etc/passwd"] |})
       (Some {| pf_allow := Some [lit "/usr/bin/grep"; lit "/usr/bin/find"];
                pf_deny := Some [lit "/usr/bin/rm"] |})
       (allow [lit "0.0.0.0/0"])])
    (Some (lit "enforce")) None None None None) in
  ∃ t, head (cf_tools c) = Some t ∧ td_name t = lit "bash" ∧ is_Some (td_fs t)
       ∧ is_Some (td_exec t) ∧ is_Some (td_net t) ∧ cf_mode c = lit "enforce".
Proof. eexists. by split_and!. Qed.
End ConfigTests.

(** ** [main.rs] *)

Module ResolverErrorStateTests.
Example resolver_error_state_clears_resolved_identity_and_preserves_lifecycle_fields :
  let ctx := mark_tool_ctx_resolver_error
    {| tc_tool_id := 0xfeedbeef; tc_generation := 2 ^ 32 - 1; tc_carrier_count := 3;
       tc_flags := Z.lor TOOL_CTX_FLAG_RESOLVED TOOL_CTX_FLAG_ASYNC_FRAME;
       tc_started_ns := 11; tc_last_seen_ns := 22 |} in
  tc_tool_id ctx = TOOL_IDLE ∧ tc_generation ctx = 0 ∧ tc_carrier_count ctx = 3
  ∧ tc_started_ns ctx = 11 ∧ tc_last_seen_ns ctx = 22
  ∧ Z.land (tc_flags ctx) TOOL_CTX_FLAG_RESOLVED = 0
  ∧ Z.land (tc_flags ctx) TOOL_CTX_FLAG_RESOLVER_ERROR ≠ 0
  ∧ Z.land (tc_flags ctx) TOOL_CTX_FLAG_ASYNC_FRAME ≠ 0.
Proof. by vm_compute. Qed.
Example resolver_error_state_is_idempotent_except_generation :
  let ctx := mark_tool_ctx_resolver_error
    {| tc_tool_id := TOOL_IDLE; tc_generation := 7; tc_carrier_count := 0;
       tc_flags := TOOL_CTX_FLAG_RESOLVER_ERROR; tc_started_ns := 0; tc_last_seen_ns := 0 |} in
  tc_tool_id ctx = TOOL_IDLE ∧ tc_generation ctx = 8 ∧ tc_flags ctx = TOOL_CTX_FLAG_RESOLVER_ERROR.
Proof. by vm_compute. Qed.

Definition candidate (code_kind ctx_id : Z) : ResolverEvent :=
  {| re_pid := 42; re_tid := 43; re_ts_ns := 99; re_kind := EVENT_RESOLVER_CANDIDATE;
     re_code_kind := code_kind; re_ctx_id := ctx_id; re_self_ptr := 0x2000; re_type_ptr := 0x3000;
     re_frame_ptr := 0x4000; re_code_ptr := 0x5000 |}.
(** The test compares field by field. *)
Example resolver_failed_event_preserves_candidate_identity :
  let ev := candidate CODE_KIND_TOOL_ROOT_LC 0x1234 in
  resolver_failed_event ev
  = {| re_pid := re_pid ev; re_tid := re_tid ev; re_ts_ns := re_ts_ns ev;
       re_kind := EVENT_RESOLVER_FAILED; re_code_kind := re_code_kind ev;
       re_ctx_id := re_ctx_id ev; re_self_ptr := re_self_ptr ev; re_type_ptr := re_type_ptr ev;
       re_frame_ptr := re_frame_ptr ev; re_code_ptr := re_code_ptr ev |}.
Proof. done. Qed.
Example speculative_ignore_candidates_do_not_emit_resolver_warning :
  should_warn_resolver_failure (candidate CODE_KIND_IGNORE 0) = false
  ∧ should_warn_resolver_failure (candidate CODE_KIND_IGNORE 0x1234) = true
  ∧ should_warn_resolver_failure (candidate CODE_KIND_TOOL_ROOT_LC 0) = true.
Proof. done. Qed.
End ResolverErrorStateTests.

(** ** [cpython.rs] *)

Module CpythonTests.
Example unsupported_profile_fails_closed :
  is_ok (for_version {| major := 3; minor := 9; micro := 18 |} 8) = false.
Proof. done. Qed.
Example resolver_profiles_are_limited_to_v0_1_supported_cpython_minor :
  Forall (λ m, is_ok (for_version {| major := 3; minor := m; micro := 0 |} 8) = false) [10; 11; 13]
  ∧ ∃ profile, for_version {| major := 3; minor := 12; micro := 3 |} 8 = Ok profile
               ∧ minor (version profile) = 12.
Proof. split; [by repeat constructor|by eexists]. Qed.
End CpythonTests.

(** ** [python_symbols.rs] *)

Module ContractTests.
Definition entry (source : string) (offset : Z) : SymbolEntry :=
  {| se_source := lit source; se_file_offset := offset;
     se_start_frame_file_offset := None; se_start_frame_extra_file_offsets := [];
     se_start_frame_offset_source := None; se_frame_reg_idx := None; se_size := None;
     se_end_return_value_file_offset := None; se_end_return_value_frame_reg_idx := None;
     se_end_return_value_offset_source := None;
     se_end_return_const_file_offset := None; se_end_return_const_frame_reg_idx := None;
     se_end_return_const_offset_source := None;
     se_end_exception_file_offset := None; se_end_exception_frame_reg_idx := None;
     se_end_exception_offset_source := None; se_yield_value_file_offset := None;
     se_resume_file_offset := None; se_resume_offset_source := None |}.
(** The entry of the evaluation loop, with the five sources of its offsets. *)
Definition eval_entry (start return_value return_const exc resume : string) : SymbolEntry :=
  {| se_source := lit "python_binary"; se_file_offset := 100;
     se_start_frame_file_offset := Some 120; se_start_frame_extra_file_offsets := [];
     se_start_frame_offset_source := Some (lit start); se_frame_reg_idx := Some 19; se_size := None;
     se_end_return_value_file_offset := Some 200; se_end_return_value_frame_reg_idx := None;
     se_end_return_value_offset_source := Some (lit return_value);
     se_end_return_const_file_offset := Some 240; se_end_return_const_frame_reg_idx := None;
     se_end_return_const_offset_source := Some (lit return_const);
     se_end_exception_file_offset := Some 280; se_end_exception_frame_reg_idx := None;
     se_end_exception_offset_source := Some (lit exc);
     se_yield_value_file_offset := None;
     se_resume_file_offset := Some 360; se_resume_offset_source := Some (lit resume) |}.

Definition contract (eval : SymbolEntry) (verification : option ContractVerification)
    : PythonContract :=
  {| pc_python := Some {| pi_implementation := lit "cpython"; pi_version := lit "3.12.3";
                          pi_arch := lit "aarch64"; pi_build_id := lit "python-build";
                          pi_sha256_fallback := lit "python-sha" |};
     pc_verification := verification;
     pc_libpython := {| lp_path := lit "/packaged/python"; lp_build_id := lit "legacy-build";
                        lp_build_id_fallback_sha256 := lit "python-sha"; lp_arch := lit "aarch64" |};
     pc_asyncio_module :=
       {| mi_path := lit "/packaged/_asyncio.so"; mi_build_id := lit "asyncio-build" |};
     pc_python_binary :=
       {| mi_path := lit "/packaged/python"; mi_build_id := lit "python-build" |};
     pc_symbols := list_to_map
       [(lit EVAL_FRAME, eval);
        (lit "_asyncio_Task___init___impl", entry "asyncio_symtab" 400);
        (lit "task_step", entry "asyncio_symtab" 440);
        (lit "task_eager_start", entry "asyncio_symtab" 480);
        (lit "PyGen_Type_tp_dealloc", entry "libpython_runtime_read" 520);
        (lit "PyCoro_Type_tp_dealloc", entry "libpython_runtime_read" 560);
        (lit "PyAsyncGen_Type_tp_dealloc", entry "libpython_runtime_read" 600)];
     pc_offsets :=
       {| om_ob_type := 8; om_co_filename := 1; om_co_name := 2; om_co_qualname := 3;
          om_co_firstlineno := 4; om_co_flags := 0; om_compact_data := 48; om_f_executable := 0;
          om_previous := 8; om_owner := 16; om_localsplus := 72; om_gi_frame_state := 176;
          om_gi_iframe := 184; om_task_state := 48; om_task_coro := 64; om_task_result := 72;
          om_current_frame := 72 |};
     pc_frame_state_values :=
       {| fv_created := -2; fv_suspended := -1; fv_executing := 0; fv_completed := 1 |};
     pc_task_state_values := {| tv_pending := 0; tv_cancelled := 1; tv_finished := 2 |};
     pc_contract_version := 2; pc_generated_ns := 1 |}.

Definition validated : SymbolEntry :=
  eval_entry "validated-test" "validated-test" "validated-test" "validated-test" "validated-test".
Definition generated : SymbolEntry :=
  eval_entry "pattern-crossjump-fanin" "pattern-return-value" "pattern-return-const"
    "pattern-exception-unwind" "pattern-bytecode-resume".
Definition verified : option ContractVerification :=
  Some {| cv_state := lit "verified"; cv_verifier := lit "test"; cv_verified_ns := 1 |}.
Definition sample_contract : PythonContract := contract validated None.

Definition detected (python_build_id python_sha256 asyncio_build_id arch : string)
    : DetectedPythonRuntime :=
  {| dr_pid := 42; dr_python_path := lit "/live/python"; dr_asyncio_path := lit "/live/_asyncio.so";
     dr_python_build_id := lit python_build_id; dr_python_sha256 := lit python_sha256;
     dr_asyncio_build_id := lit asyncio_build_id; dr_arch := lit arch |}.

Example contract_match_requires_build_ids_and_arch :
  let matches a b c d := contract_matches_detected sample_contract (detected a b c d) in
  matches "python-build" "python-sha" "asyncio-build" "aarch64" = true
  ∧ matches "other-python" "python-sha" "asyncio-build" "aarch64" = true
  ∧ matches "other-python" "other-sha" "asyncio-build" "aarch64" = false
  ∧ matches "python-build" "python-sha" "other-asyncio" "aarch64" = false
  ∧ matches "python-build" "python-sha" "asyncio-build" "x86_64" = false.
Proof. by vm_compute. Qed.
Example contract_validation_rejects_heuristic_attach_offsets :
  is_ok (validate_attach_provenance sample_contract) = true
  ∧ is_ok (validate_attach_provenance
             (contract (eval_entry "validated-test" "validated-test" "validated-test"
                          "validated-test" "aarch64-cpython312-heuristic") None)) = false.
Proof. by vm_compute. Qed.
Example runtime_loading_rejects_unverified_generated_attach_sources :
  is_ok (validate_runtime_loadable (contract generated None)) = false.
Proof. by vm_compute. Qed.
Example runtime_loading_accepts_verified_generated_attach_sources :
  is_ok (validate_runtime_loadable (contract generated verified)) = true.
Proof. by vm_compute. Qed.

(** A directory with an index of the contract. *)
Definition dir (c : PythonContract) : ContractDir :=
  {| cd_path := lit "/contracts";
     cd_index := Some (Ok {| ix_version := 1; ix_contracts :=
       [{| ie_path := lit "contract.json"; ie_python_build_id := contract_python_build_id c;
           ie_asyncio_build_id := mi_build_id (pc_asyncio_module c); ie_arch := contract_arch c;
           ie_python_version := lit "3.12.3" |}] |});
     cd_entries := Ok [Ok (lit "contract.json"); Ok (lit "index.json")];
     cd_parse := λ p, if bool_decide (p = lit "/contracts/contract.json") then Ok c else Err 0 |}.

Example load_contract_uses_index_and_rewrites_runtime_paths :
  let runtime := detected "python-build" "python-sha" "asyncio-build" "aarch64" in
  ∃ r, load_contract_for_detected (dir (contract validated verified)) runtime = Ok r
    ∧ dr_pid (rp_detected r) = dr_pid runtime
    ∧ lp_path (pc_libpython (rp_contract r)) = dr_python_path runtime
    ∧ mi_path (pc_python_binary (rp_contract r)) = dr_python_path runtime
    ∧ mi_path (pc_asyncio_module (rp_contract r)) = dr_asyncio_path runtime.
Proof. eexists. split; [vm_compute; reflexivity|by vm_compute]. Qed.
Example load_contract_fails_closed_without_matching_profile :
  is_ok (load_contract_for_detected (dir sample_contract)
           (detected "unsupported-python" "unsupported-sha" "asyncio-build" "aarch64")) = false.
Proof. by vm_compute. Qed.
End ContractTests.
